(* ===== verification/_CoqProject ===== *)
-Q . S2P
Prelude.v
ListH.v
Types.v
Data.v
CString.v
Global.v
ActiveDb.v
Depend.v
Io.v
Poll.v
Interrupt.v
Launch.v
Modules.v
Typed.v
ServiceMod.v
DaemonMod.v
Control.v
HookMods.v
HookProps.v
LogMods.v
LogProps.v
NgeMod.v
Main.v
TaskMod.v
RunlevelMod.v
ServiceFile.v
Hooks.v
HookTyped.v
Ngcs.v
NgcWire.v
Ngc4Mod.v
NgcTyped.v
System.v
Reload.v
EventType.v
NgcsConn.v
NgeClient.v
NgeText.v
NgeProps.v
NgeHears.v
NgcClient.v
NgcText.v
NgcProps.v
Examples.v
Boot.v
Witness.v
ModWitness.v
ControlWitness.v
HookWitness.v
LogWitness.v
NgeWitness.v
NgcWitness.v
