(* ===== verification/Prelude.v ===== *)
(** * A verification development for initng

    initng is an init system: process 1 of a machine, which starts and stops
    services in the order of their dependencies.  Its core (src/src/main) keeps
    a database of services, moves each through the states its type defines,
    checks dependencies, launches and reaps processes, and runs timeouts;
    service types and everything else are modules (src/src/modules) that the
    core calls through function pointers and events.  Paths below are relative
    to src/src/main, or src/include/initng for headers, unless they say
    modules/.

    ** The parts and how they are modelled

    - [Prelude]: the return codes of misc.h, the state-and-error monad
      [M S A := S -> outcome (A * S)] all stateful code is written in, record
      update, and the frame lemmas ([steps R m]: every run of [m] stays in the
      preorder [R]) with the hint database [steps].  An outcome is [Done], a
      [Fault] (a bad access: a dangling pointer, an index outside a block) or
      [NoFuel].
    - [ListH]: list.h on a heap of links.  The other files use Rocq lists in
      the order in which the program's reverse walks reach the entries; the
      theorems of [ListH] justify that.
    - [Types], [Data]: the structs and enums; the typed variables of a service
      (data/).  Statically allocated structs carry their address, so pointer
      comparison stays pointer comparison.
    - [CString]: string/, hash/, config/opt.c, env/match.c,
      common/blacklist.c, on characters in memory with their terminator where
      it matters.
    - [Global]: the struct [g] (config/global.h) as the record [s_global],
      events and hooks (event/), the callers of modules (module_callers/), the
      registries (active_state/, service/, process_db/type.c, static/), and the
      two interfaces to what is not modelled: the class [Callbacks] (the code
      behind function pointers) and the class [Sys] (the answers of the kernel,
      by the number of the call).
    - [ActiveDb]: active_db/, process_db/, common/state.c.  Services are
      allocated structs in [g_heap]; [g_active_db] and [g_interrupt] are the
      lists through them.  The invariant is [wf]; [db_step] is the database as
      a state machine.
    - [Depend]: depend/ and handler/.  Interfaces: [DepHooks] (hooks of
      EVENT_DEP_ON only look), [StartFunctions] and [StopFunctions] (what a
      service type promises of its start and stop functions).
    - [Io]: io/read_input.c and io/pipe.c, with the buffer of a pipe as a block
      of memory.
    - [Poll]: io/poll.c, with select as an answer of the class [PollSys].
    - [Interrupt]: interrupt/, signal/, kill/, execute/, handler/run_alarm.c,
      main/start_extra_services.c and the clock, the alarm and the sleep time of
      the loop in frontend/main.c.  Interface: [AlarmFunctions].
    - [Launch]: fork/, env/new.c and modules/simple_launcher: pipes, the retried
      fork, what the child does up to execve (a value, [child_end]), the
      environment, the command line.
    - [Modules]: module/, with the shared objects behind [ModuleSys] and the
      functions of modules behind [ModuleCode].
    - [ServiceMod], [DaemonMod], [TaskMod], [RunlevelMod]: the modules service,
      daemon, task and runlevel, which define the types of services.
      [ServiceMod] implements [StartFunctions], [StopFunctions] and
      [AlarmFunctions] and ties the knot between the core and the functions of
      the module ([service_callbacks]).
    - [ServiceFile]: modules/service_file, which reads services from files
      through parse processes.
    - [Control]: command/, modules/stcmd and modules/initctl.
    - [HookMods]: the modules conflict, also, last, synchron, fstat, ctrlaltdel,
      lockfile, daemon_clean, interactive, unneeded, chdir, chroot, renice, suid,
      limit, pause and provide; [HookProps] has theorems about them.
    - [LogMods], [LogProps]: the modules history, syslog, logfile and netdev.
    - [NgeMod]: modules/nge/initng_nge.c, which tells listeners on a socket of
      every change, as text in tags; [NgeClient]: the library and the programs at
      the other end, which turn the text back into events.  [NgeText] has the
      lemmas about the markup, [NgeProps] the theorems about the client,
      [NgeHears] those about both ends together.
    - [NgcWire], [Ngc4Mod], [NgcClient]: modules/ngc4: the structs of the control
      protocol as bytes (initng_ngc4.h), the server inside initng
      (initng_ngc4.c, with the classes [ReplyCode] for commands of other modules
      that reply with data and [Ngc4Sys] for the kernel), and the library and
      program at the other end (libngcclient.c, ngc4.c).  [NgcText] has the
      lemmas about the printed tables, [NgcProps] the theorems about both ends.
    - [Main]: main(), options and main/: the program as a whole.
    - [Typed]: a type discipline for the system, generic in the modules ([Typing]
      says which states and processes a type allows, [TypedCallbacks] what the
      functions of modules promise), with [kept m]: [m] keeps it.  [Hooks] and
      [HookTyped] discharge it for the launcher, service files, polling, modules,
      commands, main and the modules that hook events, [NgcTyped] for the control
      clients; [System] puts 30 modules together, dispatches the addresses of
      their functions, and has the step relation [main_step], in which the
      socket of ngc4 has steps of its own.
    - [Reload]: modules/reload, the two file formats.
    - [EventType]: event/type.c on linked memory.
    - [Ngcs], [NgcsConn]: the wire format, and connections and channels, of
      modules/ngcs/ngcs_common.c.
    - [Examples]: a builder for concrete databases, runs of the whole model;
      [Boot]: one run of the program from boot to power-off.
    - [Witness], [ModWitness], [ControlWitness], [HookWitness], [LogWitness],
      [NgeWitness], [NgcWitness]: for each theorem with hypotheses, an instance in which they
      hold.

    ** What the theorems show

    - The whole system (C1, C2): services stay within the states and
      processes of their type, in every state that the parts of the system can
      reach and in every round of main.
    - Dependencies (C3-C6, C9, C35): the start and stop checks refine a
      specification by list search, cache included; starting terminates for
      acyclic dependencies and does not for circular ones; stop_all reaches
      everything, whatever the hooks of the change of the system did before; the deep search is sound and finds chains of two links.
    - The database (C7, C8): state changes are atomic under locks; reachable
      databases are well formed.
    - Driving (C11-C16, C36): what follows the death of a process, on every
      branch; respawns; alarms are never slept over; buffers are never left; what
      is polled; what a change of the runlevel stops.
    - Processes and files (C10, C24, C29, C30): the descriptors of a child; a
      launch runs the command of the service, unless a hook in the child fails or
      the environment overruns its block; variables that a parse process sets are read back, and finished
      services are not edited.
    - Modules and the end (C25, C28): needed modules stay, init ends.
    - Messages and reloading (C17, C23, C31, C32): the message format and a
      connection round trip, for callbacks that may free their channel
      ([ConnHooks], which those of the server of ngcs satisfy), unpacking is safe on any input, a hot reload
      restores the services.
    - Listeners (C18, C19, C27, C39): whoever listens hears every change that
      reaches the hooks of the module, in order, however the kernel cuts the
      text (output of services and error messages apart); and where that ends:
      an end tag that is cut, a socket that is opened again.
    - Control clients (C20-C22, C40): a request runs its command and the client
      gets what it gave; the status of the services as it is printed; listings
      stay in their arrays; and a request that takes initng down.
    - Modules that hook events (C33, C34): conflicts and syncron strings hold
      services back.
    - Records (C26): the log reads services that were freed.
    - Strings and the hash (C37, C38).

    Theorems without a number are about the same parts: lists on linked memory
    (ListH), event types, variables, further branches and deviations, and runs of
    the whole program from boot to power-off ([Boot], [Examples]).  Where the
    code deviates from what its comments say the theorem states what the code
    does.

    ** Fuel

    Loops over a list that the body may change, and recursion through the
    dependencies, take fuel.  A theorem that something returns gives the
    amount: the length of the database or of the list of variables for one
    loop, rank plus length for the recursive start, 12 levels for the deep
    search (the code stops after 10).  [circular_start_never_returns] is about
    every amount.  The callbacks of the system are nested to a depth [n], about
    which the theorems of [System] quantify; main runs a number of rounds.
    [Fault] and [NoFuel] are never results of a theorem that says [Done].

    ** What is not modelled

    Output of messages (P_, F_, W_, D_) and allocation failures (the toolbox
    retries or aborts); assertions; the kernel, the loader of shared objects,
    sockets and terminals, whose answers are parameters; calls that block (select and recv
    answer); the builds CHECK_RO, DEBUG, SELINUX, GLOBAL_SOCKET, EXTRA_SURE and
    HAVE_NGE; the fifo and the utmp records of
    initctl; the modules critical, fmon, idleprobe and sysreq, and those for
    output and remote control (cpout, stdout, dbus_event,
    debug_commands, the server and client of ngcs); the separate programs
    (preinit, tools).  Integers are unbounded where the code counts services,
    variables or seconds, and have their width in the hash, in the wire format, in
    pid files and in limits. *)
From stdpp Require Import prelude gmap strings.
From Stdlib Require Import ZArith Lia Ascii String.

Local Open Scope Z_scope.

(** ** C constants of include/initng/misc.h *)

Definition TRUE : Z := 1.
Definition FALSE : Z := 0.
Definition FAIL : Z := -1.
Definition CLEAN_DELAY : Z := 60.

(** A C truth value: everything but zero is true. *)
Definition c_true (z : Z) : bool := negb (z =? 0).

(** The result of a C comparison. *)
Definition of_bool (b : bool) : Z := if b then TRUE else FALSE.

(** ** Outcomes and the state monad

    [Done] is a call that returned, [NoFuel] one whose recursion was cut off by
    the fuel of the model, and [Fault] one that met undefined behaviour: a
    dangling pointer, a failed [assert], a read outside an object. *)
Inductive outcome (A : Type) : Type :=
| Done (a : A)
| NoFuel
| Fault.
Arguments Done {A} a.
Arguments NoFuel {A}.
Arguments Fault {A}.

Definition M (S A : Type) : Type := S -> outcome (A * S).

Definition mpure {S A} (a : A) : M S A := fun s => Done (a, s).

Definition mthen {S A B} (m : M S A) (k : A -> M S B) : M S B := fun s =>
  match m s with
  | Done (a, s') => k a s'
  | NoFuel => NoFuel
  | Fault => Fault
  end.

(** Read a part of the state, update the state, stop with a fault or because
    the fuel is used up. *)
Definition asks {S A} (f : S -> A) : M S A := fun s => Done (f s, s).
Definition modify {S} (f : S -> S) : M S unit := fun s => Done (tt, f s).
Definition fault {S A} : M S A := fun _ => Fault.
Definition nofuel {S A} : M S A := fun _ => NoFuel.

(** Dereference a pointer that must be valid. *)
Definition deref {S A} (f : S -> option A) : M S A := fun s =>
  match f s with Some a => Done (a, s) | None => Fault end.

Declare Scope c_scope.
Delimit Scope c_scope with c.
#[global] Open Scope c_scope.

Notation "'let!' x ':=' m 'in' k" := (mthen m (fun x => k))
  (at level 10, x pattern, m at level 200, k at level 200) : c_scope.
Notation "m ';;;' k" := (mthen m (fun _ => k))
  (at level 199, right associativity) : c_scope.

(** A loop over a list that the body leaves alone; [Some r] is a [return r]
    from inside the body. *)
Fixpoint for_each {S A R} (l : list A) (body : A -> M S (option R)) : M S (option R) :=
  match l with
  | [] => mpure None
  | x :: l' =>
    let! r := body x in
    match r with
    | Some v => mpure (Some v)
    | None => for_each l' body
    end
  end.

(** ** Record update *)

Class Setter {R T : Type} (p : R -> T) := setf : (T -> T) -> R -> R.
Arguments setf {R T} p {_} _ _.

(** [build_setter eta p] builds the update of field [p] from the eta expansion
    [eta] of the record. *)
Ltac build_setter etaT p :=
  let e := eval unfold etaT in etaT in
  let e' := eval pattern p in e in
  lazymatch e' with ?f _ => exact (fun g r => f (fun x => g (p x)) r) end.

Notation "x <| p := v |>" := (setf p (fun _ => v) x)
  (at level 1, left associativity, p at level 99, v at level 200) : c_scope.

(** ** Relations kept by a computation

    [steps R m]: whenever [m] returns, its initial and final states are related
    by [R].  With a preorder [R] this composes along sequencing and loops; an
    invariant [I] is the preorder [keeps I]. *)
Definition steps {S A} (R : S -> S -> Prop) (m : M S A) : Prop :=
  forall s a s', m s = Done (a, s') -> R s s'.

Definition keeps {S} (I : S -> Prop) : S -> S -> Prop := fun s s' => I s -> I s'.

#[export] Instance keeps_preorder {S} (I : S -> Prop) : PreOrder (keeps I).
Proof. split; unfold keeps; [intros s | intros s1 s2 s3]; auto. Qed.

Create HintDb steps.

Section steps_rules.
Context {S : Type} (R : S -> S -> Prop) `{!PreOrder R}.

Lemma steps_pure {A} (a : A) : steps R (mpure a).
Proof. intros s b s' [= <- <-]. reflexivity. Qed.

Lemma steps_asks {A} (f : S -> A) : steps R (asks f).
Proof. intros s b s' [= <- <-]. reflexivity. Qed.

Lemma steps_fault {A} : steps R (@fault S A).
Proof. intros s b s' [=]. Qed.

Lemma steps_nofuel {A} : steps R (@nofuel S A).
Proof. intros s b s' [=]. Qed.

Lemma steps_deref {A} (f : S -> option A) : steps R (deref f).
Proof. intros s b s'. unfold deref. destruct (f s); intros [=]; subst. reflexivity. Qed.

Lemma steps_modify (f : S -> S) : (forall s, R s (f s)) -> steps R (modify f).
Proof. intros Hf s b s' [= <- <-]. apply Hf. Qed.

Lemma steps_then {A B} (m : M S A) (k : A -> M S B) :
  steps R m -> (forall a, steps R (k a)) -> steps R (mthen m k).
Proof.
  intros Hm Hk s b s'. unfold mthen. destruct (m s) as [[a s1]| |] eqn:E; intros H; try done.
  etransitivity; [exact (Hm _ _ _ E) | exact (Hk _ _ _ _ H)].
Qed.

Lemma steps_for_each {A T} (l : list A) (body : A -> M S (option T)) :
  (forall x, steps R (body x)) -> steps R (for_each l body).
Proof.
  intros Hb. induction l as [|x l IH]; simpl; [apply steps_pure|].
  apply steps_then; [apply Hb|]. intros [v|]; [apply steps_pure | exact IH].
Qed.

End steps_rules.

#[export] Hint Resolve steps_pure steps_asks steps_fault steps_nofuel steps_deref : steps.

(** One structural step of a [steps] goal: sequencing, loops, and case analysis
    on what the code branches on. *)
Ltac steps_step :=
  match goal with
  | |- forall _, steps _ _ => intro
  | |- steps _ (mthen _ _) => apply steps_then; [exact _| |]
  | |- steps _ (for_each _ _) => apply steps_for_each; [exact _|]
  | |- steps _ (if ?b then _ else _) => destruct b
  | |- steps _ (match ?x with _ => _ end) => destruct x
  | |- steps _ _ => solve [eauto with steps typeclass_instances]
  end.
Ltac steps_auto := repeat steps_step.

(** Take a [Done] result of a sequence apart. *)
Lemma mthen_Done {S A B} (m : M S A) (k : A -> M S B) s b s' :
  mthen m k s = Done (b, s') ->
  exists a s1, m s = Done (a, s1) /\ k a s1 = Done (b, s').
Proof. unfold mthen. destruct (m s) as [[a s1]| |]; naive_solver. Qed.

Lemma mthen_run {S A B} (m : M S A) (k : A -> M S B) s a s1 :
  m s = Done (a, s1) -> mthen m k s = k a s1.
Proof. unfold mthen. by intros ->. Qed.

(** One step of a sequence, by the form of its first command. *)
Lemma then_then {S A B C} (m : M S A) (k : A -> M S B) (h : B -> M S C) s :
  mthen (mthen m k) h s = mthen m (fun a => mthen (k a) h) s.
Proof. unfold mthen. by destruct (m s) as [[a s']| |]. Qed.

Lemma then_asks {S A B} (f : S -> A) (k : A -> M S B) s : mthen (asks f) k s = k (f s) s.
Proof. done. Qed.

Lemma then_modify {S B} (f : S -> S) (k : unit -> M S B) s : mthen (modify f) k s = k tt (f s).
Proof. done. Qed.

Lemma then_pure {S A B} (a : A) (k : A -> M S B) s : mthen (mpure a) k s = k a s.
Proof. done. Qed.

Lemma then_deref {S A B} (f : S -> option A) (k : A -> M S B) s a :
  f s = Some a -> mthen (deref f) k s = k a s.
Proof. intros H. unfold mthen, deref. by rewrite H. Qed.

Ltac run_inv :=
  repeat match goal with
  | H : mthen _ _ _ = Done _ |- _ =>
    let a := fresh "a" in let s := fresh "s" in let E := fresh "E" in
    apply mthen_Done in H; destruct H as (a & s & E & H)
  | H : mpure _ _ = Done _ |- _ => unfold mpure in H; simplify_eq
  | H : asks _ _ = Done _ |- _ => unfold asks in H; simplify_eq
  | H : modify _ _ = Done _ |- _ => unfold modify in H; simplify_eq
  | H : fault _ = Done _ |- _ => discriminate H
  | H : nofuel _ = Done _ |- _ => discriminate H
  end.

(** ** Lists searched and filtered by a boolean test *)

Lemma find_split {A} (f : A -> bool) l x :
  List.find f l = Some x ->
  exists l1 l2, l = l1 ++ x :: l2 /\ List.filter f l1 = [] /\ f x = true.
Proof.
  induction l as [|y l IH]; simpl; [done|]. destruct (f y) eqn:E; intros H.
  - simplify_eq. by exists [], l.
  - destruct (IH H) as (l1 & l2 & -> & Hf & ?). exists (y :: l1), l2. simpl. by rewrite E.
Qed.

Lemma find_filter_nil {A} (f : A -> bool) l : List.find f l = None <-> List.filter f l = [].
Proof. induction l as [|y l IH]; simpl; [done|]. by destruct (f y). Qed.

Lemma filter_app_nil {A} (f : A -> bool) l1 l2 :
  List.filter f l1 = [] -> List.filter f (l1 ++ l2) = List.filter f l2.
Proof. intros H. by rewrite List.filter_app, H. Qed.

Lemma find_map_stable {A} (f : A -> bool) (g : A -> A) l :
  (forall x, f (g x) = f x) -> List.find f (map g l) = g <$> List.find f l.
Proof. intros H. induction l as [|y l IH]; simpl; [done|]. rewrite H. by destruct (f y). Qed.

Lemma find_insert_mid {A} (f : A -> bool) l1 c l2 :
  List.find f (l1 ++ l2) = None -> f c = true -> List.find f (l1 ++ c :: l2) = Some c.
Proof.
  induction l1 as [|y l1 IH]; simpl; [by intros _ ->|]. by destruct (f y).
Qed.

Lemma find_insert_skip {A} (f : A -> bool) l1 c l2 :
  f c = false -> List.find f (l1 ++ c :: l2) = List.find f (l1 ++ l2).
Proof. intros Hc. induction l1 as [|y l1 IH]; simpl; [by rewrite Hc|]. by destruct (f y). Qed.

Lemma filter_negb_split {A} (f : A -> bool) l1 x l2 :
  List.filter f l1 = [] -> f x = true ->
  List.filter (fun y => negb (f y)) (l1 ++ x :: l2) = l1 ++ List.filter (fun y => negb (f y)) l2.
Proof.
  intros H Hx. induction l1 as [|y l1 IH]; simpl in *; [by rewrite Hx|].
  destruct (f y); [done|]. simpl. by rewrite IH.
Qed.

Lemma find_filter_negb {A} (f : A -> bool) l :
  List.find f (List.filter (fun y => negb (f y)) l) = None.
Proof. induction l as [|y l IH]; simpl; [done|]. destruct (f y) eqn:E; simpl; [|rewrite E]; done. Qed.

Lemma filter_filter_and {A} (f h : A -> bool) l :
  List.filter f (List.filter h l) = List.filter (fun x => h x && f x) l.
Proof.
  induction l as [|x l IH]; simpl; [done|]. destruct (h x); simpl; [|done].
  destruct (f x); by rewrite IH.
Qed.

(** ** Walks along a list of addresses *)

(** The entry the walk reaches after [s]; [None] when [s] has left the list, so
    that its links are not those of the list any more. *)
Fixpoint next_of (s : positive) (l : list positive) : option (option positive) :=
  match l with
  | [] => None
  | x :: l' => if Pos.eqb x s then Some (head l') else next_of s l'
  end.

Lemma next_of_mid l1 s l2 : NoDup (l1 ++ s :: l2) -> next_of s (l1 ++ s :: l2) = Some (head l2).
Proof.
  induction l1 as [|x l1 IH]; simpl; intros Hnd; [by rewrite Pos.eqb_refl|].
  apply NoDup_cons in Hnd as [Hx Hnd]. destruct (Pos.eqb_spec x s); [set_solver|by apply IH].
Qed.
