(* ===== verification/ListH.v ===== *)
(** * The intrusive doubly linked list of include/initng/list.h

    A [list_t] is a pair of pointers embedded in a struct; a list is circular
    and goes through the [list_t] of its head.  The heap keeps the two pointer
    fields of every [list_t] by address; [None] is the null pointer.  The
    theorems say that the operations refine operations on Rocq lists, which is
    how the other files represent every list of the program. *)
From S2P Require Import Prelude.
From stdpp Require Import prelude gmap.
Local Open Scope Z_scope.

(** ** The heap of [list_t] structs *)

Record heap := Heap {
  nextp : gmap positive (option positive);
  prevp : gmap positive (option positive)
}.
Definition eta_heap (h : heap) := Heap (nextp h) (prevp h).
#[export] Instance set_nextp : Setter nextp := ltac:(build_setter eta_heap nextp).
#[export] Instance set_prevp : Setter prevp := ltac:(build_setter eta_heap prevp).

(** Reads and writes of [p->next] and [p->prev]. *)
Definition ld_next (p : positive) : M heap (option positive) := deref (fun h => nextp h !! p).
Definition ld_prev (p : positive) : M heap (option positive) := deref (fun h => prevp h !! p).
Definition st_next (p : positive) (v : option positive) : M heap unit :=
  ld_next p ;;; modify (fun h => h <| nextp := <[p := v]> (nextp h) |>).
Definition st_prev (p : positive) (v : option positive) : M heap unit :=
  ld_prev p ;;; modify (fun h => h <| prevp := <[p := v]> (prevp h) |>).
Definition nonnull (o : option positive) : M heap positive := deref (fun _ => o).

(** ** The operations *)

Definition initng_list_init (l : positive) : M heap unit :=
  st_next l (Some l) ;;;
  st_prev l (Some l).

Definition initng_list_add (newe head : positive) : M heap unit :=
  let! n := ld_next newe in
  let! p := ld_prev newe in
  if bool_decide (is_Some n \/ is_Some p) then mpure tt
  else
    let! hn := ld_next head in
    let! hn := nonnull hn in
    st_prev hn (Some newe) ;;;
    let! hn := ld_next head in
    st_next newe hn ;;;
    st_prev newe (Some head) ;;;
    st_next head (Some newe).

Definition initng_list_add_tail (newe head : positive) : M heap unit :=
  let! n := ld_next newe in
  let! p := ld_prev newe in
  if bool_decide (is_Some n \/ is_Some p) then mpure tt
  else
    let! hp := ld_prev head in
    let! hp := nonnull hp in
    st_next hp (Some newe) ;;;
    st_prev head (Some newe) ;;;
    st_next newe (Some head) ;;;
    let! hp := ld_prev head in
    st_prev newe hp.

Definition initng_list_del (entry : positive) : M heap unit :=
  let! n := ld_next entry in
  let! p := ld_prev entry in
  if bool_decide (is_Some n \/ is_Some p) then
    let! n := nonnull n in
    st_prev n p ;;;
    let! p := ld_prev entry in
    let! n := ld_next entry in
    let! p := nonnull p in
    st_next p n ;;;
    st_next entry None ;;;
    st_prev entry None
  else mpure tt.

Definition initng_list_move (l head : positive) : M heap unit :=
  initng_list_del l ;;; initng_list_add l head.

Definition list_move_tail (l head : positive) : M heap unit :=
  initng_list_del l ;;; initng_list_add_tail l head.

Definition initng_list_isempty (l : positive) : M heap bool :=
  let! n := ld_next l in mpure (bool_decide (n = Some l)).

Definition initng_list_join (l head : positive) : M heap unit :=
  let! e := initng_list_isempty l in
  if e then mpure tt
  else
    let! first := ld_next l in
    let! last := ld_prev l in
    let! at_ := ld_next head in
    let! first := nonnull first in
    st_prev first (Some head) ;;;
    st_next head (Some first) ;;;
    let! last := nonnull last in
    st_next last at_ ;;;
    let! at_ := nonnull at_ in
    st_prev at_ (Some last) ;;;
    initng_list_init l.

(** The walking macros.  The result is the trace of the entries on which the
    body was run, in order. *)
Fixpoint foreach_from (fuel : nat) (step : positive -> M heap (option positive))
    (head : positive) (pos : option positive) (body : positive -> M heap unit)
    : M heap (list positive) :=
  match fuel with
  | O => nofuel
  | S fuel =>
    let! pos := nonnull pos in
    if bool_decide (pos = head) then mpure []
    else
      body pos ;;;
      let! pos' := step pos in
      let! tr := foreach_from fuel step head pos' body in
      mpure (pos :: tr)
  end.

Definition initng_list_foreach (fuel : nat) (head : positive) (body : positive -> M heap unit) :=
  let! pos := ld_next head in foreach_from fuel ld_next head pos body.

Definition initng_list_foreach_rev (fuel : nat) (head : positive) (body : positive -> M heap unit) :=
  let! pos := ld_prev head in foreach_from fuel ld_prev head pos body.

(** The safe walk reads the successor [n] before the body runs on [pos]. *)
Fixpoint foreach_safe_from (fuel : nat) (step : positive -> M heap (option positive))
    (head : positive) (pos n : option positive) (body : positive -> M heap unit)
    : M heap (list positive) :=
  match fuel with
  | O => nofuel
  | S fuel =>
    let! p := nonnull pos in
    if bool_decide (p = head) then mpure []
    else
      body p ;;;
      let! q := nonnull n in
      let! n' := step q in
      let! tr := foreach_safe_from fuel step head n n' body in
      mpure (p :: tr)
  end.

Definition initng_list_foreach_rev_safe (fuel : nat) (head : positive) (body : positive -> M heap unit) :=
  let! pos := ld_prev head in
  let! p := nonnull pos in
  let! n := ld_prev p in
  foreach_safe_from fuel ld_prev head pos n body.

(** ** Representation of a circular list *)

(** [seg h a l b]: from [a], following [next], come the entries [l] and then
    [b]; the [prev] pointers go back the same way. *)
Fixpoint seg (h : heap) (a : positive) (l : list positive) (b : positive) : Prop :=
  match l with
  | [] => nextp h !! a = Some (Some b) /\ prevp h !! b = Some (Some a)
  | x :: l => nextp h !! a = Some (Some x) /\ prevp h !! x = Some (Some a) /\ seg h x l b
  end.

Definition is_list (h : heap) (head : positive) (l : list positive) : Prop :=
  NoDup (head :: l) /\ seg h head l head.

(** A [list_t] that is on no list: zeroed memory, or just deleted. *)
Definition unlinked (h : heap) (x : positive) : Prop :=
  nextp h !! x = Some None /\ prevp h !! x = Some None.

(** Two heaps agree on every [list_t] that is not in [xs]. *)
Definition same_outside (xs : list positive) (h h' : heap) : Prop :=
  forall p, p ∉ xs -> nextp h' !! p = nextp h !! p /\ prevp h' !! p = prevp h !! p.

(** ** Facts on segments *)

Section seg_facts.
Implicit Types (h : heap) (l : list positive).

(** The pointers a segment reads: [next] of [a] and of its entries, [prev] of
    its entries and of [b]. *)
Lemma seg_ext h h' a l b :
  (forall p, p = a \/ p ∈ l -> nextp h' !! p = nextp h !! p) ->
  (forall p, p ∈ l \/ p = b -> prevp h' !! p = prevp h !! p) ->
  seg h a l b -> seg h' a l b.
Proof.
  revert a. induction l as [|x l IH]; simpl; intros a Hn Hp Hs.
  - rewrite Hn, Hp by auto. done.
  - destruct Hs as (H1 & H2 & H3). rewrite Hn, Hp by set_solver.
    split; [done|]. split; [done|]. apply IH; [| |done]; intros p ?.
    + apply Hn. set_solver.
    + apply Hp. set_solver.
Qed.

Lemma seg_app h a l1 x l2 b :
  seg h a (l1 ++ x :: l2) b <-> seg h a l1 x /\ seg h x l2 b.
Proof. revert a. induction l1 as [|y l1 IH]; simpl; intros a; [tauto|]. rewrite IH. tauto. Qed.

Lemma seg_next_first h a l b : seg h a l b -> nextp h !! a = Some (Some (hd b l)).
Proof. destruct l; simpl; tauto. Qed.

Lemma seg_prev_last h a l b : seg h a l b -> prevp h !! b = Some (Some (default a (list.last l))).
Proof.
  revert a. induction l as [|x l IH]; simpl; intros a; [tauto|].
  intros (_ & _ & H). rewrite (IH x H), last_cons. by destruct (list.last l).
Qed.

Lemma seg_prev_first h a l b : seg h a l b -> prevp h !! hd b l = Some (Some a).
Proof. destruct l; simpl; tauto. Qed.

Lemma seg_next_last h a l b : seg h a l b -> nextp h !! default a (list.last l) = Some (Some b).
Proof.
  revert a. induction l as [|x l IH]; simpl; intros a; [tauto|].
  intros (_ & _ & H). rewrite <- (IH x H), last_cons. by destruct (list.last l).
Qed.

(** A segment keeps its shape when its start is replaced and its first entry
    is relinked to the new start. *)
Lemma seg_restart h h' a a' l b :
  seg h a l b -> NoDup l -> b ∉ l ->
  nextp h' !! a' = Some (Some (hd b l)) -> prevp h' !! hd b l = Some (Some a') ->
  (forall p, p ∈ l -> nextp h' !! p = nextp h !! p) ->
  (forall p, p <> hd b l -> p ∈ l \/ p = b -> prevp h' !! p = prevp h !! p) ->
  seg h' a' l b.
Proof.
  destruct l as [|y l]; simpl; [tauto|].
  intros (_ & _ & Hs) Hnd Hb Hn Hp Hns Hps. split; [done|]. split; [done|].
  apply NoDup_cons in Hnd as [Hy _]. revert Hs. apply seg_ext; intros p Hin.
  - apply Hns. set_solver.
  - apply Hps; set_solver.
Qed.

(** Every entry of a list has both pointers set. *)
Lemma seg_linked h a l b x :
  seg h a l b -> x ∈ l ->
  (exists n, nextp h !! x = Some (Some n)) /\ (exists p, prevp h !! x = Some (Some p)).
Proof.
  intros Hs Hx. apply list_elem_of_split in Hx as (l1 & l2 & ->).
  apply seg_app in Hs as (H1 & H2). split.
  - exists (hd b l2). by apply seg_next_first in H2.
  - exists (default a (list.last l1)). by apply seg_prev_last in H1.
Qed.

End seg_facts.

(** ** Running the operations *)

Lemma ld_next_run (h : heap) p v : nextp h !! p = Some v -> ld_next p h = Done (v, h).
Proof. unfold ld_next, deref. by intros ->. Qed.

Lemma ld_prev_run (h : heap) p v : prevp h !! p = Some v -> ld_prev p h = Done (v, h).
Proof. unfold ld_prev, deref. by intros ->. Qed.

Lemma st_next_run (h : heap) p v w :
  nextp h !! p = Some w -> st_next p v h = Done (tt, Heap (<[p := v]> (nextp h)) (prevp h)).
Proof. intros H. unfold st_next. by rewrite (mthen_run _ _ _ _ _ (ld_next_run _ _ _ H)). Qed.

Lemma st_prev_run (h : heap) p v w :
  prevp h !! p = Some w -> st_prev p v h = Done (tt, Heap (nextp h) (<[p := v]> (prevp h))).
Proof. intros H. unfold st_prev. by rewrite (mthen_run _ _ _ _ _ (ld_prev_run _ _ _ H)). Qed.

(** Execute the first statement of a sequence. *)
Ltac lookup_tac := simpl in *; simplify_map_eq; eauto.
Ltac exec1 :=
  first
  [ erewrite mthen_run by (apply ld_next_run; lookup_tac)
  | erewrite mthen_run by (apply ld_prev_run; lookup_tac)
  | erewrite mthen_run by (eapply st_next_run; lookup_tac)
  | erewrite mthen_run by (eapply st_prev_run; lookup_tac)
  | erewrite mthen_run by (unfold nonnull, deref; simpl; reflexivity)
  | erewrite st_next_run by lookup_tac
  | erewrite st_prev_run by lookup_tac ].
Ltac exec := repeat (exec1; cbn [nextp prevp]).

Lemma initng_list_add_run h head l x :
  is_list h head l -> x ∉ head :: l -> unlinked h x ->
  exists h', initng_list_add x head h = Done (tt, h') /\
    is_list h' head (x :: l) /\ same_outside (x :: head :: l) h h'.
Proof.
  intros [Hnd Hs] Hx [Hn Hp]. unfold initng_list_add.
  assert (x <> head) by set_solver. pose proof (seg_next_first _ _ _ _ Hs) as Hf.
  pose proof (seg_prev_first _ _ _ _ Hs) as Hl.
  assert (hd head l <> x) by (destruct l; set_solver).
  exec. rewrite bool_decide_eq_false_2 by (intros [[??]|[??]]; done).
  exec. eexists. split; [reflexivity|]. split; [split|].
  - apply NoDup_cons in Hnd as [? ?]. apply NoDup_cons; split; [set_solver|].
    apply NoDup_cons. set_solver.
  - simpl. split; [by simplify_map_eq|]. split; [by simplify_map_eq|].
    apply NoDup_cons in Hnd as [Hh Hnd].
    apply (seg_restart h _ head); simpl; [done|done|done|by simplify_map_eq..| |].
    + intros p Hin. rewrite !lookup_insert_ne by set_solver. done.
    + intros p Hne Hin. rewrite !lookup_insert_ne by set_solver. done.
  - intros p Hp'. simpl. rewrite !lookup_insert_ne; [done|..]; try set_solver.
    destruct l; set_solver.
Qed.

(** Adding an entry that is already on some list does nothing. *)
Lemma initng_list_add_linked h head x n p :
  nextp h !! x = Some n -> prevp h !! x = Some p -> is_Some n \/ is_Some p ->
  initng_list_add x head h = Done (tt, h).
Proof. intros. unfold initng_list_add. exec. by rewrite bool_decide_eq_true_2. Qed.

Lemma initng_list_del_run h head l1 x l2 :
  is_list h head (l1 ++ x :: l2) ->
  exists h', initng_list_del x h = Done (tt, h') /\
    is_list h' head (l1 ++ l2) /\ unlinked h' x /\ same_outside (head :: l1 ++ x :: l2) h h'.
Proof.
  intros [Hnd Hs]. apply seg_app in Hs as [H1 H2].
  pose proof (seg_next_first _ _ _ _ H2) as Hxn. pose proof (seg_prev_last _ _ _ _ H1) as Hxp.
  pose proof (seg_prev_first _ _ _ _ H2) as Hnp. pose proof (seg_next_last _ _ _ _ H1) as Hpn.
  set (nx := hd head l2) in *. set (pv := default head (list.last l1)) in *.
  assert (nx <> x) by (apply NoDup_cons in Hnd as [Hh Hnd]; apply NoDup_app in Hnd as (_ & _ & Hnd);
    apply NoDup_cons in Hnd as [??]; subst nx; destruct l2; set_solver).
  assert (Hpv : pv = head \/ pv ∈ l1).
  { subst pv. destruct (list.last l1) as [z|] eqn:E; simpl; [right|by left].
    apply last_Some in E as [? ->]. set_solver. }
  assert (Hnx : nx = head \/ nx ∈ l2) by (subst nx; destruct l2; set_solver).
  assert (pv <> x) by (rewrite NoDup_cons, NoDup_app, NoDup_cons in Hnd; set_solver).
  unfold initng_list_del. exec. rewrite bool_decide_eq_true_2 by eauto. exec.
  eexists. split; [reflexivity|]. split; [split|split].
  - rewrite !NoDup_cons, !NoDup_app, ?NoDup_cons in *. set_solver.
  - rewrite NoDup_cons, NoDup_app, NoDup_cons in Hnd.
    destruct Hnd as (Hh & Hnd1 & Hdis & Hx & Hnd2).
    assert (Hpl : forall p, p ∈ l2 -> pv <> p) 
      by (intros p Hin Heq; rewrite Heq in Hpv; destruct Hpv as [->|Hl]; set_solver).
    assert (A : seg (Heap (<[x:=None]> (<[pv:=Some nx]> (nextp h)))
                      (<[x:=None]> (<[nx:=Some pv]> (prevp h)))) pv l2 head).
    { apply (seg_restart h _ x); simpl; [done|done|set_solver|by simplify_map_eq..| |].
      - intros p Hin. by rewrite !lookup_insert_ne by (auto; set_solver).
      - intros p Hne Hin. by rewrite !lookup_insert_ne by (auto; set_solver). }
    destruct l1 as [|y l1 _] using rev_ind; [exact A|].
    subst pv. rewrite !last_snoc in *. simpl in *. rewrite <- app_assoc. apply seg_app. split; [|exact A].
    apply seg_app in H1 as [H1 _]. apply NoDup_app in Hnd1 as (_ & Hy & _).
    rewrite <- app_assoc in Hh. apply not_elem_of_app in Hh as [Hh1 Hh2].
    apply not_elem_of_cons in Hh2 as [Hyh Hh2]. apply not_elem_of_cons in Hh2 as [Hxh Hh2].
    revert H1. apply seg_ext; simpl; intros p Hin; rewrite !lookup_insert_ne; [done| | |done| |].
    + intros <-. destruct Hin as [->|Hin]; [done|]. by apply (Hy _ Hin), list_elem_of_singleton.
    + intros <-. destruct Hin as [->|Hin]; [done|]. apply (Hdis x); set_solver.
    + intros <-. destruct Hnx as [Hnx|Hnx].
      * rewrite Hnx in Hin. set_solver.
      * apply (Hdis nx); set_solver.
    + intros <-. apply (Hdis x); set_solver.
  - split; by simplify_map_eq.
  - intros p Hp'. simpl. rewrite !lookup_insert_ne by set_solver. done.
Qed.

(** ** Theorems *)

Lemma foreach_next_seg h head a l fuel :
  seg h a l head -> head ∉ l -> (length l < fuel)%nat ->
  foreach_from fuel ld_next head (Some (hd head l)) (fun _ => mpure tt) h = Done (l, h).
Proof.
  revert a fuel. induction l as [|x l IH]; intros a [|fuel] Hs Hh Hf; simpl in *; try lia.
  - erewrite mthen_run by done. by rewrite bool_decide_eq_true_2.
  - destruct Hs as (_ & _ & Hs). pose proof (seg_next_first _ _ _ _ Hs).
    erewrite mthen_run by done. rewrite bool_decide_eq_false_2 by set_solver.
    erewrite mthen_run by done. exec1. erewrite mthen_run; [done|].
    apply (IH x); [done|set_solver|lia].
Qed.

Lemma foreach_prev_seg h head l x fuel :
  seg h head l x -> head ∉ l -> (length l < fuel)%nat ->
  foreach_from fuel ld_prev head (Some (default head (list.last l))) (fun _ => mpure tt) h
  = Done (reverse l, h).
Proof.
  revert x fuel. induction l as [|y l IH] using rev_ind; intros x [|fuel] Hs Hh Hf;
    rewrite ?length_app in Hf; simpl in *; try lia.
  - erewrite mthen_run by done. by rewrite bool_decide_eq_true_2.
  - rewrite last_snoc. apply seg_app in Hs as [Hs _]. pose proof (seg_prev_last _ _ _ _ Hs).
    erewrite mthen_run by done. simpl. rewrite bool_decide_eq_false_2 by set_solver.
    erewrite mthen_run by done. exec1. erewrite mthen_run; [by rewrite reverse_snoc|].
    apply (IH y); [done|set_solver|lia].
Qed.

Lemma foreach_safe_del h head l p n fuel :
  is_list h head l -> prevp h !! head = Some (Some p) -> prevp h !! p = Some n ->
  (length l < fuel)%nat ->
  exists h', foreach_safe_from fuel ld_prev head (Some p) n initng_list_del h
             = Done (reverse l, h') /\
    is_list h' head [] /\ Forall (unlinked h') l /\ same_outside (head :: l) h h'.
Proof.
  revert h p n fuel. induction l as [|y l IH] using rev_ind; intros h p n [|fuel] Hl Hp Hn Hf;
    rewrite ?length_app in Hf; simpl in *; try lia.
  - assert (p = head) as -> by (destruct Hl as [_ [_ Hs]]; congruence).
    erewrite mthen_run by done. rewrite bool_decide_eq_true_2 by done.
    exists h. split; [done|]. split; [done|]. split; [constructor|]. by intros ? ?.
  - pose proof Hl as [Hnd Hs]. pose proof (seg_prev_last _ _ _ _ Hs) as Hq.
    rewrite last_snoc in Hq. simpl in Hq. assert (p = y) as -> by congruence.
    apply seg_app in Hs as [Hs _]. pose proof (seg_prev_last _ _ _ _ Hs) as Hq'.
    assert (n = Some (default head (list.last l))) as -> by congruence.
    destruct (initng_list_del_run h head l y [] Hl) as (h1 & E1 & Hl1 & Hu1 & Hf1).
    rewrite app_nil_r in Hl1.
    erewrite mthen_run by done. apply NoDup_cons in Hnd as [Hh Hnd].
    rewrite bool_decide_eq_false_2 by set_solver. erewrite mthen_run by exact E1.
    pose proof (seg_prev_last _ _ _ _ (proj2 Hl1)) as Hlast.
    erewrite mthen_run by done. simpl.
    assert (exists n', prevp h1 !! default head (list.last l) = Some n') as [n' Hn'].
    { destruct (list.last l) as [z|] eqn:Ez; [|eauto].
      destruct (seg_linked _ _ _ _ z (proj2 Hl1)) as [_ [? ?]]; [|eauto].
      apply last_Some in Ez as [? ->]. set_solver. }
    exec1. destruct (IH h1 (default head (list.last l)) n' fuel) as (h' & E & Hl' & Hu' & Hf');
      [done|done|done|lia|].
    exists h'. erewrite mthen_run by exact E. rewrite reverse_snoc. split; [done|].
    split; [done|]. split.
    + apply Forall_app. split; [done|]. constructor; [|constructor].
      destruct Hu1. unfold unlinked. destruct (Hf' y) as [-> ->]; [|done].
      apply NoDup_app in Hnd as (_ & Hd & _). intros [->|Hin]%elem_of_cons; [set_solver|].
      by apply (Hd _ Hin), list_elem_of_singleton.
    + intros q Hq''. destruct (Hf' q) as [-> ->]; [set_solver|]. apply Hf1. set_solver.
Qed.

(** [initng_list_add] puts a zeroed entry in front of the list (so that the
    reverse walks of the program see it last), changes no other [list_t], and
    does nothing when the entry is already on a list. *)
Theorem list_add_refines_cons h head l x :
  is_list h head l -> x ∉ head :: l -> unlinked h x ->
  exists h', initng_list_add x head h = Done (tt, h') /\
    is_list h' head (x :: l) /\
    same_outside (x :: head :: l) h h' /\
    initng_list_add x head h' = Done (tt, h').
Proof.
  intros Hl Hx Hu. destruct (initng_list_add_run h head l x Hl Hx Hu) as (h' & E & Hl' & Hf).
  exists h'. split; [done|]. split; [done|]. split; [done|].
  destruct (seg_linked h' head (x :: l) head x (proj2 Hl')) as [[n Hn] [p Hp]]; [set_solver|].
  apply (initng_list_add_linked h' head x (Some n) (Some p)); eauto.
Qed.

(** [initng_list_del] takes exactly that entry out of the list it is on,
    leaves it unlinked, and a second deletion is a no-op. *)
Theorem list_del_refines_remove h head l1 x l2 :
  is_list h head (l1 ++ x :: l2) ->
  exists h', initng_list_del x h = Done (tt, h') /\
    is_list h' head (l1 ++ l2) /\ unlinked h' x /\
    same_outside (head :: l1 ++ x :: l2) h h' /\
    initng_list_del x h' = Done (tt, h').
Proof.
  intros Hl. destruct (initng_list_del_run h head l1 x l2 Hl) as (h' & E & Hl' & Hu & Hf).
  exists h'. do 4 (split; [done|]). destruct Hu. unfold initng_list_del. exec.
  by rewrite bool_decide_eq_false_2 by (intros [[??]|[??]]; done).
Qed.

(** The forward and the reverse walking macros terminate on a well-formed
    list and reach every entry exactly once, in list order and in the opposite
    order. *)
Theorem foreach_visits h head l fuel :
  is_list h head l -> (length l < fuel)%nat ->
  initng_list_foreach fuel head (fun _ => mpure tt) h = Done (l, h) /\
  initng_list_foreach_rev fuel head (fun _ => mpure tt) h = Done (reverse l, h).
Proof.
  intros [Hnd Hs] Hf. apply NoDup_cons in Hnd as [Hh _].
  pose proof (seg_next_first _ _ _ _ Hs). pose proof (seg_prev_last _ _ _ _ Hs).
  unfold initng_list_foreach, initng_list_foreach_rev. split; exec1.
  - by apply (foreach_next_seg h head head).
  - by apply (foreach_prev_seg h head l head).
Qed.

(** Deleting the current entry inside [initng_list_foreach_rev_safe], the
    way [initng_command_unregister_all] and the like do, empties the list and
    visits every entry once. *)
Theorem foreach_rev_safe_delete_all h head l fuel :
  is_list h head l -> (length l < fuel)%nat ->
  exists h', initng_list_foreach_rev_safe fuel head initng_list_del h = Done (reverse l, h') /\
    is_list h' head [] /\ Forall (unlinked h') l /\ same_outside (head :: l) h h'.
Proof.
  intros Hl Hf. pose proof (seg_prev_last _ _ _ _ (proj2 Hl)) as Hp.
  assert (exists n, prevp h !! default head (list.last l) = Some n) as [n Hn].
  { destruct (list.last l) as [z|] eqn:Ez; [|eauto].
    destruct (seg_linked _ _ _ _ z (proj2 Hl)) as [_ [? ?]]; [|eauto].
    apply last_Some in Ez as [? ->]. set_solver. }
  destruct (foreach_safe_del h head l _ n fuel Hl Hp Hn Hf) as (h' & E & ?).
  exists h'. split; [|done]. unfold initng_list_foreach_rev_safe. exec. exact E.
Qed.

Lemma foreach_from_self_loop h head x fuel body :
  x <> head -> prevp h !! x = Some (Some x) -> (forall p, body p h = Done (tt, h)) ->
  foreach_from fuel ld_prev head (Some x) body h = NoFuel.
Proof.
  intros Hx Hp Hb. induction fuel as [|fuel IH]; [done|]. simpl.
  erewrite mthen_run by done. rewrite bool_decide_eq_false_2 by done.
  rewrite (mthen_run _ _ _ _ _ (Hb x)). exec1. unfold mthen at 1. by rewrite IH.
Qed.

(** [initng_list_add_tail] reads [head->prev] after it has overwritten it,
    so the new entry becomes its own predecessor: forward walks still see it
    last, but every reverse walk of the list goes on for ever. *)
Theorem list_add_tail_breaks_reverse_walk h head l x :
  is_list h head l -> x ∉ head :: l -> unlinked h x ->
  exists h', initng_list_add_tail x head h = Done (tt, h') /\
    prevp h' !! x = Some (Some x) /\
    forall fuel, initng_list_foreach_rev fuel head (fun _ => mpure tt) h' = NoFuel.
Proof.
  intros [Hnd Hs] Hx [Hn Hp]. unfold initng_list_add_tail.
  assert (x <> head) by set_solver.
  pose proof (seg_prev_last _ _ _ _ Hs) as Hf. pose proof (seg_next_last _ _ _ _ Hs) as Hl.
  assert (default head (list.last l) <> x).
  { destruct (list.last l) as [z|] eqn:Ez; simpl; [|done].
    apply last_Some in Ez as [? ->]. set_solver. }
  exec. rewrite bool_decide_eq_false_2 by (intros [[??]|[??]]; done).
  exec. eexists. split; [reflexivity|]. split; [by simplify_map_eq|].
  intros fuel. unfold initng_list_foreach_rev. exec1.
  apply foreach_from_self_loop; simpl; [done|by simplify_map_eq|done].
Qed.

(** [initng_list_join] splices the entries of one list in front of another
    and leaves the first list empty. *)
Theorem list_join_refines_app h lst l1 head l2 :
  is_list h lst l1 -> is_list h head l2 -> lst :: l1 ## head :: l2 ->
  exists h', initng_list_join lst head h = Done (tt, h') /\
    is_list h' head (l1 ++ l2) /\ is_list h' lst [].
Proof.
  intros [Hnd1 Hs1] [Hnd2 Hs2] Hdis.
  unfold initng_list_join, initng_list_isempty.
  pose proof (seg_next_first _ _ _ _ Hs1) as Hn1. pose proof (seg_next_first _ _ _ _ Hs2) as Hn2.
  pose proof (seg_prev_last _ _ _ _ Hs1) as Hp1. pose proof (seg_prev_first _ _ _ _ Hs2) as Hp2.
  apply NoDup_cons in Hnd1 as [Hh1 Hnd1]. apply NoDup_cons in Hnd2 as [Hh2 Hnd2].
  destruct l1 as [|z l1 _] using rev_ind.
  { erewrite mthen_run by (exec1; reflexivity). rewrite bool_decide_eq_true_2 by done.
    exists h. split; [done|]. split; [split|]; [by apply NoDup_cons|done|].
    split; [|done]. apply NoDup_singleton. }
  apply seg_app in Hs1 as [Hs1 [Hz1 Hz2]]. pose proof (seg_prev_first _ _ _ _ Hs1) as Hy.
  rewrite last_snoc in Hp1. simpl in Hp1.
  assert (hd lst (l1 ++ [z]) = hd z l1) as Ehd by (by destruct l1). rewrite Ehd in Hn1.
  set (y := hd z l1) in *. set (nx := hd head l2) in *.
  assert (Hyin : y ∈ l1 ++ [z]) by (subst y; destruct l1; set_solver).
  assert (Hnin : nx ∈ head :: l2) by (subst nx; destruct l2; set_solver).
  assert (Hne : forall p q, p ∈ lst :: l1 ++ [z] -> q ∈ head :: l2 -> p <> q)
    by (intros p q H1 H2 ->; exact (Hdis _ H1 H2)).
  assert (lst <> y) by (intros ->; done).
  assert (lst <> z) by (intros ->; set_solver).
  assert (y <> nx) by (apply Hne; set_solver).
  assert (lst <> head /\ z <> head /\ z <> nx /\ lst <> nx /\ y <> head) as (? & ? & ? & ? & ?)
    by (repeat split; apply Hne; set_solver).
  erewrite mthen_run by (exec1; reflexivity).
  rewrite bool_decide_eq_false_2 by (subst y; congruence).
  unfold initng_list_init. exec. eexists. split; [reflexivity|].
  apply NoDup_app in Hnd1 as (Hnd1 & Hz & _).
  assert (Hzl : z ∉ l1) by (intros Hin; apply (Hz _ Hin); set_solver).
  assert (Hl1 : forall p, p ∈ l1 -> lst <> p /\ z <> p /\ head <> p /\ nx <> p).
  { intros p Hin. assert (p ∈ lst :: l1 ++ [z]) by (apply elem_of_cons; right; by apply elem_of_app; left).
    repeat split; try (apply not_eq_sym, Hne; done || apply elem_of_cons; by left).
    - intros ->. apply Hh1. by apply elem_of_app; left.
    - by intros ->. }
  assert (Hl2 : forall p, p ∈ head :: l2 -> lst <> p /\ z <> p /\ y <> p)
    by (intros p Hin; repeat split; apply Hne; set_solver).
  split; [split|].
  - apply NoDup_cons. split.
    + rewrite !not_elem_of_app. repeat split; [|set_solver|done]. intros Hin. by apply Hl1 in Hin as (_ & _ & ? & _).
    + apply NoDup_app. split; [apply NoDup_app; repeat split; auto using NoDup_singleton|].
      split; [|done]. intros p Hin Hin2. apply (Hne p p); set_solver.
  - rewrite <- app_assoc. apply seg_app. split.
    + apply (seg_restart h _ lst); simpl; fold y; [done|done|done|by simplify_map_eq..| |].
      * intros p Hin. apply Hl1 in Hin as (? & ? & ? & ?). by rewrite !lookup_insert_ne.
      * intros p Hpy [Hin| ->]; [apply Hl1 in Hin as (? & ? & ? & ?)|]; by rewrite !lookup_insert_ne by auto.
    + apply (seg_restart h _ head); simpl; fold nx; [done|done|done|by simplify_map_eq..| |].
      * intros p Hin. destruct (Hl2 p) as (? & ? & ?); [set_solver|]. rewrite !lookup_insert_ne; [done|..]; try done.
        intros ->. done.
      * intros p Hpy Hin. destruct (Hl2 p) as (? & ? & ?); [set_solver|]. by rewrite !lookup_insert_ne by auto.
  - split; [apply NoDup_singleton|]. simpl. by simplify_map_eq.
Qed.
