(* ===== verification/Types.v ===== *)
(** * Data of the program: the structs and enums of include/initng/

    A pointer to a statically allocated struct ([a_state_h], [s_entry],
    [stype_h], [ptype_h]) is represented by the struct itself together with the
    address it lives at, so that two structs with equal contents stay
    different.  A function pointer is an opaque code address [fptr]; what the
    code at the address does is given by the callbacks of file Global.  List
    links are left out: a list is a Rocq list (file ListH justifies this), kept
    in the order in which the program's reverse walks reach the entries, that
    is oldest first. *)
From S2P Require Import Prelude.
From Stdlib Require Ascii.
From stdpp Require Import prelude gmap strings.
Local Open Scope Z_scope.

Notation fptr := positive.
Notation addr := positive.

(** ** is_state.h and system_states.h *)

Inductive e_is :=
| IS_NEW | IS_UP | IS_DOWN | IS_FAILED | IS_STARTING | IS_STOPPING | IS_WAITING.
#[export] Instance e_is_eq_dec : EqDecision e_is.
Proof. solve_decision. Defined.

Inductive h_sys_state :=
| STATE_NULL | STATE_STARTING | STATE_UP | STATE_STOPPING | STATE_ASE
| STATE_SERVICES_LOADED | STATE_EXIT | STATE_RESTART | STATE_SULOGIN
| STATE_HALT | STATE_REBOOT | STATE_EXECVE | STATE_POWEROFF.
#[export] Instance h_sys_state_eq_dec : EqDecision h_sys_state.
Proof. solve_decision. Defined.

Inductive h_then :=
| THEN_NONE | THEN_QUIT | THEN_RESTART | THEN_SULOGIN | THEN_NEW_INIT
| THEN_HALT | THEN_REBOOT | THEN_POWEROFF.
#[export] Instance h_then_eq_dec : EqDecision h_then.
Proof. solve_decision. Defined.

(** ** active_state.h *)

Record a_state_h := AState {
  st_addr : addr;
  st_name : string;
  st_is : e_is;
  st_interrupt : option fptr;
  st_init : option fptr;
  st_alarm : option fptr;
  st_description : option string
}.
#[export] Instance a_state_h_eq_dec : EqDecision a_state_h.
Proof. solve_decision. Defined.

(** ** service/type.h *)

Record stype_h := SType {
  sty_addr : addr;
  sty_name : string;
  sty_hidden : bool;
  sty_start : option fptr;
  sty_stop : option fptr;
  sty_restart : option fptr
}.
#[export] Instance stype_h_eq_dec : EqDecision stype_h.
Proof. solve_decision. Defined.

(** ** service/data_type.h *)

Inductive e_dt :=
| U_D_T | STRING | STRINGS | SET | INT | ALIAS | TIME_T
| VARIABLE_STRING | VARIABLE_STRINGS | VARIABLE_SET | VARIABLE_INT | VARIABLE_TIME_T.
#[export] Instance e_dt_eq_dec : EqDecision e_dt.
Proof. solve_decision. Defined.

(** The numbers of the enum: the code compares them and adds 50 to them. *)
Definition e_dt_num (t : e_dt) : Z :=
  match t with
  | U_D_T => 0 | STRING => 1 | STRINGS => 2 | SET => 3 | INT => 6 | ALIAS => 7 | TIME_T => 8
  | VARIABLE_STRING => 51 | VARIABLE_STRINGS => 52 | VARIABLE_SET => 53
  | VARIABLE_INT => 56 | VARIABLE_TIME_T => 58
  end.

Inductive s_entry := SEntry {
  ent_addr : addr;
  ent_name : option string;
  ent_type : e_dt;
  ent_ot : option stype_h;
  ent_alias : option s_entry;
  ent_description : option string
}.

(** Comparison of two [s_entry] pointers. *)
Definition same_entry (a b : s_entry) : bool := Pos.eqb (ent_addr a) (ent_addr b).

(** ** data.h *)

(** The union [t]: zeroed memory, a string, an int, or a pointer to a string
    that was freed behind the back of the entry. *)
Inductive t_union :=
| T_null
| T_s (s : string)
| T_i (i : Z)
| T_freed.

Record s_data := SData {
  d_addr : addr;
  d_t : t_union;
  d_type : s_entry;
  d_vn : option string;
  d_linked : bool  (* list.next || list.prev *)
}.
Definition eta_s_data (d : s_data) := SData (d_addr d) (d_t d) (d_type d) (d_vn d) (d_linked d).
#[export] Instance set_d_addr : Setter d_addr := ltac:(build_setter eta_s_data d_addr).
#[export] Instance set_d_linked : Setter d_linked := ltac:(build_setter eta_s_data d_linked).
#[export] Instance set_d_t : Setter d_t := ltac:(build_setter eta_s_data d_t).

(** A [data_head] with [res == NULL], or with a [res] to go on searching in.
    The request hooks [data_request] and [res_request] are left out: they are
    NULL in every head, the one use of DATA_HEAD_INIT_REQUEST passes NULL. *)
Inductive data_head :=
| DH (entries : list s_data)
| DH_res (entries : list s_data) (res : data_head).

(** ** process_db.h *)

Inductive e_pst := P_ACTIVE | P_FREE.
#[export] Instance e_pst_eq_dec : EqDecision e_pst.
Proof. solve_decision. Defined.

Inductive e_dir := UNKNOWN_PIPE | OUT_PIPE | IN_PIPE | BUFFERED_OUT_PIPE | IN_AND_OUT_PIPE.
#[export] Instance e_dir_eq_dec : EqDecision e_dir.
Proof. solve_decision. Defined.

(** [buffer] is [None] for NULL and otherwise the bytes of the allocated block;
    bytes that were never written are kept as zero. *)
Record pipe_h := Pipe {
  pipe0 : Z;
  pipe1 : Z;
  pi_dir : e_dir;
  pi_targets : list Z;
  pi_buffer : option (list Z);
  pi_buffer_allocated : Z;
  pi_buffer_len : Z
}.
Definition eta_pipe_h (p : pipe_h) :=
  Pipe (pipe0 p) (pipe1 p) (pi_dir p) (pi_targets p) (pi_buffer p) (pi_buffer_allocated p) (pi_buffer_len p).
#[export] Instance set_pipe0 : Setter pipe0 := ltac:(build_setter eta_pipe_h pipe0).
#[export] Instance set_pipe1 : Setter pipe1 := ltac:(build_setter eta_pipe_h pipe1).
#[export] Instance set_pi_targets : Setter pi_targets := ltac:(build_setter eta_pipe_h pi_targets).
#[export] Instance set_pi_buffer : Setter pi_buffer := ltac:(build_setter eta_pipe_h pi_buffer).
#[export] Instance set_pi_buffer_allocated : Setter pi_buffer_allocated := ltac:(build_setter eta_pipe_h pi_buffer_allocated).
#[export] Instance set_pi_buffer_len : Setter pi_buffer_len := ltac:(build_setter eta_pipe_h pi_buffer_len).

Record ptype_h := PType {
  pty_addr : addr;
  pty_name : string;
  pty_kill_handler : option fptr
}.
#[export] Instance ptype_h_eq_dec : EqDecision ptype_h.
Proof. solve_decision. Defined.

Record process_h := Process {
  p_addr : addr;
  p_pt : ptype_h;
  p_pid : Z;
  p_r_code : Z;
  p_pipes : list pipe_h;
  p_pst : e_pst
}.
Definition eta_process_h (p : process_h) :=
  Process (p_addr p) (p_pt p) (p_pid p) (p_r_code p) (p_pipes p) (p_pst p).
#[export] Instance set_p_pid : Setter p_pid := ltac:(build_setter eta_process_h p_pid).
#[export] Instance set_p_r_code : Setter p_r_code := ltac:(build_setter eta_process_h p_r_code).
#[export] Instance set_p_pipes : Setter p_pipes := ltac:(build_setter eta_process_h p_pipes).
#[export] Instance set_p_pst : Setter p_pst := ltac:(build_setter eta_process_h p_pst).

(** ** active_db.h *)

Record timeval := Timeval { tv_sec : Z; tv_usec : Z }.
#[export] Instance timeval_eq_dec : EqDecision timeval.
Proof. solve_decision. Defined.

Record active_db_h := Active {
  a_name_hash : Z;
  a_name : string;
  a_type : option stype_h;
  a_current_state : a_state_h;
  a_time_current_state : timeval;
  a_last_state : option a_state_h;
  a_time_last_state : timeval;
  a_next_state : option a_state_h;
  a_state_lock : Z;
  a_last_rought_state : e_is;
  a_last_rought_time : timeval;
  a_processes : list process_h;
  a_data : data_head;
  a_alarm : Z;
  a_depend_cache : Z
}.
Definition eta_active (a : active_db_h) :=
  Active (a_name_hash a) (a_name a) (a_type a) (a_current_state a) (a_time_current_state a)
    (a_last_state a) (a_time_last_state a) (a_next_state a) (a_state_lock a)
    (a_last_rought_state a) (a_last_rought_time a) (a_processes a) (a_data a) (a_alarm a)
    (a_depend_cache a).
#[export] Instance set_a_type : Setter a_type := ltac:(build_setter eta_active a_type).
#[export] Instance set_a_current_state : Setter a_current_state := ltac:(build_setter eta_active a_current_state).
#[export] Instance set_a_time_current_state : Setter a_time_current_state := ltac:(build_setter eta_active a_time_current_state).
#[export] Instance set_a_last_state : Setter a_last_state := ltac:(build_setter eta_active a_last_state).
#[export] Instance set_a_time_last_state : Setter a_time_last_state := ltac:(build_setter eta_active a_time_last_state).
#[export] Instance set_a_next_state : Setter a_next_state := ltac:(build_setter eta_active a_next_state).
#[export] Instance set_a_state_lock : Setter a_state_lock := ltac:(build_setter eta_active a_state_lock).
#[export] Instance set_a_last_rought_state : Setter a_last_rought_state := ltac:(build_setter eta_active a_last_rought_state).
#[export] Instance set_a_last_rought_time : Setter a_last_rought_time := ltac:(build_setter eta_active a_last_rought_time).
#[export] Instance set_a_processes : Setter a_processes := ltac:(build_setter eta_active a_processes).
#[export] Instance set_a_data : Setter a_data := ltac:(build_setter eta_active a_data).
#[export] Instance set_a_alarm : Setter a_alarm := ltac:(build_setter eta_active a_alarm).
#[export] Instance set_a_depend_cache : Setter a_depend_cache := ltac:(build_setter eta_active a_depend_cache).

(** GET_STATE and IS_MARK on a service that is there. *)
Definition GET_STATE (s : active_db_h) : e_is := st_is (a_current_state s).
Definition IS_MARK (s : active_db_h) (st : a_state_h) : bool := bool_decide (a_current_state s = st).

(** ** event/event.h and event/static_types.h *)

Inductive event_status_t := FAILED | UNKNOWN | HANDLED | WAITING.
#[export] Instance event_status_eq_dec : EqDecision event_status_t.
Proof. solve_decision. Defined.

Inductive s_event_type :=
| EVENT_STATE_CHANGE | EVENT_SYSTEM_CHANGE | EVENT_IS_CHANGE | EVENT_UP_MET | EVENT_MAIN
| EVENT_LAUNCH | EVENT_AFTER_FORK | EVENT_START_DEP_MET | EVENT_STOP_DEP_MET
| EVENT_PIPE_WATCHER | EVENT_NEW_ACTIVE | EVENT_DEP_ON | EVENT_RELOAD_ACTIVE_DB
| EVENT_DUMP_ACTIVE_DB | EVENT_ERROR_MESSAGE | EVENT_COMPENSATE_TIME | EVENT_HANDLE_KILLED
| EVENT_SIGNAL | EVENT_BUFFER_WATCHER | EVENT_IO_WATCHER | EVENT_INTERRUPT | HALT | REBOOT.
#[export] Instance s_event_type_eq_dec : EqDecision s_event_type.
Proof. solve_decision. Defined.

(** The three fd_sets of a select(2), as sets of descriptors. *)
Record fd_sets := FdSets { readset : gset Z; writeset : gset Z; errset : gset Z }.

(** What [event.data] points to, by event type. *)
Inductive event_data :=
| ED_none
| ED_service (service : addr)
| ED_dep_on (service check : addr)
| ED_name (name : string)
| ED_launch (service process : addr) (exec_name : string)
| ED_process (service process : addr)
| ED_pipe (service process : addr) (pipe : nat)
| ED_buffer (service process : addr) (pipe : nat) (buffer_pos : Z)
| ED_time (t : Z)
| ED_signal (sig : Z)
| ED_sys_state (st : h_sys_state)
| ED_io_watcher (action added : Z) (sets : fd_sets).

Record s_event := Event {
  ev_type : s_event_type;
  ev_data : event_data;
  ev_ret : option addr;
  ev_status : event_status_t
}.
Definition eta_s_event (e : s_event) := Event (ev_type e) (ev_data e) (ev_ret e) (ev_status e).
#[export] Instance set_ev_data : Setter ev_data := ltac:(build_setter eta_s_event ev_data).
#[export] Instance set_ev_ret : Setter ev_ret := ltac:(build_setter eta_s_event ev_ret).
#[export] Instance set_ev_status : Setter ev_status := ltac:(build_setter eta_s_event ev_status).

(** A registered hook: its function and the file that registered it. *)
Record s_call := Call { c_pointer : fptr; c_from_file : string }.

(** ** Processes outside initng *)

(** An open descriptor: the file it refers to, and whether execve closes it. *)
Record fd_entry := Fd { fd_file : Z; fd_cloexec : bool }.
Notation fds := (gmap Z fd_entry).

(** How a forked child leaves the code of initng: by execve, with its arguments,
    environment and descriptors, by _exit, or by a bad access; or it sleeps
    forever. *)
Inductive child_end :=
| Execve (argv env : list string) (files : fds)
| Exit (code : Z)
| Crash
| Sleeps.

(** What the kernel keeps for a process besides its descriptors: the user, the
    group, the user whose groups it has, directory, root, nice value, by resource
    the soft and the hard limit, and how long it slept, in microseconds. *)
Record proc_attrs := Proc {
  pr_uid : Z;
  pr_gid : Z;
  pr_groups : option string;
  pr_cwd : string;
  pr_root : string;
  pr_nice : Z;
  pr_limits : gmap Z (Z * Z);
  pr_slept : Z
}.
Definition eta_proc (p : proc_attrs) :=
  Proc (pr_uid p) (pr_gid p) (pr_groups p) (pr_cwd p) (pr_root p) (pr_nice p) (pr_limits p) (pr_slept p).
#[export] Instance set_pr_uid : Setter pr_uid := ltac:(build_setter eta_proc pr_uid).
#[export] Instance set_pr_gid : Setter pr_gid := ltac:(build_setter eta_proc pr_gid).
#[export] Instance set_pr_groups : Setter pr_groups := ltac:(build_setter eta_proc pr_groups).
#[export] Instance set_pr_cwd : Setter pr_cwd := ltac:(build_setter eta_proc pr_cwd).
#[export] Instance set_pr_root : Setter pr_root := ltac:(build_setter eta_proc pr_root).
#[export] Instance set_pr_nice : Setter pr_nice := ltac:(build_setter eta_proc pr_nice).
#[export] Instance set_pr_limits : Setter pr_limits := ltac:(build_setter eta_proc pr_limits).
#[export] Instance set_pr_slept : Setter pr_slept := ltac:(build_setter eta_proc pr_slept).

Definition init_proc : proc_attrs := Proc 0 0 None "/" "/" 0 ∅ 0.

(** ** command.h *)

Inductive e_com_type := COMMAND_FAIL | PAYLOAD_COMMAND | INT_COMMAND | STRING_COMMAND.
Inductive e_opt_vissible := STANDARD_COMMAND | ADVANCHED_COMMAND | HIDDEN_COMMAND | INTERNAL_COMMAND.
Inductive e_opt_type := NO_OPT | USES_OPT | REQUIRES_OPT.
#[export] Instance e_com_type_eq_dec : EqDecision e_com_type.
Proof. solve_decision. Defined.
#[export] Instance e_opt_vissible_eq_dec : EqDecision e_opt_vissible.
Proof. solve_decision. Defined.
#[export] Instance e_opt_type_eq_dec : EqDecision e_opt_type.
Proof. solve_decision. Defined.

(** [com_u] is the union of the pointers to the function. *)
Record s_command := Command {
  com_addr : addr;
  com_id : Z;
  com_long_id : option string;
  com_type : e_com_type;
  com_opt_visible : e_opt_vissible;
  com_opt_type : e_opt_type;
  com_u : option fptr;
  com_description : option string
}.

(** ** Static variables of modules *)

(** modules/history/initng_history.h; the duration is a whole number of seconds. *)
Record history_h := Hist {
  h_service : option addr;
  h_name : option string;
  h_duration : Z;
  h_time : timeval;
  h_data : option string;
  h_action : option a_state_h
}.
Definition eta_history (h : history_h) := Hist (h_service h) (h_name h) (h_duration h) (h_time h) (h_data h) (h_action h).
#[export] Instance set_h_service : Setter h_service := ltac:(build_setter eta_history h_service).
#[export] Instance set_h_name : Setter h_name := ltac:(build_setter eta_history h_name).
#[export] Instance set_h_time : Setter h_time := ltac:(build_setter eta_history h_time).

(** modules/syslog/initng_syslog.h *)
Record log_ent := LogEnt { le_prio : Z; le_owner : option string; le_buffert : string }.

(** modules/netdev/initng_netdev.c *)
Record s_netdev := Netdev { nd_status : Z; nd_dev : option string }.

(** modules/nge/initng_nge.c: the socket that accepts listeners, their sockets,
    whether the hooks are in place, and what stat(2) said of the file of the
    socket (its device, inode and time of change). *)
Record nge_state := Nge {
  acceptor_fds : Z;
  listeners : list Z;
  is_active : Z;
  sock_stat : Z * Z * Z
}.
Definition eta_nge_state (n : nge_state) := Nge (acceptor_fds n) (listeners n) (is_active n) (sock_stat n).
#[export] Instance set_acceptor_fds : Setter acceptor_fds := ltac:(build_setter eta_nge_state acceptor_fds).
#[export] Instance set_listeners : Setter listeners := ltac:(build_setter eta_nge_state listeners).
#[export] Instance set_is_active : Setter is_active := ltac:(build_setter eta_nge_state is_active).
#[export] Instance set_sock_stat : Setter sock_stat := ltac:(build_setter eta_nge_state sock_stat).

(** modules/nge/initng_nge.h *)
Definition NGE_VERSION : Z := 6.

(** modules/ngc4/initng_ngc4.c: the socket that accepts clients, what stat(2) said
    of its file, and the commands that only clients reach. *)
Record ngc4_state := Ngc4 {
  fdh_fds : Z;
  fdh_stat : Z * Z * Z;
  local_commands_db : list s_command
}.
Definition eta_ngc4_state (n : ngc4_state) := Ngc4 (fdh_fds n) (fdh_stat n) (local_commands_db n).
#[export] Instance set_fdh_fds : Setter fdh_fds := ltac:(build_setter eta_ngc4_state fdh_fds).
#[export] Instance set_fdh_stat : Setter fdh_stat := ltac:(build_setter eta_ngc4_state fdh_stat).
#[export] Instance set_local_commands_db : Setter local_commands_db := ltac:(build_setter eta_ngc4_state local_commands_db).

(** TYPE_PROVIDED of last, check of synchron, active of interactive, the history
    and the buffered messages (newest first), the devices, the variables of nge and ngc4;
    and what modules have left outside: the lock files, the messages sent to
    syslog, what was appended to log files, and what was sent to sockets. *)
Record statics := Statics {
  TYPE_PROVIDED : option stype_h;
  check : Z;
  active : Z;
  lockfiles : list string;
  history_db : list history_h;
  history_records : Z;
  syslog_running : Z;
  log_list : list log_ent;
  syslog_sent : list (Z * string * string);
  appended : list (string * string);
  devs : list s_netdev;
  nge : nge_state;
  ngc4 : ngc4_state;
  wire : list (Z * list Ascii.ascii)
}.
Definition eta_statics (s : statics) :=
  Statics (TYPE_PROVIDED s) (check s) (active s) (lockfiles s) (history_db s) (history_records s) (syslog_running s)
    (log_list s) (syslog_sent s) (appended s) (devs s) (nge s) (ngc4 s) (wire s).
#[export] Instance set_TYPE_PROVIDED : Setter TYPE_PROVIDED := ltac:(build_setter eta_statics TYPE_PROVIDED).
#[export] Instance set_check : Setter check := ltac:(build_setter eta_statics check).
#[export] Instance set_active : Setter active := ltac:(build_setter eta_statics active).
#[export] Instance set_lockfiles : Setter lockfiles := ltac:(build_setter eta_statics lockfiles).
#[export] Instance set_history_db : Setter history_db := ltac:(build_setter eta_statics history_db).
#[export] Instance set_history_records : Setter history_records := ltac:(build_setter eta_statics history_records).
#[export] Instance set_syslog_running : Setter syslog_running := ltac:(build_setter eta_statics syslog_running).
#[export] Instance set_log_list : Setter log_list := ltac:(build_setter eta_statics log_list).
#[export] Instance set_syslog_sent : Setter syslog_sent := ltac:(build_setter eta_statics syslog_sent).
#[export] Instance set_appended : Setter appended := ltac:(build_setter eta_statics appended).
#[export] Instance set_devs : Setter devs := ltac:(build_setter eta_statics devs).
#[export] Instance set_nge : Setter nge := ltac:(build_setter eta_statics nge).
#[export] Instance set_ngc4 : Setter ngc4 := ltac:(build_setter eta_statics ngc4).
#[export] Instance set_wire : Setter wire := ltac:(build_setter eta_statics wire).

Definition zero_statics : statics := Statics None 0 0 [] [] 0 0 [] [] [] (replicate 20 (Netdev 0 None))
  (Nge (-1) (replicate 21 0) 0 (0, 0, 0)) (Ngc4 (-1) (0, 0, 0) []) [].

(** ** module/module.h *)

Record initng_module := Module {
  mod_api_version : Z;
  mod_init : option fptr;
  mod_unload : option fptr;
  mod_deps : list string
}.

Definition MODULE_INITIALIZED : Z := 1.
Definition MODULE_REMOVE : Z := 2.

Record m_h := MH {
  m_addr : addr;
  m_name : string;
  m_path : string;
  m_flags : Z;
  m_modinfo : initng_module
}.
Definition eta_m_h (m : m_h) := MH (m_addr m) (m_name m) (m_path m) (m_flags m) (m_modinfo m).
#[export] Instance set_m_flags : Setter m_flags := ltac:(build_setter eta_m_h m_flags).
