(* ===== verification/Data.v ===== *)
(** * Service variables: src/main/data/

    A [data_head] is a list of typed entries with an optional second head
    [res] that is searched when the first has no match.  A setter that
    allocates takes the address [fresh] that calloc returned.  Entries are
    identified by their address, as the code identifies them by pointer. *)
From S2P Require Import Prelude Types.
From stdpp Require Import prelude gmap strings.
Local Open Scope Z_scope.

(** ** local.h *)

(** ALIAS_WALK *)
Fixpoint alias_walk (type : s_entry) : s_entry :=
  match type with
  | SEntry _ _ ty _ (Some a) _ => if decide (ty = ALIAS) then alias_walk a else type
  | SEntry _ _ _ _ None _ => type
  end.

(** IT(x): the type or its variant with a variable name. *)
Definition IT (type : s_entry) (x : e_dt) : bool :=
  (e_dt_num (ent_type type) =? e_dt_num x) || (e_dt_num (ent_type type) =? e_dt_num x + 50).

(** The readings of the union [t]; a string reads as no int and the other way
    round. *)
Definition t_s (t : t_union) : option string :=
  match t with T_s s => Some s | _ => None end.
Definition t_i (t : t_union) : option Z :=
  match t with T_null => Some 0 | T_i i => Some i | _ => None end.

(** ** get_next_var.c *)

(** The test of lines 93-94 of get_next_var.c. *)
Definition entry_matches (type : option s_entry) (vn : option string) (c : s_data) : bool :=
  match type with None => true | Some t => same_entry (d_type c) t end
  && match d_vn c, vn with Some v, Some v' => String.eqb v v' | _, _ => true end.

(** The loop over one list: fast forward to [last], then the first match.  The
    second result is [last], which is NULL once it was reached. *)
Fixpoint scan_entries (type : option s_entry) (vn : option string) (l : list s_data)
    (last : option addr) : option s_data * option addr :=
  match l with
  | [] => (None, last)
  | current :: l' =>
    match last with
    | Some a =>
      if Pos.eqb (d_addr current) a then scan_entries type vn l' None
      else scan_entries type vn l' last
    | None =>
      if entry_matches type vn current then (Some current, None)
      else scan_entries type vn l' None
    end
  end.

Fixpoint initng_data_get_next_var (type : option s_entry) (vn : option string)
    (head : data_head) (last : option addr) : option s_data :=
  match head with
  | DH l => fst (scan_entries (alias_walk <$> type) vn l last)
  | DH_res l res =>
    match scan_entries (alias_walk <$> type) vn l last with
    | (Some c, _) => Some c
    | (None, last') => initng_data_get_next_var (alias_walk <$> type) vn res last'
    end
  end.

(** ** The readers *)

Definition initng_data_is_var (type : s_entry) (vn : option string) (d : data_head) : bool :=
  bool_decide (is_Some (initng_data_get_next_var (Some type) vn d None)).

(** 0 when there is no entry; [None] when the entry holds a string. *)
Definition initng_data_get_int_var (type : s_entry) (vn : option string) (d : data_head) : option Z :=
  match initng_data_get_next_var (Some type) vn d None with
  | Some current => t_i (d_t current)
  | None => Some 0
  end.

Definition initng_data_get_string_var (type : s_entry) (vn : option string) (head : data_head)
    : option string :=
  match initng_data_get_next_var (Some type) vn head None with
  | Some current => t_s (d_t current)
  | None => None
  end.

(** The string and the new value of [*cur]. *)
Definition initng_data_get_next_string_var (type : s_entry) (vn : option string) (d : data_head)
    (cur : option addr) : option string * option addr :=
  match initng_data_get_next_var (Some type) vn d cur with
  | Some current => (t_s (d_t current), Some (d_addr current))
  | None => (None, None)
  end.

Definition dh_entries (d : data_head) : list s_data :=
  match d with DH l => l | DH_res l _ => l end.

Definition initng_data_count_type (type : option s_entry) (d : data_head) : Z :=
  Z.of_nat (length (List.filter (fun c =>
    match type with None => true | Some t => same_entry (d_type c) t end) (dh_entries d))).

(** ** The writers *)

(** [initng_list_add(&(current->list), &d->head.list)]; an entry whose link
    fields are not zero is not added. *)
Definition data_list_add (c : s_data) (d : data_head) : data_head :=
  if d_linked c then d
  else match d with
       | DH l => DH (l ++ [c <| d_linked := true |>])
       | DH_res l res => DH_res (l ++ [c <| d_linked := true |>]) res
       end.

(** Write the union of the entry at address [a], wherever in the chain it is. *)
Fixpoint data_store (a : addr) (t : t_union) (d : data_head) : data_head :=
  let upd := map (fun c => if Pos.eqb (d_addr c) a then c <| d_t := t |> else c) in
  match d with
  | DH l => DH (upd l)
  | DH_res l res => DH_res (upd l) (data_store a t res)
  end.

(** The checks the setters start with: [None] is the early return. *)
Definition check_vn (type : s_entry) (vn : option string) : bool :=
  bool_decide (is_Some vn) || (e_dt_num (ent_type type) <? 50).

Definition initng_data_set_var (type : option s_entry) (vn : option string) (fresh : addr)
    (d : data_head) : data_head :=
  match type with
  | None => d
  | Some type =>
    let type := alias_walk type in
    if negb (check_vn type vn) then d
    else if negb (IT type SET) then d
    else if initng_data_is_var type vn d then d
    else data_list_add (SData fresh T_null type vn false) d
  end.

Definition initng_data_set_int_var (type : option s_entry) (vn : option string) (fresh : addr)
    (d : data_head) (value : Z) : data_head :=
  match type with
  | None => d
  | Some type =>
    let type := alias_walk type in
    if negb (check_vn type vn) then d
    else if negb (IT type INT) then d
    else match initng_data_get_next_var (Some type) vn d None with
         | Some current => data_store (d_addr current) (T_i value) d
         | None => data_list_add (SData fresh (T_i value) type vn false) d
         end
  end.

Definition initng_data_set_string_var (type : option s_entry) (vn : option string) (fresh : addr)
    (d : data_head) (string : string) : data_head :=
  match type with
  | None => d
  | Some type =>
    let type := alias_walk type in
    if negb (check_vn type vn) then d
    else if negb (IT type STRING) then d
    else match initng_data_get_next_var (Some type) vn d None with
         | Some current => data_store (d_addr current) (T_s string) d
         | None => data_list_add (SData fresh (T_s string) type vn false) d
         end
  end.

Definition initng_data_set_another_string_var (type : option s_entry) (vn : option string)
    (fresh : addr) (d : data_head) (string : string) : data_head :=
  match type with
  | None => d
  | Some type =>
    let type := alias_walk type in
    if negb (check_vn type vn) then d
    else if negb (IT type STRINGS) then d
    else data_list_add (SData fresh (T_s string) type vn false) d
  end.

(** ** remove.c *)

(** dfree: unlink the entry at address [a] from whatever list it is on. *)
Fixpoint dfree (a : addr) (d : data_head) : data_head :=
  let del := List.filter (fun c => negb (Pos.eqb (d_addr c) a)) in
  match d with
  | DH l => DH (del l)
  | DH_res l res => DH_res (del l) (dfree a res)
  end.

Definition initng_data_remove_all (d : data_head) : data_head := DH [].

(** The loop of initng_data_remove_var; [None] when the fuel runs out. *)
Fixpoint remove_loop (fuel : nat) (type : s_entry) (vn : option string) (d : data_head)
    : option data_head :=
  match fuel with
  | O => None
  | S fuel =>
    match initng_data_get_next_var (Some type) vn d None with
    | None => Some d
    | Some current => remove_loop fuel type vn (dfree (d_addr current) d)
    end
  end.

(** All entries of the chain, in the order of the walk. *)
Fixpoint all_entries (d : data_head) : list s_data :=
  match d with
  | DH l => l
  | DH_res l res => l ++ all_entries res
  end.

(** One round per entry and one to see that none is left. *)
Definition initng_data_remove_var (type : s_entry) (vn : option string) (d : data_head)
    : option data_head :=
  remove_loop (S (length (all_entries d))) type vn d.

(** ** copy_all.c *)

(** [fresh] gives the address calloc returned for the copy [tmp] of an entry.
    The memcpy copies every field of the struct, the link fields included, and
    the strings are duplicated. *)
Definition initng_data_copy_all (fresh : s_data -> addr) (from to : data_head) : data_head :=
  foldl (fun to current =>
      let tmp := current <| d_addr := fresh current |> in
      data_list_add tmp to)
    to (reverse (dh_entries from)).

(** ** Walking all matches, as [while ((c = get_next_var(type, vn, d, c)))] does *)

Fixpoint collect_vars (fuel : nat) (type : option s_entry) (vn : option string) (d : data_head)
    (last : option addr) : list s_data :=
  match fuel with
  | O => []
  | S fuel =>
    match initng_data_get_next_var type vn d last with
    | None => []
    | Some c => c :: collect_vars fuel type vn d (Some (d_addr c))
    end
  end.

Arguments data_list_add : simpl never.
Arguments data_store : simpl never.

(** ** Lemmas *)

Definition data_ok (d : data_head) : Prop := NoDup (map d_addr (all_entries d)).

Lemma alias_walk_idemp t : alias_walk (alias_walk t) = alias_walk t.
Proof.
  revert t. fix IH 1. intros [a n ty ot [al|]]; simpl; [|done].
  case_decide; [apply IH|]. simpl. by rewrite decide_False.
Qed.

Lemma scan_entries_app type vn l1 l2 last :
  scan_entries type vn (l1 ++ l2) last =
  match scan_entries type vn l1 last with
  | (Some c, x) => (Some c, x)
  | (None, last') => scan_entries type vn l2 last'
  end.
Proof.
  revert last. induction l1 as [|c l1 IH]; intros last; simpl; [done|].
  destruct last as [a|]; [destruct (Pos.eqb _ _); apply IH|].
  destruct (entry_matches type vn c); [done|apply IH].
Qed.

(** The recursion into [res] searches the concatenation of the chain. *)
Lemma get_next_var_scan type vn d last :
  initng_data_get_next_var type vn d last =
  fst (scan_entries (alias_walk <$> type) vn (all_entries d) last).
Proof.
  revert type last. induction d as [l|l res IH]; intros type last; simpl; [done|].
  rewrite scan_entries_app. destruct (scan_entries _ vn l last) as [[c|] x]; [done|].
  rewrite IH. do 2 f_equal. destruct type; simpl; [|done]. by rewrite alias_walk_idemp.
Qed.

Lemma scan_entries_find type vn l :
  fst (scan_entries type vn l None) = List.find (entry_matches type vn) l.
Proof. induction l as [|c l IH]; simpl; [done|]. by destruct (entry_matches type vn c). Qed.

Lemma get_next_var_first type vn d :
  initng_data_get_next_var type vn d None =
  List.find (entry_matches (alias_walk <$> type) vn) (all_entries d).
Proof. by rewrite get_next_var_scan, scan_entries_find. Qed.

(** Going on from an entry of the list. *)
Lemma scan_entries_resume type vn l1 c l2 :
  d_addr c ∉ map d_addr l1 ->
  scan_entries type vn (l1 ++ c :: l2) (Some (d_addr c)) = scan_entries type vn l2 None.
Proof.
  intros Hc. rewrite scan_entries_app.
  assert (scan_entries type vn l1 (Some (d_addr c)) = (None, Some (d_addr c))) as ->.
  { induction l1 as [|x l1 IH]; simpl in *; [done|].
    destruct (Pos.eqb_spec (d_addr x) (d_addr c)); [set_solver|]. apply IH. set_solver. }
  simpl. by rewrite Pos.eqb_refl.
Qed.

Lemma get_next_var_resume type vn d l1 c l2 :
  data_ok d -> all_entries d = l1 ++ c :: l2 ->
  initng_data_get_next_var type vn d (Some (d_addr c)) =
  List.find (entry_matches (alias_walk <$> type) vn) l2.
Proof.
  unfold data_ok. intros Hnd E. rewrite get_next_var_scan, E, scan_entries_resume, scan_entries_find; [done|].
  rewrite E, map_app in Hnd. apply NoDup_app in Hnd as (_ & Hd & _).
  intros Hin. apply (Hd _ Hin). simpl. by left.
Qed.

(** A walk stands behind the entries [l1]: [last] is the last of them. *)
Definition stands_behind (l1 : list s_data) (last : option addr) : Prop :=
  match last with
  | None => l1 = []
  | Some a => exists l0 c, l1 = l0 ++ [c] /\ d_addr c = a
  end.

Lemma get_next_var_behind type vn d l1 l2 last :
  data_ok d -> all_entries d = l1 ++ l2 -> stands_behind l1 last ->
  initng_data_get_next_var type vn d last = List.find (entry_matches (alias_walk <$> type) vn) l2.
Proof.
  intros Hok E Hl. destruct last as [a|].
  - destruct Hl as (l0 & c & -> & <-). rewrite <- app_assoc in E. by apply (get_next_var_resume _ _ _ l0).
  - cbn in Hl. subst l1. rewrite get_next_var_first. by rewrite E.
Qed.

Lemma collect_from type vn d l1 l2 fuel last :
  data_ok d -> all_entries d = l1 ++ l2 -> (length l2 < fuel)%nat -> stands_behind l1 last ->
  collect_vars fuel type vn d last =
  List.filter (entry_matches (alias_walk <$> type) vn) l2.
Proof.
  revert l1 l2 last. induction fuel as [|fuel IH]; intros l1 l2 last Hok E Hf Hl; [lia|].
  simpl. rewrite (get_next_var_behind _ _ _ _ _ _ Hok E Hl). destruct (List.find _ l2) as [c|] eqn:Ef.
  - destruct (find_split _ _ _ Ef) as (m1 & m2 & -> & Hm & Hc).
    rewrite filter_app_nil by done. simpl. rewrite Hc. f_equal.
    apply (IH (l1 ++ m1 ++ [c])); [done| | |].
    + by rewrite E, <- !app_assoc.
    + rewrite length_app in Hf. simpl in Hf. lia.
    + exists (l1 ++ m1), c. by rewrite app_assoc.
  - symmetry. by apply find_filter_nil.
Qed.

Lemma all_entries_store a t d :
  all_entries (data_store a t d) =
  map (fun c => if Pos.eqb (d_addr c) a then c <| d_t := t |> else c) (all_entries d).
Proof. induction d as [l|l res IH]; simpl; [done|]. by rewrite IH, map_app. Qed.

Lemma all_entries_dfree a d :
  all_entries (dfree a d) = List.filter (fun c => negb (Pos.eqb (d_addr c) a)) (all_entries d).
Proof. induction d as [l|l res IH]; simpl; [done|]. by rewrite IH, List.filter_app. Qed.

Lemma entry_matches_store type vn a t c :
  entry_matches type vn (if Pos.eqb (d_addr c) a then c <| d_t := t |> else c)
  = entry_matches type vn c.
Proof. by destruct (Pos.eqb _ _). Qed.

Lemma get_next_var_store type vn a t d :
  initng_data_get_next_var type vn (data_store a t d) None =
  (fun c => if Pos.eqb (d_addr c) a then c <| d_t := t |> else c)
    <$> initng_data_get_next_var type vn d None.
Proof.
  rewrite !get_next_var_first, all_entries_store.
  apply find_map_stable. intros c. apply entry_matches_store.
Qed.

(** An entry that the search accepts and that was not there is found once added. *)
Lemma get_next_var_added type vn c d :
  initng_data_get_next_var type vn d None = None ->
  entry_matches (alias_walk <$> type) vn c = true -> d_linked c = false ->
  initng_data_get_next_var type vn (data_list_add c d) None = Some (c <| d_linked := true |>).
Proof.
  rewrite !get_next_var_first. intros Hn Hc Hl. unfold data_list_add. rewrite Hl.
  destruct d as [l|l res]; simpl in *.
  - apply (find_insert_mid _ _ _ []); [by rewrite app_nil_r|done].
  - rewrite <- app_assoc. by apply find_insert_mid.
Qed.

Lemma entry_matches_self type vn fresh t b :
  entry_matches (Some (alias_walk type)) vn (SData fresh t (alias_walk type) vn b) = true.
Proof.
  unfold entry_matches, same_entry. simpl. rewrite Pos.eqb_refl. destruct vn; [|done].
  by rewrite String.eqb_refl.
Qed.

Lemma entry_matches_other type1 type2 vn vn2 fresh t b :
  same_entry (alias_walk type1) (alias_walk type2) = false ->
  entry_matches (Some (alias_walk type2)) vn2 (SData fresh t (alias_walk type1) vn b) = false.
Proof. intros H. unfold entry_matches. simpl. by rewrite H. Qed.

Lemma get_next_var_add_other type vn c d :
  entry_matches (alias_walk <$> type) vn c = false ->
  initng_data_get_next_var type vn (data_list_add c d) None =
  initng_data_get_next_var type vn d None.
Proof.
  rewrite !get_next_var_first. intros Hc. unfold data_list_add.
  destruct (d_linked c); [done|]. destruct d as [l|l res]; simpl.
  - rewrite find_insert_skip by done. by rewrite app_nil_r.
  - rewrite <- app_assoc. simpl. by rewrite find_insert_skip.
Qed.

(** The entry that matches a type has that type. *)
Lemma get_next_var_matches type vn d c :
  initng_data_get_next_var type vn d None = Some c ->
  c ∈ all_entries d /\ entry_matches (alias_walk <$> type) vn c = true.
Proof.
  rewrite get_next_var_first. intros H. apply List.find_some in H as [Hin ?].
  split; [by apply list_elem_of_In|done].
Qed.

Lemma data_ok_inj d c1 c2 :
  data_ok d -> c1 ∈ all_entries d -> c2 ∈ all_entries d -> d_addr c1 = d_addr c2 -> c1 = c2.
Proof.
  unfold data_ok. generalize (all_entries d) as l. induction l as [|x l IH]; simpl; [set_solver|].
  intros [Hx Hnd]%NoDup_cons H1 H2 E.
  apply elem_of_cons in H1 as [->|H1]; apply elem_of_cons in H2 as [->|H2]; auto.
  - destruct Hx. rewrite E. by apply list_elem_of_fmap_2.
  - destruct Hx. rewrite <- E. by apply list_elem_of_fmap_2.
Qed.

(** Overwriting an entry of one type does not show through another type. *)
Lemma get_next_var_store_other type1 vn1 type2 vn2 d c t :
  data_ok d ->
  initng_data_get_next_var (Some type1) vn1 d None = Some c ->
  same_entry (alias_walk type1) (alias_walk type2) = false ->
  initng_data_get_next_var (Some type2) vn2 (data_store (d_addr c) t d) None =
  initng_data_get_next_var (Some type2) vn2 d None.
Proof.
  intros Hok Hc Hne. rewrite get_next_var_store.
  destruct (initng_data_get_next_var (Some type2) vn2 d None) as [c2|] eqn:E2; simpl; [|done].
  destruct (Pos.eqb_spec (d_addr c2) (d_addr c)) as [Ea|]; [|done]. exfalso.
  apply get_next_var_matches in Hc as [Hin M1]. apply get_next_var_matches in E2 as [Hin2 M2].
  assert (c2 = c) as -> by (by apply (data_ok_inj d)).
  unfold entry_matches, same_entry in *. simpl in *.
  apply andb_prop in M1 as [M1 _]. apply andb_prop in M2 as [M2 _].
  apply Pos.eqb_eq in M1, M2. apply Pos.eqb_neq in Hne. congruence.
Qed.

(** What the overwriting setters share: overwrite the entry that the search
    finds, or add one. *)
Definition store_or_add (type : s_entry) (vn : option string) (fresh : addr) (t : t_union)
    (d : data_head) : data_head :=
  match initng_data_get_next_var (Some type) vn d None with
  | Some current => data_store (d_addr current) t d
  | None => data_list_add (SData fresh t type vn false) d
  end.

Lemma store_or_add_read type vn fresh t d :
  data_ok d ->
  let d' := store_or_add (alias_walk type) vn fresh t d in
  (exists c, initng_data_get_next_var (Some type) vn d' None = Some c /\ d_t c = t) /\
  forall type2 vn2, same_entry (alias_walk type) (alias_walk type2) = false ->
    initng_data_get_next_var (Some type2) vn2 d' None =
    initng_data_get_next_var (Some type2) vn2 d None.
Proof.
  intros Hok. cbv zeta. unfold store_or_add.
  assert (initng_data_get_next_var (Some (alias_walk type)) vn d None =
          initng_data_get_next_var (Some type) vn d None) as ->
    by (rewrite !get_next_var_first; simpl; by rewrite alias_walk_idemp).
  destruct (initng_data_get_next_var (Some type) vn d None) as [c|] eqn:E; split.
  - rewrite get_next_var_store, E. simpl. rewrite Pos.eqb_refl. by eexists.
  - intros type2 vn2 Hne. by apply (get_next_var_store_other type vn).
  - rewrite get_next_var_added; [by eexists|done|apply entry_matches_self|done].
  - intros type2 vn2 Hne. apply get_next_var_add_other. by apply entry_matches_other.
Qed.

Lemma filter_addr_split l1 c l2 :
  NoDup (map d_addr (l1 ++ c :: l2)) ->
  List.filter (fun x => negb (Pos.eqb (d_addr x) (d_addr c))) (l1 ++ c :: l2) = l1 ++ l2.
Proof.
  rewrite map_app. simpl. intros (H1 & H2 & H3)%NoDup_app. apply NoDup_cons in H3 as [H3 H4].
  rewrite List.filter_app. simpl. rewrite Pos.eqb_refl. simpl.
  assert (Hk : forall l, d_addr c ∉ map d_addr l ->
    List.filter (fun x => negb (Pos.eqb (d_addr x) (d_addr c))) l = l).
  { induction l as [|x l IH]; simpl; [done|]. intros Hn.
    destruct (Pos.eqb_spec (d_addr x) (d_addr c)); simpl; [set_solver|]. f_equal. apply IH. set_solver. }
  rewrite !Hk; [done|done|]. intros Hin. apply (H2 _ Hin). by left.
Qed.

Lemma remove_loop_spec fuel type vn d :
  data_ok d -> (length (all_entries d) < fuel)%nat ->
  exists d', remove_loop fuel type vn d = Some d' /\
    all_entries d' =
    List.filter (fun c => negb (entry_matches (Some (alias_walk type)) vn c)) (all_entries d).
Proof.
  revert d. induction fuel as [|fuel IH]; intros d Hok Hf; [lia|]. simpl.
  rewrite get_next_var_first. simpl.
  destruct (List.find _ (all_entries d)) as [c|] eqn:E.
  - destruct (find_split _ _ _ E) as (l1 & l2 & El & Hn & Hc).
    assert (Ed : all_entries (dfree (d_addr c) d) = l1 ++ l2).
    { rewrite all_entries_dfree, El. apply filter_addr_split. unfold data_ok in Hok. by rewrite El in Hok. }
    unfold data_ok in *. rewrite El in Hok, Hf. rewrite length_app in Hf. simpl in Hf.
    destruct (IH (dfree (d_addr c) d)) as (d' & Er & Ed').
    + unfold data_ok. rewrite Ed. rewrite map_app in *. simpl in Hok.
      apply NoDup_app in Hok as (H1 & H2 & H3). apply NoDup_cons in H3 as [_ H3].
      apply NoDup_app. split; [done|]. split; [|done]. intros a Ha Hb. apply (H2 a Ha). by right.
    + rewrite Ed, length_app. lia.
    + exists d'. split; [done|]. rewrite Ed', El, Ed.
      rewrite filter_negb_split by done. rewrite List.filter_app. f_equal.
      clear -Hn. induction l1 as [|y l1 IH]; simpl in *; [done|].
      destruct (entry_matches _ _ y); [done|]. simpl. by rewrite IH.
  - exists d. split; [done|]. apply find_filter_nil in E.
    induction (all_entries d) as [|y l IHl]; simpl in *; [done|].
    destruct (entry_matches _ _ y); [done|]. simpl. f_equal. apply IHl; [|done].
    lia.
Qed.

(** ** Theorems *)

(** Iterating [initng_data_get_next_var] the way the callers do, each time
    with the entry got before, reaches exactly the entries of the chain that
    match the type (aliases resolved) and the variable name, each once and
    oldest first. *)
Theorem get_next_var_enumerates type vn d fuel :
  data_ok d -> (length (all_entries d) < fuel)%nat ->
  collect_vars fuel type vn d None =
  List.filter (entry_matches (alias_walk <$> type) vn) (all_entries d).
Proof. intros Hok Hf. by apply (collect_from _ _ _ [] (all_entries d)). Qed.

(** [initng_data_set_string_var] followed by [initng_data_get_string_var]
    returns the string, whether an older value was overwritten or an entry
    added, and variables of other types read as before. *)
Theorem set_string_get_string type vn fresh d s :
  data_ok d -> IT (alias_walk type) STRING = true -> check_vn (alias_walk type) vn = true ->
  let d' := initng_data_set_string_var (Some type) vn fresh d s in
  initng_data_get_string_var type vn d' = Some s /\
  forall type2 vn2, same_entry (alias_walk type) (alias_walk type2) = false ->
    initng_data_get_string_var type2 vn2 d' = initng_data_get_string_var type2 vn2 d.
Proof.
  intros Hok Hit Hvn. unfold initng_data_set_string_var, initng_data_get_string_var.
  cbv zeta. rewrite Hit, Hvn. simpl. fold (store_or_add (alias_walk type) vn fresh (T_s s) d).
  destruct (store_or_add_read type vn fresh (T_s s) d Hok) as [(c & -> & ->) Ho].
  split; [done|]. intros type2 vn2 Hne. by rewrite (Ho _ _ Hne).
Qed.

(** [initng_data_set_int_var] followed by [initng_data_get_int_var] returns
    the value, and variables of other types read as before. *)
Theorem set_int_get_int type vn fresh d i :
  data_ok d -> IT (alias_walk type) INT = true -> check_vn (alias_walk type) vn = true ->
  let d' := initng_data_set_int_var (Some type) vn fresh d i in
  initng_data_get_int_var type vn d' = Some i /\
  forall type2 vn2, same_entry (alias_walk type) (alias_walk type2) = false ->
    initng_data_get_int_var type2 vn2 d' = initng_data_get_int_var type2 vn2 d.
Proof.
  intros Hok Hit Hvn. unfold initng_data_set_int_var, initng_data_get_int_var.
  cbv zeta. rewrite Hit, Hvn. simpl. fold (store_or_add (alias_walk type) vn fresh (T_i i) d).
  destruct (store_or_add_read type vn fresh (T_i i) d Hok) as [(c & -> & ->) Ho].
  split; [done|]. intros type2 vn2 Hne. by rewrite (Ho _ _ Hne).
Qed.

(** [initng_data_remove_var] terminates and removes exactly the matching
    entries; the others stay, in their order. *)
Theorem remove_var_removes type vn d :
  data_ok d ->
  exists d', initng_data_remove_var type vn d = Some d' /\
    all_entries d' =
    List.filter (fun c => negb (entry_matches (Some (alias_walk type)) vn c)) (all_entries d) /\
    initng_data_is_var type vn d' = false.
Proof.
  intros Hok. unfold initng_data_remove_var.
  destruct (remove_loop_spec (S (length (all_entries d))) type vn d Hok) as (d' & E & Ed); [lia|].
  exists d'. split; [done|]. split; [done|]. unfold initng_data_is_var.
  rewrite get_next_var_first, Ed. simpl.
  by rewrite find_filter_negb.
Qed.

(** An entry set with [initng_data_set_var] is there afterwards, setting it
    again changes nothing, and nothing is set when the type is no SET type. *)
Theorem set_var_is_var type vn fresh d :
  check_vn (alias_walk type) vn = true ->
  let d' := initng_data_set_var (Some type) vn fresh d in
  initng_data_is_var type vn d' = (IT (alias_walk type) SET || initng_data_is_var type vn d) /\
  (forall fresh', initng_data_set_var (Some type) vn fresh' d' = d').
Proof.
  intros Hvn. cbv zeta. unfold initng_data_set_var, initng_data_is_var.
  cbv zeta. rewrite Hvn. simpl. destruct (IT (alias_walk type) SET) eqn:Hit; simpl; [|done].
  assert (Ew : forall d0, initng_data_get_next_var (Some (alias_walk type)) vn d0 None =
                          initng_data_get_next_var (Some type) vn d0 None)
    by (intros d0; rewrite !get_next_var_first; simpl; by rewrite alias_walk_idemp).
  rewrite !Ew.
  destruct (initng_data_get_next_var (Some type) vn d None) as [c|] eqn:E; simpl.
  - rewrite E. split; [done|]. done.
  - assert (Ha : initng_data_get_next_var (Some type) vn
      (data_list_add (SData fresh T_null (alias_walk type) vn false) d) None
      = Some (SData fresh T_null (alias_walk type) vn true))
      by (apply get_next_var_added; [done|apply entry_matches_self|done]).
    rewrite Ha. split; [done|]. intros f. by rewrite ?Ew, ?Ha.
Qed.

(** Every entry on a list has its links set. *)
Definition data_linked (d : data_head) : Prop := Forall (fun c => d_linked c = true) (all_entries d).

Lemma data_linked_add c d : data_linked d -> data_linked (data_list_add c d).
Proof.
  unfold data_linked, data_list_add. destruct (d_linked c); [done|].
  destruct d as [l|l res]; simpl; rewrite !Forall_app; [|rewrite Forall_singleton]; naive_solver.
Qed.

Lemma data_linked_store a t d : data_linked d -> data_linked (data_store a t d).
Proof.
  unfold data_linked. rewrite all_entries_store. intros H. apply Forall_map.
  eapply Forall_impl; [exact H|]. intros c Hc. simpl. by destruct (Pos.eqb _ _).
Qed.

(** [initng_data_copy_all] copies nothing: the memcpy of an entry takes the
    links of the original along, which are set, and [initng_list_add] refuses
    an entry whose links are set.  The setters keep all entries linked. *)
Theorem copy_all_copies_nothing from type vn fresh str :
  data_linked from ->
  (forall fresh to, initng_data_copy_all fresh from to = to) /\
  data_linked (initng_data_set_var type vn fresh from) /\
  data_linked (initng_data_set_string_var type vn fresh from str) /\
  data_linked (initng_data_set_another_string_var type vn fresh from str).
Proof.
  intros Hl. split.
  - intros f to. unfold initng_data_copy_all. assert (Forall (fun c => d_linked c = true) (reverse (dh_entries from))) as H.
    { apply Forall_reverse. unfold data_linked in Hl. destruct from; simpl in *; [done|].
      by apply Forall_app in Hl as [? _]. }
    revert H. generalize (reverse (dh_entries from)) as l. induction l as [|c l IH]; simpl; [done|].
    intros [Hc Hr]%Forall_cons. unfold data_list_add at 2. simpl. rewrite Hc. by apply IH.
  - unfold initng_data_set_var, initng_data_set_string_var, initng_data_set_another_string_var.
    destruct type; [|done]. cbv zeta.
    repeat split; repeat case_match; auto using data_linked_add, data_linked_store.
Qed.
