(* ===== verification/CString.v ===== *)
(** * Strings: src/main/string/, src/main/hash/, src/main/env/match.c,
    src/main/config/opt.c

    A C string is the list of its bytes without the terminating NUL.  The
    functions of the C library that the code calls come first.  Where a
    function works on the memory block of the string ([fix_escapes]) or may run
    past its end ([split_delim]), the block is explicit and a read outside it
    is a fault. *)
From S2P Require Import Prelude.
From Stdlib Require Import Ascii String.
From stdpp Require Import prelude strings.
Local Open Scope Z_scope.

Notation chars := (list ascii).
Definition chars_of (s : string) : chars := list_ascii_of_string s.

Definition ascii_eqb (a b : ascii) : bool := Ascii.eqb a b.
Definition mem_char (c : ascii) (set : chars) : bool := List.existsb (Ascii.eqb c) set.

Definition c_slash : ascii := "/".
Definition c_space : ascii := " ".
Definition c_tab : ascii := "009".
Definition c_nl : ascii := "010".
Definition c_quote : ascii := "034".
Definition c_lbrace : ascii := "{".
Definition c_rbrace : ascii := "}".
Definition c_backslash : ascii := "\".
Definition c_nul : ascii := "000".
Definition c_star : ascii := "*".
Definition c_question : ascii := "?".

(** ** The C library *)

(** The index of the first and of the last occurrence of [c]. *)
Fixpoint strchr (s : chars) (c : ascii) : option nat :=
  match s with
  | [] => None
  | x :: s => if Ascii.eqb x c then Some O else S <$> strchr s c
  end.

Fixpoint strrchr (s : chars) (c : ascii) : option nat :=
  match s with
  | [] => None
  | x :: s =>
    match strrchr s c with
    | Some i => Some (S i)
    | None => if Ascii.eqb x c then Some O else None
    end
  end.

(** The length of the initial part of [s] without a char of [reject]. *)
Fixpoint strcspn (s reject : chars) : nat :=
  match s with
  | [] => O
  | x :: s => if mem_char x reject then O else S (strcspn s reject)
  end.

Fixpoint is_prefix (n s : chars) : bool :=
  match n, s with
  | [], _ => true
  | x :: n, y :: s => Ascii.eqb x y && is_prefix n s
  | _ :: _, [] => false
  end.

(** The index of the first occurrence of the string [n] in [s]. *)
Fixpoint strstr (s n : chars) : option nat :=
  if is_prefix n s then Some O
  else match s with
       | [] => None
       | _ :: s => S <$> strstr s n
       end.

(** strtok_r: skip the delimiters, return the token up to the next delimiter
    and the rest to go on with; [None] when only delimiters are left. *)
Fixpoint skip_delim (s delim : chars) : chars :=
  match s with
  | [] => []
  | x :: s' => if mem_char x delim then skip_delim s' delim else s
  end.

Definition strtok_r (s delim : chars) : option (chars * chars) :=
  match skip_delim s delim with
  | [] => None
  | s' => let n := strcspn s' delim in Some (take n s', drop (S n) s')
  end.

(** ** hash/hash.c, for x86_64 where hash_t is 64 bits wide and char is signed *)

Definition FNV_INIT : Z := 14695981039346656037.
Definition FNV_PRIME : Z := 1099511628211.

Definition hash_mod : Z := 2 ^ 64.

(** The value of a byte as a signed char, and its conversion to hash_t. *)
Definition schar (c : ascii) : Z :=
  let n := Z.of_nat (nat_of_ascii c) in if n <? 128 then n else n - 256.

Definition fnv_pass (hval : Z) (octet : ascii) : Z :=
  let hval := Z.lxor hval (schar octet mod hash_mod) in
  (hval * FNV_PRIME) mod hash_mod.

Fixpoint hash_loop (hval : Z) (s : chars) : Z :=
  match s with
  | [] => hval
  | c :: s => hash_loop (fnv_pass hval c) s
  end.

Definition initng_hash_str (str : string) : Z := hash_loop FNV_INIT (chars_of str).

(** [len] bytes from [buf], which must hold that many. *)
Definition initng_hash_buf (buf : chars) (len : nat) : option Z :=
  if (len <=? length buf)%nat then Some (hash_loop FNV_INIT (take len buf)) else None.

(** ** string/path.c *)

Definition initng_string_basename (s : chars) : chars :=
  match strrchr s c_slash with
  | None => s
  | Some i => drop (S i) s
  end.

Definition initng_string_dirname (s : chars) : chars :=
  match strrchr s c_slash with
  | None => s
  | Some i => take i s
  end.

(** The new string and the return value. *)
Definition initng_string_strip_end (s : chars) : chars * Z :=
  match strrchr s c_slash with
  | Some i => (take i s, TRUE)
  | None => (s, FALSE)
  end.

(** ** string/dup.c *)

(** JUMP_SPACES of string.h *)
Fixpoint JUMP_SPACES (s : chars) : chars :=
  match s with
  | x :: s' => if Ascii.eqb x c_space || Ascii.eqb x c_tab then JUMP_SPACES s' else s
  | [] => []
  end.

(** A part enclosed by [close]; the string stands after the opening char. *)
Definition dup_enclosed (close : ascii) (s : chars) : option chars * chars :=
  let i := strcspn s [close] in
  if (i <? 1)%nat then (None, s)
  else
    let td := take i s in
    let s := drop i s in
    match s with
    | x :: s' => if Ascii.eqb x close then (Some td, s') else (Some td, s)
    | [] => (Some td, s)
    end.

(** The word that was copied, and the new value of the string pointer. *)
Definition dup_until (stop : chars) (string : chars) : option chars * chars :=
  let s := JUMP_SPACES string in
  match s with
  | [] => (None, s)
  | x :: s' =>
    if Ascii.eqb x c_nl then (None, s)
    else if Ascii.eqb x c_quote then dup_enclosed c_quote s'
    else if Ascii.eqb x c_lbrace then dup_enclosed c_rbrace s'
    else
      let i := strcspn s stop in
      if (i <? 1)%nat then (None, s)
      else (Some (take i s), drop i s)
  end.

Definition initng_string_dup_next_word (string : chars) : option chars * chars :=
  dup_until [c_space; c_tab; c_nl; ";"%char; ","%char] string.

Definition initng_string_dup_line (string : chars) : option chars * chars :=
  dup_until [c_nl; ";"%char] string.

(** ** string/fix_escapes.c *)

(** What the char after a backslash stands for. *)
Definition escape_char (c : ascii) : ascii :=
  match c with
  | "a"%char => "007" | "b"%char => "008" | "f"%char => "012" | "n"%char => "010"
  | "r"%char => "013" | "t"%char => "009" | "v"%char => "011"
  | _ => c
  end.

(** The loop on the memory block [str], which includes the terminating NUL and
    whatever follows it in the allocation.  Indices outside are a fault. *)
Fixpoint fix_escapes_loop (fuel : nat) (str : chars) (s d : nat) : outcome chars :=
  match fuel with
  | O => NoFuel
  | S fuel =>
    match str !! s with
    | None => Fault
    | Some x =>
      if Ascii.eqb x c_nul then
        match str !! d with
        | None => Fault
        | Some _ => Done (<[d := c_nul]> str)
        end
      else if negb (Ascii.eqb x c_backslash) then
        fix_escapes_loop fuel (if (s =? d)%nat then str else <[d := x]> str) (S s) (S d)
      else
        match str !! S s with
        | None => Fault
        | Some y => fix_escapes_loop fuel (<[d := escape_char y]> str) (S (S s)) (S d)
        end
    end
  end.

Definition initng_string_fix_escapes (str : option chars) : outcome (option chars) :=
  match str with
  | None => Done None
  | Some str =>
    match fix_escapes_loop (S (length str)) str 0 0 with
    | Done r => Done (Some r)
    | NoFuel => NoFuel
    | Fault => Fault
    end
  end.

(** ** string/replace.c: the bytes written to [dest] *)

Fixpoint replace_loop (fuel : nat) (last n r : chars) : outcome chars :=
  match fuel with
  | O => NoFuel
  | S fuel =>
    match strstr last n with
    | None => Done last
    | Some p =>
      match replace_loop fuel (drop (p + length n) last) n r with
      | Done rest => Done (take p last ++ r ++ rest)
      | NoFuel => NoFuel
      | Fault => Fault
      end
    end
  end.

Definition initng_string_replace (fuel : nat) (src n r : chars) : outcome chars :=
  replace_loop fuel src n r.

(** ** string/split_delim.c *)

Definition CHUNK : nat := 16.

(** The loop of lines 62-63: a string without a char outside [delim] is run
    over to its end and beyond, since strcspn is 0 at the NUL too. *)
Fixpoint split_skip (string delim : chars) : outcome chars :=
  match string with
  | [] => Fault
  | x :: s => if mem_char x delim then split_skip s delim else Done string
  end.

(** [array] is the part of the array that is filled, [array_size] what is
    allocated; a store outside is a fault. *)
Definition array_store (array : list chars) (array_size : nat) (tok : chars) : outcome (list chars) :=
  if (length array <? array_size)%nat then Done (array ++ [tok]) else Fault.

Fixpoint split_loop (fuel : nat) (saveptr delim : chars) (array : list chars) (array_size : nat)
    : outcome (list chars * nat) :=
  match fuel with
  | O => NoFuel
  | S fuel =>
    match strtok_r saveptr delim with
    | None => Done (array, array_size)
    | Some (tok, saveptr) =>
      match array_store array array_size tok with
      | Done array =>
        let array_size := if (array_size <=? length array)%nat then (array_size + CHUNK)%nat else array_size in
        split_loop fuel saveptr delim array array_size
      | NoFuel => NoFuel
      | Fault => Fault
      end
    end
  end.

(** The strings of the array and [*argc].  The first strtok_r cannot fail after
    [split_skip]; [array[i] = NULL] must be inside the array. *)
Definition initng_string_split_delim (string : option chars) (delim : chars)
    : outcome (option (list chars * nat)) :=
  match string with
  | None => Done None
  | Some string =>
    match split_skip string delim with
    | Done dest =>
      match strtok_r dest delim with
      | None => Fault
      | Some (tok, saveptr) =>
        match split_loop (S (length saveptr)) saveptr delim [tok] CHUNK with
        | Done (array, array_size) =>
          if (length array <? array_size)%nat then Done (Some (array, S (length array))) else Fault
        | NoFuel => NoFuel
        | Fault => Fault
        end
      end
    | NoFuel => NoFuel
    | Fault => Fault
    end
  end.

(** ** string/match.c *)

Definition count_char (c : ascii) (s : chars) : nat := length (List.filter (Ascii.eqb c) s).

Section match_.
(** [fnmatch(pattern, string, FNM_CASEFOLD) == 0], from fnmatch.h. *)
Variable fnmatch : chars -> chars -> bool.

Definition initng_string_match (string pattern : chars) : bool :=
  if mem_char c_star string || mem_char c_question string then false
  else if negb (fnmatch pattern string) then false
  else (count_char c_slash string =? count_char c_slash pattern)%nat.

(** common/blacklist.c: is there an argument "-pattern" for the service? *)
Definition initng_common_service_blacklisted (argv : list chars) (name : chars) : bool :=
  List.existsb (fun p =>
    match p with
    | c :: p => Ascii.eqb c "-" && (bool_decide (name = p) || initng_string_match name p)
    | [] => false
    end) argv.
End match_.

Fixpoint strip_wildcards (pattern : chars) : chars :=
  match pattern with
  | x :: p => if Ascii.eqb x c_star || Ascii.eqb x c_question then strip_wildcards p else pattern
  | [] => []
  end.

(** The loop of lines 120-121: cut at the last '*', or '?', until none is left. *)
Fixpoint trunk_loop (fuel : nat) (copy : chars) : option chars :=
  match fuel with
  | O => None
  | S fuel =>
    match strrchr copy c_star with
    | Some i => trunk_loop fuel (take i copy)
    | None =>
      match strrchr copy c_question with
      | Some i => trunk_loop fuel (take i copy)
      | None => Some copy
      end
    end
  end.

Definition initng_string_match_in_service (string pattern : chars) : option bool :=
  if mem_char c_slash pattern then Some false
  else
    let pattern := strip_wildcards pattern in
    if bool_decide (is_Some (strstr string pattern)) then Some true
    else if negb (mem_char c_star pattern) && negb (mem_char c_question pattern) then Some false
    else
      match trunk_loop (S (length pattern)) pattern with
      | None => None
      | Some copy => Some (bool_decide (is_Some (strstr string copy)))
      end.

(** ** env/match.c *)

Fixpoint env_same_loop (var1 var2 : chars) : bool :=
  match var1, var2 with
  | [], [] => true
  | [], _ :: _ => false
  | x :: _, [] => false
  | x :: v1, y :: v2 =>
    if negb (Ascii.eqb x "=") && Ascii.eqb x y then env_same_loop v1 v2 else Ascii.eqb x y
  end.

Definition initng_env_is_same_env_var (var1 var2 : option chars) : Z :=
  match var1, var2 with
  | Some v1, Some v2 => of_bool (env_same_loop v1 v2)
  | _, _ => 0
  end.

(** ** config/opt.c *)

(** The part after the first '=' or, when there is none, the first ':'; the
    string is cut there. *)
Definition split_opt (str : chars) : chars * option chars :=
  match strchr str "=" with
  | Some i => (take i str, Some (drop (S i) str))
  | None =>
    match strchr str ":" with
    | Some i => (take i str, Some (drop (S i) str))
    | None => (str, None)
    end
  end.

(** The table is a list of names with their ids; -1 when the name is not there. *)
Definition initng_config_opt_get (opts : list (Z * chars)) (str : chars) : Z * option chars :=
  let '(name, val) := split_opt str in
  (match List.find (fun o => bool_decide (snd o = name)) opts with
   | Some (id, _) => id
   | None => -1
   end, val).

(** ** Reference definitions *)

(** The escapes of C, which stand for the codes from 7 on in this order; a
    backslash before any other char stands for that char. *)
Definition c_escapes : chars := chars_of "abtnvfr".
Fixpoint escape_code (y : ascii) (code : nat) (table : chars) : ascii :=
  match table with
  | [] => y
  | x :: table => if Ascii.eqb x y then ascii_of_nat code else escape_code y (S code) table
  end.
Definition resolved (y : ascii) : ascii := escape_code y 7 c_escapes.

(** Escapes resolved on the string itself; [None] when it ends in a backslash
    that is not itself escaped. *)
Fixpoint unescape (s : chars) : option chars :=
  match s with
  | [] => Some []
  | x :: s' =>
    if Ascii.eqb x c_backslash then
      match s' with
      | [] => None
      | y :: s'' => cons (resolved y) <$> unescape s''
      end
    else cons x <$> unescape s'
  end.

(** The C string in a block: the bytes before the first NUL. *)
Fixpoint c_string (block : chars) : chars :=
  match block with
  | [] => []
  | x :: b => if Ascii.eqb x c_nul then [] else x :: c_string b
  end.

(** The words of [s] between delimiters, by one pass over the chars. *)
Fixpoint words_from (cur s delim : chars) : list chars :=
  match s with
  | [] => if bool_decide (cur = []) then [] else [cur]
  | x :: s =>
    if mem_char x delim then
      if bool_decide (cur = []) then words_from [] s delim else cur :: words_from [] s delim
    else words_from (cur ++ [x]) s delim
  end.
Definition words (s delim : chars) : list chars := words_from [] s delim.

(** FNV-1a as published: the octet is an unsigned byte. *)
Fixpoint fnv1a (hval : Z) (s : chars) : Z :=
  match s with
  | [] => hval
  | c :: s => fnv1a ((Z.lxor hval (Z.of_nat (nat_of_ascii c)) * FNV_PRIME) mod hash_mod) s
  end.

(** ** Lemmas *)

Lemma strrchr_Some s c i :
  strrchr s c = Some i ->
  s = take i s ++ c :: drop (S i) s /\ c ∉ drop (S i) s.
Proof.
  revert i. induction s as [|x s IH]; intros i; simpl; [done|].
  destruct (strrchr s c) as [j|] eqn:E.
  - intros [= <-]. destruct (IH j eq_refl) as [Hs Hn]. simpl. split; [by f_equal|done].
  - destruct (Ascii.eqb_spec x c) as [->|]; [|done]. intros [= <-]. simpl.
    split; [by rewrite drop_0|]. rewrite drop_0. clear IH. induction s as [|y s IH]; [set_solver|].
    simpl in E. destruct (strrchr s c); [done|]. destruct (Ascii.eqb_spec y c); [done|]. set_solver.
Qed.

Lemma strrchr_None s c : strrchr s c = None -> c ∉ s.
Proof.
  induction s as [|y s IH]; simpl; [set_solver|]. destruct (strrchr s c); [done|].
  destruct (Ascii.eqb_spec y c); [done|]. set_solver.
Qed.

Lemma insert_at_length {A} (out : list A) m t x : <[length out := x]> (out ++ m :: t) = (out ++ [x]) ++ t.
Proof. rewrite insert_app_r_alt by lia. rewrite Nat.sub_diag. simpl. by rewrite <- app_assoc. Qed.

Lemma snoc_cons {A} (mid : list A) x : exists m t, mid ++ [x] = m :: t.
Proof. destruct mid; simpl; eauto. Qed.

(** Store [x] at the end of [out] while [mid ++ [z]] is what was read there. *)
Lemma store_step (out mid : chars) z x suf :
  exists t, <[length out := x]> (out ++ (mid ++ [z]) ++ suf) = (out ++ [x]) ++ t ++ suf /\
    length t = length mid.
Proof.
  destruct (snoc_cons mid z) as (m & t & E). exists t. rewrite E. simpl. rewrite insert_at_length.
  split; [done|]. apply (f_equal length) in E. rewrite length_app in E. simpl in E. lia.
Qed.

Lemma escape_char_resolved c : escape_char c = resolved c.
Proof. destruct c as [[] [] [] [] [] [] [] []]; reflexivity. Qed.

Lemma escape_char_nul c : c <> c_nul -> escape_char c <> c_nul.
Proof. intros H. unfold escape_char. repeat case_match; try done. Qed.

Lemma lookup_at {A} (l1 : list A) x l2 n : n = length l1 -> (l1 ++ x :: l2) !! n = Some x.
Proof. intros ->. by apply list_lookup_middle. Qed.

(** The loop with [out] written, [mid] read and overwritten later, [suf] to read. *)
Lemma fix_escapes_loop_inv fuel suf out mid rest u :
  (length suf < fuel)%nat -> c_nul ∉ suf -> unescape suf = Some u ->
  exists junk, fix_escapes_loop fuel (out ++ mid ++ suf ++ c_nul :: rest)
                 (length out + length mid) (length out) = Done (out ++ u ++ c_nul :: junk).
Proof.
  revert suf out mid u. induction fuel as [|fuel IH]; intros suf out mid u Hf Hn Hu; [lia|]. simpl.
  destruct suf as [|x suf]; simpl in Hu.
  - simplify_eq. simpl. rewrite app_assoc. rewrite lookup_at by (rewrite length_app; lia). simpl.
    destruct (lookup_lt_is_Some_2 (((out ++ mid) ++ c_nul :: rest)) (length out)) as [z ->];
      [rewrite !length_app; simpl; lia|].
    rewrite <- app_assoc. destruct mid as [|m mid]; simpl; rewrite insert_at_length, <- app_assoc; by eexists.
  - rewrite app_assoc. simpl. rewrite lookup_at by (rewrite length_app; lia).
    destruct (Ascii.eqb_spec x c_nul); [set_solver|]. rewrite <- app_assoc.
    destruct (Ascii.eqb_spec x c_backslash) as [->|]; simpl.
    + destruct suf as [|y suf]; [done|]. rewrite <- escape_char_resolved in Hu. destruct (unescape suf) as [u'|] eqn:E; simplify_eq/=.
      replace (out ++ mid ++ c_backslash :: y :: suf ++ c_nul :: rest)
        with ((out ++ mid ++ [c_backslash]) ++ y :: suf ++ c_nul :: rest) by (by rewrite <- !app_assoc).
      rewrite lookup_at by (rewrite !length_app; simpl; lia).
      replace ((out ++ mid ++ [c_backslash]) ++ y :: suf ++ c_nul :: rest)
        with (out ++ ((mid ++ [c_backslash]) ++ [y]) ++ suf ++ c_nul :: rest) by (by rewrite <- !app_assoc).
      destruct (store_step out (mid ++ [c_backslash]) y (escape_char y) (suf ++ c_nul :: rest)) as (t & -> & Ht).
      rewrite length_app in Ht. simpl in Ht.
      destruct (IH suf (out ++ [escape_char y]) t u') as [junk Hj]; [simpl in Hf; lia|set_solver|done|].
      exists junk. rewrite length_app in Hj. simpl in Hj. rewrite Ht in Hj.
      replace (S (S (length out + length mid)))%nat with (length out + 1 + (length mid + 1))%nat by lia.
      replace (S (length out))%nat with (length out + 1)%nat by lia. rewrite Hj.
      by rewrite <- app_assoc.
    + destruct (unescape suf) as [u'|] eqn:E; simplify_eq/=.
      replace (out ++ mid ++ x :: suf ++ c_nul :: rest)
        with (out ++ (mid ++ [x]) ++ suf ++ c_nul :: rest) by (by rewrite <- !app_assoc).
      destruct (store_step out mid x x (suf ++ c_nul :: rest)) as (t & Et & Ht).
      assert ((if (length out + length mid =? length out)%nat
               then out ++ (mid ++ [x]) ++ suf ++ c_nul :: rest
               else <[length out:=x]> (out ++ (mid ++ [x]) ++ suf ++ c_nul :: rest))
              = (out ++ [x]) ++ t ++ suf ++ c_nul :: rest) as ->.
      { destruct (Nat.eqb_spec (length out + length mid) (length out)); [|done].
        destruct mid; [|simpl in *; lia]. destruct t; [|done]. simpl. by rewrite <- app_assoc. }
      destruct (IH suf (out ++ [x]) t u') as [junk Hj]; [simpl in Hf; lia|set_solver|done|].
      exists junk. rewrite length_app in Hj. simpl in Hj. rewrite Ht in Hj.
      replace (S (length out + length mid))%nat with (length out + 1 + length mid)%nat by lia.
      replace (S (length out))%nat with (length out + 1)%nat by lia. rewrite Hj.
      by rewrite <- app_assoc.
Qed.

(** A lone backslash at the end of a block that ends with the NUL: the loop
    reads behind the block. *)
Lemma fix_escapes_loop_lone fuel suf out mid :
  (length suf < fuel)%nat -> c_nul ∉ suf -> unescape suf = None ->
  fix_escapes_loop fuel (out ++ mid ++ suf ++ [c_nul]) (length out + length mid) (length out) = Fault.
Proof.
  revert suf out mid. induction fuel as [|fuel IH]; intros suf out mid Hf Hn Hu; [lia|]. simpl.
  destruct suf as [|x suf]; simpl in Hu; [done|].
  rewrite app_assoc. simpl. rewrite lookup_at by (rewrite length_app; lia).
  destruct (Ascii.eqb_spec x c_nul); [set_solver|]. rewrite <- app_assoc.
  destruct (Ascii.eqb_spec x c_backslash) as [->|]; simpl.
  - destruct suf as [|y suf].
    + replace (out ++ mid ++ c_backslash :: [] ++ [c_nul])
        with ((out ++ mid ++ [c_backslash]) ++ c_nul :: []) by (by rewrite <- !app_assoc).
      rewrite lookup_at by (rewrite !length_app; simpl; lia).
      destruct fuel; [simpl in Hf; lia|]. simpl.
      rewrite lookup_ge_None_2; [done|]. rewrite length_insert, !length_app. simpl. lia.
    + destruct (unescape suf) as [u'|] eqn:E; [done|].
      replace (out ++ mid ++ c_backslash :: (y :: suf) ++ [c_nul])
        with ((out ++ mid ++ [c_backslash]) ++ y :: suf ++ [c_nul]) by (by rewrite <- !app_assoc).
      rewrite lookup_at by (rewrite !length_app; simpl; lia).
      replace ((out ++ mid ++ [c_backslash]) ++ y :: suf ++ [c_nul])
        with (out ++ ((mid ++ [c_backslash]) ++ [y]) ++ suf ++ [c_nul]) by (by rewrite <- !app_assoc).
      destruct (store_step out (mid ++ [c_backslash]) y (escape_char y) (suf ++ [c_nul])) as (t & -> & Ht).
      rewrite length_app in Ht. simpl in Ht.
      replace (S (S (length out + length mid)))%nat with (length (out ++ [escape_char y]) + length t)%nat
        by (rewrite length_app; simpl; lia).
      replace (S (length out))%nat with (length (out ++ [escape_char y])) by (rewrite length_app; simpl; lia).
      apply IH; [simpl in Hf; lia|set_solver|done].
  - destruct (unescape suf) as [u'|] eqn:E; [done|].
    replace (out ++ mid ++ x :: suf ++ [c_nul])
      with (out ++ (mid ++ [x]) ++ suf ++ [c_nul]) by (by rewrite <- !app_assoc).
    destruct (store_step out mid x x (suf ++ [c_nul])) as (t & Et & Ht).
    assert ((if (length out + length mid =? length out)%nat
             then out ++ (mid ++ [x]) ++ suf ++ [c_nul]
             else <[length out:=x]> (out ++ (mid ++ [x]) ++ suf ++ [c_nul]))
            = (out ++ [x]) ++ t ++ suf ++ [c_nul]) as ->.
    { destruct (Nat.eqb_spec (length out + length mid) (length out)); [|done].
      destruct mid; [|simpl in *; lia]. destruct t; [|done]. simpl. by rewrite <- app_assoc. }
    replace (S (length out + length mid))%nat with (length (out ++ [x]) + length t)%nat
      by (rewrite length_app; simpl; lia).
    replace (S (length out))%nat with (length (out ++ [x])) by (rewrite length_app; simpl; lia).
    apply IH; [simpl in Hf; lia|set_solver|done].
Qed.

Lemma c_string_app s junk : c_nul ∉ s -> c_string (s ++ c_nul :: junk) = s.
Proof.
  induction s as [|x s IH]; simpl; [done|]. intros Hn.
  destruct (Ascii.eqb_spec x c_nul); [set_solver|]. f_equal. apply IH. set_solver.
Qed.

Lemma unescape_no_nul s u : c_nul ∉ s -> unescape s = Some u -> c_nul ∉ u.
Proof.
  revert s u. fix IH 1. intros [|x s] u Hn; simpl; [intros [= <-]; set_solver|].
  destruct (Ascii.eqb_spec x c_backslash).
  - destruct s as [|y s]; [done|]. destruct (unescape s) as [u'|] eqn:E; [|done].
    intros [= <-]. pose proof (escape_char_nul y). rewrite <- escape_char_resolved. specialize (IH s u'). set_solver.
  - destruct (unescape s) as [u'|] eqn:E; [|done]. intros [= <-]. specialize (IH s u'). set_solver.
Qed.

Lemma split_skip_spec s delim :
  match split_skip s delim with
  | Done s' => skip_delim s delim = s' /\ s' <> []
  | NoFuel => False
  | Fault => skip_delim s delim = []
  end.
Proof. induction s as [|x s IH]; simpl; [done|]. by destruct (mem_char x delim). Qed.

Lemma words_from_token s delim cur :
  (cur <> [] \/ exists x s', s = x :: s' /\ mem_char x delim = false) ->
  words_from cur s delim =
  (cur ++ take (strcspn s delim) s) :: words_from [] (drop (S (strcspn s delim)) s) delim.
Proof.
  revert cur. induction s as [|x s IH]; intros cur Hc; simpl.
  - destruct Hc as [Hc|(? & ? & ? & _)]; [|done]. rewrite bool_decide_eq_false_2 by done.
    by rewrite app_nil_r.
  - destruct (mem_char x delim) eqn:E; simpl.
    + destruct Hc as [Hc|(x' & s' & [= <- <-] & ?)]; [|congruence].
      rewrite bool_decide_eq_false_2 by done. by rewrite app_nil_r.
    + rewrite IH by (left; by destruct cur). simpl. by rewrite <- app_assoc.
Qed.

Lemma words_skip s delim : words (skip_delim s delim) delim = words s delim.
Proof.
  unfold words. induction s as [|x s IH]; simpl; [done|].
  destruct (mem_char x delim) eqn:E; simpl; [done|]. by rewrite E.
Qed.

Lemma skip_delim_head s delim x s' : skip_delim s delim = x :: s' -> mem_char x delim = false.
Proof.
  induction s as [|y s IH]; simpl; [done|]. destruct (mem_char y delim) eqn:E; [done|].
  intros [= <- <-]. done.
Qed.

(** strtok_r takes the first word off. *)
Lemma strtok_r_words s delim :
  match strtok_r s delim with
  | None => words s delim = []
  | Some (tok, rest) => words s delim = tok :: words rest delim /\ (length rest < length s)%nat
  end.
Proof.
  unfold strtok_r. destruct (skip_delim s delim) as [|x s'] eqn:E.
  - by rewrite <- words_skip, E.
  - pose proof (skip_delim_head _ _ _ _ E) as Hx. split.
    + rewrite <- words_skip, E. unfold words at 1. rewrite words_from_token; [done|]. right. eauto.
    + rewrite length_drop. assert (length (x :: s') <= length s)%nat; [|simpl in *; lia].
      rewrite <- E. clear. induction s as [|y s IH]; simpl; [lia|]. destruct (mem_char y delim); simpl; lia.
Qed.

Lemma split_loop_spec fuel saveptr delim array size :
  (length saveptr < fuel)%nat -> (length array < size)%nat ->
  exists size', split_loop fuel saveptr delim array size = Done (array ++ words saveptr delim, size') /\
    (length (array ++ words saveptr delim) < size')%nat.
Proof.
  revert saveptr array size. induction fuel as [|fuel IH]; intros saveptr array size Hf Ha; [lia|]. simpl.
  pose proof (strtok_r_words saveptr delim) as Hw.
  destruct (strtok_r saveptr delim) as [[tok rest]|].
  - destruct Hw as [Hw Hl]. unfold array_store. rewrite (proj2 (Nat.ltb_lt _ _)) by done.
    destruct (IH rest (array ++ [tok]) (if (size <=? length (array ++ [tok]))%nat then (size + CHUNK)%nat else size))
      as (size' & E & Hs); [lia| |].
    + rewrite length_app in *. simpl in *. destruct (Nat.leb_spec size (length array + 1)); unfold CHUNK; lia.
    + exists size'. rewrite Hw. rewrite <- app_assoc in E, Hs. done.
  - exists size. rewrite Hw, app_nil_r. done.
Qed.

Lemma skip_delim_nil s delim : skip_delim s delim = [] <-> words s delim = [].
Proof.
  rewrite <- (words_skip s). split; [by intros ->|]. intros H.
  destruct (skip_delim s delim) as [|x s'] eqn:E; [done|].
  unfold words in H. rewrite words_from_token in H; [done|].
  right. exists x, s'. split; [done|]. by apply skip_delim_head in E.
Qed.

Lemma hash_loop_range hval s : 0 <= hval < hash_mod -> 0 <= hash_loop hval s < hash_mod.
Proof.
  revert hval. induction s as [|c s IH]; intros hval H; simpl; [done|].
  apply IH. unfold fnv_pass. by apply Z.mod_pos_bound.
Qed.

(** ** Theorems *)

(** A path with a '/' is its [initng_string_dirname], a '/', and its
    [initng_string_basename], which has no '/'; [initng_string_strip_end] cuts
    the same place. *)
Theorem dirname_basename s :
  c_slash ∈ s ->
  initng_string_dirname s ++ c_slash :: initng_string_basename s = s /\
  c_slash ∉ initng_string_basename s /\
  initng_string_strip_end s = (initng_string_dirname s, TRUE).
Proof.
  intros Hs. unfold initng_string_dirname, initng_string_basename, initng_string_strip_end.
  destruct (strrchr s c_slash) as [i|] eqn:E; [|by apply strrchr_None in E].
  by destruct (strrchr_Some _ _ _ E) as [<- ?].
Qed.

(** The loop on the whole block, for a string with its escapes resolved and for
    one that ends in a lone backslash. *)
Lemma fix_escapes_run s rest :
  c_nul ∉ s ->
  match unescape s with
  | Some u => exists block, initng_string_fix_escapes (Some (s ++ c_nul :: rest)) = Done (Some block) /\
      c_string block = u
  | None => initng_string_fix_escapes (Some (s ++ [c_nul])) = Fault
  end.
Proof.
  intros Hn. unfold initng_string_fix_escapes. destruct (unescape s) as [u|] eqn:E.
  - destruct (fix_escapes_loop_inv (S (length (s ++ c_nul :: rest))) s [] [] rest u) as [junk Hj];
      [rewrite length_app; lia|done|done|].
    cbn [app length Nat.add] in Hj. rewrite Hj. eexists. split; [done|].
    apply c_string_app. by apply (unescape_no_nul s).
  - pose proof (fix_escapes_loop_lone (S (length (s ++ [c_nul]))) s [] []) as H.
    cbn [app length Nat.add] in H.
    rewrite H; [done|rewrite length_app; lia|done|done].
Qed.

(** C37: [initng_string_fix_escapes] rewrites the string in place to the string
    with the escapes of C resolved, for every string that does not end in a
    backslash which is not itself escaped; for one that does, in a block that
    ends with its NUL, the loop steps over the NUL and reads behind the
    block. *)
Theorem fix_escapes_correct s rest :
  c_nul ∉ s ->
  match unescape s with
  | Some u => exists block, initng_string_fix_escapes (Some (s ++ c_nul :: rest)) = Done (Some block) /\
      c_string block = u
  | None => initng_string_fix_escapes (Some (s ++ [c_nul])) = Fault
  end.
Proof. apply fix_escapes_run. Qed.

(** [initng_string_split_delim] never stores outside its array and gives
    the words of the string; the [argc] it reports is one more than the number
    of words.  A string of delimiters only, the empty string included, makes it
    read behind the end of the string. *)
Theorem split_delim_words s delim :
  initng_string_split_delim (Some s) delim =
  match words s delim with
  | [] => Fault
  | ws => Done (Some (ws, S (length ws)))
  end.
Proof.
  unfold initng_string_split_delim. pose proof (split_skip_spec s delim) as Hsk.
  destruct (split_skip s delim) as [s'| |]; [|done|].
  - destruct Hsk as [Hs Hne].
    assert (Hw : words s delim = words s' delim) by (by rewrite <- Hs, words_skip).
    pose proof (strtok_r_words s' delim) as Ht.
    destruct (strtok_r s' delim) as [[tok saveptr]|].
    + destruct Ht as [Ht _].
      destruct (split_loop_spec (S (length saveptr)) saveptr delim [tok] CHUNK) as (size & -> & Hl);
        [lia|unfold CHUNK; simpl; lia|].
      rewrite (proj2 (Nat.ltb_lt _ _)) by done. rewrite Hw, Ht. done.
    + exfalso. rewrite <- Hw in Ht. apply skip_delim_nil in Ht. congruence.
  - apply skip_delim_nil in Hsk. by rewrite Hsk.
Qed.

(** Both hashes xor the char in and multiply by the prime, which has an inverse
    modulo 2^64. *)
Lemma times_prime_inj a b :
  0 <= a < hash_mod -> 0 <= b < hash_mod -> (a * FNV_PRIME) mod hash_mod = (b * FNV_PRIME) mod hash_mod -> a = b.
Proof.
  intros Ha Hb E. assert (Hinv : forall x, 0 <= x < hash_mod -> ((x * FNV_PRIME) mod hash_mod * 14886173955864302971) mod hash_mod = x).
  { intros x Hx. rewrite Z.mul_mod_idemp_l by done. rewrite <- Z.mul_assoc, Z.mul_mod by done.
    change ((FNV_PRIME * 14886173955864302971) mod hash_mod) with 1. rewrite Z.mul_1_r, Z.mod_mod by done. by apply Z.mod_small. }
  by rewrite <- (Hinv a Ha), <- (Hinv b Hb), E.
Qed.

Lemma lxor_range a b : 0 <= a < hash_mod -> 0 <= b < hash_mod -> 0 <= Z.lxor a b < hash_mod.
Proof.
  unfold hash_mod. intros Ha Hb. assert (Hn : 0 <= Z.lxor a b) by (by apply Z.lxor_nonneg; lia). split; [done|].
  destruct (Z.eq_dec (Z.lxor a b) 0) as [->|Hne]; [done|]. apply Z.log2_lt_pow2; [lia|].
  pose proof (Z.log2_lxor a b ltac:(lia) ltac:(lia)).
  assert (Hl : forall x, 0 <= x < 2 ^ 64 -> Z.log2 x < 64).
  { intros x Hx. destruct (Z.eq_dec x 0) as [->|]; [done|]. apply Z.log2_lt_pow2; lia. }
  pose proof (Hl a Ha). pose proof (Hl b Hb). lia.
Qed.

Lemma lxor_inj a b c d : Z.lxor a c = Z.lxor b d -> (c = d -> a = b) /\ (a = b -> c = d).
Proof.
  intros E. split; intros ->.
  - apply (f_equal (fun x => Z.lxor x d)) in E. by rewrite !Z.lxor_assoc, Z.lxor_nilpotent, !Z.lxor_0_r in E.
  - apply (f_equal (Z.lxor b)) in E. by rewrite <- !Z.lxor_assoc, Z.lxor_nilpotent, !Z.lxor_0_l in E.
Qed.

Definition seven_bit (c : ascii) : Prop := (nat_of_ascii c < 128)%nat.

Lemma schar_range c : 0 <= schar c mod hash_mod < hash_mod.
Proof. by apply Z.mod_pos_bound. Qed.

Lemma octet_range c : 0 <= Z.of_nat (nat_of_ascii c) < hash_mod.
Proof. pose proof (nat_ascii_bounded c). unfold hash_mod. lia. Qed.

Lemma schar_seven c : seven_bit c <-> schar c mod hash_mod = Z.of_nat (nat_of_ascii c).
Proof.
  pose proof (nat_ascii_bounded c). unfold seven_bit, schar. destruct (Z.ltb_spec (Z.of_nat (nat_of_ascii c)) 128).
  - rewrite Z.mod_small by (unfold hash_mod; lia). lia.
  - replace (Z.of_nat (nat_of_ascii c) - 256) with (Z.of_nat (nat_of_ascii c) - 256 + hash_mod + (-1) * hash_mod) by lia.
    rewrite Z.mod_add by done. rewrite Z.mod_small by (unfold hash_mod; lia). unfold hash_mod. lia.
Qed.

(** Over 7-bit chars the code computes the published function, and neither
    confuses two starting values. *)
Lemma hash_loop_seven h l : Forall seven_bit l -> hash_loop h l = fnv1a h l.
Proof.
  revert h. induction l as [|c l IH]; intros h Hf; cbn; [done|]. apply Forall_cons in Hf as [Hc Hf]. rewrite IH by done.
  unfold fnv_pass. cbv zeta. by rewrite (proj1 (schar_seven c) Hc).
Qed.

Lemma fnv1a_inj h h' l : 0 <= h < hash_mod -> 0 <= h' < hash_mod -> fnv1a h l = fnv1a h' l -> h = h'.
Proof.
  revert h h'. induction l as [|c l IH]; intros h h' Hh Hh' E; cbn in E; [done|].
  apply IH in E; [|by apply Z.mod_pos_bound|by apply Z.mod_pos_bound].
  apply times_prime_inj in E; [|by apply lxor_range, octet_range..]. by apply (lxor_inj _ _ _ _ E).
Qed.

Lemma hash_loop_app h l1 l2 : hash_loop h (l1 ++ l2) = hash_loop (hash_loop h l1) l2.
Proof. revert h. induction l1 as [|c l1 IH]; intros h; cbn; [done|apply IH]. Qed.
Lemma fnv1a_app h l1 l2 : fnv1a h (l1 ++ l2) = fnv1a (fnv1a h l1) l2.
Proof. revert h. induction l1 as [|c l1 IH]; intros h; cbn; [done|apply IH]. Qed.

Lemma hash_one_eight l1 c l2 :
  Forall seven_bit l1 -> ~ seven_bit c -> Forall seven_bit l2 -> hash_loop FNV_INIT (l1 ++ c :: l2) <> fnv1a FNV_INIT (l1 ++ c :: l2).
Proof.
  intros H1 Hc H2 E. rewrite hash_loop_app, fnv1a_app, (hash_loop_seven FNV_INIT) in E by done. cbn [hash_loop fnv1a] in E.
  rewrite hash_loop_seven in E by done. set (h := fnv1a FNV_INIT l1) in *.
  assert (Hh : 0 <= h < hash_mod) by (unfold h; rewrite <- hash_loop_seven by done; by apply hash_loop_range).
  apply fnv1a_inj in E; [|by apply Z.mod_pos_bound|by apply Z.mod_pos_bound].
  apply times_prime_inj in E; [|by apply lxor_range, schar_range|by apply lxor_range, octet_range].
  apply Hc, schar_seven. by apply (lxor_inj _ _ _ _ E).
Qed.

(** C38: the two hash functions agree, stay within 64 bits, and compute FNV-1a on
    every string of 7-bit chars.  On every string with exactly one 8-bit char
    they do not: the char is sign-extended before the exclusive or, and nothing
    that follows takes the difference back. *)
Theorem hash_is_fnv1a_on_ascii s :
  initng_hash_buf (chars_of s) (length (chars_of s)) = Some (initng_hash_str s) /\
  0 <= initng_hash_str s < hash_mod /\
  (Forall seven_bit (chars_of s) -> initng_hash_str s = fnv1a FNV_INIT (chars_of s)) /\
  (forall l1 c l2, chars_of s = l1 ++ c :: l2 -> Forall seven_bit l1 -> ~ seven_bit c -> Forall seven_bit l2 ->
    initng_hash_str s <> fnv1a FNV_INIT (chars_of s)).
Proof.
  unfold initng_hash_buf, initng_hash_str. split; [|split; [|split]].
  - by rewrite Nat.leb_refl, firstn_all.
  - by apply hash_loop_range.
  - apply hash_loop_seven.
  - intros l1 c l2 ->. apply hash_one_eight.
Qed.
