(* ===== verification/Global.v ===== *)
(** * The global state [g], its callbacks, events and registries

    src/main/config/global.c (the struct of include/initng/config/global.h),
    src/main/event/, src/main/active_state/, src/main/service/,
    src/main/process_db/type.c, src/main/module_callers/ and the setters of
    src/main/main/ that only change a field and tell the modules. *)
From S2P Require Import Prelude Types Data.
From Stdlib Require Import String.
From stdpp Require Import prelude gmap strings.
Local Open Scope Z_scope.

(** ** s_global *)

(** [g_heap] holds the allocated [active_db_h] structs by address, [g_fresh] an
    address no allocation has used, [g_clock] what gettimeofday returns, and
    [g_ticks] the number of system calls answered so far (see Sys below), [g_kills]
    the kill(2) calls among them, as pid and signal, and [g_children] how the
    children of initng left its code, in the order of their forks; [g_proc] is
    what the kernel keeps for the process, [g_statics] the static variables of
    modules.
    [g_active_db] and [g_interrupt] are the two lists that go through the
    structs. *)
Record s_global := Global {
  g_heap : gmap addr active_db_h;
  g_active_db : list addr;
  g_interrupt : list addr;
  g_fresh : addr;
  g_hooks : s_event_type -> list s_call;
  g_states : list a_state_h;
  g_ptypes : list ptype_h;
  g_stypes : list stype_h;
  g_option_db : list s_entry;
  g_sys_state : h_sys_state;
  g_clock : timeval;
  g_now : timeval;
  g_sleep_seconds : Z;
  g_next_alarm : Z;
  g_Argv : list string;
  g_runlevel : option string;
  g_old_runlevel : option string;
  g_when_out : h_then;
  g_signals_got : list Z;
  g_ticks : nat;
  g_kills : list (Z * Z);
  g_dev_console : option string;
  g_children : list child_end;
  g_module_db : list m_h;
  g_modules_to_unload : Z;
  g_command_db : list s_command;
  g_hot_reload : Z;
  g_no_circular : Z;
  g_new_init : list string;
  g_proc : proc_attrs;
  g_statics : statics
}.
Definition eta_global (g : s_global) :=
  Global (g_heap g) (g_active_db g) (g_interrupt g) (g_fresh g) (g_hooks g) (g_states g)
    (g_ptypes g) (g_stypes g) (g_option_db g) (g_sys_state g) (g_clock g) (g_now g)
    (g_sleep_seconds g) (g_next_alarm g) (g_Argv g) (g_runlevel g) (g_old_runlevel g)
    (g_when_out g) (g_signals_got g) (g_ticks g) (g_kills g) (g_dev_console g) (g_children g)
    (g_module_db g) (g_modules_to_unload g) (g_command_db g) (g_hot_reload g) (g_no_circular g) (g_new_init g)
    (g_proc g) (g_statics g).
#[export] Instance set_g_heap : Setter g_heap := ltac:(build_setter eta_global g_heap).
#[export] Instance set_g_active_db : Setter g_active_db := ltac:(build_setter eta_global g_active_db).
#[export] Instance set_g_interrupt : Setter g_interrupt := ltac:(build_setter eta_global g_interrupt).
#[export] Instance set_g_fresh : Setter g_fresh := ltac:(build_setter eta_global g_fresh).
#[export] Instance set_g_hooks : Setter g_hooks := ltac:(build_setter eta_global g_hooks).
#[export] Instance set_g_states : Setter g_states := ltac:(build_setter eta_global g_states).
#[export] Instance set_g_ptypes : Setter g_ptypes := ltac:(build_setter eta_global g_ptypes).
#[export] Instance set_g_stypes : Setter g_stypes := ltac:(build_setter eta_global g_stypes).
#[export] Instance set_g_option_db : Setter g_option_db := ltac:(build_setter eta_global g_option_db).
#[export] Instance set_g_sys_state : Setter g_sys_state := ltac:(build_setter eta_global g_sys_state).
#[export] Instance set_g_clock : Setter g_clock := ltac:(build_setter eta_global g_clock).
#[export] Instance set_g_now : Setter g_now := ltac:(build_setter eta_global g_now).
#[export] Instance set_g_sleep_seconds : Setter g_sleep_seconds := ltac:(build_setter eta_global g_sleep_seconds).
#[export] Instance set_g_next_alarm : Setter g_next_alarm := ltac:(build_setter eta_global g_next_alarm).
#[export] Instance set_g_runlevel : Setter g_runlevel := ltac:(build_setter eta_global g_runlevel).
#[export] Instance set_g_old_runlevel : Setter g_old_runlevel := ltac:(build_setter eta_global g_old_runlevel).
#[export] Instance set_g_when_out : Setter g_when_out := ltac:(build_setter eta_global g_when_out).
#[export] Instance set_g_ticks : Setter g_ticks := ltac:(build_setter eta_global g_ticks).
#[export] Instance set_g_kills : Setter g_kills := ltac:(build_setter eta_global g_kills).
#[export] Instance set_g_dev_console : Setter g_dev_console := ltac:(build_setter eta_global g_dev_console).
#[export] Instance set_g_children : Setter g_children := ltac:(build_setter eta_global g_children).
#[export] Instance set_g_module_db : Setter g_module_db := ltac:(build_setter eta_global g_module_db).
#[export] Instance set_g_modules_to_unload : Setter g_modules_to_unload := ltac:(build_setter eta_global g_modules_to_unload).
#[export] Instance set_g_command_db : Setter g_command_db := ltac:(build_setter eta_global g_command_db).
#[export] Instance set_g_hot_reload : Setter g_hot_reload := ltac:(build_setter eta_global g_hot_reload).
#[export] Instance set_g_no_circular : Setter g_no_circular := ltac:(build_setter eta_global g_no_circular).
#[export] Instance set_g_new_init : Setter g_new_init := ltac:(build_setter eta_global g_new_init).
#[export] Instance set_g_proc : Setter g_proc := ltac:(build_setter eta_global g_proc).
#[export] Instance set_g_statics : Setter g_statics := ltac:(build_setter eta_global g_statics).
#[export] Instance set_g_signals_got : Setter g_signals_got := ltac:(build_setter eta_global g_signals_got).

Notation G := (M s_global).

(** ** Services in memory *)

Definition get_service (s : addr) : G active_db_h := deref (fun g => g_heap g !! s).

Definition put_service (s : addr) (a : active_db_h) (g : s_global) : s_global :=
  g <| g_heap := <[s := a]> (g_heap g) |>.

Definition upd_service (s : addr) (f : active_db_h -> active_db_h) : G unit :=
  let! a := get_service s in modify (put_service s (f a)).

(** The services of the active_db with their contents, as [while_active_db]
    reaches them. *)
Definition active_services (g : s_global) : list (addr * active_db_h) :=
  omap (fun s => pair s <$> (g_heap g !! s)) (g_active_db g).

(** The address the next allocation returns. *)
Definition new_addr : G addr :=
  let! a := asks g_fresh in
  modify (fun g => g <| g_fresh := Pos.succ a |>) ;;; mpure a.

(** ** Callbacks

    What the code behind a function pointer does: event hooks, the start, stop
    and restart functions of a service type, the interrupt, init and alarm
    functions of a state, and the kill handler of a process type.  They are
    code of modules; the core is generic in them. *)
Class Callbacks := {
  call_hook : fptr -> s_event -> G s_event;
  call_stype : fptr -> addr -> G Z;
  call_state : fptr -> addr -> G unit;
  call_kill : fptr -> addr -> addr -> G unit
}.

(** ** The system

    The answers of the kernel are a function of the number of the call, so that
    the same call may be answered differently every time. *)

(** read(2): the bytes read (none at the end of the file), or -1 with errno. *)
Inductive read_result := Read_ok (bytes : list Z) | Read_error (errno : Z).

(** waitpid(2) with WNOHANG: a pid and its status, 0, or -1 with errno. *)
Inductive wait_result := Wait_pid (pid status : Z) | Wait_none | Wait_error (errno : Z).

Class Sys := {
  sys_read : nat -> Z -> read_result;
  sys_waitpid : nat -> wait_result;
  sys_kill : nat -> Z -> Z -> option Z  (* errno of a kill(pid, sig) that failed *)
}.

Definition syscall {A} (answer : nat -> A) : G A :=
  let! t := asks g_ticks in
  modify (fun g => g <| g_ticks := S t |>) ;;; mpure (answer t).

(** kill(pid, sig) *)
Definition do_kill `{!Sys} (pid sig : Z) : G (option Z) :=
  modify (fun g => g <| g_kills := g_kills g ++ [(pid, sig)] |>) ;;;
  syscall (fun t => sys_kill t pid sig).

Section events.
Context `{!Callbacks}.

(** ** event/send.c

    The hooks are those that are registered when the event is sent; the source
    walks the list itself, so that a hook which registers or removes hooks of
    the same event would change the rest of the walk. *)

Fixpoint send_loop (hooks : list s_call) (event : s_event) : G s_event :=
  match hooks with
  | [] => mpure (event <| ev_status := UNKNOWN |>)
  | current :: hooks =>
    let! event := call_hook (c_pointer current) event in
    match ev_status event with
    | HANDLED => mpure event
    | FAILED => mpure event
    | _ => send_loop hooks event
    end
  end.

Definition initng_event_send (event : s_event) : G s_event :=
  let! hooks := asks (fun g => g_hooks g (ev_type event)) in
  send_loop hooks (event <| ev_status := WAITING |>).

(** An event as the callers build it on their stack. *)
Definition new_event (t : s_event_type) (d : event_data) : s_event := Event t d None UNKNOWN.

(** ** event/hook.c *)

Definition hooks_add (t : s_event_type) (c : s_call) (h : s_event_type -> list s_call)
    : s_event_type -> list s_call :=
  fun t' => if decide (t' = t) then h t' ++ [c] else h t'.

Definition initng_event_hook_register_real (from_file : string) (t : s_event_type) (hook : fptr) : G Z :=
  modify (fun g => g <| g_hooks := hooks_add t (Call hook from_file) (g_hooks g) |>) ;;;
  mpure TRUE.

(** Only the first hook with that function goes. *)
Fixpoint remove_call (hook : fptr) (l : list s_call) : list s_call :=
  match l with
  | [] => []
  | c :: l => if Pos.eqb (c_pointer c) hook then l else c :: remove_call hook l
  end.

Definition initng_event_hook_unregister_real (t : s_event_type) (hook : fptr) : G unit :=
  modify (fun g => g <| g_hooks :=
    fun t' => if decide (t' = t) then remove_call hook (g_hooks g t') else g_hooks g t' |>).

(** ** module_callers/ *)

Definition initng_module_callers_system_changed (state : h_sys_state) : G unit :=
  initng_event_send (new_event EVENT_SYSTEM_CHANGE (ED_sys_state state)) ;;; mpure tt.

Definition initng_module_callers_compensate_time (t : Z) : G unit :=
  initng_event_send (new_event EVENT_COMPENSATE_TIME (ED_time t)) ;;; mpure tt.

Definition initng_module_callers_signal (signal : Z) : G unit :=
  initng_event_send (new_event EVENT_SIGNAL (ED_signal signal)) ;;; mpure tt.

Definition initng_module_callers_handle_killed (s p : addr) : G Z :=
  let! event := initng_event_send (new_event EVENT_HANDLE_KILLED (ED_process s p)) in
  mpure (if decide (ev_status event = HANDLED) then TRUE else FALSE).

Definition initng_module_active_new (name : string) : G (option addr) :=
  let! event := initng_event_send (new_event EVENT_NEW_ACTIVE (ED_name name)) in
  mpure (if decide (ev_status event = HANDLED) then ev_ret event else None).

Definition initng_module_callers_active_db_dump : G Z :=
  let! event := initng_event_send (new_event EVENT_DUMP_ACTIVE_DB ED_none) in
  mpure (of_bool (bool_decide (ev_status event <> FAILED))).

Definition initng_module_callers_active_db_reload : G Z :=
  let! event := initng_event_send (new_event EVENT_RELOAD_ACTIVE_DB ED_none) in
  mpure (of_bool (bool_decide (ev_status event <> FAILED))).

(** ** main/set_sys_state.c and main/set_runlevel.c *)

Definition initng_main_set_sys_state (state : h_sys_state) : G unit :=
  let! cur := asks g_sys_state in
  if decide (state = cur) then mpure tt
  else
    modify (fun g => g <| g_sys_state := state |>) ;;;
    initng_module_callers_system_changed state.

Definition initng_main_set_runlevel (runlevel : string) : G unit :=
  modify (fun g => g <| g_old_runlevel := None |>) ;;;
  modify (fun g =>
    match g_runlevel g with
    | Some r => g <| g_old_runlevel := Some r |> <| g_runlevel := None |>
    | None => g
    end) ;;;
  modify (fun g => g <| g_runlevel := Some runlevel |>) ;;;
  let! state := asks g_sys_state in
  initng_module_callers_system_changed state.

End events.

(** ** active_state/ *)

Definition initng_active_state_find (name : string) (g : s_global) : option a_state_h :=
  List.find (fun s => String.eqb name (st_name s)) (g_states g).

(** [initng_list_add] leaves a state alone that is on the list already. *)
Definition initng_active_state_register (state : a_state_h) : G Z :=
  let! dup := asks (initng_active_state_find (st_name state)) in
  match dup with
  | Some _ => mpure FALSE
  | None =>
    modify (fun g =>
      if decide (state ∈ g_states g) then g else g <| g_states := g_states g ++ [state] |>) ;;;
    mpure TRUE
  end.

(** ** service/type.c: the first type whose name is a prefix of the string *)

Definition initng_service_type_get_by_name (name : string) (g : s_global) : option stype_h :=
  List.find (fun t => String.prefix (sty_name t) name) (g_stypes g).

(** ** process_db/type.c *)

Definition initng_process_db_ptype_find (name : string) (g : s_global) : option ptype_h :=
  List.find (fun t => String.eqb name (pty_name t)) (g_ptypes g).

(** ** service/data_type.c *)

Definition entry_listed (ent : s_entry) (l : list s_entry) : bool := List.existsb (same_entry ent) l.

Definition initng_service_data_type_register (ent : s_entry) : G unit :=
  modify (fun g =>
    if entry_listed ent (g_option_db g) then g else g <| g_option_db := g_option_db g ++ [ent] |>).

(** Remove the data of that type from the service at [s]. *)
Definition data_remove (ent : s_entry) (s : addr) : G unit :=
  let! a := get_service s in
  match initng_data_remove_var ent None (a_data a) with
  | Some d => modify (put_service s (a <| a_data := d |>))
  | None => nofuel
  end.

Definition initng_service_data_type_unregister (ent : s_entry) : G unit :=
  let! db := asks g_active_db in
  for_each (R := unit) db (fun s => data_remove ent s ;;; mpure None) ;;;
  modify (fun g => g <| g_option_db := List.filter (fun e => negb (same_entry ent e)) (g_option_db g) |>).

Definition initng_service_data_type_unregister_all : G unit :=
  let! db := asks g_option_db in
  for_each (R := unit) db (fun e => initng_service_data_type_unregister e ;;; mpure None) ;;;
  modify (fun g => g <| g_option_db := [] |>).

Definition initng_service_data_type_find (name : string) (g : s_global) : option s_entry :=
  List.find (fun e => match ent_name e with Some n => String.eqb n name | None => false end)
    (g_option_db g).

(** ** static/: the core's own types, states and service type *)

Definition ENV := SEntry 1 (Some "env"%string) STRING None None None.
Definition USE := SEntry 2 (Some "use"%string) STRINGS None None
  (Some "Need to be up if they are in this runlevel."%string).
Definition NEED := SEntry 3 (Some "need"%string) STRINGS None None
  (Some "Need to be up, ignore if not found."%string).
Definition REQUIRE := SEntry 4 (Some "require"%string) STRINGS None None
  (Some "Need to be up, fail if not found."%string).
Definition FROM_FILE := SEntry 5 (Some "from_file"%string) STRING None None None.
Definition RESTARTING := SEntry 6 (Some "internal_restarting"%string) SET None None None.

Definition initng_static_data_id_register_defaults : G unit :=
  initng_service_data_type_register ENV ;;;
  initng_service_data_type_register USE ;;;
  initng_service_data_type_register NEED ;;;
  initng_service_data_type_register REQUIRE ;;;
  initng_service_data_type_register FROM_FILE ;;;
  initng_service_data_type_register RESTARTING.

Definition NEW := AState 1 "NEW"%string IS_DOWN None None None
  (Some "This is a newly created service, that has not got a real state yet."%string).
Definition LOADING := AState 2 "LOADING"%string IS_DOWN None None None
  (Some "This service is loading service data from disk."%string).
Definition FREEING := AState 3 "FREEING"%string IS_DOWN None None None
  (Some "This service is freeing, and will be removed soon."%string).
Definition REQ_NOT_FOUND := AState 4 "REQ_NOT_FOUND"%string IS_FAILED None None None
  (Some "A Required service was not found, cant start."%string).

Definition initng_static_states_register_defaults : G unit :=
  initng_active_state_register NEW ;;;
  initng_active_state_register LOADING ;;;
  initng_active_state_register FREEING ;;;
  initng_active_state_register REQ_NOT_FOUND ;;;
  mpure tt.

Definition TYPE_CONTAINER := SType 1 "container"%string true None None None.

(** initng_service_type_register *)
Definition service_type_register (st : stype_h) : G unit :=
  modify (fun g =>
    if decide (st ∈ g_stypes g) then g else g <| g_stypes := g_stypes g ++ [st] |>).

(** initng_service_type_unregister, initng_active_state_unregister and
    initng_process_db_ptype_(un)register: the struct is taken from, or put on,
    its list. *)
Definition service_type_unregister (st : stype_h) : G unit :=
  modify (fun g => g <| g_stypes :=
    List.filter (fun t => negb (Pos.eqb (sty_addr t) (sty_addr st))) (g_stypes g) |>).

Definition active_state_unregister (st : a_state_h) : G unit :=
  modify (fun g => g <| g_states :=
    List.filter (fun t => negb (Pos.eqb (st_addr t) (st_addr st))) (g_states g) |>).

Definition process_type_register (pt : ptype_h) : G unit :=
  modify (fun g => if decide (pt ∈ g_ptypes g) then g else g <| g_ptypes := g_ptypes g ++ [pt] |>).

Definition process_type_unregister (pt : ptype_h) : G unit :=
  modify (fun g => g <| g_ptypes :=
    List.filter (fun t => negb (Pos.eqb (pty_addr t) (pty_addr pt))) (g_ptypes g) |>).

Definition initng_static_stypes_register_defaults : G unit := service_type_register TYPE_CONTAINER.

(** ** config/global.c

    The memset of [g] and the initialised lists; what the kernel answers next is
    not a part of the struct and stays. *)

Definition zeroed_global (argv : list string) (clock : timeval) : s_global :=
  Global ∅ [] [] 1 (fun _ => []) [] [] [] [] STATE_NULL clock (Timeval 0 0) 0 0 argv None None
    THEN_NONE [0; 0; 0; 0; 0; 0; 0; 0; 0; 0] 0 [] None [] [] 0 [] 0 0 [] init_proc zero_statics.

Definition initng_config_global_new (argv : list string) : G unit :=
  modify (fun g => (zeroed_global argv (g_clock g)) <| g_ticks := g_ticks g |> <| g_kills := g_kills g |>
    <| g_children := g_children g |> <| g_proc := g_proc g |> <| g_statics := g_statics g |>) ;;;
  initng_static_data_id_register_defaults ;;;
  initng_static_states_register_defaults ;;;
  initng_static_stypes_register_defaults.

(** ** Lemmas *)

(** Nobody listens. *)
Lemma send_no_hooks `{!Callbacks} g e :
  g_hooks g (ev_type e) = [] -> initng_event_send e g = Done (e <| ev_status := UNKNOWN |>, g).
Proof. intros E. unfold initng_event_send. rewrite (mthen_run _ _ g _ g eq_refl), E. done. Qed.

Lemma syscall_run {A} (answer : nat -> A) g : syscall answer g = Done (answer (g_ticks g), g <| g_ticks := S (g_ticks g) |>).
Proof. done. Qed.

Lemma set_sys_state_run `{!Callbacks} st g :
  g_hooks g EVENT_SYSTEM_CHANGE = [] -> initng_main_set_sys_state st g = Done (tt, g <| g_sys_state := st |>).
Proof.
  intros Hh. unfold initng_main_set_sys_state. rewrite then_asks. case_decide as Hd.
  - unfold mpure. do 2 f_equal. rewrite Hd. by destruct g.
  - rewrite then_modify. unfold initng_module_callers_system_changed. by erewrite mthen_run by (apply send_no_hooks; exact Hh).
Qed.
