(* ===== verification/ActiveDb.v ===== *)
(** * The active_db: src/main/active_db/, src/main/process_db/,
    src/main/common/state.c and the checks of src/main/main/ and
    src/main/interrupt/ that only read the database *)
From S2P Require Import Prelude Types Data CString Global.
From Stdlib Require Import String.
From stdpp Require Import prelude gmap strings.
Local Open Scope Z_scope.

(** ** process_db/find.c *)

Definition active_process (p : process_h) : bool := bool_decide (p_pst p = P_ACTIVE).

Definition initng_process_db_get (type : ptype_h) (service : active_db_h) : option process_h :=
  List.find (fun p => active_process p && bool_decide (p_pt p = type)) (a_processes service).

Definition initng_process_db_get_by_name (name : string) (service : active_db_h) : option process_h :=
  List.find (fun p => active_process p && String.eqb (pty_name (p_pt p)) name) (a_processes service).

Definition initng_process_db_get_by_pid (pid : Z) (service : active_db_h) : option process_h :=
  List.find (fun p => active_process p && (p_pid p =? pid)) (a_processes service).

(** ** process_db/pipe.c, process_db/new.c *)

Definition MAX_TARGETS : nat := 10.

Definition initng_process_db_pipe_new (dir : e_dir) : pipe_h :=
  Pipe 0 0 dir (replicate (MAX_TARGETS + 1) 0) None 0 0.

Definition STDOUT_FILENO : Z := 1.
Definition STDERR_FILENO : Z := 2.

(** The process at the fresh address [p], with its one buffered output pipe. *)
Definition initng_process_db_new (p : addr) (type : ptype_h) : process_h :=
  let current_pipe := initng_process_db_pipe_new BUFFERED_OUT_PIPE in
  let current_pipe := current_pipe <| pi_targets :=
    <[1%nat := STDERR_FILENO]> (<[O := STDOUT_FILENO]> (pi_targets current_pipe)) |> in
  Process p type 0 0 [current_pipe] P_ACTIVE.

(** ** process_db/free.c *)

(** initng_process_db_free: mark it, clear_freed removes it later. *)
Definition mark_process_free (p : addr) (a : active_db_h) : active_db_h :=
  a <| a_processes := map (fun q => if Pos.eqb (p_addr q) p then q <| p_pst := P_FREE |> else q)
         (a_processes a) |>.

Definition initng_process_db_clear_freed (service : active_db_h) : active_db_h :=
  service <| a_processes := List.filter active_process (a_processes service) |>.

(** ** common/state.c *)

(** The copy of [last_rought_time]: the size of the memcpy is [sizeof(memcpy)],
    which gcc evaluates to 1, so that only the lowest byte of tv_sec changes
    (little endian). *)
Definition copy_first_byte (old new : timeval) : timeval :=
  Timeval (tv_sec old - tv_sec old mod 256 + tv_sec new mod 256) (tv_usec old).

(** Lines 111-134 of initng_common_state_unlock on the struct, when there is a
    next state [next] and the time is [now]. *)
Definition apply_next_state (next : a_state_h) (now : timeval) (a : active_db_h) : active_db_h :=
  let a := a <| a_last_state := Some (a_current_state a) |>
             <| a_time_last_state := a_time_current_state a |> in
  let a := if decide (a_last_rought_state a = GET_STATE a) then a
           else a <| a_last_rought_state := GET_STATE a |>
                  <| a_last_rought_time :=
                       copy_first_byte (a_last_rought_time a) (a_time_current_state a) |> in
  a <| a_alarm := 0 |> <| a_current_state := next |> <| a_time_current_state := now |>
    <| a_next_state := None |>.

(** [initng_list_add(&service->interrupt, &g.active_db.interrupt)] *)
Definition interrupt_add (s : addr) (g : s_global) : s_global :=
  if decide (s ∈ g_interrupt g) then g else g <| g_interrupt := g_interrupt g ++ [s] |>.

Definition initng_common_state_unlock (service : addr) : G Z :=
  let! a := get_service service in
  let lock := if c_true (a_state_lock a) then a_state_lock a - 1 else 0 in
  modify (put_service service (a <| a_state_lock := lock |>)) ;;;
  if c_true lock then mpure FALSE
  else
    match a_next_state a with
    | None => mpure FALSE
    | Some next =>
      let! now := asks g_clock in
      upd_service service (apply_next_state next now) ;;;
      modify (interrupt_add service) ;;;
      mpure TRUE
    end.

Definition initng_common_mark_service (service : addr) (state : a_state_h) : G Z :=
  let! a := get_service service in
  if c_true (a_state_lock a) && bool_decide (is_Some (a_next_state a)) then mpure FALSE
  else if decide (a_current_state a = state) then
    upd_service service (fun a => a <| a_next_state := None |>) ;;;
    mpure TRUE
  else
    upd_service service (fun a => a <| a_next_state := Some state |>) ;;;
    (if c_true (a_state_lock a) then mpure tt
     else initng_common_state_unlock service ;;; mpure tt) ;;;
    mpure TRUE.

Definition initng_common_state_lock (service : addr) : G unit :=
  upd_service service (fun a => a <| a_state_lock := a_state_lock a + 1 |>).

Definition initng_common_state_lock_all : G unit :=
  let! db := asks g_active_db in
  for_each (R := unit) db (fun current => initng_common_state_lock current ;;; mpure None) ;;;
  mpure tt.

(** [ret |= ...]: TRUE and FALSE are the only results. *)
Fixpoint unlock_all_loop (db : list addr) (ret : Z) : G Z :=
  match db with
  | [] => mpure ret
  | current :: db =>
    let! r := initng_common_state_unlock current in
    unlock_all_loop db (Z.lor ret r)
  end.

Definition initng_common_state_unlock_all : G Z :=
  let! db := asks g_active_db in unlock_all_loop db 0.

Definition initng_common_state_has_changed (service : addr) : G (option a_state_h) :=
  let! a := get_service service in mpure (a_next_state a).

(** ** active_db/new.c *)

Definition initng_active_db_new (name : string) : G addr :=
  let! s := new_addr in
  let! now := asks g_clock in
  modify (put_service s
    (Active (initng_hash_str name) name None NEW now None now None 0 IS_NEW now [] (DH []) 0 0)) ;;;
  mpure s.

(** ** active_db/find.c *)

Definition initng_active_db_find_by_name (service : string) (g : s_global) : option addr :=
  let hash := initng_hash_str service in
  fst <$> List.find (fun '(_, current) =>
    (a_name_hash current =? hash) && String.eqb (a_name current) service) (active_services g).

Definition initng_active_db_find_by_pid (pid : Z) (g : s_global) : option addr :=
  fst <$> List.find (fun '(_, currentA) =>
    List.existsb (fun currentP => p_pid currentP =? pid) (a_processes currentA)) (active_services g).

(** ** active_db/register.c *)

Definition active_db_add (s : addr) (g : s_global) : s_global :=
  if decide (s ∈ g_active_db g) then g else g <| g_active_db := g_active_db g ++ [s] |>.

Definition initng_active_db_register (add_this : addr) : G Z :=
  let! a := get_service add_this in
  let! current := asks (initng_active_db_find_by_name (a_name a)) in
  match current with
  | Some _ => mpure FALSE
  | None => modify (active_db_add add_this) ;;; mpure TRUE
  end.

(** ** active_db/count.c, active_db/percent.c *)

Definition count_services (f : active_db_h -> bool) (g : s_global) : Z :=
  Z.of_nat (length (List.filter (fun '(_, a) => f a) (active_services g))).

Definition is_state (e : e_is) (a : active_db_h) : bool := bool_decide (GET_STATE a = e).

Definition initng_active_db_count (state_to_count : option a_state_h) (g : s_global) : Z :=
  match state_to_count with
  | None => count_services (fun a => negb (is_state IS_FAILED a || is_state IS_DOWN a)) g
  | Some st => count_services (fun a => bool_decide (a_current_state a = st)) g
  end.

Definition initng_active_db_percent_started (g : s_global) : Z :=
  let starting := count_services (is_state IS_STARTING) g in
  let up := count_services (is_state IS_UP) g in
  if starting <=? 0 then 100
  else if 0 <? up then Z.quot (100 * up) (starting + up)
  else 0.

Definition initng_active_db_percent_stopped (g : s_global) : Z :=
  let down := count_services (is_state IS_DOWN) g in
  let stopping := count_services (is_state IS_STOPPING) g in
  if stopping <=? 0 then 100
  else if 0 <? down then Z.quot (100 * down) (stopping + down)
  else 0.

(** ** active_db/compensate_time.c *)

Definition shift_time (skew : Z) (t : timeval) : timeval := Timeval (tv_sec t + skew) (tv_usec t).

Definition compensate_active (skew : Z) (a : active_db_h) : active_db_h :=
  a <| a_time_current_state := shift_time skew (a_time_current_state a) |>
    <| a_time_last_state := shift_time skew (a_time_last_state a) |>
    <| a_last_rought_time := shift_time skew (a_last_rought_time a) |>
    <| a_alarm := a_alarm a + skew |>.

Definition initng_active_db_compensate_time (skew : Z) : G unit :=
  let! db := asks g_active_db in
  for_each (R := unit) db (fun current => upd_service current (compensate_active skew) ;;; mpure None) ;;;
  mpure tt.

(** ** active_db/free.c *)

Definition unlink_service (s : addr) (g : s_global) : s_global :=
  g <| g_active_db := List.filter (fun x => negb (Pos.eqb x s)) (g_active_db g) |>
    <| g_interrupt := List.filter (fun x => negb (Pos.eqb x s)) (g_interrupt g) |>.

Definition initng_active_db_free (pf : addr) : G unit :=
  initng_common_mark_service pf FREEING ;;;
  modify (unlink_service pf) ;;;
  modify (fun g => g <| g_heap := delete pf (g_heap g) |>).

Definition initng_active_db_free_all : G unit :=
  let! db := asks g_active_db in
  for_each (R := unit) db (fun current => initng_active_db_free current ;;; mpure None) ;;;
  mpure tt.

(** ** active_db/clean_down.c *)

Definition clean_down_body (current : addr) : G (option unit) :=
  let! a := get_service current in
  let! now := asks g_now in
  if tv_sec (a_time_current_state a) + CLEAN_DELAY <? tv_sec now then
    upd_service current initng_process_db_clear_freed ;;;
    if negb (is_state IS_DOWN a) then mpure None
    else initng_active_db_free current ;;; mpure None
  else mpure None.

Definition initng_active_db_clean_down : G unit :=
  let! db := asks g_active_db in
  for_each db clean_down_body ;;; mpure tt.

(** ** main/ready_to_quit.c *)

Definition initng_main_ready_to_quit (g : s_global) : bool :=
  List.forallb (fun '(_, a) => is_state IS_FAILED a || is_state IS_DOWN a) (active_services g).

(** ** interrupt/check_sys_state.c *)

Definition check_sys_state_up `{!Callbacks} : G unit :=
  let! st := asks g_sys_state in
  if negb (bool_decide (st = STATE_STARTING)) then mpure tt
  else
    let! starting := asks (fun g => List.existsb (fun '(_, a) => is_state IS_STARTING a) (active_services g)) in
    if starting then mpure tt
    else initng_main_set_sys_state STATE_UP.

(** ** Well-formed databases *)

(** A service struct: the hash is that of the name, the lock counter is not
    negative, a next state waits only while the state is locked, and the
    entries of its data have different addresses. *)
Record wf_active (a : active_db_h) : Prop := WfActive {
  wfa_hash : a_name_hash a = initng_hash_str (a_name a);
  wfa_lock : 0 <= a_state_lock a;
  wfa_next : is_Some (a_next_state a) -> 0 < a_state_lock a;
  wfa_data : data_ok (a_data a)
}.

Record wf (g : s_global) : Prop := Wf {
  wf_nodup : NoDup (g_active_db g);
  wf_alloc : forall s, s ∈ g_active_db g -> is_Some (g_heap g !! s);
  wf_int_nodup : NoDup (g_interrupt g);
  wf_int_alloc : forall s, s ∈ g_interrupt g -> is_Some (g_heap g !! s);
  wf_names : forall s1 s2 a1 a2, s1 ∈ g_active_db g -> s2 ∈ g_active_db g ->
    g_heap g !! s1 = Some a1 -> g_heap g !! s2 = Some a2 -> a_name a1 = a_name a2 -> s1 = s2;
  wf_svc : forall s a, g_heap g !! s = Some a -> wf_active a;
  wf_fresh : forall s, is_Some (g_heap g !! s) -> (s < g_fresh g)%positive
}.

(** ** Lemmas: walking the database *)

Lemma active_services_elem g s a :
  (s, a) ∈ active_services g <-> s ∈ g_active_db g /\ g_heap g !! s = Some a.
Proof.
  unfold active_services. rewrite list_elem_of_omap. split.
  - intros (x & Hx & E). destruct (g_heap g !! x) eqn:Ex; simplify_eq/=. done.
  - intros [Hin E]. exists s. by rewrite E.
Qed.

Lemma active_services_find g f s a :
  List.find f (active_services g) = Some (s, a) ->
  s ∈ g_active_db g /\ g_heap g !! s = Some a /\ f (s, a) = true.
Proof.
  intros H. apply List.find_some in H as [Hin Hf]. apply list_elem_of_In, active_services_elem in Hin.
  naive_solver.
Qed.

(** The hash is only a filter: with it right, the search is by name. *)
Lemma find_by_name_spec g name s :
  wf g ->
  initng_active_db_find_by_name name g = Some s <->
  s ∈ g_active_db g /\ exists a, g_heap g !! s = Some a /\ a_name a = name.
Proof.
  intros Hwf. unfold initng_active_db_find_by_name. cbv zeta. split.
  - intros H. apply fmap_Some in H as ([s' a] & H & ->).
    apply active_services_find in H as (Hin & Ha & Hf). simpl. split; [done|].
    exists a. split; [done|]. apply andb_prop in Hf as [_ Hf]. by apply String.eqb_eq.
  - intros (Hin & a & Ha & Hn).
    destruct (List.find _ (active_services g)) as [[s' a']|] eqn:E; simpl.
    + apply active_services_find in E as (Hin' & Ha' & Hf). f_equal.
      apply andb_prop in Hf as [_ Hf]. apply String.eqb_eq in Hf.
      eapply (wf_names g Hwf); eauto. congruence.
    + exfalso. eapply List.find_none in E; [|apply list_elem_of_In, active_services_elem; eauto].
      simpl in E. rewrite (wfa_hash a (wf_svc g Hwf _ _ Ha)), Hn, Z.eqb_refl, String.eqb_refl in E. done.
Qed.

Lemma find_by_name_None g name :
  wf g ->
  initng_active_db_find_by_name name g = None <->
  (forall s a, s ∈ g_active_db g -> g_heap g !! s = Some a -> a_name a <> name).
Proof.
  intros Hwf. split.
  - intros H s a Hin Ha Hn. assert (initng_active_db_find_by_name name g = Some s) as H'; [|congruence].
    apply find_by_name_spec; eauto.
  - intros H. destruct (initng_active_db_find_by_name name g) as [s|] eqn:E; [|done].
    apply find_by_name_spec in E as (Hin & a & Ha & Hn); [|done]. exfalso. by eapply H.
Qed.

(** ** Lemmas: changing one service *)

Lemma get_service_run g s a : g_heap g !! s = Some a -> get_service s g = Done (a, g).
Proof. unfold get_service, deref. by intros ->. Qed.

Lemma upd_service_run g s a f :
  g_heap g !! s = Some a -> upd_service s f g = Done (tt, put_service s (f a) g).
Proof. intros H. unfold upd_service. by rewrite (mthen_run _ _ _ _ _ (get_service_run _ _ _ H)). Qed.

Lemma put_service_heap s a g : g_heap (put_service s a g) = <[s := a]> (g_heap g).
Proof. done. Qed.

Lemma put_service_lookup g s a : g_heap (put_service s a g) !! s = Some a.
Proof. simpl. by simplify_map_eq. Qed.

Lemma put_service_lookup_ne g s s' a : s <> s' -> g_heap (put_service s a g) !! s' = g_heap g !! s'.
Proof. intros. simpl. by simplify_map_eq. Qed.

Lemma put_put_service g s a b : put_service s a (put_service s b g) = put_service s a g.
Proof. unfold put_service. destruct g. cbn. by rewrite insert_insert_eq. Qed.

Lemma wf_put g s a b :
  wf g -> g_heap g !! s = Some a -> a_name b = a_name a -> wf_active b -> wf (put_service s b g).
Proof.
  intros [H1 H2 H3 H4 H5 H6 H7] Ha Hn Hb. split; simpl; try done.
  - intros x Hx. destruct (decide (s = x)) as [->|]; simplify_map_eq; eauto.
  - intros x Hx. destruct (decide (s = x)) as [->|]; simplify_map_eq; eauto.
  - intros x y ax ay Hx Hy Ex Ey. rewrite lookup_insert in Ex, Ey.
    repeat case_decide; simplify_eq; intros; try done; eapply (H5 _ _); eauto; congruence.
  - intros x ax. rewrite lookup_insert. case_decide; [by intros [= <-]|apply H6].
  - intros x Hx. destruct (decide (s = x)) as [->|]; simplify_map_eq; eauto.
Qed.

Lemma wf_interrupt_add g s : wf g -> is_Some (g_heap g !! s) -> wf (interrupt_add s g).
Proof.
  intros [H1 H2 H3 H4 H5 H6 H7] Hs. unfold interrupt_add. case_decide as Hin; [by split|].
  split; simpl; try done.
  - apply NoDup_app. split; [done|]. split; [set_solver|]. apply NoDup_singleton.
  - intros x [Hx|Hx%list_elem_of_singleton]%elem_of_app; [eauto|by subst].
Qed.

(** ** Lemmas: running the state operations *)

Lemma state_unlock_run g s a :
  g_heap g !! s = Some a ->
  initng_common_state_unlock s g =
  let lock := if c_true (a_state_lock a) then a_state_lock a - 1 else 0 in
  let a' := a <| a_state_lock := lock |> in
  if c_true lock then Done (FALSE, put_service s a' g)
  else match a_next_state a with
       | None => Done (FALSE, put_service s a' g)
       | Some next => Done (TRUE, interrupt_add s (put_service s (apply_next_state next (g_clock g) a') g))
       end.
Proof.
  intros H. unfold initng_common_state_unlock.
  rewrite (mthen_run _ _ _ _ _ (get_service_run _ _ _ H)). cbv zeta.
  set (lock := if c_true (a_state_lock a) then a_state_lock a - 1 else 0).
  erewrite mthen_run by reflexivity. destruct (c_true lock); [done|].
  destruct (a_next_state a) as [next|]; [|done].
  erewrite mthen_run by reflexivity.
  erewrite mthen_run by (apply upd_service_run, put_service_lookup).
  rewrite put_put_service. done.
Qed.

(** What [initng_common_mark_service] does, case by case. *)
Definition mark_result (s : addr) (st : a_state_h) (a : active_db_h) (g : s_global) : Z * s_global :=
  if c_true (a_state_lock a) && bool_decide (is_Some (a_next_state a)) then (FALSE, g)
  else if decide (a_current_state a = st) then (TRUE, put_service s (a <| a_next_state := None |>) g)
  else if c_true (a_state_lock a) then (TRUE, put_service s (a <| a_next_state := Some st |>) g)
  else (TRUE, interrupt_add s (put_service s
         (apply_next_state st (g_clock g) (a <| a_next_state := Some st |> <| a_state_lock := 0 |>)) g)).

Lemma mark_service_run g s st a :
  g_heap g !! s = Some a -> initng_common_mark_service s st g = Done (mark_result s st a g).
Proof.
  intros H. unfold initng_common_mark_service, mark_result.
  rewrite (mthen_run _ _ _ _ _ (get_service_run _ _ _ H)).
  destruct (c_true (a_state_lock a) && bool_decide (is_Some (a_next_state a))); [done|].
  case_decide.
  - by rewrite (mthen_run _ _ _ _ _ (upd_service_run _ _ _ _ H)).
  - rewrite (mthen_run _ _ _ _ _ (upd_service_run _ _ _ _ H)).
    destruct (c_true (a_state_lock a)) eqn:El; [done|].
    erewrite mthen_run; [reflexivity|].
    erewrite mthen_run; [reflexivity|].
    rewrite (state_unlock_run _ _ _ (put_service_lookup _ _ _)). simpl. rewrite El. simpl.
    by rewrite put_put_service.
Qed.

Lemma wf_active_apply a st now :
  wf_active a -> a_state_lock a = 0 -> wf_active (apply_next_state st now (a <| a_next_state := Some st |> <| a_state_lock := 0 |>)).
Proof.
  intros [H1 H2 H3 H4] Hl. unfold apply_next_state. cbv zeta. case_decide; split; simpl; try done.
  all: by intros [? ?].
Qed.

Lemma apply_next_state_name st now a : a_name (apply_next_state st now a) = a_name a.
Proof. unfold apply_next_state. cbv zeta. by case_decide. Qed.

Lemma c_true_spec z : c_true z = true <-> z <> 0.
Proof. unfold c_true. destruct (Z.eqb_spec z 0); simpl; intuition (congruence || lia). Qed.

Lemma c_true_false z : c_true z = false <-> z = 0.
Proof. unfold c_true. destruct (Z.eqb_spec z 0); simpl; intuition congruence. Qed.

Lemma wf_mark_result g s st a :
  wf g -> g_heap g !! s = Some a -> wf (snd (mark_result s st a g)).
Proof.
  intros Hwf Ha. pose proof (wf_svc g Hwf s a Ha) as Hs. unfold mark_result.
  destruct (c_true (a_state_lock a)) eqn:El; simpl.
  - apply c_true_spec in El. case_bool_decide; [done|]. destruct Hs as [S1 S2 S3 S4].
    case_decide; simpl; (eapply wf_put; [done|done|done|]); split; simpl; try done; intros; lia.
  - apply c_true_false in El. case_decide; simpl.
    + eapply wf_put; [done|done|done|]. destruct Hs as [S1 S2 S3 S4]. split; simpl; try done.
    + apply wf_interrupt_add; [|eexists; apply put_service_lookup].
      eapply wf_put; [done|done|by rewrite apply_next_state_name|by apply wf_active_apply].
Qed.

(** ** Lemmas: the operations keep the database well-formed *)

Lemma for_each_None_run {S A R} (f : A -> S -> S) (body : A -> M S (option R)) l s :
  (forall x s, x ∈ l -> body x s = Done (None, f x s)) ->
  for_each l body s = Done (None, foldl (fun s x => f x s) s l).
Proof.
  revert s. induction l as [|x l IH]; intros s Hb; simpl; [done|].
  erewrite mthen_run by (apply Hb; set_solver). apply IH. set_solver.
Qed.

Lemma steps_mark s st : steps (keeps wf) (initng_common_mark_service s st).
Proof.
  intros g r g' E Hwf. destruct (g_heap g !! s) as [a|] eqn:Ha.
  - rewrite (mark_service_run _ _ _ _ Ha) in E. injection E as E.
    pose proof (wf_mark_result g s st a Hwf Ha) as H. by rewrite E in H.
  - unfold initng_common_mark_service, mthen, get_service, deref in E. by rewrite Ha in E.
Qed.

Lemma wf_active_lock a n : wf_active a -> a_state_lock a <= n -> wf_active (a <| a_state_lock := n |>).
Proof. intros [H1 H2 H3 H4] Hn. split; simpl; try done; [lia|]. intros H. specialize (H3 H). lia. Qed.

Lemma wf_active_unlock a next now :
  wf_active a -> a_state_lock a - 1 = 0 \/ a_state_lock a = 0 ->
  wf_active (apply_next_state next now (a <| a_state_lock := 0 |>)).
Proof.
  intros [H1 H2 H3 H4] Hl. unfold apply_next_state. cbv zeta.
  case_decide; split; simpl; try done; by intros [? ?].
Qed.

Lemma steps_unlock s : steps (keeps wf) (initng_common_state_unlock s).
Proof.
  intros g r g' E Hwf. destruct (g_heap g !! s) as [a|] eqn:Ha.
  - rewrite (state_unlock_run _ _ _ Ha) in E. cbv zeta in E.
    pose proof (wf_svc g Hwf s a Ha) as Hs.
    destruct (c_true (a_state_lock a)) eqn:El.
    + apply c_true_spec in El. destruct (c_true (a_state_lock a - 1)) eqn:El2.
      * simplify_eq. eapply wf_put; [done|done|done|]. apply c_true_spec in El2.
        destruct Hs as [S1 S2 S3 S4]. split; simpl; try done; intros; lia.
      * apply c_true_false in El2. destruct (a_next_state a) as [next|] eqn:En; simplify_eq.
        -- apply wf_interrupt_add; [|eexists; apply put_service_lookup].
           eapply wf_put; [done|done|by rewrite apply_next_state_name|].
           rewrite El2. apply wf_active_unlock; [done|by left].
        -- eapply wf_put; [done|done|done|]. destruct Hs as [S1 S2 S3 S4].
           split; simpl; try done; [lia|]. rewrite En. by intros [? ?].
    + apply c_true_false in El. destruct (a_next_state a) as [next|] eqn:En; simpl in E.
      * exfalso. destruct Hs as [_ _ S3 _]. rewrite En in S3.
        assert (0 < a_state_lock a) by (apply S3; by eexists). lia.
      * simplify_eq. eapply wf_put; [done|done|done|]. apply wf_active_lock; [done|lia].
  - unfold initng_common_state_unlock, mthen, get_service, deref in E. by rewrite Ha in E.
Qed.

(** An update of one service that keeps its name and a well-formed struct. *)
Lemma steps_upd s f :
  (forall a, wf_active a -> wf_active (f a) /\ a_name (f a) = a_name a) ->
  steps (keeps wf) (upd_service s f).
Proof.
  intros Hf g r g' E Hwf. destruct (g_heap g !! s) as [a|] eqn:Ha.
  - rewrite (upd_service_run _ _ _ _ Ha) in E. simplify_eq.
    destruct (Hf a (wf_svc g Hwf s a Ha)). by eapply wf_put.
  - unfold upd_service, mthen, get_service, deref in E. by rewrite Ha in E.
Qed.

Lemma steps_lock s : steps (keeps wf) (initng_common_state_lock s).
Proof. apply steps_upd. intros a Ha. split; [|done]. apply wf_active_lock; [done|lia]. Qed.

Lemma wf_active_same a b :
  wf_active a -> a_name_hash b = a_name_hash a -> a_name b = a_name a ->
  a_state_lock b = a_state_lock a -> a_next_state b = a_next_state a -> a_data b = a_data a ->
  wf_active b.
Proof. intros [H1 H2 H3 H4] E1 E2 E3 E4 E5. split; by rewrite ?E1, ?E2, ?E3, ?E4, ?E5. Qed.

Lemma steps_compensate skew : steps (keeps wf) (initng_active_db_compensate_time skew).
Proof.
  unfold initng_active_db_compensate_time. steps_auto.
  apply steps_upd. intros b Hb. split; [|done]. by apply (wf_active_same b).
Qed.

Lemma steps_active_db_new name : steps (keeps wf) (initng_active_db_new name).
Proof.
  intros g r g' E [H1 H2 H3 H4 H5 H6 H7]. 
  cbv [initng_active_db_new new_addr mthen asks modify mpure] in E. injection E as <- <-.
  split; simpl; try done.
  - intros x Hx. destruct (decide (g_fresh g = x)) as [->|]; simplify_map_eq; eauto.
  - intros x Hx. destruct (decide (g_fresh g = x)) as [->|]; simplify_map_eq; eauto.
  - intros x y ax ay Hx Hy Ex Ey Hn.
    assert (forall z, z ∈ g_active_db g -> g_fresh g <> z)
      as Hz by (intros z Hz <-; specialize (H7 _ (H2 _ Hz)); lia).
    rewrite lookup_insert_ne in Ex, Ey by auto. eauto.
  - intros x ax. rewrite lookup_insert. case_decide; [|apply H6]. intros [= <-].
    split; simpl; [done|lia|by intros [? ?]|apply NoDup_nil_2].
  - intros x. rewrite lookup_insert. case_decide; [lia|]. intros Hx. specialize (H7 _ Hx). lia.
Qed.

Lemma steps_register s : steps (keeps wf) (initng_active_db_register s).
Proof.
  intros g r g' E Hwf. unfold initng_active_db_register in E. run_inv.
  destruct (g_heap g !! s) as [b|] eqn:Hb; [|by unfold get_service, deref in E0; rewrite Hb in E0].
  rewrite (get_service_run _ _ _ Hb) in E0. simplify_eq.
  destruct (initng_active_db_find_by_name _ _) eqn:Ef; run_inv; [done|].
  rewrite find_by_name_None in Ef by done. unfold active_db_add. case_decide as Hin; [done|].
  destruct Hwf as [H1 H2 H3 H4 H5 H6 H7]. split; simpl; try done.
  - apply NoDup_app. split; [done|]. split; [set_solver|]. apply NoDup_singleton.
  - intros x [Hx|Hx%list_elem_of_singleton]%elem_of_app; [eauto|subst; eauto].
  - intros x y ax ay [Hx|Hx%list_elem_of_singleton]%elem_of_app [Hy|Hy%list_elem_of_singleton]%elem_of_app
      Ex Ey Hn; subst; [by eapply H5| | |done]; exfalso.
    + eapply (Ef x ax); [done|done|congruence].
    + eapply (Ef y ay); [done|done|congruence].
Qed.

(** Freeing: whatever the mark did, the service is gone and nothing else
    changed. *)
Definition removed (s : addr) (g : s_global) : s_global :=
  unlink_service s g <| g_heap := delete s (g_heap g) |>.

Lemma filter_neq_id s l :
  s ∉ l -> List.filter (fun x => negb (Pos.eqb x s)) l = l.
Proof.
  induction l as [|x l IH]; simpl; [done|]. intros Hn.
  destruct (Pos.eqb_spec x s); simpl; [set_solver|]. f_equal. apply IH. set_solver.
Qed.

Lemma removed_put s b g : removed s (put_service s b g) = removed s g.
Proof. unfold removed, put_service, unlink_service. destruct g. cbn. by rewrite delete_insert_eq. Qed.

Lemma removed_interrupt_add s g : removed s (interrupt_add s g) = removed s g.
Proof.
  unfold interrupt_add. destruct (decide _); [done|].
  unfold removed, unlink_service. destruct g. cbn.
  rewrite List.filter_app. cbn. rewrite Pos.eqb_refl. cbn. by rewrite app_nil_r.
Qed.

Lemma active_db_free_run g s a :
  g_heap g !! s = Some a -> initng_active_db_free s g = Done (tt, removed s g).
Proof.
  intros Ha. unfold initng_active_db_free.
  destruct (mark_result s FREEING a g) as [r g1] eqn:E.
  erewrite mthen_run by (rewrite (mark_service_run _ _ _ _ Ha), E; reflexivity).
  erewrite mthen_run by reflexivity. unfold modify. do 2 f_equal.
  change (removed s g1 = removed s g). unfold mark_result in E.
  repeat case_match; simplify_eq; rewrite ?removed_interrupt_add, ?removed_put; done.
Qed.

Lemma wf_removed g s : wf g -> wf (removed s g).
Proof.
  intros [H1 H2 H3 H4 H5 H6 H7].
  assert (Hf : forall x l, x ∈ List.filter (fun x => negb (Pos.eqb x s)) l <-> x ∈ l /\ x <> s).
  { intros x l. rewrite !list_elem_of_In, List.filter_In. destruct (Pos.eqb_spec x s); naive_solver. }
  assert (Hn : forall l, NoDup l -> NoDup (List.filter (fun x => negb (Pos.eqb x s)) l)).
  { intros l. rewrite !NoDup_ListNoDup. apply List.NoDup_filter. }
  split; simpl; auto.
  - intros x [Hx Hxs]%Hf. rewrite lookup_delete_ne by done. auto.
  - intros x [Hx Hxs]%Hf. rewrite lookup_delete_ne by done. auto.
  - intros x y ax ay [Hx Hxs]%Hf [Hy Hys]%Hf. rewrite !lookup_delete_ne by done. eauto.
  - intros x ax. rewrite lookup_delete. case_decide; [done|]. eauto.
  - intros x. rewrite lookup_delete. case_decide; [by intros [? ?]|]. eauto.
Qed.

Lemma steps_free s : steps (keeps wf) (initng_active_db_free s).
Proof.
  intros g r g' E Hwf. destruct (g_heap g !! s) as [a|] eqn:Ha.
  - rewrite (active_db_free_run _ _ _ Ha) in E. simplify_eq. by apply wf_removed.
  - unfold initng_active_db_free, initng_common_mark_service, mthen, get_service, deref in E. by rewrite Ha in E.
Qed.

Lemma steps_clean_down : steps (keeps wf) initng_active_db_clean_down.
Proof.
  unfold initng_active_db_clean_down, clean_down_body.
  repeat (steps_step || apply steps_deref || apply steps_free || apply steps_upd); try exact _.
  intros b Hb. split; [|done]. by apply (wf_active_same b).
Qed.

#[export] Hint Resolve steps_mark steps_unlock steps_lock steps_register steps_free
  steps_active_db_new steps_compensate steps_clean_down : steps.

(** ** Lemmas for the theorems *)

(** Run [initng_common_mark_service] for every state of a list, ignoring the
    results. *)
Fixpoint mark_each (s : addr) (l : list a_state_h) : G unit :=
  match l with
  | [] => mpure tt
  | st :: l => initng_common_mark_service s st ;;; mark_each s l
  end.

(** With the state locked, the marks leave the first state that differs from
    the current one waiting. *)
Lemma mark_each_locked g s a l :
  g_heap g !! s = Some a -> a_state_lock a <> 0 ->
  mark_each s l g = Done (tt, put_service s (a <| a_next_state :=
    match a_next_state a with
    | Some st => Some st
    | None => List.find (fun st => bool_decide (st <> a_current_state a)) l
    end |>) g).
Proof.
  intros Ha Hl. assert (Hself : put_service s a g = g)
    by (unfold put_service; destruct g; cbn in *; by rewrite insert_id).
  revert g a Ha Hl Hself. induction l as [|st l IH]; intros g a Ha Hl Hself; simpl.
  - unfold mpure. do 2 f_equal. rewrite <- Hself at 1. f_equal. destruct a as [????????????? ? ?]. cbn.
    by destruct a_next_state.
  - apply c_true_spec in Hl as Hc.
    destruct (a_next_state a) as [nx|] eqn:En.
    + erewrite mthen_run by (rewrite (mark_service_run _ _ _ _ Ha); unfold mark_result;
        rewrite Hc, En, bool_decide_eq_true_2 by eauto; reflexivity).
      rewrite (IH g a Ha Hl Hself). by rewrite En.
    + destruct (decide (a_current_state a = st)) as [Hs|Hs].
      * erewrite mthen_run by (rewrite (mark_service_run _ _ _ _ Ha); unfold mark_result;
          rewrite Hc, En, bool_decide_eq_false_2, decide_True by (done || by intros [? ?]); reflexivity).
        rewrite bool_decide_eq_false_2 by naive_solver.
        rewrite (IH _ _ (put_service_lookup _ _ _)); [|done|by rewrite put_put_service].
        by rewrite put_put_service.
      * erewrite mthen_run by (rewrite (mark_service_run _ _ _ _ Ha); unfold mark_result;
          rewrite Hc, En, bool_decide_eq_false_2, decide_False by (done || by intros [? ?]); reflexivity).
        rewrite bool_decide_eq_true_2 by naive_solver.
        rewrite (IH _ _ (put_service_lookup _ _ _)); [|done|by rewrite put_put_service].
        by rewrite put_put_service.
Qed.

Definition expired (now : timeval) (a : active_db_h) : bool :=
  tv_sec (a_time_current_state a) + CLEAN_DELAY <? tv_sec now.

(** One round of [initng_active_db_clean_down]. *)
Definition clean_one (s : addr) (g : s_global) : s_global :=
  match g_heap g !! s with
  | None => g
  | Some a =>
    if expired (g_now g) a then
      if is_state IS_DOWN a then removed s g else put_service s (initng_process_db_clear_freed a) g
    else g
  end.

Lemma clean_down_body_run g s :
  is_Some (g_heap g !! s) -> clean_down_body s g = Done (None, clean_one s g).
Proof.
  intros [a Ha]. unfold clean_down_body, clean_one. rewrite Ha.
  rewrite (mthen_run _ _ _ _ _ (get_service_run _ _ _ Ha)).
  erewrite mthen_run by reflexivity. fold (expired (g_now g) a). destruct (expired (g_now g) a); [|done].
  rewrite (mthen_run _ _ _ _ _ (upd_service_run _ _ _ _ Ha)).
  destruct (is_state IS_DOWN a); simpl; [|done].
  erewrite mthen_run by (eapply active_db_free_run, put_service_lookup).
  by rewrite removed_put.
Qed.

Lemma clean_one_other g s s' : s <> s' -> g_heap (clean_one s g) !! s' = g_heap g !! s'.
Proof. intros. unfold clean_one. repeat case_match; simpl; try done; by simplify_map_eq. Qed.

Lemma clean_one_now g s : g_now (clean_one s g) = g_now g.
Proof. unfold clean_one. by repeat case_match. Qed.

(** Does clean_down keep the service at [s]? *)
Definition kept (g : s_global) (s : addr) : bool :=
  match g_heap g !! s with
  | Some a => negb (expired (g_now g) a && is_state IS_DOWN a)
  | None => false
  end.

Lemma clean_one_db g s :
  is_Some (g_heap g !! s) ->
  g_active_db (clean_one s g) = List.filter (fun x => negb (Pos.eqb x s) || kept g s) (g_active_db g).
Proof.
  intros [a Ha]. unfold clean_one, kept. rewrite Ha.
  assert (Hid : forall l : list addr, List.filter (fun x => negb (Pos.eqb x s) || true) l = l).
  { intros l. apply List.forallb_filter_id, List.forallb_forall. intros x _. by rewrite orb_true_r. }
  destruct (expired (g_now g) a), (is_state IS_DOWN a); simpl; rewrite ?Hid; try done.
  apply List.filter_ext. intros x. by rewrite orb_false_r.
Qed.

(** The rounds for the services [l], in a database that lists [l0 ++ l]. *)
Lemma clean_rounds l g :
  NoDup l -> (forall s, s ∈ l -> is_Some (g_heap g !! s)) ->
  exists g', for_each l clean_down_body g = Done (None, g') /\
    g_active_db g' = List.filter (fun s => bool_decide (s ∉ l) || kept g s) (g_active_db g) /\
    g_now g' = g_now g /\
    (forall s, s ∉ l -> g_heap g' !! s = g_heap g !! s) /\
    (forall s a, s ∈ l -> g_heap g !! s = Some a -> g_heap g' !! s =
      if kept g s then Some (if expired (g_now g) a then initng_process_db_clear_freed a else a) else None).
Proof.
  revert g. induction l as [|x l IH]; intros g Hnd Hall; simpl.
  - exists g. split; [done|]. split.
    + rewrite List.forallb_filter_id; [done|]. apply List.forallb_forall. intros s _.
      destruct (bool_decide_reflect (s ∉ [])); [done|set_solver].
    + set_solver.
  - apply NoDup_cons in Hnd as [Hx Hnd].
    erewrite mthen_run by (apply clean_down_body_run, Hall; set_solver).
    destruct (IH (clean_one x g) Hnd) as (g' & E & Hdb & Hnow & Hout & Hin).
    { intros s Hs. rewrite clean_one_other by set_solver. apply Hall. set_solver. }
    exists g'. split; [done|]. rewrite clean_one_now in Hnow. split; [|split; [done|split]].
    + rewrite Hdb, clean_one_db, filter_filter_and by (apply Hall; set_solver).
      apply List.filter_ext. intros s. destruct (Pos.eqb_spec s x) as [->|Hne]; simpl.
      * rewrite bool_decide_eq_true_2 by done. rewrite bool_decide_eq_false_2 by set_solver.
        simpl. by rewrite andb_true_r.
      * unfold kept at 1. rewrite clean_one_other, clean_one_now by done.
        rewrite (bool_decide_ext (s ∉ x :: l) (s ∉ l)) by set_solver. done.
    + intros s Hs. rewrite Hout by set_solver. apply clean_one_other. set_solver.
    + intros s a [->|Hs]%elem_of_cons Ha.
      * rewrite Hout by done. unfold clean_one, kept. rewrite Ha.
        destruct (expired (g_now g) a); simpl; [|done]. destruct (is_state IS_DOWN a); simpl; by simplify_map_eq.
      * assert (x <> s) by set_solver. rewrite (Hin s a Hs) by (by rewrite clean_one_other).
        unfold kept. rewrite clean_one_other, clean_one_now by done. done.
Qed.

(** [n] nested locks, and the [n] unlocks that end them; the result is that of
    the last unlock. *)
Fixpoint locks (n : nat) (s : addr) : G unit :=
  match n with
  | O => mpure tt
  | S n => initng_common_state_lock s ;;; locks n s
  end.

Fixpoint unlocks (n : nat) (s : addr) : G Z :=
  match n with
  | O => mpure FALSE
  | S O => initng_common_state_unlock s
  | S n => initng_common_state_unlock s ;;; unlocks n s
  end.

Lemma put_service_self g s a : g_heap g !! s = Some a -> put_service s a g = g.
Proof. intros H. unfold put_service. destruct g. cbn in *. by rewrite insert_id. Qed.

Lemma locks_run n g s a :
  g_heap g !! s = Some a ->
  locks n s g = Done (tt, put_service s (a <| a_state_lock := a_state_lock a + Z.of_nat n |>) g).
Proof.
  revert g a. induction n as [|n IH]; intros g a Ha.
  - simpl. unfold mpure. do 2 f_equal. rewrite Z.add_0_r. symmetry.
    rewrite <- (put_service_self g s a Ha) at 2. f_equal. by destruct a.
  - cbn [locks]. erewrite mthen_run by (apply upd_service_run, Ha).
    rewrite (IH _ _ (put_service_lookup _ _ _)), put_put_service. do 3 f_equal. cbn.
    unfold setf, set_a_state_lock. cbn. f_equal. lia.
Qed.

(** All but the last of the unlocks only count down. *)
Lemma unlocks_run n g s a :
  g_heap g !! s = Some a -> a_state_lock a = Z.of_nat (S n) ->
  unlocks (S n) s g =
  initng_common_state_unlock s (put_service s (a <| a_state_lock := 1 |>) g).
Proof.
  revert g a. induction n as [|n IH]; intros g a Ha Hl.
  - simpl. f_equal. symmetry. rewrite <- (put_service_self g s a Ha) at 2. f_equal.
    destruct a. cbn in *. subst. done.
  - cbn [unlocks]. erewrite mthen_run.
    2:{ rewrite (state_unlock_run _ _ _ Ha). cbv zeta. rewrite Hl.
        rewrite (proj2 (c_true_spec (Z.of_nat (S (S n))))) by lia.
        rewrite (proj2 (c_true_spec (Z.of_nat (S (S n)) - 1))) by lia. reflexivity. }
    change (unlocks (S n) s (put_service s (a <| a_state_lock := Z.of_nat (S (S n)) - 1 |>) g) =
      initng_common_state_unlock s (put_service s (a <| a_state_lock := 1 |>) g)).
    rewrite (IH _ _ (put_service_lookup _ _ _));
      [|change (Z.of_nat (S (S n)) - 1 = Z.of_nat (S n)); lia].
    by rewrite put_put_service.
Qed.

(** ** The database as a state machine: one step is one operation that returns *)

Inductive db_step : s_global -> s_global -> Prop :=
| step_new name g s g' : initng_active_db_new name g = Done (s, g') -> db_step g g'
| step_register s g r g' : initng_active_db_register s g = Done (r, g') -> db_step g g'
| step_mark s st g r g' : initng_common_mark_service s st g = Done (r, g') -> db_step g g'
| step_lock s g g' : initng_common_state_lock s g = Done (tt, g') -> db_step g g'
| step_lock_all g g' : initng_common_state_lock_all g = Done (tt, g') -> db_step g g'
| step_unlock s g r g' : initng_common_state_unlock s g = Done (r, g') -> db_step g g'
| step_unlock_all g r g' : initng_common_state_unlock_all g = Done (r, g') -> db_step g g'
| step_compensate t g g' : initng_active_db_compensate_time t g = Done (tt, g') -> db_step g g'
| step_clean_down g g' : initng_active_db_clean_down g = Done (tt, g') -> db_step g g'
| step_free s g g' : initng_active_db_free s g = Done (tt, g') -> db_step g g'
| step_free_all g g' : initng_active_db_free_all g = Done (tt, g') -> db_step g g'
| step_tick t g : db_step g (g <| g_clock := t |> <| g_now := t |>).

Lemma wf_zeroed argv clock : wf (zeroed_global argv clock).
Proof. split; simpl; try apply NoDup_nil_2; try (by intros ? ?%elem_of_nil).
  - by intros ? ? ? ? ?%elem_of_nil.
  - intros s a. by rewrite lookup_empty.
  - intros s. rewrite lookup_empty. by intros [? ?]. Qed.

(** The registries of types and states are no part of the invariant. *)
Lemma steps_option_register e : steps (keeps wf) (initng_service_data_type_register e).
Proof. apply steps_modify. intros g [H1 H2 H3 H4 H5 H6 H7]. by destruct (entry_listed _ _). Qed.

Lemma steps_state_register st : steps (keeps wf) (initng_active_state_register st).
Proof.
  unfold initng_active_state_register. apply steps_then; [exact _|apply steps_asks, _|]. intros [?|].
  - apply steps_pure, _.
  - apply steps_then; [exact _| |intros; apply steps_pure, _].
    apply steps_modify. intros g [H1 H2 H3 H4 H5 H6 H7]. by destruct (decide _).
Qed.

Lemma steps_stype_register st : steps (keeps wf) (service_type_register st).
Proof. apply steps_modify. intros g [H1 H2 H3 H4 H5 H6 H7]. by destruct (decide _). Qed.

#[export] Hint Resolve steps_option_register steps_state_register steps_stype_register : steps.

Lemma wf_global_new argv g0 g1 : initng_config_global_new argv g0 = Done (tt, g1) -> wf g1.
Proof.
  unfold initng_config_global_new. rewrite (mthen_run _ _ g0 tt _ eq_refl). intros E.
  refine ((_ : steps (keeps wf) _) _ _ _ E _); [|destruct (wf_zeroed argv (g_clock g0)); by split].
  unfold initng_static_data_id_register_defaults, initng_static_states_register_defaults,
    initng_static_stypes_register_defaults. steps_auto.
Qed.

Lemma steps_lock_all : steps (keeps wf) initng_common_state_lock_all.
Proof. unfold initng_common_state_lock_all. steps_auto. Qed.

Lemma steps_unlock_all : steps (keeps wf) initng_common_state_unlock_all.
Proof.
  unfold initng_common_state_unlock_all. apply steps_then; [exact _|auto with steps|].
  { apply steps_asks, _. }
  intros db. generalize 0. induction db as [|x db IH]; intros z; simpl; steps_auto.
Qed.

Lemma steps_free_all : steps (keeps wf) initng_active_db_free_all.
Proof. unfold initng_active_db_free_all. steps_auto. Qed.

Lemma db_step_wf g g' : db_step g g' -> wf g -> wf g'.
Proof.
  intros H. destruct H as [? ? ? ? E|? ? ? ? E|? ? ? ? ? E|? ? ? E|? ? E|? ? ? ? E|? ? ? E|? ? ? E|? ? E|? ? ? E|? ? E|? ?];
    try (revert E; first [apply steps_active_db_new|apply steps_register|apply steps_mark|apply steps_lock
      |apply steps_lock_all|apply steps_unlock|apply steps_unlock_all|apply steps_compensate
      |apply steps_clean_down|apply steps_free|apply steps_free_all]).
  intros [H1 H2 H3 H4 H5 H6 H7]. by split.
Qed.

(** The counts behind the percentages. *)
Lemma count_services_nonneg f g : 0 <= count_services f g.
Proof. unfold count_services. lia. Qed.

Lemma percent_bounds part rest :
  0 <= rest ->
  let p := if rest <=? 0 then 100 else if 0 <? part then Z.quot (100 * part) (rest + part) else 0 in
  0 <= p <= 100 /\ (p = 100 <-> rest = 0).
Proof.
  intros Hr. cbv zeta. destruct (Z.leb_spec rest 0); [lia|]. destruct (Z.ltb_spec 0 part); [|lia].
  rewrite Z.quot_div_nonneg by lia.
  assert (0 <= 100 * part / (rest + part)) by (apply Z.div_pos; lia).
  assert (100 * part / (rest + part) < 100) by (apply Z.div_lt_upper_bound; lia).
  lia.
Qed.

(** The rounds of the time compensation: each service of [l] once. *)
Lemma compensate_rounds skew l g :
  NoDup l -> (forall s, s ∈ l -> is_Some (g_heap g !! s)) ->
  exists g', for_each (R := unit) l
      (fun current => upd_service current (compensate_active skew) ;;; mpure None) g = Done (None, g') /\
    g_active_db g' = g_active_db g /\
    (forall s a, s ∈ l -> g_heap g !! s = Some a -> g_heap g' !! s = Some (compensate_active skew a)) /\
    (forall s, s ∉ l -> g_heap g' !! s = g_heap g !! s).
Proof.
  revert g. induction l as [|x l IH]; intros g Hnd Hall; cbn [for_each].
  - exists g. repeat split; try done. set_solver.
  - apply NoDup_cons in Hnd as [Hx Hnd]. destruct (Hall x) as [a Ha]; [set_solver|].
    destruct (IH (put_service x (compensate_active skew a) g) Hnd) as (g' & E & Hdb & Hin & Hout).
    { intros s Hs. rewrite put_service_lookup_ne by set_solver. apply Hall. set_solver. }
    exists g'. split; [|split; [done|split]].
    + rewrite (mthen_run _ _ g None (put_service x (compensate_active skew a) g)); [exact E|].
      by rewrite (mthen_run _ _ _ _ _ (upd_service_run _ _ _ _ Ha)).
    + intros s b [->|Hs]%elem_of_cons Hb.
      * rewrite Hout, put_service_lookup by done. congruence.
      * apply (Hin s b Hs). rewrite put_service_lookup_ne by set_solver. done.
    + intros s Hs. rewrite Hout, put_service_lookup_ne by set_solver. done.
Qed.

(** What the section of the locked marks leaves in the struct. *)
Definition after_marks (l : list a_state_h) (a : active_db_h) : option a_state_h :=
  List.find (fun st => bool_decide (st <> a_current_state a)) l.

(** ** Theorems *)

(** What a change of state leaves in the struct: every field of it. *)
Record takes_state (st : a_state_h) (now : timeval) (a b : active_db_h) : Prop := {
  ts_current : a_current_state b = st;
  ts_time : a_time_current_state b = now;
  ts_last : a_last_state b = Some (a_current_state a);
  ts_time_last : a_time_last_state b = a_time_current_state a;
  ts_next : a_next_state b = None;
  ts_lock : a_state_lock b = 0;
  ts_alarm : a_alarm b = 0;
  ts_rought : a_last_rought_state b = st_is (a_current_state a);
  ts_rought_usec : tv_usec (a_last_rought_time b) = tv_usec (a_last_rought_time a);
  ts_rought_sec : tv_sec (a_last_rought_time b) / 256 = tv_sec (a_last_rought_time a) / 256;
  ts_rought_byte : tv_sec (a_last_rought_time b) mod 256 =
    (if bool_decide (a_last_rought_state a = st_is (a_current_state a)) then tv_sec (a_last_rought_time a)
     else tv_sec (a_time_current_state a)) mod 256;
  ts_rest : (a_name_hash b, a_name b, a_type b, a_processes b, a_data b, a_depend_cache b) =
    (a_name_hash a, a_name a, a_type a, a_processes a, a_data a, a_depend_cache a)
}.

Lemma apply_takes_state st now a : a_state_lock a = 0 -> takes_state st now a (apply_next_state st now a).
Proof.
  intros Hl. destruct a as [? ? ? cur ? ? ? ? ? rs rt ? ? ? ?]. cbn in Hl. subst. unfold apply_next_state, GET_STATE. cbv zeta. cbn.
  destruct (decide (rs = st_is cur)) as [E|E]; split; cbn; try done.
  - by rewrite bool_decide_eq_true_2.
  - set (t := tv_sec rt). set (u := tv_sec _). pose proof (Z.mod_pos_bound u 256 ltac:(lia)).
    pose proof (Z.div_mod t 256 ltac:(lia)). replace (t - t mod 256 + u mod 256) with (u mod 256 + (t / 256) * 256) by lia.
    rewrite Z.div_add by lia. by rewrite (Z.div_small (u mod 256)) by lia.
  - rewrite bool_decide_eq_false_2 by done. set (t := tv_sec rt). set (u := tv_sec _).
    pose proof (Z.div_mod t 256 ltac:(lia)). replace (t - t mod 256 + u mod 256) with (u mod 256 + (t / 256) * 256) by lia.
    by rewrite Z.mod_add, Z.mod_mod by lia.
Qed.

Lemma locked_marks_run g s a n l :
  g_heap g !! s = Some a -> a_state_lock a = 0 -> a_next_state a = None ->
  (locks (S n) s ;;; mark_each s l ;;; unlocks (S n) s) g =
  match after_marks l a with
  | None => Done (FALSE, g)
  | Some st => Done (TRUE, interrupt_add s (put_service s (apply_next_state st (g_clock g) a) g))
  end.
Proof.
  intros Ha Hl Hn. erewrite mthen_run by (apply locks_run, Ha).
  erewrite mthen_run by (apply mark_each_locked; [apply put_service_lookup|cbn; lia]).
  rewrite put_put_service. erewrite unlocks_run; [|apply put_service_lookup|cbn; lia].
  rewrite put_put_service. rewrite (state_unlock_run _ _ _ (put_service_lookup _ _ _)).
  cbn -[after_marks]. rewrite Hn.
  fold (after_marks l a). destruct a. cbn in Hl, Hn. subst.
  destruct (after_marks l _) as [st|]; cbn; rewrite !put_put_service; do 2 f_equal;
    [|by apply put_service_self].
  do 2 f_equal. unfold apply_next_state. cbv zeta.
  destruct (decide (a_last_rought_state = st_is a_current_state)) as [Er|Er].
  - by rewrite !decide_True by exact Er.
  - by rewrite !decide_False by exact Er.
Qed.

(** C7: state changes are atomic.  Whatever states a service is marked with
    while its state is locked, [n] levels deep, the only effect is that of the
    outermost unlock: the first marked state that differs from the current one
    becomes the current state, exactly once, with the time of now, the old state
    as last state with its time, no state pending, the alarm off and the lock
    open; the service is at the end of the interrupt list, unless it was on it
    already; and nothing else changes in the struct or in the system.  If no
    mark differed, nothing has changed at all.  (Of the time of the last rough
    state only the lowest byte is copied.) *)
Theorem locked_marks_take_effect_once g s a n l :
  g_heap g !! s = Some a -> a_state_lock a = 0 -> a_next_state a = None ->
  exists r g', (locks (S n) s ;;; mark_each s l ;;; unlocks (S n) s) g = Done (r, g') /\
  match List.find (fun st => bool_decide (st <> a_current_state a)) l with
  | None => r = FALSE /\ g' = g
  | Some st => r = TRUE /\
    (exists b, g_heap g' = <[s := b]> (g_heap g) /\ takes_state st (g_clock g) a b) /\
    g_interrupt g' = (if bool_decide (s ∈ g_interrupt g) then g_interrupt g else g_interrupt g ++ [s]) /\
    g' <| g_heap := g_heap g |> <| g_interrupt := g_interrupt g |> = g
  end.
Proof.
  intros Ha Hl Hn. rewrite (locked_marks_run g s a n l Ha Hl Hn). unfold after_marks. destruct (List.find _ l) as [st|]; [|by eexists _, _].
  eexists _, _. split; [reflexivity|]. split; [done|]. pose proof (apply_takes_state st (g_clock g) a Hl) as Ht.
  unfold interrupt_add. cbn [g_interrupt put_service]. destruct g as [? ? ? ? ? ? ? ? ? ? ? ? ?].
  case_decide as E; (split; [by eexists|]); cbn in *; [rewrite bool_decide_eq_true_2 by done|rewrite bool_decide_eq_false_2 by done]; done.
Qed.

(** [initng_active_db_clean_down] on a well-formed database returns, frees
    exactly the services that have been in a DOWN state for more than
    CLEAN_DELAY seconds, keeps the order of the others, and only forgets the
    freed processes of those that are that old. *)
Theorem clean_down_frees_exactly_old_down g :
  wf g ->
  exists g', initng_active_db_clean_down g = Done (tt, g') /\ wf g' /\
    g_active_db g' = List.filter (kept g) (g_active_db g) /\
    (forall s a, s ∈ g_active_db g -> g_heap g !! s = Some a ->
      g_heap g' !! s =
        if expired (g_now g) a && is_state IS_DOWN a then None
        else Some (if expired (g_now g) a then initng_process_db_clear_freed a else a)) /\
    (forall s, s ∉ g_active_db g -> g_heap g' !! s = g_heap g !! s).
Proof.
  intros Hwf.
  destruct (clean_rounds (g_active_db g) g (wf_nodup g Hwf) (wf_alloc g Hwf)) as (g' & E & Hdb & Hnow & Hout & Hin).
  assert (Hrun : initng_active_db_clean_down g = Done (tt, g')).
  { unfold initng_active_db_clean_down. erewrite mthen_run by reflexivity. by erewrite mthen_run by exact E. }
  exists g'. split; [done|]. split; [by eapply steps_clean_down|]. split; [|split; [|done]].
  - rewrite Hdb. apply List.filter_ext_in. intros s Hs%list_elem_of_In.
    by rewrite bool_decide_eq_false_2 by tauto.
  - intros s a Hs Ha. rewrite (Hin s a Hs Ha). unfold kept. rewrite Ha.
    by destruct (expired _ _ && _).
Qed.

(** Registration.  [initng_active_db_register] refuses a service whose name
    is taken and then changes nothing; otherwise the service is appended, the
    search by name finds it, and the search for any other name is as before. *)
Theorem register_then_find g s a :
  wf g -> g_heap g !! s = Some a -> s ∉ g_active_db g ->
  if decide (is_Some (initng_active_db_find_by_name (a_name a) g))
  then initng_active_db_register s g = Done (FALSE, g)
  else exists g', initng_active_db_register s g = Done (TRUE, g') /\
    g_active_db g' = g_active_db g ++ [s] /\ g_heap g' = g_heap g /\
    initng_active_db_find_by_name (a_name a) g' = Some s /\
    forall name, name <> a_name a ->
      initng_active_db_find_by_name name g' = initng_active_db_find_by_name name g.
Proof.
  intros Hwf Ha Hs. unfold initng_active_db_register at 1 2.
  rewrite (mthen_run _ _ _ _ _ (get_service_run _ _ _ Ha)). rewrite !(mthen_run _ _ g _ g eq_refl).
  destruct (initng_active_db_find_by_name (a_name a) g) as [s'|] eqn:Ef; case_decide as Hd; try done.
  { exfalso. apply Hd. by eexists. }
  assert (Hreg : initng_active_db_register s g = Done (TRUE, active_db_add s g)).
  { unfold initng_active_db_register. rewrite (mthen_run _ _ _ _ _ (get_service_run _ _ _ Ha)).
    rewrite !(mthen_run _ _ g _ g eq_refl). by rewrite Ef. }
  pose proof (steps_register s _ _ _ Hreg Hwf) as Hwf'.
  assert (Hadd : active_db_add s g = g <| g_active_db := g_active_db g ++ [s] |>)
    by (unfold active_db_add; by rewrite decide_False by done).
  exists (active_db_add s g). split; [done|]. rewrite Hadd in *. split; [done|]. split; [done|]. split.
  - apply find_by_name_spec; [done|]. cbn. split; [set_solver|eauto].
  - intros name Hname. apply option_eq. intros x. rewrite !find_by_name_spec by done. cbn.
    split; intros (Hx & b & Hb & Hbn); (split; [|eauto]); [|set_solver].
    apply elem_of_app in Hx as [Hx|Hx%list_elem_of_singleton]; [done|]. subst. congruence.
Qed.

(** C8: every state that the operations of the database, in any order and
    interleaved with the clock, can reach from what initng_config_global_new
    left is well formed:
    the lists have no repeated entry and no dangling pointer, names are unique,
    every service carries the hash of its name, and a next state waits only
    while the state is locked. *)
Theorem reachable_databases_are_well_formed argv g0 g1 g :
  initng_config_global_new argv g0 = Done (tt, g1) -> rtc db_step g1 g -> wf g.
Proof.
  intros Hnew H. pose proof (wf_global_new _ _ _ Hnew) as Hz. clear Hnew.
  induction H as [g|g1 g2 g3 Hs _ IH]; [done|]. apply IH. by eapply db_step_wf.
Qed.

(** The progress figures stay within 0 and 100, and are 100 exactly when
    nothing is starting (stopping). *)
Theorem percent_in_range g :
  (0 <= initng_active_db_percent_started g <= 100 /\
   (initng_active_db_percent_started g = 100 <-> count_services (is_state IS_STARTING) g = 0)) /\
  (0 <= initng_active_db_percent_stopped g <= 100 /\
   (initng_active_db_percent_stopped g = 100 <-> count_services (is_state IS_STOPPING) g = 0)).
Proof.
  split; apply percent_bounds, count_services_nonneg.
Qed.

(** Initng may quit exactly when the count of the services that are neither
    down nor failed is zero. *)
Theorem ready_to_quit_iff_count_zero g :
  initng_main_ready_to_quit g = true <-> initng_active_db_count None g = 0.
Proof.
  unfold initng_main_ready_to_quit, initng_active_db_count, count_services.
  rewrite List.forallb_forall. split.
  - intros H. rewrite (proj1 (find_filter_nil _ _)); [done|].
    destruct (List.find _ _) as [[s a]|] eqn:E; [|done]. apply List.find_some in E as [Hin Hf].
    specialize (H _ Hin). simpl in H. by rewrite H in Hf.
  - intros H [s a] Hin. destruct (is_state IS_FAILED a || is_state IS_DOWN a) eqn:E; [done|]. exfalso.
    assert (Hx : List.In (s, a) (List.filter (fun '(_, a) => negb (is_state IS_FAILED a || is_state IS_DOWN a)) (active_services g)))
      by (apply List.filter_In; split; [done|]; by rewrite E).
    destruct (List.filter _ _); [done|]. simpl in H. lia.
Qed.

(** The compensation for a clock that jumped by [skew] keeps every age: the
    time each service has been in its state is the same before and after, and
    so is the time an alarm has left.  It also reaches services without an
    alarm: their alarm, 0 for none, becomes [skew]. *)
Theorem compensate_keeps_ages_but_arms_alarms g skew :
  wf g ->
  exists g', initng_active_db_compensate_time skew g = Done (tt, g') /\
    g_active_db g' = g_active_db g /\
    forall s a, s ∈ g_active_db g -> g_heap g !! s = Some a ->
      exists b, g_heap g' !! s = Some b /\
        (forall now, tv_sec (shift_time skew now) - tv_sec (a_time_current_state b) =
                     tv_sec now - tv_sec (a_time_current_state a)) /\
        (forall now, a_alarm b - (now + skew) = a_alarm a - now) /\
        (a_alarm a = 0 -> a_alarm b = skew).
Proof.
  intros Hwf. destruct (compensate_rounds skew (g_active_db g) g (wf_nodup g Hwf) (wf_alloc g Hwf))
    as (g' & E & Hdb & Hin & _).
  exists g'. split; [|split; [done|]].
  - unfold initng_active_db_compensate_time. rewrite (mthen_run _ _ g _ g eq_refl). by erewrite mthen_run by exact E.
  - intros s a Hs Ha. exists (compensate_active skew a). split; [by apply Hin|]. cbn. split; [|split]; intros; lia.
Qed.
