(* ===== verification/Depend.v ===== *)
(** * Dependencies and the service handlers: src/main/depend/ and
    src/main/handler/ (the alarms are in file Interrupt)

    The code calls back into modules while it walks the active_db, so the walks
    here read the list again in every round.  [fuel] bounds the rounds of the
    loops and the depth of the recursion between initng_handler_start_service,
    initng_depend_start_deps and initng_handler_start_new_service_named, and
    between initng_handler_restart_service and initng_depend_restart_deps. *)
From S2P Require Import Prelude Types Data CString Global ActiveDb.
From Stdlib Require Import String.
From stdpp Require Import prelude gmap strings.
Local Open Scope Z_scope.

(** ** Walks of the active_db *)

(** while_active_db: the link is followed after the body. *)
Fixpoint while_active_db {R} (fuel : nat) (current : option addr) (body : addr -> G (option R))
    : G (option R) :=
  match current with
  | None => mpure None
  | Some s =>
    match fuel with
    | O => nofuel
    | S fuel =>
      let! r := body s in
      match r with
      | Some v => mpure (Some v)
      | None =>
        let! next := deref (fun g => next_of s (g_active_db g)) in
        while_active_db fuel next body
      end
    end
  end.

(** while_active_db_safe: the link is followed before the body. *)
Fixpoint while_active_db_safe {R} (fuel : nat) (current : option addr) (body : addr -> G (option R))
    : G (option R) :=
  match current with
  | None => mpure None
  | Some s =>
    match fuel with
    | O => nofuel
    | S fuel =>
      let! next := deref (fun g => next_of s (g_active_db g)) in
      let! r := body s in
      match r with
      | Some v => mpure (Some v)
      | None => while_active_db_safe fuel next body
      end
    end
  end.

Definition first_active : G (option addr) := asks (fun g => head (g_active_db g)).

(** ** depend/dep_on.c *)

Definition is_dep (c : s_data) : bool :=
  same_entry (d_type c) REQUIRE || same_entry (d_type c) NEED || same_entry (d_type c) USE.

Fixpoint dep_on_loop (fuel : nat) (d : data_head) (check_name : string) (current : option addr)
    : option Z :=
  match fuel with
  | O => None
  | S fuel =>
    match initng_data_get_next_var None None d current with
    | None => Some FALSE
    | Some c =>
      if negb (is_dep c) then dep_on_loop fuel d check_name (Some (d_addr c))
      else match t_s (d_t c) with
           | None => dep_on_loop fuel d check_name (Some (d_addr c))
           | Some s =>
             if String.eqb s check_name then Some TRUE
             else dep_on_loop fuel d check_name (Some (d_addr c))
           end
    end
  end.

Definition dep_on (service check : addr) : G Z :=
  let! a := get_service service in
  let! b := get_service check in
  match dep_on_loop (S (length (all_entries (a_data a)))) (a_data a) (a_name b) None with
  | Some r => mpure r
  | None => nofuel
  end.

Section depend.
Context `{!Callbacks}.

(** ** depend/depend.c *)

Definition initng_depend (service check : addr) : G Z :=
  if Pos.eqb service check then mpure FALSE
  else
    let! r := dep_on service check in
    if r =? TRUE then mpure TRUE
    else
      let! event := initng_event_send (new_event EVENT_DEP_ON (ED_dep_on service check)) in
      mpure (if decide (ev_status event = HANDLED) then TRUE else FALSE).

(** ** depend/depend_deep.c

    The result carries the new value of [*stack].  The test
    [current == service] on entry compares NULL with a service and never
    succeeds. *)
Section deep.
Variable depend_deep2 : addr -> addr -> Z -> G (Z * Z).

(** The loop over the database; the results are [result] and [*stack]. *)
Fixpoint depend_deep_loop (fuel : nat) (service check : addr) (current : option addr)
    (result stack : Z) : G (Z * Z) :=
  match current with
  | None => mpure (result, stack)
  | Some s =>
    match fuel with
    | O => nofuel
    | S fuel =>
      let! r := initng_depend service s in
      let! (result, stack, stop) :=
        if c_true r then
          let! (result, stack) := depend_deep2 s check stack in
          mpure (result, stack, c_true result)
        else mpure (result, stack, false) in
      if stop then mpure (result, stack)
      else
        let! next := deref (fun g => next_of s (g_active_db g)) in
        depend_deep_loop fuel service check next result stack
    end
  end.
End deep.

Fixpoint initng_depend_deep2 (fuel : nat) (service check : addr) (stack : Z) : G (Z * Z) :=
  match fuel with
  | O => nofuel
  | S fuel =>
    let! r := initng_depend service check in
    if c_true r then mpure (TRUE, stack)
    else
      let stack := stack + 1 in
      if 10 <? stack then mpure (FALSE, stack)
      else
        let! current := first_active in
        let! db := asks g_active_db in
        depend_deep_loop (initng_depend_deep2 fuel) (S (length db)) service check current FALSE stack
  end.

(** Eleven levels: see depend_deep_returns. *)
Definition initng_depend_deep (service check : addr) : G Z :=
  let! (result, _) := initng_depend_deep2 12 service check 0 in mpure result.

(** ** depend/any_depends_on.c *)

Definition initng_depend_any_depends_on (fuel : nat) (service : addr) : G Z :=
  let! first := first_active in
  let! r := while_active_db fuel first (fun current =>
    if Pos.eqb current service then mpure None
    else
      let! a := get_service current in
      match GET_STATE a with
      | IS_UP | IS_STARTING | IS_STOPPING =>
        let! d := initng_depend_deep current service in
        mpure (if d =? TRUE then Some TRUE else None)
      | _ => mpure None
      end) in
  mpure (default FALSE r).

(** ** depend/stop_dep_met.c *)

Definition incr_cache (n : Z) (a : active_db_h) : active_db_h :=
  a <| a_depend_cache := a_depend_cache a + n |>.

(** strstr(haystack, needle) != NULL *)
Fixpoint strstr (needle haystack : string) : bool :=
  String.prefix needle haystack ||
  match haystack with
  | EmptyString => false
  | String _ h => strstr needle h
  end.

(** Lines 60-82: is a dependent in this state in the way of a stop? *)
Definition blocks_stop (a : active_db_h) : bool :=
  match GET_STATE a with
  | IS_DOWN | IS_FAILED => false
  | IS_STARTING => negb (strstr "WAITING_FOR_START_DEP" (st_name (a_current_state a)))
  | _ => true
  end.

Fixpoint stop_dep_met_loop (fuel : nat) (service : addr) (currentA : option addr) (count : Z)
    : G (option Z) :=
  match currentA with
  | None => mpure None
  | Some cur =>
    match fuel with
    | O => nofuel
    | S fuel =>
      let continue (count : Z) :=
        let! next := deref (fun g => next_of cur (g_active_db g)) in
        stop_dep_met_loop fuel service next count in
      let count := count + 1 in
      let! a := get_service service in
      if count <=? a_depend_cache a then continue count
      else
        upd_service service (incr_cache 1) ;;;
        if Pos.eqb cur service then continue count
        else
          let! r := initng_depend cur service in
          if r =? FALSE then continue count
          else
            let! c := get_service cur in
            if negb (blocks_stop c) then continue count
            else
              upd_service service (incr_cache (-1)) ;;;
              mpure (Some FALSE)
    end
  end.

Definition initng_depend_stop_dep_met (fuel : nat) (service : addr) : G Z :=
  let! first := first_active in
  let! r := stop_dep_met_loop fuel service first 0 in
  match r with
  | Some r => mpure r
  | None =>
    let! event := initng_event_send (new_event EVENT_STOP_DEP_MET (ED_service service)) in
    if decide (ev_status event = FAILED) then mpure FALSE
    else
      upd_service service (fun a => a <| a_depend_cache := 0 |>) ;;;
      mpure TRUE
  end.

(** ** depend/up_check.c *)

Definition initng_depend_up_check (service : addr) : G Z :=
  let! event := initng_event_send (new_event EVENT_UP_MET (ED_service service)) in
  mpure (of_bool (bool_decide (ev_status event <> FAILED))).

(** ** handler/start_service.c, depend/start_deps.c and
    handler/start_new_service_named.c *)

Section start.
Variable start_service : addr -> G Z.

Definition start_new_service_named (service : string) : G (option addr) :=
  let! to_load := asks (initng_active_db_find_by_name service) in
  match to_load with
  | Some to_load =>
    let! a := get_service to_load in
    if negb (is_state IS_DOWN a) then mpure (Some to_load)
    else start_service to_load ;;; mpure (Some to_load)
  | None => initng_module_active_new service
  end.

Definition is_hard_dep (c : s_data) : bool :=
  same_entry (d_type c) REQUIRE || same_entry (d_type c) NEED.

Fixpoint start_deps_loop (fuel : nat) (service : addr) (current : option addr) : G Z :=
  match fuel with
  | O => nofuel
  | S fuel =>
    let! a := get_service service in
    match initng_data_get_next_var None None (a_data a) current with
    | None => mpure TRUE
    | Some c =>
      let continue := start_deps_loop fuel service (Some (d_addr c)) in
      if negb (is_hard_dep c) then continue
      else match t_s (d_t c) with
           | None => continue
           | Some name =>
             let! dep := asks (initng_active_db_find_by_name name) in
             match dep with
             | Some dep =>
               let! b := get_service dep in
               (if is_state IS_DOWN b then start_service dep ;;; mpure tt else mpure tt) ;;;
               continue
             | None =>
               let! new := start_new_service_named name in
               match new with
               | Some _ => continue
               | None =>
                 if same_entry (d_type c) NEED then continue
                 else
                   initng_common_mark_service service REQ_NOT_FOUND ;;;
                   mpure FALSE
               end
             end
           end
    end
  end.

(** Lines 42-95 of start_service.c: [Some r] is an early return. *)
Definition start_gate (sys_state : h_sys_state) (a : active_db_h) : option Z :=
  match a_type a with
  | None => Some FALSE
  | Some _ =>
    if negb (bool_decide (sys_state = STATE_STARTING)) && negb (bool_decide (sys_state = STATE_UP))
    then Some FALSE
    else if initng_data_is_var RESTARTING None (a_data a) then Some FALSE
    else match GET_STATE a with
         | IS_STARTING | IS_WAITING => Some TRUE
         | IS_FAILED => Some FALSE
         | IS_UP => Some TRUE
         | IS_NEW => Some TRUE
         | IS_STOPPING | IS_DOWN => None
         end
  end.

Definition start_service_body (fuel : nat) (service_to_start : addr) : G Z :=
  let! a := get_service service_to_start in
  let! sys_state := asks g_sys_state in
  match start_gate sys_state a with
  | Some r => mpure r
  | None =>
    let! r := start_deps_loop fuel service_to_start None in
    if negb (r =? TRUE) then mpure FALSE
    else
      let! a := get_service service_to_start in
      match a_type a with
      | None => fault
      | Some type =>
        match sty_start type with
        | None => mpure FALSE
        | Some start => call_stype start service_to_start
        end
      end
  end.
End start.

Fixpoint initng_handler_start_service (fuel : nat) (service_to_start : addr) : G Z :=
  match fuel with
  | O => nofuel
  | S fuel => start_service_body (initng_handler_start_service fuel) fuel service_to_start
  end.

Definition initng_depend_start_deps (fuel : nat) (service : addr) : G Z :=
  start_deps_loop (initng_handler_start_service fuel) fuel service None.

Definition initng_handler_start_new_service_named (fuel : nat) (service : string) : G (option addr) :=
  start_new_service_named (initng_handler_start_service fuel) service.

(** ** depend/start_dep_met.c *)

(** The loop; [Some r] is a return from inside it. *)
Fixpoint start_dep_met_loop (start_service : addr -> G Z) (fuel : nat) (service : addr)
    (current : option addr) (count : Z) : G (option Z) :=
  match fuel with
  | O => nofuel
  | S fuel =>
    let! a := get_service service in
    match initng_data_get_next_var None None (a_data a) current with
    | None => mpure None
    | Some c =>
      let continue (count : Z) := start_dep_met_loop start_service fuel service (Some (d_addr c)) count in
      if negb (is_dep c) then continue count
      else match t_s (d_t c) with
           | None => continue count
           | Some name =>
             let count := count + 1 in
             if count <=? a_depend_cache a then continue count
             else
               let! dep := asks (initng_active_db_find_by_name name) in
               match dep with
               | None =>
                 if same_entry (d_type c) USE then continue count
                 else if same_entry (d_type c) REQUIRE then
                   initng_common_mark_service service REQ_NOT_FOUND ;;;
                   mpure (Some FAIL)
                 else mpure (Some FALSE)
               | Some dep =>
                 let! b := get_service dep in
                 match GET_STATE b with
                 | IS_STARTING => mpure (Some FALSE)
                 | IS_FAILED => mpure (Some FAIL)
                 | IS_NEW => mpure (Some FALSE)
                 | IS_DOWN =>
                   start_service dep ;;;
                   mpure (Some FALSE)
                 | IS_UP =>
                   upd_service service (fun a => a <| a_depend_cache := count |>) ;;;
                   continue count
                 | IS_STOPPING | IS_WAITING => mpure (Some FALSE)
                 end
               end
           end
    end
  end.

Definition initng_depend_start_dep_met (fuel : nat) (service : addr) : G Z :=
  let! r := start_dep_met_loop (initng_handler_start_service fuel) fuel service None 0 in
  match r with
  | Some r => mpure r
  | None =>
    let! event := initng_event_send (new_event EVENT_START_DEP_MET (ED_service service)) in
    if decide (ev_status event = FAILED) then mpure FALSE
    else
      upd_service service (fun a => a <| a_depend_cache := 0 |>) ;;;
      mpure TRUE
  end.

(** ** handler/stop_service.c *)

Definition initng_handler_stop_service (service_to_stop : addr) : G Z :=
  let! a := get_service service_to_stop in
  match a_type a with
  | None => mpure FALSE
  | Some type =>
    match GET_STATE a with
    | IS_FAILED | IS_STOPPING | IS_DOWN => mpure TRUE
    | IS_UP | IS_STARTING =>
      match sty_stop type with
      | None => mpure FALSE
      | Some stop => call_stype stop service_to_stop
      end
    | _ => mpure FALSE
    end
  end.

(** ** depend/stop_deps.c *)

Definition initng_depend_stop_deps (fuel : nat) (service : addr) : G Z :=
  let! first := first_active in
  while_active_db_safe (R := unit) fuel first (fun current =>
    if Pos.eqb current service then mpure None
    else
      let! d := initng_depend_deep current service in
      if d =? TRUE then initng_handler_stop_service current ;;; mpure None
      else mpure None) ;;;
  mpure TRUE.

(** ** handler/stop_all.c *)

Definition stop_all_body (ser : addr) : G (option unit) :=
  let! a := get_service ser in
  match GET_STATE a with
  | IS_STOPPING | IS_DOWN | IS_FAILED => mpure None
  | _ => initng_handler_stop_service ser ;;; mpure None
  end.

Definition initng_handler_stop_all (fuel : nat) : G Z :=
  initng_main_set_sys_state STATE_STOPPING ;;;
  let! first := first_active in
  while_active_db_safe fuel first stop_all_body ;;;
  mpure TRUE.

(** ** handler/restart_service.c and depend/restart_deps.c *)

(** set(&RESTARTING, service) *)
Definition set_restarting (service : addr) : G unit :=
  let! fresh := new_addr in
  upd_service service (fun a => a <| a_data := initng_data_set_var (Some RESTARTING) None fresh (a_data a) |>).

Definition restart_deps (restart_service : addr -> G Z) (fuel : nat) (service : addr) : G Z :=
  let! first := first_active in
  while_active_db_safe (R := unit) fuel first (fun current =>
    if Pos.eqb current service then mpure None
    else
      let! d := initng_depend_deep current service in
      if d =? TRUE then restart_service current ;;; mpure None
      else mpure None) ;;;
  mpure TRUE.

Fixpoint initng_handler_restart_service (fuel : nat) (service_to_restart : addr) : G Z :=
  match fuel with
  | O => nofuel
  | S fuel =>
    let! a := get_service service_to_restart in
    match a_type a with
    | None => mpure FALSE
    | Some _ =>
      if negb (is_state IS_UP a) then mpure FALSE
      else
        restart_deps (initng_handler_restart_service fuel) fuel service_to_restart ;;;
        let! a := get_service service_to_restart in
        match a_type a with
        | None => fault
        | Some type =>
          match sty_restart type with
          | Some restart => call_stype restart service_to_restart
          | None =>
            set_restarting service_to_restart ;;;
            initng_handler_stop_service service_to_restart
          end
        end
    end
  end.

Definition initng_depend_restart_deps (fuel : nat) (service : addr) : G Z :=
  restart_deps (initng_handler_restart_service fuel) fuel service.

(** ** handler/restart_restarting.c *)

Definition restarting (a : active_db_h) : bool := initng_data_is_var RESTARTING None (a_data a).

Definition initng_handler_restart_restarting (fuel : nat) : G unit :=
  let! busy := asks (fun g =>
    List.existsb (fun '(_, a) => is_state IS_STOPPING a && restarting a) (active_services g)) in
  if busy then mpure tt
  else
    let! first := first_active in
    while_active_db (R := unit) fuel first (fun current =>
      let! a := get_service current in
      if is_state IS_DOWN a && restarting a then
        data_remove RESTARTING current ;;;
        initng_handler_start_service fuel current ;;;
        mpure None
      else mpure None) ;;;
    mpure tt.

End depend.

(** ** Lemmas: walks *)

(** The state after a body of the walk still lists the same services. *)
Definition same_db (g g' : s_global) : Prop := g_active_db g' = g_active_db g.

#[export] Instance same_db_preorder : PreOrder same_db.
Proof. split; unfold same_db; [done|]. intros ? ? ? E1 E2. congruence. Qed.

(** A walk whose body leaves the list alone is a loop over the list. *)
Lemma while_active_db_for_each {R} fuel l1 l2 (body : addr -> G (option R)) g :
  (forall s, s ∈ l2 -> steps same_db (body s)) ->
  NoDup (g_active_db g) -> g_active_db g = l1 ++ l2 -> (length l2 <= fuel)%nat ->
  while_active_db fuel (head l2) body g = for_each l2 body g.
Proof.
  revert l1 l2 g. induction fuel as [|fuel IH]; intros l1 [|s l2] g Hb Hnd Hdb Hf; simpl in *; try done; [lia|].
  unfold mthen. destruct (body s g) as [[[v|] g1]| |] eqn:E; try done.
  assert (Hs : g_active_db g1 = g_active_db g) by (eapply Hb; [|exact E]; set_solver).
  unfold deref. rewrite Hs, Hdb, next_of_mid by (by rewrite <- Hdb).
  apply (IH (l1 ++ [s])); [set_solver|by rewrite Hs|by rewrite Hs, Hdb, <- app_assoc|lia].
Qed.

Lemma while_active_db_safe_for_each {R} fuel l1 l2 (body : addr -> G (option R)) g :
  (forall s, s ∈ l2 -> steps same_db (body s)) ->
  NoDup (g_active_db g) -> g_active_db g = l1 ++ l2 -> (length l2 <= fuel)%nat ->
  while_active_db_safe fuel (head l2) body g = for_each l2 body g.
Proof.
  revert l1 l2 g. induction fuel as [|fuel IH]; intros l1 [|s l2] g Hb Hnd Hdb Hf; simpl in *; try done; [lia|].
  unfold mthen at 1. unfold deref. rewrite Hdb, next_of_mid by (by rewrite <- Hdb).
  unfold mthen. destruct (body s g) as [[[v|] g1]| |] eqn:E; try done.
  assert (Hs : g_active_db g1 = g_active_db g) by (eapply Hb; [|exact E]; set_solver).
  apply (IH (l1 ++ [s])); [set_solver|by rewrite Hs|by rewrite Hs, Hdb, <- app_assoc|lia].
Qed.

(** ** Lemmas: the entries of a service *)

(** The value of [current] when the entries [l1] of the data were visited. *)
Definition visited (l1 : list s_data) (current : option addr) : Prop :=
  match current with
  | None => l1 = []
  | Some a => exists l0 c, l1 = l0 ++ [c] /\ d_addr c = a
  end.

Lemma visited_snoc l1 c : visited (l1 ++ [c]) (Some (d_addr c)).
Proof. by exists l1, c. Qed.

(** [get_next(NULL, service, current)] reaches every entry in turn. *)
Lemma get_next_any d l1 l2 current :
  data_ok d -> all_entries d = l1 ++ l2 -> visited l1 current ->
  initng_data_get_next_var None None d current = head l2.
Proof.
  intros Hok E Hv. assert (Hf : forall l, List.find (entry_matches None None) l = head l).
  { intros [|c l]; simpl; [done|]. unfold entry_matches. by destruct (d_vn c). }
  destruct current as [a|]; simpl in Hv.
  - destruct Hv as (l0 & c & -> & <-). rewrite <- app_assoc in E.
    by rewrite (get_next_var_resume _ _ _ l0 c l2 Hok E), Hf.
  - subst l1. by rewrite get_next_var_first, E, Hf.
Qed.

(** The names a service depends on, with their entries, in order. *)
Definition dep_entry (c : s_data) : option (s_data * string) :=
  if is_dep c then pair c <$> t_s (d_t c) else None.
Definition dep_list (a : active_db_h) : list (s_data * string) := omap dep_entry (all_entries (a_data a)).

Lemma dep_on_loop_spec fuel d name l1 l2 current :
  data_ok d -> all_entries d = l1 ++ l2 -> visited l1 current -> (length l2 < fuel)%nat ->
  dep_on_loop fuel d name current =
  Some (of_bool (List.existsb (fun '(_, n) => String.eqb n name) (omap dep_entry l2))).
Proof.
  revert l1 l2 current. induction fuel as [|fuel IH]; intros l1 l2 current Hok E Hv Hf; [lia|].
  simpl. rewrite (get_next_any d l1 l2 current Hok E Hv). destruct l2 as [|c l2]; simpl; [done|].
  assert (IH' : dep_on_loop fuel d name (Some (d_addr c)) =
    Some (of_bool (List.existsb (fun '(_, n) => String.eqb n name) (omap dep_entry l2)))).
  { apply (IH (l1 ++ [c])); [done|by rewrite E, <- app_assoc|apply visited_snoc|simpl in Hf; lia]. }
  unfold dep_entry at 1. destruct (is_dep c); simpl; [|done].
  destruct (t_s (d_t c)) as [s|]; simpl; [|done]. by destruct (String.eqb s name).
Qed.

Definition set_cache (n : Z) (a : active_db_h) : active_db_h := a <| a_depend_cache := n |>.

(** ** The interface of the EVENT_DEP_ON hooks

    What [initng_depend] needs of the hooks of modules: on that event they
    answer without changing anything, and the answer does not depend on how far
    the dependency checks of a service have come. *)
Class DepHooks `{!Callbacks} := {
  dep_hook : s_global -> addr -> addr -> bool;
  dep_hook_spec : forall s c g, exists e,
    initng_event_send (new_event EVENT_DEP_ON (ED_dep_on s c)) g = Done (e, g) /\
    bool_decide (ev_status e = HANDLED) = dep_hook g s c;
  dep_hook_cache : forall s a n g, g_heap g !! s = Some a ->
    dep_hook (put_service s (set_cache n a) g) = dep_hook g
}.

Section depend_facts.
Context `{!Callbacks, !DepHooks}.

(** Does the service at [s] depend on the one at [c], directly? *)
Definition depends (g : s_global) (s c : addr) : bool :=
  negb (Pos.eqb s c) &&
  (match g_heap g !! s, g_heap g !! c with
   | Some a, Some b => List.existsb (fun '(_, n) => String.eqb n (a_name b)) (dep_list a)
   | _, _ => false
   end || dep_hook g s c).

Lemma initng_depend_run g s c :
  wf g -> is_Some (g_heap g !! s) -> is_Some (g_heap g !! c) ->
  initng_depend s c g = Done (of_bool (depends g s c), g).
Proof.
  intros Hwf [a Ha] [b Hb]. unfold initng_depend, depends. rewrite Ha, Hb.
  destruct (Pos.eqb s c); [done|]. cbn [negb andb].
  assert (Hd : dep_on s c g =
    Done (of_bool (List.existsb (fun '(_, n) => String.eqb n (a_name b)) (dep_list a)), g)).
  { unfold dep_on. rewrite (mthen_run _ _ _ _ _ (get_service_run _ _ _ Ha)).
    rewrite (mthen_run _ _ _ _ _ (get_service_run _ _ _ Hb)).
    rewrite (dep_on_loop_spec _ _ _ [] (all_entries (a_data a))); [done| |done|done|lia].
    apply (wf_svc g Hwf s a Ha). }
  rewrite (mthen_run _ _ _ _ _ Hd). destruct (List.existsb _ _); [done|]. cbn.
  destruct (dep_hook_spec s c g) as (e & He & Hh). rewrite (mthen_run _ _ _ _ _ He). unfold mpure.
  rewrite <- Hh. by case_decide; case_bool_decide.
Qed.

(** ** Lemmas: the deep search *)

Definition reaches (g : s_global) : addr -> addr -> Prop := tc (fun x y => depends g x y = true).

(** What a call of the search may answer: TRUE only along a chain, TRUE for a
    direct dependency, and the counter never falls. *)
Definition deep_answer (g : s_global) (s check : addr) (stack : Z) (o : outcome (Z * Z * s_global)) : Prop :=
  exists b stack', o = Done ((of_bool b, stack'), g) /\ stack <= stack' /\
    (b = true -> reaches g s check) /\ (depends g s check = true -> b = true).

Lemma c_true_of_bool b : c_true (of_bool b) = b.
Proof. by destruct b. Qed.

Section deep_facts.
Variables (g : s_global) (check : addr) (rec : addr -> addr -> Z -> G (Z * Z)) (st0 : Z).
Hypothesis Hwf : wf g.
Hypothesis Hrec : forall s stack, is_Some (g_heap g !! s) -> st0 <= stack ->
  deep_answer g s check stack (rec s check stack g).

Lemma depend_deep_loop_spec fuel l1 l2 s stack :
  is_Some (g_heap g !! s) -> st0 <= stack ->
  g_active_db g = l1 ++ l2 -> (length l2 < fuel)%nat ->
  exists b stack', depend_deep_loop rec fuel s check (head l2) FALSE stack g = Done ((of_bool b, stack'), g) /\
    stack <= stack' /\ (b = true -> reaches g s check) /\
    (forall x, x ∈ l2 -> depends g s x = true -> depends g x check = true -> b = true).
Proof.
  intros Hs. revert l1 l2 stack. induction fuel as [|fuel IH]; intros l1 l2 stack Hst Hdb Hf; [lia|].
  destruct l2 as [|x l2]; simpl.
  { exists false, stack. split; [done|]. split; [lia|]. split; [done|]. set_solver. }
  assert (Hx : is_Some (g_heap g !! x)) by (apply (wf_alloc g Hwf); rewrite Hdb; set_solver).
  rewrite (mthen_run _ _ _ _ _ (initng_depend_run g s x Hwf Hs Hx)), c_true_of_bool.
  assert (Hn : deref (fun g => next_of x (g_active_db g)) g = Done (head l2, g)).
  { unfold deref. rewrite Hdb, next_of_mid; [done|]. rewrite <- Hdb. apply (wf_nodup g Hwf). }
  destruct (depends g s x) eqn:Ed.
  - destruct (Hrec x stack Hx Hst) as (b & stack' & E & Hle & Hr & Hd).
    erewrite mthen_run by (rewrite (mthen_run _ _ _ _ _ E); reflexivity). cbn beta iota.
    rewrite c_true_of_bool. destruct b.
    + exists true, stack'. split; [done|]. split; [done|]. split; [|done].
      intros _. eapply tc_l; [exact Ed|]. by apply Hr.
    + rewrite (mthen_run _ _ _ _ _ Hn).
      destruct (IH (l1 ++ [x]) l2 stack') as (b & st & E2 & Hle2 & Hr2 & Hx2);
        [lia|by rewrite Hdb, <- app_assoc|simpl in Hf; lia|].
      exists b, st. split; [done|]. split; [lia|]. split; [done|].
      intros y [->|Hy]%elem_of_cons Hsy Hyc; [by specialize (Hd Hyc)|eauto].
  - erewrite mthen_run by reflexivity. cbn beta iota.
    rewrite (mthen_run _ _ _ _ _ Hn).
    destruct (IH (l1 ++ [x]) l2 stack) as (b & st & E2 & Hle2 & Hr2 & Hx2);
      [lia|by rewrite Hdb, <- app_assoc|simpl in Hf; lia|].
    exists b, st. split; [done|]. split; [lia|]. split; [done|].
    intros y [->|Hy]%elem_of_cons Hsy Hyc; [congruence|eauto].
Qed.
End deep_facts.

(** Every call returns: eleven levels are enough. *)
Lemma depend_deep2_spec fuel g s check stack :
  wf g -> is_Some (g_heap g !! s) -> is_Some (g_heap g !! check) ->
  (0 < fuel)%nat -> 11 - stack <= Z.of_nat fuel ->
  deep_answer g s check stack (initng_depend_deep2 fuel s check stack g) /\
  (stack < 10 -> forall x, x ∈ g_active_db g -> depends g s x = true -> depends g x check = true ->
    exists stack', initng_depend_deep2 fuel s check stack g = Done ((TRUE, stack'), g)).
Proof.
  intros Hwf Hs Hc. revert s stack Hs. induction fuel as [|fuel IH]; intros s stack Hs Hf Hst; [lia|].
  cbn [initng_depend_deep2].
  rewrite (mthen_run _ _ _ _ _ (initng_depend_run g s check Hwf Hs Hc)), c_true_of_bool.
  destruct (depends g s check) eqn:Ed.
  { split; [|by eauto]. exists true, stack. repeat split; [lia|intros _; by apply tc_once]. }
  cbv zeta. destruct (Z.ltb_spec 10 (stack + 1)).
  { split; [|lia]. exists false, (stack + 1). repeat split; [lia|done|congruence]. }
  unfold first_active. rewrite !(mthen_run _ _ g _ g eq_refl).
  destruct (depend_deep_loop_spec g check (initng_depend_deep2 fuel) (stack + 1) Hwf) with
    (fuel := S (length (g_active_db g))) (l1 := @nil addr) (l2 := g_active_db g) (s := s) (stack := stack + 1)
    as (b & st & E & Hle & Hr & Hx); [|done|lia|done|lia|].
  { intros x st Hx Hle. apply IH; [done|lia|lia]. }
  rewrite E. split.
  - exists b, st. repeat split; [lia|done|congruence].
  - intros _ x Hin Hsx Hxc. rewrite (Hx x Hin Hsx Hxc). by eexists.
Qed.

(** ** Lemmas: the dependencies of a start *)

(** How a dependency of a service stands: in order, to be ignored, to be waited
    for, failed, a missing requirement, or down. *)
Inductive dep_status := DepOk | DepIgnored | DepWait | DepFail | DepMissing | DepDown (dep : addr).

Definition dep_status_of (g : s_global) (d : s_data * string) : dep_status :=
  let '(c, name) := d in
  match initng_active_db_find_by_name name g with
  | None =>
    if same_entry (d_type c) USE then DepIgnored
    else if same_entry (d_type c) REQUIRE then DepMissing
    else DepWait
  | Some dep =>
    match GET_STATE <$> (g_heap g !! dep) with
    | Some IS_UP => DepOk
    | Some IS_FAILED => DepFail
    | Some IS_DOWN => DepDown dep
    | _ => DepWait
    end
  end.

Definition satisfied (g : s_global) (d : s_data * string) : bool :=
  match dep_status_of g d with DepOk | DepIgnored => true | _ => false end.

(** What the function does with the first dependency that is not in order. *)
Definition unmet_action (start_service : addr -> G Z) (service : addr) (st : dep_status) : G Z :=
  match st with
  | DepOk | DepIgnored => mpure TRUE
  | DepWait => mpure FALSE
  | DepFail => mpure FAIL
  | DepMissing => initng_common_mark_service service REQ_NOT_FOUND ;;; mpure FAIL
  | DepDown dep => start_service dep ;;; mpure FALSE
  end.

Lemma wf_set_cache g s a n :
  wf g -> g_heap g !! s = Some a -> wf (put_service s (set_cache n a) g).
Proof.
  intros Hwf Ha. eapply wf_put; [done|done|done|]. apply (wf_active_same a); try done.
  by apply (wf_svc g Hwf s).
Qed.

Lemma find_by_name_set_cache g s a n name :
  wf g -> g_heap g !! s = Some a ->
  initng_active_db_find_by_name name (put_service s (set_cache n a) g) = initng_active_db_find_by_name name g.
Proof.
  intros Hwf Ha. apply option_eq. intros x. rewrite !find_by_name_spec by (done || by apply wf_set_cache).
  cbn. rewrite lookup_insert. case_decide; [|done]. subst. naive_solver.
Qed.

Lemma state_set_cache g s a n x :
  g_heap g !! s = Some a ->
  GET_STATE <$> (g_heap (put_service s (set_cache n a) g) !! x) = GET_STATE <$> (g_heap g !! x).
Proof. intros Ha. cbn. rewrite lookup_insert. case_decide; [|done]. subst. by rewrite Ha. Qed.

Lemma dep_status_set_cache g s a n d :
  wf g -> g_heap g !! s = Some a -> dep_status_of (put_service s (set_cache n a) g) d = dep_status_of g d.
Proof.
  intros Hwf Ha. destruct d as [c name]. unfold dep_status_of. rewrite (find_by_name_set_cache g s a n name Hwf Ha).
  destruct (initng_active_db_find_by_name name g) as [dep|]; [|done].
  by rewrite (state_set_cache g s a n dep Ha).
Qed.

Lemma unsatisfied_set_cache g s a n :
  wf g -> g_heap g !! s = Some a ->
  forall d, negb (satisfied (put_service s (set_cache n a) g) d) = negb (satisfied g d).
Proof. intros Hwf Ha d. unfold satisfied. by rewrite (dep_status_set_cache g s a n d Hwf Ha). Qed.

Lemma find_ext {A} (f h : A -> bool) l : (forall x, f x = h x) -> List.find f l = List.find h l.
Proof. intros H'. induction l as [|x l IH]; simpl; [done|]. by rewrite H', IH. Qed.

(** The value of [depend_cache] when the loop stops: the number of the last
    dependency found up before the first that is not in order.  [count] is the
    number of those before [l]. *)
Fixpoint new_cache (g : s_global) (count cache : Z) (l : list (s_data * string)) : Z :=
  match l with
  | [] => cache
  | d :: l =>
    match dep_status_of g d with
    | DepOk => new_cache g (count + 1) (count + 1) l
    | DepIgnored => new_cache g (count + 1) cache l
    | _ => cache
    end
  end.

Lemma new_cache_set_cache g s a n count cache l :
  wf g -> g_heap g !! s = Some a ->
  new_cache (put_service s (set_cache n a) g) count cache l = new_cache g count cache l.
Proof.
  intros Hwf Ha. revert count cache. induction l as [|d l IH]; intros; cbn [new_cache]; [done|].
  rewrite (dep_status_set_cache g s a n d Hwf Ha). by destruct (dep_status_of g d).
Qed.

(** What the loop does with the dependencies [l] when [count] were counted. *)
Definition loop_answer (start : addr -> G Z) (g : s_global) (s : addr) (a : active_db_h) (count : Z)
    (l : list (s_data * string)) : outcome (option Z * s_global) :=
  let cache := a_depend_cache a in
  let rest := drop (Z.to_nat (cache - count)) l in
  let g' := put_service s (set_cache (new_cache g (Z.max count cache) cache rest) a) g in
  match List.find (fun d => negb (satisfied g d)) rest with
  | None => Done (None, g')
  | Some d => (let! r := unmet_action start s (dep_status_of g d) in mpure (Some r)) g'
  end.

Lemma loop_answer_nil start g s a count :
  g_heap g !! s = Some a -> loop_answer start g s a count [] = Done (None, g).
Proof.
  intros Ha. unfold loop_answer. rewrite drop_nil. cbn. do 2 f_equal. apply put_service_self.
  by destruct a.
Qed.

(** An entry the cache covers is skipped. *)
Lemma loop_answer_cached start g s a count d l :
  count + 1 <= a_depend_cache a ->
  loop_answer start g s a count (d :: l) = loop_answer start g s a (count + 1) l.
Proof.
  intros Hc. unfold loop_answer.
  replace (Z.to_nat (a_depend_cache a - count)) with (S (Z.to_nat (a_depend_cache a - (count + 1)))) by lia.
  cbn [drop]. replace (Z.max (count + 1) _) with (Z.max count (a_depend_cache a)) by lia. done.
Qed.

Lemma loop_answer_ignored start g s a count d l :
  a_depend_cache a < count + 1 -> dep_status_of g d = DepIgnored ->
  loop_answer start g s a count (d :: l) = loop_answer start g s a (count + 1) l.
Proof.
  intros Hc Hd. unfold loop_answer.
  replace (Z.to_nat (a_depend_cache a - count)) with 0%nat by lia.
  replace (Z.to_nat (a_depend_cache a - (count + 1))) with 0%nat by lia.
  replace (Z.max count _) with count by lia. replace (Z.max (count + 1) _) with (count + 1) by lia.
  cbn [drop List.find new_cache]. unfold satisfied at 1. rewrite Hd. by rewrite drop_0.
Qed.

Lemma loop_answer_ok start g s a count d l :
  wf g -> g_heap g !! s = Some a -> a_depend_cache a < count + 1 -> dep_status_of g d = DepOk ->
  loop_answer start g s a count (d :: l) =
  loop_answer start (put_service s (set_cache (count + 1) a) g) s (set_cache (count + 1) a) (count + 1) l.
Proof.
  intros Hwf Ha Hc Hd. unfold loop_answer. cbn [set_cache a_depend_cache].
  change (a_depend_cache (set_cache (count + 1) a)) with (count + 1).
  replace (Z.to_nat (a_depend_cache a - count)) with 0%nat by lia.
  replace (Z.to_nat (count + 1 - (count + 1))) with 0%nat by lia.
  replace (Z.max count _) with count by lia. rewrite Z.max_id, !drop_0.
  cbn [List.find new_cache]. unfold satisfied at 1. rewrite Hd. cbn [negb].
  rewrite new_cache_set_cache, put_put_service by done.
  rewrite (find_ext _ _ _ (unsatisfied_set_cache g s a (count + 1) Hwf Ha)).
  destruct (List.find _ _) as [d'|]; [|done]. by rewrite (dep_status_set_cache g s a _ d' Hwf Ha).
Qed.

Lemma loop_answer_unmet start g s a count d l :
  g_heap g !! s = Some a -> a_depend_cache a < count + 1 -> satisfied g d = false ->
  loop_answer start g s a count (d :: l) =
  (let! r := unmet_action start s (dep_status_of g d) in mpure (Some r)) g.
Proof.
  intros Ha Hc Hd. unfold loop_answer. replace (Z.to_nat (a_depend_cache a - count)) with 0%nat by lia.
  cbn [drop List.find new_cache]. rewrite Hd. cbn [negb]. unfold satisfied in Hd.
  replace (put_service s _ g) with g; [done|]. symmetry. apply put_service_self. rewrite Ha.
  destruct (dep_status_of g d); (discriminate Hd) || by destruct a.
Qed.

(** The loop finds the first dependency beyond the cache that is not in order. *)
Lemma start_dep_met_loop_spec start fuel g s a l1 l2 current count :
  wf g -> g_heap g !! s = Some a -> all_entries (a_data a) = l1 ++ l2 -> visited l1 current ->
  (length l2 < fuel)%nat ->
  start_dep_met_loop start fuel s current count g = loop_answer start g s a count (omap dep_entry l2).
Proof.
  revert g a l1 l2 current count.
  induction fuel as [|fuel IH]; intros g a l1 l2 current count Hwf Ha E Hv Hf; [lia|].
  cbn [start_dep_met_loop]. rewrite (mthen_run _ _ _ _ _ (get_service_run _ _ _ Ha)).
  rewrite (get_next_any _ l1 l2 current (wfa_data a (wf_svc g Hwf s a Ha)) E Hv).
  destruct l2 as [|c l2]; cbn [head omap list_omap]; [by rewrite loop_answer_nil|].
  assert (E' : all_entries (a_data a) = (l1 ++ [c]) ++ l2) by (by rewrite E, <- app_assoc).
  assert (IHc : forall cnt, start_dep_met_loop start fuel s (Some (d_addr c)) cnt g =
                            loop_answer start g s a cnt (omap dep_entry l2)).
  { intros cnt. apply (IH g a (l1 ++ [c])); [done|done|done|apply visited_snoc|simpl in Hf; lia]. }
  unfold dep_entry at 1. destruct (is_dep c); cbn [negb]; [|apply IHc].
  destruct (t_s (d_t c)) as [name|]; cbn [fmap option_fmap option_map]; [|apply IHc]. cbv zeta.
  destruct (Z.leb_spec (count + 1) (a_depend_cache a)) as [Hc|Hc]; [by rewrite loop_answer_cached|].
  rewrite (mthen_run _ _ g _ g eq_refl).
  pose proof (eq_refl (dep_status_of g (c, name))) as Hst. unfold dep_status_of in Hst at 1.
  pose proof (loop_answer_unmet start g s a count (c, name) (omap dep_entry l2) Ha Hc) as Hunmet.
  unfold satisfied in Hunmet.
  destruct (initng_active_db_find_by_name name g) as [dep|] eqn:Ef.
  - pose proof Ef as Ef'. apply find_by_name_spec in Ef' as (_ & b & Hb & _); [|done].
    rewrite (mthen_run _ _ _ _ _ (get_service_run _ _ _ Hb)). rewrite Hb in Hst.
    cbn [fmap option_fmap option_map] in Hst.
    destruct (GET_STATE b) eqn:Es; rewrite <- Hst in Hunmet; try (by rewrite Hunmet).
    + rewrite (mthen_run _ _ _ _ _ (upd_service_run _ _ _ _ Ha)), loop_answer_ok by done.
      change (a <| a_depend_cache := count + 1 |>) with (set_cache (count + 1) a).
      apply (IH _ _ (l1 ++ [c])); [by apply wf_set_cache|apply put_service_lookup|done|apply visited_snoc|simpl in Hf; lia].
    + rewrite Hunmet by done. cbn. unfold mthen. by destruct (start dep g) as [[? ?]| |].
  - destruct (same_entry (d_type c) USE) eqn:Eu; [by rewrite loop_answer_ignored|].
    destruct (same_entry (d_type c) REQUIRE) eqn:Er; rewrite <- Hst in Hunmet; rewrite Hunmet by done; [|done].
    cbn. unfold mthen. by destruct (initng_common_mark_service s REQ_NOT_FOUND g) as [[? ?]| |].
Qed.

(** ** Lemmas: the dependents of a stop *)

Lemma depends_set_cache g s a n x y :
  g_heap g !! s = Some a -> depends (put_service s (set_cache n a) g) x y = depends g x y.
Proof.
  intros Ha. unfold depends. rewrite (dep_hook_cache s a n g Ha). cbn. rewrite !lookup_insert.
  destruct (decide (s = x)) as [<-|]; destruct (decide (s = y)) as [<-|]; rewrite ?Ha; try done;
    by destruct (g_heap g !! x).
Qed.

(** Does the service at [x] keep the one at [s] from stopping? *)
Definition holds_up (g : s_global) (s x : addr) : bool :=
  negb (Pos.eqb x s) && depends g x s &&
  match g_heap g !! x with Some c => blocks_stop c | None => false end.

Lemma holds_up_set_cache g s a n x :
  g_heap g !! s = Some a -> holds_up (put_service s (set_cache n a) g) s x = holds_up g s x.
Proof.
  intros Ha. unfold holds_up. rewrite (depends_set_cache g s a n x s Ha).
  destruct (Pos.eqb_spec x s) as [|Hx]; [done|]. by rewrite put_service_lookup_ne by done.
Qed.

Lemma existsb_ext {A} (f h : A -> bool) l : (forall x, f x = h x) -> List.existsb f l = List.existsb h l.
Proof. intros H'. induction l as [|x l IH]; simpl; [done|]. by rewrite H', IH. Qed.

Lemma of_bool_eq b : (of_bool b =? FALSE) = negb b.
Proof. by destruct b. Qed.

(** How many entries of [l] are in front of the first that [f] accepts. *)
Fixpoint clear_of {A} (f : A -> bool) (l : list A) : Z :=
  match l with
  | [] => 0
  | x :: l => if f x then 0 else 1 + clear_of f l
  end.

Lemma clear_of_ext {A} (f h : A -> bool) l : (forall x, f x = h x) -> clear_of f l = clear_of h l.
Proof. intros H'. induction l as [|x l IH]; simpl; [done|]. by rewrite H', IH. Qed.

(** What the loop does with the services [l] when [count] were counted. *)
Definition stop_loop_answer (g : s_global) (s : addr) (a : active_db_h) (count : Z) (l : list addr)
    : outcome (option Z * s_global) :=
  let rest := drop (Z.to_nat (a_depend_cache a - count)) l in
  Done (if List.existsb (holds_up g s) rest then Some FALSE else None,
        put_service s (set_cache (a_depend_cache a + clear_of (holds_up g s) rest) a) g).

Lemma stop_loop_answer_nil g s a count :
  g_heap g !! s = Some a -> stop_loop_answer g s a count [] = Done (None, g).
Proof.
  intros Ha. unfold stop_loop_answer. rewrite drop_nil. cbn. rewrite Z.add_0_r. do 2 f_equal.
  apply put_service_self. by destruct a.
Qed.

Lemma stop_loop_answer_cached g s a count x l :
  count + 1 <= a_depend_cache a ->
  stop_loop_answer g s a count (x :: l) = stop_loop_answer g s a (count + 1) l.
Proof.
  intros Hc. unfold stop_loop_answer.
  replace (Z.to_nat (a_depend_cache a - count)) with (S (Z.to_nat (a_depend_cache a - (count + 1)))) by lia.
  done.
Qed.

(** A service that is not in the way is counted as checked. *)
Lemma stop_loop_answer_clear g s a count x l :
  g_heap g !! s = Some a -> a_depend_cache a < count + 1 -> holds_up g s x = false ->
  stop_loop_answer (put_service s (set_cache (a_depend_cache a + 1) a) g) s
    (set_cache (a_depend_cache a + 1) a) (count + 1) l = stop_loop_answer g s a count (x :: l).
Proof.
  intros Ha Hc Hx. unfold stop_loop_answer.
  change (a_depend_cache (set_cache (a_depend_cache a + 1) a)) with (a_depend_cache a + 1).
  replace (Z.to_nat (a_depend_cache a - count)) with 0%nat by lia.
  replace (Z.to_nat (a_depend_cache a + 1 - (count + 1))) with 0%nat by lia. rewrite !drop_0.
  cbn [List.existsb clear_of]. rewrite Hx, put_put_service. cbn [orb].
  rewrite (existsb_ext _ _ l (fun y => holds_up_set_cache g s a (a_depend_cache a + 1) y Ha)).
  rewrite (clear_of_ext _ _ l (fun y => holds_up_set_cache g s a (a_depend_cache a + 1) y Ha)).
  by rewrite Z.add_assoc.
Qed.

Lemma stop_loop_answer_held g s a count x l :
  g_heap g !! s = Some a -> a_depend_cache a < count + 1 -> holds_up g s x = true ->
  stop_loop_answer g s a count (x :: l) = Done (Some FALSE, g).
Proof.
  intros Ha Hc Hx. unfold stop_loop_answer. replace (Z.to_nat (a_depend_cache a - count)) with 0%nat by lia.
  cbn [drop List.existsb clear_of]. rewrite Hx, Z.add_0_r. do 2 f_equal. apply put_service_self. by destruct a.
Qed.

(** The loop stops at the first service beyond the cache that is in the way. *)
Lemma stop_dep_met_loop_spec fuel g s a l1 l2 count :
  wf g -> g_heap g !! s = Some a -> g_active_db g = l1 ++ l2 -> (length l2 < fuel)%nat ->
  stop_dep_met_loop fuel s (head l2) count g = stop_loop_answer g s a count l2.
Proof.
  revert g a l1 l2 count. induction fuel as [|fuel IH]; intros g a l1 l2 count Hwf Ha Hdb Hf; [lia|].
  destruct l2 as [|x l2]; cbn [head stop_dep_met_loop]; [by rewrite stop_loop_answer_nil|].
  assert (Hx : is_Some (g_heap g !! x)) by (apply (wf_alloc g Hwf); rewrite Hdb; set_solver).
  assert (Hdb' : g_active_db g = (l1 ++ [x]) ++ l2) by (by rewrite Hdb, <- app_assoc).
  assert (Hnext : forall g', g_active_db g' = g_active_db g ->
    deref (fun g => next_of x (g_active_db g)) g' = Done (head l2, g')).
  { intros g' E. unfold deref. rewrite E, Hdb, next_of_mid; [done|]. rewrite <- Hdb. apply (wf_nodup g Hwf). }
  cbv zeta. rewrite (mthen_run _ _ _ _ _ (get_service_run _ _ _ Ha)). simpl in Hf.
  destruct (Z.leb_spec (count + 1) (a_depend_cache a)) as [Hc|Hc].
  { rewrite (mthen_run _ _ _ _ _ (Hnext g eq_refl)), stop_loop_answer_cached by done.
    apply (IH g a (l1 ++ [x])); (done || lia). }
  rewrite (mthen_run _ _ _ _ _ (upd_service_run _ _ _ _ Ha)).
  change (incr_cache 1 a) with (set_cache (a_depend_cache a + 1) a).
  set (g1 := put_service s (set_cache (a_depend_cache a + 1) a) g).
  assert (Hwf1 : wf g1) by (by apply wf_set_cache).
  assert (Ha1 : g_heap g1 !! s = Some (set_cache (a_depend_cache a + 1) a)) by apply put_service_lookup.
  assert (Hgo : holds_up g s x = false -> (let! next := deref (fun g => next_of x (g_active_db g)) in
      stop_dep_met_loop fuel s next (count + 1)) g1 = stop_loop_answer g s a count (x :: l2)).
  { intros Hh. rewrite (mthen_run _ _ _ _ _ (Hnext g1 eq_refl)), <- stop_loop_answer_clear by done.
    apply (IH g1 _ (l1 ++ [x])); (done || lia). }
  unfold holds_up in Hgo. destruct (Pos.eqb_spec x s) as [|Hne]; [by apply Hgo|].
  assert (Hcx1 : g_heap g1 !! x = g_heap g !! x) by (by unfold g1; rewrite put_service_lookup_ne).
  rewrite (mthen_run _ _ _ _ _ (initng_depend_run g1 x s Hwf1 ltac:(by rewrite Hcx1) (mk_is_Some _ _ Ha1))), of_bool_eq.
  unfold g1 at 1. rewrite (depends_set_cache g s a (a_depend_cache a + 1) x s Ha).
  destruct (depends g x s) eqn:Ed; [|by apply Hgo]. destruct Hx as [c Hcx]. rewrite Hcx in Hgo. cbn [negb andb] in Hgo |- *.
  erewrite mthen_run by (apply get_service_run; rewrite Hcx1; exact Hcx).
  destruct (blocks_stop c) eqn:Eb; cbn [negb]; [|by apply Hgo].
  erewrite mthen_run by (apply upd_service_run, Ha1). rewrite stop_loop_answer_held; [|done|done|].
  - unfold mpure, g1. rewrite put_put_service. do 2 f_equal. apply put_service_self. unfold incr_cache, set_cache.
    cbn. rewrite Ha. f_equal. replace (a_depend_cache a + 1 + -1) with (a_depend_cache a) by lia. by destruct a.
  - unfold holds_up. rewrite Ed, Hcx, Eb. by destruct (Pos.eqb_spec x s).
Qed.

(** ** Theorems *)

(** C35: the deep dependency search returns for every well-formed database, and
    changes nothing.  TRUE means that a chain of dependencies leads from
    [service] to [check], and the answer is TRUE whenever the chain has one or
    two links. *)
Theorem depend_deep_sound g service check :
  wf g -> is_Some (g_heap g !! service) -> is_Some (g_heap g !! check) ->
  exists b, initng_depend_deep service check g = Done (of_bool b, g) /\
    (b = true -> reaches g service check) /\
    (depends g service check = true \/
     (exists x, x ∈ g_active_db g /\ depends g service x = true /\ depends g x check = true) -> b = true).
Proof.
  intros Hwf Hs Hc. destruct (depend_deep2_spec 12 g service check 0 Hwf Hs Hc) as [Ha Htwo]; [lia|lia|].
  destruct Ha as (b & st & E & _ & Hr & Hd). exists b. split.
  { unfold initng_depend_deep. by rewrite (mthen_run _ _ _ _ _ E). }
  split; [done|]. intros [Hsc|(x & Hx & Hsx & Hxc)]; [by apply Hd|].
  destruct (Htwo ltac:(lia) x Hx Hsx Hxc) as (st' & E'). rewrite E' in E. destruct b; [done|].
  injection E as E _. discriminate E.
Qed.

(** C3: [initng_depend_start_dep_met] answers from the first dependency beyond
    the cached ones that is neither up nor an absent USE: TRUE with the cache
    reset when there is none; FAIL when that one has failed; FAIL with the
    service marked REQ_NOT_FOUND when it is an absent REQUIRE; FALSE after
    starting it when it is down; FALSE otherwise.  The cache then covers the
    dependencies up to the last one that was found up.  (No module vetoes the
    start.) *)
Theorem start_dep_met_refines_first_unmet g service a fuel :
  wf g -> g_heap g !! service = Some a -> g_hooks g EVENT_START_DEP_MET = [] ->
  (length (all_entries (a_data a)) < fuel)%nat ->
  let rest := drop (Z.to_nat (a_depend_cache a)) (dep_list a) in
  initng_depend_start_dep_met fuel service g =
    match List.find (fun d => negb (satisfied g d)) rest with
    | None => Done (TRUE, put_service service (set_cache 0 a) g)
    | Some d => unmet_action (initng_handler_start_service fuel) service (dep_status_of g d)
                  (put_service service
                    (set_cache (new_cache g (Z.max 0 (a_depend_cache a)) (a_depend_cache a) rest) a) g)
    end.
Proof.
  intros Hwf Ha Hh Hf rest. unfold initng_depend_start_dep_met.
  pose proof (start_dep_met_loop_spec (initng_handler_start_service fuel) fuel g service a []
    (all_entries (a_data a)) None 0 Hwf Ha eq_refl eq_refl Hf) as E.
  unfold loop_answer in E. rewrite Z.sub_0_r in E. fold (dep_list a) in E. fold rest in E.
  destruct (List.find _ _) as [d|].
  - unfold mthen in E |- *.
    destruct (start_dep_met_loop _ _ _ _ _ g) as [[r g1]| |];
      destruct (unmet_action _ _ _ _) as [[r' g2]| |]; try done. unfold mpure in E. by simplify_eq.
  - rewrite (mthen_run _ _ _ _ _ E).
    erewrite mthen_run by (apply send_no_hooks; exact Hh). rewrite decide_False by done.
    erewrite mthen_run by (apply upd_service_run, put_service_lookup). unfold mpure.
    by rewrite put_put_service.
Qed.

(** C4: [initng_depend_stop_dep_met] is TRUE, with the cache reset, exactly when
    no service beyond the cached ones that depends on [service] is still in the
    way: each is down, failed, or itself waiting for its start dependencies.
    Otherwise the cache has moved to the first service that is in the way.  (No
    module vetoes the stop.) *)
Theorem stop_dep_met_iff_dependents_down g service a fuel :
  wf g -> g_heap g !! service = Some a -> g_hooks g EVENT_STOP_DEP_MET = [] ->
  (length (g_active_db g) < fuel)%nat ->
  let rest := drop (Z.to_nat (a_depend_cache a)) (g_active_db g) in
  initng_depend_stop_dep_met fuel service g =
    if List.existsb (holds_up g service) rest
    then Done (FALSE, put_service service
                 (set_cache (a_depend_cache a + clear_of (holds_up g service) rest) a) g)
    else Done (TRUE, put_service service (set_cache 0 a) g).
Proof.
  intros Hwf Ha Hh Hf rest. unfold initng_depend_stop_dep_met, first_active. rewrite (mthen_run _ _ g _ g eq_refl).
  pose proof (stop_dep_met_loop_spec fuel g service a [] (g_active_db g) 0 Hwf Ha eq_refl Hf) as E.
  unfold stop_loop_answer in E. rewrite Z.sub_0_r in E. fold rest in E. rewrite (mthen_run _ _ _ _ _ E).
  destruct (List.existsb _ _); [done|].
  erewrite mthen_run by (apply send_no_hooks; exact Hh). rewrite decide_False by done.
  erewrite mthen_run by (apply upd_service_run, put_service_lookup). unfold mpure.
  by rewrite put_put_service.
Qed.

End depend_facts.

(** ** Circular dependencies *)

Section circular.
Context `{!Callbacks}.

(** The first name in the data of a service that it requires or needs. *)
Definition hard_entry (c : s_data) : option string := if is_hard_dep c then t_s (d_t c) else None.
Definition first_hard_dep (a : active_db_h) : option string := head (omap hard_entry (all_entries (a_data a))).

Lemma start_deps_loop_stuck start fuel g s a l1 l2 current name t b :
  wf g -> g_heap g !! s = Some a -> all_entries (a_data a) = l1 ++ l2 -> visited l1 current ->
  head (omap hard_entry l2) = Some name ->
  initng_active_db_find_by_name name g = Some t -> g_heap g !! t = Some b -> is_state IS_DOWN b = true ->
  start t g = NoFuel ->
  start_deps_loop start fuel s current g = NoFuel.
Proof.
  intros Hwf Ha. revert l1 l2 current.
  induction fuel as [|fuel IH]; intros l1 l2 current E Hv Hh Hf Hb Hd Hs; [done|].
  cbn [start_deps_loop]. rewrite (mthen_run _ _ _ _ _ (get_service_run _ _ _ Ha)).
  rewrite (get_next_any _ l1 l2 current (wfa_data a (wf_svc g Hwf s a Ha)) E Hv).
  destruct l2 as [|c l2]; [done|]. cbn [head omap list_omap] in *. unfold hard_entry in Hh at 1.
  assert (IHc : head (omap hard_entry l2) = Some name -> start_deps_loop start fuel s (Some (d_addr c)) g = NoFuel).
  { intros Hh'. apply (IH (l1 ++ [c]) l2); try done; [by rewrite E, <- app_assoc|apply visited_snoc]. }
  destruct (is_hard_dep c); cbn [negb]; [|by apply IHc].
  destruct (t_s (d_t c)) as [n|]; [|by apply IHc]. cbn in Hh. simplify_eq.
  rewrite (mthen_run _ _ g _ g eq_refl), Hf. rewrite (mthen_run _ _ _ _ _ (get_service_run _ _ _ Hb)), Hd.
  unfold mthen. by rewrite Hs.
Qed.

(** C6: circular dependencies among services that are down make
    [initng_handler_start_service] recurse for ever.  [C] is a set of services
    that may be started and whose first hard dependency is again a service of
    [C] that is down: a start of any of them does not return, whatever the
    depth allowed. *)
Theorem circular_start_never_returns g (C : gset addr) :
  wf g ->
  (forall s, s ∈ C -> exists a name t b, g_heap g !! s = Some a /\ start_gate (g_sys_state g) a = None /\
    first_hard_dep a = Some name /\ initng_active_db_find_by_name name g = Some t /\
    g_heap g !! t = Some b /\ is_state IS_DOWN b = true /\ t ∈ C) ->
  forall fuel s, s ∈ C -> initng_handler_start_service fuel s g = NoFuel.
Proof.
  intros Hwf HC fuel. induction fuel as [|fuel IH]; intros s Hs; [done|].
  destruct (HC s Hs) as (a & name & t & b & Ha & Hg & Hn & Hf & Hb & Hd & Ht).
  cbn [initng_handler_start_service]. unfold start_service_body.
  rewrite (mthen_run _ _ _ _ _ (get_service_run _ _ _ Ha)), (mthen_run _ _ g _ g eq_refl), Hg.
  unfold mthen. rewrite (start_deps_loop_stuck _ fuel g s a [] (all_entries (a_data a)) None name t b); auto.
  done.
Qed.

End circular.

(** ** Acyclic dependencies *)

(** What a start function of a service type may not touch: which services there
    are, and their names, types and variables. *)
Definition fixed_part (a : active_db_h) : Z * string * option stype_h * data_head :=
  (a_name_hash a, a_name a, a_type a, a_data a).

Definition same_deps (g g' : s_global) : Prop :=
  g_active_db g' = g_active_db g /\ g_sys_state g' = g_sys_state g /\
  forall s, fixed_part <$> (g_heap g' !! s) = fixed_part <$> (g_heap g !! s).

#[export] Instance same_deps_preorder : PreOrder same_deps.
Proof.
  split; [done|]. intros g1 g2 g3 (E1 & E2 & E3) (F1 & F2 & F3). split; [congruence|]. split; [congruence|].
  intros s. by rewrite F3, E3.
Qed.

Lemma same_deps_lookup g g' s a :
  same_deps g g' -> g_heap g !! s = Some a -> exists a', g_heap g' !! s = Some a' /\ fixed_part a' = fixed_part a.
Proof.
  intros (_ & _ & E) Ha. specialize (E s). rewrite Ha in E. destruct (g_heap g' !! s) as [a'|]; [|done].
  exists a'. split; [done|]. by apply (inj Some) in E.
Qed.

Lemma find_by_name_same_deps g g' name :
  same_deps g g' -> initng_active_db_find_by_name name g' = initng_active_db_find_by_name name g.
Proof.
  intros (Hdb & _ & E). unfold initng_active_db_find_by_name, active_services. cbv zeta. rewrite Hdb. clear Hdb.
  induction (g_active_db g) as [|s l IH]; [done|]. cbn [omap list_omap]. specialize (E s).
  destruct (g_heap g' !! s) as [a'|], (g_heap g !! s) as [a|]; try done.
  cbn in E. injection E as E1 E2 E3 E4. cbn [fmap option_fmap option_map List.find].
  rewrite E1, E2. destruct (_ && _); [done|exact IH].
Qed.

(** The interface of the service types [T], as far as starting is concerned:
    their start functions return, keep the database well formed and leave the
    dependencies alone. *)
Class StartFunctions `{!Callbacks} (T : stype_h -> Prop) := start_function_returns :
  forall ty f s a g, T ty -> sty_start ty = Some f ->
    wf g -> g_heap g !! s = Some a -> a_type a = Some ty ->
    exists r g', call_stype f s g = Done (r, g') /\ wf g' /\ same_deps g g'.

Section acyclic.
Context `{!Callbacks} (T : stype_h -> Prop) `{!StartFunctions T}.
Variables (g0 : s_global) (rank : addr -> nat) (len : nat).

(** Every hard dependency names a service of the database, of lower rank. *)
Hypothesis ranked : forall s a name, g_heap g0 !! s = Some a ->
  name ∈ omap hard_entry (all_entries (a_data a)) ->
  exists t, initng_active_db_find_by_name name g0 = Some t /\ (rank t < rank s)%nat.
Hypothesis typed : forall s a ty, g_heap g0 !! s = Some a -> a_type a = Some ty -> T ty.
Hypothesis short : forall s a, g_heap g0 !! s = Some a -> (length (all_entries (a_data a)) <= len)%nat.

(** A call that returns and leaves the dependencies alone. *)
Definition returns {A} (m : G A) (g : s_global) : Prop :=
  exists r g', m g = Done (r, g') /\ wf g' /\ same_deps g g'.

Lemma start_deps_loop_returns start fuel g s a l1 l2 current :
  wf g -> same_deps g0 g -> g_heap g0 !! s = Some a ->
  all_entries (a_data a) = l1 ++ l2 -> visited l1 current -> (length l2 < fuel)%nat ->
  (forall t g1, wf g1 -> same_deps g0 g1 -> is_Some (g_heap g0 !! t) -> (rank t < rank s)%nat -> returns (start t) g1) ->
  returns (start_deps_loop start fuel s current) g.
Proof.
  intros Hwf Hsame Ha. revert g l1 l2 current Hwf Hsame.
  induction fuel as [|fuel IH]; intros g l1 l2 current Hwf Hsame E Hv Hf Hstart; [lia|].
  destruct (same_deps_lookup _ _ _ _ Hsame Ha) as (a' & Ha' & Hfix).
  assert (Hdata : a_data a' = a_data a) by (by injection Hfix).
  unfold returns. cbn [start_deps_loop]. rewrite (mthen_run _ _ _ _ _ (get_service_run _ _ _ Ha')).
  rewrite (get_next_any _ l1 l2 current (wfa_data a' (wf_svc g Hwf s a' Ha')));
    [|by rewrite Hdata|done].
  destruct l2 as [|c l2]; cbn [head]; [by exists TRUE, g|].
  assert (IHc : forall g1, wf g1 -> same_deps g g1 ->
    exists r g', start_deps_loop start fuel s (Some (d_addr c)) g1 = Done (r, g') /\ wf g' /\ same_deps g g').
  { intros g1 Hwf1 Hs1. destruct (IH g1 (l1 ++ [c]) l2 (Some (d_addr c))) as (r & g' & R & W & S); try done.
    - by etransitivity.
    - by rewrite E, <- app_assoc.
    - apply visited_snoc.
    - simpl in Hf. lia.
    - exists r, g'. split; [done|]. split; [done|]. by etransitivity. }
  cbv zeta. destruct (is_hard_dep c) eqn:Eh; cbn [negb]; [|by apply IHc].
  destruct (t_s (d_t c)) as [name|] eqn:Et; [|by apply IHc].
  rewrite (mthen_run _ _ g _ g eq_refl).
  destruct (ranked s a name Ha) as (t & Ht & Hr).
  { rewrite E. apply list_elem_of_omap. exists c. split; [set_solver|]. unfold hard_entry. by rewrite Eh. }
  rewrite (find_by_name_same_deps g0 g name Hsame), Ht.
  assert (Hgt := Ht). rewrite <- (find_by_name_same_deps g0 g name Hsame) in Hgt.
  apply find_by_name_spec in Hgt as (_ & b & Hb & _); [|done].
  rewrite (mthen_run _ _ _ _ _ (get_service_run _ _ _ Hb)).
  destruct (is_state IS_DOWN b); [|erewrite mthen_run by reflexivity; by apply IHc].
  destruct (Hstart t g Hwf Hsame) as (r & g1 & R & W & S); [|done|].
  { destruct Hsame as (_ & _ & Hh). specialize (Hh t). rewrite Hb in Hh.
    destruct (g_heap g0 !! t); [by eexists|done]. }
  erewrite mthen_run by (rewrite (mthen_run _ _ _ _ _ R); reflexivity). by apply IHc.
Qed.

(** C5: with acyclic dependencies that are all present, a start returns.  The
    recursion goes at most [rank s] levels deep, and each level walks at most
    [len] variables. *)
Theorem acyclic_start_returns fuel g s :
  wf g -> same_deps g0 g -> is_Some (g_heap g0 !! s) -> (rank s + len + 1 < fuel)%nat ->
  returns (initng_handler_start_service fuel s) g.
Proof.
  revert g s. induction fuel as [|fuel IH]; intros g s Hwf Hsame [a Ha] Hf; [lia|].
  destruct (same_deps_lookup _ _ _ _ Hsame Ha) as (a' & Ha' & Hfix').
  assert (Hty' : a_type a' = a_type a) by (by injection Hfix').
  unfold returns. cbn [initng_handler_start_service]. unfold start_service_body.
  rewrite (mthen_run _ _ _ _ _ (get_service_run _ _ _ Ha')), (mthen_run _ _ g _ g eq_refl).
  destruct (start_gate (g_sys_state g) a') as [r|] eqn:Eg; [by exists r, g|].
  destruct (start_deps_loop_returns (initng_handler_start_service fuel) fuel g s a []
    (all_entries (a_data a)) None Hwf Hsame Ha eq_refl eq_refl) as (r & g1 & R & W & S).
  { specialize (short s a Ha). lia. }
  { intros t g1 Hw1 Hs1 Hal Hr. apply IH; try done. lia. }
  rewrite (mthen_run _ _ _ _ _ R). destruct (negb (r =? TRUE)); [by exists FALSE, g1|].
  destruct (same_deps_lookup _ _ _ _ S Ha') as (a1 & Ha1 & Hfix).
  rewrite (mthen_run _ _ _ _ _ (get_service_run _ _ _ Ha1)).
  assert (Ht : a_type a1 = a_type a') by (by injection Hfix). rewrite Ht.
  destruct (a_type a') as [ty|] eqn:Ety; [|unfold start_gate in Eg; by rewrite Ety in Eg].
  destruct (sty_start ty) as [f|] eqn:Ef; [|by exists FALSE, g1].
  destruct (start_function_returns ty f s a1 g1) as (r2 & g2 & R2 & W2 & S2);
    [apply (typed s a); congruence|done|done|done|congruence|].
  exists r2, g2. split; [done|]. split; [done|]. by etransitivity.
Qed.

End acyclic.

(** ** Stopping everything *)

Definition winding_down (a : active_db_h) : bool :=
  is_state IS_STOPPING a || is_state IS_DOWN a || is_state IS_FAILED a.

Definition stoppable (a : active_db_h) : bool := is_state IS_UP a || is_state IS_STARTING a.

(** The state of the system and what follows when it is down. *)
Definition same_mode (g g' : s_global) : Prop :=
  (g_sys_state g', g_when_out g') = (g_sys_state g, g_when_out g).

(** The interface of the service types [T] as far as stopping is concerned: the
    stop function takes a service that is up or starting and not locked out of
    these states, leaves its name, type and variables, and touches no other
    service. *)
Class StopFunctions `{!Callbacks} (T : stype_h -> Prop) := stop_function_stops :
  forall ty f s a g, T ty -> sty_stop ty = Some f ->
    g_heap g !! s = Some a -> a_type a = Some ty -> a_state_lock a = 0 -> stoppable a = true ->
    exists r b g', call_stype f s g = Done (r, g') /\ g_active_db g' = g_active_db g /\
      same_mode g g' /\ g_heap g' !! s = Some b /\
      (winding_down b = true /\ a_state_lock b = 0 /\ fixed_part b = fixed_part a) /\
      forall x, x <> s -> g_heap g' !! x = g_heap g !! x.

Section stop_all.
Context `{!Callbacks} (T : stype_h -> Prop) `{!StopFunctions T}.

(** Is there something [initng_handler_stop_all] can do for the service? *)
Definition will_stop (a : active_db_h) : bool :=
  stoppable a && match a_type a with Some ty => bool_decide (is_Some (sty_stop ty)) | None => false end.

(** The outcome for one service: [b] after, [a] before. *)
Definition stop_outcome (a b : active_db_h) : Prop :=
  if will_stop a then winding_down b = true /\ a_state_lock b = 0 /\ fixed_part b = fixed_part a else b = a.

Lemma stop_service_run g s a :
  g_heap g !! s = Some a -> a_state_lock a = 0 -> (forall ty, a_type a = Some ty -> is_Some (sty_stop ty) -> T ty) ->
  exists r b g', initng_handler_stop_service s g = Done (r, g') /\ g_active_db g' = g_active_db g /\
    same_mode g g' /\ g_heap g' !! s = Some b /\ stop_outcome a b /\
    forall x, x <> s -> g_heap g' !! x = g_heap g !! x.
Proof.
  intros Ha Hl HT. unfold stop_outcome, will_stop.
  assert (Hs : stoppable a = match GET_STATE a with IS_UP | IS_STARTING => true | _ => false end).
  { unfold stoppable, is_state. by destruct (GET_STATE a). }
  assert (Hr : initng_handler_stop_service s g = match a_type a, GET_STATE a with
    | Some ty, (IS_UP | IS_STARTING) => match sty_stop ty with Some f => call_stype f s g | None => Done (FALSE, g) end
    | Some _, (IS_FAILED | IS_STOPPING | IS_DOWN) => Done (TRUE, g)
    | _, _ => Done (FALSE, g) end).
  { unfold initng_handler_stop_service. rewrite (mthen_run _ _ _ _ _ (get_service_run _ _ _ Ha)).
    destruct (a_type a) as [ty|]; [|done]. destruct (GET_STATE a); try done; by destruct (sty_stop ty). }
  rewrite Hs, Hr.
  destruct (a_type a) as [ty|] eqn:Ety; destruct (GET_STATE a) eqn:Es; try (by eexists _, a, g);
    destruct (sty_stop ty) as [f|] eqn:Ef; try (by eexists _, a, g);
    (destruct (stop_function_stops ty f s a g) as (r & b & g' & -> & H1 & H2 & H3 & H4 & H5);
      [apply HT; [done|by rewrite Ef]|done|done|done|done|by rewrite Hs|]; by exists r, b, g').
Qed.

Lemma stop_all_body_run g s a :
  g_heap g !! s = Some a -> a_state_lock a = 0 -> (forall ty, a_type a = Some ty -> is_Some (sty_stop ty) -> T ty) ->
  exists b g', stop_all_body s g = Done (None, g') /\ g_active_db g' = g_active_db g /\
    same_mode g g' /\ g_heap g' !! s = Some b /\ stop_outcome a b /\
    forall x, x <> s -> g_heap g' !! x = g_heap g !! x.
Proof.
  intros Ha Hl HT. unfold stop_all_body. rewrite (mthen_run _ _ _ _ _ (get_service_run _ _ _ Ha)).
  destruct (stop_service_run g s a Ha Hl HT) as (r & b & g' & E & R).
  assert (Hnot : stoppable a = false -> exists b g', mpure (@None unit) g = Done (None, g') /\ g_active_db g' = g_active_db g /\
    same_mode g g' /\ g_heap g' !! s = Some b /\ stop_outcome a b /\
    forall x, x <> s -> g_heap g' !! x = g_heap g !! x).
  { intros Hs. exists a, g. unfold stop_outcome, will_stop. by rewrite Hs. }
  unfold stoppable, is_state in Hnot.
  destruct (GET_STATE a); try (by apply Hnot); (exists b, g'; by rewrite (mthen_run _ _ _ _ _ E)).
Qed.

Lemma stop_all_rounds fuel g l1 l2 :
  NoDup (l1 ++ l2) -> g_active_db g = l1 ++ l2 -> (length l2 <= fuel)%nat ->
  (forall s, s ∈ l2 -> exists a, g_heap g !! s = Some a /\ a_state_lock a = 0 /\ forall ty, a_type a = Some ty -> is_Some (sty_stop ty) -> T ty) ->
  exists g', while_active_db_safe fuel (head l2) stop_all_body g = Done (None, g') /\
    same_mode g g' /\ g_active_db g' = g_active_db g /\
    (forall s a, s ∈ l2 -> g_heap g !! s = Some a -> exists b, g_heap g' !! s = Some b /\ stop_outcome a b) /\
    (forall s, s ∉ l2 -> g_heap g' !! s = g_heap g !! s).
Proof.
  revert g l1 l2. induction fuel as [|fuel IH]; intros g l1 [|x l2] Hnd Hdb Hf Hall; cbn [head while_active_db_safe];
    try (exists g; repeat split; try done; set_solver); [simpl in Hf; lia|].
  destruct (Hall x) as (a & Ha & Hl & HT); [set_solver|].
  assert (Hx : x ∉ l2) by (apply NoDup_app in Hnd as (_ & _ & Hn); by apply NoDup_cons in Hn as [? _]).
  destruct (stop_all_body_run g x a Ha Hl HT) as (b & g1 & E & F1 & F2 & F3 & F4 & F5).
  destruct (IH g1 (l1 ++ [x]) l2) as (g' & E' & G1 & G2 & G3 & G4).
  - by rewrite <- app_assoc.
  - by rewrite F1, Hdb, <- app_assoc.
  - simpl in Hf. lia.
  - intros s Hs. rewrite F5 by set_solver. apply Hall. set_solver.
  - exists g'. rewrite (mthen_run _ _ g (head l2) g) by (unfold deref; by rewrite Hdb, next_of_mid).
    rewrite (mthen_run _ _ _ _ _ E). split; [done|]. split; [congruence|]. split; [congruence|]. split.
    + intros s c [->|Hs]%elem_of_cons Hc.
      * exists b. rewrite G4 by done. split; [done|]. congruence.
      * apply G3; [done|]. rewrite F5 by set_solver. done.
    + intros s Hs. rewrite G4, F5 by set_solver. done.
Qed.

(** The state after the announcement that the system stops: the hooks of
    EVENT_SYSTEM_CHANGE return, leave the database well formed, no state locked
    and the mode of the system alone; they may change services, as that of
    module netdev does. *)
Record announced (g g1 : s_global) : Prop := {
  an_run : initng_main_set_sys_state STATE_STOPPING g = Done (tt, g1);
  an_wf : wf g1;
  an_mode : same_mode (g <| g_sys_state := STATE_STOPPING |>) g1;
  an_services : forall s a, g_heap g1 !! s = Some a ->
    a_state_lock a = 0 /\ forall ty, a_type a = Some ty -> is_Some (sty_stop ty) -> T ty
}.

Lemma stop_all_from g g1 fuel :
  announced g g1 -> (length (g_active_db g1) <= fuel)%nat ->
  exists g', initng_handler_stop_all fuel g = Done (TRUE, g') /\ g_sys_state g' = STATE_STOPPING /\
    g_when_out g' = g_when_out g /\ g_active_db g' = g_active_db g1 /\
    (forall s a, s ∈ g_active_db g1 -> g_heap g1 !! s = Some a ->
      exists b, g_heap g' !! s = Some b /\ stop_outcome a b) /\
    forall s, s ∉ g_active_db g1 -> g_heap g' !! s = g_heap g1 !! s.
Proof.
  intros [Hrun Hwf Hm Hall] Hf. unfold initng_handler_stop_all. rewrite (mthen_run _ _ _ _ _ Hrun).
  unfold first_active. rewrite (mthen_run _ _ g1 _ g1 eq_refl).
  destruct (stop_all_rounds fuel g1 [] (g_active_db g1)) as (g' & E & H1 & H2 & H3 & H4); try done.
  - apply (wf_nodup g1 Hwf).
  - intros s Hs. destruct (wf_alloc g1 Hwf s Hs) as [a Ha]. exists a. split; [done|]. by apply (Hall s).
  - injection H1 as Hs Hw. injection Hm as Hs1 Hw1. exists g'. rewrite (mthen_run _ _ _ _ _ E). split; [done|].
    split; [by rewrite Hs, Hs1|]. split; [by rewrite Hw, Hw1|]. done.
Qed.

(** Nobody listens. *)
Lemma stop_all_run g fuel :
  wf g -> (forall s a, g_heap g !! s = Some a -> a_state_lock a = 0 /\ forall ty, a_type a = Some ty -> T ty) ->
  g_hooks g EVENT_SYSTEM_CHANGE = [] -> (length (g_active_db g) <= fuel)%nat ->
  exists g', initng_handler_stop_all fuel g = Done (TRUE, g') /\ g_sys_state g' = STATE_STOPPING /\
    g_when_out g' = g_when_out g /\ g_active_db g' = g_active_db g /\
    forall s a, s ∈ g_active_db g -> g_heap g !! s = Some a ->
      exists b, g_heap g' !! s = Some b /\ stop_outcome a b.
Proof.
  intros Hwf Hall Hh Hf. set (g1 := g <| g_sys_state := STATE_STOPPING |>).
  destruct (stop_all_from g g1 fuel) as (g' & E & H1 & H2 & H3 & H4 & _); [|done|by exists g'].
  split; [by apply set_sys_state_run|by destruct Hwf; split|done|]. intros s a Ha. destruct (Hall s a Ha) as [Hl HT].
  split; [done|]. intros ty Hty _. by apply HT.
Qed.


End stop_all.
