(* ===== verification/Io.v ===== *)
(** * Output of processes: src/main/io/

    The buffer of a pipe is the block of memory the code allocated for it; every
    access is checked against its bounds, and one outside is a fault. *)
From S2P Require Import Prelude Types Data CString Global ActiveDb.
From Stdlib Require Import String.
From stdpp Require Import prelude gmap strings.
Local Open Scope Z_scope.

(** ** Memory blocks *)

(** memcpy into a block at offset [pos]; [None] is an access outside of it. *)
Definition block_write (pos : Z) (bytes : list Z) (block : list Z) : option (list Z) :=
  if (0 <=? pos) && (pos + Z.of_nat (length bytes) <=? Z.of_nat (length block)) then
    Some (take (Z.to_nat pos) block ++ bytes ++ drop (Z.to_nat pos + length bytes) block)
  else None.

(** memmove(block, block + pos, n) *)
Definition block_move (pos n : Z) (block : list Z) : option (list Z) :=
  if (0 <=? pos) && (0 <=? n) && (pos + n <=? Z.of_nat (length block)) then
    block_write 0 (take (Z.to_nat n) (drop (Z.to_nat pos) block)) block
  else None.

(** realloc: the contents up to the smaller size stay. *)
Definition block_realloc (block : option (list Z)) (size : Z) : list Z :=
  let old := default [] block in
  take (Z.to_nat size) old ++ replicate (Z.to_nat size - length old) 0.

(** ** io/read_input.c, one part after the other *)

(** Lines 70-103: make room for 100 more characters. *)
Definition make_room (pi : pipe_h) : option pipe_h :=
  if pi_buffer_allocated pi <=? pi_buffer_len pi + 100 then
    let tmp := block_realloc (pi_buffer pi) (pi_buffer_allocated pi + 100 + 1) in
    b ← block_write (pi_buffer_len pi) [0] tmp;
    Some (pi <| pi_buffer := Some b |> <| pi_buffer_allocated := pi_buffer_allocated pi + 100 |>)
  else Some pi.

(** Lines 105-123: what [read] returned, stored; the results are [read_ret] and
    whether the loop goes on.  errno is 0 after a read that returned
    characters. *)
Definition store_read (r : read_result) (pi : pipe_h) : option (Z * bool * pipe_h) :=
  match r with
  | Read_error _ => Some (-1, false, pi)
  | Read_ok [] => Some (0, false, pi)
  | Read_ok bytes =>
    block ← pi_buffer pi;
    b ← block_write (pi_buffer_len pi) bytes block;
    let read_ret := Z.of_nat (length bytes) in
    let len := pi_buffer_len pi + read_ret in
    b ← block_write len [0] b;
    Some (read_ret, 100 <=? read_ret, pi <| pi_buffer := Some b |> <| pi_buffer_len := len |>)
  end.

Definition read_round (r : read_result) (pi : pipe_h) : option (Z * bool * pipe_h) :=
  pi ← make_room pi; store_read r pi.

(** Lines 135-142: drop an empty buffer. *)
Definition drop_empty (pi : pipe_h) : pipe_h :=
  if (pi_buffer_len pi =? 0) && bool_decide (is_Some (pi_buffer pi)) then
    pi <| pi_buffer := None |> <| pi_buffer_allocated := 0 |> <| pi_buffer_len := 0 |>
  else pi.

(** Lines 148-167: end of file. *)
Definition finish_eof (pi : pipe_h) : pipe_h :=
  let pi := pi <| pipe0 := -1 |> <| pipe1 := -1 |> in
  match pi_buffer pi with
  | Some b =>
    if pi_buffer_len pi + 1 <? pi_buffer_allocated pi then
      pi <| pi_buffer := Some (block_realloc (Some b) (pi_buffer_len pi + 1)) |>
         <| pi_buffer_allocated := pi_buffer_len pi |>
    else pi
  | None => pi
  end.

(** Lines 169-189: keep the last 9000 characters of a big buffer. *)
Definition purge (pi : pipe_h) : option pipe_h :=
  if 10000 <? pi_buffer_len pi then
    block ← pi_buffer pi;
    b ← block_move (pi_buffer_len pi - 9000) 9000 block;
    let b := block_realloc (Some b) 9501 in
    b ← block_write 9000 [0] b;
    Some (pi <| pi_buffer := Some b |> <| pi_buffer_allocated := 9500 |> <| pi_buffer_len := 9000 |>)
  else Some pi.

Definition read_finish (read_ret : Z) (pi : pipe_h) : option pipe_h :=
  let pi := drop_empty pi in
  if read_ret =? 0 then Some (finish_eof pi) else purge pi.

(** ** The pipe of a process *)

Definition get_process (s p : addr) : G process_h :=
  let! a := get_service s in
  deref (fun _ => List.find (fun q => Pos.eqb (p_addr q) p) (a_processes a)).

Definition upd_process (s p : addr) (f : process_h -> process_h) : G unit :=
  upd_service s (fun a => a <| a_processes :=
    map (fun q => if Pos.eqb (p_addr q) p then f q else q) (a_processes a) |>).

Definition get_pipe (s p : addr) (k : nat) : G pipe_h :=
  let! q := get_process s p in deref (fun _ => p_pipes q !! k).

Definition put_pipe (s p : addr) (k : nat) (pi : pipe_h) : G unit :=
  upd_process s p (fun q => q <| p_pipes := <[k := pi]> (p_pipes q) |>).

(** A step on the pipe that faults on an access outside the buffer. *)
Definition pipe_step {A} (o : option A) : G A := deref (fun _ => o).

Section io.
Context `{!Callbacks, !Sys}.

(** ** io/pipe.c *)

Definition initng_io_module_readpipe (s p : addr) (k : nat) (buffer_pos : Z) : G unit :=
  initng_event_send (new_event EVENT_BUFFER_WATCHER (ED_buffer s p k buffer_pos)) ;;; mpure tt.

Definition initng_io_pipe (s p : addr) (k : nat) : G bool :=
  let! event := initng_event_send (new_event EVENT_PIPE_WATCHER (ED_pipe s p k)) in
  mpure (bool_decide (ev_status event = HANDLED)).

(** ** io/read_input.c *)

Fixpoint read_input_loop (fuel : nat) (s p : addr) (k : nat) : G Z :=
  match fuel with
  | O => nofuel
  | S fuel =>
    let! pi := get_pipe s p k in
    let! r := syscall (fun t => sys_read t (pipe0 pi)) in
    let! (read_ret, again, pi) := pipe_step (read_round r pi) in
    put_pipe s p k pi ;;;
    if (again : bool) then read_input_loop fuel s p k else mpure read_ret
  end.

Definition initng_io_process_read_input (fuel : nat) (s p : addr) (k : nat) : G unit :=
  let! pi := get_pipe s p k in
  let old_content_offset := pi_buffer_len pi in
  if pipe0 pi <=? 0 then mpure tt
  else
    let! read_ret := read_input_loop fuel s p k in
    let! pi := get_pipe s p k in
    (if old_content_offset <? pi_buffer_len pi
     then initng_io_module_readpipe s p k old_content_offset else mpure tt) ;;;
    let! pi := get_pipe s p k in
    let! pi := pipe_step (read_finish read_ret pi) in
    put_pipe s p k pi.

End io.

(** ** The buffer invariant *)

(** The block is one byte larger than [buffer_allocated], and the contents end
    with a NUL inside of it. *)
Definition pipe_ok (pi : pipe_h) : Prop :=
  0 <= pi_buffer_len pi <= pi_buffer_allocated pi /\
  match pi_buffer pi with
  | None => pi_buffer_len pi = 0 /\ pi_buffer_allocated pi = 0
  | Some b => Z.of_nat (length b) = pi_buffer_allocated pi + 1 /\ b !! Z.to_nat (pi_buffer_len pi) = Some 0
  end.

(** The characters in the buffer. *)
Definition contents (pi : pipe_h) : list Z := take (Z.to_nat (pi_buffer_len pi)) (default [] (pi_buffer pi)).

(** What the kernel promises of a read of at most 100 characters. *)
Definition read_fits (r : read_result) : Prop :=
  match r with Read_ok bytes => (length bytes <= 100)%nat | Read_error _ => True end.

Definition read_bytes (r : read_result) : list Z := match r with Read_ok bytes => bytes | Read_error _ => [] end.

(** ** Lemmas *)

Lemma block_write_Some pos bytes block :
  0 <= pos -> pos + Z.of_nat (length bytes) <= Z.of_nat (length block) ->
  block_write pos bytes block =
  Some (take (Z.to_nat pos) block ++ bytes ++ drop (Z.to_nat pos + length bytes) block).
Proof.
  intros H1 H2. unfold block_write. rewrite (proj2 (Z.leb_le 0 pos)) by done.
  by rewrite (proj2 (Z.leb_le _ _)) by done.
Qed.

Lemma block_write_length pos bytes block b :
  block_write pos bytes block = Some b -> length b = length block.
Proof.
  unfold block_write. destruct (_ && _) eqn:E; [|done]. apply andb_prop in E as [E1 E2].
  apply Z.leb_le in E1, E2. intros [= <-]. rewrite !length_app, length_take, length_drop. lia.
Qed.

Lemma block_write_take pos bytes block b :
  block_write pos bytes block = Some b ->
  take (Z.to_nat pos + length bytes) b = take (Z.to_nat pos) block ++ bytes.
Proof.
  unfold block_write. destruct (_ && _) eqn:E; [|done]. apply andb_prop in E as [E1 E2].
  apply Z.leb_le in E1, E2. intros [= <-]. rewrite app_assoc. rewrite take_app_le.
  - apply take_ge. rewrite length_app, length_take. lia.
  - rewrite length_app, length_take. lia.
Qed.

(** Writing the final NUL keeps what is before it. *)
Lemma block_write_nul pos block b :
  block_write pos [0] block = Some b ->
  b !! Z.to_nat pos = Some 0 /\ take (Z.to_nat pos) b = take (Z.to_nat pos) block.
Proof.
  intros E. pose proof (block_write_take _ _ _ _ E) as Ht. revert E.
  unfold block_write. destruct (_ && _) eqn:E; [|done]. apply andb_prop in E as [E1 E2].
  apply Z.leb_le in E1, E2. cbn [length] in *. intros [= <-].
  assert (Hl : length (take (Z.to_nat pos) block) = Z.to_nat pos) by (rewrite length_take; lia).
  split.
  - rewrite lookup_app_r by lia. by rewrite Hl, Nat.sub_diag.
  - rewrite <- Hl at 1. by rewrite take_app_length.
Qed.

Lemma block_realloc_length block size :
  0 <= size -> Z.of_nat (length (block_realloc block size)) = size.
Proof.
  intros H. unfold block_realloc. rewrite length_app, length_take, length_replicate. lia.
Qed.

Lemma block_realloc_take n block size :
  (n <= Z.to_nat size)%nat -> (n <= length (default [] block))%nat ->
  take n (block_realloc block size) = take n (default [] block).
Proof.
  intros H1 H2. unfold block_realloc. rewrite take_app_le by (rewrite length_take; lia).
  rewrite take_take. f_equal. lia.
Qed.

Lemma contents_length pi : pipe_ok pi -> Z.of_nat (length (contents pi)) = pi_buffer_len pi.
Proof.
  intros [Hl Hb]. unfold contents. destruct (pi_buffer pi) as [b|]; cbn [from_option id].
  - destruct Hb as [Hb _]. rewrite length_take. lia.
  - rewrite take_nil. cbn. lia.
Qed.

Lemma make_room_ok pi :
  pipe_ok pi ->
  exists pi', make_room pi = Some pi' /\ pipe_ok pi' /\ contents pi' = contents pi /\
    pi_buffer_len pi' = pi_buffer_len pi /\ pipe0 pi' = pipe0 pi /\ is_Some (pi_buffer pi') /\
    pi_buffer_len pi' + 100 <= pi_buffer_allocated pi'.
Proof.
  intros [Hl Hb]. unfold make_room. destruct (Z.leb_spec (pi_buffer_allocated pi) (pi_buffer_len pi + 100)).
  - cbv zeta. set (tmp := block_realloc _ _).
    assert (Hlen : Z.of_nat (length tmp) = pi_buffer_allocated pi + 100 + 1) by (apply block_realloc_length; lia).
    destruct (block_write (pi_buffer_len pi) [0] tmp) as [b|] eqn:Eb;
      [|rewrite block_write_Some in Eb; [done|lia|cbn [length]; lia]].
    pose proof (block_write_length _ _ _ _ Eb) as Hlb. destruct (block_write_nul _ _ _ Eb) as [Hnul Htk].
    eexists. split; [reflexivity|]. unfold pipe_ok, contents. cbn. repeat split; try done; try lia.
    rewrite Htk. unfold tmp. apply block_realloc_take; [lia|].
    destruct (pi_buffer pi); cbn [from_option id length]; destruct Hb as [Hb _]; lia.
  - exists pi. repeat split; try done; try lia. destruct (pi_buffer pi); [by eexists|]. destruct Hb. lia.
Qed.

Lemma store_read_ok r pi :
  pipe_ok pi -> is_Some (pi_buffer pi) -> pi_buffer_len pi + 100 <= pi_buffer_allocated pi -> read_fits r ->
  exists pi', store_read r pi =
      Some (match r with Read_ok bytes => Z.of_nat (length bytes) | Read_error _ => -1 end,
            Nat.eqb (length (read_bytes r)) 100, pi') /\
    pipe_ok pi' /\ contents pi' = contents pi ++ read_bytes r /\ pipe0 pi' = pipe0 pi.
Proof.
  intros Hok [block Hblock] Hroom Hr. pose proof Hok as [Hl Hb]. rewrite Hblock in Hb. destruct Hb as [Hb _].
  destruct r as [[|x bytes]|e]; cbn [store_read read_bytes];
    try (exists pi; rewrite app_nil_r; done).
  cbn [read_fits] in Hr. set (bs := x :: bytes) in *. rewrite Hblock. cbn [mbind option_bind].
  assert (Hlx : (0 < length bs)%nat) by (cbn; lia).
  destruct (block_write (pi_buffer_len pi) bs block) as [b1|] eqn:E1;
    [|rewrite block_write_Some in E1; [done|lia|lia]].
  cbn [mbind option_bind]. pose proof (block_write_length _ _ _ _ E1) as Hl1.
  pose proof (block_write_take _ _ _ _ E1) as Ht1.
  destruct (block_write (pi_buffer_len pi + Z.of_nat (length bs)) [0] b1) as [b2|] eqn:E2;
    [|rewrite block_write_Some in E2; [done|lia|cbn [length]; lia]].
  cbn [mbind option_bind]. pose proof (block_write_length _ _ _ _ E2) as Hl2.
  destruct (block_write_nul _ _ _ E2) as [Hnul Ht2].
  eexists. split.
  { do 3 f_equal. destruct (Nat.eqb_spec (length bs) 100), (Z.leb_spec 100 (Z.of_nat (length bs))); try done; lia. }
  unfold pipe_ok, contents. cbn -[bs]. repeat split; try lia; [exact Hnul|].
  rewrite Ht2, Hblock. cbn [from_option id].
  replace (Z.to_nat (pi_buffer_len pi + Z.of_nat (length bs))) with (Z.to_nat (pi_buffer_len pi) + length bs)%nat by lia.
  exact Ht1.
Qed.

Lemma read_round_ok r pi :
  pipe_ok pi -> read_fits r ->
  exists pi', read_round r pi =
      Some (match r with Read_ok bytes => Z.of_nat (length bytes) | Read_error _ => -1 end,
            Nat.eqb (length (read_bytes r)) 100, pi') /\
    pipe_ok pi' /\ contents pi' = contents pi ++ read_bytes r /\ pipe0 pi' = pipe0 pi.
Proof.
  intros Hok Hr. destruct (make_room_ok pi Hok) as (p1 & E1 & Hok1 & Hc1 & _ & Hp1 & Hs1 & Hroom).
  destruct (store_read_ok r p1 Hok1 Hs1 Hroom Hr) as (p2 & E2 & Hok2 & Hc2 & Hp2).
  exists p2. unfold read_round. rewrite E1. cbn [mbind option_bind]. rewrite E2, Hc2, Hc1, Hp2, Hp1. done.
Qed.

Lemma drop_empty_ok pi :
  pipe_ok pi -> pipe_ok (drop_empty pi) /\ contents (drop_empty pi) = contents pi /\
  pi_buffer_len (drop_empty pi) = pi_buffer_len pi.
Proof.
  intros [Hl Hb]. unfold drop_empty. destruct (Z.eqb_spec (pi_buffer_len pi) 0) as [E|]; [|done].
  case_bool_decide; [|done]. cbn [andb]. unfold pipe_ok, contents. cbn. rewrite E. repeat split; lia.
Qed.

Lemma finish_eof_ok pi : pipe_ok pi -> pipe_ok (finish_eof pi) /\ contents (finish_eof pi) = contents pi.
Proof.
  intros [Hl Hb]. unfold finish_eof. cbn [setf]. cbv zeta.
  change (pi_buffer (pi <| pipe0 := -1 |> <| pipe1 := -1 |>)) with (pi_buffer pi).
  destruct (pi_buffer pi) as [b|] eqn:Eb; [|split; [|done]; unfold pipe_ok; cbn; by rewrite Eb].
  change (pi_buffer_len (pi <| pipe0 := -1 |> <| pipe1 := -1 |>)) with (pi_buffer_len pi).
  change (pi_buffer_allocated (pi <| pipe0 := -1 |> <| pipe1 := -1 |>)) with (pi_buffer_allocated pi).
  destruct (Z.ltb_spec (pi_buffer_len pi + 1) (pi_buffer_allocated pi));
    [|split; [|done]; unfold pipe_ok; cbn; by rewrite Eb].
  destruct Hb as [Hb Hnul].
  assert (Htake : forall n, (n <= Z.to_nat (pi_buffer_len pi + 1))%nat ->
    take n (block_realloc (Some b) (pi_buffer_len pi + 1)) = take n b).
  { intros n Hn. apply (block_realloc_take n (Some b)); [lia|cbn; lia]. }
  split.
  - unfold pipe_ok. cbn -[block_realloc]. repeat split; try lia; [apply block_realloc_length; lia|].
    rewrite <- Hnul.
    rewrite <- (lookup_take_lt _ (Z.to_nat (pi_buffer_len pi + 1))) by lia.
    rewrite Htake by lia. apply lookup_take_lt. lia.
  - unfold contents. cbn -[block_realloc]. rewrite Htake by lia. by rewrite Eb.
Qed.

(** The last [n] elements of a list. *)
Definition last_n (n : nat) (l : list Z) : list Z := drop (length l - n) l.

Lemma purge_ok pi :
  pipe_ok pi ->
  exists pi', purge pi = Some pi' /\ pipe_ok pi' /\
    contents pi' = if 10000 <? pi_buffer_len pi then last_n (Z.to_nat 9000) (contents pi) else contents pi.
Proof.
  intros Hok. pose proof (contents_length pi Hok) as Hcl. pose proof Hok as [Hl Hb]. unfold purge.
  destruct (Z.ltb_spec 10000 (pi_buffer_len pi)) as [Hbig|]; [|by exists pi].
  destruct (pi_buffer pi) as [b|] eqn:Eb; destruct Hb as [Hb _]; [|lia]. cbn [mbind option_bind].
  unfold block_move. rewrite (proj2 (Z.leb_le 0 (pi_buffer_len pi - 9000))) by lia. cbn [Z.leb Z.compare andb].
  rewrite (proj2 (Z.leb_le (pi_buffer_len pi - 9000 + 9000) _)) by lia.
  set (src := take (Z.to_nat 9000) (drop (Z.to_nat (pi_buffer_len pi - 9000)) b)).
  assert (Hsrc : length src = Z.to_nat 9000) by (unfold src; rewrite length_take, length_drop; lia).
  destruct (block_write 0 src b) as [b1|] eqn:E1; [|rewrite block_write_Some in E1; [done|lia|lia]].
  cbn [mbind option_bind]. pose proof (block_write_length _ _ _ _ E1) as Hl1.
  pose proof (block_write_take _ _ _ _ E1) as Ht1.
  destruct (block_write 9000 [0] (block_realloc (Some b1) 9501)) as [b2|] eqn:E2;
    [|rewrite block_write_Some in E2; [done|lia|rewrite block_realloc_length by lia; cbn [length]; lia]].
  cbn [mbind option_bind]. pose proof (block_write_length _ _ _ _ E2) as Hl2.
  pose proof (block_realloc_length (Some b1) 9501 ltac:(lia)) as Hl3.
  destruct (block_write_nul _ _ _ E2) as [Hnul Ht2].
  eexists. split; [reflexivity|]. unfold pipe_ok. split.
  - split; [cbv; done|]. split; [cbn -[Z.of_nat length]; lia|exact Hnul].
  - change (contents _) with (take (Z.to_nat 9000) b2) at 1. rewrite Ht2.
    rewrite (block_realloc_take (Z.to_nat 9000) (Some b1) 9501); [|lia|change (default [] (Some b1)) with b1; lia].
    change (default [] (Some b1)) with b1.
    rewrite Hsrc in Ht1. change (Z.to_nat 0 + Z.to_nat 9000)%nat with (Z.to_nat 9000) in Ht1.
    rewrite Ht1. cbn [Z.to_nat take app]. unfold src, last_n, contents. rewrite Eb. cbn [from_option id].
    rewrite length_take, Nat.min_l by lia.
    change (take (Z.to_nat 0) b ++ ?x) with x.
    replace (Z.to_nat (pi_buffer_len pi) - Z.to_nat 9000)%nat with (Z.to_nat (pi_buffer_len pi - 9000)) by lia.
    rewrite take_drop_commute. do 2 f_equal. lia.
Qed.

(** The pipe [k] of process [p] of service [s] is [pi]. *)
Definition pipe_at (g : s_global) (s p : addr) (k : nat) (pi : pipe_h) : Prop :=
  exists a q, g_heap g !! s = Some a /\
    List.find (fun q => Pos.eqb (p_addr q) p) (a_processes a) = Some q /\ p_pipes q !! k = Some pi.

Lemma get_pipe_run g s p k pi : pipe_at g s p k pi -> get_pipe s p k g = Done (pi, g).
Proof.
  intros (a & q & Ha & Hq & Hpi). unfold get_pipe, get_process, mthen, get_service, deref.
  by rewrite Ha, Hq, Hpi.
Qed.

Lemma put_pipe_run g s p k pi pi' :
  pipe_at g s p k pi ->
  exists g', put_pipe s p k pi' g = Done (tt, g') /\ pipe_at g' s p k pi' /\
    g_ticks g' = g_ticks g /\ g_hooks g' = g_hooks g /\
    (forall x, x <> s -> g_heap g' !! x = g_heap g !! x).
Proof.
  intros (a & q & Ha & Hq & Hpi). unfold put_pipe, upd_process. rewrite (upd_service_run _ _ _ _ Ha).
  eexists. split; [reflexivity|]. split; [|split; [done|split; [done|]]].
  - eexists _, (q <| p_pipes := <[k := pi']> (p_pipes q) |>). split; [apply put_service_lookup|]. split.
    + cbn. rewrite find_map_stable, Hq by (intros x; by destruct (Pos.eqb (p_addr x) p) eqn:E).
      apply List.find_some in Hq as [_ Hp]. cbn. by rewrite Hp.
    + cbn. apply list_lookup_insert_eq. by eapply lookup_lt_Some.
  - intros x Hx. by apply put_service_lookup_ne.
Qed.

Section read_facts.
Context `{!Callbacks, !Sys}.

(** The kernel answers the reads from [fd], from call [t] on, with [full]
    complete reads and then [r]. *)
Definition answers (t : nat) (fd : Z) (full : list (list Z)) (r : read_result) : Prop :=
  (forall i bs, full !! i = Some bs -> sys_read (t + i) fd = Read_ok bs) /\
  sys_read (t + length full) fd = r.

Definition read_value (r : read_result) : Z :=
  match r with Read_ok bytes => Z.of_nat (length bytes) | Read_error _ => -1 end.

Lemma read_input_loop_run fuel g s p k pi full r :
  pipe_at g s p k pi -> pipe_ok pi -> answers (g_ticks g) (pipe0 pi) full r ->
  Forall (fun bs => length bs = 100%nat) full -> (length (read_bytes r) < 100)%nat ->
  (length full < fuel)%nat ->
  exists g' pi', read_input_loop fuel s p k g = Done (read_value r, g') /\ pipe_at g' s p k pi' /\
    pipe_ok pi' /\ contents pi' = contents pi ++ concat full ++ read_bytes r /\
    g_hooks g' = g_hooks g /\ (forall x, x <> s -> g_heap g' !! x = g_heap g !! x).
Proof.
  revert g pi full. induction fuel as [|fuel IH]; intros g pi full Hat Hok [Hans Hlast] Hfull Hr Hf; [lia|].
  cbn [read_input_loop]. rewrite (mthen_run _ _ _ _ _ (get_pipe_run _ _ _ _ _ Hat)).
  set (g1 := g <| g_ticks := S (g_ticks g) |>).
  rewrite (mthen_run _ _ g (sys_read (g_ticks g) (pipe0 pi)) g1) by done.
  assert (Hat1 : pipe_at g1 s p k pi) by exact Hat.
  destruct full as [|bs full].
  - rewrite Nat.add_0_r in Hlast. rewrite Hlast.
    destruct (read_round_ok r pi Hok) as (pi' & E & Hok' & Hc & Hp); [destruct r; cbn in *; [lia|done]|].
    unfold pipe_step. rewrite (mthen_run _ _ g1 _ g1) by (unfold deref; by rewrite E).
    destruct (put_pipe_run g1 s p k pi pi' Hat1) as (g2 & E2 & Hat2 & Ht & Hh & Hx).
    rewrite (mthen_run _ _ _ _ _ E2). rewrite (proj2 (Nat.eqb_neq _ 100)) by lia.
    exists g2, pi'. by rewrite Hc.
  - apply Forall_cons in Hfull as [Hbs Hfull].
    assert (Hr0 : sys_read (g_ticks g) (pipe0 pi) = Read_ok bs) by (rewrite <- (Hans 0%nat bs eq_refl); f_equal; lia).
    rewrite Hr0. destruct (read_round_ok (Read_ok bs) pi Hok) as (pi' & E & Hok' & Hc & Hp); [cbn; lia|].
    unfold pipe_step. rewrite (mthen_run _ _ g1 _ g1) by (unfold deref; by rewrite E).
    destruct (put_pipe_run g1 s p k pi pi' Hat1) as (g2 & E2 & Hat2 & Ht & Hh & Hx).
    rewrite (mthen_run _ _ _ _ _ E2). cbn [read_bytes]. rewrite Hbs. cbn [Nat.eqb].
    destruct (IH g2 pi' full Hat2 Hok') as (g3 & pi3 & E3 & Hat3 & Hok3 & Hc3 & Hh3 & Hx3); try done.
    + rewrite Hp, Ht. cbn. split.
      * intros i bs' Hi. rewrite <- (Hans (S i) bs' Hi). f_equal. lia.
      * rewrite <- Hlast. cbn. f_equal. lia.
    + cbn in Hf. lia.
    + exists g3, pi3. split; [exact E3|]. split; [done|]. split; [done|].
      split; [rewrite Hc3, Hc; cbn; by rewrite <- !app_assoc|]. split; [by rewrite Hh3, Hh|].
      intros x Hne. rewrite Hx3, Hx by done. done.
Qed.

Lemma read_finish_ok ret pi :
  pipe_ok pi ->
  exists pi', read_finish ret pi = Some pi' /\ pipe_ok pi' /\
    contents pi' = if negb (ret =? 0) && (10000 <? pi_buffer_len pi)
                   then last_n (Z.to_nat 9000) (contents pi) else contents pi.
Proof.
  intros Hok. destruct (drop_empty_ok pi Hok) as (Hok1 & Hc1 & Hl1). unfold read_finish. cbv zeta.
  destruct (ret =? 0); cbn [negb andb].
  - destruct (finish_eof_ok _ Hok1) as [Hok2 Hc2]. eexists. split; [done|]. by rewrite Hc2.
  - destruct (purge_ok _ Hok1) as (pi' & E & Hok2 & Hc2). exists pi'. rewrite Hc2, Hl1, Hc1. done.
Qed.

(** C14: reading the output of a process never leaves its buffer, and loses
    nothing.  Whatever the process wrote, in any number of reads, the pipe is
    read without an access outside the block, the buffer stays well formed, and
    its contents are the old ones followed by what was read, of which the last
    9000 characters stay when there are more than 10000 and the file has not
    ended. *)
Theorem read_input_appends fuel g s p k pi full r :
  pipe_at g s p k pi -> pipe_ok pi -> 0 < pipe0 pi -> g_hooks g EVENT_BUFFER_WATCHER = [] ->
  answers (g_ticks g) (pipe0 pi) full r ->
  Forall (fun bs => length bs = 100%nat) full -> (length (read_bytes r) < 100)%nat ->
  (length full < fuel)%nat ->
  let all := contents pi ++ concat full ++ read_bytes r in
  exists g' pi', initng_io_process_read_input fuel s p k g = Done (tt, g') /\
    pipe_at g' s p k pi' /\ pipe_ok pi' /\
    contents pi' = (if negb (read_value r =? 0) && (10000 <? Z.of_nat (length all))
                    then last_n (Z.to_nat 9000) all else all) /\
    forall x, x <> s -> g_heap g' !! x = g_heap g !! x.
Proof.
  intros Hat Hok Hfd Hh Hans Hfull Hr Hf all.
  destruct (read_input_loop_run fuel g s p k pi full r Hat Hok Hans Hfull Hr Hf)
    as (g1 & pi1 & E1 & Hat1 & Hok1 & Hc1 & Hh1 & Hx1).
  destruct (read_finish_ok (read_value r) pi1 Hok1) as (pi2 & E2 & Hok2 & Hc2).
  destruct (put_pipe_run g1 s p k pi1 pi2 Hat1) as (g2 & E3 & Hat3 & _ & _ & Hx3).
  exists g2, pi2. split.
  - unfold initng_io_process_read_input. rewrite (mthen_run _ _ _ _ _ (get_pipe_run _ _ _ _ _ Hat)).
    cbv zeta. rewrite (proj2 (Z.leb_gt _ _)) by lia. rewrite (mthen_run _ _ _ _ _ E1).
    rewrite (mthen_run _ _ _ _ _ (get_pipe_run _ _ _ _ _ Hat1)).
    rewrite (mthen_run _ _ g1 tt g1).
    + rewrite (mthen_run _ _ _ _ _ (get_pipe_run _ _ _ _ _ Hat1)).
      unfold pipe_step. by rewrite (mthen_run _ _ g1 pi2 g1) by (unfold deref; by rewrite E2).
    + destruct (Z.ltb (pi_buffer_len pi) (pi_buffer_len pi1)); [|reflexivity]. unfold initng_io_module_readpipe. rewrite <- Hh1 in Hh.
      by rewrite (mthen_run _ _ _ _ _ (send_no_hooks g1 (new_event EVENT_BUFFER_WATCHER _) Hh)).
  - split; [done|]. split; [done|]. split; [|intros x Hx; by rewrite Hx3, Hx1].
    rewrite Hc2, Hc1. fold all. by rewrite <- (contents_length pi1 Hok1), Hc1.
Qed.

End read_facts.

(** ** Processes of a service *)

(** The service with the process at [p] changed by [f]. *)
Definition with_process (p : addr) (f : process_h -> process_h) (a : active_db_h) : active_db_h :=
  a <| a_processes := map (fun q => if Pos.eqb (p_addr q) p then f q else q) (a_processes a) |>.

Definition find_process (p : addr) (a : active_db_h) : option process_h :=
  List.find (fun q => Pos.eqb (p_addr q) p) (a_processes a).

Lemma get_process_run g s p a q :
  g_heap g !! s = Some a -> find_process p a = Some q -> get_process s p g = Done (q, g).
Proof.
  intros Ha Hq. unfold get_process. rewrite (mthen_run _ _ _ _ _ (get_service_run _ _ _ Ha)).
  unfold deref. unfold find_process in Hq. by rewrite Hq.
Qed.

Lemma upd_process_run g s p a f :
  g_heap g !! s = Some a -> upd_process s p f g = Done (tt, put_service s (with_process p f a) g).
Proof. intros Ha. unfold upd_process. by rewrite (upd_service_run _ _ _ _ Ha). Qed.

Lemma find_with_process p f a q :
  (forall q, p_addr (f q) = p_addr q) -> find_process p a = Some q -> find_process p (with_process p f a) = Some (f q).
Proof.
  intros Hf Hq. unfold find_process in *. cbn. rewrite find_map_stable, Hq.
  - cbn. apply List.find_some in Hq as [_ Hq]. by rewrite Hq.
  - intros x. destruct (Pos.eqb (p_addr x) p) eqn:E; [by rewrite Hf|done].
Qed.
