(* ===== verification/Poll.v ===== *)
(** * Waiting for descriptors: src/main/io/poll.c

    initng_io_module_poll in its three steps: which descriptors to watch, the
    select(2), and who is called for those that are ready. *)
From S2P Require Import Prelude Types Data CString Global ActiveDb Depend Io.
From Stdlib Require Import String.
From stdpp Require Import prelude gmap strings.
Local Open Scope Z_scope.

(** fcntl(fd, F_GETFD) tells whether a descriptor is open; select(2) gives the
    number of ready descriptors and the sets it leaves, [None] is an error. *)
Class PollSys := {
  sys_still_open : nat -> Z -> bool;
  sys_select : nat -> fd_sets -> option (Z * fd_sets)
}.

Definition IOW_ACTION_CHECK : Z := 2.
Definition IOW_ACTION_CALL : Z := 3.

Definition no_fds : fd_sets := FdSets ∅ ∅ ∅.

(** FD_SET of a descriptor behind the end of the fd_set is a store outside it. *)
Definition FD_SETSIZE : Z := 1024.
Definition fd_set (for_write : bool) (fd : Z) (sets : fd_sets) : option fd_sets :=
  if fd <? FD_SETSIZE then
    Some (if for_write then FdSets (readset sets) ({[fd]} ∪ writeset sets) (errset sets)
          else FdSets ({[fd]} ∪ readset sets) (writeset sets) (errset sets))
  else None.

(** The end of a pipe that initng watches, and whether it waits to write there. *)
Inductive pipe_end := End0 | End1.
Definition watched_end (pi : pipe_h) : option (pipe_end * bool) :=
  match pi_dir pi with
  | OUT_PIPE | BUFFERED_OUT_PIPE => Some (End0, false)
  | IN_AND_OUT_PIPE => Some (End1, false)
  | IN_PIPE => Some (End1, true)
  | UNKNOWN_PIPE => None
  end.
Definition end_fd (e : pipe_end) (pi : pipe_h) : Z := match e with End0 => pipe0 pi | End1 => pipe1 pi end.
Definition end_lost (e : pipe_end) (pi : pipe_h) : pipe_h :=
  match e with End0 => pi <| pipe0 := -1 |> | End1 => pi <| pipe1 := -1 |> end.

Section poll.
Context `{!Callbacks, !Sys, !PollSys} (fuel : nat).

(** EVENT_IO_WATCHER; the hooks change [added] and the sets through pointers. *)
Definition send_io_watcher (action added : Z) (sets : fd_sets) : G (Z * fd_sets) :=
  let! event := initng_event_send (new_event EVENT_IO_WATCHER (ED_io_watcher action added sets)) in
  match ev_data event with
  | ED_io_watcher _ added sets => mpure (added, sets)
  | _ => fault
  end.

(** ** Step 1 *)

(** One round of the innermost loop: lines 101-143. *)
Definition add_pipe (s p : addr) (k : nat) (st : Z * fd_sets) : G (Z * fd_sets) :=
  let! pi := get_pipe s p k in
  match watched_end pi with
  | None => mpure st
  | Some (e, for_write) =>
    let fd := end_fd e pi in
    if negb (2 <? fd) then mpure st
    else
      let! open := syscall (fun t => sys_still_open t fd) in
      if negb (open : bool) then
        put_pipe s p k (end_lost e pi) ;;; mpure st
      else
        let! sets := deref (fun _ => fd_set for_write fd (snd st)) in
        mpure (fst st + 1, sets)
  end.

(** The loops change no list, so each runs over what is there at its start. *)
Fixpoint add_pipes (s p : addr) (ks : list nat) (st : Z * fd_sets) : G (Z * fd_sets) :=
  match ks with
  | [] => mpure st
  | k :: ks => let! st := add_pipe s p k st in add_pipes s p ks st
  end.

Fixpoint add_processes (s : addr) (ps : list addr) (st : Z * fd_sets) : G (Z * fd_sets) :=
  match ps with
  | [] => mpure st
  | p :: ps =>
    let! q := get_process s p in
    let! st := add_pipes s p (seq 0 (length (p_pipes q))) st in
    add_processes s ps st
  end.

Fixpoint add_services (ss : list addr) (st : Z * fd_sets) : G (Z * fd_sets) :=
  match ss with
  | [] => mpure st
  | s :: ss =>
    let! a := get_service s in
    let! st := add_processes s (map p_addr (a_processes a)) st in
    add_services ss st
  end.

(** ** Step 3 *)

(** Lines 219-271 for one pipe; a pipe that is ready takes one off [retval]. *)
Definition call_pipe (s p : addr) (k : nat) (pi : pipe_h) (sets : fd_sets) (retval : Z) : G Z :=
  match watched_end pi with
  | None => mpure retval
  | Some (e, for_write) =>
    let fd := end_fd e pi in
    if (2 <? fd) && bool_decide (fd ∈ (if for_write : bool then writeset sets else readset sets)) then
      (if decide (pi_dir pi = BUFFERED_OUT_PIPE) then initng_io_process_read_input fuel s p k
       else initng_io_pipe s p k ;;; mpure tt) ;;;
      mpure (retval - 1)
    else mpure retval
  end.

(** [retval] is 0 exactly when the function has returned.  while_pipes follows
    the link of the process after the body. *)
Fixpoint call_pipes (n : nat) (s p : addr) (k : nat) (sets : fd_sets) (retval : Z) : G Z :=
  match n with
  | O => nofuel
  | S n =>
    let! q := get_process s p in
    match p_pipes q !! k with
    | None => mpure retval
    | Some pi =>
      let! retval := call_pipe s p k pi sets retval in
      if retval =? 0 then mpure 0 else call_pipes n s p (S k) sets retval
    end
  end.

(** while_processes_safe: the next process is found before the body, the head of
    the list, in the service, is looked at after it. *)
Fixpoint call_processes (n : nat) (s : addr) (current : option addr) (sets : fd_sets) (retval : Z) : G Z :=
  match current with
  | None => mpure retval
  | Some p =>
    match n with
    | O => nofuel
    | S n =>
      let! a := get_service s in
      let! next := deref (fun _ => next_of p (map p_addr (a_processes a))) in
      let! retval := call_pipes fuel s p 0 sets retval in
      if retval =? 0 then mpure 0
      else get_service s ;;; call_processes n s next sets retval
    end
  end.

Fixpoint call_services (n : nat) (current : option addr) (sets : fd_sets) (retval : Z) : G Z :=
  match current with
  | None => mpure retval
  | Some s =>
    match n with
    | O => nofuel
    | S n =>
      let! next := deref (fun g => next_of s (g_active_db g)) in
      let! a := get_service s in
      let! retval := call_processes fuel s (head (map p_addr (a_processes a))) sets retval in
      if retval =? 0 then mpure 0 else call_services n next sets retval
    end
  end.

(** ** The function; the timeout only matters to select *)

Definition initng_io_module_poll : G unit :=
  let! (added, sets) := send_io_watcher IOW_ACTION_CHECK 0 no_fds in
  let! db := asks g_active_db in
  let! (added, sets) := add_services db (added, sets) in
  if added <=? 0 then mpure tt
  else
    let! r := syscall (fun t => sys_select t sets) in
    match r with
    | None => mpure tt
    | Some (retval, sets) =>
      if retval =? 0 then mpure tt
      else
        let! (retval, sets) := send_io_watcher IOW_ACTION_CALL retval sets in
        if retval =? 0 then mpure tt
        else
          let! first := first_active in
          call_services fuel first sets retval ;;; mpure tt
    end.

End poll.

(** ** What is watched *)

Section watched.
Context `{SY : Sys, PS : PollSys} (is_open : Z -> bool).
(** No descriptor is opened or closed while initng looks at them. *)
Hypothesis open_stays : forall t fd, sys_still_open t fd = is_open fd.

(** *** What the step should do

    The descriptor of a pipe that is worth watching, and whether to wait until it
    can be written: initng reads the output of a process at pipe[0], talks with
    it over pipe[1] of a two-way pipe, and writes to pipe[1] of its input. *)
Definition live (pi : pipe_h) : option (Z * bool) :=
  let if_live fd w := if (2 <? fd) && is_open fd then Some (fd, w) else None in
  match pi_dir pi with
  | OUT_PIPE | BUFFERED_OUT_PIPE => if_live (pipe0 pi) false
  | IN_AND_OUT_PIPE => if_live (pipe1 pi) false
  | IN_PIPE => if_live (pipe1 pi) true
  | UNKNOWN_PIPE => None
  end.

(** The pipe with the end that was found closed marked so. *)
Definition refreshed (pi : pipe_h) : pipe_h :=
  let lost fd := (2 <? fd) && negb (is_open fd) in
  match pi_dir pi with
  | OUT_PIPE | BUFFERED_OUT_PIPE => if lost (pipe0 pi) then pi <| pipe0 := -1 |> else pi
  | IN_AND_OUT_PIPE | IN_PIPE => if lost (pipe1 pi) then pi <| pipe1 := -1 |> else pi
  | UNKNOWN_PIPE => pi
  end.
Definition refreshed_process (q : process_h) : process_h := q <| p_pipes := map refreshed (p_pipes q) |>.
Definition refreshed_service (a : active_db_h) : active_db_h := a <| a_processes := map refreshed_process (a_processes a) |>.

(** The descriptors worth watching of a process, a service, and all services. *)
Definition process_ends (q : process_h) : list (Z * bool) := omap live (p_pipes q).
Definition service_ends (a : active_db_h) : list (Z * bool) := concat (map process_ends (a_processes a)).
Definition live_ends (g : s_global) : list (Z * bool) := concat (map (fun x => service_ends (snd x)) (active_services g)).

Definition with_fd (st : Z * fd_sets) (x : Z * bool) : Z * fd_sets :=
  (fst st + 1,
   let sets := snd st in
   if snd x then FdSets (readset sets) ({[fst x]} ∪ writeset sets) (errset sets)
   else FdSets ({[fst x]} ∪ readset sets) (writeset sets) (errset sets)).

Definition in_range (x : Z * bool) : Prop := fst x < FD_SETSIZE.

(** Only the heap changes, and the kernel was asked. *)
Definition frozen (g g' : s_global) : Prop := g' <| g_heap := g_heap g |> <| g_ticks := g_ticks g |> = g.

#[local] Instance frozen_preorder : PreOrder frozen.
Proof.
  split; [by intros []|]. intros g1 g2 g3 H1 H2. unfold frozen in *. destruct g1, g2, g3. cbn in *.
  injection H1; injection H2; intros; by subst.
Qed.

Lemma frozen_db g g' : frozen g g' -> g_active_db g' = g_active_db g.
Proof. unfold frozen. intros H. apply (f_equal g_active_db) in H. by destruct g'. Qed.

Lemma frozen_put g s a : frozen g (put_service s a g).
Proof. by destruct g. Qed.

(** *** One process of a service *)

Lemma with_process_split p f a q l1 l2 :
  a_processes a = l1 ++ q :: l2 -> NoDup (map p_addr (a_processes a)) -> p_addr q = p ->
  a_processes (with_process p f a) = l1 ++ f q :: l2.
Proof.
  intros E Hnd Hp. unfold with_process. cbn. rewrite E in *. rewrite map_app in *. cbn in *. rewrite Hp, Pos.eqb_refl.
  apply NoDup_app in Hnd as (_ & H1 & H2%NoDup_cons). destruct H2 as [H2 _].
  assert (Hid : forall l, p ∉ map p_addr l -> map (fun q0 => if Pos.eqb (p_addr q0) p then f q0 else q0) l = l).
  { induction l as [|x l IH]; intros Hl; [done|]. cbn in *. destruct (Pos.eqb_spec (p_addr x) p) as [Ex|_]; [set_solver|].
    rewrite IH by set_solver. done. }
  rewrite !Hid; [done| |]; [by rewrite <- Hp|]. intros Hin. apply (H1 p Hin). rewrite Hp. by left.
Qed.

Lemma find_process_split p a q l1 l2 :
  a_processes a = l1 ++ q :: l2 -> NoDup (map p_addr (a_processes a)) -> p_addr q = p -> find_process p a = Some q.
Proof.
  intros E Hnd Hp. unfold find_process. rewrite E in *. rewrite map_app in Hnd. cbn in Hnd.
  apply NoDup_app in Hnd as (_ & H1 & _). clear E. induction l1 as [|x l1 IH]; cbn in *; [by rewrite Hp, Pos.eqb_refl|].
  destruct (Pos.eqb_spec (p_addr x) p) as [Ex|_]; [|apply IH; intros y Hy; apply H1; by right]. destruct (H1 (p_addr x)); [by left|]. rewrite Ex, Hp. by left.
Qed.

(** The service with the processes [ps]. *)
Definition with_processes (a : active_db_h) (ps : list process_h) : active_db_h := a <| a_processes := ps |>.

Lemma with_process_at p f a l1 q l2 :
  NoDup (map p_addr (l1 ++ q :: l2)) -> p_addr q = p ->
  with_process p f (with_processes a (l1 ++ q :: l2)) = with_processes a (l1 ++ f q :: l2).
Proof.
  intros Hnd Hp. pose proof (with_process_split p f (with_processes a (l1 ++ q :: l2)) q l1 l2 eq_refl Hnd Hp) as H.
  unfold with_process, with_processes in *. cbn in *. by rewrite H.
Qed.

Definition with_pipes (q : process_h) (ps : list pipe_h) : process_h := q <| p_pipes := ps |>.

Lemma pair_at l1 q l2 ps : map p_addr (l1 ++ with_pipes q ps :: l2) = map p_addr (l1 ++ q :: l2).
Proof. by rewrite !map_app. Qed.

(** *** The loops *)

Lemma add_pipe_run g s a l1 q l2 ps1 pi ps2 st :
  let b := with_processes a (l1 ++ with_pipes q (ps1 ++ pi :: ps2) :: l2) in
  g_heap g !! s = Some b -> NoDup (map p_addr (l1 ++ q :: l2)) -> (forall x, live pi = Some x -> in_range x) ->
  exists g', add_pipe s (p_addr q) (length ps1) st g = Done (fold_left with_fd (omap live [pi]) st, g') /\ frozen g g' /\
    g_heap g' = <[s := with_processes a (l1 ++ with_pipes q (ps1 ++ refreshed pi :: ps2) :: l2)]> (g_heap g).
Proof.
  intros b Hb Hnd Hr. set (k := length ps1).
  assert (Hf : find_process (p_addr q) b = Some (with_pipes q (ps1 ++ pi :: ps2))).
  { eapply find_process_split; [reflexivity| |done]. cbn. by rewrite pair_at. }
  assert (Hat : pipe_at g s (p_addr q) k pi) by (exists b, (with_pipes q (ps1 ++ pi :: ps2)); split; [done|]; split; [done|by apply list_lookup_middle]).
  assert (Hsame : refreshed pi = pi -> forall g1, g_heap g1 = g_heap g ->
    g_heap g1 = <[s := with_processes a (l1 ++ with_pipes q (ps1 ++ refreshed pi :: ps2) :: l2)]> (g_heap g))
    by (intros -> g1 ->; by rewrite insert_id).
  unfold add_pipe. rewrite (mthen_run _ _ _ _ _ (get_pipe_run _ _ _ _ _ Hat)). set (g1 := g <| g_ticks := S (g_ticks g) |>).
  assert (Hput : forall pi', exists g', put_pipe s (p_addr q) k pi' g1 = Done (tt, g') /\ frozen g g' /\
    g_heap g' = <[s := with_processes a (l1 ++ with_pipes q (ps1 ++ pi' :: ps2) :: l2)]> (g_heap g)).
  { intros pi'. unfold put_pipe. rewrite (upd_process_run g1 _ _ b _ Hb). eexists. split; [reflexivity|]. split; [by destruct g|].
    rewrite put_service_heap. unfold b. rewrite with_process_at; [|by rewrite pair_at|done]. cbn. by rewrite insert_app_r_alt, Nat.sub_diag. }
  assert (Hgo : forall (e : pipe_end) (w : bool) fd, watched_end pi = Some (e, w) -> end_fd e pi = fd ->
    live pi = (if (2 <? fd) && is_open fd then Some (fd, w) else None) ->
    refreshed pi = (if (2 <? fd) && negb (is_open fd) then end_lost e pi else pi) ->
    exists g', (if negb (2 <? fd) then mpure st else
      let! open := syscall (fun t => sys_still_open t fd) in
      if negb (open : bool) then put_pipe s (p_addr q) k (end_lost e pi) ;;; mpure st
      else let! sets := deref (fun _ => fd_set w fd (snd st)) in mpure (fst st + 1, sets)) g =
      Done (fold_left with_fd (omap live [pi]) st, g') /\ frozen g g' /\
      g_heap g' = <[s := with_processes a (l1 ++ with_pipes q (ps1 ++ refreshed pi :: ps2) :: l2)]> (g_heap g)).
  { intros e w fd _ _ Hl Hrf. cbn [omap list_omap]. rewrite Hl in Hr |- *. destruct (2 <? fd); cbn [negb andb] in *; [|exists g; by split; [|split; [|apply Hsame]]].
    rewrite (mthen_run _ _ _ _ _ (syscall_run _ _)), open_stays. fold g1. destruct (is_open fd) eqn:Eo; cbn [negb] in *.
    - pose proof (Hr _ eq_refl) as Hlt. unfold in_range in Hlt. cbn [fst] in Hlt. exists g1.
      unfold fd_set. rewrite (proj2 (Z.ltb_lt _ _) Hlt). split; [cbn; by destruct w|]. split; [by destruct g|]. by apply Hsame.
    - destruct (Hput (end_lost e pi)) as (g2 & E & F & H). exists g2. rewrite (mthen_run _ _ _ _ _ E), Hrf. done. }
  unfold watched_end in *. unfold live, refreshed in *. destruct (pi_dir pi) eqn:Ed; cbn [end_fd];
    [exists g; split; [cbn; by rewrite Ed|split; [done|by apply Hsame]]|by apply Hgo..].
Qed.

Lemma add_pipes_run ps2 ps1 g s a l1 q l2 st :
  g_heap g !! s = Some (with_processes a (l1 ++ with_pipes q (ps1 ++ ps2) :: l2)) -> NoDup (map p_addr (l1 ++ q :: l2)) ->
  Forall in_range (omap live ps2) ->
  exists g', add_pipes s (p_addr q) (seq (length ps1) (length ps2)) st g = Done (fold_left with_fd (omap live ps2) st, g') /\ frozen g g' /\
    g_heap g' = <[s := with_processes a (l1 ++ with_pipes q (ps1 ++ map refreshed ps2) :: l2)]> (g_heap g).
Proof.
  revert ps1 g st. induction ps2 as [|pi ps2 IH]; intros ps1 g st Ha Hnd Hr; cbn [length seq add_pipes].
  { exists g. split; [done|]. split; [done|]. cbn. by rewrite insert_id. }
  replace (omap live (pi :: ps2)) with (omap live [pi] ++ omap live ps2) in * by (cbn; by destruct (live pi)).
  apply Forall_app in Hr as [Hr1 Hr2].
  destruct (add_pipe_run g s a l1 q l2 ps1 pi ps2 st Ha Hnd) as (g1 & E1 & F1 & H1).
  { intros x Hx. cbn in Hr1. rewrite Hx in Hr1. by inversion Hr1. }
  rewrite (mthen_run _ _ _ _ _ E1). destruct (IH (ps1 ++ [refreshed pi]) g1 (fold_left with_fd (omap live [pi]) st)) as (g2 & E2 & F2 & H2).
  - rewrite H1, <- app_assoc. apply lookup_insert_eq.
  - done.
  - done.
  - exists g2. rewrite length_app, Nat.add_1_r in E2. rewrite E2, fold_left_app. split; [done|]. split; [by etransitivity|].
    rewrite H2, H1, insert_insert_eq, <- app_assoc. done.
Qed.

Lemma add_processes_run l2 l1 g s a st :
  g_heap g !! s = Some (with_processes a (map refreshed_process l1 ++ l2)) -> NoDup (map p_addr (l1 ++ l2)) ->
  Forall in_range (concat (map process_ends l2)) ->
  exists g', add_processes s (map p_addr l2) st g = Done (fold_left with_fd (concat (map process_ends l2)) st, g') /\ frozen g g' /\
    g_heap g' = <[s := with_processes a (map refreshed_process (l1 ++ l2))]> (g_heap g).
Proof.
  revert l1 g st. induction l2 as [|q l2 IH]; intros l1 g st Ha Hnd Hr; cbn [map add_processes concat].
  { exists g. split; [done|]. split; [done|]. rewrite !app_nil_r in *. by rewrite insert_id. }
  cbn [map concat] in Hr. apply Forall_app in Hr as [Hr1 Hr2].
  assert (Hnd1 : NoDup (map p_addr (map refreshed_process l1 ++ q :: l2))) by (rewrite map_app, List.map_map, <- map_app; exact Hnd).
  assert (Hq : find_process (p_addr q) (with_processes a (map refreshed_process l1 ++ q :: l2)) = Some q) by (by eapply find_process_split).
  rewrite (mthen_run _ _ _ _ _ (get_process_run _ _ _ _ _ Ha Hq)).
  assert (Eq : with_pipes q (p_pipes q) = q) by (by destruct q).
  destruct (add_pipes_run (p_pipes q) [] g s a (map refreshed_process l1) q l2 st) as (g1 & E1 & F1 & H1); [by rewrite app_nil_l, Eq|done|done|].
  cbn [length app] in *. rewrite (mthen_run _ _ _ _ _ E1). change (with_pipes q (map refreshed (p_pipes q))) with (refreshed_process q) in H1.
  destruct (IH (l1 ++ [q]) g1 (fold_left with_fd (omap live (p_pipes q)) st)) as (g2 & E2 & F2 & H2).
  - rewrite H1, map_app, <- app_assoc. apply lookup_insert_eq.
  - by rewrite <- app_assoc.
  - done.
  - exists g2. rewrite E2, fold_left_app. split; [done|]. split; [by etransitivity|]. rewrite H2, H1, insert_insert_eq, <- app_assoc. done.
Qed.

Lemma add_services_run ss g st :
  NoDup ss -> (forall s, s ∈ ss -> exists a, g_heap g !! s = Some a /\ NoDup (map p_addr (a_processes a))) ->
  let ends := concat (map (fun s => from_option service_ends [] (g_heap g !! s)) ss) in
  Forall in_range ends ->
  exists g', add_services ss st g = Done (fold_left with_fd ends st, g') /\ frozen g g' /\
    forall s, g_heap g' !! s = (if bool_decide (s ∈ ss) then refreshed_service <$> g_heap g !! s else g_heap g !! s).
Proof.
  cbv zeta. revert g st. induction ss as [|s ss IH]; intros g st Hss Hall Hr; cbn [map concat add_services].
  { by exists g. }
  apply NoDup_cons in Hss as [Hs Hss]. destruct (Hall s ltac:(by left)) as (a & Ha & Hnd). cbn [map concat] in Hr. rewrite Ha in Hr |- *. cbn [from_option] in *.
  apply Forall_app in Hr as [Hr1 Hr2]. rewrite (mthen_run _ _ _ _ _ (get_service_run _ _ _ Ha)).
  destruct (add_processes_run (a_processes a) [] g s a st) as (g1 & E1 & F1 & H1); [by rewrite Ha; destruct a|done|done|].
  change (concat (map process_ends (a_processes a))) with (service_ends a) in E1.
  rewrite (mthen_run _ _ _ _ _ E1). cbn [app] in H1. change (with_processes a _) with (refreshed_service a) in H1.
  assert (Hother : forall x, x ∈ ss -> g_heap g1 !! x = g_heap g !! x) by (intros x Hx; rewrite H1; apply lookup_insert_ne; by intros ->).
  assert (Ee : map (fun s => from_option service_ends [] (g_heap g1 !! s)) ss = map (fun s => from_option service_ends [] (g_heap g !! s)) ss)
    by (apply List.map_ext_in; intros x Hx%list_elem_of_In; by rewrite Hother).
  destruct (IH g1 (fold_left with_fd (service_ends a) st)) as (g2 & E2 & F2 & H2); [done|intros x Hx; rewrite Hother by done; apply Hall; by right|by rewrite Ee|].
  exists g2. rewrite E2, Ee, fold_left_app. split; [done|]. split; [by etransitivity|]. intros x. rewrite H2, H1.
  destruct (decide (x = s)) as [->|Hx].
  - rewrite bool_decide_eq_false_2, lookup_insert_eq by done. rewrite bool_decide_eq_true_2 by (by left). by rewrite Ha.
  - rewrite lookup_insert_ne by done. by rewrite (bool_decide_ext (x ∈ s :: ss) (x ∈ ss)) by set_solver.
Qed.

(** The sets after adding the descriptors [l]. *)
Lemma with_fds_spec l st :
  let st' := fold_left with_fd l st in
  fst st' = fst st + Z.of_nat (length l) /\
  (forall fd, fd ∈ readset (snd st') <-> fd ∈ readset (snd st) \/ (fd, false) ∈ l) /\
  (forall fd, fd ∈ writeset (snd st') <-> fd ∈ writeset (snd st) \/ (fd, true) ∈ l) /\
  errset (snd st') = errset (snd st).
Proof.
  cbv zeta. revert st. induction l as [|[fd w] l IH]; intros st; cbn [fold_left length].
  { split; [lia|]. split; [|split; [|done]]; intros fd; split; auto; by intros [?|?%elem_of_nil]. }
  destruct (IH (with_fd st (fd, w))) as (H1 & H2 & H3 & H4). split; [rewrite H1; cbn; lia|].
  split; [|split; [|rewrite H4; by destruct w]]; intros x; rewrite ?H2, ?H3; destruct w; cbn; set_solver.
Qed.

Definition distinct_processes (g : s_global) : Prop :=
  forall s a, s ∈ g_active_db g -> g_heap g !! s = Some a -> NoDup (map p_addr (a_processes a)).

(** C15: what is watched.  When no descriptor is opened or closed meanwhile, the
    first step of initng_io_module_poll adds to the descriptors of the modules
    exactly those of the pipes of all processes that are open and not 0, 1 or 2:
    for reading pipe[0] of output pipes and pipe[1] of two-way pipes, for
    writing pipe[1] of input pipes, and it counts them.  It returns, and all it
    changes is that such ends which were found closed are -1 afterwards.
    (Descriptors have to be below FD_SETSIZE: FD_SET does not check.) *)
Theorem poll_watches_the_live_pipes g added sets :
  wf g -> distinct_processes g -> Forall in_range (live_ends g) ->
  exists g' added' sets', add_services (g_active_db g) (added, sets) g = Done ((added', sets'), g') /\
    added' = added + Z.of_nat (length (live_ends g)) /\
    (forall fd, fd ∈ readset sets' <-> fd ∈ readset sets \/ (fd, false) ∈ live_ends g) /\
    (forall fd, fd ∈ writeset sets' <-> fd ∈ writeset sets \/ (fd, true) ∈ live_ends g) /\
    errset sets' = errset sets /\
    (forall s, g_heap g' !! s = (if bool_decide (s ∈ g_active_db g) then refreshed_service <$> g_heap g !! s else g_heap g !! s)) /\
    g' <| g_heap := g_heap g |> <| g_ticks := g_ticks g |> = g.
Proof.
  intros Hwf Hd Hr.
  assert (El : live_ends g = concat (map (fun s => from_option service_ends [] (g_heap g !! s)) (g_active_db g))).
  { unfold live_ends, active_services. pose proof (wf_alloc g Hwf) as Hs. induction (g_active_db g) as [|s l IH]; cbn; [done|].
    destruct (Hs s ltac:(by left)) as [a ->]. cbn. f_equal. apply IH. intros x Hx. apply Hs. by right. }
  destruct (add_services_run (g_active_db g) g (added, sets)) as (g' & Er & F & H); [apply (wf_nodup g Hwf)| |by rewrite <- El|].
  { intros s Hs. destruct (wf_alloc g Hwf s Hs) as [a Ha]. exists a. split; [done|by apply (Hd s)]. }
  rewrite <- El in Er. destruct (with_fds_spec (live_ends g) (added, sets)) as (H1 & H2 & H3 & H4).
  destruct (fold_left with_fd (live_ends g) (added, sets)) as [added' sets']. by exists g', added', sets'.
Qed.

End watched.
