(* ===== verification/Interrupt.v ===== *)
(** * What drives the services: src/main/interrupt/, src/main/signal/,
    src/main/kill/, src/main/execute/, src/main/handler/run_alarm.c,
    src/main/main/start_extra_services.c and parts of src/main/frontend/main.c *)
From S2P Require Import Prelude Types Data CString Global ActiveDb Depend Io.
From Stdlib Require Import String Ascii.
From stdpp Require Import prelude gmap strings.
Local Open Scope Z_scope.

(** ** include/initng/handler.h: initng_handler_set_alarm *)

Definition initng_handler_set_alarm (service : addr) (seconds : Z) : G unit :=
  let! now := asks g_now in
  let alarm := tv_sec now + seconds in
  upd_service service (fun a => a <| a_alarm := alarm |>) ;;;
  modify (fun g =>
    if (g_next_alarm g =? 0) || (alarm <? g_next_alarm g) then g <| g_next_alarm := alarm |> else g).

(** ** signal/set.c *)

Definition SIGNAL_STACK : nat := 10.
Definition SIGINT : Z := 2.
Definition SIGKILL : Z := 9.
Definition SIGALRM : Z := 14.
Definition SIGCHLD : Z := 17.

Fixpoint set_signal_slots (sig : Z) (slots : list Z) : list Z :=
  match slots with
  | [] => []
  | x :: slots =>
    if x =? sig then x :: slots
    else if x =? -1 then sig :: slots
    else x :: set_signal_slots sig slots
  end.

Definition set_signal (sig : Z) : G unit :=
  modify (fun g => g <| g_signals_got := set_signal_slots sig (g_signals_got g) |>).

(** Lines 81-83 of initng_signal_enable: the slots are cleared; the handlers
    themselves are installed in the kernel. *)
Definition initng_signal_enable : G unit :=
  modify (fun g => g <| g_signals_got := replicate SIGNAL_STACK (-1) |>).

Section drive.
Context `{!Callbacks, !Sys}.

(** ** handler/run_alarm.c *)

Definition run_alarm_body (current : addr) : G (option unit) :=
  let! a := get_service current in
  let! now := asks g_now in
  if a_alarm a =? 0 then mpure None
  else if a_alarm a <=? tv_sec now then
    upd_service current (fun a => a <| a_alarm := 0 |>) ;;;
    (match st_alarm (a_current_state a) with
     | Some f => call_state f current
     | None => mpure tt
     end) ;;;
    mpure None
  else
    modify (fun g =>
      if (a_alarm a <? g_next_alarm g) || (g_next_alarm g =? 0)
      then g <| g_next_alarm := a_alarm a |> else g) ;;;
    mpure None.

Definition initng_handler_run_alarm (fuel : nat) : G unit :=
  modify (fun g => g <| g_next_alarm := 0 |>) ;;;
  let! first := first_active in
  while_active_db_safe fuel first run_alarm_body ;;;
  mpure tt.

(** ** interrupt/handle.c

    dep_failed_to_start has an empty body; check_sys_state_up is in file
    ActiveDb. *)

Definition run_init (service : addr) : G unit :=
  let! a := get_service service in
  match st_init (a_current_state a) with
  | Some f => call_state f service
  | None => mpure tt
  end.

(** Lines 66-84: the rough state has changed. *)
Definition handle_is_change (fuel : nat) (service : addr) : G unit :=
  let! a := get_service service in
  match GET_STATE a with
  | IS_FAILED | IS_UP => check_sys_state_up
  | IS_DOWN =>
    if restarting a then initng_handler_restart_restarting fuel else mpure tt
  | _ => mpure tt
  end.

Definition handle (fuel : nat) (service : addr) : G unit :=
  let! a := get_service service in
  let state := a_current_state a in
  initng_common_state_lock service ;;;
  let! event := initng_event_send (new_event EVENT_STATE_CHANGE (ED_service service)) in
  let! changed := initng_common_state_unlock service in
  if c_true changed then mpure tt
  else
    let! a := get_service service in
    if negb (bool_decide (a_last_rought_state a = st_is state)) then
      initng_common_state_lock service ;;;
      initng_event_send (Event EVENT_IS_CHANGE (ev_data event) (ev_ret event) (ev_status event)) ;;;
      let! changed := initng_common_state_unlock service in
      if c_true changed then mpure tt
      else
        handle_is_change fuel service ;;;
        run_init service
    else run_init service.

(** ** interrupt/run_handlers.c *)

Definition run_interrupt_handlers (fuel : nat) : G unit :=
  let! first := first_active in
  while_active_db_safe (R := unit) fuel first (fun current =>
    let! a := get_service current in
    (match st_interrupt (a_current_state a) with
     | Some f => call_state f current
     | None => mpure tt
     end) ;;;
    mpure None) ;;;
  mpure tt.

(** ** interrupt/interrupt.c *)

Definition interrupt_del (s : addr) (g : s_global) : s_global :=
  g <| g_interrupt := List.filter (fun x => negb (Pos.eqb x s)) (g_interrupt g) |>.

(** while_active_db_interrupt_safe: the link is followed before the entry is
    taken from the list. *)
Fixpoint interrupt_loop (fuel : nat) (service : option addr) (interrupt : Z) : G Z :=
  match service with
  | None => mpure interrupt
  | Some s =>
    match fuel with
    | O => nofuel
    | S fuel =>
      let! next := deref (fun g => next_of s (g_interrupt g)) in
      modify (interrupt_del s) ;;;
      handle fuel s ;;;
      interrupt_loop fuel next TRUE
    end
  end.

Definition initng_interrupt (fuel : nat) : G Z :=
  let! first := asks (fun g => head (g_interrupt g)) in
  let! interrupt := interrupt_loop fuel first FALSE in
  (if c_true interrupt then run_interrupt_handlers fuel else mpure tt) ;;;
  mpure interrupt.

(** ** execute/launch.c *)

Definition initng_execute_launch (service : addr) (type : ptype_h) (exec_name : option string) : G Z :=
  let! a := get_service service in
  match initng_process_db_get type a with
  | Some _ => mpure FALSE
  | None =>
    let! p := new_addr in
    let! a := get_service service in
    modify (put_service service
      (a <| a_processes := a_processes a ++ [initng_process_db_new p type] |>)) ;;;
    let exec_name := default (pty_name type) exec_name in
    let! event := initng_event_send (new_event EVENT_LAUNCH (ED_launch service p exec_name)) in
    if decide (ev_status event = HANDLED) then mpure TRUE
    else
      upd_service service (mark_process_free p) ;;;
      mpure FALSE
  end.

(** ** kill/handler.c *)

Definition is_out_pipe (pi : pipe_h) : bool :=
  bool_decide (pi_dir pi = OUT_PIPE) || bool_decide (pi_dir pi = BUFFERED_OUT_PIPE).
Definition is_in_pipe (pi : pipe_h) : bool :=
  bool_decide (pi_dir pi = IN_PIPE) || bool_decide (pi_dir pi = IN_AND_OUT_PIPE).

(** Lines 68-86: read what is left and close. *)
Definition close_pipe (fuel : nat) (s p : addr) (k : nat) : G unit :=
  let! pi := get_pipe s p k in
  if is_out_pipe pi && (0 <? pipe0 pi) then
    initng_io_process_read_input fuel s p k ;;;
    let! pi := get_pipe s p k in
    put_pipe s p k (pi <| pipe0 := -1 |>)
  else if is_in_pipe pi && (0 <? pipe1 pi) then put_pipe s p k (pi <| pipe1 := -1 |>)
  else mpure tt.

Fixpoint close_pipes (fuel : nat) (s p : addr) (ks : list nat) : G unit :=
  match ks with
  | [] => mpure tt
  | k :: ks => close_pipe fuel s p k ;;; close_pipes fuel s p ks
  end.

Definition initng_kill_handler_killed_by_pid (fuel : nat) (kpid r_code : Z) : G unit :=
  if kpid <=? 1 then mpure tt
  else
    let! service := asks (initng_active_db_find_by_pid kpid) in
    match service with
    | None => mpure tt
    | Some service =>
      let! a := get_service service in
      match initng_process_db_get_by_pid kpid a with
      | None => mpure tt
      | Some process =>
        let p := p_addr process in
        upd_process service p (fun q => q <| p_r_code := r_code |>) ;;;
        close_pipes fuel service p (seq 0 (length (p_pipes process))) ;;;
        let! handled := initng_module_callers_handle_killed service p in
        if c_true handled then mpure tt
        else
          let! q := get_process service p in
          match pty_kill_handler (p_pt q) with
          | Some f => call_kill f service p
          | None => upd_service service (mark_process_free p)
          end
      end
    end.

(** ** signal/handlers.c

    [EINTR] makes waitpid try again at once. *)
Definition EINTR : Z := 4.

Fixpoint initng_signal_handle_sigchild (fuel : nat) : G unit :=
  match fuel with
  | O => nofuel
  | S fuel =>
    let! w := syscall sys_waitpid in
    match w with
    | Wait_error e => if e =? EINTR then initng_signal_handle_sigchild fuel else mpure tt
    | Wait_none => mpure tt
    | Wait_pid killed status =>
      initng_kill_handler_killed_by_pid fuel killed status ;;;
      initng_signal_handle_sigchild fuel
    end
  end.

(** ** signal/dispatch.c *)

Definition dispatch_slot (fuel : nat) (i : nat) : G unit :=
  let! slots := asks g_signals_got in
  match slots !! i with
  | None => fault
  | Some sig =>
    if sig =? -1 then mpure tt
    else
      modify (fun g => g <| g_signals_got := <[i := -1]> (g_signals_got g) |>) ;;;
      initng_module_callers_signal sig ;;;
      if sig =? SIGCHLD then initng_signal_handle_sigchild fuel
      else if sig =? SIGALRM then initng_handler_run_alarm fuel
      else mpure tt
  end.

Fixpoint dispatch_from (fuel : nat) (slots : list nat) : G unit :=
  match slots with
  | [] => mpure tt
  | i :: slots => dispatch_slot fuel i ;;; dispatch_from fuel slots
  end.

Definition initng_signal_dispatch (fuel : nat) : G unit := dispatch_from fuel (seq 0 SIGNAL_STACK).

(** ** main/start_extra_services.c *)

Definition plus_name (arg : string) : option string :=
  match arg with
  | String "+"%char name => Some name
  | _ => None
  end.

Fixpoint start_plus_services (fuel : nat) (argv : list string) : G unit :=
  match argv with
  | [] => mpure tt
  | p :: argv =>
    (match plus_name p with
     | Some name => initng_handler_start_new_service_named fuel name ;;; mpure tt
     | None => mpure tt
     end) ;;;
    start_plus_services fuel argv
  end.

Definition initng_main_start_extra_services (fuel : nat) : G unit :=
  initng_main_set_sys_state STATE_STARTING ;;;
  let! argv := asks g_Argv in
  start_plus_services fuel argv.

(** ** frontend/main.c: the parts of the main loop around the calls *)

(** Lines 131-151: read the clock and compensate a jump of an hour or a step
    back; the result is the new [last]. *)
Definition main_update_clock (last : timeval) : G timeval :=
  let! clock := asks g_clock in
  modify (fun g => g <| g_now := clock |>) ;;;
  let skew := tv_sec clock - tv_sec last in
  (if (3600 <=? skew) || (skew <? 0) then
     initng_active_db_compensate_time skew ;;;
     initng_module_callers_compensate_time skew
   else mpure tt) ;;;
  mpure clock.

(** Lines 161-162. *)
Definition main_alarm (fuel : nat) : G unit :=
  let! next := asks g_next_alarm in
  let! now := asks g_now in
  if c_true next && (next <=? tv_sec now) then initng_handler_run_alarm fuel else mpure tt.

(** Lines 212-240: how long the loop may sleep; [None] is not at all. *)
Definition TIMEOUT : Z := 60000.
Definition closest_timeout (sleep_seconds next_alarm now interrupt : Z) : option Z :=
  let closest := TIMEOUT in
  let closest := if c_true sleep_seconds && (sleep_seconds <? closest) then sleep_seconds else closest in
  let closest :=
    if c_true next_alarm && (now <? next_alarm) then
      let time_to_next := next_alarm - now in
      if time_to_next <? closest then time_to_next else closest
    else closest in
  if (0 <? closest) && (interrupt =? FALSE) then Some closest else None.

End drive.

(** ** Alarms *)

(** Every alarm of the database is covered by [g.next_alarm]. *)
Definition covered_by (next : Z) (a : active_db_h) : Prop :=
  a_alarm a <> 0 -> next <> 0 /\ next <= a_alarm a.

Definition covered (g : s_global) : Prop :=
  forall s a, s ∈ g_active_db g -> g_heap g !! s = Some a -> covered_by (g_next_alarm g) a.

(** What the code called from the alarm loop may do to alarms: keep them, clear
    them, or set one that [g.next_alarm] then covers; [g.next_alarm] only moves
    closer. *)
Definition alarm_step (g g' : s_global) : Prop :=
  g_active_db g' = g_active_db g /\
  (g_next_alarm g <> 0 -> g_next_alarm g' <> 0 /\ g_next_alarm g' <= g_next_alarm g) /\
  forall s, match g_heap g !! s, g_heap g' !! s with
            | Some a, Some b => a_alarm b = a_alarm a \/ covered_by (g_next_alarm g') b
            | None, None => True
            | _, _ => False
            end.

Lemma covered_by_closer n n' a :
  (n <> 0 -> n' <> 0 /\ n' <= n) -> covered_by n a -> covered_by n' a.
Proof. intros Hn Hc Ha. destruct (Hc Ha) as [H1 H2]. destruct (Hn H1). lia. Qed.

Lemma covered_by_alarm n a b : a_alarm b = a_alarm a -> covered_by n a -> covered_by n b.
Proof. unfold covered_by. by intros ->. Qed.

#[export] Instance alarm_step_preorder : PreOrder alarm_step.
Proof.
  split.
  - intros g. split; [done|]. split; [lia|]. intros s. destruct (g_heap g !! s); [by left|done].
  - intros g1 g2 g3 (A1 & A2 & A3) (B1 & B2 & B3). split; [congruence|]. split; [lia|]. intros s.
    specialize (A3 s). specialize (B3 s).
    destruct (g_heap g1 !! s) as [a|], (g_heap g2 !! s) as [b|], (g_heap g3 !! s) as [c|]; try done.
    destruct B3 as [B3|B3]; [|by right]. destruct A3 as [A3|A3]; [left; congruence|right].
    eapply covered_by_alarm; [exact B3|]. by eapply covered_by_closer.
Qed.

(** Alarms after a mark: untouched, or cleared. *)
Lemma mark_alarm_step s st g r g' :
  initng_common_mark_service s st g = Done (r, g') -> alarm_step g g'.
Proof.
  intros E. destruct (g_heap g !! s) as [a|] eqn:Ha;
    [|unfold initng_common_mark_service, mthen, get_service, deref in E; by rewrite Ha in E].
  rewrite (mark_service_run _ _ _ _ Ha) in E. unfold mark_result in E.
  assert (Hput : forall b, a_alarm b = a_alarm a \/ a_alarm b = 0 -> alarm_step g (put_service s b g)).
  { intros b Hb. split; [done|]. split; [cbn; lia|]. intros x. destruct (decide (s = x)) as [<-|Hx].
    - rewrite Ha, put_service_lookup. destruct Hb as [Hb|Hb]; [by left|right]. by intros ?.
    - rewrite put_service_lookup_ne by done. destruct (g_heap g !! x); [by left|done]. }
  assert (Hint : forall g1, alarm_step g g1 -> alarm_step g (interrupt_add s g1)).
  { intros g1 H1. unfold interrupt_add. destruct (decide (s ∈ g_interrupt g1)); exact H1. }
  destruct (_ && _); [simplify_eq; reflexivity|]. case_decide; [simplify_eq; apply Hput; by left|].
  destruct (c_true _); simplify_eq; [apply Hput; by left|]. apply Hint, Hput. right.
  unfold apply_next_state. cbv zeta. by case_decide.
Qed.

Lemma set_alarm_alarm_step s n g g' :
  0 < tv_sec (g_now g) + n -> 0 <= g_next_alarm g ->
  initng_handler_set_alarm s n g = Done (tt, g') -> alarm_step g g'.
Proof.
  intros Hpos Hnn E. unfold initng_handler_set_alarm in E.
  rewrite (mthen_run _ _ g _ g eq_refl) in E. cbv zeta in E.
  destruct (g_heap g !! s) as [a|] eqn:Ha;
    [|unfold upd_service, mthen, get_service, deref in E; by rewrite Ha in E].
  rewrite (mthen_run _ _ _ _ _ (upd_service_run _ _ _ _ Ha)) in E. injection E as <-.
  change (g_next_alarm (put_service s _ g)) with (g_next_alarm g).
  set (n' := tv_sec (g_now g) + n) in *.
  assert (Hgo : forall next, (g_next_alarm g <> 0 -> next <> 0 /\ next <= g_next_alarm g) ->
    next <> 0 -> next <= n' -> forall g1, g_active_db g1 = g_active_db g -> g_next_alarm g1 = next ->
    g_heap g1 = g_heap (put_service s (a <| a_alarm := n' |>) g) -> alarm_step g g1).
  { intros next H1 H2 H3 g1 D1 D2 D3. split; [done|]. rewrite D2. split; [done|]. intros x. rewrite D3.
    destruct (decide (s = x)) as [<-|Hx].
    - rewrite Ha, put_service_lookup. right. intros _. cbn. lia.
    - rewrite put_service_lookup_ne by done. destruct (g_heap g !! x); [by left|done]. }
  destruct (Z.eqb_spec (g_next_alarm g) 0), (Z.ltb_spec n' (g_next_alarm g)); cbn [orb];
    (eapply Hgo; [| | |done|reflexivity|done]); cbn; lia.
Qed.

(** The interface of the alarm functions of the states [T]. *)
Class AlarmFunctions `{!Callbacks} (T : a_state_h -> Prop) := alarm_function_steps :
  forall st f s a g, T st -> st_alarm st = Some f -> g_heap g !! s = Some a ->
    exists g', call_state f s g = Done (tt, g') /\ alarm_step g g' /\
      forall x b, g_heap g' !! x = Some b ->
        T (a_current_state b) \/ exists c, g_heap g !! x = Some c /\ a_current_state b = a_current_state c.

Section alarms.
Context `{!Callbacks, !Sys} (T : a_state_h -> Prop) `{!AlarmFunctions T}.

Definition states_in (g : s_global) : Prop := forall s a, g_heap g !! s = Some a -> T (a_current_state a).

(** One round: the service itself is covered afterwards, and the others as they
    were. *)
Lemma run_alarm_body_run g s a :
  states_in g -> g_heap g !! s = Some a ->
  exists g' b, run_alarm_body s g = Done (None, g') /\ alarm_step g g' /\ states_in g' /\
    g_heap g' !! s = Some b /\ covered_by (g_next_alarm g') b.
Proof.
  intros HT Ha. unfold run_alarm_body. rewrite (mthen_run _ _ _ _ _ (get_service_run _ _ _ Ha)).
  rewrite (mthen_run _ _ g _ g eq_refl). destruct (Z.eqb_spec (a_alarm a) 0) as [E0|E0].
  { exists g, a. split; [done|]. split; [reflexivity|]. split; [done|]. split; [done|]. by intros ?. }
  destruct (Z.leb_spec (a_alarm a) (tv_sec (g_now g))) as [Hgone|Hlater].
  - rewrite (mthen_run _ _ _ _ _ (upd_service_run _ _ _ _ Ha)).
    set (a1 := a <| a_alarm := 0 |>). set (g1 := put_service s a1 g).
    assert (H1 : alarm_step g g1).
    { split; [done|]. split; [cbn; lia|]. intros x. unfold g1. destruct (decide (s = x)) as [<-|Hx].
      - rewrite Ha, put_service_lookup. right. by intros ?.
      - rewrite put_service_lookup_ne by done. destruct (g_heap g !! x); [by left|done]. }
    assert (HT1 : states_in g1).
    { intros x b. unfold g1. cbn. rewrite lookup_insert. case_decide; [intros [= <-]; exact (HT s a Ha)|apply HT]. }
    assert (Hs1 : g_heap g1 !! s = Some a1) by apply put_service_lookup.
    destruct (st_alarm (a_current_state a)) as [f|] eqn:Ef.
    + destruct (alarm_function_steps (a_current_state a) f s a1 g1) as (g2 & E2 & S2 & N2); [exact (HT s a Ha)|done|done|].
      rewrite (mthen_run _ _ _ _ _ E2). pose proof S2 as (_ & _ & S3). specialize (S3 s). rewrite Hs1 in S3.
      destruct (g_heap g2 !! s) as [b|] eqn:Hb; [|done]. exists g2, b. split; [done|].
      split; [by etransitivity|]. split; [|split; [done|]].
      * intros x c Hc. destruct (N2 x c Hc) as [|(d & Hd & ->)]; [done|by apply (HT1 x)].
      * destruct S3 as [S3|S3]; [|done]. intros Hne. by rewrite S3 in Hne.
    + rewrite (mthen_run _ _ g1 tt g1 eq_refl). exists g1, a1. split; [done|]. split; [done|].
      split; [done|]. split; [done|]. by intros ?.
  - erewrite mthen_run by reflexivity.
    assert (Hgo : forall g1, g_active_db g1 = g_active_db g -> g_heap g1 = g_heap g ->
      (g_next_alarm g <> 0 -> g_next_alarm g1 <> 0 /\ g_next_alarm g1 <= g_next_alarm g) ->
      g_next_alarm g1 <> 0 -> g_next_alarm g1 <= a_alarm a ->
      exists g' b, mpure (@None unit) g1 = Done (None, g') /\ alarm_step g g' /\ states_in g' /\
        g_heap g' !! s = Some b /\ covered_by (g_next_alarm g') b).
    { intros g1 D1 D2 D3 D4 D5. exists g1, a. split; [done|]. unfold states_in. rewrite D2.
      split; [|split; [done|split; [done|by intros _]]]. split; [done|]. split; [done|]. intros x. rewrite D2.
      destruct (g_heap g !! x); [by left|done]. }
    destruct (Z.ltb_spec (a_alarm a) (g_next_alarm g)), (Z.eqb_spec (g_next_alarm g) 0); cbn [orb];
      apply Hgo; cbn; try done; try lia.
Qed.

Lemma run_alarm_rounds fuel g l1 l2 :
  wf g -> states_in g -> g_active_db g = l1 ++ l2 -> (length l2 <= fuel)%nat ->
  (forall s a, s ∈ l1 -> g_heap g !! s = Some a -> covered_by (g_next_alarm g) a) ->
  exists g', while_active_db_safe fuel (head l2) run_alarm_body g = Done (None, g') /\
    alarm_step g g' /\ covered g'.
Proof.
  intros Hwf. assert (Hnd := wf_nodup g Hwf).
  assert (Hall : forall s, s ∈ g_active_db g -> is_Some (g_heap g !! s)) by apply (wf_alloc g Hwf). clear Hwf.
  revert g l1 l2 Hnd Hall. induction fuel as [|fuel IH]; intros g l1 [|x l2] Hnd Hall HT Hdb Hf Hcov;
    cbn [head while_active_db_safe]; try (exists g; split; [done|split; [done|]];
      intros s a; rewrite Hdb, app_nil_r; apply Hcov); [cbn in Hf; lia|].
  destruct (Hall x) as [a Ha]; [rewrite Hdb; set_solver|].
  rewrite (mthen_run _ _ g (head l2) g) by (unfold deref; rewrite Hdb, next_of_mid; [done|by rewrite <- Hdb]).
  destruct (run_alarm_body_run g x a HT Ha) as (g1 & b & E & S1 & HT1 & Hb & Hc).
  pose proof S1 as (D1 & D2 & D3).
  destruct (IH g1 (l1 ++ [x]) l2) as (g' & E' & S' & C').
  - by rewrite D1.
  - intros s Hs. rewrite D1 in Hs. destruct (Hall s Hs) as [c Hc']. specialize (D3 s). rewrite Hc' in D3.
    destruct (g_heap g1 !! s); [by eexists|done].
  - done.
  - by rewrite D1, Hdb, <- app_assoc.
  - cbn in Hf. lia.
  - intros s c [Hs|Hs%list_elem_of_singleton]%elem_of_app Hsc; [|by simplify_eq].
    specialize (D3 s). rewrite Hsc in D3. destruct (g_heap g !! s) as [c0|] eqn:Hc0; [|done].
    destruct D3 as [D3|D3]; [|done]. eapply covered_by_alarm; [exact D3|].
    eapply covered_by_closer; [exact D2|]. by apply (Hcov s).
  - exists g'. rewrite (mthen_run _ _ _ _ _ E). split; [done|]. split; [by etransitivity|done].
Qed.

(** C13: no alarm is forgotten.  Whatever the alarm functions of the states do
    within their interface, [initng_handler_run_alarm] returns, and afterwards
    [g.next_alarm] is set and not later than any alarm of the database.  The
    main loop therefore sleeps at most until the first of them. *)
Theorem run_alarm_covers_all_alarms fuel g :
  wf g -> states_in g -> (length (g_active_db g) <= fuel)%nat ->
  exists g', initng_handler_run_alarm fuel g = Done (tt, g') /\ covered g' /\
    forall s a now sleep n, s ∈ g_active_db g' -> g_heap g' !! s = Some a -> a_alarm a <> 0 ->
      now < g_next_alarm g' -> closest_timeout sleep (g_next_alarm g') now FALSE = Some n -> now + n <= a_alarm a.
Proof.
  intros Hwf HT Hf. unfold initng_handler_run_alarm. set (g1 := g <| g_next_alarm := 0 |>).
  rewrite (mthen_run (modify (fun g => g <| g_next_alarm := 0 |>)) _ g tt g1) by done. unfold first_active. rewrite (mthen_run _ _ g1 _ g1 eq_refl).
  destruct (run_alarm_rounds fuel g1 [] (g_active_db g)) as (g' & E & S & C); try done.
  { destruct Hwf as [H1 H2 H3 H4 H5 H6 H7]. by split. }
  { set_solver. }
  exists g'. split; [change (head (g_active_db g1)) with (head (g_active_db g)); by rewrite (mthen_run _ _ _ _ _ E)|].
  split; [done|]. intros s a now sleep n Hs Ha Hal Hnow Hct. destruct (C s a Hs Ha Hal) as [H1 H2].
  unfold closest_timeout in Hct. cbv zeta in Hct.
  rewrite (proj2 (c_true_spec _) H1), (proj2 (Z.ltb_lt _ _) Hnow) in Hct. cbn [andb] in Hct.
  set (m := if _ && _ then sleep else TIMEOUT) in Hct.
  destruct (Z.ltb_spec (g_next_alarm g' - now) m); destruct (0 <? _); cbn in Hct; simplify_eq; lia.
Qed.

End alarms.

(** A step of the clock back can leave alarms uncovered: the compensation
    moves the alarms of the services but not [g.next_alarm], so the service
    whose alarm was next is now due before [g.next_alarm]. *)
Theorem compensate_backwards_uncovers g skew s a :
  wf g -> s ∈ g_active_db g -> g_heap g !! s = Some a ->
  a_alarm a = g_next_alarm g -> skew < 0 -> a_alarm a + skew <> 0 ->
  exists g', initng_active_db_compensate_time skew g = Done (tt, g') /\ ~ covered g'.
Proof.
  intros Hwf Hs Ha Hnext Hskew Hnz.
  destruct (compensate_rounds skew (g_active_db g) g (wf_nodup g Hwf) (wf_alloc g Hwf))
    as (g' & E & Hdb & Hin & _).
  assert (Hsame : g_next_alarm g' = g_next_alarm g).
  { assert (P : PreOrder (fun g g' : s_global => g_next_alarm g' = g_next_alarm g))
      by (split; [done|]; intros ? ? ? E1 E2; congruence).
    refine (steps_for_each (fun g g' : s_global => g_next_alarm g' = g_next_alarm g) _ _ _ _ _ _ E). intros x g1 r g2 E1.
    unfold upd_service, mthen, get_service, deref in E1.
    destruct (g_heap g1 !! x); [|done]. by injection E1 as _ <-. }
  exists g'. split.
  - unfold initng_active_db_compensate_time. rewrite (mthen_run _ _ g _ g eq_refl). by erewrite mthen_run by exact E.
  - intros C. destruct (C s (compensate_active skew a)) as [_ Hle]; [by rewrite Hdb|by apply Hin|done|].
    cbn in Hle. lia.
Qed.

Section handle_facts.
Context `{!Callbacks, !Sys}.

(** An interrupt that is overtaken is abandoned.  When the hooks of
    EVENT_STATE_CHANGE mark the service with a new state [st] while its state
    is locked, [handle] applies that state and returns: neither the rough state
    nor the init function of the state it was called for is looked at, and the
    service is queued again for the new state. *)
Theorem handle_abandons_overtaken_state fuel g s a e g2 b st :
  g_heap g !! s = Some a -> a_state_lock a = 0 ->
  initng_event_send (new_event EVENT_STATE_CHANGE (ED_service s))
    (put_service s (a <| a_state_lock := 1 |>) g) = Done (e, g2) ->
  g_heap g2 !! s = Some b -> a_state_lock b = 1 -> a_next_state b = Some st ->
  exists g' c, handle fuel s g = Done (tt, g') /\ g_heap g' !! s = Some c /\ s ∈ g_interrupt g' /\
    a_current_state c = st /\ a_last_state c = Some (a_current_state b) /\ a_next_state c = None /\
    a_state_lock c = 0 /\ a_alarm c = 0.
Proof.
  intros Ha Hl Hsend Hb Hlb Hnb. unfold handle.
  rewrite (mthen_run _ _ _ _ _ (get_service_run _ _ _ Ha)). cbv zeta.
  assert (Hlock : initng_common_state_lock s g = Done (tt, put_service s (a <| a_state_lock := 1 |>) g)).
  { unfold initng_common_state_lock. by rewrite (upd_service_run _ _ _ _ Ha), Hl. }
  rewrite (mthen_run _ _ _ _ _ Hlock), (mthen_run _ _ _ _ _ Hsend).
  erewrite mthen_run by (rewrite (state_unlock_run _ _ _ Hb); cbv zeta; rewrite Hlb; cbn; rewrite Hnb; reflexivity).
  cbn [c_true negb Z.eqb TRUE]. eexists _, _. split; [reflexivity|].
  split; [|split].
  - unfold interrupt_add. case_decide; apply put_service_lookup.
  - unfold interrupt_add. case_decide; [done|]. cbn. set_solver.
  - unfold apply_next_state. cbv zeta. case_decide; repeat split; cbn; lia.
Qed.

(** An undisturbed interrupt runs the init function of the current state
    once.  When nobody listens to the change and the rough state is the same,
    [handle] is that call, on the unchanged state. *)
Theorem handle_runs_init_once fuel g s a :
  g_heap g !! s = Some a -> a_state_lock a = 0 -> a_next_state a = None ->
  g_hooks g EVENT_STATE_CHANGE = [] -> a_last_rought_state a = GET_STATE a ->
  handle fuel s g =
  match st_init (a_current_state a) with
  | Some f => call_state f s g
  | None => Done (tt, g)
  end.
Proof.
  intros Ha Hl Hn Hh Hr. unfold handle.
  rewrite (mthen_run _ _ _ _ _ (get_service_run _ _ _ Ha)). cbv zeta.
  set (a1 := a <| a_state_lock := 1 |>). set (g1 := put_service s a1 g).
  assert (Hlock : initng_common_state_lock s g = Done (tt, g1)).
  { unfold initng_common_state_lock. by rewrite (upd_service_run _ _ _ _ Ha), Hl. }
  rewrite (mthen_run _ _ _ _ _ Hlock).
  rewrite (mthen_run _ _ _ _ _ (send_no_hooks g1 (new_event EVENT_STATE_CHANGE _) Hh)).
  assert (Hback : initng_common_state_unlock s g1 = Done (FALSE, g)).
  { rewrite (state_unlock_run g1 s a1 (put_service_lookup _ _ _)). cbn. rewrite Hn. do 2 f_equal.
    unfold g1. rewrite put_put_service. apply put_service_self. rewrite Ha. f_equal. destruct a. cbn in *. by subst. }
  rewrite (mthen_run _ _ _ _ _ Hback). cbn [c_true negb Z.eqb FALSE].
  rewrite (mthen_run _ _ _ _ _ (get_service_run _ _ _ Ha)). rewrite bool_decide_eq_true_2 by done. cbn [negb].
  unfold run_init. rewrite (mthen_run _ _ _ _ _ (get_service_run _ _ _ Ha)). by destruct (st_init _).
Qed.

(** A launch reports TRUE or FALSE, never FAIL: a launcher that failed and a
    missing launcher look the same to the caller, and in both cases the new
    process is marked free. *)
Theorem launch_never_fails g s type name r g' :
  initng_execute_launch s type name g = Done (r, g') -> r = TRUE \/ r = FALSE.
Proof.
  unfold initng_execute_launch. intros E. apply mthen_Done in E as (a & g1 & _ & E).
  destruct (initng_process_db_get type a); [injection E as <- _; by right|].
  repeat (apply mthen_Done in E as (? & ? & _ & E)). cbv zeta in E.
  repeat (apply mthen_Done in E as (? & ? & _ & E)). case_decide; [injection E as <- _; by left|].
  apply mthen_Done in E as (? & ? & _ & E). injection E as <- _. by right.
Qed.

(** A killed process can be lost.  The search for the service of a pid does
    not mind whether a process was freed, the search for the process does: when
    the first service with that pid only has it on a freed process, the death
    is ignored, whatever other service really runs the pid. *)
Theorem freed_process_swallows_kill fuel g kpid r_code s a :
  initng_active_db_find_by_pid kpid g = Some s -> g_heap g !! s = Some a ->
  Forall (fun p => p_pid p = kpid -> p_pst p = P_FREE) (a_processes a) ->
  initng_kill_handler_killed_by_pid fuel kpid r_code g = Done (tt, g).
Proof.
  intros Hf Ha Hall. unfold initng_kill_handler_killed_by_pid. destruct (kpid <=? 1); [done|].
  rewrite (mthen_run _ _ g _ g eq_refl), Hf. rewrite (mthen_run _ _ _ _ _ (get_service_run _ _ _ Ha)).
  destruct (initng_process_db_get_by_pid kpid a) as [p|] eqn:E; [|done]. exfalso.
  unfold initng_process_db_get_by_pid in E. apply List.find_some in E as [Hin Hp].
  apply andb_prop in Hp as [Hact Hpid]. apply Z.eqb_eq in Hpid.
  rewrite Forall_forall in Hall. specialize (Hall p (proj2 (list_elem_of_In _ _) Hin) Hpid).
  unfold active_process in Hact. rewrite Hall in Hact. done.
Qed.

End handle_facts.
