(* ===== verification/Launch.v ===== *)
(** * Forking and launching

    src/main/fork/fork.c and aforkhooks.c, src/main/env/new.c, and the module
    src/modules/simple_launcher/initng_simple_launcher.c.  fork returns twice: the
    child goes on with a copy of the state, from which only how it leaves the
    code of initng ([child_end]) is kept, in [g_children]; the parent goes on
    with the state itself. *)
From S2P Require Import Prelude Types Data CString Global ActiveDb Depend Io Interrupt.
From Stdlib Require Import String Ascii.
From stdpp Require Import prelude gmap strings pretty.
Local Open Scope Z_scope.

(** ** The kernel and the build *)

(** pipe(2) and socketpair(2) give two descriptors; fork(2) a pid to the parent
    and a copy of its descriptors to the child; stat(2) the mode of a file.
    [None] is a failure.  [env_PATH] is getenv("PATH") of initng. *)
Class ForkSys := {
  sys_pipe : nat -> option (Z * Z);
  sys_socketpair : nat -> option (Z * Z);
  sys_fork : nat -> option (Z * fds);
  sys_stat : nat -> string -> option Z;
  env_PATH : option string
}.

(** The strings of initng_environ, the pid of initng, and the console and the
    directory of the services that the build sets. *)
Class Build := {
  initng_environ : list string;
  initng_pid : Z;
  INITNG_CONSOLE : string;
  INITNG_ROOT : string
}.

(** ** fork.c: the pipes *)

Fixpoint map_pipes (f : pipe_h -> G pipe_h) (l : list pipe_h) : G (list pipe_h) :=
  match l with
  | [] => mpure []
  | pi :: l =>
    let! pi := f pi in
    let! l := map_pipes f l in
    mpure (pi :: l)
  end.

(** A call that fails leaves [pipe->pipe] as it was. *)
Definition pipe_create `{!ForkSys} (current_pipe : pipe_h) : G pipe_h :=
  let! r := syscall (if decide (pi_dir current_pipe = IN_AND_OUT_PIPE) then sys_socketpair else sys_pipe) in
  mpure (match r with
         | Some (fd0, fd1) => current_pipe <| pipe0 := fd0 |> <| pipe1 := fd1 |>
         | None => current_pipe
         end).

Definition pipes_create `{!ForkSys} (s p : addr) : G unit :=
  let! q := get_process s p in
  let! pipes := map_pipes pipe_create (p_pipes q) in
  upd_process s p (fun q => q <| p_pipes := pipes |>).

Definition close_remote_side (pi : pipe_h) : pipe_h :=
  match pi_dir pi with
  | OUT_PIPE | BUFFERED_OUT_PIPE => pi <| pipe1 := -1 |>
  | IN_PIPE | IN_AND_OUT_PIPE => pi <| pipe0 := -1 |>
  | UNKNOWN_PIPE => pi
  end.

Definition pipes_close_remote_side (q : process_h) : process_h :=
  q <| p_pipes := map close_remote_side (p_pipes q) |>.

(** close, dup2 (which fails for a descriptor that is not open) and
    fcntl(fd, F_SETFD, 0) on the descriptors of a process *)
Definition fd_close (fd : Z) (t : fds) : fds := delete fd t.
Definition fd_dup2 (fd target : Z) (t : fds) : fds :=
  match t !! fd with Some f => <[target := Fd (fd_file f) false]> t | None => t end.
Definition fd_keep (fd : Z) (t : fds) : fds :=
  match t !! fd with Some f => <[fd := Fd (fd_file f) false]> t | None => t end.

(** The end of the pipe that the child uses. *)
Definition child_side (pi : pipe_h) : option Z :=
  match pi_dir pi with
  | OUT_PIPE | BUFFERED_OUT_PIPE => Some (pipe1 pi)
  | IN_PIPE | IN_AND_OUT_PIPE => Some (pipe0 pi)
  | UNKNOWN_PIPE => None
  end.

Definition setup_target (pi : pipe_h) (t : fds) (target : Z) : fds :=
  let t := fd_close target t in
  let t := match child_side pi with Some fd => fd_dup2 fd target t | None => t end in
  fd_keep target t.

(** The targets of a pipe end at the first that is not positive. *)
Fixpoint live_targets (l : list Z) : list Z :=
  match l with
  | [] => []
  | x :: l => if 0 <? x then x :: live_targets l else []
  end.
Definition targets (pi : pipe_h) : list Z := live_targets (take MAX_TARGETS (pi_targets pi)).

Definition setup_pipe (t : fds) (pi : pipe_h) : fds := fold_left (setup_target pi) (targets pi) t.

Definition pipes_setup_local_side (q : process_h) (t : fds) : fds := fold_left setup_pipe (p_pipes q) t.

(** execve closes what is marked so. *)
Definition after_execve (t : fds) : fds := filter (fun x => fd_cloexec (snd x) = false) t.

(** ** fork.c: initng_fork *)

(** The code of the child, on a copy of the state. *)
Definition in_child (m : G child_end) : G child_end := fun g =>
  match m g with
  | Done (e, _) => Done (e, g)
  | NoFuel => NoFuel
  | Fault => Done (Crash, g)
  end.

(** fork is tried again while try_count, from 0, is at most 30. *)
Fixpoint fork_loop `{!ForkSys} (tries : nat) : G (option (Z * fds)) :=
  let! r := syscall sys_fork in
  match r, tries with
  | Some r, _ => mpure (Some r)
  | None, O => mpure None
  | None, S tries => fork_loop tries
  end.

(** [child] is what the caller does when initng_fork returns 0. *)
Definition initng_fork `{!ForkSys} (service process : addr) (child : fds -> G child_end) : G Z :=
  pipes_create service process ;;;
  let! r := fork_loop 31 in
  match r with
  | None => mpure (-1)
  | Some (pid_fork, files) =>
    let! e := in_child (let! q := get_process service process in child (pipes_setup_local_side q files)) in
    modify (fun g => g <| g_children := g_children g ++ [e] |>) ;;;
    upd_process service process (fun q =>
      let q := pipes_close_remote_side q in if 0 <? pid_fork then q <| p_pid := pid_fork |> else q) ;;;
    mpure pid_fork
  end.

(** ** aforkhooks.c: [Some] is an _exit *)

Definition initng_fork_aforkhooks `{!Callbacks} (service process : addr) : G (option child_end) :=
  let! event := initng_event_send (new_event EVENT_AFTER_FORK (ED_process service process)) in
  mpure (if decide (ev_status event = FAILED) then Some (Exit 1) else None).

(** ** env/new.c *)

Definition allocate : nat := 114.

(** strcpy and strcat of [parts] into a block of [size] bytes; a store behind
    its end is a fault. *)
Definition alloc_string (size : nat) (parts : list string) : option string :=
  let s := String.concat "" parts in
  if (String.length s + 1 <=? size)%nat then Some s else None.

(** The loop over the ENV variables from [itt] on, with [nr] strings there. *)
Fixpoint env_loop (n : nat) (d : data_head) (itt : option addr) (nr : nat) : option (list string) :=
  match n with
  | O => None
  | S n =>
    match initng_data_get_next_var (Some ENV) None d itt with
    | None => Some []
    | Some c =>
      match d_t c with
      | T_s value =>
        if (nr + 1 <? allocate)%nat then
          vn ← d_vn c;
          e ← alloc_string (1 + String.length vn + String.length value) [vn; "="; value]%string;
          rest ← env_loop n d (Some (d_addr c)) (S nr);
          Some (e :: rest)
        else env_loop n d (Some (d_addr c)) nr
      | T_null => Some []
      | _ => None
      end
    end
  end.

Definition opt_env (prefix : string) (size : nat) (value : option string) : option (list string) :=
  match value with
  | None => Some []
  | Some v => e ← alloc_string (size + String.length v) [prefix; v]; Some [e]
  end.

Definition env_strings `{!Build} (a : active_db_h) (g : s_global) : option (list string) :=
  let name := a_name a in
  let pid := String.substring 0 31 ("INITNG_PID=" +:+ pretty initng_pid) in
  let env := initng_environ ++ [pid] in
  if (length env + 4 <? allocate)%nat then
    service ← alloc_string (9 + String.length name) ["SERVICE="; name]%string;
    base ← alloc_string (6 + String.length name)
             ["NAME="%string; string_of_list_ascii (initng_string_basename (chars_of name))];
    console ← (let c := default INITNG_CONSOLE (g_dev_console g) in
               alloc_string (9 + String.length c) ["CONSOLE="%string; c]);
    let env := env ++ [service; base; console] in
    runlevel ← (if (length env + 1 <? allocate)%nat then opt_env "RUNLEVEL=" 10 (g_runlevel g) else Some []);
    let env := env ++ runlevel in
    prev ← (if (length env + 1 <? allocate)%nat then opt_env "PREVLEVEL=" 14 (g_old_runlevel g) else Some []);
    let env := env ++ prev in
    vars ← (if initng_data_is_var ENV None (a_data a)
            then env_loop (S (length (all_entries (a_data a)))) (a_data a) None (length env) else Some []);
    Some (env ++ vars)
  else Some env.

(** env[nr] = NULL must be inside the array too. *)
Definition initng_env_new `{!Build} (s : addr) : G (list string) :=
  let! a := get_service s in
  deref (fun g => env ← env_strings a g; if (length env <? allocate)%nat then Some env else None).

(** ** simple_launcher *)

Definition EXEC := SEntry 160 (Some "exec"%string) VARIABLE_STRING None None
  (Some "Contains the path and arguments to a file to exec."%string).
Definition EXECS := SEntry 161 (Some "exec_path"%string) VARIABLE_STRINGS None None
  (Some "The path for one or more executables."%string).
Definition EXEC_ARGS := SEntry 162 (Some "exec_args"%string) VARIABLE_STRING None None
  (Some "The arguments for the executable."%string).

Definition WHITESPACE : chars := [c_space; c_tab; c_nl; "013"%char; "011"%char].

(** An [outcome] without a state. *)
Definition lift {A} (o : outcome A) : G A := fun g =>
  match o with Done a => Done (a, g) | NoFuel => NoFuel | Fault => Fault end.

Definition to_string : chars -> string := string_of_list_ascii.

Definition S_IFREG : Z := 32768.
Definition exec_bits : Z := 1 + 8 + 64 + 512 + 1024 + 2048 + S_IFREG.

Section launcher.
Context `{!Callbacks, !ForkSys, !Build}.

(** The file of a directory of the PATH. *)
Definition path_file (dir exec : chars) : chars :=
  dir ++ (if bool_decide (last dir = Some c_slash) then [] else [c_slash]) ++ exec.

Fixpoint expand_loop (path_argv : list chars) (exec : chars) : G (option chars) :=
  match path_argv with
  | [] => mpure None
  | dir :: path_argv =>
    let filename := path_file dir exec in
    let! mode := syscall (fun t => sys_stat t (to_string filename)) in
    if match mode with Some m => c_true (Z.land m exec_bits) | None => false end
    then mpure (Some filename)
    else expand_loop path_argv exec
  end.

Definition default_path : string := "/bin:/sbin:/usr/bin:/usr/sbin:/usr/local/bin:/usr/local/sbin".

Definition expand_exec (exec : chars) : G (option chars) :=
  if bool_decide (head exec = Some c_slash) then mpure None
  else
    let PATH := default default_path env_PATH in
    let! r := lift (initng_string_split_delim (Some (chars_of PATH)) [":"%char]) in
    match r with
    | Some (path_argv, _) => expand_loop path_argv exec
    | None => fault
    end.

(** What the child does after initng_fork. *)
Definition exec_child (s process : addr) (argv : list chars) (files : fds) : G child_end :=
  let! failed := initng_fork_aforkhooks s process in
  match failed with
  | Some e => mpure e
  | None =>
    let! env := initng_env_new s in
    mpure (Execve (map to_string argv) env (after_execve files))
  end.

Definition simple_exec_fork (process s : addr) (argv : list chars) : G Z :=
  let! pid_fork := initng_fork s process (exec_child s process argv) in
  if 0 <? pid_fork then mpure TRUE
  else upd_process s process (fun q => q <| p_pid := 0 |>) ;;; mpure FALSE.

(** The entry that get_string_var and get_next_string_var return the string of;
    a string that was freed must not be looked at. *)
Definition next_string (type : s_entry) (vn : string) (service : addr) (itt : option addr)
    : G (option (s_data * chars)) :=
  let! a := get_service service in
  match initng_data_get_next_var (Some type) (Some vn) (a_data a) itt with
  | None => mpure None
  | Some c =>
    match d_t c with
    | T_s s => mpure (Some (c, chars_of s))
    | T_null => mpure None
    | _ => fault
    end
  end.

(** The string of an entry is overwritten, or freed. *)
Definition store_string (service : addr) (c : s_data) (t : t_union) : G unit :=
  upd_service service (fun a => a <| a_data := data_store (d_addr c) t (a_data a) |>).

(** initng_string_fix_escapes works in place, on the string of the entry. *)
Definition fix_escapes_at (service : addr) (c : s_data) (str : chars) : G chars :=
  let! r := lift (initng_string_fix_escapes (Some (str ++ [c_nul]))) in
  match r with
  | Some block =>
    store_string service c (T_s (to_string (c_string block))) ;;;
    mpure (c_string block)
  | None => fault
  end.

(** The string is split from its second char on, and the first word replaced by
    [exec].  initng_string_split_delim_free frees the first string of argv, which
    now is [exec]: the string of the entry [c] of the service. *)
Definition simple_exec_try (c : s_data) (exec : chars) (service process : addr) (pt_name : string) : G Z :=
  let! args := next_string EXEC_ARGS pt_name service None in
  let! argv :=
    match args with
    | None => mpure [exec]
    | Some (d, exec_args) =>
      let! exec_args := fix_escapes_at service d exec_args in
      match exec_args with
      | [] => fault
      | _ :: rest =>
        let! r := lift (initng_string_split_delim (Some rest) WHITESPACE) in
        match r with
        | Some (_ :: words, _) => mpure (exec :: words)
        | _ => fault
        end
      end
    end in
  let! ret := simple_exec_fork process service argv in
  store_string service c T_freed ;;;
  mpure ret.

Fixpoint simple_exec_loop (n : nat) (service process : addr) (pt_name : string) (itt : option addr) : G Z :=
  match n with
  | O => nofuel
  | S n =>
    let! next := next_string EXECS pt_name service itt in
    match next with
    | None => mpure FALSE
    | Some (c, exec) =>
      let continue := simple_exec_loop n service process pt_name (Some (d_addr c)) in
      let! mode := syscall (fun t => sys_stat t (to_string exec)) in
      match mode with
      | None => continue
      | Some _ =>
        let! res := simple_exec_try c exec service process pt_name in
        if res =? TRUE then mpure TRUE else continue
      end
    end
  end.

Definition simple_exec (service process : addr) : G Z :=
  let! a := get_service service in
  let! q := get_process service process in
  simple_exec_loop (S (length (all_entries (a_data a)))) service process (pty_name (p_pt q)) None.

(** argv[0] is the start of the block that also holds the array argv: after
    free(argv[0]), the store argv[0] = argv0 is one to freed memory. *)
Definition simple_run (service process : addr) : G Z :=
  let! q := get_process service process in
  let! exec := next_string EXEC (pty_name (p_pt q)) service None in
  match exec with
  | None => mpure FALSE
  | Some (c, exec) =>
    let! exec := fix_escapes_at service c exec in
    let! r := lift (initng_string_split_delim (Some exec) WHITESPACE) in
    match r with
    | Some ((argv0 :: _) as argv, _) =>
      if bool_decide (head argv0 = Some c_slash) then simple_exec_fork process service argv
      else
        let! found := expand_exec argv0 in
        match found with
        | None => mpure FALSE
        | Some _ => fault
        end
    | _ => fault
    end
  end.

Definition initng_s_launch (event : s_event) : G s_event :=
  match ev_data event with
  | ED_launch service process exec_name =>
    let is_exec type := let! a := get_service service in mpure (initng_data_is_var type (Some exec_name) (a_data a)) in
    let! execs := is_exec EXECS in
    let! r := if (execs : bool) then simple_exec service process else mpure FALSE in
    if c_true r then mpure (event <| ev_status := HANDLED |>)
    else
      let! exec := is_exec EXEC in
      let! r := if (exec : bool) then simple_run service process else mpure FALSE in
      mpure (if c_true r then event <| ev_status := HANDLED |> else event)
  | _ => fault
  end.

End launcher.

Definition initng_s_launch_ptr : fptr := 71.

Definition launcher_module_init : G Z :=
  initng_event_hook_register_real "initng_simple_launcher.c" EVENT_LAUNCH initng_s_launch_ptr ;;;
  initng_service_data_type_register EXEC ;;;
  initng_service_data_type_register EXECS ;;;
  initng_service_data_type_register EXEC_ARGS ;;;
  mpure TRUE.

Definition launcher_module_unload : G unit :=
  initng_service_data_type_unregister EXEC ;;;
  initng_service_data_type_unregister EXECS ;;;
  initng_service_data_type_unregister EXEC_ARGS ;;;
  initng_event_hook_unregister_real EVENT_LAUNCH initng_s_launch_ptr.

(** ** Lemmas: the descriptors of a child *)

Lemma setup_target_other pi t x y : y <> x -> setup_target pi t x !! y = t !! y.
Proof.
  intros Hy. unfold setup_target, fd_keep, fd_dup2, fd_close.
  destruct (child_side pi); repeat case_match; by rewrite ?lookup_insert_ne, ?lookup_delete_ne by congruence.
Qed.

Lemma setup_target_same pi t x fd f :
  child_side pi = Some fd -> fd <> x -> t !! fd = Some f -> setup_target pi t x !! x = Some (Fd (fd_file f) false).
Proof.
  intros Hc Hne Hf. unfold setup_target, fd_dup2, fd_close. rewrite Hc, lookup_delete_ne, Hf by congruence.
  unfold fd_keep. by rewrite !lookup_insert_eq.
Qed.

Lemma setup_pipe_other pi t y : y ∉ targets pi -> setup_pipe t pi !! y = t !! y.
Proof.
  unfold setup_pipe. revert t. induction (targets pi) as [|x l IH]; intros t Hy; cbn; [done|].
  apply not_elem_of_cons in Hy as [Hx Hy]. rewrite IH by done. by apply setup_target_other.
Qed.

Lemma setup_pipe_target pi t fd f y :
  child_side pi = Some fd -> fd ∉ targets pi -> t !! fd = Some f -> NoDup (targets pi) -> y ∈ targets pi ->
  setup_pipe t pi !! y = Some (Fd (fd_file f) false).
Proof.
  intros Hc. unfold setup_pipe. revert t. induction (targets pi) as [|x l IH]; intros t Hfd Hf Hnd Hy; cbn.
  { by apply elem_of_nil in Hy. }
  apply not_elem_of_cons in Hfd as [Hfx Hfd]. apply NoDup_cons in Hnd as [Hx Hnd].
  apply elem_of_cons in Hy as [->|Hy]; [|apply IH; try done; by rewrite setup_target_other].
  assert (forall l' t', x ∉ l' -> fold_left (setup_target pi) l' t' !! x = t' !! x) as ->.
  { clear. induction l' as [|z l' IH]; intros t' Hx; cbn; [done|]. apply not_elem_of_cons in Hx as [Hz Hx].
    rewrite IH by done. by apply setup_target_other. }
  - by eapply setup_target_same.
  - done.
Qed.

Lemma pipes_setup_other l t y : Forall (fun pi => y ∉ targets pi) l -> fold_left setup_pipe l t !! y = t !! y.
Proof.
  revert t. induction l as [|pi l IH]; intros t Hl; cbn; [done|]. apply Forall_cons in Hl as [Hpi Hl].
  rewrite IH by done. by apply setup_pipe_other.
Qed.


(** ** Lemmas: the environment of a child *)

Lemma length_append (a b : string) : String.length (a +:+ b) = (String.length a + String.length b)%nat.
Proof. induction a as [|x a IH]; [done|]. exact (f_equal S IH). Qed.

Lemma alloc_two size (a b : string) :
  alloc_string size [a; b] = if (String.length a + String.length b + 1 <=? size)%nat then Some (a +:+ b) else None.
Proof. unfold alloc_string. cbn [String.concat]. change ("" +:+ b)%string with b. by rewrite length_append. Qed.

Lemma basename_length s : (length (initng_string_basename s) <= length s)%nat.
Proof.
  unfold initng_string_basename. destruct (strrchr s c_slash); [|done]. rewrite length_drop. lia.
Qed.

Lemma length_string_of l : String.length (string_of_list_ascii l) = length l.
Proof. induction l; cbn; [done|]. by rewrite IHl. Qed.

Lemma length_chars_of s : length (chars_of s) = String.length s.
Proof. unfold chars_of. induction s; cbn; [done|]. by rewrite IHs. Qed.

(** The environment of a service that sets no variables of its own. *)
Definition plain_env `{!Build} (a : active_db_h) (g : s_global) : list string :=
  let opt prefix v := match v with Some v => [prefix +:+ v] | None => [] end in
  initng_environ ++ [String.substring 0 31 ("INITNG_PID=" +:+ pretty initng_pid)] ++
  ["SERVICE=" +:+ a_name a; "NAME=" +:+ to_string (initng_string_basename (chars_of (a_name a)));
   "CONSOLE=" +:+ default INITNG_CONSOLE (g_dev_console g)]%string ++
  opt "RUNLEVEL="%string (g_runlevel g) ++ opt "PREVLEVEL="%string (g_old_runlevel g).

Lemma opt_env_fits prefix size v :
  (String.length prefix < size)%nat ->
  opt_env prefix size v = Some (match v with Some v => [prefix +:+ v] | None => [] end).
Proof.
  intros H. destruct v as [v|]; [|done]. cbn [opt_env]. rewrite alloc_two.
  by rewrite (proj2 (Nat.leb_le _ _)) by lia.
Qed.

Lemma opt_length {A} (v : option A) (f : A -> string) :
  (length (match v with Some v => [f v] | None => [] end) <= 1)%nat.
Proof. destruct v; cbn; lia. Qed.

(** Up to the variables of the service, every string fits its block. *)
Lemma env_strings_run `{!Build} a g :
  (length initng_environ <= 100)%nat ->
  env_strings a g =
    vars ← (if initng_data_is_var ENV None (a_data a)
            then env_loop (S (length (all_entries (a_data a)))) (a_data a) None (length (plain_env a g)) else Some []);
    Some (plain_env a g ++ vars).
Proof.
  intros He. unfold env_strings, plain_env.
  rewrite (proj2 (Nat.ltb_lt _ _)) by (rewrite length_app; cbn; unfold allocate; lia).
  rewrite !alloc_two, !length_string_of.
  pose proof (basename_length (chars_of (a_name a))) as Hb. rewrite length_chars_of in Hb.
  rewrite !(proj2 (Nat.leb_le _ _)) by (cbn [String.length]; lia). cbn [mbind option_bind].
  rewrite (proj2 (Nat.ltb_lt _ _)) by (rewrite !length_app; cbn; unfold allocate; lia).
  rewrite (opt_env_fits "RUNLEVEL=") by (cbn; lia). cbn [mbind option_bind].
  rewrite (proj2 (Nat.ltb_lt _ _))
    by (pose proof (opt_length (g_runlevel g) (fun v => "RUNLEVEL=" +:+ v)%string); rewrite !length_app; cbn [length];
        unfold allocate; lia).
  rewrite opt_env_fits by (cbn; lia). cbn [mbind option_bind]. by rewrite <- !app_assoc.
Qed.

Lemma plain_env_length `{!Build} a g : (length initng_environ <= 100)%nat -> (length (plain_env a g) < allocate - 1)%nat.
Proof.
  intros He. unfold plain_env. rewrite !length_app. cbn [length].
  pose proof (opt_length (g_runlevel g) (fun v => "RUNLEVEL=" +:+ v)%string).
  pose proof (opt_length (g_old_runlevel g) (fun v => "PREVLEVEL=" +:+ v)%string). unfold allocate. lia.
Qed.

(** Whether the service has a variable of its own for the environment: the first
    ENV variable has a value (at the first without one the loop ends). *)
Definition own_env (d : data_head) : bool :=
  match initng_data_get_next_var (Some ENV) None d None with
  | Some c => match d_t c with T_null => false | _ => true end
  | None => false
  end.

(** The environment of a child.  Without ENV variables of the service, it is
    the fixed part, the pid of initng, SERVICE, NAME, CONSOLE and the runlevels,
    and every string fits its block, whatever the name.  With one, the block
    for it is a byte too short: the terminating NUL is stored behind its end. *)
Theorem environment_of_a_child `{!Build} g s a :
  g_heap g !! s = Some a -> (length initng_environ <= 100)%nat ->
  initng_env_new s g = if own_env (a_data a) then Fault else Done (plain_env a g, g).
Proof.
  intros Ha He. pose proof (plain_env_length a g He) as Hl.
  unfold initng_env_new. rewrite (mthen_run _ _ _ _ _ (get_service_run _ _ _ Ha)). unfold deref, own_env.
  rewrite (env_strings_run a g He). unfold initng_data_is_var.
  destruct (initng_data_get_next_var (Some ENV) None (a_data a) None) as [c|] eqn:Ec.
  - rewrite bool_decide_eq_true_2 by (by eexists). cbn [env_loop]. rewrite Ec.
    destruct (d_t c) eqn:Ht; try done.
    + cbn [mbind option_bind]. rewrite app_nil_r. by rewrite (proj2 (Nat.ltb_lt _ _)) by lia.
    + rewrite (proj2 (Nat.ltb_lt _ _)) by lia. destruct (d_vn c) as [vn|]; [|done]. cbn [mbind option_bind].
      unfold alloc_string. cbn [String.concat]. rewrite !length_append.
      by rewrite (proj2 (Nat.leb_gt _ _)) by (cbn [String.length]; lia).
  - rewrite bool_decide_eq_false_2 by (by intros [? ?]). cbn [mbind option_bind]. rewrite app_nil_r.
    by rewrite (proj2 (Nat.ltb_lt _ _)) by lia.
Qed.

(** ** Lemmas: a fork that works *)

(** The pipes of a process after pipe(2): the descriptors are new. *)
Definition same_pipe (pi pj : pipe_h) : Prop := pi_dir pj = pi_dir pi /\ pi_targets pj = pi_targets pi.

Lemma map_pipes_run `{!ForkSys} l g :
  exists l' n, map_pipes pipe_create l g = Done (l', g <| g_ticks := n |>) /\ Forall2 same_pipe l l'.
Proof.
  revert g. induction l as [|pi l IH]; intros g; cbn [map_pipes].
  { exists [], (g_ticks g). split; [by destruct g|constructor]. }
  set (g1 := g <| g_ticks := S (g_ticks g) |>).
  assert (Hc : exists pj, pipe_create pi g = Done (pj, g1) /\ same_pipe pi pj).
  { unfold pipe_create, syscall. eexists. split; [reflexivity|]. by repeat case_match. }
  destruct Hc as (pj & E & Hs). rewrite (mthen_run _ _ _ _ _ E).
  destruct (IH g1) as (l' & n & El & Hl). rewrite (mthen_run _ _ _ _ _ El). exists (pj :: l'), n.
  split; [done|by constructor].
Qed.

Section fork_works.
Context `{FS : ForkSys} (pid : Z) (files : fds).
Hypothesis fork_works : forall t, sys_fork t = Some (pid, files).
Hypothesis pid_positive : 0 < pid.

(** The child sees the process with its pipes, the parent closes its side. *)
Lemma fork_run g s p a q child :
  g_heap g !! s = Some a -> find_process p a = Some q ->
  exists pipes n, Forall2 same_pipe (p_pipes q) pipes /\
    let q1 := q <| p_pipes := pipes |> in
    let a1 := with_process p (fun q => q <| p_pipes := pipes |>) a in
    let a2 := with_process p (fun q => (pipes_close_remote_side q) <| p_pid := pid |>) a1 in
    let g1 := put_service s a1 (g <| g_ticks := n |>) in
    forall e, in_child (child (pipes_setup_local_side q1 files)) g1 = Done (e, g1) ->
      initng_fork s p child g =
      Done (pid, (put_service s a2 (g <| g_ticks := n |>)) <| g_children := g_children g ++ [e] |>).
Proof.
  intros Ha Hq. destruct (map_pipes_run (p_pipes q) g) as (pipes & n & E & Hs).
  exists pipes, (S n). split; [done|]. intros q1 a1 a2 g0 e Hchild.
  unfold initng_fork, pipes_create. set (gn := g <| g_ticks := n |>). set (g1 := put_service s a1 gn).
  rewrite (mthen_run _ _ g tt g1).
  - set (g3 := g1 <| g_ticks := S n |>).
    rewrite (mthen_run _ _ g1 (Some (pid, files)) g3) by (cbn [fork_loop]; unfold syscall; cbn; by rewrite fork_works).
    assert (Ha1 : g_heap g3 !! s = Some a1) by apply lookup_insert_eq.
    assert (Hq1 : find_process p a1 = Some q1) by (by apply (find_with_process p (fun q => q <| p_pipes := pipes |>))).
    rewrite (mthen_run _ _ g3 e g3).
    + rewrite then_modify. set (g4 := g3 <| g_children := _ |>).
      rewrite (mthen_run _ _ _ tt _ (upd_process_run g4 s p a1 _ Ha1)).
      unfold mpure, g4, g3, g1, gn, put_service. destruct g; cbn.
      rewrite (proj2 (Z.ltb_lt 0 pid) pid_positive), insert_insert_eq. done.
    + unfold in_child. rewrite (mthen_run _ _ _ _ _ (get_process_run _ _ _ _ _ Ha1 Hq1)).
      exact Hchild.
  - rewrite (mthen_run _ _ _ _ _ (get_process_run _ _ _ _ _ Ha Hq)), (mthen_run _ _ _ _ _ E).
    apply (upd_process_run gn s p a (fun q => q <| p_pipes := pipes |>) Ha).
Qed.

End fork_works.

(** ** Lemmas: the launcher *)

Lemma fix_escapes_at_run g s a c str u :
  g_heap g !! s = Some a -> c_nul ∉ str -> unescape str = Some u ->
  fix_escapes_at s c str g =
  Done (u, put_service s (a <| a_data := data_store (d_addr c) (T_s (to_string u)) (a_data a) |>) g).
Proof.
  intros Ha Hn Hu. unfold fix_escapes_at. pose proof (fix_escapes_run str [] Hn) as H. rewrite Hu in H.
  destruct H as (block & E & Hb). rewrite (mthen_run _ _ g (Some block) g) by (unfold lift; by rewrite E). rewrite Hb.
  unfold store_string. by rewrite (mthen_run _ _ _ _ _ (upd_service_run _ _ _ _ Ha)).
Qed.

Lemma next_string_run g s a type vn c str :
  g_heap g !! s = Some a -> initng_data_get_next_var (Some type) (Some vn) (a_data a) None = Some c -> d_t c = T_s str ->
  next_string type vn s None g = Done (Some (c, chars_of str), g).
Proof.
  intros Ha Hc Ht. unfold next_string. rewrite (mthen_run _ _ _ _ _ (get_service_run _ _ _ Ha)), Hc. by rewrite Ht.
Qed.

Section launch.
Context `{CB : Callbacks, FS : ForkSys, BU : Build}.

(** What the hooks of EVENT_AFTER_FORK do in a child that starts in [g1]: they
    return, with the status FAILED or another, and leave the name of the service
    and the three names that [plain_env] takes from the state; [own] tells whether
    the service then has a variable of its own for the environment (module suid
    adds some). *)
Definition hooks_in_child (s p : addr) (failed own : bool) (g1 : s_global) : Prop :=
  exists e a1 g2 a2, g_heap g1 !! s = Some a1 /\
    initng_event_send (new_event EVENT_AFTER_FORK (ED_process s p)) g1 = Done (e, g2) /\
    bool_decide (ev_status e = FAILED) = failed /\ g_heap g2 !! s = Some a2 /\ a_name a2 = a_name a1 /\
    g_dev_console g2 = g_dev_console g1 /\ g_runlevel g2 = g_runlevel g1 /\ g_old_runlevel g2 = g_old_runlevel g1 /\
    own_env (a_data a2) = own.

(** How a child ends: a failed hook makes it leave with 1; a variable of the
    service's own for the environment makes it store behind the end of a block;
    otherwise it executes the program. *)
Definition launched (failed own : bool) (argv env : list string) (t : fds) : child_end :=
  if failed then Exit 1 else if own then Crash else Execve argv env (after_execve t).

Lemma exec_child_run g s p a argv t failed own :
  g_heap g !! s = Some a -> (length initng_environ <= 100)%nat -> hooks_in_child s p failed own g ->
  in_child (exec_child s p argv t) g = Done (launched failed own (map to_string argv) (plain_env a g) t, g).
Proof.
  intros Ha He (e & a1 & g2 & a2 & Ha1 & E & Hf & Ha2 & Hname & Hc & Hr & Ho & Hown).
  rewrite Ha1 in Ha. injection Ha as <-. unfold in_child, exec_child, initng_fork_aforkhooks.
  rewrite then_then, (mthen_run _ _ _ _ _ E), then_pure. destruct failed.
  { apply bool_decide_eq_true in Hf. by rewrite decide_True by done. }
  apply bool_decide_eq_false in Hf. rewrite decide_False by done.
  assert (plain_env a1 g = plain_env a2 g2) as -> by (unfold plain_env; by rewrite Hname, Hc, Hr, Ho).
  unfold mthen. rewrite (environment_of_a_child g2 s a2 Ha2 He), Hown. by destruct own.
Qed.

Context (pid : Z) (files : fds).
Hypothesis fork_works : forall t, sys_fork t = Some (pid, files).
Hypothesis pid_positive : 0 < pid.
Hypothesis few_strings : (length initng_environ <= 100)%nat.

(** The states in which a child of the process starts: the process has new
    pipes, of the same kinds and for the same descriptors. *)
Definition child_starts (P : s_global -> Prop) (g : s_global) (s p : addr) (a : active_db_h) (q : process_h) : Prop :=
  forall pipes n, Forall2 same_pipe (p_pipes q) pipes ->
    P (put_service s (with_process p (fun q => q <| p_pipes := pipes |>) a) (g <| g_ticks := n |>)).

Lemma simple_exec_fork_run g s p a q argv failed own :
  g_heap g !! s = Some a -> find_process p a = Some q -> child_starts (hooks_in_child s p failed own) g s p a q ->
  exists g' b pipes q', simple_exec_fork p s argv g = Done (TRUE, g') /\ g_heap g' = <[s := b]> (g_heap g) /\
    g_children g' = g_children g ++ [launched failed own (map to_string argv) (plain_env a g)
      (pipes_setup_local_side (q <| p_pipes := pipes |>) files)] /\
    Forall2 same_pipe (p_pipes q) pipes /\ find_process p b = Some q' /\ p_pid q' = pid /\ a_data b = a_data a.
Proof.
  intros Ha Hq Hh. unfold simple_exec_fork.
  destruct (fork_run pid files fork_works pid_positive g s p a q (exec_child s p argv) Ha Hq) as (pipes & n & Hs & E).
  cbv zeta in E. set (a1 := with_process p (fun q => q <| p_pipes := pipes |>) a) in E.
  set (g1 := put_service s a1 (g <| g_ticks := n |>)) in E.
  specialize (E _ (exec_child_run g1 s p a1 argv _ failed own (put_service_lookup _ _ _) few_strings (Hh pipes n Hs))).
  rewrite (mthen_run _ _ _ _ _ E), (proj2 (Z.ltb_lt _ _) pid_positive).
  do 4 eexists. split; [reflexivity|]. split; [reflexivity|]. split; [reflexivity|]. split; [done|].
  split; [|split; [|reflexivity]].
  - apply (find_with_process p (fun q => (pipes_close_remote_side q) <| p_pid := pid |>)); [done|].
    by apply (find_with_process p (fun q => q <| p_pipes := pipes |>)).
  - done.
Qed.

(** C24: what a launch runs.  For a service with an EXEC string of an absolute path
    and arguments (and no EXECS), and a process of that name, with a fork that
    works, initng_s_launch handles the event; in the parent the process has the
    pid of the child, and the string of the service is the one with its escapes
    resolved.  The child ends in one of three ways, by what the hooks of
    EVENT_AFTER_FORK do in it.  If one of them fails, it leaves with status 1.
    If the service has, after the hooks, an ENV variable with a value, it stores
    a byte behind the block that env/new.c allocates for it.  Otherwise, it
    executes the words of the string with its escapes resolved, in the
    environment of the service and on the ends of the pipes of the process.  The
    hooks are assumed to return and to leave the name of the service, the
    console and the runlevels alone; initng_environ has at most 100 strings. *)
Theorem launch_runs_the_command g s p a q e c str u argv0 args failed own :
  g_heap g !! s = Some a -> find_process p a = Some q ->
  ev_data e = ED_launch s p (pty_name (p_pt q)) ->
  initng_data_get_next_var (Some EXECS) (Some (pty_name (p_pt q))) (a_data a) None = None ->
  initng_data_get_next_var (Some EXEC) (Some (pty_name (p_pt q))) (a_data a) None = Some c ->
  d_t c = T_s str -> c_nul ∉ chars_of str -> unescape (chars_of str) = Some u ->
  words u WHITESPACE = argv0 :: args -> head argv0 = Some c_slash ->
  let a1 := a <| a_data := data_store (d_addr c) (T_s (to_string u)) (a_data a) |> in
  child_starts (hooks_in_child s p failed own) g s p a1 q ->
  exists g' b pipes q', initng_s_launch e g = Done (e <| ev_status := HANDLED |>, g') /\
    g_heap g' = <[s := b]> (g_heap g) /\
    g_children g' = g_children g ++ [launched failed own (map to_string (argv0 :: args)) (plain_env a g)
      (pipes_setup_local_side (q <| p_pipes := pipes |>) files)] /\
    Forall2 same_pipe (p_pipes q) pipes /\ find_process p b = Some q' /\ p_pid q' = pid /\ a_data b = a_data a1.
Proof.
  intros Ha Hq He Hexecs Hexec Ht Hn Hu Hw H0 a1 Hh.
  destruct (simple_exec_fork_run (put_service s a1 g) s p a1 q (argv0 :: args) failed own)
    as (g' & b & pipes & q' & E & Hg & Hc & Hr).
  - apply put_service_lookup.
  - exact Hq.
  - intros pipes n Hs. specialize (Hh pipes n Hs). unfold put_service in *. cbn in *. by rewrite insert_insert_eq.
  - exists g', b, pipes, q'. split; [|split; [rewrite Hg; cbn; by rewrite insert_insert_eq|done]].
    unfold initng_s_launch. rewrite He. unfold initng_data_is_var.
    rewrite (mthen_run _ _ g false g)
      by (rewrite (mthen_run _ _ _ _ _ (get_service_run _ _ _ Ha)), Hexecs; by rewrite bool_decide_eq_false_2 by (by intros [? ?])).
    rewrite then_pure. change (c_true FALSE) with false. cbv iota.
    rewrite (mthen_run _ _ g true g)
      by (rewrite (mthen_run _ _ _ _ _ (get_service_run _ _ _ Ha)), Hexec; by rewrite bool_decide_eq_true_2 by (by eexists)).
    rewrite (mthen_run _ _ g TRUE g'); [done|]. unfold simple_run.
    rewrite (mthen_run _ _ _ _ _ (get_process_run _ _ _ _ _ Ha Hq)).
    rewrite (mthen_run _ _ _ _ _ (next_string_run _ _ _ _ _ _ _ Ha Hexec Ht)).
    rewrite (mthen_run _ _ _ _ _ (fix_escapes_at_run _ _ _ _ _ _ Ha Hn Hu)). fold a1.
    rewrite (mthen_run _ _ _ (Some (argv0 :: args, S (length (argv0 :: args)))) (put_service s a1 g))
      by (unfold lift; by rewrite split_delim_words, Hw).
    by rewrite bool_decide_eq_true_2.
Qed.

End launch.
