(* ===== verification/Modules.v ===== *)
(** * The module database: src/main/module/

    depend.c, load.c and unload.c.  A module is a shared object with a struct
    initng_module; what its init and unload functions do is code of the module
    and a parameter here. *)
From S2P Require Import Prelude Types Data CString Global ActiveDb Io Launch.
From Stdlib Require Import String Ascii.
From stdpp Require Import prelude gmap strings.
Local Open Scope Z_scope.

Definition API_VERSION : Z := 19.

(** The functions of the modules. *)
Class ModuleCode := {
  call_init : fptr -> G Z;
  call_unload : fptr -> G unit
}.

(** stat(2), dlopen(3) with dlsym(3) of initng_module, opendir(3) with all of
    readdir(3), and fnmatch(3); INITNG_MODULE_DIR is set by the build. *)
Class ModuleSys := {
  sys_file_exists : nat -> string -> bool;
  sys_dlopen : nat -> string -> option (option initng_module);
  sys_readdir : nat -> string -> option (list string);
  fn_match : chars -> chars -> bool;
  INITNG_MODULE_DIR : string
}.

(** ** depend.c *)

Definition module_is_loaded (module_name : string) (g : s_global) : bool :=
  List.existsb (fun m => String.eqb (m_name m) module_name) (g_module_db g).

Definition module_needs_are_loaded (m : m_h) (g : s_global) : bool :=
  List.forallb (fun needs => module_is_loaded needs g) (mod_deps (m_modinfo m)).

Definition module_is_needed (module_name : string) (g : s_global) : bool :=
  List.existsb (fun m => List.existsb (String.eqb module_name) (mod_deps (m_modinfo m))) (g_module_db g).

Section modules.
Context `{!ModuleCode, !ModuleSys}.

(** ** load.c *)

Definition initng_module_close_and_free (m : addr) : G unit :=
  modify (fun g => g <| g_module_db := List.filter (fun x => negb (Pos.eqb (m_addr x) m)) (g_module_db g) |>).

(** A module that cannot be used was on no list when it is freed again. *)
Definition initng_module_open (module_path module_name : string) : G (option m_h) :=
  let! m := new_addr in
  let! there := syscall (fun t => sys_file_exists t module_path) in
  if negb (there : bool) then mpure None
  else
    let! dl := syscall (fun t => sys_dlopen t module_path) in
    match dl with
    | None | Some None => mpure None
    | Some (Some modinfo) =>
      if negb (mod_api_version modinfo =? API_VERSION) then mpure None
      else if bool_decide (mod_init modinfo = None) || bool_decide (mod_unload modinfo = None) then mpure None
      else mpure (Some (MH m module_name module_path 0 modinfo))
    end.

(** strndup; a negative length is a huge one. *)
Definition strndup (s : chars) (n : Z) : chars := if n <? 0 then s else take (Z.to_nat n) s.

(** The name in a path: what follows the last slash and a "mod", without its
    last three chars. *)
Definition name_in_path (module : chars) : chars :=
  let len := length module in
  let i := match strrchr module c_slash with Some i => S i | None => 1%nat end in
  let i := if bool_decide (take 3 (drop i module) = chars_of "mod") then (i + 3)%nat else i in
  strndup (drop i module) (Z.of_nat len - Z.of_nat i - 3).

Definition is_path (module : chars) : bool :=
  bool_decide (head module = Some c_slash) && bool_decide (is_Some (strstr module (chars_of ".so"))).

(** The directories that are tried next; each path is copied over the first,
    which has a block of [size] bytes. *)
Fixpoint open_static (dirs : list string) (size : nat) (module_name : string) : G (option m_h) :=
  match dirs with
  | [] => mpure None
  | dir :: dirs =>
    let! module_path := deref (fun _ => alloc_string size [dir; module_name; ".so"%string]) in
    let! new_m := initng_module_open module_path module_name in
    match new_m with
    | Some m => mpure (Some m)
    | None => open_static dirs size module_name
    end
  end.

Definition static_dirs : list string := ["/lib/initng/"; "/lib32/initng/"; "/lib64/initng/"]%string.

(** Both messages about a module that is not kept print its path, which is
    freed by then. *)
Definition initng_module_load (module : string) : G (option m_h) :=
  let path := is_path (chars_of module) in
  let module_name := if path then to_string (name_in_path (chars_of module)) else module in
  let! loaded := asks (module_is_loaded module_name) in
  if (loaded : bool) then mpure None
  else
    let module_path := if path then module else INITNG_MODULE_DIR +:+ "/mod" +:+ module_name +:+ ".so" in
    let size := if path then S (String.length module)
                else (String.length INITNG_MODULE_DIR + String.length module_name + 30)%nat in
    let! new_m := initng_module_open module_path module_name in
    let! new_m := match new_m with Some m => mpure (Some m) | None => open_static static_dirs size module_name end in
    match new_m with
    | None => mpure None
    | Some new_m =>
      let! met := asks (module_needs_are_loaded new_m) in
      if negb (met : bool) then fault
      else
        let! init := deref (fun _ => mod_init (m_modinfo new_m)) in
        let! r := call_init init in
        if negb (0 <? r) then fault
        else
          let new_m := new_m <| m_flags := Z.lor (m_flags new_m) MODULE_INITIALIZED |> in
          modify (fun g => g <| g_module_db := g_module_db g ++ [new_m] |>) ;;;
          mpure (Some new_m)
    end.

(** A file name with the prefix "mod", and what follows it. *)
Definition is_mod_file (d_name : chars) : option chars :=
  match d_name with
  | c1 :: c2 :: c3 :: rest => if Ascii.eqb c1 "m" && Ascii.eqb c2 "o" && Ascii.eqb c3 "d" then Some rest else None
  | _ => None
  end.

(** The loop over the directory: lines 293-331. *)
Fixpoint open_all (path : string) (files : list string) (success : Z) : G Z :=
  match files with
  | [] => mpure success
  | d_name :: files =>
    match is_mod_file (chars_of d_name) with
    | None => open_all path files success
    | Some rest =>
      let module := to_string (strndup rest (Z.of_nat (length rest) - 3)) in
      let! argv := asks g_Argv in
      if initng_common_service_blacklisted fn_match (map chars_of argv) (chars_of module) then open_all path files success
      else
        let! current := initng_module_open (path +:+ "/" +:+ d_name) module in
        match current with
        | None => open_all path files success
        | Some m =>
          modify (fun g => g <| g_module_db := g_module_db g ++ [m] |>) ;;;
          open_all path files TRUE
        end
    end
  end.

Definition find_module (m : addr) (g : s_global) : option m_h :=
  List.find (fun x => Pos.eqb (m_addr x) m) (g_module_db g).

Definition set_flags (m : addr) (f : Z -> Z) : G unit :=
  modify (fun g => g <| g_module_db :=
    map (fun x => if Pos.eqb (m_addr x) m then x <| m_flags := f (m_flags x) |> else x) (g_module_db g) |>).

(** while_module_db_safe *)
Fixpoint while_module_db_safe (n : nat) (current : option addr) (body : m_h -> G unit) : G unit :=
  match current with
  | None => mpure tt
  | Some a =>
    match n with
    | O => nofuel
    | S n =>
      let! m := deref (find_module a) in
      let! next := deref (fun g => next_of a (map m_addr (g_module_db g))) in
      body m ;;;
      while_module_db_safe n next body
    end
  end.

Definition first_module : G (option addr) := asks (fun g => head (map m_addr (g_module_db g))).

Definition init_body (current : m_h) : G unit :=
  if negb (Z.land (m_flags current) MODULE_INITIALIZED =? 0) then mpure tt
  else
    let! met := asks (module_needs_are_loaded current) in
    if negb (met : bool) then initng_module_close_and_free (m_addr current)
    else
      let! init := deref (fun _ => mod_init (m_modinfo current)) in
      let! r := call_init init in
      if 0 <? r then set_flags (m_addr current) (fun f => Z.lor f MODULE_INITIALIZED)
      else initng_module_close_and_free (m_addr current).

Definition initng_module_load_all (fuel : nat) (path : string) : G Z :=
  let! dir := syscall (fun t => sys_readdir t path) in
  match dir with
  | None => mpure FALSE
  | Some files =>
    let! success := open_all path files FALSE in
    let! first := first_module in
    while_module_db_safe fuel first init_body ;;;
    mpure success
  end.

(** ** unload.c *)

Definition unload (module : m_h) : G unit :=
  let! f := deref (fun _ => mod_unload (m_modinfo module)) in
  call_unload f ;;;
  initng_module_close_and_free (m_addr module).

Definition initng_module_unload_named (name : string) : G Z :=
  let! m := asks (fun g => List.find (fun m => String.eqb (m_name m) name) (g_module_db g)) in
  match m with
  | None => mpure FALSE
  | Some m =>
    set_flags (m_addr m) (fun f => Z.lor f MODULE_REMOVE) ;;;
    modify (fun g => g <| g_modules_to_unload := TRUE |>) ;;;
    mpure TRUE
  end.

Definition initng_module_unload_all (fuel : nat) : G unit :=
  let! first := first_module in
  while_module_db_safe fuel first unload ;;;
  modify (fun g => g <| g_module_db := [] |>).

Definition unload_marked_body (m : m_h) : G unit :=
  if Z.land (m_flags m) MODULE_REMOVE =? 0 then mpure tt
  else
    let! needed := asks (module_is_needed (m_name m)) in
    if (needed : bool) then set_flags (m_addr m) (fun f => Z.land f (Z.lnot MODULE_REMOVE))
    else unload m.

Definition initng_module_unload_marked (fuel : nat) : G unit :=
  let! first := first_module in
  while_module_db_safe fuel first unload_marked_body.

End modules.

(** ** What the functions of modules leave alone *)

Class ModuleLaws `{!ModuleCode} := {
  init_returns f g : exists r g', call_init f g = Done (r, g') /\
    g_module_db g' = g_module_db g /\ (g_fresh g <= g_fresh g')%positive;
  unload_returns f g : exists g', call_unload f g = Done (tt, g') /\
    g_module_db g' = g_module_db g /\ (g_fresh g <= g_fresh g')%positive
}.

(** Entries are at different addresses, which are allocated, and can be called. *)
Record module_db_ok (g : s_global) : Prop := {
  mdb_nodup : NoDup (map m_addr (g_module_db g));
  mdb_fresh : Forall (fun m => (m_addr m < g_fresh g)%positive) (g_module_db g);
  mdb_code : Forall (fun m => is_Some (mod_init (m_modinfo m)) /\ is_Some (mod_unload (m_modinfo m))) (g_module_db g)
}.

(** Every module has the modules it needs. *)
Definition needs_met (g : s_global) : Prop :=
  forall m n, m ∈ g_module_db g -> n ∈ mod_deps (m_modinfo m) -> module_is_loaded n g = true.

Definition initialized (m : m_h) : Prop := Z.land (m_flags m) MODULE_INITIALIZED <> 0.

Lemma loaded_spec n g : module_is_loaded n g = true <-> exists m, m ∈ g_module_db g /\ m_name m = n.
Proof.
  unfold module_is_loaded. rewrite List.existsb_exists. split; intros (m & Hm & E); exists m.
  - split; [by apply list_elem_of_In|by apply String.eqb_eq].
  - split; [by apply list_elem_of_In|by apply String.eqb_eq].
Qed.

Lemma needed_spec n g : module_is_needed n g = true <-> exists m, m ∈ g_module_db g /\ n ∈ mod_deps (m_modinfo m).
Proof.
  unfold module_is_needed. rewrite List.existsb_exists. split.
  - intros (m & Hm & (x & Hx & ->%String.eqb_eq)%List.existsb_exists). exists m. split; by apply list_elem_of_In.
  - intros (m & Hm & Hn). exists m. split; [by apply list_elem_of_In|]. apply List.existsb_exists. exists n.
    split; [by apply list_elem_of_In|apply String.eqb_refl].
Qed.

Lemma met_spec m g :
  module_needs_are_loaded m g = true <-> forall n, n ∈ mod_deps (m_modinfo m) -> module_is_loaded n g = true.
Proof.
  unfold module_needs_are_loaded. rewrite List.forallb_forall. split; intros H n Hn; apply H; by apply list_elem_of_In.
Qed.

(** ** Lemmas: the database with entries removed, added or flagged *)

Definition without (m : addr) (db : list m_h) : list m_h := List.filter (fun x => negb (Pos.eqb (m_addr x) m)) db.
Definition flagged (m : addr) (f : Z -> Z) (db : list m_h) : list m_h :=
  map (fun x => if Pos.eqb (m_addr x) m then x <| m_flags := f (m_flags x) |> else x) db.

Lemma elem_of_without x m db : x ∈ without m db <-> x ∈ db /\ m_addr x <> m.
Proof.
  unfold without. rewrite !list_elem_of_In, List.filter_In, negb_true_iff, Pos.eqb_neq. done.
Qed.

Lemma elem_of_flagged x m f db :
  x ∈ flagged m f db -> exists y, y ∈ db /\ m_addr x = m_addr y /\ m_name x = m_name y /\ m_modinfo x = m_modinfo y /\
    m_flags x = (if Pos.eqb (m_addr y) m then f (m_flags y) else m_flags y).
Proof.
  intros (y & -> & Hy)%list_elem_of_fmap. exists y. split; [done|]. by destruct (Pos.eqb (m_addr y) m).
Qed.

Lemma flagged_elem y m f db :
  y ∈ db -> exists x, x ∈ flagged m f db /\ m_name x = m_name y /\ m_modinfo x = m_modinfo y.
Proof.
  intros Hy. eexists. split; [by apply list_elem_of_fmap_2|]. by destruct (Pos.eqb (m_addr y) m).
Qed.

Lemma flagged_addrs m f db : map m_addr (flagged m f db) = map m_addr db.
Proof. unfold flagged. rewrite List.map_map. apply List.map_ext. intros x. by destruct (Pos.eqb _ _). Qed.

Lemma without_addrs m db : map m_addr (without m db) = List.filter (fun a => negb (Pos.eqb a m)) (map m_addr db).
Proof.
  unfold without. induction db as [|x db IH]; cbn; [done|]. destruct (Pos.eqb (m_addr x) m); cbn; by rewrite IH.
Qed.

Definition with_db (db : list m_h) (g : s_global) : s_global := g <| g_module_db := db |>.

Lemma ok_without m g : module_db_ok g -> module_db_ok (with_db (without m (g_module_db g)) g).
Proof.
  intros [H1 H2 H3]. split; cbn.
  - rewrite without_addrs. apply NoDup_ListNoDup, List.NoDup_filter. by apply NoDup_ListNoDup.
  - apply Forall_forall. intros x [Hx _]%elem_of_without. by apply (proj1 (Forall_forall _ _) H2).
  - apply Forall_forall. intros x [Hx _]%elem_of_without. by apply (proj1 (Forall_forall _ _) H3).
Qed.

Lemma ok_flagged m f g : module_db_ok g -> module_db_ok (with_db (flagged m f (g_module_db g)) g).
Proof.
  intros [H1 H2 H3]. split; cbn; [by rewrite flagged_addrs|..]; apply Forall_forall;
    intros x (y & Hy & E1 & E2 & E3 & E4)%elem_of_flagged; rewrite ?E1, ?E3.
  - by apply (proj1 (Forall_forall _ _) H2).
  - by apply (proj1 (Forall_forall _ _) H3).
Qed.

Lemma ok_called g g' :
  g_module_db g' = g_module_db g -> (g_fresh g <= g_fresh g')%positive -> module_db_ok g -> module_db_ok g'.
Proof.
  intros E Hf [H1 H2 H3]. split; rewrite E; try done. apply (Forall_impl _ _ _ H2). intros m Hm. lia.
Qed.

Lemma met_same g g' : g_module_db g' = g_module_db g -> needs_met g -> needs_met g'.
Proof. intros E H m n Hm Hn. unfold module_is_loaded. rewrite E in *. by apply (H m). Qed.

Lemma met_flagged m f g : needs_met g -> needs_met (with_db (flagged m f (g_module_db g)) g).
Proof.
  intros H x n (y & Hy & _ & _ & E & _)%elem_of_flagged Hn. rewrite E in Hn. specialize (H y n Hy Hn).
  apply loaded_spec in H as (z & Hz & <-). destruct (flagged_elem z m f _ Hz) as (w & Hw & Ew & _).
  apply loaded_spec. by exists w.
Qed.

(** A module that nobody needs can go. *)
Lemma met_without m g :
  module_db_ok g -> m ∈ g_module_db g -> module_is_needed (m_name m) g = false -> needs_met g ->
  needs_met (with_db (without (m_addr m) (g_module_db g)) g).
Proof.
  intros [Hnd _ _] Hm Hn H x n [Hx Hne]%elem_of_without Hd. specialize (H x n Hx Hd).
  apply loaded_spec in H as (z & Hz & Ez). apply loaded_spec. exists z. split; [|done]. apply elem_of_without. split; [done|].
  intros E. assert (z = m) as ->.
  { apply list_elem_of_lookup in Hz as [i Hi]. apply list_elem_of_lookup in Hm as [j Hj].
    assert (i = j) as ->; [|congruence]. eapply (NoDup_lookup _ _ _ (m_addr m) Hnd); rewrite list_lookup_fmap, ?Hi, ?Hj; cbn; congruence. }
  enough (module_is_needed (m_name m) g = true) by congruence. apply needed_spec. exists x. by rewrite Ez.
Qed.

Section laws.
Context `{MC : ModuleCode, ML : !ModuleLaws, MS : ModuleSys}.

Lemma call_init_inv f g r g' : call_init f g = Done (r, g') -> g_module_db g' = g_module_db g /\ (g_fresh g <= g_fresh g')%positive.
Proof. intros E. destruct (init_returns f g) as (r1 & g1 & E1 & H). rewrite E in E1. by injection E1 as <- <-. Qed.

Lemma call_unload_inv f g r g' : call_unload f g = Done (r, g') -> g_module_db g' = g_module_db g /\ (g_fresh g <= g_fresh g')%positive.
Proof. intros E. destruct (unload_returns f g) as (g1 & E1 & H). rewrite E in E1. destruct r. by injection E1 as <-. Qed.

(** What a walk keeps. *)
Lemma while_modules_keep (I : s_global -> Prop) (body : m_h -> G unit) :
  (forall m g r g', I g -> find_module (m_addr m) g = Some m -> body m g = Done (r, g') -> I g') ->
  forall n cur g r g', I g -> while_module_db_safe n cur body g = Done (r, g') -> I g'.
Proof.
  intros Hb n. induction n as [|n IH]; intros [a|] g r g' Hg E; cbn in E; try done; try (by injection E as _ <-).
  apply mthen_Done in E as (m & g1 & E1 & E). unfold deref in E1. destruct (find_module a g) as [m'|] eqn:Em; [|done].
  injection E1 as -> <-. apply mthen_Done in E as (next & g2 & E2 & E). unfold deref in E2.
  destruct (next_of a _); [|done]. injection E2 as -> <-. apply mthen_Done in E as ([] & g3 & E3 & E).
  eapply IH; [|exact E]. eapply Hb; [exact Hg| |exact E3].
  pose proof Em as Ea. apply List.find_some in Ea as [_ Ea]. apply Pos.eqb_eq in Ea. by rewrite Ea.
Qed.

Lemma found_in m a g : find_module a g = Some m -> m ∈ g_module_db g.
Proof. intros H. apply List.find_some in H as [H _]. by apply list_elem_of_In. Qed.

(** The invariant of the database. *)
Definition modules_fine (g : s_global) : Prop := module_db_ok g /\ needs_met g.

Lemma unload_keeps m g r g' :
  module_db_ok g -> m ∈ g_module_db g -> unload m g = Done (r, g') ->
  exists g1, g_module_db g1 = g_module_db g /\ module_db_ok g1 /\ g' = with_db (without (m_addr m) (g_module_db g1)) g1.
Proof.
  intros Hok Hm E. unfold unload in E. apply mthen_Done in E as (f & g1 & E1 & E). unfold deref in E1.
  destruct (mod_unload (m_modinfo m)); [|done]. injection E1 as -> <-. apply mthen_Done in E as ([] & g2 & E2 & E).
  destruct (call_unload_inv _ _ _ _ E2) as [Edb Hf]. injection E as _ <-. exists g2. split; [done|]. split; [|done].
  by eapply ok_called.
Qed.

Lemma unload_marked_keeps n g r g' : modules_fine g -> initng_module_unload_marked n g = Done (r, g') -> modules_fine g'.
Proof.
  intros Hg E. unfold initng_module_unload_marked, first_module in E. rewrite then_asks in E.
  revert Hg E. apply while_modules_keep. clear g r g'. intros m g r g' [Hok Hmet] Hm%found_in E. unfold unload_marked_body in E.
  destruct (_ =? 0); [by injection E as _ <-|]. rewrite then_asks in E.
  destruct (module_is_needed (m_name m) g) eqn:En.
  - injection E as _ <-. pose (unmark := fun f => Z.land f (Z.lnot MODULE_REMOVE)).
    split; [by apply (ok_flagged (m_addr m) unmark)|by apply (met_flagged (m_addr m) unmark)].
  - destruct (unload_keeps m g r g' Hok Hm E) as (g1 & Edb & Hok1 & ->). split; [by apply ok_without|].
    apply met_without; try done; [by rewrite Edb| |by eapply met_same].
    unfold module_is_needed in *. by rewrite Edb.
Qed.

Lemma open_inv path name g r g' :
  initng_module_open path name g = Done (r, g') ->
  g_module_db g' = g_module_db g /\ g_fresh g' = Pos.succ (g_fresh g) /\
  forall m, r = Some m -> m_addr m = g_fresh g /\ m_name m = name /\ m_flags m = 0 /\
    is_Some (mod_init (m_modinfo m)) /\ is_Some (mod_unload (m_modinfo m)).
Proof.
  unfold initng_module_open. intros E. apply mthen_Done in E as (m & g1 & [= <- <-] & E).
  apply mthen_Done in E as (x & g2 & [= <- <-] & E). destruct (sys_file_exists _ _); cbn [negb] in E; [|by injection E as <- <-].
  apply mthen_Done in E as (y & g3 & [= <- <-] & E).
  destruct (sys_dlopen _ _) as [[mi|]|]; try (by injection E as <- <-).
  destruct (_ =? API_VERSION); cbn [negb] in E; [|by injection E as <- <-].
  destruct (mod_init mi) eqn:E1; [|by injection E as <- <-]. destruct (mod_unload mi) eqn:E2; [|by injection E as <- <-].
  injection E as <- <-. split; [done|]. split; [done|]. intros m [= <-]. cbn. rewrite E1, E2. by repeat split.
Qed.

(** A module that was opened and is not on the list yet. *)
Definition opened (m : m_h) (g : s_global) : Prop :=
  m_addr m ∉ map m_addr (g_module_db g) /\ (m_addr m < g_fresh g)%positive /\
  is_Some (mod_init (m_modinfo m)) /\ is_Some (mod_unload (m_modinfo m)).

Lemma open_opened path name g r g' m :
  module_db_ok g -> initng_module_open path name g = Done (r, g') -> r = Some m -> opened m g'.
Proof.
  intros [_ Hf _] E Hr. destruct (open_inv _ _ _ _ _ E) as (Edb & Ef & H). destruct (H m Hr) as (Ea & _ & _ & H1 & H2).
  split; [|split; [rewrite Ef, Ea; lia|done]]. rewrite Edb, Ea. intros (x & Ex & Hx)%list_elem_of_fmap.
  apply (proj1 (Forall_forall _ _) Hf) in Hx. lia.
Qed.

Lemma open_ok path name g r g' : module_db_ok g -> initng_module_open path name g = Done (r, g') -> module_db_ok g'.
Proof. intros Hok E. destruct (open_inv _ _ _ _ _ E) as (Edb & Ef & _). eapply ok_called; [done|lia|done]. Qed.

Lemma ok_added m g : module_db_ok g -> opened m g -> module_db_ok (with_db (g_module_db g ++ [m]) g).
Proof.
  intros [H1 H2 H3] (Ha & Hf & Hc). split; cbn; [|by apply Forall_app; split; [|constructor]..].
  rewrite map_app. apply NoDup_app. split; [done|]. split; [|apply NoDup_singleton]. intros x Hx ->%list_elem_of_singleton. done.
Qed.

Lemma open_static_inv dirs size name g r g' :
  module_db_ok g -> open_static dirs size name g = Done (r, g') ->
  module_db_ok g' /\ g_module_db g' = g_module_db g /\ forall m, r = Some m -> opened m g'.
Proof.
  revert g. induction dirs as [|dir dirs IH]; intros g Hok E; cbn [open_static] in E; [by injection E as <- <-|].
  apply mthen_Done in E as (path & g1 & E1 & E). unfold deref in E1. destruct (alloc_string _ _); [|done]. injection E1 as -> <-.
  apply mthen_Done in E as (x & g1 & E1 & E). pose proof (open_ok _ _ _ _ _ Hok E1) as Hok1.
  destruct (open_inv _ _ _ _ _ E1) as (Edb & _ & _). destruct x as [m|].
  - injection E as <- <-. split; [done|]. split; [done|]. intros m' [= <-]. exact (open_opened _ _ _ _ _ _ Hok E1 eq_refl).
  - destruct (IH g1 Hok1 E) as (H1 & H2 & H3). by rewrite H2, Edb.
Qed.

Lemma load_keeps name g r g' : modules_fine g -> initng_module_load name g = Done (r, g') -> modules_fine g'.
Proof.
  intros [Hok Hmet] E. unfold initng_module_load in E. rewrite then_asks in E.
  destruct (module_is_loaded _ g); [injection E as <- <-; by split|].
  apply mthen_Done in E as (x & g1 & E1 & E). pose proof (open_ok _ _ _ _ _ Hok E1) as Hok1.
  destruct (open_inv _ _ _ _ _ E1) as (Edb1 & _ & _). apply mthen_Done in E as (y & g2 & E2 & E).
  assert (H2 : module_db_ok g2 /\ g_module_db g2 = g_module_db g /\ forall m, y = Some m -> opened m g2).
  { destruct x as [m|].
    - injection E2 as <- <-. split; [done|]. split; [done|]. intros m' [= <-]. exact (open_opened _ _ _ _ _ _ Hok E1 eq_refl).
    - destruct (open_static_inv _ _ _ _ _ _ Hok1 E2) as (H1 & H2 & H3). by rewrite H2, Edb1. }
  destruct H2 as (Hok2 & Edb2 & Hop). pose proof (met_same _ _ Edb2 Hmet) as Hmet2.
  destruct y as [m|]; [|injection E as <- <-; by split]. specialize (Hop m eq_refl). rewrite then_asks in E.
  destruct (module_needs_are_loaded m g2) eqn:En; cbn [negb] in E; [|done].
  apply mthen_Done in E as (f & g3 & E3 & E). unfold deref in E3. destruct (mod_init (m_modinfo m)) eqn:Ef; [|done]. injection E3 as -> <-.
  apply mthen_Done in E as (z & g3 & E3 & E). destruct (call_init_inv _ _ _ _ E3) as [Edb3 Hf3].
  destruct (0 <? z); cbn [negb] in E; [|done]. rewrite then_modify in E. injection E as <- <-.
  destruct Hop as (Ha & Hlt & Hc).
  split.
  - apply ok_added; [by eapply ok_called|]. split; [by rewrite Edb3|]. split; [cbn; lia|done].
  - intros w n Hw Hn. cbn in Hw. apply elem_of_app in Hw.
    assert (Hl : module_is_loaded n g3 = true).
    { unfold module_is_loaded. rewrite Edb3 in *. destruct Hw as [Hw| ->%list_elem_of_singleton]; [by apply (Hmet2 w)|].
      rewrite met_spec in En. by apply En. }
    apply loaded_spec in Hl as (v & Hv & Ev). apply loaded_spec. exists v. split; [|done]. cbn. apply elem_of_app. by left.
Qed.

(** Loading and unloading of single modules, one after the other. *)
Inductive module_step (g g' : s_global) : Prop :=
| do_load name r : initng_module_load name g = Done (r, g') -> module_step g g'
| do_unload_named name r : initng_module_unload_named name g = Done (r, g') -> module_step g g'
| do_unload_marked n r : initng_module_unload_marked n g = Done (r, g') -> module_step g g'.

Lemma module_step_keeps g g' : module_step g g' -> modules_fine g -> modules_fine g'.
Proof.
  intros [name r E|name r E|n r E] Hg.
  - by eapply load_keeps.
  - unfold initng_module_unload_named in E. rewrite then_asks in E. destruct (List.find _ _) as [m|]; [|by injection E as _ <-].
    unfold set_flags in E. rewrite !then_modify in E. injection E as _ <-. destruct Hg as [Hok Hmet].
    pose proof (ok_flagged (m_addr m) (fun f => Z.lor f MODULE_REMOVE) g Hok) as [H1 H2 H3].
    pose proof (met_flagged (m_addr m) (fun f => Z.lor f MODULE_REMOVE) g Hmet) as H4. by split; [split|].
  - by eapply unload_marked_keeps.
Qed.

(** C25: no module loses a module it needs.  Whatever modules are loaded by name,
    marked for removal and unloaded, in whatever order, every loaded module has
    all modules it needs: one is only loaded when they are there, and unloaded
    when no loaded module needs it. *)
Theorem needed_modules_stay g g' : module_db_ok g -> needs_met g -> rtc module_step g g' -> needs_met g'.
Proof.
  intros H1 H2 Hr. enough (modules_fine g') as [_ H] by done. revert Hr. apply rtc_ind_r; [by split|].
  intros x y _ Hs Hx. by eapply module_step_keeps.
Qed.

(** ** Unloading all modules *)

Lemma find_module_at g l1 a l2 :
  map m_addr (g_module_db g) = l1 ++ a :: l2 -> exists m, find_module a g = Some m /\ m_addr m = a /\ m ∈ g_module_db g.
Proof.
  intros E. assert (Ha : a ∈ map m_addr (g_module_db g)) by (rewrite E; set_solver).
  apply list_elem_of_fmap in Ha as (m & Em & Hm).
  destruct (find_module a g) as [m'|] eqn:Ef.
  - exists m'. pose proof Ef as Ef'. apply List.find_some in Ef' as [Hin Ea]. apply Pos.eqb_eq in Ea.
    split; [done|]. split; [done|by apply list_elem_of_In].
  - exfalso. eapply List.find_none in Ef; [|by apply list_elem_of_In]. by rewrite Em, Pos.eqb_refl in Ef.
Qed.

Lemma addrs_without l1 a l2 : NoDup (l1 ++ a :: l2) -> List.filter (fun x => negb (Pos.eqb x a)) (l1 ++ a :: l2) = l1 ++ l2.
Proof.
  intros (H1 & H2 & H3)%NoDup_app. apply NoDup_cons in H3 as [H3 _].
  rewrite List.filter_app. cbn. rewrite Pos.eqb_refl. cbn. rewrite !filter_neq_id; [done|done|].
  intros Ha. apply (H2 a Ha). by left.
Qed.

Lemma unload_loop_run n l g :
  module_db_ok g -> map m_addr (g_module_db g) = l -> (length l <= n)%nat ->
  exists g', while_module_db_safe n (head l) unload g = Done (tt, g').
Proof.
  revert l g. induction n as [|n IH]; intros [|a l] g Hok Hl Hn; cbn in Hn; try lia; cbn [head while_module_db_safe];
    try (by exists g).
  destruct (find_module_at g [] a l Hl) as (m & Hm & Ea & Hin). rewrite (then_deref _ _ _ m) by done.
  rewrite (then_deref _ _ _ (head l)) by (rewrite Hl; apply (next_of_mid []); rewrite <- Hl; apply Hok).
  destruct (proj1 (Forall_forall _ _) (mdb_code g Hok) m Hin) as [_ [f Hf]].
  destruct (unload_returns f g) as (g1 & E1 & Edb & Hfr). pose proof (ok_called _ _ Edb Hfr Hok) as Hok1.
  assert (E2 : unload m g = Done (tt, with_db (without (m_addr m) (g_module_db g1)) g1)).
  { unfold unload. rewrite (then_deref _ _ _ f) by done. by rewrite (mthen_run _ _ _ _ _ E1). }
  rewrite (mthen_run _ _ _ _ _ E2). apply IH; [by apply ok_without| |lia].
  cbn. rewrite without_addrs, Edb, Hl, Ea. apply (addrs_without [] a l). rewrite <- Hl. apply Hok.
Qed.

Lemma unload_all_run fuel g :
  module_db_ok g -> (length (g_module_db g) <= fuel)%nat ->
  exists g', initng_module_unload_all fuel g = Done (tt, g') /\ g_module_db g' = [].
Proof.
  intros Hok Hf. unfold initng_module_unload_all, first_module. rewrite then_asks.
  destruct (unload_loop_run fuel _ g Hok eq_refl) as (g1 & E1); [by rewrite length_map|].
  rewrite (mthen_run _ _ _ _ _ E1). by eexists.
Qed.

(** ** Loading all modules *)

Lemma initialized_or m : initialized (m <| m_flags := Z.lor (m_flags m) MODULE_INITIALIZED |>).
Proof.
  unfold initialized, MODULE_INITIALIZED. cbn. intros H. apply (f_equal (fun z => Z.testbit z 0)) in H.
  rewrite Z.land_spec, Z.lor_spec in H. cbn in H. by rewrite orb_true_r in H.
Qed.

(** One round: the module is initialised or gone, the others are as they were. *)
Lemma init_body_run g l1 a l2 m :
  module_db_ok g -> map m_addr (g_module_db g) = l1 ++ a :: l2 -> find_module a g = Some m -> m_addr m = a ->
  m ∈ g_module_db g ->
  Forall (fun x => m_addr x ∈ l1 -> initialized x) (g_module_db g) ->
  exists g' l1', init_body m g = Done (tt, g') /\ module_db_ok g' /\ map m_addr (g_module_db g') = l1' ++ l2 /\
    Forall (fun x => m_addr x ∈ l1' -> initialized x) (g_module_db g').
Proof.
  intros Hok Hl Hm Ea Hin Hi. rewrite Forall_forall in Hi. pose proof (mdb_nodup g Hok) as Hnd.
  assert (Hgone : forall g1, g_module_db g1 = g_module_db g -> module_db_ok g1 ->
    module_db_ok (with_db (without a (g_module_db g1)) g1) /\
    map m_addr (g_module_db (with_db (without a (g_module_db g1)) g1)) = l1 ++ l2 /\
    Forall (fun x => m_addr x ∈ l1 -> initialized x) (g_module_db (with_db (without a (g_module_db g1)) g1))).
  { intros g1 E1 Hok1. split; [by apply ok_without|]. cbn. rewrite without_addrs, E1, Hl, addrs_without by (by rewrite <- Hl).
    split; [done|]. apply Forall_forall. intros x [Hx _]%elem_of_without. by apply Hi. }
  unfold init_body. destruct (Z.land (m_flags m) MODULE_INITIALIZED =? 0) eqn:Ef; cbn [negb].
  - rewrite then_asks. destruct (module_needs_are_loaded m g); cbn [negb].
    + destruct (proj1 (Forall_forall _ _) (mdb_code g Hok) m Hin) as [[f Hf] _].
      rewrite (then_deref _ _ _ f) by done. destruct (init_returns f g) as (r & g1 & E1 & Edb & Hfr).
      rewrite (mthen_run _ _ _ _ _ E1). assert (Hok1 : module_db_ok g1) by (by eapply ok_called).
      rewrite Ea. destruct (0 <? r).
      * set (g2 := with_db (flagged a (fun f => Z.lor f MODULE_INITIALIZED) (g_module_db g1)) g1).
        exists g2, (l1 ++ [a]). split; [done|]. split; [by apply (ok_flagged a (fun f => Z.lor f MODULE_INITIALIZED))|].
        split; [cbn; by rewrite flagged_addrs, Edb, Hl, <- app_assoc|].
        apply Forall_forall. cbn. rewrite Edb. intros x Hx Hx1. apply list_elem_of_fmap in Hx as (y & -> & Hy).
        destruct (Pos.eqb_spec (m_addr y) a) as [Ey|Ey]; [apply initialized_or|].
        apply Hi; [done|]. set_solver.
      * exists (with_db (without a (g_module_db g1)) g1), l1. split; [done|by apply Hgone].
    + rewrite Ea. exists (with_db (without a (g_module_db g)) g), l1. split; [done|by apply Hgone].
  - exists g, (l1 ++ [a]). split; [done|]. split; [done|]. split; [by rewrite Hl, <- app_assoc|].
    apply Forall_forall. intros x Hx [Hx1|Hx1]%elem_of_app; [by apply Hi|]. apply list_elem_of_singleton in Hx1.
    assert (x = m) as ->; [|by apply Z.eqb_neq in Ef].
    apply list_elem_of_lookup in Hx as [i Hx]. apply list_elem_of_lookup in Hin as [j Hj].
    assert (i = j) as ->; [|congruence]. eapply (NoDup_lookup _ _ _ a Hnd); rewrite list_lookup_fmap, ?Hx, ?Hj; cbn; congruence.
Qed.

Lemma init_loop_run n l1 l2 g :
  module_db_ok g -> map m_addr (g_module_db g) = l1 ++ l2 -> (length l2 <= n)%nat ->
  Forall (fun x => m_addr x ∈ l1 -> initialized x) (g_module_db g) ->
  exists g', while_module_db_safe n (head l2) init_body g = Done (tt, g') /\ module_db_ok g' /\ Forall initialized (g_module_db g').
Proof.
  revert l1 l2 g. induction n as [|n IH]; intros l1 [|a l2] g Hok Hl Hn Hi; cbn in Hn; try lia; cbn [head while_module_db_safe].
  1, 2: exists g; split; [done|]; split; [done|]; apply Forall_forall; intros x Hx; apply (proj1 (Forall_forall _ _) Hi x Hx);
    rewrite app_nil_r in Hl; rewrite <- Hl; by apply list_elem_of_fmap_2.
  destruct (find_module_at g l1 a l2 Hl) as (m & Hm & Ea & Hin). rewrite (then_deref _ _ _ m) by done.
  rewrite (then_deref _ _ _ (head l2)) by (rewrite Hl; apply next_of_mid; rewrite <- Hl; apply Hok).
  destruct (init_body_run g l1 a l2 m Hok Hl Hm Ea Hin Hi) as (g1 & l1' & E1 & Hok1 & Hl1 & Hi1).
  rewrite (mthen_run _ _ _ _ _ E1). apply (IH l1' l2 g1); try done. lia.
Qed.

Lemma open_returns path name g : exists r g', initng_module_open path name g = Done (r, g').
Proof.
  unfold initng_module_open, syscall, new_addr. cbv [mthen asks modify mpure].
  repeat (case_match; simplify_eq); by do 2 eexists.
Qed.

Lemma open_all_run path files success g :
  module_db_ok g ->
  exists r g', open_all path files success g = Done (r, g') /\ module_db_ok g' /\
    (length (g_module_db g') <= length (g_module_db g) + length files)%nat.
Proof.
  revert success g. induction files as [|d_name files IH]; intros success g Hok; cbn [open_all length].
  { exists success, g. split; [done|]. split; [done|lia]. }
  assert (Hskip : exists r g', open_all path files success g = Done (r, g') /\ module_db_ok g' /\
    (length (g_module_db g') <= length (g_module_db g) + S (length files))%nat).
  { destruct (IH success g Hok) as (r & g' & E & H & Hle). exists r, g'. split; [done|]. split; [done|lia]. }
  destruct (is_mod_file (chars_of d_name)) as [rest|]; [|done].
  rewrite then_asks. destruct (initng_common_service_blacklisted _ _ _); [done|].
  destruct (open_returns (path +:+ "/" +:+ d_name) (to_string (strndup rest (Z.of_nat (length rest) - 3))) g) as (r & g1 & E1).
  rewrite (mthen_run _ _ _ _ _ E1). pose proof (open_ok _ _ _ _ _ Hok E1) as Hok1.
  destruct (open_inv _ _ _ _ _ E1) as (Edb & _ & _). destruct r as [m|].
  - rewrite then_modify. destruct (IH TRUE (with_db (g_module_db g1 ++ [m]) g1)) as (r & g' & E & H & Hle).
    { apply ok_added; [done|]. exact (open_opened _ _ _ _ _ _ Hok E1 eq_refl). }
    exists r, g'. split; [exact E|]. split; [done|]. cbn in Hle. rewrite length_app, Edb in Hle. cbn in Hle. lia.
  - destruct (IH success g1 Hok1) as (r & g' & E & H & Hle). exists r, g'. split; [done|]. split; [done|]. rewrite Edb in Hle. lia.
Qed.

(** All modules that are kept are initialised.  For a directory that can be read,
    initng_module_load_all returns, and every module that is then in the
    database has been initialised; the others were closed. *)
Theorem load_all_initialises fuel path files g :
  module_db_ok g -> sys_readdir (g_ticks g) path = Some files ->
  (length (g_module_db g) + length files <= fuel)%nat ->
  exists r g', initng_module_load_all fuel path g = Done (r, g') /\ module_db_ok g' /\ Forall initialized (g_module_db g').
Proof.
  intros Hok Hd Hf. unfold initng_module_load_all, syscall. rewrite (mthen_run _ _ g (Some files) (g <| g_ticks := S (g_ticks g) |>)).
  2:{ cbv [mthen asks modify mpure]. by rewrite Hd. }
  destruct (open_all_run path files FALSE (g <| g_ticks := S (g_ticks g) |>)) as (r & g1 & E1 & Hok1 & Hle).
  { eapply ok_called; [..|exact Hok]; [done|cbn; lia]. }
  rewrite (mthen_run _ _ _ _ _ E1). unfold first_module. rewrite then_asks.
  destruct (init_loop_run fuel [] (map m_addr (g_module_db g1)) g1) as (g2 & E2 & Hok2 & Hi); [done|done| |by apply Forall_forall; intros x _ ?%elem_of_nil|].
  { rewrite length_map. cbn in Hle. lia. }
  rewrite (mthen_run _ _ _ _ _ E2). by exists r, g2.
Qed.

End laws.
