(* ===== verification/Typed.v ===== *)
(** * What the core keeps: well-formed databases of well-typed services

    A service type comes with the states its services may be in and the types
    of the processes they may have; the functions in these structs are code of
    the module that owns the type.  Here the whole core - depend/, handler/,
    interrupt/, kill/, signal/, io/, execute/ - is shown to keep services within
    their types, given callbacks that do (class TypedCallbacks); file System
    gives the callbacks of the modules. *)
From S2P Require Import Prelude Types Data CString Global ActiveDb Depend Io Interrupt.
From Stdlib Require Import String.
From stdpp Require Import prelude gmap strings.
Local Open Scope Z_scope.

(** ** Well-typed services *)

(** The states of the core. *)
Definition core_states : list a_state_h := [NEW; LOADING; FREEING; REQ_NOT_FOUND].

(** The states and process types of each service type, [None] for a type
    nothing is known of, and those that services of every type may have.  In
    an unsettled state a service is still being loaded: its type may change, and
    there is no code for the state. *)
Class Typing := {
  type_states : stype_h -> option (list a_state_h);
  type_ptypes : stype_h -> option (list ptype_h);
  common_states : list a_state_h;
  common_ptypes : list ptype_h;
  unsettled : list a_state_h;
  core_common : forall st, st ∈ core_states -> st ∈ common_states /\ st ∉ unsettled;
  unsettled_common : forall st, st ∈ unsettled -> st ∈ common_states;
  unsettled_inert : forall st, st ∈ unsettled ->
    st_is st = IS_NEW /\ st_interrupt st = None /\ st_init st = None /\ st_alarm st = None
}.

Section typed.
Context `{TY : Typing}.

Definition state_ok (ty : option stype_h) (st : a_state_h) : Prop :=
  match ty ≫= type_states with Some l => st ∈ common_states ++ l | None => True end.

Definition ptype_ok (ty : option stype_h) (pt : ptype_h) : Prop :=
  match ty ≫= type_ptypes with Some l => pt ∈ common_ptypes ++ l | None => True end.

(** A state that a settled service may be put in. *)
Definition mark_ok (ty : option stype_h) (st : a_state_h) : Prop := state_ok ty st /\ st ∉ unsettled.

Record svc_ok (fresh : addr) (a : active_db_h) : Prop := {
  so_state : state_ok (a_type a) (a_current_state a);
  so_next : forall st, a_next_state a = Some st -> mark_ok (a_type a) st;
  so_unsettled : a_current_state a ∈ unsettled ->
    Forall (fun q => p_pt q ∈ common_ptypes) (a_processes a) /\
    forall st, a_next_state a = Some st -> st ∈ common_states;
  so_processes : Forall (fun q => ptype_ok (a_type a) (p_pt q)) (a_processes a);
  so_data : Forall (fun c => (d_addr c < fresh)%positive) (all_entries (a_data a))
}.

Record sys_ok (g : s_global) : Prop := {
  ok_wf : wf g;
  ok_svc : forall s a, g_heap g !! s = Some a -> svc_ok (g_fresh g) a
}.

(** Once it is settled, a service stays so and keeps its type as long as it lives. *)
Definition still (a b : active_db_h) : Prop :=
  a_current_state a ∉ unsettled -> a_type b = a_type a /\ a_current_state b ∉ unsettled.

Definition types_stay (g g' : s_global) : Prop :=
  (g_fresh g <= g_fresh g')%positive /\
  forall s b, g_heap g' !! s = Some b ->
    (g_fresh g <= s)%positive \/ exists a, g_heap g !! s = Some a /\ still a b.

Lemma still_refl a : still a a.
Proof. by intros H. Qed.

#[export] Instance types_stay_preorder : PreOrder types_stay.
Proof.
  split.
  - intros g. split; [lia|]. intros s b Hb. right. exists b. split; [done|apply still_refl].
  - intros g1 g2 g3 [A1 A2] [B1 B2]. split; [lia|]. intros s c Hc.
    destruct (B2 s c Hc) as [Hs|(b & Hb & E)]; [left; lia|].
    destruct (A2 s b Hb) as [Hs|(a & Ha & E')]; [by left|]. right. exists a. split; [done|].
    intros Hst. destruct (E' Hst) as [T1 S1]. destruct (E S1) as [T2 S2]. split; [congruence|done].
Qed.

Definition sys_step (g g' : s_global) : Prop := sys_ok g -> sys_ok g' /\ types_stay g g'.

#[export] Instance sys_step_preorder : PreOrder sys_step.
Proof.
  split.
  - intros g Hg. split; [done|reflexivity].
  - intros g1 g2 g3 H1 H2 Hg. destruct (H1 Hg) as [Hg2 T1]. destruct (H2 Hg2) as [Hg3 T2].
    split; [done|by etransitivity].
Qed.

(** ** Computations that keep the system well typed under a condition *)

(** A condition that no such step can end. *)
Class Stays (P : s_global -> Prop) := stays : forall g g', sys_ok g -> sys_step g g' -> P g -> P g'.

Definition kept {A} (P : s_global -> Prop) (m : G A) : Prop :=
  forall g a g', P g -> m g = Done (a, g') -> sys_step g g'.

Definition anywhere (g : s_global) : Prop := True.
#[export] Instance anywhere_stays : Stays anywhere.
Proof. by intros g g'. Qed.

(** [s] is, or was while it lived, a settled service of type [ty]. *)
Definition of_type (s : addr) (ty : option stype_h) (g : s_global) : Prop :=
  (s < g_fresh g)%positive /\ forall a, g_heap g !! s = Some a -> a_type a = ty /\ a_current_state a ∉ unsettled.

#[export] Instance of_type_stays s ty : Stays (of_type s ty).
Proof.
  intros g g' Hok Hstep [Hs Ht]. destruct (Hstep Hok) as [_ [Hf Hst]]. split; [lia|].
  intros b Hb. destruct (Hst s b Hb) as [Hn|(a & Ha & Hab)]; [lia|]. destruct (Ht a Ha) as [<- Hset]. by apply Hab.
Qed.

Section rules.
Context (P : s_global -> Prop) `{HP : !Stays P}.

Lemma kept_steps {A} (m : G A) : steps sys_step m -> kept P m.
Proof. intros H g a g' _. apply H. Qed.

Lemma kept_anywhere {A} (m : G A) : kept anywhere m -> kept P m.
Proof. intros H g a g' _. by apply H. Qed.

Lemma kept_pure {A} (a : A) : kept P (mpure a).
Proof. apply kept_steps, steps_pure, _. Qed.

Lemma kept_asks {A} (f : s_global -> A) : kept P (asks f).
Proof. apply kept_steps, steps_asks, _. Qed.

Lemma kept_deref {A} (f : s_global -> option A) : kept P (deref f).
Proof. apply kept_steps, steps_deref, _. Qed.

Lemma kept_fault {A} : kept P (@fault _ A).
Proof. apply kept_steps, steps_fault. Qed.

Lemma kept_nofuel {A} : kept P (@nofuel _ A).
Proof. apply kept_steps, steps_nofuel. Qed.

Lemma kept_then {A B} (m : G A) (k : A -> G B) : kept P m -> (forall a, kept P (k a)) -> kept P (mthen m k).
Proof.
  intros Hm Hk g b g' HPg E. unfold mthen in E. destruct (m g) as [[a g1]| |] eqn:E1; [|done..].
  pose proof (Hm _ _ _ HPg E1) as S1. intros Hok. destruct (S1 Hok) as [Hok1 T1].
  destruct (Hk a g1 b g' (stays _ _ Hok S1 HPg) E Hok1) as [Hok2 T2]. split; [done|by etransitivity].
Qed.

Lemma kept_get_service {A} s (k : active_db_h -> G A) :
  (forall a g b g', P g -> g_heap g !! s = Some a -> k a g = Done (b, g') -> sys_step g g') ->
  kept P (let! a := get_service s in k a).
Proof.
  intros Hk g b g' HPg E. unfold mthen, get_service, deref in E.
  destruct (g_heap g !! s) as [a|] eqn:Ha; [|done]. by eapply Hk.
Qed.

(** Behind the lookup of a service, it is well typed, and its type is known
    unless it is still being loaded. *)
Lemma kept_typed_service {A} s (k : active_db_h -> G A) :
  (forall a fresh, a_current_state a ∈ unsettled -> svc_ok fresh a -> kept anywhere (k a)) ->
  (forall a fresh, svc_ok fresh a -> kept (of_type s (a_type a)) (k a)) -> kept P (let! a := get_service s in k a).
Proof.
  intros Hu Hk. apply kept_get_service. intros a g b g' _ Ha E Hok.
  destruct (decide (a_current_state a ∈ unsettled)) as [Hin|Hset].
  - by eapply Hu; [| | |exact E|]; [|apply (ok_svc g Hok s)|..].
  - eapply Hk; [by apply (ok_svc g Hok s)| |exact E|done].
    split; [apply (wf_fresh g (ok_wf g Hok)); by eexists|]. intros a' Ha'. rewrite Ha in Ha'. by injection Ha' as <-.
Qed.

Lemma kept_for_each {A T} (l : list A) (body : A -> G (option T)) :
  (forall x, kept P (body x)) -> kept P (for_each l body).
Proof.
  intros Hb. induction l as [|x l IH]; cbn; [apply kept_pure|].
  apply kept_then; [apply Hb|]. intros [v|]; [apply kept_pure|exact IH].
Qed.

Lemma kept_while {R} fuel current (body : addr -> G (option R)) :
  (forall s, kept P (body s)) -> kept P (while_active_db fuel current body).
Proof.
  intros Hb. revert current. induction fuel as [|fuel IH]; intros [s|]; cbn;
    [apply kept_nofuel|apply kept_pure| |apply kept_pure].
  apply kept_then; [apply Hb|]. intros [v|]; [apply kept_pure|]. apply kept_then; [apply kept_deref|auto].
Qed.

Lemma kept_while_safe {R} fuel current (body : addr -> G (option R)) :
  (forall s, kept P (body s)) -> kept P (while_active_db_safe fuel current body).
Proof.
  intros Hb. revert current. induction fuel as [|fuel IH]; intros [s|]; cbn;
    [apply kept_nofuel|apply kept_pure| |apply kept_pure].
  apply kept_then; [apply kept_deref|]. intros next. apply kept_then; [apply Hb|].
  intros [v|]; [apply kept_pure|apply IH].
Qed.

(** A change of what is neither the database nor an allocation. *)
Lemma kept_modify (f : s_global -> s_global) :
  (forall g, g_heap (f g) = g_heap g /\ g_fresh (f g) = g_fresh g /\ g_active_db (f g) = g_active_db g /\
    g_interrupt (f g) = g_interrupt g) -> kept P (modify f).
Proof.
  intros Hf g a g' _ E. unfold modify in E. injection E as _ <-. intros [[H1 H2 H3 H4 H5 H6 H7] Hs].
  destruct (Hf g) as (E1 & E2 & E3 & E4). split.
  - split; [|intros s a' Ha; rewrite E1 in Ha; rewrite E2; by apply (Hs s)].
    split; rewrite ?E1, ?E2, ?E3, ?E4; done.
  - split; [by rewrite E2|]. intros s b Hb. right. exists b. rewrite E1 in Hb. split; [done|apply still_refl].
Qed.

End rules.

(** A service known to be settled keeps its type. *)
Lemma kept_settled_service {A} s ty (k : active_db_h -> G A) :
  (forall a, a_type a = ty -> kept (of_type s ty) (k a)) -> kept (of_type s ty) (let! a := get_service s in k a).
Proof.
  intros Hk. apply kept_get_service. intros a g b g' Ht Ha E. eapply Hk; [|exact Ht|exact E]. by apply Ht.
Qed.
End typed.

(** One structural step of a [kept] goal.  It stops before a lookup of a service,
    since what follows may depend on the type of that service. *)
Ltac kept_step :=
  lazymatch goal with
  | |- forall _, kept _ _ => intro
  | |- kept _ (mpure _) => apply kept_pure
  | |- kept _ (asks _) => apply kept_asks
  | |- kept _ (deref _) => apply kept_deref
  | |- kept _ fault => apply kept_fault
  | |- kept _ nofuel => apply kept_nofuel
  | |- kept _ (mthen (get_service _) _) => fail
  | |- kept _ (mthen (get_process _ _) _) => fail
  | |- kept _ (mthen _ _) => apply kept_then; [exact _| |]
  | |- kept _ (for_each _ _) => apply kept_for_each; [exact _|]
  | |- kept _ (while_active_db _ _ _) => apply kept_while; [exact _|]
  | |- kept _ (while_active_db_safe _ _ _) => apply kept_while_safe; [exact _|]
  | |- kept _ (if ?b then _ else _) => destruct b
  | |- kept _ (match ?x with _ => _ end) => destruct x
  end.

Create HintDb kept.
Ltac kept_hint := solve [auto 3 with kept nocore | apply kept_anywhere; auto 3 with kept nocore].
Ltac kept_auto := repeat first [kept_step | kept_hint].

(** ** Operations on one service *)

Section services.
Context `{TY : Typing}.

Lemma put_step g s a b :
  g_heap g !! s = Some a -> still a b -> a_name b = a_name a ->
  (sys_ok g -> wf_active b /\ svc_ok (g_fresh g) b) -> sys_step g (put_service s b g).
Proof.
  intros Ha Ht Hn Hb Hok. destruct (Hb Hok) as [Hw Hs]. split.
  - split; [eapply wf_put; try done; apply Hok|]. intros x c. cbn. rewrite lookup_insert. case_decide.
    + by intros [= <-].
    + apply (ok_svc g Hok).
  - split; [reflexivity|]. intros x c. cbn. rewrite lookup_insert. case_decide.
    + intros [= <-]. subst. right. by exists a.
    + intros Hc. right. exists c. split; [done|apply still_refl].
Qed.

Lemma interrupt_add_step g s : is_Some (g_heap g !! s) -> sys_step g (interrupt_add s g).
Proof.
  intros Hs Hok. split.
  - split; [apply wf_interrupt_add; [apply Hok|done]|]. intros x c Hc.
    unfold interrupt_add in *. case_decide; by apply (ok_svc g Hok x).
  - unfold interrupt_add. case_decide; [reflexivity|]. split; [reflexivity|]. intros x c Hc. right. exists c.
    split; [done|apply still_refl].
Qed.

(** What an update may change without a closer look: times, alarm, cache, and
    the processes as long as no new type of process appears. *)
Record same_svc (a b : active_db_h) : Prop := {
  sv_hash : a_name_hash b = a_name_hash a;
  sv_name : a_name b = a_name a;
  sv_type : a_type b = a_type a;
  sv_state : a_current_state b = a_current_state a;
  sv_next : a_next_state b = a_next_state a;
  sv_lock : a_state_lock b = a_state_lock a;
  sv_data : a_data b = a_data a;
  sv_processes : forall q, q ∈ a_processes b -> exists r, r ∈ a_processes a /\ p_pt q = p_pt r
}.

Lemma same_svc_step g s a b : g_heap g !! s = Some a -> same_svc a b -> sys_step g (put_service s b g).
Proof.
  intros Ha [E1 E2 E3 E4 E5 E6 E7 E8]. eapply put_step; [done|unfold still; by rewrite E3, E4|done|]. intros Hok.
  split; [by eapply wf_active_same; [apply (wf_svc g (ok_wf g Hok) s a Ha)|..]|].
  assert (Hall : forall Q : ptype_h -> Prop, Forall (fun q => Q (p_pt q)) (a_processes a) -> Forall (fun q => Q (p_pt q)) (a_processes b)).
  { intros Q HQ. apply Forall_forall. intros q Hq. destruct (E8 q Hq) as (r & Hr & ->).
    rewrite Forall_forall in HQ. by apply HQ. }
  destruct (ok_svc g Hok s a Ha) as [S1 S2 SU S3 S4]. split; rewrite ?E3, ?E4, ?E5, ?E7; try done; [|by apply Hall].
  intros Hu. destruct (SU Hu) as [U1 U2]. split; [by apply (Hall (fun pt => pt ∈ common_ptypes))|done].
Qed.

Lemma kept_upd P s f : (forall a, same_svc a (f a)) -> kept P (upd_service s f).
Proof.
  intros Hf g r g' _ E. destruct (g_heap g !! s) as [a|] eqn:Ha.
  - rewrite (upd_service_run _ _ _ _ Ha) in E. injection E as <- <-. by eapply same_svc_step.
  - unfold upd_service, mthen, get_service, deref in E. by rewrite Ha in E.
Qed.

Lemma same_processes a f :
  (forall q, p_pt (f q) = p_pt q) -> forall q, q ∈ map f (a_processes a) -> exists r, r ∈ a_processes a /\ p_pt q = p_pt r.
Proof. intros Hf q (r & -> & Hr)%list_elem_of_fmap. exists r. by rewrite Hf. Qed.

Lemma kept_process_free P s p : kept P (upd_service s (mark_process_free p)).
Proof.
  apply kept_upd. intros a. split; try done. cbn. apply same_processes. intros q. by destruct (Pos.eqb _ _).
Qed.

Lemma kept_upd_process P s p f : (forall q, p_pt (f q) = p_pt q) -> kept P (upd_process s p f).
Proof.
  intros Hf. apply kept_upd. intros a. split; try done. cbn. apply same_processes. intros q.
  destruct (Pos.eqb _ _); [apply Hf|done].
Qed.

Lemma kept_put_pipe P s p k pi : kept P (put_pipe s p k pi).
Proof. by apply kept_upd_process. Qed.

(** ** States *)

Lemma state_ok_common ty st : st ∈ common_states -> state_ok ty st.
Proof. intros H. unfold state_ok. destruct (ty ≫= _); [|done]. apply elem_of_app. by left. Qed.

Lemma ptype_ok_common ty pt : pt ∈ common_ptypes -> ptype_ok ty pt.
Proof. intros H. unfold ptype_ok. destruct (ty ≫= _); [|done]. apply elem_of_app. by left. Qed.

Lemma mark_ok_core ty st : st ∈ core_states -> mark_ok ty st.
Proof. intros H. destruct (core_common st H). split; [by apply state_ok_common|done]. Qed.

Lemma apply_next_state_parts st now a :
  let b := apply_next_state st now a in
  a_name_hash b = a_name_hash a /\ a_name b = a_name a /\ a_type b = a_type a /\ a_current_state b = st /\
  a_next_state b = None /\ a_state_lock b = a_state_lock a /\ a_data b = a_data a /\ a_processes b = a_processes a.
Proof. unfold apply_next_state. cbv zeta. by case_decide. Qed.

(** A change of the state to one that the type allows. *)
Lemma state_step g s a b :
  g_heap g !! s = Some a -> a_name_hash b = a_name_hash a -> a_name b = a_name a -> a_type b = a_type a ->
  a_data b = a_data a -> a_processes b = a_processes a -> 0 <= a_state_lock b ->
  (is_Some (a_next_state b) -> 0 < a_state_lock b) ->
  svc_ok (g_fresh g) a ->
  a_current_state b = a_current_state a \/ mark_ok (a_type a) (a_current_state b) ->
  (forall st, a_next_state b = Some st -> mark_ok (a_type a) st /\ (a_current_state b ∈ unsettled -> st ∈ common_states)) ->
  sys_step g (put_service s b g).
Proof.
  intros Ha E1 E2 E3 E4 E5 Hl Hn [S1 S2 SU S3 S4] Hcur Hnext. eapply put_step; [done| |done|].
  - intros Hset. rewrite E3. split; [done|]. destruct Hcur as [->|[_ Hm]]; done.
  - intros Hok. destruct (wf_svc g (ok_wf g Hok) s a Ha) as [W1 W2 W3 W4].
    split; split; rewrite ?E1, ?E2, ?E3, ?E4, ?E5; try done.
    + destruct Hcur as [->|[Hm _]]; done.
    + intros st Hst. by apply Hnext.
    + intros Hu. split; [|intros st Hst; by apply Hnext]. destruct Hcur as [Ec|[_ Hm]]; [|done].
      rewrite Ec in Hu. by apply SU.
Qed.

Lemma next_ok fresh a :
  svc_ok fresh a ->
  forall st, a_next_state a = Some st -> mark_ok (a_type a) st /\ (a_current_state a ∈ unsettled -> st ∈ common_states).
Proof. intros [_ S2 SU _ _] st Hst. split; [by apply S2|]. intros Hu. by apply (SU Hu). Qed.

(** The side conditions that hold by inspection. *)
Local Ltac by_state_step := eapply state_step; try done; cbn; try lia; try (by intros []); try (by left); try done.

(** A state that may be set: every settled service of the type may have it, and
    those that are being loaded only when every type has it. *)
Lemma mark_step g s a st r g' :
  g_heap g !! s = Some a -> 0 <= a_state_lock a -> svc_ok (g_fresh g) a ->
  mark_ok (a_type a) st -> (a_current_state a ∈ unsettled -> st ∈ common_states) ->
  mark_result s st a g = (r, g') -> sys_step g g'.
Proof.
  intros Ha Hl Hsvc Hst Hc E. unfold mark_result in E. destruct (c_true (a_state_lock a)) eqn:El; cbn [andb] in E.
  - assert (0 < a_state_lock a) by (apply c_true_spec in El; lia).
    destruct (bool_decide _); [by injection E as <- <-|].
    destruct (decide (a_current_state a = st)); injection E as <- <-.
    + by_state_step; exact (next_ok _ _ Hsvc).
    + by_state_step; by intros x [= <-].
  - destruct (decide (a_current_state a = st)); injection E as <- <-.
    + by_state_step; exact (next_ok _ _ Hsvc).
    + set (b := apply_next_state _ _ _).
      destruct (apply_next_state_parts st (g_clock g) (a <| a_next_state := Some st |> <| a_state_lock := 0 |>))
        as (E1 & E2 & E3 & E4 & E5 & E6 & E7 & E8). fold b in E1, E2, E3, E4, E5, E6, E7, E8.
      etransitivity; [|apply interrupt_add_step; eexists; apply put_service_lookup].
      eapply state_step; try done; rewrite ?E4, ?E5, ?E6; try done; first [by intros []|by right].
Qed.

Lemma mark_missing g s st r g' : g_heap g !! s = None -> initng_common_mark_service s st g <> Done (r, g').
Proof. intros Ha E. unfold initng_common_mark_service, mthen, get_service, deref in E. by rewrite Ha in E. Qed.

Lemma kept_mark_service s ty st : mark_ok ty st -> kept (of_type s ty) (initng_common_mark_service s st).
Proof.
  intros Hst g r g' [_ Hty] E Hok. destruct (g_heap g !! s) as [a|] eqn:Ha; [|by apply mark_missing in E].
  destruct (Hty a eq_refl) as [Et Hset].
  rewrite (mark_service_run _ _ _ _ Ha) in E. injection E as E. eapply mark_step; try done.
  - apply (wf_svc g (ok_wf g Hok) s a Ha).
  - by apply (ok_svc g Hok s).
  - by rewrite Et.
Qed.

(** A state that every service may have may be set by anyone. *)
Lemma kept_mark_common P s st : st ∈ common_states -> st ∉ unsettled -> kept P (initng_common_mark_service s st).
Proof.
  intros Hst Hu g r g' _ E Hok. destruct (g_heap g !! s) as [a|] eqn:Ha; [|by apply mark_missing in E].
  rewrite (mark_service_run _ _ _ _ Ha) in E. injection E as E. eapply mark_step; try done.
  - apply (wf_svc g (ok_wf g Hok) s a Ha).
  - by apply (ok_svc g Hok s).
  - split; [by apply state_ok_common|done].
Qed.

Lemma kept_mark_core P s st : st ∈ core_states -> kept P (initng_common_mark_service s st).
Proof. intros Hst. destruct (core_common st Hst). by apply kept_mark_common. Qed.

Lemma kept_lock P s : kept P (initng_common_state_lock s).
Proof.
  intros g r g' _ E. unfold initng_common_state_lock in E. destruct (g_heap g !! s) as [a|] eqn:Ha.
  - rewrite (upd_service_run _ _ _ _ Ha) in E. injection E as <- <-. intros Hok.
    destruct (wf_svc g (ok_wf g Hok) s a Ha) as [W1 W2 W3 W4]. pose proof (ok_svc g Hok s a Ha) as Hsvc. revert Hok.
    by_state_step; exact (next_ok _ _ Hsvc).
  - unfold upd_service, mthen, get_service, deref in E. by rewrite Ha in E.
Qed.

Lemma kept_unlock P s : kept P (initng_common_state_unlock s).
Proof.
  intros g r g' _ E Hok. destruct (g_heap g !! s) as [a|] eqn:Ha.
  2:{ unfold initng_common_state_unlock, mthen, get_service, deref in E. by rewrite Ha in E. }
  rewrite (state_unlock_run _ _ _ Ha) in E. cbv zeta in E.
  set (lock := if c_true (a_state_lock a) then a_state_lock a - 1 else 0) in *.
  destruct (wf_svc g (ok_wf g Hok) s a Ha) as [W1 W2 W3 W4]. pose proof (ok_svc g Hok s a Ha) as Hsvc.
  pose proof (next_ok _ _ Hsvc) as Hnext.
  assert (Hlock : 0 <= lock).
  { unfold lock. destruct (c_true _) eqn:El; [|done]. apply c_true_spec in El. lia. }
  revert Hok. destruct (c_true lock) eqn:Ec.
  { injection E as <- <-. apply c_true_spec in Ec. by_state_step. }
  destruct (a_next_state a) as [next|] eqn:En; injection E as <- <-.
  - set (b := apply_next_state _ _ _).
    destruct (apply_next_state_parts next (g_clock g) (a <| a_state_lock := lock |>))
      as (E1 & E2 & E3 & E4 & E5 & E6 & E7 & E8). fold b in E1, E2, E3, E4, E5, E6, E7, E8.
    change (sys_step g (interrupt_add s (put_service s b g))).
    etransitivity; [|apply interrupt_add_step; eexists; apply put_service_lookup].
    eapply state_step; try done; rewrite ?E4, ?E5, ?E6; try done; first [by intros []|right; by apply Hnext].
  - by_state_step; rewrite ?En; by intros [].
Qed.

(** ** Allocation and variables *)

Lemma svc_ok_fresh f1 f2 a : (f1 <= f2)%positive -> svc_ok f1 a -> svc_ok f2 a.
Proof.
  intros Hf [S1 S2 SU S3 S4]. split; try done. apply (Forall_impl _ _ _ S4). intros c Hc. lia.
Qed.

Lemma fresh_step g f : (g_fresh g <= f)%positive -> sys_step g (g <| g_fresh := f |>).
Proof.
  intros Hf [[H1 H2 H3 H4 H5 H6 H7] Hs]. split.
  - split.
    + split; try done. intros s Hs'. specialize (H7 s Hs'). cbn. lia.
    + intros s a Ha. eapply svc_ok_fresh; [exact Hf|]. by apply (Hs s).
  - split; [done|]. intros s b Hb. right. exists b. split; [done|apply still_refl].
Qed.

Lemma kept_new_addr P : kept P new_addr.
Proof. intros g a g' _ [= <- <-]. apply fresh_step. lia. Qed.

(** A setter that adds at most an entry at the fresh address. *)
Definition sets_at (F : addr -> data_head -> data_head) : Prop :=
  forall fresh d, data_ok d -> Forall (fun c => (d_addr c < fresh)%positive) (all_entries d) ->
    data_ok (F fresh d) /\ Forall (fun c => (d_addr c < Pos.succ fresh)%positive) (all_entries (F fresh d)).

Lemma kept_set_data P s F :
  sets_at F ->
  kept P (let! fresh := new_addr in upd_service s (fun a => a <| a_data := F fresh (a_data a) |>)).
Proof.
  intros HF g r g' _ E. unfold new_addr in E. rewrite (mthen_run _ _ g (g_fresh g) (g <| g_fresh := Pos.succ (g_fresh g) |>) eq_refl) in E.
  set (g1 := g <| g_fresh := Pos.succ (g_fresh g) |>) in E.
  destruct (g_heap g !! s) as [a|] eqn:Ha.
  2:{ unfold upd_service, mthen, get_service, deref in E. cbn in E. by rewrite Ha in E. }
  rewrite (upd_service_run g1 s a _ Ha) in E. injection E as <- <-. intros Hok.
  destruct (wf_svc g (ok_wf g Hok) s a Ha) as [W1 W2 W3 W4]. destruct (ok_svc g Hok s a Ha) as [S1 S2 SU S3 S4].
  destruct (HF (g_fresh g) (a_data a) W4 S4) as [D1 D2].
  refine (transitivity (R := sys_step) (y := g1) _ _ Hok); [apply fresh_step; lia|].
  eapply put_step; [exact Ha|by intros|done|]. intros _. by split; split.
Qed.

Lemma all_entries_add c d :
  d_linked c = false -> all_entries (data_list_add c d) ≡ₚ (c <| d_linked := true |>) :: all_entries d.
Proof.
  intros Hc. unfold data_list_add. rewrite Hc. destruct d as [l|l res]; cbn [all_entries].
  - symmetry. apply Permutation_cons_append.
  - rewrite <- app_assoc. symmetry. apply (Permutation_middle l).
Qed.

Lemma add_at c : d_linked c = false -> forall fresh d, d_addr c = fresh -> data_ok d ->
  Forall (fun c => (d_addr c < fresh)%positive) (all_entries d) ->
  data_ok (data_list_add c d) /\ Forall (fun c => (d_addr c < Pos.succ fresh)%positive) (all_entries (data_list_add c d)).
Proof.
  intros Hc fresh d <- Hok Hf. unfold data_ok. rewrite (all_entries_add c d Hc). cbn [map]. split.
  - constructor; [|done]. intros (x & E & Hx)%list_elem_of_fmap. rewrite Forall_forall in Hf.
    specialize (Hf x Hx). cbn in E. lia.
  - constructor; [cbn; lia|]. apply (Forall_impl _ _ _ Hf). intros x Hx. lia.
Qed.

Lemma stay_at d fresh : data_ok d -> Forall (fun c => (d_addr c < fresh)%positive) (all_entries d) ->
  data_ok d /\ Forall (fun c => (d_addr c < Pos.succ fresh)%positive) (all_entries d).
Proof. intros H1 H2. split; [done|]. apply (Forall_impl _ _ _ H2). intros x Hx. lia. Qed.

Lemma data_ok_store a t d : data_ok d -> data_ok (data_store a t d).
Proof.
  unfold data_ok. rewrite all_entries_store, List.map_map. intros H. erewrite List.map_ext; [exact H|].
  intros c. by destruct (Pos.eqb _ _).
Qed.

Lemma sets_at_var type vn : sets_at (fun fresh => initng_data_set_var type vn fresh).
Proof.
  intros fresh d Hok Hf. unfold initng_data_set_var. repeat case_match; try by apply stay_at. by apply add_at.
Qed.

Lemma sets_at_int type vn value : sets_at (fun fresh d => initng_data_set_int_var type vn fresh d value).
Proof.
  intros fresh d Hok Hf. unfold initng_data_set_int_var. repeat case_match; try by apply stay_at.
  - apply stay_at; [by apply data_ok_store|]. rewrite all_entries_store. apply Forall_fmap.
    apply (Forall_impl _ _ _ Hf). intros c Hc. cbn. by destruct (Pos.eqb _ _).
  - by apply add_at.
Qed.

Lemma kept_data_remove P ent s : kept P (data_remove ent s).
Proof.
  apply kept_get_service. intros a g b g' _ Ha E Hok.
  destruct (wf_svc g (ok_wf g Hok) s a Ha) as [W1 W2 W3 W4]. destruct (ok_svc g Hok s a Ha) as [S1 S2 SU S3 S4].
  unfold initng_data_remove_var in E.
  destruct (remove_loop_spec (S (length (all_entries (a_data a)))) ent None (a_data a) W4) as (d & Ed & Hd); [lia|].
  rewrite Ed in E. injection E as <- <-. revert Hok. eapply put_step; [done|by intros|done|]. intros _. split; split; try done; cbn.
  - unfold data_ok. rewrite Hd. clear -W4. unfold data_ok in W4. induction (all_entries (a_data a)) as [|x l IH]; [done|].
    cbn in *. apply NoDup_cons in W4 as [Hx W4]. destruct (negb _); [|by apply IH]. cbn. constructor; [|by apply IH].
    intros (y & Ey & [Hy _]%list_elem_of_In%filter_In)%list_elem_of_fmap. apply Hx. rewrite Ey.
    apply list_elem_of_fmap_2. by apply list_elem_of_In.
  - rewrite Hd. apply Forall_forall. intros c Hc%list_elem_of_In. apply filter_In in Hc as [Hc _].
    rewrite Forall_forall in S4. apply S4. by apply list_elem_of_In.
Qed.

(** ** The active_db *)

Lemma kept_active_db_new P name : kept P (initng_active_db_new name).
Proof.
  intros g s g' _ E Hok. pose proof (steps_active_db_new name _ _ _ E (ok_wf g Hok)) as Hwf'.
  cbv [initng_active_db_new new_addr mthen asks modify mpure] in E. injection E as <- <-. split.
  - split; [done|]. intros x b. cbn. rewrite lookup_insert. case_decide.
    + intros [= <-]. split; cbn; try done; by constructor.
    + intros Hb. eapply svc_ok_fresh; [|by apply (ok_svc g Hok x)]. lia.
  - split; [cbn; lia|]. intros x b. cbn. rewrite lookup_insert. case_decide.
    + intros _. left. subst. reflexivity.
    + intros Hb. right. exists b. split; [done|apply still_refl].
Qed.

(** A new service that its creator sets up before anyone else sees it. *)
Definition new_with (name : string) (f : active_db_h -> active_db_h) : G addr :=
  let! s := initng_active_db_new name in
  upd_service s f ;;;
  mpure s.

Definition new_active (name : string) (now : timeval) : active_db_h :=
  Active (initng_hash_str name) name None NEW now None now None 0 IS_NEW now [] (DH []) 0 0.

Lemma new_with_run name f g :
  new_with name f g = Done (g_fresh g,
    put_service (g_fresh g) (f (new_active name (g_clock g))) (g <| g_fresh := Pos.succ (g_fresh g) |>)).
Proof.
  unfold new_with. erewrite mthen_run by reflexivity.
  erewrite mthen_run by (apply upd_service_run, put_service_lookup). by rewrite put_put_service.
Qed.

Lemma new_with_then {A} name f (k : addr -> G A) g :
  (let! s := initng_active_db_new name in upd_service s f ;;; k s) g = (let! s := new_with name f in k s) g.
Proof.
  symmetry. etransitivity; [exact (mthen_run _ _ _ _ _ (new_with_run name f g))|]. symmetry. erewrite mthen_run by reflexivity.
  erewrite mthen_run by (apply upd_service_run, put_service_lookup). by rewrite put_put_service.
Qed.

Lemma kept_new_then {A} P name f (k : addr -> G A) :
  kept P (let! s := new_with name f in k s) -> kept P (let! s := initng_active_db_new name in upd_service s f ;;; k s).
Proof. intros H g r g' HP E. rewrite new_with_then in E. by eapply H. Qed.

Lemma kept_new_with P name f :
  (forall a, wf_active a -> a_name (f a) = a_name a /\ wf_active (f a)) ->
  (forall fresh now, svc_ok fresh (f (new_active name now))) -> kept P (new_with name f).
Proof.
  intros Hwf Hf g s g' _ E Hok. pose proof E as E'. rewrite new_with_run in E'. injection E' as <- <-.
  set (g' := put_service _ _ _) in *. split.
  - split.
    + refine ((_ : steps (keeps wf) (new_with name f)) _ _ _ E (ok_wf g Hok)). unfold new_with. steps_auto.
      apply steps_upd. intros b Hb. destruct (Hwf b Hb). by split.
    + intros x b. unfold g'. cbn. rewrite lookup_insert. case_decide.
      * intros [= <-]. apply Hf.
      * intros Hb. eapply svc_ok_fresh; [|by apply (ok_svc g Hok x)]. lia.
  - split; [cbn; lia|]. intros x b. unfold g'. cbn. rewrite lookup_insert. case_decide.
    + intros _. left. subst. reflexivity.
    + intros Hb. right. exists b. split; [done|apply still_refl].
Qed.

(** With a type: it is in state NEW, which every type allows. *)
Definition new_typed (name : string) (ty : stype_h) : G addr := new_with name (fun a => a <| a_type := Some ty |>).

Lemma kept_new_typed P name ty : kept P (new_typed name ty).
Proof.
  apply kept_new_with; [intros a [W1 W2 W3 W4]; by split; [|split]|]. intros fresh now.
  destruct (core_common NEW ltac:(unfold core_states; set_solver)).
  split; cbn; [by apply state_ok_common|done|done|constructor|constructor].
Qed.

Lemma kept_register P s : kept P (initng_active_db_register s).
Proof.
  intros g r g' _ E Hok. pose proof (steps_register s _ _ _ E (ok_wf g Hok)) as Hwf'.
  assert (Hsame : g_heap g' = g_heap g /\ g_fresh g' = g_fresh g).
  { unfold initng_active_db_register, get_service, deref in E. unfold mthen in E.
    destruct (g_heap g !! s); [|done]. unfold asks in E. destruct (initng_active_db_find_by_name _ g).
    - by injection E as <- <-.
    - injection E as <- <-. unfold active_db_add. by case_decide. }
  destruct Hsame as [E1 E2]. split.
  - split; [done|]. intros x b. rewrite E1, E2. apply (ok_svc g Hok).
  - split; [by rewrite E2|]. intros x b. rewrite E1. intros Hb. right. exists b.
    split; [done|apply still_refl].
Qed.

Lemma kept_free P s : kept P (initng_active_db_free s).
Proof.
  intros g r g' _ E Hok. pose proof (steps_free s _ _ _ E (ok_wf g Hok)) as Hwf'.
  destruct (g_heap g !! s) as [a|] eqn:Ha.
  2:{ unfold initng_active_db_free, initng_common_mark_service, mthen, get_service, deref in E. by rewrite Ha in E. }
  rewrite (active_db_free_run _ _ _ Ha) in E. injection E as <- <-. split.
  - split; [done|]. intros x b. cbn. rewrite lookup_delete. case_decide; [done|]. apply (ok_svc g Hok).
  - split; [reflexivity|]. intros x b. cbn. rewrite lookup_delete. case_decide; [done|]. intros Hb. right. exists b.
    split; [done|apply still_refl].
Qed.

Lemma kept_compensate P skew : kept P (initng_active_db_compensate_time skew).
Proof.
  apply kept_anywhere. unfold initng_active_db_compensate_time. kept_auto.
  apply kept_upd. intros b. split; try done. cbn. intros q Hq. by exists q.
Qed.

Lemma kept_interrupt_del P s : kept P (modify (interrupt_del s)).
Proof.
  intros g r g' _ [= <- <-] [[H1 H2 H3 H4 H5 H6 H7] Hs]. split.
  - split; [|done]. split; try done; cbn.
    + apply NoDup_ListNoDup, List.NoDup_filter. by apply NoDup_ListNoDup.
    + intros x Hx%list_elem_of_In. apply filter_In in Hx as [Hx _]. apply H4. by apply list_elem_of_In.
  - split; [reflexivity|]. intros x b Hb. right. exists b. split; [done|apply still_refl].
Qed.

End services.

#[export] Hint Resolve kept_process_free kept_put_pipe kept_lock kept_unlock kept_new_addr kept_data_remove
  kept_active_db_new kept_new_typed kept_register kept_free kept_compensate kept_interrupt_del : kept.

(** ** The interface of the modules: callbacks that keep services well typed *)

Class TypedCallbacks `{!Typing, !Callbacks} := {
  typed_hook f e : kept anywhere (call_hook f e);
  typed_stype ty f s :
    sty_start ty = Some f \/ sty_stop ty = Some f \/ sty_restart ty = Some f ->
    kept (of_type s (Some ty)) (call_stype f s);
  typed_state ty st f s :
    state_ok ty st -> st_interrupt st = Some f \/ st_init st = Some f \/ st_alarm st = Some f ->
    kept (of_type s ty) (call_state f s);
  typed_kill ty pt f s p :
    ptype_ok ty pt -> pty_kill_handler pt = Some f -> kept (of_type s ty) (call_kill f s p);
  typed_kill_common pt f s p :
    pt ∈ common_ptypes -> pty_kill_handler pt = Some f -> kept anywhere (call_kill f s p)
}.

Section core.
Context `{TY : Typing, CB : Callbacks, SY : Sys, TC : !TypedCallbacks}.

(** The shape of most side conditions: the update leaves everything that counts. *)
Local Ltac same_parts := intros; split; try done; cbn; intros ? ?; by eexists.
Local Ltac unchanged := intros; repeat case_match; by repeat split.

(** ** event/, module_callers/, main/ *)

Lemma kept_event_send P e : kept P (initng_event_send e).
Proof.
  apply kept_anywhere. unfold initng_event_send. kept_auto. generalize (e <| ev_status := WAITING |>).
  induction a as [|c l IH]; intros e1; cbn [send_loop]; kept_auto. apply typed_hook.
Qed.
#[local] Hint Resolve kept_event_send : kept.

Lemma kept_syscall {A} P (answer : nat -> A) : kept P (syscall answer).
Proof. apply kept_anywhere. unfold syscall. kept_auto. by apply kept_modify. Qed.
#[local] Hint Resolve kept_syscall : kept.

Lemma kept_do_kill P pid sig : kept P (do_kill pid sig).
Proof. apply kept_anywhere. unfold do_kill. kept_auto. by apply kept_modify. Qed.
#[local] Hint Resolve kept_do_kill : kept.

Lemma kept_set_sys_state P st : kept P (initng_main_set_sys_state st).
Proof.
  apply kept_anywhere. unfold initng_main_set_sys_state, initng_module_callers_system_changed.
  kept_auto. by apply kept_modify.
Qed.
#[local] Hint Resolve kept_set_sys_state : kept.

Lemma kept_set_runlevel P r : kept P (initng_main_set_runlevel r).
Proof.
  apply kept_anywhere. unfold initng_main_set_runlevel, initng_module_callers_system_changed.
  kept_auto; apply kept_modify; unchanged.
Qed.

Lemma kept_check_sys_state P : kept P check_sys_state_up.
Proof. apply kept_anywhere. unfold check_sys_state_up. kept_auto. Qed.
#[local] Hint Resolve kept_check_sys_state : kept.

(** ** depend/ *)

Lemma kept_depend P s t : kept P (initng_depend s t).
Proof. apply kept_anywhere. unfold initng_depend, dep_on, get_service. kept_auto. Qed.
#[local] Hint Resolve kept_depend : kept.

Lemma kept_depend_deep P s t : kept P (initng_depend_deep s t).
Proof.
  apply kept_anywhere. unfold initng_depend_deep.
  assert (H : forall n s t z, kept anywhere (initng_depend_deep2 n s t z)).
  { induction n as [|n IH]; intros x y z; cbn [initng_depend_deep2]; [kept_auto|].
    unfold first_active. kept_auto. generalize (S (length a1)) as fuel, FALSE as result, (z + 1) as stack, a0 as current.
    induction fuel as [|fuel IHf]; intros result stack [cur|]; cbn [depend_deep_loop]; kept_auto. }
  kept_auto.
Qed.
#[local] Hint Resolve kept_depend_deep : kept.

Lemma kept_any_depends_on P fuel s : kept P (initng_depend_any_depends_on fuel s).
Proof. apply kept_anywhere. unfold initng_depend_any_depends_on, first_active, get_service. kept_auto. Qed.

Lemma kept_cache P s f : (forall a, same_svc a (f a)) -> kept P (upd_service s f).
Proof. apply kept_upd. Qed.

Lemma kept_stop_dep_met P fuel s : kept P (initng_depend_stop_dep_met fuel s).
Proof.
  apply kept_anywhere. unfold initng_depend_stop_dep_met, first_active.
  assert (H : forall n cur count, kept anywhere (stop_dep_met_loop n s cur count)).
  { induction n as [|n IH]; intros [cur|] count; cbn [stop_dep_met_loop]; unfold get_service; kept_auto;
      try apply IH; apply kept_upd; same_parts. }
  kept_auto. apply kept_upd. same_parts.
Qed.
#[local] Hint Resolve kept_stop_dep_met : kept.

Lemma kept_up_check P s : kept P (initng_depend_up_check s).
Proof. apply kept_anywhere. unfold initng_depend_up_check. kept_auto. Qed.

(** ** handler/ *)

Lemma kept_start_named start name :
  (forall s, kept anywhere (start s)) -> kept anywhere (start_new_service_named start name).
Proof. intros H. unfold start_new_service_named, initng_module_active_new, get_service. kept_auto. Qed.

Lemma kept_start_deps_loop start fuel s cur :
  (forall s, kept anywhere (start s)) -> kept anywhere (start_deps_loop start fuel s cur).
Proof.
  intros H. revert cur. induction fuel as [|fuel IH]; intros cur; cbn [start_deps_loop]; unfold get_service; [kept_auto|].
  kept_auto; try (by apply kept_start_named).
  apply kept_mark_core. unfold core_states. set_solver.
Qed.

Lemma unsettled_gate sys_state a : a_current_state a ∈ unsettled -> exists r, start_gate sys_state a = Some r.
Proof.
  intros Hu. destruct (unsettled_inert _ Hu) as [Hn _]. unfold start_gate, GET_STATE. rewrite Hn. repeat case_match; eauto.
Qed.

Lemma kept_start_service P fuel s : kept P (initng_handler_start_service fuel s).
Proof.
  apply kept_anywhere. revert s. induction fuel as [|fuel IH]; intros s; cbn [initng_handler_start_service]; [kept_auto|].
  unfold start_service_body. apply kept_typed_service.
  - intros a _ Hu _. apply kept_then; [exact _|kept_auto|]. intros st. destruct (unsettled_gate st a Hu) as [r ->]. kept_auto.
  - intros a _ _. kept_auto; [by apply kept_anywhere, kept_start_deps_loop|].
    apply kept_settled_service. intros b ->. destruct (a_type a) as [ty|] eqn:Et; [|kept_auto].
    destruct (sty_start ty) as [f|] eqn:Ef; [|kept_auto]. apply typed_stype. by left.
Qed.
#[local] Hint Resolve kept_start_service : kept.

Lemma kept_start_deps P fuel s : kept P (initng_depend_start_deps fuel s).
Proof. apply kept_anywhere, kept_start_deps_loop. auto with kept. Qed.

Lemma kept_start_new_named P fuel name : kept P (initng_handler_start_new_service_named fuel name).
Proof. apply kept_anywhere, kept_start_named. auto with kept. Qed.

Lemma kept_start_dep_met P fuel s : kept P (initng_depend_start_dep_met fuel s).
Proof.
  apply kept_anywhere. unfold initng_depend_start_dep_met.
  assert (H : forall n cur count, kept anywhere (start_dep_met_loop (initng_handler_start_service fuel) n s cur count)).
  { induction n as [|n IH]; intros cur count; cbn [start_dep_met_loop]; unfold get_service; [kept_auto|].
    kept_auto; first [apply kept_mark_core; unfold core_states; set_solver|apply kept_upd; same_parts]. }
  kept_auto. apply kept_upd. same_parts.
Qed.

Lemma kept_stop_service P s : kept P (initng_handler_stop_service s).
Proof.
  apply kept_anywhere. apply kept_typed_service.
  - intros a _ Hu _. destruct (unsettled_inert _ Hu) as [Hn _]. unfold GET_STATE. rewrite Hn. kept_auto.
  - intros a _ _. destruct (a_type a) as [ty|]; [|kept_auto].
    destruct (sty_stop ty) as [f|] eqn:Ef; kept_auto; apply typed_stype; auto.
Qed.
#[local] Hint Resolve kept_stop_service : kept.

Lemma kept_stop_deps P fuel s : kept P (initng_depend_stop_deps fuel s).
Proof. apply kept_anywhere. unfold initng_depend_stop_deps, first_active. kept_auto. Qed.

Lemma kept_stop_all P fuel : kept P (initng_handler_stop_all fuel).
Proof.
  apply kept_anywhere. unfold initng_handler_stop_all, first_active, stop_all_body, get_service. kept_auto.
Qed.

Lemma kept_set_restarting P s : kept P (set_restarting s).
Proof. apply (kept_set_data P s (fun fresh => initng_data_set_var (Some RESTARTING) None fresh)), sets_at_var. Qed.
#[local] Hint Resolve kept_set_restarting : kept.

Lemma kept_restart_service P fuel s : kept P (initng_handler_restart_service fuel s).
Proof.
  apply kept_anywhere. revert s. induction fuel as [|fuel IH]; intros s; cbn [initng_handler_restart_service]; [kept_auto|].
  apply kept_typed_service.
  - intros a _ Hu _. destruct (unsettled_inert _ Hu) as [Hn _]. 
    assert (is_state IS_UP a = false) as -> by (unfold is_state, GET_STATE; by rewrite Hn). cbn [negb]. kept_auto.
  - intros a _ _. destruct (a_type a) as [ty|] eqn:Et; [|kept_auto]. unfold restart_deps, first_active. kept_auto.
    apply kept_settled_service. intros b ->.
    destruct (sty_restart ty) as [f|] eqn:Ef; [|kept_auto]. apply typed_stype. auto.
Qed.

Lemma kept_restart_restarting P fuel : kept P (initng_handler_restart_restarting fuel).
Proof. apply kept_anywhere. unfold initng_handler_restart_restarting, first_active, get_service. kept_auto. Qed.
#[local] Hint Resolve kept_restart_restarting : kept.

(** ** io/ *)

Lemma kept_get_pipe P s p k : kept P (get_pipe s p k).
Proof. apply kept_anywhere. unfold get_pipe, get_process, get_service. kept_auto. Qed.
#[local] Hint Resolve kept_get_pipe : kept.

Lemma kept_read_input P fuel s p k : kept P (initng_io_process_read_input fuel s p k).
Proof.
  apply kept_anywhere. unfold initng_io_process_read_input, initng_io_module_readpipe, pipe_step.
  assert (H : forall n, kept anywhere (read_input_loop n s p k)).
  { induction n as [|n IH]; cbn [read_input_loop]; unfold pipe_step; kept_auto. }
  kept_auto.
Qed.
#[local] Hint Resolve kept_read_input : kept.

(** ** handler/run_alarm.c and interrupt/ *)

Lemma kept_run_alarm_body P s : kept P (run_alarm_body s).
Proof.
  apply kept_anywhere, kept_typed_service.
  { intros a _ (_ & _ & _ & ->)%unsettled_inert _. kept_auto; first [apply kept_upd; same_parts|apply kept_modify; unchanged]. }
  intros a fresh [Hst _ _ _ _]. destruct (st_alarm (a_current_state a)) as [f|] eqn:Ef; kept_auto;
    first [apply kept_upd; same_parts|eapply typed_state; [exact Hst|by auto]|apply kept_modify; unchanged].
Qed.
#[local] Hint Resolve kept_run_alarm_body : kept.

Lemma kept_run_alarm P fuel : kept P (initng_handler_run_alarm fuel).
Proof.
  apply kept_anywhere. unfold initng_handler_run_alarm, first_active. kept_auto. by apply kept_modify.
Qed.
#[local] Hint Resolve kept_run_alarm : kept.

Lemma kept_run_init P s : kept P (run_init s).
Proof.
  apply kept_anywhere, kept_typed_service.
  { intros a _ (_ & _ & -> & _)%unsettled_inert _. kept_auto. }
  intros a fresh [Hst _ _ _ _]. destruct (st_init _) eqn:Ef; kept_auto. eapply typed_state; [exact Hst|auto].
Qed.
#[local] Hint Resolve kept_run_init : kept.

Lemma kept_handle P fuel s : kept P (handle fuel s).
Proof. apply kept_anywhere. unfold handle, handle_is_change, get_service. cbv zeta. kept_auto. Qed.
#[local] Hint Resolve kept_handle : kept.

Lemma kept_run_interrupt_handlers P fuel : kept P (run_interrupt_handlers fuel).
Proof.
  apply kept_anywhere. unfold run_interrupt_handlers, first_active. kept_auto.
  apply kept_typed_service.
  { intros b _ (_ & -> & _)%unsettled_inert _. kept_auto. }
  intros b fresh [Hst _ _ _ _]. destruct (st_interrupt _) eqn:Ef; kept_auto. eapply typed_state; [exact Hst|auto].
Qed.
#[local] Hint Resolve kept_run_interrupt_handlers : kept.

Lemma kept_interrupt P fuel : kept P (initng_interrupt fuel).
Proof.
  apply kept_anywhere. unfold initng_interrupt.
  assert (H : forall n cur r, kept anywhere (interrupt_loop n cur r)).
  { induction n as [|n IH]; intros [cur|] r; cbn [interrupt_loop]; kept_auto. }
  kept_auto.
Qed.

(** ** execute/launch.c *)

Lemma put_process_step g s a q :
  g_heap g !! s = Some a ->
  (sys_ok g -> ptype_ok (a_type a) (p_pt q) /\ (a_current_state a ∈ unsettled -> p_pt q ∈ common_ptypes)) ->
  sys_step g (put_service s (a <| a_processes := a_processes a ++ [q] |>) g).
Proof.
  intros Ha Hq. eapply put_step; [done|by intros|done|]. intros Hok. destruct (Hq Hok) as [Hq1 Hq2].
  destruct (wf_svc g (ok_wf g Hok) s a Ha) as [W1 W2 W3 W4]. destruct (ok_svc g Hok s a Ha) as [S1 S2 SU S3 S4].
  split; split; try done; cbn.
  - intros Hu. destruct (SU Hu) as [U1 U2]. split; [|done]. apply Forall_app. split; [done|]. constructor; [by apply Hq2|done].
  - apply Forall_app. split; [done|by constructor].
Qed.

(** A launch changes the service, and the rest is up to the hooks. *)
Lemma kept_launch_if P s pt name :
  (forall g a, P g -> g_heap g !! s = Some a -> ptype_ok (a_type a) pt /\ (a_current_state a ∈ unsettled -> pt ∈ common_ptypes)) ->
  Stays P -> kept P (initng_execute_launch s pt name).
Proof.
  intros Hpt HP. unfold initng_execute_launch. apply kept_then; [exact _|apply kept_deref|]. intros a. kept_auto.
  apply kept_get_service. intros b g r g' HPg Hb E. rewrite then_modify in E.
  etransitivity; [eapply (put_process_step g s b (initng_process_db_new a0 pt) Hb); intros _; by apply (Hpt g)|].
  match type of E with ?m _ = _ => assert (Hm : kept anywhere m) by kept_auto end.
  by eapply Hm.
Qed.

Lemma kept_launch s ty pt name : ptype_ok ty pt -> kept (of_type s ty) (initng_execute_launch s pt name).
Proof.
  intros Hpt. apply kept_launch_if; [|exact _]. intros g a [_ Hty] Ha. destruct (Hty a Ha) as [-> Hset]. done.
Qed.

Lemma kept_launch_common P s pt name : pt ∈ common_ptypes -> kept P (initng_execute_launch s pt name).
Proof. intros Hpt. apply kept_anywhere, kept_launch_if; [|exact _]. intros g a _ _. split; [by apply ptype_ok_common|done]. Qed.

(** ** kill/handler.c and signal/ *)

Lemma kept_killed_by_pid P fuel pid r : kept P (initng_kill_handler_killed_by_pid fuel pid r).
Proof.
  apply kept_anywhere. unfold initng_kill_handler_killed_by_pid, initng_module_callers_handle_killed. kept_auto.
  apply kept_then; [exact _|apply kept_deref|]. intros b. kept_auto.
  - by apply kept_upd_process.
  - generalize (seq 0 (length (p_pipes p0))). induction l as [|k l IH]; cbn [close_pipes]; unfold close_pipe; kept_auto.
  - unfold get_process.
    intros g x g' _ E. apply mthen_Done in E as (q & g1 & E1 & E2). apply mthen_Done in E1 as (c & g2 & E1 & E3).
    unfold get_service, deref in E1. destruct (g_heap g !! p) as [c'|] eqn:Hc; [|done]. injection E1 as -> <-.
    unfold deref in E3. destruct (List.find _ _) as [q'|] eqn:Hq; [|done]. injection E3 as -> <-.
    apply List.find_some in Hq as [Hq _]. apply list_elem_of_In in Hq. intros Hok.
    destruct (pty_kill_handler (p_pt q)) as [f|] eqn:Ef; [|by eapply (kept_process_free anywhere)].
    destruct (ok_svc g Hok p c Hc) as [_ _ SU Hall _].
    destruct (decide (a_current_state c ∈ unsettled)) as [Hu|Hset].
    + destruct (SU Hu) as [Hcom _]. rewrite Forall_forall in Hcom.
      by eapply (typed_kill_common (p_pt q) f p (p_addr p0)); [apply Hcom|..].
    + rewrite Forall_forall in Hall.
      eapply (typed_kill (a_type c) (p_pt q) f p (p_addr p0)); [by apply Hall|done| |exact E2|done].
      split; [apply (wf_fresh g (ok_wf g Hok)); by eexists|]. intros c' Hc'. by replace c' with c by congruence.
Qed.
#[local] Hint Resolve kept_killed_by_pid : kept.

Lemma kept_sigchild P fuel : kept P (initng_signal_handle_sigchild fuel).
Proof.
  apply kept_anywhere. induction fuel as [|fuel IH]; cbn [initng_signal_handle_sigchild]; kept_auto.
Qed.
#[local] Hint Resolve kept_sigchild : kept.

Lemma kept_signal_dispatch P fuel : kept P (initng_signal_dispatch fuel).
Proof.
  apply kept_anywhere. unfold initng_signal_dispatch. generalize (seq 0 SIGNAL_STACK).
  induction l as [|i l IH]; cbn [dispatch_from]; unfold dispatch_slot, initng_module_callers_signal; kept_auto.
  by apply kept_modify.
Qed.

(** ** active_db/, main/ *)

Lemma kept_clean_down P : kept P initng_active_db_clean_down.
Proof.
  apply kept_anywhere. unfold initng_active_db_clean_down, clean_down_body, get_service. kept_auto.
  apply kept_upd. intros b. split; try done. cbn. intros q Hq%list_elem_of_In. apply filter_In in Hq as [Hq _].
  exists q. split; [by apply list_elem_of_In|done].
Qed.

Lemma kept_free_all P : kept P initng_active_db_free_all.
Proof. apply kept_anywhere. unfold initng_active_db_free_all. kept_auto. Qed.

Lemma kept_start_extra P fuel : kept P (initng_main_start_extra_services fuel).
Proof.
  apply kept_anywhere. unfold initng_main_start_extra_services. kept_auto.
  induction a0 as [|x l IH]; cbn [start_plus_services]; kept_auto. apply kept_start_new_named.
Qed.

Lemma kept_update_clock P last : kept P (main_update_clock last).
Proof.
  apply kept_anywhere. unfold main_update_clock, initng_module_callers_compensate_time. cbv zeta. kept_auto.
  by apply kept_modify.
Qed.

Lemma kept_main_alarm P fuel : kept P (main_alarm fuel).
Proof. apply kept_anywhere. unfold main_alarm. kept_auto. Qed.

Lemma kept_set_alarm P s n : kept P (initng_handler_set_alarm s n).
Proof.
  apply kept_anywhere. unfold initng_handler_set_alarm. cbv zeta. kept_auto.
  - apply kept_upd. same_parts.
  - apply kept_modify. unchanged.
Qed.

End core.

#[export] Hint Resolve kept_event_send kept_syscall kept_do_kill kept_set_sys_state kept_depend kept_depend_deep
  kept_stop_dep_met kept_up_check kept_start_service kept_start_deps kept_start_new_named kept_start_dep_met
  kept_stop_service kept_stop_deps kept_get_pipe kept_set_alarm : kept.
