(* ===== verification/ServiceMod.v ===== *)
(** * The service type: src/modules/service/initng_service.c

    The functions the module hands to the core are named by code addresses; the
    callbacks that run them are an instance of the interface of file Global.
    Since the functions call back into the core, which calls the functions of
    other services, the instance is built with fuel. *)
From S2P Require Import Prelude Types Data CString Global ActiveDb Depend Io Interrupt.
From Stdlib Require Import String.
From stdpp Require Import prelude gmap strings.
Local Open Scope Z_scope.

(** ** Code addresses *)

Definition start_SERVICE_ptr : fptr := 1.
Definition stop_SERVICE_ptr : fptr := 2.
Definition init_SERVICE_START_MARKED_ptr : fptr := 3.
Definition init_SERVICE_STOP_MARKED_ptr : fptr := 4.
Definition handle_SERVICE_WAITING_FOR_START_DEP_ptr : fptr := 5.
Definition handle_SERVICE_WAITING_FOR_STOP_DEP_ptr : fptr := 6.
Definition init_SERVICE_START_DEPS_MET_ptr : fptr := 7.
Definition init_SERVICE_STOP_DEPS_MET_ptr : fptr := 8.
Definition init_SERVICE_START_RUN_ptr : fptr := 9.
Definition init_SERVICE_STOP_RUN_ptr : fptr := 10.
Definition timeout_SERVICE_START_RUN_ptr : fptr := 11.
Definition timeout_SERVICE_STOP_RUN_ptr : fptr := 12.
Definition handle_killed_start_ptr : fptr := 13.
Definition handle_killed_stop_ptr : fptr := 14.

(** ** Static structs *)

Definition TYPE_SERVICE : stype_h :=
  SType 100 "service" false (Some start_SERVICE_ptr) (Some stop_SERVICE_ptr) None.

Definition T_START : ptype_h := PType 101 "start" (Some handle_killed_start_ptr).
Definition T_STOP : ptype_h := PType 102 "stop" (Some handle_killed_stop_ptr).

Definition DEFAULT_START_TIMEOUT : Z := 240.
Definition DEFAULT_STOP_TIMEOUT : Z := 60.
Definition START_TIMEOUT := SEntry 110 (Some "start_timeout"%string) INT (Some TYPE_SERVICE) None
  (Some "Let the start process run maximum this time."%string).
Definition STOP_TIMEOUT := SEntry 111 (Some "stop_timeout"%string) INT (Some TYPE_SERVICE) None
  (Some "Let the stop process run maximum this time."%string).
Definition NEVER_KILL := SEntry 112 (Some "never_kill"%string) SET (Some TYPE_SERVICE) None
  (Some "This service is to important to be killed by any timeout!"%string).
Definition START_FAIL_OK := SEntry 113 (Some "start_fail_ok"%string) SET (Some TYPE_SERVICE) None
  (Some "Set this service to a succes, even if it returns bad on start service."%string).
Definition STOP_FAIL_OK := SEntry 114 (Some "stop_fail_ok"%string) SET (Some TYPE_SERVICE) None
  (Some "Set this service to stopped even if it returns bad on stop service."%string).

Definition SERVICE_START_MARKED := AState 201 "SERVICE_START_MARKED" IS_STARTING
  None (Some init_SERVICE_START_MARKED_ptr) None
  (Some "This service is marked for starting."%string).
Definition SERVICE_STOP_MARKED := AState 202 "SERVICE_STOP_MARKED" IS_STOPPING
  None (Some init_SERVICE_STOP_MARKED_ptr) None
  (Some "This service is marked for stopping."%string).
Definition SERVICE_DONE := AState 203 "SERVICE_DONE" IS_UP None None None
  (Some "The start code has successfully returned, the service is marked as UP."%string).
Definition SERVICE_WAITING_FOR_START_DEP := AState 204 "SERVICE_WAITING_FOR_START_DEP" IS_STARTING
  (Some handle_SERVICE_WAITING_FOR_START_DEP_ptr) None None
  (Some "This service is waiting for all its depdencencies to be met."%string).
Definition SERVICE_WAITING_FOR_STOP_DEP := AState 205 "SERVICE_WAITING_FOR_STOP_DEP" IS_STOPPING
  (Some handle_SERVICE_WAITING_FOR_STOP_DEP_ptr) None None
  (Some "This service is wating for all services depending it to stop, before stopping."%string).
Definition SERVICE_START_DEPS_MET := AState 206 "SERVICE_START_DEPS_MET" IS_STARTING
  None (Some init_SERVICE_START_DEPS_MET_ptr) None
  (Some "The dependencies for starting this service are met."%string).
Definition SERVICE_STOP_DEPS_MET := AState 207 "SERVICE_STOP_DEPS_MET" IS_STOPPING
  None (Some init_SERVICE_STOP_DEPS_MET_ptr) None
  (Some "The dependencies for stopping this services are met."%string).
Definition SERVICE_STOPPED := AState 208 "SERVICE_STOPPED" IS_DOWN None None None
  (Some "The stop code has been returned, service is marked as DOWN."%string).
Definition SERVICE_START_RUN := AState 209 "SERVICE_START_RUN" IS_STARTING
  None (Some init_SERVICE_START_RUN_ptr) (Some timeout_SERVICE_START_RUN_ptr)
  (Some "The start code is currently running on this service."%string).
Definition SERVICE_STOP_RUN := AState 210 "SERVICE_STOP_RUN" IS_STOPPING
  None (Some init_SERVICE_STOP_RUN_ptr) (Some timeout_SERVICE_STOP_RUN_ptr)
  (Some "The service stop code is being run."%string).
Definition SERVICE_START_DEPS_FAILED := AState 211 "SERVICE_START_DEPS_FAILED" IS_FAILED None None None
  (Some "One of the depdencencies this service requires has failed, this service cant start."%string).
Definition SERVICE_FAIL_START_LAUNCH := AState 212 "SERVICE_FAIL_START_LAUNCH" IS_FAILED None None None
  (Some "Service failed to launch start script/executable."%string).
Definition SERVICE_FAIL_START_NONEXIST := AState 213 "SERVICE_FAIL_START_NONEXIST" IS_FAILED None None None
  (Some "There was no start code avaible for this service."%string).
Definition SERVICE_FAIL_START_RCODE := AState 214 "SERVICE_FAIL_START_RCODE" IS_FAILED None None None
  (Some "The start code returned a non-zero value, this usually meens that the service failed"%string).
Definition SERVICE_FAIL_START_SIGNAL := AState 215 "SERVICE_FAIL_START_SIGNAL" IS_FAILED None None None
  (Some "The service start code segfaulted."%string).
Definition SERVICE_START_FAILED_TIMEOUT := AState 216 "SERVICE_START_FAILED_TIMEOUT" IS_FAILED None None None
  (Some "Time out running the start code."%string).
Definition SERVICE_STOP_DEPS_FAILED := AState 217 "SERVICE_STOP_DEPS_FAILED" IS_FAILED None None None
  (Some "Failed to stop one of the services depending on this service, cannot stop this service"%string).
Definition SERVICE_FAIL_STOP_NONEXIST := AState 218 "SERVICE_FAIL_STOP_NONEXIST" IS_FAILED None None None
  (Some "The stop code did not exist."%string).
Definition SERVICE_FAIL_STOP_RCODE := AState 219 "SERVICE_FAIL_STOP_RCODE" IS_FAILED None None None
  (Some "The stop exec returned a non-zero code, this usually means a failure."%string).
Definition SERVICE_FAIL_STOP_SIGNAL := AState 220 "SERVICE_FAIL_STOP_SIGNAL" IS_FAILED None None None
  (Some "The stop exec segfaulted."%string).
Definition SERVICE_STOP_FAILED_TIMEOUT := AState 221 "SERVICE_STOP_FAILED_TIMEOUT" IS_FAILED None None None
  (Some "Timeout running the stop code."%string).
Definition SERVICE_UP_CHECK_FAILED := AState 222 "SERVICE_UP_CHECK_FAILED" IS_FAILED None None None
  (Some "The checks that are done before the service can be set to UP failed"%string).

(** ** wait(2) statuses *)

Definition WTERMSIG (status : Z) : Z := Z.land status 127.
Definition WEXITSTATUS (status : Z) : Z := Z.shiftr (Z.land status 65280) 8.

(** ** Service type handlers *)

Definition start_SERVICE (service : addr) : G Z :=
  let! a := get_service service in
  if IS_MARK a SERVICE_WAITING_FOR_STOP_DEP then
    initng_common_mark_service service SERVICE_DONE ;;; mpure TRUE
  else
    let! r := initng_common_mark_service service SERVICE_START_MARKED in
    if negb (c_true r) then mpure FALSE else mpure TRUE.

Definition stop_SERVICE (service : addr) : G Z :=
  let! a := get_service service in
  if IS_MARK a SERVICE_WAITING_FOR_START_DEP then
    initng_common_mark_service service SERVICE_STOPPED ;;; mpure TRUE
  else
    let! r := initng_common_mark_service service SERVICE_STOP_MARKED in
    if negb (c_true r) then mpure FALSE else mpure TRUE.

(** [initng_common_mark_service] where the result is not used. *)
Definition mark (service : addr) (st : a_state_h) : G unit :=
  initng_common_mark_service service st ;;; mpure tt.

(** [is] and [get_int] on a service; a string where an int is expected is a
    fault. *)
Definition svc_is (type : s_entry) (a : active_db_h) : bool := initng_data_is_var type None (a_data a).
Definition svc_get_int (type : s_entry) (a : active_db_h) : G Z :=
  deref (fun _ => initng_data_get_int_var type None (a_data a)).

Section handlers.
Context `{!Callbacks, !Sys} (fuel : nat).

(** ** State functions *)

Definition init_SERVICE_START_MARKED (service : addr) : G unit :=
  let! r := initng_depend_start_deps fuel service in
  if negb (r =? TRUE) then mark service SERVICE_START_DEPS_FAILED
  else mark service SERVICE_WAITING_FOR_START_DEP.

Definition init_SERVICE_STOP_MARKED (service : addr) : G unit :=
  let! r := initng_depend_stop_deps fuel service in
  if negb (r =? TRUE) then mark service SERVICE_STOP_DEPS_FAILED
  else mark service SERVICE_WAITING_FOR_STOP_DEP.

Definition handle_SERVICE_WAITING_FOR_START_DEP (service : addr) : G unit :=
  let! r := initng_depend_start_dep_met fuel service in
  if r =? TRUE then
    let! sys_state := asks g_sys_state in
    if negb (bool_decide (sys_state = STATE_STARTING)) && negb (bool_decide (sys_state = STATE_UP))
    then mark service SERVICE_STOPPED
    else mark service SERVICE_START_DEPS_MET
  else if r =? FAIL then mark service SERVICE_START_DEPS_FAILED
  else mpure tt.

Definition handle_SERVICE_WAITING_FOR_STOP_DEP (service : addr) : G unit :=
  let! r := initng_depend_stop_dep_met fuel service in
  if negb (r =? TRUE) then mpure tt
  else mark service SERVICE_STOP_DEPS_MET.

Definition init_SERVICE_START_DEPS_MET (service : addr) : G unit :=
  let! r := initng_common_mark_service service SERVICE_START_RUN in
  if negb (c_true r) then mpure tt
  else
    let! r := initng_execute_launch service T_START None in
    if r =? FALSE then mark service SERVICE_FAIL_START_NONEXIST
    else if r =? FAIL then mark service SERVICE_FAIL_START_LAUNCH
    else mpure tt.

Definition init_SERVICE_STOP_DEPS_MET (service : addr) : G unit :=
  let! r := initng_common_mark_service service SERVICE_STOP_RUN in
  if negb (c_true r) then mpure tt
  else
    let! r := initng_execute_launch service T_STOP None in
    if r =? FAIL then mark service SERVICE_FAIL_STOP_NONEXIST
    else if r =? FALSE then mark service SERVICE_STOPPED
    else mpure tt.

Definition init_SERVICE_START_RUN (service : addr) : G unit :=
  let! a := get_service service in
  if svc_is NEVER_KILL a then mpure tt
  else
    let! timeout := svc_get_int START_TIMEOUT a in
    let timeout := if negb (c_true timeout) then DEFAULT_START_TIMEOUT else timeout in
    initng_handler_set_alarm service timeout.

Definition init_SERVICE_STOP_RUN (service : addr) : G unit :=
  let! a := get_service service in
  if svc_is NEVER_KILL a then mpure tt
  else
    let! timeout := svc_get_int STOP_TIMEOUT a in
    let timeout := if negb (c_true timeout) then DEFAULT_STOP_TIMEOUT else timeout in
    initng_handler_set_alarm service timeout.

(** ** Kill handlers *)

Definition handle_killed_start (service process : addr) : G unit :=
  let! q := get_process service process in
  let rcode := p_r_code q in
  upd_service service (mark_process_free process) ;;;
  let! a := get_service service in
  if IS_MARK a SERVICE_START_FAILED_TIMEOUT then mpure tt
  else if negb (IS_MARK a SERVICE_START_RUN) then mpure tt
  else if WTERMSIG rcode =? 11 then mark service SERVICE_FAIL_START_SIGNAL
  else if (0 <? WEXITSTATUS rcode) && negb (svc_is START_FAIL_OK a)
  then mark service SERVICE_FAIL_START_RCODE
  else
    let! r := initng_depend_up_check service in
    if r =? FAIL then mark service SERVICE_UP_CHECK_FAILED
    else mark service SERVICE_DONE.

Definition handle_killed_stop (service process : addr) : G unit :=
  let! q := get_process service process in
  let rcode := p_r_code q in
  upd_service service (mark_process_free process) ;;;
  let! a := get_service service in
  if IS_MARK a SERVICE_STOP_FAILED_TIMEOUT then mpure tt
  else if negb (IS_MARK a SERVICE_STOP_RUN) then mpure tt
  else if WTERMSIG rcode =? 11 then mark service SERVICE_FAIL_STOP_SIGNAL
  else if (0 <? WEXITSTATUS rcode) && negb (svc_is STOP_FAIL_OK a)
  then mark service SERVICE_FAIL_STOP_RCODE
  else mark service SERVICE_STOPPED.

(** ** Timeouts *)

Definition ESRCH : Z := 3.

(** [process->pid <= 0 || (kill(process->pid, 0) && errno == ESRCH)] *)
Definition process_gone (pid : Z) : G bool :=
  if pid <=? 0 then mpure true
  else
    let! r := do_kill pid 0 in
    mpure (bool_decide (r = Some ESRCH)).

Definition timeout_SERVICE_START_RUN (service : addr) : G unit :=
  let! a := get_service service in
  if svc_is NEVER_KILL a then mpure tt
  else match initng_process_db_get T_START a with
       | None => mpure tt
       | Some process =>
         let! gone := process_gone (p_pid process) in
         if (gone : bool) then handle_killed_start service (p_addr process)
         else
           do_kill (p_pid process) SIGKILL ;;;
           mark service SERVICE_START_FAILED_TIMEOUT
       end.

Definition timeout_SERVICE_STOP_RUN (service : addr) : G unit :=
  let! a := get_service service in
  if svc_is NEVER_KILL a then mpure tt
  else match initng_process_db_get T_STOP a with
       | None => mpure tt
       | Some process =>
         let! gone := process_gone (p_pid process) in
         if (gone : bool) then handle_killed_stop service (p_addr process)
         else
           do_kill (p_pid process) SIGKILL ;;;
           mark service SERVICE_STOP_FAILED_TIMEOUT
       end.

(** ** Dispatch of the code addresses *)

Definition service_stype (f : fptr) (s : addr) : G Z :=
  if Pos.eqb f start_SERVICE_ptr then start_SERVICE s
  else if Pos.eqb f stop_SERVICE_ptr then stop_SERVICE s
  else fault.

Definition service_state (f : fptr) (s : addr) : G unit :=
  if Pos.eqb f init_SERVICE_START_MARKED_ptr then init_SERVICE_START_MARKED s
  else if Pos.eqb f init_SERVICE_STOP_MARKED_ptr then init_SERVICE_STOP_MARKED s
  else if Pos.eqb f handle_SERVICE_WAITING_FOR_START_DEP_ptr then handle_SERVICE_WAITING_FOR_START_DEP s
  else if Pos.eqb f handle_SERVICE_WAITING_FOR_STOP_DEP_ptr then handle_SERVICE_WAITING_FOR_STOP_DEP s
  else if Pos.eqb f init_SERVICE_START_DEPS_MET_ptr then init_SERVICE_START_DEPS_MET s
  else if Pos.eqb f init_SERVICE_STOP_DEPS_MET_ptr then init_SERVICE_STOP_DEPS_MET s
  else if Pos.eqb f init_SERVICE_START_RUN_ptr then init_SERVICE_START_RUN s
  else if Pos.eqb f init_SERVICE_STOP_RUN_ptr then init_SERVICE_STOP_RUN s
  else if Pos.eqb f timeout_SERVICE_START_RUN_ptr then timeout_SERVICE_START_RUN s
  else if Pos.eqb f timeout_SERVICE_STOP_RUN_ptr then timeout_SERVICE_STOP_RUN s
  else fault.

Definition service_kill (f : fptr) (s p : addr) : G unit :=
  if Pos.eqb f handle_killed_start_ptr then handle_killed_start s p
  else if Pos.eqb f handle_killed_stop_ptr then handle_killed_stop s p
  else fault.

End handlers.

(** The callbacks of a system whose only service type is this one; [hook] are
    the event hooks of the other modules, [n] how deep functions of the module
    may be nested. *)
Fixpoint service_callbacks `{!Sys} (hook : fptr -> s_event -> G s_event) (fuel n : nat) : Callbacks :=
  match n with
  | O => {| call_hook := hook; call_stype := service_stype;
            call_state := fun _ _ => nofuel; call_kill := fun _ _ _ => nofuel |}
  | S n =>
    let cb := service_callbacks hook fuel n in
    {| call_hook := hook; call_stype := service_stype;
       call_state := @service_state cb _ fuel; call_kill := @service_kill cb |}
  end.

(** ** module_init and module_unload *)

Definition service_states : list a_state_h :=
  [SERVICE_START_MARKED; SERVICE_STOP_MARKED; SERVICE_DONE; SERVICE_WAITING_FOR_START_DEP;
   SERVICE_WAITING_FOR_STOP_DEP; SERVICE_START_DEPS_MET; SERVICE_STOP_DEPS_MET; SERVICE_STOPPED;
   SERVICE_START_RUN; SERVICE_STOP_RUN; SERVICE_START_DEPS_FAILED; SERVICE_STOP_DEPS_FAILED;
   SERVICE_FAIL_START_LAUNCH; SERVICE_FAIL_START_NONEXIST; SERVICE_FAIL_START_RCODE;
   SERVICE_FAIL_START_SIGNAL; SERVICE_START_FAILED_TIMEOUT; SERVICE_STOP_FAILED_TIMEOUT;
   SERVICE_FAIL_STOP_NONEXIST; SERVICE_UP_CHECK_FAILED; SERVICE_FAIL_STOP_RCODE;
   SERVICE_FAIL_STOP_SIGNAL].

Definition service_entries : list s_entry :=
  [START_TIMEOUT; STOP_TIMEOUT; NEVER_KILL; START_FAIL_OK; STOP_FAIL_OK].

Definition service_module_init : G Z :=
  service_type_register TYPE_SERVICE ;;;
  process_type_register T_START ;;;
  process_type_register T_STOP ;;;
  for_each (R := unit) service_states (fun st => initng_active_state_register st ;;; mpure None) ;;;
  for_each (R := unit) service_entries
    (fun e => initng_service_data_type_register e ;;; mpure None) ;;;
  mpure TRUE.

(** The states go in another order than they came; a state is found on the list
    by its address. *)
Definition service_states_unload : list a_state_h :=
  [SERVICE_START_MARKED; SERVICE_STOP_MARKED; SERVICE_DONE; SERVICE_WAITING_FOR_START_DEP;
   SERVICE_WAITING_FOR_STOP_DEP; SERVICE_START_DEPS_MET; SERVICE_STOP_DEPS_MET; SERVICE_STOPPED;
   SERVICE_START_RUN; SERVICE_STOP_RUN; SERVICE_START_DEPS_FAILED; SERVICE_STOP_DEPS_FAILED;
   SERVICE_FAIL_START_LAUNCH; SERVICE_FAIL_START_NONEXIST; SERVICE_FAIL_START_RCODE;
   SERVICE_FAIL_START_SIGNAL; SERVICE_START_FAILED_TIMEOUT; SERVICE_STOP_FAILED_TIMEOUT;
   SERVICE_UP_CHECK_FAILED; SERVICE_FAIL_STOP_NONEXIST; SERVICE_FAIL_STOP_RCODE;
   SERVICE_FAIL_STOP_SIGNAL].

Definition service_module_unload : G unit :=
  service_type_unregister TYPE_SERVICE ;;;
  process_type_unregister T_START ;;;
  process_type_unregister T_STOP ;;;
  for_each (R := unit) service_states_unload (fun st => active_state_unregister st ;;; mpure None) ;;;
  for_each (R := unit) service_entries
    (fun e => initng_service_data_type_unregister e ;;; mpure None) ;;;
  mpure tt.

(** ** Lemmas *)

(** A mark of a service whose state is not locked. *)
Lemma mark_unlocked g s a st :
  g_heap g !! s = Some a -> a_state_lock a = 0 -> a_current_state a <> st ->
  mark s st g = Done (tt, interrupt_add s (put_service s
    (apply_next_state st (g_clock g) (a <| a_next_state := Some st |> <| a_state_lock := 0 |>)) g)).
Proof.
  intros Ha Hl Hne. unfold mark. erewrite mthen_run; [reflexivity|].
  rewrite (mark_service_run _ _ _ _ Ha). unfold mark_result. rewrite Hl. cbn. by rewrite decide_False.
Qed.

(** The service [s] is in state [st], with its state unlocked. *)
Definition in_state (g : s_global) (s : addr) (st : a_state_h) : Prop :=
  exists a, g_heap g !! s = Some a /\ a_state_lock a = 0 /\ a_current_state a = st.

Lemma interrupt_add_heap s g : g_heap (interrupt_add s g) = g_heap g.
Proof. unfold interrupt_add. by case_decide. Qed.

Lemma interrupt_add_kills s g : g_kills (interrupt_add s g) = g_kills g.
Proof. unfold interrupt_add. by case_decide. Qed.

Lemma apply_next_state_lock st now a : a_state_lock (apply_next_state st now a) = a_state_lock a.
Proof. unfold apply_next_state. cbv zeta. by case_decide. Qed.

Lemma apply_next_state_current st now a : a_current_state (apply_next_state st now a) = st.
Proof. unfold apply_next_state. cbv zeta. by case_decide. Qed.

Lemma apply_next_state_processes st now a : a_processes (apply_next_state st now a) = a_processes a.
Proof. unfold apply_next_state. cbv zeta. by case_decide. Qed.

Lemma apply_next_state_fixed st now a : fixed_part (apply_next_state st now a) = fixed_part a.
Proof. unfold apply_next_state. cbv zeta. by case_decide. Qed.

(** Marking an unlocked service, as a change of state of that service only. *)
Lemma mark_changes_state g s a st :
  g_heap g !! s = Some a -> a_state_lock a = 0 -> a_current_state a <> st ->
  exists g', mark s st g = Done (tt, g') /\ in_state g' s st /\ g_active_db g' = g_active_db g /\
    g_sys_state g' = g_sys_state g /\ s ∈ g_interrupt g' /\
    (forall x, x <> s -> g_heap g' !! x = g_heap g !! x).
Proof.
  intros Ha Hl Hne. rewrite (mark_unlocked g s a st Ha Hl Hne). eexists. split; [reflexivity|].
  split; [|split; [by unfold interrupt_add; case_decide|split; [by unfold interrupt_add; case_decide|split]]].
  - eexists. rewrite interrupt_add_heap, put_service_lookup.
    split; [done|]. by rewrite apply_next_state_lock, apply_next_state_current.
  - unfold interrupt_add. case_decide; [done|]. cbn. set_solver.
  - intros x Hx. rewrite interrupt_add_heap. by apply put_service_lookup_ne.
Qed.

(** The death of process [p] of service [s]: the struct once it is free. *)
Lemma killed_prefix g s p a q :
  g_heap g !! s = Some a -> List.find (fun q => Pos.eqb (p_addr q) p) (a_processes a) = Some q ->
  forall (k : process_h -> active_db_h -> G unit),
  (let! q := get_process s p in
   upd_service s (mark_process_free p) ;;; let! a := get_service s in k q a) g =
  k q (mark_process_free p a) (put_service s (mark_process_free p a) g).
Proof.
  intros Ha Hq k. rewrite (mthen_run _ _ g q g).
  2:{ unfold get_process, mthen, get_service, deref. by rewrite Ha, Hq. }
  rewrite (mthen_run _ _ _ _ _ (upd_service_run _ _ _ _ Ha)).
  by rewrite (mthen_run _ _ _ _ _ (get_service_run _ _ _ (put_service_lookup _ _ _))).
Qed.

Lemma free_then_mark g s p a st :
  g_heap g !! s = Some a -> a_state_lock a = 0 -> a_current_state a <> st ->
  exists g', mark s st (put_service s (mark_process_free p a) g) = Done (tt, g') /\ in_state g' s st /\
    s ∈ g_interrupt g' /\ forall x, x <> s -> g_heap g' !! x = g_heap g !! x.
Proof.
  intros Ha Hl Hne.
  destruct (mark_changes_state _ s (mark_process_free p a) st (put_service_lookup g s (mark_process_free p a)) Hl Hne)
    as (g' & E & I & _ & _ & Q & O).
  exists g'. split; [done|]. split; [done|]. split; [done|]. intros x Hx. rewrite O by done.
  by apply put_service_lookup_ne.
Qed.

Section outcomes.
Context `{!Callbacks, !Sys}.

(** The state a dead start process leaves behind. *)
Definition start_verdict (rcode : Z) (fail_ok : bool) : a_state_h :=
  if WTERMSIG rcode =? 11 then SERVICE_FAIL_START_SIGNAL
  else if (0 <? WEXITSTATUS rcode) && negb fail_ok then SERVICE_FAIL_START_RCODE
  else SERVICE_DONE.

Definition stop_verdict (rcode : Z) (fail_ok : bool) : a_state_h :=
  if WTERMSIG rcode =? 11 then SERVICE_FAIL_STOP_SIGNAL
  else if (0 <? WEXITSTATUS rcode) && negb fail_ok then SERVICE_FAIL_STOP_RCODE
  else SERVICE_STOPPED.

(** The hooks of EVENT_UP_MET, asked about [s] in [g], answer [e] and leave [g']:
    they may do anything to the rest of the system, and may mark the service
    itself (not as up), but neither lock its state nor change another service. *)
Definition up_hooks_answer (s : addr) (g : s_global) (e : s_event) (g' : s_global) : Prop :=
  initng_event_send (new_event EVENT_UP_MET (ED_service s)) g = Done (e, g') /\
  (exists b, g_heap g' !! s = Some b /\ a_state_lock b = 0 /\ a_current_state b <> SERVICE_DONE) /\
  forall x, x <> s -> g_heap g' !! x = g_heap g !! x.


(** The end of a stop, in the same way. *)
Theorem killed_stop_outcome g s p a q :
  g_heap g !! s = Some a -> List.find (fun q => Pos.eqb (p_addr q) p) (a_processes a) = Some q ->
  a_state_lock a = 0 -> a_current_state a = SERVICE_STOP_RUN ->
  exists g', handle_killed_stop s p g = Done (tt, g') /\
    in_state g' s (stop_verdict (p_r_code q) (svc_is STOP_FAIL_OK a)) /\ s ∈ g_interrupt g' /\
    forall x, x <> s -> g_heap g' !! x = g_heap g !! x.
Proof.
  intros Ha Hq Hl Hst. unfold handle_killed_stop. cbv zeta.
  rewrite (killed_prefix g s p a q Ha Hq (fun q a => _)).
  unfold IS_MARK. change (a_current_state (mark_process_free p a)) with (a_current_state a).
  change (svc_is STOP_FAIL_OK (mark_process_free p a)) with (svc_is STOP_FAIL_OK a).
  pose proof (fun st => free_then_mark g s p a st Ha Hl) as Hgo. rewrite Hst in Hgo |- *.
  rewrite bool_decide_eq_false_2 by done. rewrite bool_decide_eq_true_2 by done. cbn [negb].
  unfold stop_verdict. destruct (WTERMSIG (p_r_code q) =? 11); [|destruct (_ && _)]; by apply Hgo.
Qed.

Lemma killed_after_timeout g s p a q :
  g_heap g !! s = Some a -> List.find (fun q => Pos.eqb (p_addr q) p) (a_processes a) = Some q ->
  a_state_lock a = 0 -> a_current_state a = SERVICE_START_FAILED_TIMEOUT ->
  handle_killed_start s p g = Done (tt, put_service s (mark_process_free p a) g) /\
  in_state (put_service s (mark_process_free p a) g) s SERVICE_START_FAILED_TIMEOUT.
Proof.
  intros Ha Hq Hl Hst.
  split; [|exists (mark_process_free p a); split; [apply put_service_lookup|by split]].
  unfold handle_killed_start. cbv zeta.
  rewrite (killed_prefix g s p a q Ha Hq (fun q a => _)).
  unfold IS_MARK. change (a_current_state (mark_process_free p a)) with (a_current_state a).
  by rewrite Hst, bool_decide_eq_true_2 by done.
Qed.

(** A start that timed out stays failed.  The alarm of SERVICE_START_RUN on a
    process that is still there sends it SIGKILL and marks the service
    SERVICE_START_FAILED_TIMEOUT, and the death of the process that follows
    frees the process without changing that state. *)
Theorem start_timeout_stays_failed g s a q :
  g_heap g !! s = Some a -> a_state_lock a = 0 -> a_current_state a = SERVICE_START_RUN ->
  svc_is NEVER_KILL a = false -> initng_process_db_get T_START a = Some q ->
  List.find (fun r => Pos.eqb (p_addr r) (p_addr q)) (a_processes a) = Some q ->
  0 < p_pid q -> sys_kill (g_ticks g) (p_pid q) 0 <> Some ESRCH ->
  exists g1 g2, timeout_SERVICE_START_RUN s g = Done (tt, g1) /\
    in_state g1 s SERVICE_START_FAILED_TIMEOUT /\
    g_kills g1 = g_kills g ++ [(p_pid q, 0); (p_pid q, SIGKILL)] /\
    handle_killed_start s (p_addr q) g1 = Done (tt, g2) /\ in_state g2 s SERVICE_START_FAILED_TIMEOUT.
Proof.
  intros Ha Hl Hst Hnk Hget Hq Hpid Halive.
  set (ga := g <| g_kills := (g_kills g ++ [(p_pid q, 0)]) ++ [(p_pid q, SIGKILL)] |> <| g_ticks := S (S (g_ticks g)) |>).
  assert (Haa : g_heap ga !! s = Some a) by exact Ha.
  assert (Hne : a_current_state a <> SERVICE_START_FAILED_TIMEOUT) by (by rewrite Hst).
  assert (Hrun : timeout_SERVICE_START_RUN s g = mark s SERVICE_START_FAILED_TIMEOUT ga).
  { unfold timeout_SERVICE_START_RUN. rewrite (mthen_run _ _ _ _ _ (get_service_run _ _ _ Ha)), Hnk, Hget.
    rewrite (mthen_run _ _ g false (g <| g_kills := g_kills g ++ [(p_pid q, 0)] |> <| g_ticks := S (g_ticks g) |>)).
    - by erewrite mthen_run by reflexivity.
    - unfold process_gone. rewrite (proj2 (Z.leb_gt _ _)) by lia. erewrite mthen_run by reflexivity.
      unfold mpure. by rewrite bool_decide_eq_false_2. }
  rewrite Hrun, (mark_unlocked ga s a _ Haa Hl Hne). eexists _, _. split; [reflexivity|].
  set (b := apply_next_state _ _ _).
  assert (Hb : a_current_state b = SERVICE_START_FAILED_TIMEOUT) by apply apply_next_state_current.
  assert (Hbl : a_state_lock b = 0) by apply apply_next_state_lock.
  split; [eexists; rewrite interrupt_add_heap, put_service_lookup; done|].
  split; [rewrite interrupt_add_kills; cbn; by rewrite <- app_assoc|].
  set (gb := interrupt_add s (put_service s b ga)).
  assert (Hbb : g_heap gb !! s = Some b) by (unfold gb; rewrite interrupt_add_heap; apply put_service_lookup).
  assert (Hqb : List.find (fun r => Pos.eqb (p_addr r) (p_addr q)) (a_processes b) = Some q)
    by (unfold b; rewrite apply_next_state_processes; exact Hq).
  destruct (killed_after_timeout gb s (p_addr q) b q Hbb Hqb Hbl Hb) as [E I]. split; [exact E|exact I].
Qed.

End outcomes.

(** ** The service type keeps what the core asks of a service type *)

Definition is_TYPE_SERVICE (ty : stype_h) : Prop := ty = TYPE_SERVICE.

(** A mark leaves the names, types and variables alone, whatever its result. *)
Lemma mark_same_deps g s a st r g' :
  g_heap g !! s = Some a -> initng_common_mark_service s st g = Done (r, g') -> same_deps g g'.
Proof.
  intros Ha E. rewrite (mark_service_run _ _ _ _ Ha) in E.
  assert (Hput : forall b, fixed_part b = fixed_part a -> same_deps g (put_service s b g)).
  { intros b Hb. split; [done|]. split; [done|]. intros x. cbn. rewrite lookup_insert. case_decide; [|done].
    subst. rewrite Ha. cbn. by rewrite Hb. }
  unfold mark_result in E. destruct (_ && _); [by simplify_eq|]. destruct (decide (a_current_state a = st)).
  { simplify_eq. by apply Hput. }
  destruct (c_true (a_state_lock a)); simplify_eq; [by apply Hput|].
  unfold interrupt_add. case_decide; apply Hput; by rewrite apply_next_state_fixed.
Qed.

(** The shape of the start and stop functions of the types: back to [up] from
    [waiting], where the stop is not done yet, else [marked]. *)
Definition start_or_back (waiting up marked : a_state_h) (service : addr) : G Z :=
  let! a := get_service service in
  if IS_MARK a waiting then
    initng_common_mark_service service up ;;; mpure TRUE
  else
    let! r := initng_common_mark_service service marked in
    if negb (c_true r) then mpure FALSE else mpure TRUE.

Lemma start_or_back_returns waiting up marked g s a :
  wf g -> g_heap g !! s = Some a ->
  exists r g', start_or_back waiting up marked s g = Done (r, g') /\ wf g' /\ same_deps g g'.
Proof.
  intros Hwf Ha. unfold start_or_back. rewrite (mthen_run _ _ _ _ _ (get_service_run _ _ _ Ha)).
  assert (Hm : forall st, exists r g', initng_common_mark_service s st g = Done (r, g') /\ wf g' /\ same_deps g g').
  { intros st. destruct (mark_result s st a g) as [r g'] eqn:E.
    assert (E' : initng_common_mark_service s st g = Done (r, g')) by (by rewrite (mark_service_run _ _ _ _ Ha), E).
    exists r, g'. split; [done|]. split; [by eapply steps_mark|by eapply mark_same_deps]. }
  destruct (IS_MARK a waiting).
  - destruct (Hm up) as (r & g' & E & W & S). exists TRUE, g'. by rewrite (mthen_run _ _ _ _ _ E).
  - destruct (Hm marked) as (r & g' & E & W & S). rewrite (mthen_run _ _ _ _ _ E).
    destruct (negb (c_true r)); by eexists _, g'.
Qed.

(** With states for which this is a stop. *)
Lemma start_or_back_stops waiting down marked g s a :
  g_heap g !! s = Some a -> a_state_lock a = 0 -> stoppable a = true ->
  st_is waiting = IS_STARTING -> st_is down = IS_DOWN -> st_is marked = IS_STOPPING ->
  exists r b g', start_or_back waiting down marked s g = Done (r, g') /\ g_active_db g' = g_active_db g /\
    same_mode g g' /\ g_heap g' !! s = Some b /\
    (winding_down b = true /\ a_state_lock b = 0 /\ fixed_part b = fixed_part a) /\
    forall x, x <> s -> g_heap g' !! x = g_heap g !! x.
Proof.
  intros Ha Hl Hs Hw Hd Hm. unfold start_or_back. rewrite (mthen_run _ _ _ _ _ (get_service_run _ _ _ Ha)).
  assert (Hgo : forall st, a_current_state a <> st -> match st_is st with IS_DOWN | IS_STOPPING => True | _ => False end ->
    exists b g', initng_common_mark_service s st g = Done (TRUE, g') /\ g_active_db g' = g_active_db g /\
    same_mode g g' /\ g_heap g' !! s = Some b /\
    (winding_down b = true /\ a_state_lock b = 0 /\ fixed_part b = fixed_part a) /\
    forall x, x <> s -> g_heap g' !! x = g_heap g !! x).
  { intros st Hne Hst. rewrite (mark_service_run _ _ _ _ Ha). unfold mark_result. rewrite Hl. cbn [c_true Z.eqb negb andb].
    rewrite decide_False by done. eexists _, _. split; [reflexivity|].
    split; [by unfold interrupt_add; case_decide|]. split; [unfold same_mode, interrupt_add; by case_decide|].
    rewrite interrupt_add_heap, put_service_lookup. split; [done|].
    split; [split; [|by rewrite apply_next_state_lock, apply_next_state_fixed]|].
    - unfold winding_down, is_state, GET_STATE. rewrite apply_next_state_current. by destruct (st_is st).
    - intros x Hx. by apply put_service_lookup_ne. }
  unfold IS_MARK. case_bool_decide as Hst.
  - destruct (Hgo down) as (b & g' & E & R); [rewrite Hst; congruence|by rewrite Hd|].
    exists TRUE, b, g'. by rewrite (mthen_run _ _ _ _ _ E).
  - destruct (Hgo marked) as (b & g' & E & R); [|by rewrite Hm|].
    + intros Hm'. unfold stoppable, is_state, GET_STATE in Hs. by rewrite Hm', Hm in Hs.
    + exists TRUE, b, g'. by rewrite (mthen_run _ _ _ _ _ E).
Qed.

Section instances.
Context `{!Sys} (hook : fptr -> s_event -> G s_event) (fuel n : nat).

#[export] Instance service_start_functions :
  @StartFunctions (service_callbacks hook fuel n) is_TYPE_SERVICE.
Proof.
  intros ty f s a g -> [= <-] Hwf Ha _.
  assert (E : @call_stype (service_callbacks hook fuel n) start_SERVICE_ptr s g = start_SERVICE s g) by (by destruct n).
  rewrite E. by eapply start_or_back_returns.
Qed.

#[export] Instance service_stop_functions :
  @StopFunctions (service_callbacks hook fuel n) is_TYPE_SERVICE.
Proof.
  intros ty f s a g -> [= <-] Ha _ Hl Hs.
  assert (E : @call_stype (service_callbacks hook fuel n) stop_SERVICE_ptr s g = stop_SERVICE s g) by (by destruct n).
  rewrite E. by eapply start_or_back_stops.
Qed.

End instances.

(** ** The alarm functions of the module keep what the alarm loop asks of them *)

Definition service_state_p (st : a_state_h) : Prop := st ∈ service_states.

(** A step of the alarm loop that only leads to states of the module. *)
Definition service_alarm_step (g g' : s_global) : Prop :=
  alarm_step g g' /\ forall x b, g_heap g' !! x = Some b ->
    service_state_p (a_current_state b) \/ exists c, g_heap g !! x = Some c /\ a_current_state b = a_current_state c.

#[export] Instance service_alarm_step_preorder : PreOrder service_alarm_step.
Proof.
  split.
  - intros g. split; [reflexivity|]. intros x b Hb. right. by exists b.
  - intros g1 g2 g3 [A1 A2] [B1 B2]. split; [by etransitivity|]. intros x b Hb.
    destruct (B2 x b Hb) as [|(c & Hc & ->)]; [by left|]. by apply A2.
Qed.

(** An update of one service that leaves its alarm and its state. *)
Lemma put_service_alarm_step g s a b :
  g_heap g !! s = Some a -> a_alarm b = a_alarm a -> a_current_state b = a_current_state a ->
  service_alarm_step g (put_service s b g).
Proof.
  intros Ha Hal Hst. split.
  - split; [done|]. split; [cbn; lia|]. intros x. cbn. rewrite lookup_insert. case_decide.
    + subst. rewrite Ha. by left.
    + destruct (g_heap g !! x); [by left|done].
  - intros x c. cbn. rewrite lookup_insert. case_decide; [|intros Hc; right; by exists c].
    intros [= <-]. subst. right. by exists a.
Qed.

Lemma mark_service_alarm_step g s a st :
  service_state_p st -> g_heap g !! s = Some a ->
  exists g', mark s st g = Done (tt, g') /\ service_alarm_step g g' /\ is_Some (g_heap g' !! s).
Proof.
  intros HT Ha. destruct (mark_result s st a g) as [r g'] eqn:E.
  assert (Em : initng_common_mark_service s st g = Done (r, g')) by (by rewrite (mark_service_run _ _ _ _ Ha), E).
  exists g'. split; [unfold mark; by rewrite (mthen_run _ _ _ _ _ Em)|].
  assert (Hput : forall b, a_current_state b = st \/ a_current_state b = a_current_state a ->
    forall x c, g_heap (put_service s b g) !! x = Some c ->
    service_state_p (a_current_state c) \/ exists d, g_heap g !! x = Some d /\ a_current_state c = a_current_state d).
  { intros b Hb x c. cbn. rewrite lookup_insert. case_decide; [|intros Hc; right; by exists c].
    intros [= <-]. subst. destruct Hb as [->|Hb]; [by left|right; by exists a]. }
  unfold mark_result in E.
  destruct (_ && _); [|destruct (decide _); [|destruct (c_true _)]]; injection E as <- <-.
  - split; [reflexivity|by eexists].
  - split; [split; [by eapply mark_alarm_step|apply Hput; by right]|eexists; apply put_service_lookup].
  - split; [split; [by eapply mark_alarm_step|apply Hput; by right]|eexists; apply put_service_lookup].
  - split; [split; [by eapply mark_alarm_step|]|]; rewrite interrupt_add_heap.
    + apply Hput. left. apply apply_next_state_current.
    + eexists. apply put_service_lookup.
Qed.

(** Hooks that look but do not touch. *)
Definition hooks_only_look (hook : fptr -> s_event -> G s_event) : Prop :=
  forall f e g, exists e', hook f e g = Done (e', g).

Lemma send_only_looks `{!Callbacks} e g :
  hooks_only_look call_hook -> exists e', initng_event_send e g = Done (e', g).
Proof.
  intros Hlook. unfold initng_event_send. rewrite (mthen_run _ _ g _ g eq_refl).
  generalize (e <| ev_status := WAITING |>). induction (g_hooks g (ev_type e)) as [|c l IH]; intros e1; [by eexists|].
  cbn [send_loop]. destruct (Hlook (c_pointer c) e1 g) as (e2 & E). rewrite (mthen_run _ _ _ _ _ E).
  destruct (ev_status e2); by eauto.
Qed.

Section alarm_functions.
Context `{!Callbacks, !Sys} (look : hooks_only_look call_hook).

(** The states of the module are among its states. *)
Ltac in_states := apply (bool_decide_unpack _); by vm_compute.

(** Either kill handler, with the states it may lead to. *)
Lemma killed_alarm_step g s a q :
  g_heap g !! s = Some a -> q ∈ a_processes a ->
  (exists g', handle_killed_start s (p_addr q) g = Done (tt, g') /\ service_alarm_step g g') /\
  (exists g', handle_killed_stop s (p_addr q) g = Done (tt, g') /\ service_alarm_step g g').
Proof.
  intros Ha Hin.
  destruct (List.find (fun r => Pos.eqb (p_addr r) (p_addr q)) (a_processes a)) as [r|] eqn:Er.
  2:{ eapply List.find_none in Er; [|apply list_elem_of_In, Hin]. by rewrite Pos.eqb_refl in Er. }
  pose proof (put_service_alarm_step g s a (mark_process_free (p_addr q) a) Ha eq_refl eq_refl) as S1.
  unfold handle_killed_start, handle_killed_stop. cbv zeta.
  rewrite (killed_prefix g s (p_addr q) a r Ha Er (fun q a => if IS_MARK a SERVICE_START_FAILED_TIMEOUT then _ else _)).
  rewrite (killed_prefix g s (p_addr q) a r Ha Er (fun q a => if IS_MARK a SERVICE_STOP_FAILED_TIMEOUT then _ else _)).
  set (a1 := mark_process_free (p_addr q) a) in *. set (g1 := put_service s a1 g) in *.
  assert (Ha1 : g_heap g1 !! s = Some a1) by apply put_service_lookup.
  assert (Hmark : forall st, service_state_p st -> exists g', mark s st g1 = Done (tt, g') /\ service_alarm_step g g').
  { intros st Hst. destruct (mark_service_alarm_step g1 s a1 st Hst Ha1) as (g' & E & S2 & _).
    exists g'. split; [done|]. by etransitivity. }
  assert (Hstay : exists g', mpure tt g1 = Done (tt, g') /\ service_alarm_step g g') by (by exists g1).
  unfold service_state_p in Hmark. split; repeat (case_match; try exact Hstay; try (apply Hmark; in_states)).
  unfold initng_depend_up_check. destruct (send_only_looks (new_event EVENT_UP_MET (ED_service s)) g1 look) as (e & E).
  rewrite (mthen_run _ _ g1 _ g1) by (by rewrite (mthen_run _ _ _ _ _ E)). case_match; apply Hmark; in_states.
Qed.

Lemma process_gone_run pid g :
  exists b g1, process_gone pid g = Done (b, g1) /\ service_alarm_step g g1 /\ g_heap g1 = g_heap g.
Proof.
  unfold process_gone. destruct (pid <=? 0); [by exists true, g|].
  eexists _, (g <| g_kills := g_kills g ++ [(pid, 0)] |> <| g_ticks := S (g_ticks g) |>).
  split; [reflexivity|]. split; [|done].
  split; [split; [done|split; [cbn; lia|]]|].
  - intros x. cbn. destruct (g_heap g !! x); [by left|done].
  - intros x b Hb. right. by exists b.
Qed.

(** The common shape of the two timeouts. *)
Lemma timeout_alarm_step g s a (never : bool) (po : option process_h) killed st :
  g_heap g !! s = Some a -> service_state_p st -> (forall q, po = Some q -> q ∈ a_processes a) ->
  (forall g1 q, g_heap g1 !! s = Some a -> q ∈ a_processes a ->
    exists g', killed s (p_addr q) g1 = Done (tt, g') /\ service_alarm_step g1 g') ->
  exists g', (if never then mpure tt
              else match po with
                   | None => mpure tt
                   | Some process =>
                     let! gone := process_gone (p_pid process) in
                     if (gone : bool) then killed s (p_addr process)
                     else do_kill (p_pid process) SIGKILL ;;; mark s st
                   end) g = Done (tt, g') /\ service_alarm_step g g'.
Proof.
  intros Ha Hst Hpo Hkilled. destruct never; [by exists g|]. destruct po as [q|]; [|by exists g].
  destruct (process_gone_run (p_pid q) g) as (b & g1 & E & S1 & Hh). rewrite (mthen_run _ _ _ _ _ E).
  destruct b.
  - destruct (Hkilled g1 q) as (g' & E' & S'); [by rewrite Hh|by apply Hpo|]. exists g'. split; [done|by etransitivity].
  - set (g2 := g1 <| g_kills := g_kills g1 ++ [(p_pid q, SIGKILL)] |> <| g_ticks := S (g_ticks g1) |>).
    destruct (mark_service_alarm_step g2 s a st Hst) as (g' & E' & S' & _); [by cbn; rewrite Hh|].
    exists g'. split; [by rewrite (mthen_run _ _ g1 (sys_kill (g_ticks g1) (p_pid q) SIGKILL) g2)|].
    etransitivity; [exact S1|]. exact S'.
Qed.

Lemma get_process_in type a q : initng_process_db_get type a = Some q -> q ∈ a_processes a.
Proof. intros E. apply List.find_some in E as [H1 _]. by apply list_elem_of_In. Qed.

Lemma timeouts_alarm_step g s a :
  g_heap g !! s = Some a ->
  (exists g', timeout_SERVICE_START_RUN s g = Done (tt, g') /\ service_alarm_step g g') /\
  (exists g', timeout_SERVICE_STOP_RUN s g = Done (tt, g') /\ service_alarm_step g g').
Proof.
  intros Ha. unfold timeout_SERVICE_START_RUN, timeout_SERVICE_STOP_RUN.
  rewrite !(mthen_run _ _ _ _ _ (get_service_run _ _ _ Ha)).
  split; apply (timeout_alarm_step g s a); try done; try in_states; try (intros q; apply get_process_in);
    intros g1 q H1 H2; by eapply killed_alarm_step.
Qed.

End alarm_functions.

#[export] Instance service_alarm_functions `{!Sys} hook (Hlook : hooks_only_look hook) fuel n :
  @AlarmFunctions (service_callbacks hook fuel (S n)) service_state_p.
Proof.
  intros st f s a g HT Hf Ha.
  assert (Hl : hooks_only_look (@call_hook (service_callbacks hook fuel n))) by (by destruct n).
  destruct (@timeouts_alarm_step (service_callbacks hook fuel n) _ Hl g s a Ha) as [[g1 [E1 [A1 B1]]] [g2 [E2 [A2 B2]]]].
  assert (Hcase : f = timeout_SERVICE_START_RUN_ptr \/ f = timeout_SERVICE_STOP_RUN_ptr).
  { unfold service_state_p in HT. assert (HF : Forall (fun st => st_alarm st = None \/
      st_alarm st = Some timeout_SERVICE_START_RUN_ptr \/ st_alarm st = Some timeout_SERVICE_STOP_RUN_ptr) service_states)
      by (apply (bool_decide_unpack _); by vm_compute).
    rewrite Forall_forall in HF. destruct (HF st HT) as [?|[?|?]]; [congruence|left|right]; congruence. }
  destruct Hcase as [->| ->]; [exists g1|exists g2]; auto.
Qed.
