(* ===== verification/DaemonMod.v ===== *)
(** * The daemon type: src/modules/daemon/initng_daemon.c

    The structs and functions are named as in the file, a code address as the
    function with [_ptr].  What the module asks the system beyond file Global -
    the directory /proc, small files, unlink - is the class DaemonSys. *)
From S2P Require Import Prelude Types Data CString Global ActiveDb Depend Io Interrupt ServiceMod.
From Stdlib Require Import String Ascii.
From stdpp Require Import prelude gmap strings pretty.
Local Open Scope Z_scope.

(** ** Constants *)

Definition PID_TIMEOUT : Z := 60.
Definition DEFAULT_RESPAWN_RATE : Z := 10.
Definition DEFAULT_RESPAWN_PAUSE : Z := 1.
Definition DEFAULT_TERM_TIMEOUT : Z := 30.
Definition DEFAULT_KILL_TIMEOUT : Z := 2.
Definition SIGTERM : Z := 15.

(** ** Code addresses *)

Definition start_DAEMON_ptr : fptr := 21.
Definition stop_DAEMON_ptr : fptr := 22.
Definition init_DAEMON_START_MARKED_ptr : fptr := 23.
Definition init_DAEMON_STOP_MARKED_ptr : fptr := 24.
Definition handle_DAEMON_WAITING_FOR_START_DEP_ptr : fptr := 25.
Definition handle_DAEMON_WAITING_FOR_STOP_DEP_ptr : fptr := 26.
Definition init_DAEMON_START_DEPS_MET_ptr : fptr := 27.
Definition init_DAEMON_STOP_DEPS_MET_ptr : fptr := 28.
Definition init_DAEMON_WAIT_FOR_PID_FILE_ptr : fptr := 29.
Definition timeout_DAEMON_WAIT_FOR_PID_FILE_ptr : fptr := 30.
Definition init_DAEMON_WAIT_RESP_TOUT_ptr : fptr := 31.
Definition timeout_DAEMON_WAIT_RESP_TOUT_ptr : fptr := 32.
Definition init_DAEMON_TERM_ptr : fptr := 33.
Definition timeout_DAEMON_TERM_ptr : fptr := 34.
Definition init_DAEMON_KILL_ptr : fptr := 35.
Definition timeout_DAEMON_KILL_ptr : fptr := 36.
Definition handle_killed_daemon_ptr : fptr := 37.

(** ** Static structs *)

Definition TYPE_DAEMON : stype_h :=
  SType 120 "daemon" false (Some start_DAEMON_ptr) (Some stop_DAEMON_ptr) None.

Definition T_DAEMON : ptype_h := PType 121 "daemon" (Some handle_killed_daemon_ptr).
Definition T_KILL : ptype_h := PType 122 "kill" None.

Definition PIDOF := SEntry 130 (Some "pid_of"%string) STRING (Some TYPE_DAEMON) None
  (Some "When daemon exits, initng will look for a process with this name, and set daemon pid no to that pid."%string).
Definition PIDFILE := SEntry 131 (Some "pid_file"%string) STRINGS (Some TYPE_DAEMON) None
  (Some "When daemon exits, initng will get pid of daemon from this file."%string).
Definition FORKS := SEntry 132 (Some "forks"%string) SET (Some TYPE_DAEMON) None
  (Some "Does the daemon fork?"%string).
Definition RESPAWN := SEntry 133 (Some "respawn"%string) SET (Some TYPE_DAEMON) None
  (Some "If this is set and daemon dies, it will be restarted."%string).
Definition RESPAWN_PAUSE := SEntry 134 (Some "respawn_pause"%string) INT (Some TYPE_DAEMON) None
  (Some "Wait this number of seconds before respawning."%string).
Definition RESPAWN_RATE := SEntry 135 (Some "respawn_rate"%string) INT (Some TYPE_DAEMON) None
  (Some "The minimum of seconds that this daemon must be up, to be respawned when it dies."%string).
Definition TERM_TIMEOUT := SEntry 136 (Some "term_timeout"%string) INT (Some TYPE_DAEMON) None
  (Some "Wait this many seconds before KILL daemon, after a TERM."%string).
Definition DAEMON_FAIL_OK := SEntry 137 (Some "daemon_fail_ok"%string) SET (Some TYPE_DAEMON) None
  (Some "If daemon returns a positive return code, this is till ok"%string).
Definition DAEMON_STOPS_BADLY := SEntry 138 (Some "daemon_stops_badly"%string) SET (Some TYPE_DAEMON) None
  (Some "If the daemon is stopping and returns a positive return code, this is OK"%string).
Definition INTERNAL_LAST_RESPAWN := SEntry 139 (Some "internal_last_respawn"%string) INT (Some TYPE_DAEMON) None
  None.

Definition DAEMON_START_MARKED := AState 301 "DAEMON_START_MARKED" IS_STARTING
  None (Some init_DAEMON_START_MARKED_ptr) None
  (Some "The daemon is marked for starting"%string).
Definition DAEMON_STOP_MARKED := AState 302 "DAEMON_STOP_MARKED" IS_STOPPING
  None (Some init_DAEMON_STOP_MARKED_ptr) None
  (Some "The daemon is marked to be stopped."%string).
Definition DAEMON_RUNNING := AState 303 "DAEMON_RUNNING" IS_UP None None None
  (Some "This daemon is running."%string).
Definition DAEMON_WAITING_FOR_START_DEP := AState 304 "DAEMON_WAITING_FOR_START_DEP" IS_STARTING
  (Some handle_DAEMON_WAITING_FOR_START_DEP_ptr) None None
  (Some "Waiting for depdencencies before starting this daemon"%string).
Definition DAEMON_WAITING_FOR_STOP_DEP := AState 305 "DAEMON_WAITING_FOR_STOP_DEP" IS_STOPPING
  (Some handle_DAEMON_WAITING_FOR_STOP_DEP_ptr) None None
  (Some "Waiting for dependencies to stop this daemon."%string).
Definition DAEMON_START_DEPS_MET := AState 306 "DAEMON_START_DEPS_MET" IS_STARTING
  None (Some init_DAEMON_START_DEPS_MET_ptr) None
  (Some "The depdencencies for starting this daemon are met."%string).
Definition DAEMON_STOP_DEPS_MET := AState 307 "DAEMON_STOP_DEPS_MET" IS_STOPPING
  None (Some init_DAEMON_STOP_DEPS_MET_ptr) None
  (Some "The dependencies for stopping this daemon are met."%string).
Definition DAEMON_KILL := AState 308 "DAEMON_KILL" IS_STOPPING
  None (Some init_DAEMON_KILL_ptr) (Some timeout_DAEMON_KILL_ptr)
  (Some "The code for killing this daemon is running."%string).
Definition DAEMON_TERM := AState 309 "DAEMON_TERM" IS_STOPPING
  None (Some init_DAEMON_TERM_ptr) (Some timeout_DAEMON_TERM_ptr)
  (Some "This daemon is terminating."%string).
Definition DAEMON_STOPPED := AState 310 "DAEMON_STOPPED" IS_DOWN None None None
  (Some "This daemon has been stopped."%string).
Definition DAEMON_LAUNCH := AState 311 "DAEMON_LAUNCH" IS_STARTING None None None
  (Some "This daemon is launching."%string).
Definition DAEMON_WAIT_FOR_PID_FILE := AState 312 "DAEMON_WAIT_FOR_PID_FILE" IS_STARTING
  None (Some init_DAEMON_WAIT_FOR_PID_FILE_ptr) (Some timeout_DAEMON_WAIT_FOR_PID_FILE_ptr)
  (Some "Initng is waiting for the daemon to set a pidfile."%string).
Definition DAEMON_WAIT_RESP_TOUT := AState 313 "WAIT_FOR_RESPAWN_TIMEOUT" IS_STARTING
  None (Some init_DAEMON_WAIT_RESP_TOUT_ptr) (Some timeout_DAEMON_WAIT_RESP_TOUT_ptr)
  (Some "This daemon is waiting a bit, before the daemon is respawn."%string).
Definition DAEMON_START_DEPS_FAILED := AState 314 "DAEMON_START_DEPS_FAILED" IS_FAILED None None None
  (Some "One of the dependencies for starting this daemon is not met"%string).
Definition DAEMON_STOP_DEPS_FAILED := AState 315 "DAEMON_STOP_DEPS_FAILED" IS_FAILED None None None
  (Some "One of the dependencies for stopping this daemon is not met."%string).
Definition DAEMON_FAIL_START_RCODE := AState 316 "DAEMON_FAIL_START_RCODE" IS_FAILED None None None
  (Some "The daemon exited with a positive return code."%string).
Definition DAEMON_FAIL_START_SIGNAL := AState 317 "DAEMON_FAIL_START_SIGNAL" IS_FAILED None None None
  (Some "The daemon segfaulted."%string).
Definition DAEMON_FAIL_START_LAUNCH := AState 318 "DAEMON_FAIL_START_LAUNCH" IS_FAILED None None None
  (Some "The daemon failed to launch, probably not found."%string).
Definition DAEMON_FAIL_START_TIMEOUT_PIDFILE :=
  AState 319 "DAEMON_FAIL_START_TIMEOUT_PIDFILE" IS_FAILED None None None
  (Some "Initng timed out waiting for the daemon to set a pidfile."%string).
Definition DAEMON_FAIL_START_NONEXIST := AState 320 "DAEMON_FAIL_START_NONEXIST" IS_FAILED None None None
  (Some "Could not launch the daemon, the executable was not found."%string).
Definition DAEMON_FAIL_STOPPING := AState 321 "DAEMON_FAIL_STOPPING" IS_FAILED None None None
  (Some "This daemon failed to stop."%string).
Definition DAEMON_UP_CHECK_FAILED := AState 322 "DAEMON_UP_CHECK_FAILED" IS_FAILED None None None
  (Some "The last checks done before starting the daemon failed."%string).
Definition DAEMON_RESPAWN_RATE_EXCEEDED := AState 323 "DAEMON_RESPAWN_RATE_EXCEEDED" IS_FAILED None None None
  (Some "This daemon has been respawned too many times, and will be disabled."%string).

(** ** The system *)

(** [sys_proc_dir]: the names readdir returns for /proc, [None] when it cannot
    be opened.  [sys_stat_line]: fopen and fgets of a file, [None] when one of
    them fails, else the bytes up to a newline or the end of the file.
    [sys_pid_file]: open and read of at most 20 bytes; [None] when open fails.
    [sys_unlink]: errno when it fails. *)
Class DaemonSys := {
  sys_proc_dir : nat -> option (list string);
  sys_stat_line : nat -> string -> option chars;
  sys_pid_file : nat -> string -> option read_result;
  sys_unlink : nat -> string -> option Z
}.

(** ** The C library on chars *)

Definition digit_value (c : ascii) : Z := Z.of_nat (nat_of_ascii c) - 48.
Definition isdigit (c : ascii) : bool := (0 <=? digit_value c) && (digit_value c <=? 9).
Definition isspace (c : ascii) : bool :=
  ascii_eqb c c_space || ((9 <=? Z.of_nat (nat_of_ascii c)) && (Z.of_nat (nat_of_ascii c) <=? 13)).

Fixpoint drop_while (f : ascii -> bool) (s : chars) : chars :=
  match s with
  | [] => []
  | c :: s' => if f c then drop_while f s' else s
  end.

Fixpoint take_while (f : ascii -> bool) (s : chars) : chars :=
  match s with
  | [] => []
  | c :: s' => if f c then c :: take_while f s' else []
  end.

Definition digits_value (s : chars) : Z := fold_left (fun n c => n * 10 + digit_value c) s 0.

(** atoi is [(int)strtol(s, NULL, 10)]: spaces, a sign, digits; the value is
    clamped to a long and cut to an int. *)
Definition clamp_long (n : Z) : Z := Z.max (- 2 ^ 63) (Z.min n (2 ^ 63 - 1)).
Definition to_int (n : Z) : Z := (n + 2 ^ 31) mod 2 ^ 32 - 2 ^ 31.
Definition strtol (s : chars) : Z :=
  match drop_while isspace s with
  | "-"%char :: s => clamp_long (- digits_value (take_while isdigit s))
  | "+"%char :: s => clamp_long (digits_value (take_while isdigit s))
  | s => clamp_long (digits_value (take_while isdigit s))
  end.
Definition atoi (s : chars) : Z := to_int (strtol s).

(** [strncmp(s, t, n) == 0]; a string ends where the list ends. *)
Fixpoint strncmp_eq (n : nat) (s t : chars) : bool :=
  match n with
  | O => true
  | S n =>
    match s, t with
    | [], [] => true
    | c :: s, d :: t => ascii_eqb c d && strncmp_eq n s t
    | _, _ => false
    end
  end.

(** What a read of the block as a C string gives. *)
Definition c_string (s : chars) : chars := take_while (fun c => negb (ascii_eqb c c_nul)) s.

(** ** pid_of *)

Definition BUFF_SIZE : nat := 512.

(** Lines 1203-1223: the text after the parenthesis, and the length of the name
    in it; [None] is [continue]. *)
Definition stat_comm (buf : chars) : option (chars * nat) :=
  match drop_while (fun c => negb (ascii_eqb c c_space)) buf with
  | [] => None
  | _ :: s =>
    match s with
    | "("%char :: s => Some (s, length (take_while (fun c => negb (ascii_eqb c ")")) s))
    | _ => None
    end
  end.

Definition stat_path (pid : Z) : string := "/proc/" +:+ pretty pid +:+ "/stat".

Section daemon.
Context `{!Callbacks, !Sys, !DaemonSys} (fuel : nat).

(** The loop over what readdir returns. *)
Fixpoint pid_of_loop (name : chars) (dir : list string) : G Z :=
  match dir with
  | [] => mpure (-1)
  | d :: dir =>
    let pid := atoi (chars_of d) in
    if pid <=? 0 then pid_of_loop name dir
    else
      let! line := syscall (fun t => sys_stat_line t (stat_path pid)) in
      match line with
      | None => pid_of_loop name dir
      | Some line =>
        match stat_comm (c_string (take (BUFF_SIZE - 1) line)) with
        | None => pid_of_loop name dir
        | Some (s, len) =>
          if strncmp_eq len s name then mpure pid else pid_of_loop name dir
        end
      end
  end.

Definition pid_of (name : string) : G Z :=
  let! dir := syscall sys_proc_dir in
  match dir with
  | None => mpure (-1)
  | Some dir => pid_of_loop (chars_of name) dir
  end.

(** ** pid_from_file

    A read that fails sets [len] to the largest unsigned int, and the loop goes
    through a buffer nobody has written; an int that gets too large is as
    undefined. *)

Fixpoint add_digits (ret : Z) (buf : chars) : option Z :=
  match buf with
  | [] => Some ret
  | c :: buf =>
    if isdigit c then
      let ten := ret * 10 - 48 in
      let ret := ten + Z.of_nat (nat_of_ascii c) in
      if (2 ^ 31 <=? ten + 48) || (2 ^ 31 <=? ret) then None else add_digits ret buf
    else Some ret
  end.

Definition char_of_byte (b : Z) : ascii := ascii_of_nat (Z.to_nat b).

Definition pid_from_file (name : string) : G Z :=
  let! file := syscall (fun t => sys_pid_file t name) in
  match file with
  | None => mpure (-1)
  | Some (Read_error _) => fault
  | Some (Read_ok bytes) =>
    let buf := map char_of_byte (take 20 bytes) in
    if (length buf <? 1)%nat then mpure (-1)
    else deref (fun _ => add_digits 0 (drop_while (fun c => negb (isdigit c)) buf))
  end.

(** ** get_pidof, get_pidfile, clear_pidfile *)

Definition svc_get_string (type : s_entry) (a : active_db_h) : option string :=
  initng_data_get_string_var type None (a_data a).

Definition get_pidof (s : addr) : G Z :=
  let! a := get_service s in
  match svc_get_string PIDOF a with
  | None => mpure (-1)
  | Some pidof => pid_of pidof
  end.

Definition absolute (path : string) : bool :=
  match path with String "/" _ => true | _ => false end.

(** [n] bounds the rounds by the number of variables of the service. *)
Fixpoint pidfile_loop (n : nat) (s : addr) (itt : option addr) : G Z :=
  match n with
  | O => nofuel
  | S n =>
    let! a := get_service s in
    let (pidfile, itt) := initng_data_get_next_string_var PIDFILE None (a_data a) itt in
    match pidfile with
    | None => mpure (-1)
    | Some pidfile =>
      if negb (absolute pidfile) then mpure (-1)
      else
        let! pid := pid_from_file pidfile in
        if 1 <? pid then mpure pid else pidfile_loop n s itt
    end
  end.

Definition variables (a : active_db_h) : nat := S (length (all_entries (a_data a))).

Definition get_pidfile (s : addr) : G Z :=
  let! a := get_service s in pidfile_loop (variables a) s None.

(** The loop ends in its first round on every branch. *)
Definition clear_pidfile (s : addr) : G unit :=
  let! a := get_service s in
  match fst (initng_data_get_next_string_var PIDFILE None (a_data a) None) with
  | None => mpure tt
  | Some pidfile =>
    if absolute pidfile then syscall (fun t => sys_unlink t pidfile) ;;; mpure tt
    else mpure tt
  end.

(** ** Stype handlers *)

Definition start_DAEMON (daemon : addr) : G Z :=
  let! a := get_service daemon in
  if IS_MARK a DAEMON_WAITING_FOR_STOP_DEP then
    initng_common_mark_service daemon DAEMON_RUNNING ;;; mpure TRUE
  else
    let! r := initng_common_mark_service daemon DAEMON_START_MARKED in
    if negb (c_true r) then mpure FALSE else mpure TRUE.

Definition stop_DAEMON (daemon : addr) : G Z :=
  let! a := get_service daemon in
  if IS_MARK a DAEMON_WAITING_FOR_START_DEP then
    initng_common_mark_service daemon DAEMON_STOPPED ;;; mpure TRUE
  else
    let! r := initng_common_mark_service daemon DAEMON_STOP_MARKED in
    if negb (c_true r) then mpure FALSE else mpure TRUE.

(** ** kill_daemon *)

(** initng_process_db_free *)
Definition process_free (service p : addr) : G unit := upd_service service (mark_process_free p).

Definition kill_daemon (service : addr) (sig : Z) : G unit :=
  let! a := get_service service in
  match initng_process_db_get T_DAEMON a with
  | None => mpure tt
  | Some process =>
    let! gone := process_gone (p_pid process) in
    if (gone : bool) then process_free service (p_addr process)
    else do_kill (p_pid process) sig ;;; mpure tt
  end.

(** ** check_respawn *)

Definition svc_set_int (type : s_entry) (service : addr) (value : Z) : G unit :=
  let! fresh := new_addr in
  upd_service service (fun a => a <| a_data := initng_data_set_int_var (Some type) None fresh (a_data a) value |>).

Definition check_respawn (service : addr) : G Z :=
  let! a := get_service service in
  if negb (IS_MARK a DAEMON_RUNNING) then mpure FALSE
  else if negb (svc_is RESPAWN a) then mpure FALSE
  else
    let! last := if svc_is INTERNAL_LAST_RESPAWN a then svc_get_int INTERNAL_LAST_RESPAWN a else mpure 0 in
    let! respawn_rate :=
      if svc_is RESPAWN_RATE a then svc_get_int RESPAWN_RATE a else mpure DEFAULT_RESPAWN_RATE in
    let! now := asks g_now in
    if c_true last && (0 <? respawn_rate) && (tv_sec now - last <? respawn_rate) then
      mark service DAEMON_RESPAWN_RATE_EXCEEDED ;;; mpure FALSE
    else
      svc_set_int INTERNAL_LAST_RESPAWN service (to_int (tv_sec now)) ;;;
      mark service DAEMON_WAIT_RESP_TOUT ;;; mpure TRUE.

(** ** try_get_pid *)

Definition found_pid (s : addr) (pid : Z) : G Z :=
  let! a := get_service s in
  match initng_process_db_get T_DAEMON a with
  | None => mark s DAEMON_UP_CHECK_FAILED ;;; mpure FALSE
  | Some p =>
    (if svc_is FORKS a then upd_process s (p_addr p) (fun q => q <| p_pid := pid |>) else mpure tt) ;;;
    let! r := initng_depend_up_check s in
    if r =? FAIL then mark s DAEMON_UP_CHECK_FAILED ;;; mpure FALSE
    else mark s DAEMON_RUNNING ;;; mpure TRUE
  end.

Definition try_get_pid (s : addr) : G Z :=
  let! a := get_service s in
  let! pid :=
    if svc_is PIDOF a then let! pid := get_pidof s in mpure (Some pid)
    else if svc_is PIDFILE a then let! pid := get_pidfile s in mpure (Some pid)
    else mpure None in
  match pid with
  | None => mpure FALSE
  | Some pid =>
    if 0 <? pid then
      let! r := do_kill pid 0 in
      if bool_decide (r = Some ESRCH) then mpure FALSE else found_pid s pid
    else mpure FALSE
  end.

(** ** State functions *)

Definition init_DAEMON_START_MARKED (daemon : addr) : G unit :=
  initng_depend_start_deps fuel daemon ;;;
  mark daemon DAEMON_WAITING_FOR_START_DEP.

Definition init_DAEMON_STOP_MARKED (daemon : addr) : G unit :=
  initng_depend_stop_deps fuel daemon ;;;
  mark daemon DAEMON_WAITING_FOR_STOP_DEP.

Definition handle_DAEMON_WAITING_FOR_START_DEP (daemon : addr) : G unit :=
  let! r := initng_depend_start_dep_met fuel daemon in
  if r =? TRUE then
    let! sys_state := asks g_sys_state in
    if negb (bool_decide (sys_state = STATE_STARTING)) && negb (bool_decide (sys_state = STATE_UP))
    then mark daemon DAEMON_STOPPED
    else mark daemon DAEMON_START_DEPS_MET
  else if r =? FAIL then mark daemon DAEMON_START_DEPS_FAILED
  else mpure tt.

Definition handle_DAEMON_WAITING_FOR_STOP_DEP (daemon : addr) : G unit :=
  let! r := initng_depend_stop_dep_met fuel daemon in
  if negb (r =? TRUE) then mpure tt
  else mark daemon DAEMON_STOP_DEPS_MET.

(** Lines 778-812: a daemon that runs already is taken over. *)
Definition adopt_running (daemon : addr) : G bool :=
  let! a := get_service daemon in
  if svc_is PIDOF a then
    let! pid := get_pidof daemon in
    if 1 <? pid then
      let! r := do_kill pid 0 in
      if bool_decide (r = None) then
        let! p := new_addr in
        upd_service daemon (fun a =>
          a <| a_processes := a_processes a ++ [(initng_process_db_new p T_DAEMON) <| p_pid := pid |>] |>) ;;;
        mark daemon DAEMON_RUNNING ;;; mpure true
      else mpure false
    else mpure false
  else mpure false.

Definition init_DAEMON_START_DEPS_MET (daemon : addr) : G unit :=
  clear_pidfile daemon ;;;
  let! r := initng_common_mark_service daemon DAEMON_LAUNCH in
  if negb (c_true r) then mpure tt
  else
    let! adopted := adopt_running daemon in
    if (adopted : bool) then mpure tt
    else
      let! r := initng_execute_launch daemon T_DAEMON None in
      if r =? FALSE then mark daemon DAEMON_FAIL_START_LAUNCH
      else if r =? FAIL then mark daemon DAEMON_FAIL_START_NONEXIST
      else
        let! a := get_service daemon in
        if svc_is PIDFILE a || svc_is PIDOF a then mark daemon DAEMON_WAIT_FOR_PID_FILE
        else if svc_is FORKS a then mpure tt
        else
          let! r := initng_depend_up_check daemon in
          if r =? FAIL then mark daemon DAEMON_UP_CHECK_FAILED
          else mark daemon DAEMON_RUNNING.

Definition init_DAEMON_STOP_DEPS_MET (service : addr) : G unit :=
  let! a := get_service service in
  match initng_process_db_get T_DAEMON a with
  | None => mpure tt
  | Some process =>
    let! gone := process_gone (p_pid process) in
    if (gone : bool) then mark service DAEMON_STOPPED
    else
      let! r := initng_execute_launch service T_KILL None in
      if r =? FAIL then mark service DAEMON_FAIL_STOPPING
      else if r =? FALSE then kill_daemon service SIGTERM ;;; mark service DAEMON_TERM
      else mark service DAEMON_TERM
  end.

Definition init_DAEMON_WAIT_FOR_PID_FILE (s : addr) : G unit := initng_handler_set_alarm s 1.

Definition timeout_DAEMON_WAIT_FOR_PID_FILE (s : addr) : G unit :=
  let! a := get_service s in
  let! now := asks g_now in
  if tv_sec (a_time_current_state a) + PID_TIMEOUT <? tv_sec now then
    mark s DAEMON_FAIL_START_TIMEOUT_PIDFILE ;;;
    kill_daemon s SIGKILL ;;;
    let! a := get_service s in
    match initng_process_db_get T_DAEMON a with
    | Some process => process_free s (p_addr process)
    | None => mpure tt
    end
  else
    let! r := try_get_pid s in
    if negb (c_true r) then initng_handler_set_alarm s 1 else mpure tt.

Definition init_DAEMON_WAIT_RESP_TOUT (service : addr) : G unit :=
  let! a := get_service service in
  let! respawn_pause :=
    if svc_is RESPAWN_PAUSE a then svc_get_int RESPAWN_PAUSE a else mpure DEFAULT_RESPAWN_PAUSE in
  initng_handler_set_alarm service respawn_pause.

Definition timeout_DAEMON_WAIT_RESP_TOUT (service : addr) : G unit :=
  mark service DAEMON_STOPPED ;;;
  initng_handler_start_service fuel service ;;; mpure tt.

Definition init_DAEMON_TERM (daemon : addr) : G unit :=
  let! a := get_service daemon in
  let! timeout := svc_get_int TERM_TIMEOUT a in
  let timeout := if timeout =? 0 then DEFAULT_TERM_TIMEOUT else timeout in
  initng_handler_set_alarm daemon timeout.

Definition timeout_DAEMON_TERM (daemon : addr) : G unit :=
  kill_daemon daemon SIGKILL ;;; mark daemon DAEMON_KILL.

Definition init_DAEMON_KILL (daemon : addr) : G unit := initng_handler_set_alarm daemon DEFAULT_KILL_TIMEOUT.

Definition timeout_DAEMON_KILL (daemon : addr) : G unit :=
  kill_daemon daemon SIGKILL ;;; initng_handler_set_alarm daemon DEFAULT_KILL_TIMEOUT.

(** ** handle_killed_daemon *)

Definition handle_killed_daemon (daemon process : addr) : G unit :=
  let! a := get_service daemon in
  if IS_MARK a DAEMON_WAIT_FOR_PID_FILE && svc_is FORKS a then try_get_pid daemon ;;; mpure tt
  else
    let! r := check_respawn daemon in
    if c_true r then process_free daemon process
    else
      let! q := get_process daemon process in
      let rcode := p_r_code q in
      process_free daemon process ;;;
      let! a := get_service daemon in
      if WTERMSIG rcode =? 11 then mark daemon DAEMON_FAIL_START_SIGNAL
      else if WEXITSTATUS rcode =? 0 then mark daemon DAEMON_STOPPED
      else if svc_is DAEMON_FAIL_OK a then mark daemon DAEMON_STOPPED
      else if bool_decide (GET_STATE a = IS_STOPPING) && svc_is DAEMON_STOPS_BADLY a
      then mark daemon DAEMON_STOPPED
      else mark daemon DAEMON_FAIL_START_RCODE.

(** ** Dispatch of the code addresses *)

Definition daemon_stype (f : fptr) (s : addr) : G Z :=
  if Pos.eqb f start_DAEMON_ptr then start_DAEMON s
  else if Pos.eqb f stop_DAEMON_ptr then stop_DAEMON s
  else fault.

Definition daemon_state (f : fptr) (s : addr) : G unit :=
  if Pos.eqb f init_DAEMON_START_MARKED_ptr then init_DAEMON_START_MARKED s
  else if Pos.eqb f init_DAEMON_STOP_MARKED_ptr then init_DAEMON_STOP_MARKED s
  else if Pos.eqb f handle_DAEMON_WAITING_FOR_START_DEP_ptr then handle_DAEMON_WAITING_FOR_START_DEP s
  else if Pos.eqb f handle_DAEMON_WAITING_FOR_STOP_DEP_ptr then handle_DAEMON_WAITING_FOR_STOP_DEP s
  else if Pos.eqb f init_DAEMON_START_DEPS_MET_ptr then init_DAEMON_START_DEPS_MET s
  else if Pos.eqb f init_DAEMON_STOP_DEPS_MET_ptr then init_DAEMON_STOP_DEPS_MET s
  else if Pos.eqb f init_DAEMON_WAIT_FOR_PID_FILE_ptr then init_DAEMON_WAIT_FOR_PID_FILE s
  else if Pos.eqb f timeout_DAEMON_WAIT_FOR_PID_FILE_ptr then timeout_DAEMON_WAIT_FOR_PID_FILE s
  else if Pos.eqb f init_DAEMON_WAIT_RESP_TOUT_ptr then init_DAEMON_WAIT_RESP_TOUT s
  else if Pos.eqb f timeout_DAEMON_WAIT_RESP_TOUT_ptr then timeout_DAEMON_WAIT_RESP_TOUT s
  else if Pos.eqb f init_DAEMON_TERM_ptr then init_DAEMON_TERM s
  else if Pos.eqb f timeout_DAEMON_TERM_ptr then timeout_DAEMON_TERM s
  else if Pos.eqb f init_DAEMON_KILL_ptr then init_DAEMON_KILL s
  else if Pos.eqb f timeout_DAEMON_KILL_ptr then timeout_DAEMON_KILL s
  else fault.

Definition daemon_kill (f : fptr) (s p : addr) : G unit :=
  if Pos.eqb f handle_killed_daemon_ptr then handle_killed_daemon s p else fault.

End daemon.

(** ** module_init and module_unload *)

Definition daemon_entries : list s_entry :=
  [PIDFILE; PIDOF; FORKS; RESPAWN; TERM_TIMEOUT; DAEMON_FAIL_OK; DAEMON_STOPS_BADLY;
   INTERNAL_LAST_RESPAWN; RESPAWN_PAUSE; RESPAWN_RATE].

Definition daemon_states : list a_state_h :=
  [DAEMON_START_MARKED; DAEMON_STOP_MARKED; DAEMON_RUNNING; DAEMON_WAITING_FOR_START_DEP;
   DAEMON_WAITING_FOR_STOP_DEP; DAEMON_START_DEPS_MET; DAEMON_STOP_DEPS_MET; DAEMON_KILL; DAEMON_TERM;
   DAEMON_STOPPED; DAEMON_LAUNCH; DAEMON_WAIT_FOR_PID_FILE; DAEMON_START_DEPS_FAILED;
   DAEMON_STOP_DEPS_FAILED; DAEMON_FAIL_START_RCODE; DAEMON_FAIL_START_SIGNAL; DAEMON_FAIL_START_LAUNCH;
   DAEMON_FAIL_START_NONEXIST; DAEMON_FAIL_START_TIMEOUT_PIDFILE; DAEMON_FAIL_STOPPING;
   DAEMON_WAIT_RESP_TOUT; DAEMON_UP_CHECK_FAILED; DAEMON_RESPAWN_RATE_EXCEEDED].

Definition daemon_module_init : G Z :=
  service_type_register TYPE_DAEMON ;;;
  process_type_register T_DAEMON ;;;
  process_type_register T_KILL ;;;
  for_each (R := unit) daemon_entries (fun e => initng_service_data_type_register e ;;; mpure None) ;;;
  for_each (R := unit) daemon_states (fun st => initng_active_state_register st ;;; mpure None) ;;;
  mpure TRUE.

(** DAEMON_STOPS_BADLY and DAEMON_FAIL_OK go in the other order. *)
Definition daemon_entries_unload : list s_entry :=
  [PIDFILE; PIDOF; FORKS; RESPAWN; TERM_TIMEOUT; DAEMON_STOPS_BADLY; DAEMON_FAIL_OK;
   INTERNAL_LAST_RESPAWN; RESPAWN_PAUSE; RESPAWN_RATE].

Definition daemon_module_unload : G unit :=
  for_each (R := unit) daemon_states (fun st => active_state_unregister st ;;; mpure None) ;;;
  for_each (R := unit) daemon_entries_unload
    (fun e => initng_service_data_type_unregister e ;;; mpure None) ;;;
  process_type_unregister T_DAEMON ;;;
  process_type_unregister T_KILL ;;;
  service_type_unregister TYPE_DAEMON.

(** ** Numbers in text *)

Definition byte_of_char (c : ascii) : Z := Z.of_nat (nat_of_ascii c).

Lemma char_of_byte_of_char s : map char_of_byte (map byte_of_char s) = s.
Proof.
  rewrite List.map_map. rewrite <- (List.map_id s) at 2. apply List.map_ext. intros c.
  unfold char_of_byte, byte_of_char. by rewrite Nat2Z.id, ascii_nat_embedding.
Qed.

Definition dec (n : Z) : chars := chars_of (pretty n).

Definition all_digits (s : chars) : Prop := Forall (fun c => isdigit c = true) s.
Definition starts_with_digit (s : chars) : bool := match s with c :: _ => isdigit c | [] => false end.

Lemma isdigit_value c : isdigit c = true -> 0 <= digit_value c <= 9.
Proof. unfold isdigit. intros [H1 H2]%andb_prop. lia. Qed.

Lemma pretty_N_char_digit x : (x < 10)%N -> isdigit (pretty_N_char x) = true /\ digit_value (pretty_N_char x) = Z.of_N x.
Proof.
  intros Hx. destruct x as [|p]; [done|].
  do 9 (destruct p as [p|p|]; [| |by vm_compute]; try lia; try (destruct p as [p|p|]; try lia; by vm_compute)); lia.
Qed.

Lemma digits_value_snoc s c : digits_value (s ++ [c]) = digits_value s * 10 + digit_value c.
Proof. unfold digits_value. by rewrite fold_left_app. Qed.

Lemma pretty_N_go_digits x s :
  exists ds, chars_of (pretty_N_go x s) = ds ++ chars_of s /\ all_digits ds /\ digits_value ds = Z.of_N x.
Proof.
  revert s. induction (N.lt_wf_0 x) as [x _ IH]; intros s.
  destruct (decide (x = 0)%N) as [->|Hx]; [exists []; split; [done|]; split; [constructor|done]|].
  rewrite pretty_N_go_step by lia.
  destruct (IH (x / 10)%N ltac:(apply N.div_lt; lia) (String (pretty_N_char (x mod 10)) s)) as (ds & E & Hd & Hv).
  destruct (pretty_N_char_digit (x mod 10)) as [Hc Hcv]; [by apply N.mod_lt|].
  exists (ds ++ [pretty_N_char (x mod 10)]). split; [by rewrite E, <- app_assoc|].
  split; [by apply Forall_app_2; [|repeat constructor]|].
  rewrite digits_value_snoc, Hv, Hcv. pose proof (N.div_mod x 10). lia.
Qed.

Lemma dec_digits n : 0 <= n -> all_digits (dec n) /\ digits_value (dec n) = n /\ dec n <> [].
Proof.
  intros Hn. destruct n as [|p|p]; [by vm_compute; repeat constructor| |lia].
  unfold dec, pretty, pretty_Z, pretty, pretty_positive, pretty, pretty_N. rewrite decide_False by done.
  destruct (pretty_N_go_digits (Npos p) "") as (ds & E & Hd & Hv). rewrite E, app_nil_r. split; [done|].
  split; [by rewrite Hv|]. intros ->. cbn in Hv. lia.
Qed.

Lemma digits_grow s n : all_digits s -> 0 <= n -> n <= fold_left (fun n c => n * 10 + digit_value c) s n.
Proof.
  intros Hs. revert n. induction Hs as [|c s Hc _ IH]; intros n Hn; cbn; [lia|].
  apply isdigit_value in Hc. etransitivity; [|apply IH]; lia.
Qed.

(** The digits in front of a text are read as their value. *)
Lemma add_digits_value s post n :
  all_digits s -> starts_with_digit post = false -> 0 <= n ->
  fold_left (fun n c => n * 10 + digit_value c) s n < 2 ^ 31 ->
  add_digits n (s ++ post) = Some (fold_left (fun n c => n * 10 + digit_value c) s n).
Proof.
  intros Hs Hp. revert n. induction Hs as [|c s Hc Hs IH]; intros n Hn Hlt; cbn in *.
  - destruct post as [|c post]; [done|]. cbn in *. by rewrite Hp.
  - rewrite Hc. pose proof (isdigit_value c Hc) as Hv.
    pose proof (digits_grow s (n * 10 + digit_value c) Hs ltac:(lia)) as Hg.
    unfold digit_value in *.
    rewrite !(proj2 (Z.leb_gt _ _)) by lia. cbn. rewrite IH; [|lia|].
    + do 2 f_equal. lia.
    + replace (n * 10 - 48 + Z.of_nat (nat_of_ascii c)) with (n * 10 + (Z.of_nat (nat_of_ascii c) - 48)) by lia. done.
Qed.

Lemma drop_while_prefix f pre s :
  Forall (fun c => f c = true) pre -> match s with c :: _ => f c = false | [] => True end ->
  drop_while f (pre ++ s) = s.
Proof.
  intros Hp Hs. induction Hp as [|c pre Hc _ IH]; cbn.
  - destruct s as [|c s]; [done|]. cbn. by rewrite Hs.
  - by rewrite Hc.
Qed.

(** A pid file is read back.  From a file that holds a pid in decimal,
    within its first 20 bytes, after any text without digits and up to the end
    or a byte that is no digit, pid_from_file returns that pid. *)
Theorem pidfile_roundtrip `{!DaemonSys} g name pid pre post :
  0 <= pid < 2 ^ 31 -> Forall (fun c => isdigit c = false) pre -> starts_with_digit post = false ->
  (length pre + length (dec pid) <= 20)%nat ->
  sys_pid_file (g_ticks g) name = Some (Read_ok (map byte_of_char (pre ++ dec pid ++ post))) ->
  pid_from_file name g = Done (pid, g <| g_ticks := S (g_ticks g) |>).
Proof.
  intros Hpid Hpre Hpost Hlen Hfile. unfold pid_from_file.
  rewrite (mthen_run _ _ g _ (g <| g_ticks := S (g_ticks g) |>) eq_refl), Hfile.
  destruct (dec_digits pid) as (Hd & Hv & Hne); [lia|].
  rewrite <- firstn_map. change (@List.firstn) with (@take). rewrite char_of_byte_of_char.
  rewrite app_assoc, take_app_ge, <- app_assoc by (rewrite length_app; lia).
  set (rest := take _ post).
  assert (Hrest : starts_with_digit rest = false) by (unfold rest; destruct post; [by rewrite take_nil|]; by destruct (20 - _)%nat).
  rewrite (proj2 (Nat.ltb_ge _ _)) by (rewrite !length_app; destruct (dec pid); [done|cbn; lia]).
  rewrite drop_while_prefix; [|by apply (Forall_impl _ _ _ Hpre); intros c ->|].
  2:{ destruct Hd as [|c ds Hc]; [done|]. cbn. by rewrite Hc. }
  unfold deref. rewrite add_digits_value; [|done|done|lia|].
  - unfold digits_value in Hv. by rewrite Hv.
  - unfold digits_value in Hv. rewrite Hv. lia.
Qed.

(** ** Names of processes *)

Lemma strncmp_prefix n s t : (n <= length s)%nat -> strncmp_eq n s t = is_prefix (take n s) t.
Proof.
  revert s t. induction n as [|n IH]; intros s t Hn; [done|].
  destruct s as [|c s]; [cbn in Hn; lia|]. cbn in Hn. destruct t as [|d t]; [done|]. cbn.
  by rewrite IH by lia.
Qed.

Lemma take_while_length f (s : chars) : (length (take_while f s) <= length s)%nat.
Proof. induction s as [|c s IH]; cbn; [lia|]. destruct (f c); cbn; lia. Qed.

(** The name of a process, between the parentheses of its stat line. *)
Definition comm_of (line : chars) : option chars :=
  (fun '(s, len) => take len s) <$> stat_comm (c_string (take (BUFF_SIZE - 1) line)).

Lemma stat_comm_length buf s len : stat_comm buf = Some (s, len) -> (len <= length s)%nat.
Proof. unfold stat_comm. repeat case_match; intros E; simplify_eq. apply take_while_length. Qed.

Section pid_of_facts.
Context `{DS : DaemonSys} (files : string -> option chars).

(** Does the directory entry [d] of /proc count as the process called [name]? *)
Definition entry_matches_name (name : chars) (d : string) : bool :=
  let pid := atoi (chars_of d) in
  (0 <? pid) && match files (stat_path pid) ≫= comm_of with
                | Some comm => is_prefix comm name
                | None => false
                end.

Lemma pid_of_loop_run name dir g :
  (forall t path, sys_stat_line t path = files path) ->
  exists n, pid_of_loop name dir g =
    Done (match List.find (entry_matches_name name) dir with Some d => atoi (chars_of d) | None => -1 end,
          g <| g_ticks := n |>).
Proof.
  intros Hf. revert g. induction dir as [|d dir IH]; intros g; [exists (g_ticks g); by destruct g|].
  cbn [pid_of_loop List.find]. unfold entry_matches_name at 1. cbv zeta.
  destruct (Z.leb_spec (atoi (chars_of d)) 0) as [Hd|Hd].
  { rewrite (proj2 (Z.ltb_ge 0 _)) by lia. apply IH. }
  rewrite (proj2 (Z.ltb_lt 0 _)) by lia. cbn [andb].
  set (g1 := g <| g_ticks := S (g_ticks g) |>).
  assert (Hnext : exists n, pid_of_loop name dir g1 =
    Done (match List.find (entry_matches_name name) dir with Some d => atoi (chars_of d) | None => -1 end,
          g <| g_ticks := n |>)) by (destruct (IH g1) as [n E]; by exists n).
  rewrite (mthen_run _ _ g (files (stat_path (atoi (chars_of d)))) g1) by (unfold syscall, g1; cbn; by rewrite Hf).
  destruct (files _) as [line|]; [|exact Hnext]. cbn [mbind option_bind]. unfold comm_of.
  destruct (stat_comm _) as [[s len]|] eqn:Es; [|exact Hnext]. cbn [fmap option_fmap option_map].
  rewrite strncmp_prefix by (by eapply stat_comm_length). destruct (is_prefix _ _); [|exact Hnext].
  by exists (S (g_ticks g)).
Qed.

(** Which process pid_of finds.  It returns the first numeric entry of /proc
    whose process name is a prefix of the name asked for, and -1 if there is
    none: the comparison has the length of the process name, so that looking
    for "sshd" also finds a process called "ss" or one without a name. *)
Theorem pid_of_finds_first_prefix name dir g :
  (forall t path, sys_stat_line t path = files path) -> sys_proc_dir (g_ticks g) = Some dir ->
  exists n, pid_of name g =
    Done (match List.find (entry_matches_name (chars_of name)) dir with Some d => atoi (chars_of d) | None => -1 end,
          g <| g_ticks := n |>).
Proof.
  intros Hf Hdir. unfold pid_of. rewrite (mthen_run _ _ g (Some dir) (g <| g_ticks := S (g_ticks g) |>)).
  - destruct (pid_of_loop_run (chars_of name) dir (g <| g_ticks := S (g_ticks g) |>) Hf) as [n E]. by exists n.
  - unfold syscall. cbn. by rewrite Hdir.
Qed.

End pid_of_facts.

(** ** Lemmas: what a mark does to a service whose state is not locked *)

(** [b] is [a] in state [st]; the processes, the name, the type and the
    variables are those of [a]. *)
Definition marked (a b : active_db_h) (st : a_state_h) : Prop :=
  a_current_state b = st /\ a_state_lock b = 0 /\ a_processes b = a_processes a /\ fixed_part b = fixed_part a.

(** What a function on one service leaves alone beside the other services. *)
Definition same_rest (g g' : s_global) : Prop :=
  g_now g' = g_now g /\ g_clock g' = g_clock g /\ g_hooks g' = g_hooks g /\ g_active_db g' = g_active_db g /\
  g_sys_state g' = g_sys_state g.

#[export] Instance same_rest_preorder : PreOrder same_rest.
Proof. split; [done|]. intros g1 g2 g3 (E1 & E2 & E3 & E4 & E5) (F1 & F2 & F3 & F4 & F5). repeat split; congruence. Qed.

Lemma interrupt_add_rest s g : same_rest g (interrupt_add s g).
Proof. unfold interrupt_add. by case_decide. Qed.

Lemma mark_run g s a st :
  g_heap g !! s = Some a -> a_state_lock a = 0 ->
  exists g' b, mark s st g = Done (tt, g') /\ g_heap g' = <[s := b]> (g_heap g) /\ marked a b st /\
    same_rest g g' /\ g_kills g' = g_kills g /\ g_ticks g' = g_ticks g /\
    (a_current_state a <> st -> s ∈ g_interrupt g').
Proof.
  intros Ha Hl. unfold mark. destruct (decide (a_current_state a = st)) as [E|E].
  - eexists _, (a <| a_next_state := None |>). erewrite mthen_run.
    2:{ rewrite (mark_service_run _ _ _ _ Ha). unfold mark_result. rewrite Hl. cbn. by rewrite decide_True. }
    by repeat split.
  - pose proof (mark_unlocked g s a st Ha Hl E) as R. unfold mark in R. rewrite R. eexists _, _.
    split; [reflexivity|]. rewrite interrupt_add_heap, interrupt_add_kills. split; [reflexivity|].
    split; [|split; [etransitivity; [|apply interrupt_add_rest]; done|split; [done|]]].
    + split; [apply apply_next_state_current|]. split; [by rewrite apply_next_state_lock|].
      by rewrite apply_next_state_processes, apply_next_state_fixed.
    + split; [by unfold interrupt_add; case_decide|]. intros _. unfold interrupt_add. case_decide; [done|]. cbn. set_solver.
Qed.

Lemma fixed_part_data a b : fixed_part b = fixed_part a -> a_data b = a_data a.
Proof. unfold fixed_part. intros [=]. done. Qed.

Lemma process_free_run g s a p :
  g_heap g !! s = Some a -> process_free s p g = Done (tt, put_service s (mark_process_free p a) g).
Proof. intros Ha. by apply upd_service_run. Qed.

(** ** Respawn *)

Definition int_or_0 (type : s_entry) (a : active_db_h) : Z :=
  default 0 (initng_data_get_int_var type None (a_data a)).
Definition last_respawn (a : active_db_h) : Z := int_or_0 INTERNAL_LAST_RESPAWN a.
Definition respawn_rate (a : active_db_h) : Z :=
  if svc_is RESPAWN_RATE a then int_or_0 RESPAWN_RATE a else DEFAULT_RESPAWN_RATE.

(** A variable of type INT holds an int. *)
Definition int_ok (type : s_entry) (a : active_db_h) : Prop :=
  is_Some (initng_data_get_int_var type None (a_data a)).

Lemma svc_get_int_run type a g : int_ok type a -> svc_get_int type a g = Done (int_or_0 type a, g).
Proof. intros [i E]. unfold svc_get_int, int_or_0, deref. by rewrite E. Qed.

Definition rate_exceeded (now : Z) (a : active_db_h) : bool :=
  c_true (last_respawn a) && (0 <? respawn_rate a) && (now - last_respawn a <? respawn_rate a).

(** Of a daemon in state [a] whose process died at [now]: is it respawned? *)
Definition respawns (now : Z) (a : active_db_h) : bool :=
  IS_MARK a DAEMON_RUNNING && svc_is RESPAWN a && negb (rate_exceeded now a).

Definition remembered (now : Z) (fresh : addr) (a : active_db_h) : active_db_h :=
  a <| a_data := initng_data_set_int_var (Some INTERNAL_LAST_RESPAWN) None fresh (a_data a) (to_int now) |>.

Lemma last_respawn_run a g :
  int_ok INTERNAL_LAST_RESPAWN a ->
  (if svc_is INTERNAL_LAST_RESPAWN a then svc_get_int INTERNAL_LAST_RESPAWN a else mpure 0) g =
  Done (last_respawn a, g).
Proof.
  intros Hi. destruct (svc_is INTERNAL_LAST_RESPAWN a) eqn:E; [by apply svc_get_int_run|].
  unfold last_respawn, int_or_0, initng_data_get_int_var. unfold svc_is, initng_data_is_var in E.
  apply bool_decide_eq_false in E. destruct (initng_data_get_next_var _ _ _ _); [|done].
  destruct E. by eexists.
Qed.

Lemma respawn_rate_run a g :
  int_ok RESPAWN_RATE a ->
  (if svc_is RESPAWN_RATE a then svc_get_int RESPAWN_RATE a else mpure DEFAULT_RESPAWN_RATE) g =
  Done (respawn_rate a, g).
Proof. intros Hi. unfold respawn_rate. destruct (svc_is RESPAWN_RATE a); [by apply svc_get_int_run|done]. Qed.

(** check_respawn, on each branch. *)
Lemma check_respawn_run g s a :
  g_heap g !! s = Some a -> a_state_lock a = 0 -> int_ok INTERNAL_LAST_RESPAWN a -> int_ok RESPAWN_RATE a ->
  exists g' b, check_respawn s g = Done (of_bool (respawns (tv_sec (g_now g)) a), g') /\
    g_heap g' = <[s := b]> (g_heap g) /\ same_rest g g' /\ g_kills g' = g_kills g /\
    if respawns (tv_sec (g_now g)) a then marked (remembered (tv_sec (g_now g)) (g_fresh g) a) b DAEMON_WAIT_RESP_TOUT
    else marked a b (if IS_MARK a DAEMON_RUNNING && svc_is RESPAWN a then DAEMON_RESPAWN_RATE_EXCEEDED else a_current_state a).
Proof.
  intros Ha Hl Hi Hr. unfold check_respawn, respawns. rewrite (mthen_run _ _ _ _ _ (get_service_run _ _ _ Ha)).
  destruct (IS_MARK a DAEMON_RUNNING) eqn:Em; cbn [negb andb].
  2:{ exists g, a. rewrite insert_id by done. by repeat split. }
  destruct (svc_is RESPAWN a) eqn:Er; cbn [negb andb].
  2:{ exists g, a. rewrite insert_id by done. by repeat split. }
  rewrite (mthen_run _ _ _ _ _ (last_respawn_run a g Hi)), (mthen_run _ _ _ _ _ (respawn_rate_run a g Hr)), then_asks.
  fold (rate_exceeded (tv_sec (g_now g)) a). destruct (rate_exceeded _ a); cbn [negb of_bool].
  - destruct (mark_run g s a DAEMON_RESPAWN_RATE_EXCEEDED Ha Hl) as (g' & b & E & Hh & Hm & Hs & Hk & _).
    exists g', b. by rewrite (mthen_run _ _ _ _ _ E).
  - set (a1 := remembered (tv_sec (g_now g)) (g_fresh g) a).
    set (g1 := put_service s a1 (g <| g_fresh := Pos.succ (g_fresh g) |>)).
    assert (E1 : svc_set_int INTERNAL_LAST_RESPAWN s (to_int (tv_sec (g_now g))) g = Done (tt, g1)).
    { unfold svc_set_int, new_addr. rewrite (mthen_run _ _ g (g_fresh g) (g <| g_fresh := Pos.succ (g_fresh g) |>)) by done.
      by apply (upd_service_run _ s a). }
    rewrite (mthen_run _ _ _ _ _ E1).
    destruct (mark_run g1 s a1 DAEMON_WAIT_RESP_TOUT) as (g' & b & E & Hh & Hm & Hs & Hk & _);
      [apply put_service_lookup|done|].
    exists g', b. rewrite (mthen_run _ _ _ _ _ E). split; [done|]. cbn in Hh. rewrite insert_insert_eq in Hh.
    by repeat split; try apply Hs; try apply Hm.
Qed.

(** The state a dead daemon is left in when it is not respawned. *)
Definition daemon_verdict (rcode : Z) (a : active_db_h) : a_state_h :=
  if WTERMSIG rcode =? 11 then DAEMON_FAIL_START_SIGNAL
  else if (WEXITSTATUS rcode =? 0) || svc_is DAEMON_FAIL_OK a ||
    (bool_decide (GET_STATE a = IS_STOPPING) && svc_is DAEMON_STOPS_BADLY a) then DAEMON_STOPPED
  else DAEMON_FAIL_START_RCODE.

(** The verdict reads the variables and whether the daemon was stopping. *)
Lemma daemon_verdict_marked rcode a b :
  a_data b = a_data a -> bool_decide (GET_STATE b = IS_STOPPING) = bool_decide (GET_STATE a = IS_STOPPING) ->
  daemon_verdict rcode b = daemon_verdict rcode a.
Proof. intros Hd Hs. unfold daemon_verdict, svc_is. by rewrite Hd, Hs. Qed.

Lemma find_process_marked p (a b : active_db_h) :
  a_processes b = a_processes a ->
  List.find (fun q => Pos.eqb (p_addr q) p) (a_processes b) = List.find (fun q => Pos.eqb (p_addr q) p) (a_processes a).
Proof. by intros ->. Qed.

Lemma remembered_int_ok now fresh a :
  data_ok (a_data a) -> last_respawn (remembered now fresh a) = to_int now /\
  (forall type, same_entry INTERNAL_LAST_RESPAWN (alias_walk type) = false ->
    initng_data_get_int_var type None (a_data (remembered now fresh a)) = initng_data_get_int_var type None (a_data a)).
Proof.
  intros Hok. unfold last_respawn, int_or_0.
  change (a_data (remembered now fresh a)) with
    (initng_data_set_int_var (Some INTERNAL_LAST_RESPAWN) None fresh (a_data a) (to_int now)).
  destruct (set_int_get_int INTERNAL_LAST_RESPAWN None fresh (a_data a) (to_int now) Hok eq_refl eq_refl) as [E Ho].
  cbv zeta in E, Ho. split; [by rewrite E|]. intros type Ht. by apply Ho.
Qed.

Section daemon_facts.
Context `{CB : Callbacks, SY : Sys, DS : DaemonSys}.

Lemma killed_run g s p a q :
  g_heap g !! s = Some a -> List.find (fun q => Pos.eqb (p_addr q) p) (a_processes a) = Some q ->
  a_state_lock a = 0 -> data_ok (a_data a) -> int_ok INTERNAL_LAST_RESPAWN a -> int_ok RESPAWN_RATE a ->
  IS_MARK a DAEMON_WAIT_FOR_PID_FILE && svc_is FORKS a = false ->
  exists g' b, handle_killed_daemon s p g = Done (tt, g') /\ g_heap g' = <[s := b]> (g_heap g) /\
    a_state_lock b = 0 /\ a_processes b = a_processes (mark_process_free p a) /\
    if respawns (tv_sec (g_now g)) a
    then a_current_state b = DAEMON_WAIT_RESP_TOUT /\ last_respawn b = to_int (tv_sec (g_now g))
    else a_current_state b = daemon_verdict (p_r_code q) a /\ fixed_part b = fixed_part a.
Proof.
  intros Ha Hq Hl Hok Hi Hr Hpid. unfold handle_killed_daemon.
  rewrite (mthen_run _ _ _ _ _ (get_service_run _ _ _ Ha)), Hpid.
  destruct (check_respawn_run g s a Ha Hl Hi Hr) as (g1 & b & E1 & Hh & _ & _ & Hm).
  rewrite (mthen_run _ _ _ _ _ E1). assert (Hb : g_heap g1 !! s = Some b) by (rewrite Hh; apply lookup_insert_eq).
  destruct (respawns (tv_sec (g_now g)) a); cbn [of_bool];
    [change (c_true TRUE) with true|change (c_true FALSE) with false]; cbv iota.
  - destruct Hm as (Hst & Hlk & Hp & Hf). rewrite (process_free_run _ _ _ _ Hb). eexists _, _. split; [reflexivity|].
    rewrite put_service_heap, Hh, insert_insert_eq. split; [reflexivity|]. split; [done|].
    split; [unfold mark_process_free; cbn; by rewrite Hp|]. split; [done|].
    unfold last_respawn, int_or_0. cbn. rewrite (fixed_part_data _ _ Hf). by apply (remembered_int_ok _ _ a Hok).
  - destruct Hm as (Hst & Hlk & Hp & Hf).
    assert (Hqb : get_process s p g1 = Done (q, g1)).
    { unfold get_process. rewrite (mthen_run _ _ _ _ _ (get_service_run _ _ _ Hb)). unfold deref.
      by rewrite (find_process_marked p _ _ Hp), Hq. }
    rewrite (mthen_run _ _ _ _ _ Hqb), (mthen_run _ _ _ _ _ (process_free_run _ _ _ p Hb)).
    set (c := mark_process_free p b). set (g2 := put_service s c g1).
    rewrite (mthen_run _ _ g2 c g2) by (apply get_service_run, put_service_lookup).
    assert (Hend : forall st, exists g' d, mark s st g2 = Done (tt, g') /\ g_heap g' = <[s := d]> (g_heap g) /\
      a_state_lock d = 0 /\ a_processes d = a_processes (mark_process_free p a) /\
      a_current_state d = st /\ fixed_part d = fixed_part a).
    { intros st. destruct (mark_run g2 s c st (put_service_lookup _ _ _) Hlk) as (g' & d & E & Hd & (D1 & D2 & D3 & D4) & _).
      exists g', d. split; [done|]. rewrite Hd. unfold g2. rewrite put_service_heap, Hh, !insert_insert_eq. split; [done|]. split; [done|].
      split; [rewrite D3; cbn; by rewrite Hp|]. split; [done|]. rewrite D4. exact Hf. }
    assert (Hv : daemon_verdict (p_r_code q) a = daemon_verdict (p_r_code q) c).
    { symmetry. apply daemon_verdict_marked; [exact (fixed_part_data _ _ Hf)|].
      unfold GET_STATE. change (a_current_state c) with (a_current_state b). rewrite Hst.
      destruct (IS_MARK a DAEMON_RUNNING && svc_is RESPAWN a) eqn:Em; [|done].
      apply andb_prop in Em as [Em _]. apply bool_decide_eq_true in Em. by rewrite Em. }
    rewrite Hv. unfold daemon_verdict. repeat case_match; cbn in *; try congruence; apply Hend.
Qed.

(** *** The parent of a daemon that forks *)

(** What the parent leaves: where the pid of the daemon is looked up, and what
    is known once it was found and signal 0 was sent to it. *)
Definition pid_source (s : addr) (a : active_db_h) : G Z :=
  if svc_is PIDOF a then get_pidof s else if svc_is PIDFILE a then get_pidfile s else mpure (-1).
Definition exists_now (pid : Z) (g : s_global) : bool :=
  (0 <? pid) && negb (bool_decide (sys_kill (g_ticks g) pid 0 = Some ESRCH)).
Definition adopted (pid : Z) (d : process_h) (a : active_db_h) : active_db_h :=
  with_process (p_addr d) (fun q => q <| p_pid := pid |>) a.
Definition probed (pid : Z) (g : s_global) : s_global :=
  g <| g_kills := g_kills g ++ [(pid, 0)] |> <| g_ticks := S (g_ticks g) |>.

(** The lookup returns [pid], and the hooks of EVENT_UP_MET, whatever they answer,
    only look at services. *)
Record pid_found (s : addr) (a : active_db_h) (g : s_global) (pid : Z) (g1 : s_global) : Prop := {
  pf_run : pid_source s a g = Done (pid, g1);
  pf_hooks : forall d, initng_process_db_get T_DAEMON a = Some d ->
    let ga := put_service s (adopted pid d a) (probed pid g1) in
    exists e g2, initng_event_send (new_event EVENT_UP_MET (ED_service s)) ga = Done (e, g2) /\ g_heap g2 = g_heap ga
}.

Definition same_heap (g g' : s_global) : Prop := g_heap g' = g_heap g.
#[local] Instance same_heap_preorder : PreOrder same_heap.
Proof. split; [done|]. intros g1 g2 g3 H1 H2. unfold same_heap in *. congruence. Qed.

Lemma syscall_same_heap {A} (f : nat -> A) : steps same_heap (syscall f).
Proof. unfold syscall. repeat first [steps_step|by apply steps_modify]. Qed.
#[local] Hint Resolve syscall_same_heap : steps.
Lemma pid_of_same_heap name dir : steps same_heap (pid_of_loop name dir).
Proof. induction dir as [|d dir IH]; cbn [pid_of_loop]; repeat first [steps_step|exact IH]. Qed.
#[local] Hint Resolve pid_of_same_heap : steps.
Lemma pidfile_same_heap n s itt : steps same_heap (pidfile_loop n s itt).
Proof.
  revert itt. induction n as [|n IH]; intros itt; cbn [pidfile_loop]; unfold get_service, pid_from_file; repeat first [steps_step|apply IH].
Qed.
#[local] Hint Resolve pidfile_same_heap : steps.
Lemma pid_source_same_heap s a : steps same_heap (pid_source s a).
Proof. unfold pid_source, get_pidof, get_pidfile, pid_of, get_service. steps_auto. Qed.

Lemma taken_over g s p a pid g1 :
  g_heap g !! s = Some a -> a_state_lock a = 0 -> IS_MARK a DAEMON_WAIT_FOR_PID_FILE && svc_is FORKS a = true ->
  pid_found s a g pid g1 ->
  exists g' b, handle_killed_daemon s p g = Done (tt, g') /\ g_heap g' = <[s := b]> (g_heap g) /\
    if exists_now pid g1 then
      match initng_process_db_get T_DAEMON a with
      | Some d => marked (adopted pid d a) b DAEMON_RUNNING
      | None => marked a b DAEMON_UP_CHECK_FAILED
      end
    else b = a.
Proof.
  intros Ha Hl Hw [Hrun Hhooks]. pose proof (pid_source_same_heap _ _ _ _ _ Hrun) as Hh. unfold same_heap in Hh.
  assert (Hno : forall g2, g_heap g2 = g_heap g -> g_heap g2 = <[s := a]> (g_heap g)) by (intros g2 ->; by rewrite insert_id).
  unfold handle_killed_daemon. rewrite (mthen_run _ _ _ _ _ (get_service_run _ _ _ Ha)), Hw. unfold try_get_pid.
  rewrite then_then, (mthen_run _ _ _ _ _ (get_service_run _ _ _ Ha)), then_then. apply andb_prop in Hw as [_ Hforks].
  assert (Hsrc : forall k : option Z -> G unit,
    (let! pid := (if svc_is PIDOF a then let! pid := get_pidof s in mpure (Some pid)
      else if svc_is PIDFILE a then let! pid := get_pidfile s in mpure (Some pid) else mpure None) in k pid) g =
    k (if svc_is PIDOF a || svc_is PIDFILE a then Some pid else None) g1).
  { intros k. unfold pid_source in Hrun. destruct (svc_is PIDOF a); cbn [orb]; [by rewrite then_then, (mthen_run _ _ _ _ _ Hrun)|].
    destruct (svc_is PIDFILE a); [by rewrite then_then, (mthen_run _ _ _ _ _ Hrun)|]. injection Hrun as _ <-. by rewrite then_pure. }
  rewrite Hsrc. unfold exists_now.
  destruct (svc_is PIDOF a || svc_is PIDFILE a) eqn:Eor.
  2:{ unfold pid_source in Hrun. apply orb_false_iff in Eor as [E1 E2]. rewrite E1, E2 in Hrun. injection Hrun as <- <-.
      cbn [Z.ltb Z.compare andb]. rewrite then_pure. exists g, a. by split; [|split; [apply Hno|]]. }
  destruct (Z.ltb_spec 0 pid) as [Hp|_]; cbn [andb]; [|rewrite then_pure; exists g1, a; by split; [|split; [apply Hno|]]].
  rewrite then_then. unfold do_kill. rewrite then_then, then_modify, (mthen_run _ _ _ _ _ (syscall_run _ _)). cbv beta.
  change (_ <| g_ticks := _ |>) with (probed pid g1). change (g_ticks (g1 <| g_kills := _ |>)) with (g_ticks g1).
  case_bool_decide as Ek; cbn [negb]; [rewrite then_pure; exists (probed pid g1), a; by split; [|split; [apply Hno|]]|].
  assert (Ha1 : g_heap (probed pid g1) !! s = Some a) by (cbn; by rewrite Hh).
  unfold found_pid. rewrite then_then, (mthen_run _ _ _ _ _ (get_service_run _ _ _ Ha1)).
  destruct (initng_process_db_get T_DAEMON a) as [d|].
  - destruct (Hhooks d eq_refl) as (e & g2 & Ee & He). cbv zeta in He. rewrite Hforks, then_then, (mthen_run _ _ _ _ _ (upd_process_run _ _ _ _ _ Ha1)).
    fold (adopted pid d a). set (ga := put_service _ _ _) in *. rewrite then_then. unfold initng_depend_up_check.
    rewrite then_then, (mthen_run _ _ _ _ _ Ee), then_pure.
    assert (Hf : forall b, (of_bool b =? FAIL) = false) by (by intros []). rewrite Hf, then_then.
    assert (Hb : g_heap g2 !! s = Some (adopted pid d a)) by (rewrite He; apply put_service_lookup).
    destruct (mark_run g2 s _ DAEMON_RUNNING Hb Hl) as (g' & b & E & Hd & M & _). rewrite (mthen_run _ _ _ _ _ E). exists g', b.
    split; [done|]. split; [|done]. rewrite Hd, He. unfold ga. rewrite put_service_heap, insert_insert_eq. cbn. by rewrite Hh.
  - rewrite then_then. destruct (mark_run _ s _ DAEMON_UP_CHECK_FAILED Ha1 Hl) as (g' & b & E & Hd & M & _).
    rewrite (mthen_run _ _ _ _ _ E). exists g', b. split; [done|]. split; [|done]. rewrite Hd. cbn. by rewrite Hh.
Qed.

(** C12: the death of a daemon, on every branch.  No other service changes.
    - A daemon that forks and waits for its pid: the process that died was the
      parent.  When the pid that the pid file or /proc gives exists, the
      process of the daemon gets that pid and the daemon is DAEMON_RUNNING
      (whatever the hooks of EVENT_UP_MET say), or DAEMON_UP_CHECK_FAILED if it
      has no process; else nothing happens.
    - Otherwise a daemon in DAEMON_RUNNING with RESPAWN set and not respawned too
      recently goes to DAEMON_WAIT_RESP_TOUT, and the time is remembered;
    - and any other is DAEMON_FAIL_START_SIGNAL after a SIGSEGV, DAEMON_STOPPED
      after an exit status that is 0 or allowed, and DAEMON_FAIL_START_RCODE
      after another.  In these two cases the process is freed.  A daemon that
      dies too often ends in one of these states too:
      DAEMON_RESPAWN_RATE_EXCEEDED, in which it is put first, is overwritten in
      the same call.
    The lookup of the pid has to return, the hooks of EVENT_UP_MET to change no
    service, and INTERNAL_LAST_RESPAWN and RESPAWN_RATE to be integers if set. *)
Theorem killed_daemon_outcome g s p a q pid g1 :
  g_heap g !! s = Some a -> List.find (fun q => Pos.eqb (p_addr q) p) (a_processes a) = Some q ->
  a_state_lock a = 0 -> data_ok (a_data a) -> int_ok INTERNAL_LAST_RESPAWN a -> int_ok RESPAWN_RATE a ->
  let waits_for_pid := bool_decide (a_current_state a = DAEMON_WAIT_FOR_PID_FILE) && svc_is FORKS a in
  (waits_for_pid = true -> pid_found s a g pid g1) ->
  exists g' b, handle_killed_daemon s p g = Done (tt, g') /\ g_heap g' = <[s := b]> (g_heap g) /\ a_state_lock b = 0 /\
    if waits_for_pid then
      if (0 <? pid) && negb (bool_decide (sys_kill (g_ticks g1) pid 0 = Some ESRCH)) then
        fixed_part b = fixed_part a /\
        match initng_process_db_get T_DAEMON a with
        | Some d => a_current_state b = DAEMON_RUNNING /\
            a_processes b = map (fun q => if Pos.eqb (p_addr q) (p_addr d) then q <| p_pid := pid |> else q) (a_processes a)
        | None => a_current_state b = DAEMON_UP_CHECK_FAILED /\ a_processes b = a_processes a
        end
      else b = a
    else
      a_processes b = map (fun q => if Pos.eqb (p_addr q) p then q <| p_pst := P_FREE |> else q) (a_processes a) /\
      if respawns (tv_sec (g_now g)) a
      then a_current_state b = DAEMON_WAIT_RESP_TOUT /\ last_respawn b = to_int (tv_sec (g_now g))
      else a_current_state b = daemon_verdict (p_r_code q) a /\ fixed_part b = fixed_part a.
Proof.
  cbv zeta. intros Ha Hq Hl Hok Hi Hr Hfound. destruct (bool_decide (a_current_state a = DAEMON_WAIT_FOR_PID_FILE) && svc_is FORKS a) eqn:Ew.
  - destruct (taken_over g s p a pid g1 Ha Hl Ew (Hfound eq_refl)) as (g' & b & E & Hh & R). exists g', b. unfold exists_now in R.
    destruct ((0 <? pid) && _); [|subst; by repeat split]. split; [done|]. split; [done|].
    destruct (initng_process_db_get T_DAEMON a) as [d|]; destruct R as (R1 & R2 & R3 & R4); by repeat split.
  - destruct (killed_run g s p a q Ha Hq Hl Hok Hi Hr Ew) as (g' & b & E & R1 & R2 & R3 & R4). by exists g', b.
Qed.

(** C36: respawns keep their distance.  Of two respawns of a daemon, whatever
    happened in between as long as the time of the first is still remembered,
    the second comes at least respawn_rate seconds after the first. *)
Theorem respawns_keep_their_distance g1 g1' a b g2 g2' s :
  g_heap g1 !! s = Some a -> a_state_lock a = 0 -> data_ok (a_data a) ->
  int_ok INTERNAL_LAST_RESPAWN a -> int_ok RESPAWN_RATE a ->
  check_respawn s g1 = Done (TRUE, g1') -> 0 < tv_sec (g_now g1) < 2 ^ 31 ->
  g_heap g2 !! s = Some b -> a_state_lock b = 0 -> a_data <$> (g_heap g1' !! s) = Some (a_data b) ->
  check_respawn s g2 = Done (TRUE, g2') -> 0 < respawn_rate b ->
  tv_sec (g_now g1) + respawn_rate b <= tv_sec (g_now g2).
Proof.
  intros Ha Hl Hok Hi Hr E1 Hnow Hb Hlb Hd E2 Hrate.
  destruct (check_respawn_run g1 s a Ha Hl Hi Hr) as (g1x & c & E1x & Hh & _ & _ & Hm). rewrite E1x in E1.
  destruct (respawns (tv_sec (g_now g1)) a); [|done]. injection E1 as ->. destruct Hm as (_ & _ & _ & Hf).
  rewrite Hh, lookup_insert_eq in Hd. cbn in Hd. injection Hd as Hd. rewrite (fixed_part_data _ _ Hf) in Hd.
  destruct (remembered_int_ok (tv_sec (g_now g1)) (g_fresh g1) a Hok) as [Hlast Hother].
  assert (Hlastb : last_respawn b = tv_sec (g_now g1)).
  { unfold last_respawn, int_or_0 in Hlast |- *. rewrite <- Hd, Hlast. unfold to_int. rewrite Z.mod_small; lia. }
  assert (Hib : int_ok INTERNAL_LAST_RESPAWN b /\ int_ok RESPAWN_RATE b).
  { split; unfold int_ok; rewrite <- Hd.
    - unfold last_respawn, int_or_0 in Hlastb. rewrite <- Hd in Hlastb. destruct (initng_data_get_int_var _ _ _); [by eexists|cbn in Hlastb; lia].
    - by rewrite Hother. }
  destruct Hib as [Hib Hrb]. destruct (check_respawn_run g2 s b Hb Hlb Hib Hrb) as (g2x & d & E2x & _). rewrite E2x in E2.
  destruct (respawns (tv_sec (g_now g2)) b) eqn:Hresp; [|done]. unfold respawns, rate_exceeded in Hresp.
  rewrite Hlastb in Hresp. apply andb_prop in Hresp as [_ Hresp].
  assert (c_true (tv_sec (g_now g1)) = true) as Ht by (apply c_true_spec; lia).
  rewrite Ht, (proj2 (Z.ltb_lt 0 _) Hrate) in Hresp. cbn in Hresp. apply negb_true_iff, Z.ltb_ge in Hresp. lia.
Qed.

(** ** Killing *)

Lemma set_alarm_run g s a n :
  g_heap g !! s = Some a ->
  exists g', initng_handler_set_alarm s n g = Done (tt, g') /\
    g_heap g' = <[s := a <| a_alarm := tv_sec (g_now g) + n |>]> (g_heap g) /\ same_rest g g' /\
    g_kills g' = g_kills g.
Proof.
  intros Ha. unfold initng_handler_set_alarm. rewrite then_asks, (mthen_run _ _ _ _ _ (upd_service_run _ _ _ _ Ha)).
  eexists. split; [reflexivity|]. by destruct (_ || _).
Qed.

Lemma kill_daemon_alive g s a q sig :
  g_heap g !! s = Some a -> initng_process_db_get T_DAEMON a = Some q -> 0 < p_pid q ->
  sys_kill (g_ticks g) (p_pid q) 0 <> Some ESRCH ->
  exists g', kill_daemon s sig g = Done (tt, g') /\ g_heap g' = g_heap g /\ same_rest g g' /\
    g_kills g' = g_kills g ++ [(p_pid q, 0); (p_pid q, sig)].
Proof.
  intros Ha Hq Hpid Halive. unfold kill_daemon. rewrite (mthen_run _ _ _ _ _ (get_service_run _ _ _ Ha)), Hq.
  set (g1 := g <| g_kills := g_kills g ++ [(p_pid q, 0)] |> <| g_ticks := S (g_ticks g) |>).
  rewrite (mthen_run _ _ g false g1).
  - eexists. split; [reflexivity|]. split; [done|]. split; [done|]. cbn. by rewrite <- app_assoc.
  - unfold process_gone. rewrite (proj2 (Z.leb_gt _ _) Hpid). erewrite mthen_run by reflexivity.
    unfold mpure. by rewrite bool_decide_eq_false_2.
Qed.

Lemma kill_daemon_none g s a sig :
  g_heap g !! s = Some a -> initng_process_db_get T_DAEMON a = None -> kill_daemon s sig g = Done (tt, g).
Proof.
  intros Ha Hq. unfold kill_daemon. by rewrite (mthen_run _ _ _ _ _ (get_service_run _ _ _ Ha)), Hq.
Qed.

(** [n] alarms of a daemon in DAEMON_KILL. *)
Fixpoint kill_alarms (n : nat) (s : addr) : G unit :=
  match n with
  | O => mpure tt
  | S n => timeout_DAEMON_KILL s ;;; kill_alarms n s
  end.

Lemma kill_alarms_alive n g s a q :
  g_heap g !! s = Some a -> a_state_lock a = 0 -> a_current_state a = DAEMON_KILL ->
  initng_process_db_get T_DAEMON a = Some q -> 0 < p_pid q ->
  (forall t, sys_kill t (p_pid q) 0 <> Some ESRCH) ->
  exists g', kill_alarms n s g = Done (tt, g') /\ in_state g' s DAEMON_KILL /\
    g_kills g' = g_kills g ++ concat (replicate n [(p_pid q, 0); (p_pid q, SIGKILL)]) /\
    (n <> O -> exists b, g_heap g' !! s = Some b /\ a_alarm b = tv_sec (g_now g) + DEFAULT_KILL_TIMEOUT).
Proof.
  revert g a. induction n as [|n IH]; intros g a Ha Hl Hst Hq Hpid Halive; cbn [kill_alarms replicate concat].
  { exists g. split; [done|]. rewrite app_nil_r. split; [by exists a|done]. }
  destruct (kill_daemon_alive g s a q SIGKILL Ha Hq Hpid (Halive _)) as (g1 & E1 & Hh1 & Hs1 & Hk1).
  destruct (set_alarm_run g1 s a DEFAULT_KILL_TIMEOUT) as (g2 & E2 & Hh2 & Hs2 & Hk2); [by rewrite Hh1|].
  rewrite (mthen_run _ _ g tt g2) by (unfold timeout_DAEMON_KILL; by rewrite (mthen_run _ _ _ _ _ E1)).
  destruct Hs1 as (Hn1 & _), Hs2 as (Hn2 & _). rewrite Hn1 in Hn2, Hh2.
  set (a2 := a <| a_alarm := tv_sec (g_now g) + DEFAULT_KILL_TIMEOUT |>) in *.
  assert (Ha2 : g_heap g2 !! s = Some a2) by (rewrite Hh2; apply lookup_insert_eq).
  destruct (IH g2 a2 Ha2 Hl Hst Hq Hpid Halive) as (g' & E & Hin & Hk & Hal).
  exists g'. split; [done|]. split; [done|]. split.
  - by rewrite Hk, Hk2, Hk1, <- app_assoc.
  - intros _. destruct n as [|n]; [|rewrite <- Hn2; by apply Hal].
    unfold kill_alarms, mpure in E. injection E as <-. by exists a2.
Qed.

(** A stop that is not obeyed.  When the alarm of DAEMON_TERM finds the
    process of the daemon alive, SIGKILL is sent and the daemon is in
    DAEMON_KILL; there each alarm sends SIGKILL again and sets the next alarm
    two seconds ahead, as often as the process survives. *)
Theorem term_escalates_to_kill n g s a q :
  g_heap g !! s = Some a -> a_state_lock a = 0 -> a_current_state a = DAEMON_TERM ->
  initng_process_db_get T_DAEMON a = Some q -> 0 < p_pid q ->
  (forall t, sys_kill t (p_pid q) 0 <> Some ESRCH) ->
  exists g1 g2, timeout_DAEMON_TERM s g = Done (tt, g1) /\ in_state g1 s DAEMON_KILL /\ s ∈ g_interrupt g1 /\
    g_kills g1 = g_kills g ++ [(p_pid q, 0); (p_pid q, SIGKILL)] /\
    kill_alarms n s g1 = Done (tt, g2) /\ in_state g2 s DAEMON_KILL /\
    g_kills g2 = g_kills g1 ++ concat (replicate n [(p_pid q, 0); (p_pid q, SIGKILL)]) /\
    (n <> O -> exists b, g_heap g2 !! s = Some b /\ a_alarm b = tv_sec (g_now g) + DEFAULT_KILL_TIMEOUT).
Proof.
  intros Ha Hl Hst Hq Hpid Halive.
  destruct (kill_daemon_alive g s a q SIGKILL Ha Hq Hpid (Halive _)) as (g0 & E0 & Hh0 & (Hn0 & _) & Hk0).
  assert (Ha0 : g_heap g0 !! s = Some a) by (by rewrite Hh0).
  destruct (mark_run g0 s a DAEMON_KILL Ha0 Hl) as (g1 & b & E1 & Hh1 & (Hb & Hlb & Hp & _) & (Hn1 & _) & Hk1 & _ & Hint).
  assert (Hb1 : g_heap g1 !! s = Some b) by (rewrite Hh1; apply lookup_insert_eq).
  destruct (kill_alarms_alive n g1 s b q Hb1 Hlb Hb) as (g2 & E2 & Hin & Hk & Hal);
    [unfold initng_process_db_get; by rewrite Hp|done|done|].
  exists g1, g2. split; [unfold timeout_DAEMON_TERM; by rewrite (mthen_run _ _ _ _ _ E0)|].
  split; [by exists b|]. split; [apply Hint; by rewrite Hst|]. split; [by rewrite Hk1|]. split; [done|]. split; [done|].
  split; [done|]. by rewrite <- Hn0, <- Hn1.
Qed.

End daemon_facts.
