(* ===== verification/Control.v ===== *)
(** * Commands: src/main/command/, src/modules/stcmd/ and src/modules/initctl/

    The registry of commands and the call of one by its letter, the commands of
    stcmd, and the requests that arrive on /dev/initctl.  What prints is given
    by the string that is printed. *)
From S2P Require Import Prelude Types Data CString Global ActiveDb Depend Io Interrupt Launch Modules.
From S2P Require Import ServiceMod DaemonMod.
From Stdlib Require Import String Ascii.
From stdpp Require Import prelude gmap strings pretty.
Local Open Scope Z_scope.

(** The functions behind commands that return an int; without an argument the
    pointer is that of the void function. *)
Class CommandCode := { call_int_command : fptr -> option string -> G Z }.

(** ** command/ *)

Definition initng_command_register (cmd : s_command) : G Z :=
  let! db := asks g_command_db in
  if List.existsb (fun current => Pos.eqb (com_addr current) (com_addr cmd) || (com_id current =? com_id cmd)) db
  then mpure FALSE
  else modify (fun g => g <| g_command_db := g_command_db g ++ [cmd] |>) ;;; mpure TRUE.

Definition initng_command_unregister (cmd : s_command) : G unit :=
  modify (fun g => g <| g_command_db :=
    List.filter (fun current => negb (Pos.eqb (com_addr current) (com_addr cmd))) (g_command_db g) |>).

Definition initng_command_unregister_all : G unit :=
  let! db := asks g_command_db in
  for_each (R := unit) db (fun current => initng_command_unregister current ;;; mpure None) ;;;
  mpure tt.

Definition initng_command_find_by_command_id (cid : Z) (g : s_global) : option s_command :=
  List.find (fun current => com_id current =? cid) (g_command_db g).

Definition initng_command_find_by_command_string (name : string) (g : s_global) : option s_command :=
  List.find (fun current => bool_decide (com_long_id current = Some name)) (g_command_db g).

Definition initng_command_execute_arg `{!CommandCode} (cid : Z) (arg : option string) : G Z :=
  let! cmd := asks (initng_command_find_by_command_id cid) in
  match cmd with
  | None => mpure FALSE
  | Some cmd =>
    match com_type cmd with
    | INT_COMMAND =>
      match com_u cmd with
      | None => mpure FALSE
      | Some f =>
        if bool_decide (arg = None) && bool_decide (com_opt_type cmd = REQUIRES_OPT) then mpure FALSE
        else if negb (bool_decide (arg = None)) && bool_decide (com_opt_type cmd = NO_OPT) then mpure FALSE
        else call_int_command f arg
      end
    | _ => mpure FALSE
    end
  end.

(** ** stcmd: the commands *)

Definition cmd_get_pid_of_ptr : fptr := 81.
Definition cmd_start_on_new_ptr : fptr := 82.
Definition cmd_free_service_ptr : fptr := 83.
Definition cmd_restart_ptr : fptr := 84.
Definition cmd_print_uptime_ptr : fptr := 85.
Definition cmd_initng_poweroff_ptr : fptr := 86.
Definition cmd_initng_halt_ptr : fptr := 87.
Definition cmd_initng_reboot_ptr : fptr := 88.
Definition cmd_print_modules_ptr : fptr := 89.
Definition cmd_load_module_ptr : fptr := 90.
Definition cmd_percent_done_ptr : fptr := 91.
Definition cmd_get_depends_on_ptr : fptr := 92.
Definition cmd_get_depends_on_deep_ptr : fptr := 93.
Definition cmd_get_depends_off_ptr : fptr := 94.
Definition cmd_get_depends_off_deep_ptr : fptr := 95.
Definition cmd_new_init_ptr : fptr := 96.
Definition cmd_run_ptr : fptr := 97.
Definition cmd_signal_ptr : fptr := 98.

(** The number of a char. *)
Definition chr (c : ascii) : Z := Z.of_nat (nat_of_ascii c).

Definition GET_PID_OF := Command 601 (chr "g") (Some "get_pid_of"%string) INT_COMMAND ADVANCHED_COMMAND REQUIRES_OPT (Some cmd_get_pid_of_ptr)
  (Some "Get pid of service"%string).
Definition START_ON_NEW := Command 602 (chr "j") (Some "restart_from"%string) INT_COMMAND ADVANCHED_COMMAND REQUIRES_OPT (Some cmd_start_on_new_ptr)
  (Some "Stop all services, and start from"%string).
Definition FREE_SERVICE := Command 603 (chr "z") (Some "zap"%string) INT_COMMAND STANDARD_COMMAND USES_OPT (Some cmd_free_service_ptr)
  (Some "Resets a failed service, so it can be restarted."%string).
Definition RESTART_SERVICE := Command 604 (chr "r") (Some "restart"%string) INT_COMMAND STANDARD_COMMAND REQUIRES_OPT (Some cmd_restart_ptr)
  (Some "Restart service"%string).
Definition PRINT_UPTIME := Command 605 (chr "T") (Some "time"%string) STRING_COMMAND ADVANCHED_COMMAND REQUIRES_OPT (Some cmd_print_uptime_ptr)
  (Some "Print uptime"%string).
Definition POWEROFF_INITNG := Command 606 (chr "0") (Some "poweroff"%string) INT_COMMAND STANDARD_COMMAND NO_OPT (Some cmd_initng_poweroff_ptr)
  (Some "Power off the computer"%string).
Definition HALT_INITNG := Command 607 (chr "1") (Some "halt"%string) INT_COMMAND STANDARD_COMMAND NO_OPT (Some cmd_initng_halt_ptr)
  (Some "Halt the computer"%string).
Definition REBOOT_INITNG := Command 608 (chr "6") (Some "reboot"%string) INT_COMMAND STANDARD_COMMAND NO_OPT (Some cmd_initng_reboot_ptr)
  (Some "Reboot the computer"%string).
Definition PRINT_MODULES := Command 609 (chr "m") (Some "print_modules"%string) STRING_COMMAND ADVANCHED_COMMAND NO_OPT (Some cmd_print_modules_ptr)
  (Some "Print loaded modules"%string).
Definition LOAD_MODULE := Command 610 (chr "o") (Some "load_module"%string) INT_COMMAND ADVANCHED_COMMAND REQUIRES_OPT (Some cmd_load_module_ptr)
  (Some "Load Module"%string).
Definition PERCENT_DONE := Command 611 (chr "n") (Some "done"%string) INT_COMMAND ADVANCHED_COMMAND NO_OPT (Some cmd_percent_done_ptr)
  (Some "Prints percent of system up"%string).
Definition DEPENDS_ON := Command 612 (chr "a") (Some "service_dep_on"%string) STRING_COMMAND ADVANCHED_COMMAND REQUIRES_OPT (Some cmd_get_depends_on_ptr)
  (Some "Print what services me depends on"%string).
Definition DEPENDS_ON_DEEP := Command 613 (chr "A") (Some "service_dep_on_deep"%string) STRING_COMMAND ADVANCHED_COMMAND REQUIRES_OPT (Some cmd_get_depends_on_deep_ptr)
  (Some "Print what services me depends on deep"%string).
Definition DEPENDS_OFF := Command 614 (chr "b") (Some "service_dep_on_me"%string) STRING_COMMAND ADVANCHED_COMMAND REQUIRES_OPT (Some cmd_get_depends_off_ptr)
  (Some "Print what dependencies that are depending on me"%string).
Definition DEPENDS_OFF_DEEP := Command 615 (chr "B") (Some "service_dep_on_me_deep"%string) STRING_COMMAND ADVANCHED_COMMAND REQUIRES_OPT (Some cmd_get_depends_off_deep_ptr)
  (Some "Print what dependencies that are depending on me deep"%string).
Definition NEW_INIT := Command 616 (chr "E") (Some "new_init"%string) INT_COMMAND HIDDEN_COMMAND REQUIRES_OPT (Some cmd_new_init_ptr)
  (Some "Stops all services, and when its done, launching a new init."%string).
Definition RUN := Command 617 (chr "U") (Some "run"%string) INT_COMMAND ADVANCHED_COMMAND REQUIRES_OPT (Some cmd_run_ptr)
  (Some "Simply run an exec with specified name, example ngc --run service/test:start"%string).
Definition SIGNAL := Command 618 (chr "l") (Some "signal"%string) INT_COMMAND STANDARD_COMMAND REQUIRES_OPT (Some cmd_signal_ptr)
  (Some "Send a signal to the specified service."%string).

Definition EXTERN_RUN : ptype_h := PType 172 "extern_arg" None.

(** strtol(s, NULL, 0): the base is in the prefix. *)
Definition hex_value (c : ascii) : option Z :=
  let n := chr c in
  if (48 <=? n) && (n <=? 57) then Some (n - 48)
  else if (97 <=? n) && (n <=? 102) then Some (n - 87)
  else if (65 <=? n) && (n <=? 70) then Some (n - 55)
  else None.
Fixpoint digits_in (base : Z) (s : chars) (n : Z) : Z :=
  match s with
  | [] => n
  | c :: s =>
    match hex_value c with
    | Some v => if v <? base then digits_in base s (n * base + v) else n
    | None => n
    end
  end.
Definition is_x (c : ascii) : bool := Ascii.eqb c "x" || Ascii.eqb c "X".
Definition unsigned_0 (s : chars) : Z :=
  match s with
  | z :: x :: h :: rest =>
    if Ascii.eqb z "0" && is_x x && bool_decide (is_Some (hex_value h)) then digits_in 16 (h :: rest) 0
    else if Ascii.eqb z "0" then digits_in 8 s 0 else digits_in 10 s 0
  | z :: _ => if Ascii.eqb z "0" then digits_in 8 s 0 else digits_in 10 s 0
  | [] => 0
  end.
Definition strtol_0 (s : chars) : Z :=
  match drop_while isspace s with
  | c :: s' =>
    if Ascii.eqb c "-" then clamp_long (- unsigned_0 s')
    else if Ascii.eqb c "+" then clamp_long (unsigned_0 s')
    else clamp_long (unsigned_0 (c :: s'))
  | [] => 0
  end.

(** The difference of two times in milliseconds, as an int. *)
Definition MS_DIFF (a b : timeval) : Z :=
  let ms t := to_int (tv_sec t * 1000 + Z.quot (tv_usec t) 1000) in to_int (ms a - ms b).

Section stcmd.
Context `{!Callbacks, !Sys, !ModuleCode, !ModuleSys} (fuel : nat).

Definition cmd_get_pid_of (arg : option string) : G Z :=
  match arg with
  | None => mpure (-2)
  | Some arg =>
    let! apt := asks (initng_active_db_find_by_name arg) in
    match apt with
    | None => mpure (-1)
    | Some apt =>
      let! a := get_service apt in
      mpure (match a_processes a with process :: _ => p_pid process | [] => -3 end)
    end
  end.

(** The whole argument, with the signal behind the colon, is looked up as the
    name of a service. *)
Definition cmd_signal (arg : string) : G Z :=
  match strrchr (chars_of arg) ":" with
  | None => mpure FALSE
  | Some i =>
    let! pid := cmd_get_pid_of (Some arg) in
    if pid <? 2 then mpure FALSE
    else
      let sig := to_int (strtol_0 (drop (S i) (chars_of arg))) in
      if sig <? 1 then mpure FALSE
      else
        let! err := do_kill pid sig in
        mpure (match err with Some _ => FALSE | None => TRUE end)
  end.

Definition set_when_out (t : h_then) : G unit := modify (fun g => g <| g_when_out := t |>).

Definition cmd_start_on_new (arg : option string) : G Z :=
  match arg with
  | None => mpure FALSE
  | Some arg =>
    set_when_out THEN_RESTART ;;;
    initng_main_set_runlevel arg ;;;
    initng_handler_stop_all fuel ;;;
    mpure TRUE
  end.

(** Every service that has failed. *)
Fixpoint zap_loop (n : nat) (current : option addr) (ret : Z) : G Z :=
  match current with
  | None => mpure ret
  | Some apt =>
    match n with
    | O => nofuel
    | S n =>
      let! safe := deref (fun g => next_of apt (g_active_db g)) in
      let! a := get_service apt in
      if decide (GET_STATE a = IS_FAILED) then
        initng_active_db_free apt ;;; zap_loop n safe TRUE
      else zap_loop n safe ret
    end
  end.

Definition cmd_free_service (arg : option string) : G Z :=
  let! apt := asks (fun g => arg ≫= fun name => initng_active_db_find_by_name name g) in
  match apt with
  | Some apt => initng_active_db_free apt ;;; mpure TRUE
  | None =>
    let! first := first_active in
    zap_loop fuel first FALSE
  end.

Definition cmd_restart (arg : option string) : G Z :=
  match arg with
  | None => mpure FALSE
  | Some arg =>
    let! apt := asks (initng_active_db_find_by_name arg) in
    match apt with
    | None => mpure FALSE
    | Some apt => initng_handler_restart_service fuel apt
    end
  end.

Definition in_quotes (s : string) : string := String c_quote s +:+ String c_quote "".
Definition line (s : string) : string := s +:+ String c_nl "".

Definition cmd_print_uptime (arg : option string) : G string :=
  match arg with
  | None => mpure "Please tell me what service to get up-time from."%string
  | Some arg =>
    let! apt := asks (initng_active_db_find_by_name arg) in
    match apt with
    | None => mpure ("Service " +:+ in_quotes arg +:+ " is not found!")
    | Some apt =>
      let! now := asks g_clock in
      let! a := get_service apt in
      mpure (line ("Up-time is " +:+ pretty (MS_DIFF now (a_time_current_state a)) +:+ "ms."))
    end
  end.

Definition stop_then (t : h_then) : G Z :=
  set_when_out t ;;;
  initng_handler_stop_all fuel ;;;
  mpure TRUE.
Definition cmd_initng_reboot : G Z := stop_then THEN_REBOOT.
Definition cmd_initng_halt : G Z := stop_then THEN_HALT.
Definition cmd_initng_poweroff : G Z := stop_then THEN_POWEROFF.

(** The block holds [string_len] bytes before each round; [realloc] gives what
    the conditional, which takes the whole sum for its condition, adds. *)
Definition padded (n : nat) (s : chars) : chars := s ++ replicate (n - length s) c_space.
Fixpoint print_modules_loop (mods : list m_h) (string_len : nat) (block : chars) : option chars :=
  match mods with
  | [] => Some block
  | m :: mods =>
    let namelen := String.length (m_name m) in
    let new_len := (string_len + (if (6 + String.length (m_path m) + namelen <? 30)%nat then 30 else namelen))%nat in
    let text := chars_of "  * " ++ padded 30 (chars_of (m_name m)) ++ [c_space] ++ chars_of (m_path m) ++ [c_nl; c_nul] in
    if (string_len + length text <=? new_len)%nat
    then print_modules_loop mods new_len (take string_len block ++ text)
    else None
  end.

Definition cmd_print_modules : G string :=
  let! mods := asks g_module_db in
  let! block := deref (fun _ => print_modules_loop mods 10 (chars_of (line "modules: "))) in
  mpure (to_string (CString.c_string block)).

Definition cmd_load_module (arg : option string) : G Z :=
  match arg with
  | None => mpure FALSE
  | Some arg =>
    let! m := initng_module_load arg in
    mpure (match m with Some _ => TRUE | None => FALSE end)
  end.

Definition cmd_percent_done : G Z := asks initng_active_db_percent_started.

(** The four lists of dependencies: a line for each service that passes [test]. *)
Fixpoint depends_loop (n : nat) (current : option addr) (test : addr -> G Z) (out : string) : G string :=
  match current with
  | None => mpure out
  | Some s =>
    match n with
    | O => nofuel
    | S n =>
      let! r := test s in
      let! out :=
        (if r =? TRUE then
           let! a := get_service s in
           mpure (out +:+ line ("  " +:+ a_name a +:+ String c_tab (String c_tab "") +:+ "[" +:+ st_name (a_current_state a) +:+ "]"))
         else mpure out) in
      let! next := deref (fun g => next_of s (g_active_db g)) in
      depends_loop n next test out
    end
  end.

Definition cmd_depends (head_line : string -> string) (test : addr -> addr -> G Z) (arg : string) : G string :=
  let! on := asks (initng_active_db_find_by_name arg) in
  match on with
  | None => mpure "Did not find service."%string
  | Some on =>
    let! a := get_service on in
    let! first := first_active in
    depends_loop fuel first (test on) (line (head_line (a_name a)))
  end.

Definition cmd_get_depends_on : string -> G string :=
  cmd_depends (fun name => "The " +:+ in_quotes name +:+ " depends on:") (fun on current => initng_depend on current).
Definition cmd_get_depends_on_deep : string -> G string :=
  cmd_depends (fun name => "The " +:+ in_quotes name +:+ " depends on:") (fun on current => initng_depend_deep on current).
Definition cmd_get_depends_off : string -> G string :=
  cmd_depends (fun name => "The services that depends on " +:+ in_quotes name +:+ ":") (fun on current => initng_depend current on).
Definition cmd_get_depends_off_deep : string -> G string :=
  cmd_depends (fun name => "The the services that depends on " +:+ in_quotes name +:+ ":")
    (fun on current => initng_depend_deep current on).

Definition cmd_new_init (arg : option string) : G Z :=
  match arg with
  | None => mpure FALSE
  | Some arg =>
    let! r := lift (initng_string_split_delim (Some (chars_of arg)) WHITESPACE) in
    modify (fun g => g <| g_new_init := match r with Some (argv, _) => map to_string argv | None => [] end |>) ;;;
    stop_then THEN_NEW_INIT
  end.

Definition cmd_run (arg : string) : G Z :=
  match strchr (chars_of arg) ":" with
  | None => mpure FALSE
  | Some i =>
    if (i <? 3)%nat then mpure FALSE
    else
      let serv_name := to_string (take i (chars_of arg)) in
      let runtype := to_string (drop (S i) (chars_of arg)) in
      let! service := asks (initng_active_db_find_by_name serv_name) in
      match service with
      | None => mpure FALSE
      | Some service =>
        let! r := initng_execute_launch service EXTERN_RUN (Some runtype) in
        mpure (if r =? TRUE then TRUE else FALSE)
      end
  end.

(** The functions that return an int, by their addresses; those that take the
    argument as it is are only called with one. *)
Definition stcmd_int (f : fptr) (arg : option string) : G Z :=
  let need k := match arg with Some arg => k arg | None => fault end in
  if Pos.eqb f cmd_get_pid_of_ptr then cmd_get_pid_of arg
  else if Pos.eqb f cmd_start_on_new_ptr then cmd_start_on_new arg
  else if Pos.eqb f cmd_free_service_ptr then cmd_free_service arg
  else if Pos.eqb f cmd_restart_ptr then cmd_restart arg
  else if Pos.eqb f cmd_initng_poweroff_ptr then cmd_initng_poweroff
  else if Pos.eqb f cmd_initng_halt_ptr then cmd_initng_halt
  else if Pos.eqb f cmd_initng_reboot_ptr then cmd_initng_reboot
  else if Pos.eqb f cmd_load_module_ptr then cmd_load_module arg
  else if Pos.eqb f cmd_percent_done_ptr then cmd_percent_done
  else if Pos.eqb f cmd_new_init_ptr then cmd_new_init arg
  else if Pos.eqb f cmd_run_ptr then need cmd_run
  else if Pos.eqb f cmd_signal_ptr then need cmd_signal
  else fault.

(** SIGNAL is not among them. *)
Definition stcmd_commands : list s_command :=
  [GET_PID_OF; START_ON_NEW; FREE_SERVICE; RESTART_SERVICE; PRINT_UPTIME; REBOOT_INITNG; POWEROFF_INITNG; HALT_INITNG;
   PRINT_MODULES; LOAD_MODULE; PERCENT_DONE; DEPENDS_ON; DEPENDS_ON_DEEP; DEPENDS_OFF; DEPENDS_OFF_DEEP; NEW_INIT; RUN].

Definition stcmd_module_init : G Z :=
  for_each (R := unit) stcmd_commands (fun c => initng_command_register c ;;; mpure None) ;;;
  mpure TRUE.

Definition stcmd_module_unload : G unit :=
  for_each (R := unit) stcmd_commands (fun c => initng_command_unregister c ;;; mpure None) ;;;
  mpure tt.

End stcmd.

(** ** initctl: requests on /dev/initctl *)

Definition INIT_MAGIC : Z := 50927977.
Definition INIT_CMD_RUNLVL : Z := 1.

Record init_request := Request { rq_magic : Z; rq_cmd : Z; rq_runlevel : Z }.

(** read(2) of a request: an error, or how many bytes came and the request. *)
Class ControlSys := { sys_read_request : nat -> Z -> option (Z * init_request); sizeof_request : Z }.

Section initctl.
Context `{!Callbacks, !CommandCode, !ControlSys} (fuel : nat).

Definition initng_reload : G unit :=
  let! reload := asks (initng_command_find_by_command_id (chr "c")) in
  match reload ≫= com_u with
  | Some f => call_int_command f None ;;; mpure tt
  | None => mpure tt
  end.

(** A runlevel is an int that holds a char. *)
Definition runlevel_name (runlevel : Z) : string :=
  let n := runlevel mod 256 in
  "runlevel" +:+ (if n =? 0 then "" else String (ascii_of_nat (Z.to_nat n)) "").

Definition handle_runlevel (runlevel : Z) : G unit :=
  let lvl c := runlevel =? chr c in
  if lvl "0"%char then stop_then fuel THEN_POWEROFF ;;; mpure tt
  else if lvl "6"%char then stop_then fuel THEN_REBOOT ;;; mpure tt
  else if lvl "U"%char || lvl "u"%char then initng_reload
  else if lvl "Q"%char || lvl "q"%char then mpure tt
  else if lvl "S"%char || lvl "s"%char then
    set_when_out THEN_RESTART ;;;
    initng_main_set_runlevel "single" ;;;
    initng_handler_stop_all fuel ;;; mpure tt
  else initng_handler_start_new_service_named fuel (runlevel_name runlevel) ;;; mpure tt.

Definition parse_control_input (fds : Z) : G unit :=
  let! r := syscall (fun t => sys_read_request t fds) in
  match r with
  | None => mpure tt
  | Some (n, request) =>
    if n =? 0 then mpure tt
    else if negb (rq_magic request =? INIT_MAGIC) || negb (n =? sizeof_request) then mpure tt
    else if negb (rq_cmd request =? INIT_CMD_RUNLVL) then mpure tt
    else handle_runlevel (rq_runlevel request)
  end.

End initctl.

(** ** Lemmas *)

Definition has_failed (g : s_global) (s : addr) : bool :=
  match g_heap g !! s with Some a => is_state IS_FAILED a | None => false end.

(** The walk, with [l1] behind it: what of [l2] has failed is gone. *)
Lemma zap_loop_run n l1 l2 ret g :
  g_active_db g = l1 ++ l2 -> NoDup (l1 ++ l2) -> (length l2 <= n)%nat -> (forall s, s ∈ l2 -> is_Some (g_heap g !! s)) ->
  exists g', zap_loop n (head l2) ret g = Done ((if List.existsb (has_failed g) l2 then TRUE else ret), g') /\
    g_active_db g' = l1 ++ List.filter (fun s => negb (has_failed g s)) l2 /\
    (forall s, s ∈ l2 -> g_heap g' !! s = if has_failed g s then None else g_heap g !! s) /\
    (forall s, s ∉ l2 -> g_heap g' !! s = g_heap g !! s).
Proof.
  revert l1 l2 ret g. induction n as [|n IH]; intros l1 [|x l2] ret g Hdb Hnd Hn Hs; cbn in Hn; try lia; cbn [head zap_loop].
  1, 2: exists g; split; [done|]; split; [done|]; split; [by intros s ?%elem_of_nil|done].
  rewrite (then_deref _ _ _ (head l2)) by (rewrite Hdb; by apply next_of_mid).
  destruct (Hs x ltac:(by left)) as [a Ha]. rewrite (mthen_run _ _ _ _ _ (get_service_run _ _ _ Ha)).
  pose proof Hnd as Hnd'. apply NoDup_app in Hnd' as (N1 & N2 & N3). apply NoDup_cons in N3 as [N3 N4].
  assert (Hx1 : x ∉ l1) by (intros H; apply (N2 x H); by left).
  assert (Hf : has_failed g x = bool_decide (GET_STATE a = IS_FAILED)) by (unfold has_failed; by rewrite Ha).
  cbn [List.existsb List.filter]. rewrite Hf. destruct (decide (GET_STATE a = IS_FAILED)) as [Hst|Hst].
  - rewrite bool_decide_eq_true_2 by done. rewrite (mthen_run _ _ _ _ _ (active_db_free_run _ _ _ Ha)). cbn [orb negb].
    assert (Hsame : forall s, s ∈ l2 -> has_failed (removed x g) s = has_failed g s).
    { intros s Hin. unfold has_failed. cbn. rewrite lookup_delete_ne by set_solver. done. }
    destruct (IH l1 l2 TRUE (removed x g)) as (g' & E & D1 & D2 & D3).
    + cbn. rewrite Hdb, List.filter_app. cbn. rewrite Pos.eqb_refl. cbn. by rewrite !filter_neq_id.
    + apply NoDup_app. split; [done|]. split; [|done]. intros y H1 H2. apply (N2 y H1). by right.
    + lia.
    + intros s Hin. cbn. rewrite lookup_delete_ne by set_solver. apply Hs. by right.
    + exists g'. rewrite E. split; [by destruct (List.existsb _ _)|]. split.
      { rewrite D1. f_equal. apply List.filter_ext_in. intros s Hin%list_elem_of_In. by rewrite Hsame. }
      split.
      * intros s [->|Hin]%elem_of_cons.
        -- rewrite Hf, bool_decide_eq_true_2 by done. rewrite D3 by done. cbn. by rewrite lookup_delete_eq.
        -- rewrite D2, Hsame by done. cbn. rewrite lookup_delete_ne by set_solver. done.
      * intros s Hin. apply not_elem_of_cons in Hin as [Hne Hin]. rewrite D3 by done. cbn. by rewrite lookup_delete_ne.
  - rewrite bool_decide_eq_false_2 by done. cbn [orb negb].
    destruct (IH (l1 ++ [x]) l2 ret g) as (g' & E & D1 & D2 & D3).
    + by rewrite Hdb, <- app_assoc.
    + by rewrite <- app_assoc.
    + lia.
    + intros s Hin. apply Hs. by right.
    + exists g'. split; [done|]. split; [by rewrite D1, <- app_assoc|]. split.
      * intros s [->|Hin]%elem_of_cons; [|by apply D2]. rewrite Hf, bool_decide_eq_false_2 by done. by apply D3.
      * intros s Hin. apply not_elem_of_cons in Hin as [Hne Hin]. by apply D3.
Qed.

(** Zap.  Given the name of a service, the command zap frees that service and
    returns TRUE.  Without a name, and just so with a name that no service has,
    it frees exactly the services that have failed, keeps all others in their
    order, and returns whether there were any. *)
Theorem zap_frees_the_failed g fuel arg :
  wf g -> (length (g_active_db g) <= fuel)%nat ->
  match arg ≫= (fun name => initng_active_db_find_by_name name g) with
  | Some s => exists a, g_heap g !! s = Some a /\ cmd_free_service fuel arg g = Done (TRUE, removed s g)
  | None => exists g', cmd_free_service fuel arg g = Done ((if List.existsb (has_failed g) (g_active_db g) then TRUE else FALSE), g') /\
      g_active_db g' = List.filter (fun s => negb (has_failed g s)) (g_active_db g) /\
      (forall s, s ∈ g_active_db g -> g_heap g' !! s = if has_failed g s then None else g_heap g !! s) /\
      (forall s, s ∉ g_active_db g -> g_heap g' !! s = g_heap g !! s)
  end.
Proof.
  intros Hwf Hf. unfold cmd_free_service. destruct (arg ≫= _) as [s|] eqn:Ea.
  - rewrite then_asks, Ea. destruct arg as [name|]; [|done]. cbn in Ea.
    assert (Hs : s ∈ g_active_db g).
    { unfold initng_active_db_find_by_name in Ea. destruct (List.find _ _) as [[x b]|] eqn:E; [|done]. injection Ea as <-.
      apply List.find_some in E as [E _]. apply list_elem_of_In, active_services_elem in E. apply E. }
    destruct (wf_alloc g Hwf s Hs) as [a Ha]. exists a. split; [done|].
    by rewrite (mthen_run _ _ _ _ _ (active_db_free_run _ _ _ Ha)).
  - rewrite then_asks, Ea. unfold first_active. rewrite then_asks.
    apply (zap_loop_run fuel [] (g_active_db g) FALSE g eq_refl (wf_nodup g Hwf) Hf (wf_alloc g Hwf)).
Qed.

(** Listing the modules takes initng down.  As soon as one module is loaded,
    the command print_modules writes behind the end of the block it allocates:
    the size added for a line is 30, or the length of the name, and the line has
    38 chars and more. *)
Theorem listing_modules_overflows g : g_module_db g <> [] -> cmd_print_modules g = Fault.
Proof.
  intros H. unfold cmd_print_modules. rewrite then_asks. destruct (g_module_db g) as [|m mods]; [done|].
  assert (E : print_modules_loop (m :: mods) 10 (chars_of (line "modules: ")) = None).
  { cbn [print_modules_loop]. match goal with |- (if ?b then _ else _) = _ => assert (b = false) as -> end; [|done].
    apply Nat.leb_gt. rewrite !length_app. unfold padded. rewrite !length_app, length_replicate, !length_chars_of.
    cbn [length String.length]. destruct (_ <? _)%nat; lia. }
  unfold mthen, deref. by rewrite E.
Qed.

(** Commands have different letters and addresses. *)
Definition commands_ok (g : s_global) : Prop := NoDup (map com_id (g_command_db g)) /\ NoDup (map com_addr (g_command_db g)).

(** The registry of commands.  A command whose letter is taken is refused and
    nothing changes; otherwise it is registered, the search for its letter finds
    it, that for any other letter is as before, the letters stay different, and
    unregistering takes it out again. *)
Theorem register_command_then_find cmd g :
  commands_ok g ->
  if List.existsb (fun c => Pos.eqb (com_addr c) (com_addr cmd) || (com_id c =? com_id cmd)) (g_command_db g)
  then initng_command_register cmd g = Done (FALSE, g)
  else exists g', initng_command_register cmd g = Done (TRUE, g') /\ commands_ok g' /\
    initng_command_find_by_command_id (com_id cmd) g' = Some cmd /\
    (forall cid, cid <> com_id cmd ->
      initng_command_find_by_command_id cid g' = initng_command_find_by_command_id cid g) /\
    initng_command_unregister cmd g' = Done (tt, g).
Proof.
  intros [H1 H2]. unfold initng_command_register. rewrite then_asks. destruct (List.existsb _ _) eqn:Ex; [done|].
  assert (Hno : forall c, c ∈ g_command_db g -> com_addr c <> com_addr cmd /\ com_id c <> com_id cmd).
  { intros c Hc. apply list_elem_of_In in Hc.
    destruct (Pos.eqb_spec (com_addr c) (com_addr cmd)) as [E|E], (Z.eqb_spec (com_id c) (com_id cmd)) as [E'|E']; try done;
      (enough (List.existsb (fun c => Pos.eqb (com_addr c) (com_addr cmd) || (com_id c =? com_id cmd)) (g_command_db g) = true)
        by congruence; apply List.existsb_exists; exists c; split; [done|]; apply orb_true_iff; rewrite Pos.eqb_eq, Z.eqb_eq; auto). }
  rewrite then_modify. eexists. split; [reflexivity|]. unfold initng_command_find_by_command_id. cbn.
  assert (Hfind : forall f, List.find f (g_command_db g ++ [cmd]) = match List.find f (g_command_db g) with
    | Some c => Some c | None => if f cmd then Some cmd else None end).
  { intros f. clear. induction (g_command_db g) as [|c l IH]; cbn; [done|]. by destruct (f c). }
  split; [|split; [|split]].
  - split; cbn; rewrite map_app; apply NoDup_app; (split; [done|]; split; [|apply NoDup_singleton]);
      intros x (c & -> & Hc)%list_elem_of_fmap E%list_elem_of_singleton; destruct (Hno c Hc); congruence.
  - rewrite Hfind. destruct (List.find _ _) as [c|] eqn:Ef; [|by rewrite Z.eqb_refl].
    apply List.find_some in Ef as [Hc E%Z.eqb_eq]. destruct (Hno c); [by apply list_elem_of_In|done].
  - intros cid Hne. rewrite Hfind. destruct (List.find _ _); [done|]. by rewrite (proj2 (Z.eqb_neq _ _)) by congruence.
  - unfold initng_command_unregister, modify. cbn. do 2 f_equal. rewrite List.filter_app. cbn. rewrite Pos.eqb_refl. cbn. rewrite app_nil_r.
    assert (E : List.filter (fun c => negb (Pos.eqb (com_addr c) (com_addr cmd))) (g_command_db g) = g_command_db g).
    { clear -Hno. induction (g_command_db g) as [|c l IH]; cbn; [done|].
      destruct (Hno c ltac:(by left)) as [E _]. rewrite (proj2 (Pos.eqb_neq _ _) E). cbn. rewrite IH; [done|].
      intros d Hd. apply Hno. by right. }
    rewrite E. by destruct g.
Qed.

(** ** --run and the launcher *)

Section run.
Context (inner : Callbacks) `{CB : Callbacks, FS : ForkSys, BU : Build}.
(** The hook is the function of simple_launcher; [inner] are the callbacks of the
    events it sends. *)
Hypothesis launcher_hook : forall e g, call_hook initng_s_launch_ptr e g = @initng_s_launch inner _ _ e g.

Lemma launch_unnamed g s p a q e exec_name :
  g_heap g !! s = Some a -> find_process p a = Some q -> ev_data e = ED_launch s p exec_name ->
  initng_data_get_next_var (Some EXECS) (Some (pty_name (p_pt q))) (a_data a) None = None ->
  initng_data_get_next_var (Some EXEC) (Some (pty_name (p_pt q))) (a_data a) None = None ->
  @initng_s_launch inner _ _ e g = Done (e, g).
Proof.
  intros Ha Hq He H1 H2. unfold initng_s_launch. rewrite He.
  assert (His : forall type, (let! a := get_service s in mpure (initng_data_is_var type (Some exec_name) (a_data a))) g =
    Done (initng_data_is_var type (Some exec_name) (a_data a), g))
    by (intros type; by rewrite (mthen_run _ _ _ _ _ (get_service_run _ _ _ Ha))).
  assert (Hnext : forall type, initng_data_get_next_var (Some type) (Some (pty_name (p_pt q))) (a_data a) None = None ->
    next_string type (pty_name (p_pt q)) s None g = Done (None, g))
    by (intros type H; unfold next_string; by rewrite (mthen_run _ _ _ _ _ (get_service_run _ _ _ Ha)), H).
  rewrite (mthen_run _ _ _ _ _ (His EXECS)), (mthen_run _ _ g FALSE g).
  2:{ destruct (initng_data_is_var _ _ _); [|done]. unfold simple_exec.
      rewrite (mthen_run _ _ _ _ _ (get_service_run _ _ _ Ha)), (mthen_run _ _ _ _ _ (get_process_run _ _ _ _ _ Ha Hq)).
      cbn [simple_exec_loop]. by rewrite (mthen_run _ _ _ _ _ (Hnext EXECS H1)). }
  change (c_true FALSE) with false. cbv iota. rewrite (mthen_run _ _ _ _ _ (His EXEC)), (mthen_run _ _ g FALSE g); [done|].
  destruct (initng_data_is_var _ _ _); [|done]. unfold simple_run.
  by rewrite (mthen_run _ _ _ _ _ (get_process_run _ _ _ _ _ Ha Hq)), (mthen_run _ _ _ _ _ (Hnext EXEC H2)).
Qed.

(** Ngc --run runs nothing.  The command looks for the program under the name
    that follows the colon, the launcher under the name of the process type,
    "extern_arg": unless the service has a program of that name, no process is
    started, and the answer is FALSE. *)
Theorem run_command_runs_nothing g arg s a file :
  wf g -> initng_active_db_find_by_name (to_string (take (default 0%nat (strchr (chars_of arg) ":")) (chars_of arg))) g = Some s ->
  g_heap g !! s = Some a -> g_hooks g EVENT_LAUNCH = [Call initng_s_launch_ptr file] ->
  Forall (fun q => p_addr q <> g_fresh g) (a_processes a) ->
  initng_data_get_next_var (Some EXECS) (Some "extern_arg"%string) (a_data a) None = None ->
  initng_data_get_next_var (Some EXEC) (Some "extern_arg"%string) (a_data a) None = None ->
  exists g', cmd_run arg g = Done (FALSE, g') /\ g_children g' = g_children g.
Proof.
  intros Hwf Hfind Ha Hh Hfresh H1 H2. unfold cmd_run. destruct (strchr (chars_of arg) ":") as [i|]; [|by exists g].
  destruct (i <? 3)%nat; [by exists g|]. cbn in Hfind. rewrite then_asks, Hfind.
  set (runtype := to_string (drop (S i) (chars_of arg))).
  enough (exists g', initng_execute_launch s EXTERN_RUN (Some runtype) g = Done (FALSE, g') /\ g_children g' = g_children g)
    as (g' & E & Hc) by (exists g'; by rewrite (mthen_run _ _ _ _ _ E)).
  unfold initng_execute_launch. rewrite (mthen_run _ _ _ _ _ (get_service_run _ _ _ Ha)).
  destruct (initng_process_db_get EXTERN_RUN a); [by exists g|].
  set (p := g_fresh g) in *. set (g1 := g <| g_fresh := Pos.succ p |>).
  set (q := initng_process_db_new p EXTERN_RUN). set (a1 := a <| a_processes := a_processes a ++ [q] |>).
  set (g2 := put_service s a1 g1). set (e := new_event EVENT_LAUNCH (ED_launch s p runtype)).
  assert (Hq : find_process p a1 = Some q).
  { unfold find_process. cbn. clear -Hfresh. induction (a_processes a) as [|r l IH]; cbn; [by rewrite Pos.eqb_refl|].
    apply Forall_cons in Hfresh as [Hr Hl]. rewrite (proj2 (Pos.eqb_neq _ _) Hr). by apply IH. }
  assert (Hsend : initng_event_send e g2 = Done (e <| ev_status := UNKNOWN |>, g2)).
  { unfold initng_event_send. rewrite then_asks. change (g_hooks g2 (ev_type e)) with (g_hooks g EVENT_LAUNCH). rewrite Hh.
    cbn [send_loop c_pointer]. rewrite (mthen_run _ _ g2 (e <| ev_status := WAITING |>) g2); [done|].
    rewrite launcher_hook. by eapply (launch_unnamed g2 s p a1 q); [apply put_service_lookup|..]. }
  exists (put_service s (mark_process_free p a1) g2). split; [|done].
  rewrite (mthen_run _ _ g p g1) by done. rewrite (mthen_run _ _ g1 a g1) by (apply get_service_run, Ha).
  rewrite then_modify. change (put_service s _ g1) with g2. cbv zeta. cbn [default]. rewrite (mthen_run _ _ _ _ _ Hsend).
  rewrite decide_False by done. rewrite (mthen_run _ _ _ _ _ (upd_service_run g2 s a1 _ (put_service_lookup g1 s a1))).
  unfold g2. by rewrite put_put_service.
Qed.

End run.

(** ** A request to reboot *)

Section reboot.
Context `{CB : Callbacks, CC : CommandCode, CS : ControlSys} (T : stype_h -> Prop) `{SF : !StopFunctions T}.

(** Init 6.  A request for runlevel 6 on /dev/initctl leaves the system on its way
    down, to reboot when it is there: every service that is up or starting and
    whose type can stop is stopping, down or failed, and no other has changed. *)
Theorem init_6_stops_everything g fds fuel :
  sys_read_request (g_ticks g) fds = Some (sizeof_request, Request INIT_MAGIC INIT_CMD_RUNLVL (chr "6")) -> sizeof_request <> 0 ->
  wf g -> (forall s a, g_heap g !! s = Some a -> a_state_lock a = 0 /\ forall ty, a_type a = Some ty -> T ty) ->
  g_hooks g EVENT_SYSTEM_CHANGE = [] -> (length (g_active_db g) <= fuel)%nat ->
  exists g', parse_control_input fuel fds g = Done (tt, g') /\ g_sys_state g' = STATE_STOPPING /\ g_when_out g' = THEN_REBOOT /\
    g_active_db g' = g_active_db g /\
    forall s a, s ∈ g_active_db g -> g_heap g !! s = Some a -> exists b, g_heap g' !! s = Some b /\ stop_outcome a b.
Proof.
  intros Hr Hsz Hwf Hall Hh Hf. set (g1 := g <| g_ticks := S (g_ticks g) |> <| g_when_out := THEN_REBOOT |>).
  destruct (stop_all_run T g1 fuel) as (g' & E & Hs & Hw & Hdb & Hout); [|exact Hall|exact Hh|exact Hf|].
  { destruct Hwf as [H1 H2 H3 H4 H5 H6 H7]. by split. }
  exists g'. split; [|done]. unfold parse_control_input.
  rewrite (mthen_run _ _ g (Some (sizeof_request, Request INIT_MAGIC INIT_CMD_RUNLVL (chr "6"))) (g <| g_ticks := S (g_ticks g) |>)).
  2:{ unfold syscall. rewrite then_asks, then_modify. unfold mpure. by rewrite Hr. }
  rewrite (proj2 (Z.eqb_neq _ _) Hsz), Z.eqb_refl. cbn [rq_magic rq_cmd rq_runlevel negb orb]. rewrite !Z.eqb_refl. cbn [negb].
  unfold handle_runlevel. change (chr "6" =? chr "0") with false. rewrite Z.eqb_refl. cbv iota.
  assert (Est : stop_then fuel THEN_REBOOT (g <| g_ticks := S (g_ticks g) |>) = Done (TRUE, g')).
  { unfold stop_then, set_when_out. rewrite then_modify. change (_ <| g_when_out := _ |>) with g1. by rewrite (mthen_run _ _ _ _ _ E). }
  by rewrite (mthen_run _ _ _ _ _ Est).
Qed.

End reboot.
