(* ===== verification/HookMods.v ===== *)
(** * Modules that hook events

    src/modules/: conflict, also, last, synchron, fstat, ctrlaltdel, lockfile and
    daemon_clean, which look at the changes of services; limit, renice, suid,
    chdir, chroot and pause, which prepare a forked child; the command of
    unneeded; and provide, with its virtual services. *)
From S2P Require Import Prelude Types Data CString Global ActiveDb Depend Io Interrupt Launch Modules ServiceMod DaemonMod Control.
From Stdlib Require Import String Ascii.
From stdpp Require Import prelude gmap strings.
Local Open Scope Z_scope.

(** getpwnam(3): uid, gid and home; getgrnam(3): the gid; fgets(3): the line;
    whether creat(2), setgid(2), initgroups(3), setuid(2), chdir(2), chroot(2),
    nice(2) and setrlimit(2) succeed. *)
Class HookSys := {
  sys_getpwnam : nat -> string -> option (Z * Z * string);
  sys_getgrnam : nat -> string -> option Z;
  sys_fgets : nat -> option string;
  sys_creat : nat -> string -> bool;
  sys_setgid : nat -> Z -> bool;
  sys_initgroups : nat -> string -> bool;
  sys_setuid : nat -> Z -> bool;
  sys_chdir : nat -> string -> bool;
  sys_chroot : nat -> string -> bool;
  sys_nice : nat -> Z -> bool;
  sys_setrlimit : nat -> Z -> Z * Z -> bool
}.

(** initng_global_set_sleep *)
Definition initng_global_set_sleep (sec : Z) : G unit :=
  modify (fun g => if (g_sleep_seconds g =? 0) || (sec <? g_sleep_seconds g) then g <| g_sleep_seconds := sec |> else g).

(** A hook of an event about a service. *)
Definition on_service (event : s_event) (k : addr -> G s_event) : G s_event :=
  match ev_data event with ED_service s => k s | _ => fault end.

(** while ((x = get_next_string(type, service, &itt))): the body says whether it
    leaves the loop; the result is whether it did, and itt. *)
Fixpoint while_strings (n : nat) (type : s_entry) (service : addr) (itt : option addr) (body : string -> G bool)
    : G (bool * option addr) :=
  match n with
  | O => nofuel
  | S n =>
    let! a := get_service service in
    match initng_data_get_next_string_var type None (a_data a) itt with
    | (None, itt) => mpure (false, itt)
    | (Some str, itt) =>
      let! stop := body str in
      if (stop : bool) then mpure (true, itt) else while_strings n type service itt body
    end
  end.

(** ** conflict *)

Definition CONFLICT := SEntry 180 (Some "conflict"%string) STRINGS None None
  (Some "If service put here is starting or running, bail out."%string).
Definition CONFLICTING := AState 601 "FAILED_BY_CONFLICT" IS_FAILED None None None
  (Some "There is a running service that is conflicting with this service, initng cannot launch this service."%string).

Section hooks.
Context `{!Callbacks, !Sys, !ForkSys, !HookSys} (fuel : nat).

Definition conflict_body (service : addr) (conflict_entry : string) : G bool :=
  let! s := asks (initng_active_db_find_by_name conflict_entry) in
  match s with
  | None => mpure false
  | Some s =>
    let! b := get_service s in
    match GET_STATE b with
    | IS_UP | IS_STARTING => initng_common_mark_service service CONFLICTING ;;; mpure true
    | _ => mpure false
    end
  end.

Definition check_conflict (event : s_event) : G s_event :=
  on_service event (fun service =>
    let! a := get_service service in
    (if decide (GET_STATE a = IS_STARTING)
     then while_strings fuel CONFLICT service None (conflict_body service) ;;; mpure tt
     else mpure tt) ;;;
    mpure event).

(** ** also *)

Definition ALSO_START := SEntry 181 (Some "also_start"%string) STRINGS None None
  (Some "When this service is starting, also start this."%string).
Definition ALSO_STOP := SEntry 182 (Some "also_stop"%string) STRINGS None None
  (Some "When this service is stopping, also stop this."%string).

Definition also_start_body (service : addr) (tmp : string) : G bool :=
  let! current := asks (initng_active_db_find_by_name tmp) in
  match current with
  | Some current => initng_handler_start_service fuel current ;;; mpure false
  | None =>
    let! r := initng_handler_start_new_service_named fuel tmp in
    match r with
    | Some _ => mpure false
    | None => initng_handler_stop_service service ;;; mpure true
    end
  end.

Definition also_stop_body (tmp : string) : G bool :=
  let! current := asks (initng_active_db_find_by_name tmp) in
  match current with
  | Some current => initng_handler_stop_service current ;;; mpure false
  | None => mpure false
  end.

Definition also_service_state (event : s_event) : G s_event :=
  on_service event (fun service =>
    let! a := get_service service in
    (match GET_STATE a with
     | IS_STARTING => while_strings fuel ALSO_START service None (also_start_body service) ;;; mpure tt
     | IS_STOPPING => while_strings fuel ALSO_STOP service None also_stop_body ;;; mpure tt
     | _ => mpure tt
     end) ;;;
    mpure event).

(** ** last *)

Definition LAST := SEntry 183 (Some "last"%string) SET None None
  (Some "If this option is set, you will be sure this service is started last."%string).

(** TYPE_PROVIDED is looked up until it is found. *)
Definition get_TYPE_PROVIDED : G (option stype_h) :=
  modify (fun g => match TYPE_PROVIDED (g_statics g) with
    | Some _ => g
    | None => g <| g_statics := (g_statics g) <| TYPE_PROVIDED := initng_service_type_get_by_name "provided" g |> |>
    end) ;;;
  asks (fun g => TYPE_PROVIDED (g_statics g)).

(** [Some] is a service that [service] has to wait for. *)
Definition last_body (service : addr) (provided : option stype_h) (current : addr) : G (option unit) :=
  if Pos.eqb current service then mpure None
  else
    let! b := get_service current in
    if negb (bool_decide (provided = None)) && bool_decide (a_type b = provided) then mpure None
    else if svc_is LAST b then mpure None
    else
      let! r := initng_depend_deep current service in
      if r =? TRUE then mpure None
      else
        let! b := get_service current in
        mpure (if decide (GET_STATE b = IS_STARTING) then Some tt else None).

Definition check_last (event : s_event) : G s_event :=
  on_service event (fun service =>
    let! a := get_service service in
    if negb (svc_is LAST a) then mpure event
    else
      let! provided := get_TYPE_PROVIDED in
      let! first := first_active in
      let! r := while_active_db fuel first (last_body service provided) in
      mpure (match r with Some _ => event <| ev_status := FAILED |> | None => event end)).

(** ** synchron *)

Definition SYNCRON := SEntry 184 (Some "syncron"%string) STRING None None
  (Some "All services with this same syncron string, can't be started asynchronous."%string).

Definition resolv_SSR : G (option a_state_h) := asks (initng_active_state_find "SERVICE_START_RUN").

Definition syncron_body (service : addr) (ssr : a_state_h) (service_syncron : string) (current : addr) : G (option unit) :=
  if Pos.eqb current service then mpure None
  else
    let! b := get_service current in
    mpure (if IS_MARK b ssr && bool_decide (svc_get_string SYNCRON b = Some service_syncron) then Some tt else None).

Definition check_syncronicly_service (event : s_event) : G s_event :=
  on_service event (fun service =>
    let! ssr := resolv_SSR in
    match ssr with
    | None => mpure event
    | Some ssr =>
      let! a := get_service service in
      match svc_get_string SYNCRON a with
      | None => mpure event
      | Some service_syncron =>
        let! first := first_active in
        let! r := while_active_db_safe fuel first (syncron_body service ssr service_syncron) in
        mpure (match r with Some _ => event <| ev_status := FAILED |> | None => event end)
      end
    end).

(** The test is about [service], not about [current]. *)
Definition synchronously_body (service : addr) (ssr : a_state_h) (current : addr) : G (option unit) :=
  if Pos.eqb current service then mpure None
  else
    let! a := get_service service in
    mpure (if IS_MARK a ssr then Some tt else None).

Definition check_syncronicly (event : s_event) : G s_event :=
  on_service event (fun service =>
    let! ssr := resolv_SSR in
    match ssr with
    | None => mpure event
    | Some ssr =>
      let! first := first_active in
      let! r := while_active_db_safe fuel first (synchronously_body service ssr) in
      mpure (match r with Some _ => event <| ev_status := FAILED |> | None => event end)
    end).

(** ** fstat *)

Definition WAIT_FOR_FILE := SEntry 185 (Some "wait_for_file"%string) STRINGS None None
  (Some "Check so that this files exits before launching."%string).
Definition REQUIRE_FILE := SEntry 186 (Some "require_file"%string) STRINGS None None
  (Some "If this file dont exist, this service will FAIL directly."%string).
Definition WAIT_FOR_FILE_AFTER := SEntry 187 (Some "wait_for_file_after"%string) STRINGS None None
  (Some "Make sure this files exits before a service can be marked as up."%string).
Definition REQUIRE_FILE_AFTER := SEntry 188 (Some "require_file_after"%string) STRINGS None None
  (Some "If this file dont exist after, the service will be marked FAIL."%string).
Definition REQUIRE_FILE_FAILED := AState 602 "REQUIRE_FILE_FAILED" IS_FAILED None None None
  (Some "A file that is required to exist before this service can start was not found."%string).
Definition REQUIRE_FILE_AFTER_FAILED := AState 603 "REQUIRE_FILE_AFTER_FAILED" IS_FAILED None None None
  (Some "A file that is required to exist after this service is started was not found."%string).

(** A file that is not there ends the loop; [missing] is what is done then. *)
Definition file_body (missing : G unit) (file : string) : G bool :=
  let! st := syscall (fun t => sys_stat t file) in
  match st with
  | Some _ => mpure false
  | None => missing ;;; mpure true
  end.

(** One loop waits for files, the other marks the service [failed]. *)
Definition check_files (wait require : s_entry) (failed : a_state_h) (event : s_event) : G s_event :=
  on_service event (fun service =>
    let! r := while_strings fuel wait service None (file_body (initng_global_set_sleep 1)) in
    if (fst r : bool) then mpure (event <| ev_status := FAILED |>)
    else
      let! r := while_strings fuel require service (snd r) (file_body (mark service failed)) in
      mpure (if (fst r : bool) then event <| ev_status := FAILED |> else event)).

Definition check_files_to_exist : s_event -> G s_event := check_files WAIT_FOR_FILE REQUIRE_FILE REQUIRE_FILE_FAILED.
(** The second loop is over WAIT_FOR_FILE_AFTER too. *)
Definition check_files_to_exist_after : s_event -> G s_event :=
  check_files WAIT_FOR_FILE_AFTER WAIT_FOR_FILE_AFTER REQUIRE_FILE_AFTER_FAILED.

(** ** ctrlaltdel *)

Definition ctrlaltdel (event : s_event) : G s_event :=
  match ev_data event with
  | ED_signal signal =>
    if negb (signal =? SIGINT) then mpure event
    else
      set_when_out THEN_REBOOT ;;;
      initng_handler_stop_all fuel ;;;
      mpure event
  | _ => fault
  end.

(** ** lockfile

    In a name without a slash strrchr finds nothing, and what is at NULL + 1 is
    copied. *)

Definition LOCKFILE := SEntry 189 (Some "lockfile"%string) SET None None
  (Some "If this option is set, module will create /var/lock/subsys/$NAME lockfile."%string).

Definition LOCKDIR : string := "/var/lock/subsys/".

Definition set_lockfiles_var (f : list string -> list string) : G unit :=
  modify (fun g => g <| g_statics := (g_statics g) <| lockfiles := f (lockfiles (g_statics g)) |> |>).

Definition status_change (event : s_event) : G s_event :=
  on_service event (fun service =>
    let! a := get_service service in
    if negb (svc_is LOCKFILE a) then mpure event
    else
      let! i := deref (fun _ => strrchr (chars_of (a_name a)) c_slash) in
      let lockfile := to_string (chars_of LOCKDIR ++ drop (S i) (chars_of (a_name a))) in
      (match GET_STATE a with
       | IS_UP =>
         let! ok := syscall (fun t => sys_creat t lockfile) in
         if (ok : bool) then set_lockfiles_var (fun fs => lockfile :: List.filter (fun f => negb (String.eqb f lockfile)) fs) else mpure tt
       | IS_DOWN => set_lockfiles_var (List.filter (fun f => negb (String.eqb f lockfile)))
       | _ => mpure tt
       end) ;;;
      mpure event).

(** ** daemon_clean *)

Definition T_DAEMON_CLEAN : ptype_h := PType 173 "daemon_clean" None.

Definition on_kill (event : s_event) : G s_event :=
  match ev_data event with
  | ED_process s p =>
    let! q := get_process s p in
    if negb (String.eqb (pty_name (p_pt q)) "daemon") then mpure event
    else initng_execute_launch s T_DAEMON_CLEAN None ;;; mpure event
  | _ => fault
  end.

(** ** interactive *)

Definition INT_DISABLED := AState 604 "INTERACTIVELY_DISABLED" IS_FAILED None None None
  (Some "The user choose to not start this service."%string).

Definition interactive_STARTING_ptr : fptr := 134.
Definition interactive_STOP_MARKED_ptr : fptr := 135.

Definition interactive_unhook : G unit :=
  initng_event_hook_unregister_real EVENT_START_DEP_MET interactive_STARTING_ptr ;;;
  initng_event_hook_unregister_real EVENT_STOP_DEP_MET interactive_STOP_MARKED_ptr ;;;
  modify (fun g => g <| g_statics := (g_statics g) <| active := FALSE |> |>).

Definition one_of (a : ascii) (x y : ascii) : bool := Ascii.eqb a x || Ascii.eqb a y.

(** The first char of the line; fgets gives no empty line, and NULL is taken for
    "n". *)
Definition ask : G ascii :=
  let! line := syscall sys_fgets in
  mpure (match line with Some (String asw _) => asw | Some EmptyString => Ascii.zero | None => "n"%char end).

(** Both hooks have this body. *)
Definition interactive_ask (event : s_event) : G s_event :=
  on_service event (fun service =>
    let! asw := ask in
    if one_of asw "y" "Y" then mpure event
    else if one_of asw "a" "A" then interactive_unhook ;;; mpure event
    else
      initng_common_mark_service service INT_DISABLED ;;;
      mpure (event <| ev_status := FAILED |>)).

Definition interactive_STARTING : s_event -> G s_event := interactive_ask.
Definition interactive_STOP_MARKED : s_event -> G s_event := interactive_ask.

(** ** unneeded *)

Definition cmd_stop_unneeded_ptr : fptr := 138.
Definition STOP_UNNEEDED :=
  Command 619 (chr "y") (Some "stop_unneeded"%string) INT_COMMAND STANDARD_COMMAND NO_OPT (Some cmd_stop_unneeded_ptr)
  (Some "Stop all services, not in runlevel"%string).

(** Whether another service depends on [A]. *)
Definition needed_body (A B : addr) : G (option unit) :=
  if Pos.eqb A B then mpure None
  else let! r := initng_depend B A in mpure (if r =? TRUE then Some tt else None).

Definition stop_unneeded_body (runlevel : option stype_h) (A : addr) : G (option unit) :=
  let! a := get_service A in
  if bool_decide (a_type a = runlevel) then mpure None
  else
    let! first := first_active in
    let! needed := while_active_db fuel first (needed_body A) in
    match needed with
    | Some _ => mpure None
    | None => initng_handler_stop_service A ;;; mpure None
    end.

Definition cmd_stop_unneeded : G Z :=
  let! runlevel := asks (initng_service_type_get_by_name "runlevel") in
  let! first := first_active in
  while_active_db_safe fuel first (stop_unneeded_body runlevel) ;;;
  mpure TRUE.

(** ** The hooks of EVENT_AFTER_FORK, in the child *)

Definition on_fork (event : s_event) (k : addr -> addr -> G s_event) : G s_event :=
  match ev_data event with ED_process s p => k s p | _ => fault end.

Definition set_proc (f : proc_attrs -> proc_attrs) : G unit := modify (fun g => g <| g_proc := f (g_proc g) |>).

(** A call whose result the code does not look at. *)
Definition unchecked (call : nat -> bool) (f : proc_attrs -> proc_attrs) : G unit :=
  let! ok := syscall call in if (ok : bool) then set_proc f else mpure tt.

Definition CHDIR := SEntry 190 (Some "chdir"%string) STRING None None
  (Some "Change to this directory before launching."%string).

Definition do_chdir (event : s_event) : G s_event :=
  on_fork event (fun service _ =>
    let! a := get_service service in
    match svc_get_string CHDIR a with
    | None => mpure event
    | Some tmp =>
      let! ok := syscall (fun t => sys_chdir t tmp) in
      if (ok : bool) then set_proc (fun p => p <| pr_cwd := tmp |>) ;;; mpure event
      else mpure (event <| ev_status := FAILED |>)
    end).

Definition CHROOT := SEntry 191 (Some "chroot"%string) STRING None None
  (Some "Chroot this path, before launching the service."%string).

Definition do_chroot (event : s_event) : G s_event :=
  on_fork event (fun service _ =>
    let! a := get_service service in
    match svc_get_string CHROOT a with
    | None => mpure event
    | Some tmp =>
      let! ok := syscall (fun t => sys_chdir t tmp) in
      if negb (ok : bool) then mpure (event <| ev_status := FAILED |>)
      else
        set_proc (fun p => p <| pr_cwd := tmp |>) ;;;
        let! ok := syscall (fun t => sys_chroot t tmp) in
        if negb (ok : bool) then mpure (event <| ev_status := FAILED |>)
        else set_proc (fun p => p <| pr_root := tmp |>) ;;; mpure event
    end).

Definition NICE := SEntry 192 (Some "nice"%string) INT None None
  (Some "Set this nice value before executing service."%string).

Definition do_renice (event : s_event) : G s_event :=
  on_fork event (fun service _ =>
    let! a := get_service service in
    if negb (svc_is NICE a) then mpure event
    else
      let! inc := svc_get_int NICE a in
      let! ok := syscall (fun t => sys_nice t inc) in
      if (ok : bool) then set_proc (fun p => p <| pr_nice := Z.max (-20) (Z.min 19 (pr_nice p + inc)) |>) ;;; mpure event
      else mpure (event <| ev_status := FAILED |>)).

(** ** suid *)

Definition SUID := SEntry 193 (Some "suid"%string) STRING None None
  (Some "Set this user id on launch."%string).
Definition SGID := SEntry 194 (Some "sgid"%string) STRING None None
  (Some "Set this group id on launch."%string).

Definition adjust_env (service : addr) (vn vv : string) : G unit :=
  let! a := get_service service in
  if initng_data_is_var ENV (Some vn) (a_data a) then mpure tt
  else
    let! fresh := new_addr in
    upd_service service (fun a => a <| a_data := initng_data_set_string_var (Some ENV) (Some vn) fresh (a_data a) vv |>).

(** Whether setgid, initgroups and setuid succeed is not checked; a user or a
    group that is not found is only reported. *)
Definition do_suid (event : s_event) : G s_event :=
  on_fork event (fun service _ =>
    let! a := get_service service in
    let! group := match svc_get_string SGID a with
      | Some groupname => syscall (fun t => sys_getgrnam t groupname) | None => mpure None end in
    let! passwd := match svc_get_string SUID a with
      | Some username =>
        let! pw := syscall (fun t => sys_getpwnam t username) in
        mpure ((fun '(uid, gid, dir) => (username, uid, gid, dir)) <$> pw)
      | None => mpure None end in
    let uid := match passwd with Some (_, uid, _, _) => uid | None => 0 end in
    let gid := match group, passwd with
      | Some gid, _ => gid | None, Some (_, _, gid, _) => gid | None, None => 0 end in
    (if c_true gid then unchecked (fun t => sys_setgid t gid) (fun p => p <| pr_gid := gid |>) else mpure tt) ;;;
    (match passwd with
     | Some (name, _, _, _) => unchecked (fun t => sys_initgroups t name) (fun p => p <| pr_groups := Some name |>)
     | None => mpure tt
     end) ;;;
    (match passwd with
     | Some (name, uid, _, dir) =>
       if c_true uid then
         unchecked (fun t => sys_setuid t uid) (fun p => p <| pr_uid := uid |>) ;;;
         adjust_env service "USER" name ;;;
         adjust_env service "HOME" dir ;;;
         adjust_env service "PATH" "/bin:/usr/bin"
       else mpure tt
     | None => mpure tt
     end) ;;;
    mpure event).

(** ** limit *)

(** The entries of a resource, with the number of the resource and the factor.
    The address of an entry is 2000 and twice the number, plus one for the hard
    limit. *)
Record limit_h := Limit { l_name : string; l_type : Z; l_times : Z; l_soft : string; l_hard : string }.
Definition soft_of (l : limit_h) : s_entry :=
  SEntry (Z.to_pos (2000 + 2 * l_type l)) (Some ("rlimit_" +:+ l_name l +:+ "_soft")) INT None None (Some (l_soft l)).
Definition hard_of (l : limit_h) : s_entry :=
  SEntry (Z.to_pos (2001 + 2 * l_type l)) (Some ("rlimit_" +:+ l_name l +:+ "_hard")) INT None None (Some (l_hard l)).

(** In the order of do_limit, with the numbers of Linux. *)
Definition limits : list limit_h :=
  [Limit "as" 9 1024
     "The maximum size of process virtual memory, soft limit."
     "The maximum size of process virtual memory, hard limit.";
   Limit "core" 4 1024
     "The maximum size of the core file, soft limit."
     "The maximum size of the core file, hard limit.";
   Limit "cpu" 0 1
     "The maximum of cputime, in seconds processes can use, soft limit."
     "The maximum of cputime, in seconds processes can use, hard limit.";
   Limit "data" 2 1024
     "The maximum size of the process uninitalized data, soft limit."
     "The maximum size of the process uninitalized data, hard limit.";
   Limit "fsize" 1 1024
     "The maximum filesize of a file the process can create, soft limit."
     "The maximum filesize of a file the process can create, hard limit.";
   Limit "memlock" 8 1024
     "The maximum amount of memory, the process can lock, soft limit."
     "The maximum amount of memory, the process can lock, hard limit.";
   Limit "nofile" 7 1
     "The maximum number of files the process can open, at the same time, soft limit."
     "The maximum number of files the process can open, at the same time, hard limit.";
   Limit "nproc" 6 1
     "The maximum number of processes that can be created, soft limit."
     "The maximum number of processes that can be created, hard limit.";
   Limit "rss" 5 1024
     "The maximum no of virtual pages in ram, soft limit."
     "The maximum no of virtual pages in ram, hard limit.";
   Limit "sigpending" 11 1
     "The maximum amount of signals that can be queued, soft limit."
     "The maximum amount of signals that can be queued, soft limit.";
   Limit "stack" 3 1024
     "The maximum size of the process stack, hard limit."
     "The maximum size of the process stack, soft limit."].

(** A product of two ints as an rlim_t. *)
Definition as_rlim (value times : Z) : Z := to_int (value * times) mod 2 ^ 64.

(** getrlimit(2) fails for a resource that is not there. *)
Definition set_limit (l : limit_h) (service : addr) : G Z :=
  let! a := get_service service in
  let si := svc_is (soft_of l) a in
  let sh := svc_is (hard_of l) a in
  if negb si && negb sh then mpure 0
  else
    let! cur := asks (fun g => pr_limits (g_proc g) !! l_type l) in
    match cur with
    | None => mpure (-1)
    | Some (soft, hard) =>
      let! soft := (if si then let! v := svc_get_int (soft_of l) a in mpure (as_rlim v (l_times l)) else mpure soft) in
      let! hard := (if sh then let! v := svc_get_int (hard_of l) a in mpure (as_rlim v (l_times l)) else mpure hard) in
      let hard := if hard <? soft then soft else hard in
      let! ok := syscall (fun t => sys_setrlimit t (l_type l) (soft, hard)) in
      if (ok : bool) then set_proc (fun p => p <| pr_limits := <[l_type l := (soft, hard)]> (pr_limits p) |>) ;;; mpure 0
      else mpure (-1)
    end.

Fixpoint set_limits (ls : list limit_h) (service : addr) (ret : Z) : G Z :=
  match ls with
  | [] => mpure ret
  | l :: ls => let! r := set_limit l service in set_limits ls service (ret + r)
  end.

Definition do_limit (event : s_event) : G s_event :=
  on_fork event (fun service _ =>
    let! ret := set_limits limits service 0 in
    mpure (if ret =? 0 then event else event <| ev_status := FAILED |>)).

(** ** pause: sleep(3) and usleep(3) take unsigned numbers *)

Definition S_DELAY := SEntry 195 (Some "exec_delay"%string) VARIABLE_INT None None
  (Some "Pause this much seconds before service is launched."%string).
Definition MS_DELAY := SEntry 196 (Some "exec_m_delay"%string) VARIABLE_INT None None
  (Some "Pause this much microseconds before service is launched."%string).

Definition do_pause (event : s_event) : G s_event :=
  on_fork event (fun service p =>
    let! a := get_service service in
    let! q := get_process service p in
    let! s_delay := deref (fun _ => initng_data_get_int_var S_DELAY (Some (pty_name (p_pt q))) (a_data a)) in
    let! ms_delay := deref (fun _ => initng_data_get_int_var MS_DELAY (Some (pty_name (p_pt q))) (a_data a)) in
    (if c_true s_delay then set_proc (fun p => p <| pr_slept := pr_slept p + s_delay mod 2 ^ 32 * 1000000 |>) else mpure tt) ;;;
    (if c_true ms_delay then set_proc (fun p => p <| pr_slept := pr_slept p + ms_delay mod 2 ^ 32 |>) else mpure tt) ;;;
    mpure event).

End hooks.

(** ** provide *)

Definition dont_try_ptr : fptr := 139.
Definition PROVIDE := SEntry 197 (Some "provide"%string) STRINGS None None
  (Some "Used by service providers, automagically creates virtual services."%string).
Definition PROVIDED := SType 174 "provided" true (Some dont_try_ptr) (Some dont_try_ptr) (Some dont_try_ptr).
Definition PCOUNT := SEntry 198 (Some "p_count"%string) INT (Some PROVIDED) None
  None.
Definition SOON_PROVIDED := AState 605 "SOON_PROVIDED" IS_STARTING None None None
  (Some "The service providing this is starting."%string).
Definition PROVIDE_UP := AState 606 "PROVIDED" IS_UP None None None
  (Some "This service is provided by a parent service."%string).
Definition PROVIDE_DOWN := AState 607 "NOT_PROVIDED" IS_DOWN None None None
  (Some "This service is no longer provided by a parent service."%string).

Section provide.
Context (fuel : nat).

(** Of any type. *)
Definition virtual_service_set_up (name : string) : G bool :=
  let! vserv := asks (initng_active_db_find_by_name name) in
  match vserv with
  | None => mpure false
  | Some vserv =>
    let! v := get_service vserv in
    if decide (GET_STATE v = IS_STARTING) then initng_common_mark_service vserv PROVIDE_UP ;;; mpure true else mpure false
  end.

Definition add_virtual_service (name : string) : G bool :=
  let! vserv := asks (initng_active_db_find_by_name name) in
  match vserv with
  | Some vserv =>
    let! v := get_service vserv in
    if negb (bool_decide (a_type v = Some PROVIDED)) then mpure false
    else
      (match GET_STATE v with
       | IS_UP | IS_STARTING => mpure tt
       | _ => mark vserv SOON_PROVIDED
       end) ;;;
      let! v := get_service vserv in
      let! n := svc_get_int PCOUNT v in
      svc_set_int PCOUNT vserv (n + 1) ;;;
      mpure true
  | None =>
    let! vserv := initng_active_db_new name in
    upd_service vserv (fun a => a <| a_type := Some PROVIDED |>) ;;;
    let! r := initng_active_db_register vserv in
    if negb (c_true r) then initng_active_db_free vserv ;;; mpure false
    else
      mark vserv SOON_PROVIDED ;;;
      svc_set_int PCOUNT vserv 1 ;;;
      mpure true
  end.

Definition remove_virtual_service (name : string) : G unit :=
  let! vserv := asks (initng_active_db_find_by_name name) in
  match vserv with
  | None => mpure tt
  | Some vserv =>
    let! v := get_service vserv in
    if negb (bool_decide (a_type v = Some PROVIDED)) then mpure tt
    else
      let! i := (if decide (GET_STATE v = IS_UP) then
                   let! n := svc_get_int PCOUNT v in
                   svc_set_int PCOUNT vserv (n - 1) ;;; mpure (n - 1)
                 else mpure 0) in
      let! sys := asks g_sys_state in
      if (i =? 0) || bool_decide (sys = STATE_STOPPING) then mark vserv PROVIDE_DOWN else mpure tt
  end.

Definition provide_service_state (event : s_event) : G s_event :=
  on_service event (fun service =>
    let! a := get_service service in
    let! sys := asks g_sys_state in
    let unless_stopping m := if decide (sys = STATE_STOPPING) then mpure tt else m ;;; mpure tt in
    (match GET_STATE a with
     | IS_STARTING => unless_stopping (while_strings fuel PROVIDE service None (fun tmp =>
         let! ok := add_virtual_service tmp in mpure (negb ok)))
     | IS_UP => unless_stopping (while_strings fuel PROVIDE service None (fun tmp =>
         let! ok := virtual_service_set_up tmp in mpure (negb ok)))
     | _ => while_strings fuel PROVIDE service None (fun tmp => remove_virtual_service tmp ;;; mpure false) ;;; mpure tt
     end) ;;;
    mpure event).

End provide.

(** ** module_init and module_unload *)

Definition check_conflict_ptr : fptr := 121.
Definition also_service_state_ptr : fptr := 122.
Definition check_last_ptr : fptr := 123.
Definition check_syncronicly_service_ptr : fptr := 124.
Definition check_syncronicly_ptr : fptr := 125.
Definition check_files_ptr : fptr := 126.
Definition check_files_after_ptr : fptr := 127.
Definition ctrlaltdel_ptr : fptr := 128.
Definition status_change_ptr : fptr := 129.
Definition on_kill_ptr : fptr := 130.
Definition do_chdir_ptr : fptr := 131.
Definition do_chroot_ptr : fptr := 132.
Definition do_renice_ptr : fptr := 133.
Definition do_suid_ptr : fptr := 136.
Definition do_limit_ptr : fptr := 137.
Definition do_pause_ptr : fptr := 140.
Definition provide_service_state_ptr : fptr := 141.

Definition hook_register (file : string) (t : s_event_type) (f : fptr) : G unit :=
  initng_event_hook_register_real file t f ;;; mpure tt.
Definition entries_register (es : list s_entry) : G unit :=
  for_each (R := unit) es (fun e => initng_service_data_type_register e ;;; mpure None) ;;; mpure tt.
Definition entries_unregister (es : list s_entry) : G unit :=
  for_each (R := unit) es (fun e => initng_service_data_type_unregister e ;;; mpure None) ;;; mpure tt.
Definition states_register (ss : list a_state_h) : G unit :=
  for_each (R := unit) ss (fun st => initng_active_state_register st ;;; mpure None) ;;; mpure tt.
Definition states_unregister (ss : list a_state_h) : G unit :=
  for_each (R := unit) ss (fun st => active_state_unregister st ;;; mpure None) ;;; mpure tt.

Definition conflict_module_init : G Z :=
  entries_register [CONFLICT] ;;; hook_register "initng_conflict.c" EVENT_IS_CHANGE check_conflict_ptr ;;;
  states_register [CONFLICTING] ;;; mpure TRUE.
Definition conflict_module_unload : G unit :=
  initng_event_hook_unregister_real EVENT_IS_CHANGE check_conflict_ptr ;;;
  states_unregister [CONFLICTING] ;;; entries_unregister [CONFLICT].

Definition also_module_init : G Z :=
  entries_register [ALSO_START; ALSO_STOP] ;;; hook_register "initng_also.c" EVENT_IS_CHANGE also_service_state_ptr ;;; mpure TRUE.
Definition also_module_unload : G unit :=
  entries_unregister [ALSO_START; ALSO_STOP] ;;; initng_event_hook_unregister_real EVENT_IS_CHANGE also_service_state_ptr.

Definition last_module_init : G Z :=
  entries_register [LAST] ;;; hook_register "initng_last.c" EVENT_START_DEP_MET check_last_ptr ;;; mpure TRUE.
Definition last_module_unload : G unit :=
  entries_unregister [LAST] ;;; initng_event_hook_unregister_real EVENT_START_DEP_MET check_last_ptr.

(** The first argument that holds the word decides. *)
Definition asked_for (word : string) (argv : list string) : bool :=
  List.existsb (fun arg => bool_decide (is_Some (CString.strstr (chars_of arg) (chars_of word)))) argv.
Definition set_check_var (b : Z) : G unit := modify (fun g => g <| g_statics := (g_statics g) <| check := b |> |>).
Definition set_active_var (b : Z) : G unit := modify (fun g => g <| g_statics := (g_statics g) <| active := b |> |>).

Definition synchron_module_init : G Z :=
  entries_register [SYNCRON] ;;;
  let! argv := asks g_Argv in
  (if asked_for "synchronously" argv then
     set_check_var TRUE ;;; hook_register "initng_synchron.c" EVENT_START_DEP_MET check_syncronicly_ptr
   else
     set_check_var FALSE ;;; hook_register "initng_synchron.c" EVENT_START_DEP_MET check_syncronicly_service_ptr) ;;;
  mpure TRUE.
Definition synchron_module_unload : G unit :=
  let! vars := asks g_statics in
  (if check vars =? TRUE then initng_event_hook_unregister_real EVENT_START_DEP_MET check_syncronicly_ptr else mpure tt) ;;;
  initng_event_hook_unregister_real EVENT_START_DEP_MET check_syncronicly_service_ptr ;;;
  entries_unregister [SYNCRON].

Definition interactive_module_init : G Z :=
  let! argv := asks g_Argv in
  (if asked_for "interactive" argv then
     hook_register "initng_interactive.c" EVENT_START_DEP_MET interactive_STARTING_ptr ;;;
     hook_register "initng_interactive.c" EVENT_STOP_DEP_MET interactive_STOP_MARKED_ptr ;;;
     set_active_var TRUE
   else set_active_var FALSE ;;; initng_module_unload_named "interactive" ;;; mpure tt) ;;;
  mpure TRUE.
Definition interactive_module_unload : G unit :=
  let! vars := asks g_statics in
  if active vars =? TRUE then
    initng_event_hook_unregister_real EVENT_START_DEP_MET interactive_STARTING_ptr ;;;
    initng_event_hook_unregister_real EVENT_STOP_DEP_MET interactive_STOP_MARKED_ptr
  else mpure tt.

Definition fstat_entries : list s_entry := [WAIT_FOR_FILE; REQUIRE_FILE; WAIT_FOR_FILE_AFTER; REQUIRE_FILE_AFTER].
Definition fstat_module_init : G Z :=
  entries_register fstat_entries ;;; states_register [REQUIRE_FILE_FAILED; REQUIRE_FILE_AFTER_FAILED] ;;;
  hook_register "initng_fstat.c" EVENT_START_DEP_MET check_files_ptr ;;;
  hook_register "initng_fstat.c" EVENT_UP_MET check_files_after_ptr ;;; mpure TRUE.
Definition fstat_module_unload : G unit :=
  entries_unregister fstat_entries ;;; states_unregister [REQUIRE_FILE_FAILED; REQUIRE_FILE_AFTER_FAILED] ;;;
  initng_event_hook_unregister_real EVENT_START_DEP_MET check_files_ptr ;;;
  initng_event_hook_unregister_real EVENT_UP_MET check_files_after_ptr.

Definition ctrlaltdel_module_init : G Z := hook_register "initng_ctrlaltdel.c" EVENT_SIGNAL ctrlaltdel_ptr ;;; mpure TRUE.
Definition ctrlaltdel_module_unload : G unit := initng_event_hook_unregister_real EVENT_SIGNAL ctrlaltdel_ptr.

Definition lockfile_module_init : G Z :=
  entries_register [LOCKFILE] ;;; hook_register "initng_lockfile.c" EVENT_IS_CHANGE status_change_ptr ;;; mpure TRUE.
Definition lockfile_module_unload : G unit :=
  entries_unregister [LOCKFILE] ;;; initng_event_hook_unregister_real EVENT_IS_CHANGE status_change_ptr.

Definition daemon_clean_module_init : G Z :=
  process_type_register T_DAEMON_CLEAN ;;; hook_register "initng_daemon_clean.c" EVENT_HANDLE_KILLED on_kill_ptr ;;; mpure TRUE.
Definition daemon_clean_module_unload : G unit :=
  initng_event_hook_unregister_real EVENT_HANDLE_KILLED on_kill_ptr ;;; process_type_unregister T_DAEMON_CLEAN.

Definition unneeded_module_init : G Z := initng_command_register STOP_UNNEEDED ;;; mpure TRUE.
Definition unneeded_module_unload : G unit := initng_command_unregister STOP_UNNEEDED.

(** chdir, chroot, renice, suid and pause return what the registration of the
    hook returns. *)
Definition fork_module_init (file : string) (es : list s_entry) (f : fptr) : G Z :=
  entries_register es ;;; initng_event_hook_register_real file EVENT_AFTER_FORK f.
Definition fork_module_unload (es : list s_entry) (f : fptr) : G unit :=
  entries_unregister es ;;; initng_event_hook_unregister_real EVENT_AFTER_FORK f.

Definition chdir_module_init : G Z := fork_module_init "initng_chdir.c" [CHDIR] do_chdir_ptr.
Definition chdir_module_unload : G unit := fork_module_unload [CHDIR] do_chdir_ptr.
Definition chroot_module_init : G Z := fork_module_init "initng_chroot.c" [CHROOT] do_chroot_ptr.
Definition chroot_module_unload : G unit := fork_module_unload [CHROOT] do_chroot_ptr.
Definition renice_module_init : G Z := fork_module_init "initng_renice.c" [NICE] do_renice_ptr.
Definition renice_module_unload : G unit := fork_module_unload [NICE] do_renice_ptr.
Definition suid_module_init : G Z := fork_module_init "initng_suid.c" [SUID; SGID] do_suid_ptr.
Definition suid_module_unload : G unit := fork_module_unload [SUID; SGID] do_suid_ptr.
Definition pause_module_init : G Z := fork_module_init "initng_pause.c" [S_DELAY; MS_DELAY] do_pause_ptr.
Definition pause_module_unload : G unit := fork_module_unload [S_DELAY; MS_DELAY] do_pause_ptr.

Definition limit_entries : list s_entry := concat (map (fun l => [soft_of l; hard_of l]) limits).
Definition limit_module_init : G Z := fork_module_init "initng_limit.c" limit_entries do_limit_ptr ;;; mpure TRUE.
Definition limit_module_unload : G unit :=
  initng_event_hook_unregister_real EVENT_AFTER_FORK do_limit_ptr ;;; entries_unregister limit_entries.

Definition provide_states : list a_state_h := [SOON_PROVIDED; PROVIDE_UP; PROVIDE_DOWN].
Definition provide_module_init : G Z :=
  service_type_register PROVIDED ;;; states_register provide_states ;;; entries_register [PROVIDE; PCOUNT] ;;;
  hook_register "initng_provide.c" EVENT_IS_CHANGE provide_service_state_ptr ;;; mpure TRUE.
Definition provide_module_unload : G unit :=
  initng_event_hook_unregister_real EVENT_IS_CHANGE provide_service_state_ptr ;;;
  entries_unregister [PROVIDE; PCOUNT] ;;; states_unregister provide_states ;;; service_type_unregister PROVIDED.

(** ** The hooks, by their addresses *)

Definition hook_states : list a_state_h :=
  [CONFLICTING; REQUIRE_FILE_FAILED; REQUIRE_FILE_AFTER_FAILED; INT_DISABLED; SOON_PROVIDED; PROVIDE_UP; PROVIDE_DOWN].

Definition hook_table `{!Callbacks, !Sys, !ForkSys, !HookSys} (fuel : nat) : list (fptr * (s_event -> G s_event)) := [
  (check_conflict_ptr, check_conflict fuel);
  (also_service_state_ptr, also_service_state fuel);
  (check_last_ptr, check_last fuel);
  (check_syncronicly_service_ptr, check_syncronicly_service fuel);
  (check_syncronicly_ptr, check_syncronicly fuel);
  (check_files_ptr, check_files_to_exist fuel);
  (check_files_after_ptr, check_files_to_exist_after fuel);
  (ctrlaltdel_ptr, ctrlaltdel fuel);
  (status_change_ptr, status_change);
  (on_kill_ptr, on_kill);
  (interactive_STARTING_ptr, interactive_STARTING);
  (interactive_STOP_MARKED_ptr, interactive_STOP_MARKED);
  (do_chdir_ptr, do_chdir);
  (do_chroot_ptr, do_chroot);
  (do_renice_ptr, do_renice);
  (do_suid_ptr, do_suid);
  (do_limit_ptr, do_limit);
  (do_pause_ptr, do_pause);
  (provide_service_state_ptr, provide_service_state fuel) ].

Definition module_hook `{!Callbacks, !Sys, !ForkSys, !HookSys} (fuel : nat) (other : fptr -> s_event -> G s_event)
    (f : fptr) (e : s_event) : G s_event :=
  match List.find (fun h => Pos.eqb (fst h) f) (hook_table fuel) with
  | Some h => snd h e
  | None => other f e
  end.
