(* ===== verification/HookProps.v ===== *)
(** * The modules that hook events: theorems

    What the loops over the strings of a service do; which services a conflict
    and a common syncron string hold back; what the limits are; and where the
    modules do not do what they mean to. *)
From S2P Require Import Prelude Types Data CString Global ActiveDb Depend Io Interrupt Launch Modules ServiceMod DaemonMod Control HookMods.
From Stdlib Require Import String.
From stdpp Require Import prelude gmap strings.
Local Open Scope Z_scope.

Lemma existsb_find {A} (f : A -> bool) l : List.existsb f l = bool_decide (is_Some (List.find f l)).
Proof. induction l as [|x l IH]; cbn; [done|]. destruct (f x); [done|apply IH]. Qed.

(** ** Loops over the strings of a service *)

(** The strings of the entries, up to the first that is NULL. *)
Fixpoint strings_upto (l : list s_data) : list string :=
  match l with
  | [] => []
  | c :: l => match t_s (d_t c) with Some str => str :: strings_upto l | None => [] end
  end.

Definition strings_of (type : s_entry) (d : data_head) : list string :=
  strings_upto (List.filter (entry_matches (Some (alias_walk type)) None) (all_entries d)).

Section loops.
Context (type : s_entry) (s : addr) (body : string -> G bool) (stops : string -> bool) (g : s_global).

(** The body at this state: it goes on, or it stops and does [finish]. *)
Context (finish : string -> s_global).
Hypothesis body_runs : forall str, body str g = Done (stops str, if stops str then finish str else g).

Lemma while_strings_from a l1 l2 n last :
  g_heap g !! s = Some a -> data_ok (a_data a) -> all_entries (a_data a) = l1 ++ l2 -> (length l2 < n)%nat ->
  stands_behind l1 last -> exists itt, while_strings n type s last body g =
    match List.find stops (strings_upto (List.filter (entry_matches (Some (alias_walk type)) None) l2)) with
    | Some str => Done ((true, itt), finish str)
    | None => Done ((false, itt), g)
    end.
Proof.
  intros Ha Hok. revert l1 l2 last. induction n as [|n IH]; intros l1 l2 last E Hn Hl; [lia|].
  cbn [while_strings]. rewrite (mthen_run _ _ _ _ _ (get_service_run _ _ _ Ha)). unfold initng_data_get_next_string_var.
  rewrite (get_next_var_behind _ _ _ _ _ _ Hok E Hl). cbn [fmap option_fmap option_map].
  destruct (List.find _ l2) as [c|] eqn:Ef.
  2:{ apply find_filter_nil in Ef. rewrite Ef. by eexists. }
  destruct (find_split _ _ _ Ef) as (m1 & m2 & -> & Hm & Hc). rewrite filter_app_nil by done. cbn [List.filter]. rewrite Hc.
  cbn [strings_upto]. destruct (t_s (d_t c)) as [str|]; [|by eexists]. cbn [List.find].
  rewrite (mthen_run _ _ _ _ _ (body_runs str)). destruct (stops str); [by eexists|].
  apply (IH (l1 ++ m1 ++ [c])).
  - by rewrite E, <- !app_assoc.
  - rewrite length_app in Hn. cbn in Hn. lia.
  - exists (l1 ++ m1), c. by rewrite app_assoc.
Qed.

Lemma while_strings_run a n :
  g_heap g !! s = Some a -> data_ok (a_data a) -> (length (all_entries (a_data a)) < n)%nat ->
  exists itt, while_strings n type s None body g =
    match List.find stops (strings_of type (a_data a)) with
    | Some str => Done ((true, itt), finish str)
    | None => Done ((false, itt), g)
    end.
Proof. intros Ha Hok Hn. by apply (while_strings_from a [] (all_entries (a_data a))). Qed.

End loops.

(** ** conflict *)

(** The service of that name is up or on its way up. *)
Definition is_wanted (g : s_global) (name : string) : bool :=
  match initng_active_db_find_by_name name g ≫= fun x => g_heap g !! x with
  | Some b => match GET_STATE b with IS_UP | IS_STARTING => true | _ => false end
  | None => false
  end.

Lemma found_by_name name g x : initng_active_db_find_by_name name g = Some x -> is_Some (g_heap g !! x).
Proof.
  unfold initng_active_db_find_by_name. destruct (List.find _ _) as [[y b]|] eqn:E; [|done]. intros [= <-].
  apply List.find_some in E as [E _]. apply list_elem_of_In, active_services_elem in E as [_ E]. by exists b.
Qed.

Lemma conflict_body_run s a name g :
  g_heap g !! s = Some a ->
  conflict_body s name g = Done (is_wanted g name, if is_wanted g name then snd (mark_result s CONFLICTING a g) else g).
Proof.
  intros Ha. unfold conflict_body, is_wanted. rewrite then_asks. destruct (initng_active_db_find_by_name name g) as [x|] eqn:E; [|done].
  destruct (found_by_name _ _ _ E) as [b Hb]. rewrite (mthen_run _ _ _ _ _ (get_service_run _ _ _ Hb)). cbn [mbind option_bind]. rewrite Hb.
  destruct (GET_STATE b); try done;
    rewrite (mthen_run _ _ _ _ _ (eq_trans (mark_service_run _ _ _ _ Ha) (f_equal Done (surjective_pairing _)))); done.
Qed.

(** C33: conflicts are found.  When a service changes to a starting state and a
    service that it names in "conflict" is up or starting, it is marked as
    failed by the conflict; otherwise nothing changes.  The event goes on to the
    other hooks in either case. *)
Theorem conflicting_services_fail n e s a g :
  ev_data e = ED_service s -> g_heap g !! s = Some a -> data_ok (a_data a) -> (length (all_entries (a_data a)) < n)%nat ->
  check_conflict n e g = Done (e,
    if bool_decide (GET_STATE a = IS_STARTING) && List.existsb (is_wanted g) (strings_of CONFLICT (a_data a))
    then snd (mark_result s CONFLICTING a g) else g).
Proof.
  intros He Ha Hok Hn. unfold check_conflict, on_service. rewrite He, (mthen_run _ _ _ _ _ (get_service_run _ _ _ Ha)).
  case_bool_decide as Hs; [rewrite decide_True by done|by rewrite decide_False].
  destruct (while_strings_run CONFLICT s (conflict_body s) (is_wanted g) g (fun _ => snd (mark_result s CONFLICTING a g))
    (fun str => conflict_body_run s a str g Ha) a n Ha Hok Hn) as [itt E].
  cbn [andb]. rewrite existsb_find. by destruct (List.find _ _); rewrite then_then, (mthen_run _ _ _ _ _ E).
Qed.

(** ** synchron *)

(** Another service, with the same string, runs its start process. *)
Definition runs_with (g : s_global) (s : addr) (ssr : a_state_h) (str : string) (x : addr) : bool :=
  negb (Pos.eqb x s) &&
  match g_heap g !! x with
  | Some b => IS_MARK b ssr && bool_decide (svc_get_string SYNCRON b = Some str)
  | None => false
  end.

Lemma for_each_find {R} (l : list addr) (test : addr -> bool) (v : R) (body : addr -> G (option R)) g :
  (forall x, x ∈ l -> body x g = Done (if test x then Some v else None, g)) ->
  for_each l body g = Done (if List.existsb test l then Some v else None, g).
Proof.
  induction l as [|x l IH]; intros Hb; [done|]. cbn. rewrite (mthen_run _ _ _ _ _ (Hb x ltac:(by left))).
  destruct (test x); [done|]. cbn. apply IH. intros y Hy. apply Hb. by right.
Qed.

Lemma safe_walk_find {R} n (test : addr -> bool) (v : R) (body : addr -> G (option R)) g :
  (forall x g r g', body x g = Done (r, g') -> g' = g) ->
  (forall x, x ∈ g_active_db g -> body x g = Done (if test x then Some v else None, g)) ->
  NoDup (g_active_db g) -> (length (g_active_db g) <= n)%nat ->
  while_active_db_safe n (head (g_active_db g)) body g = Done (if List.existsb test (g_active_db g) then Some v else None, g).
Proof.
  intros Hs Hb Hnd Hn. rewrite (while_active_db_safe_for_each n [] (g_active_db g)); [by apply for_each_find|..]; try done.
  intros x _ g1 r g2 E. by rewrite (Hs _ _ _ _ E).
Qed.

Lemma syncron_body_looks s ssr str x g r g' : syncron_body s ssr str x g = Done (r, g') -> g' = g.
Proof.
  unfold syncron_body. destruct (Pos.eqb x s); [by intros [= <- <-]|]. unfold get_service, deref, mthen.
  destruct (g_heap g !! x); [|done]. by intros [= <- <-].
Qed.

Lemma syncron_body_run s ssr str x g :
  is_Some (g_heap g !! x) -> syncron_body s ssr str x g = Done (if runs_with g s ssr str x then Some tt else None, g).
Proof.
  intros [b Hb]. unfold syncron_body, runs_with. destruct (Pos.eqb x s); [done|].
  rewrite (mthen_run _ _ _ _ _ (get_service_run _ _ _ Hb)), Hb. done.
Qed.

(** C34: mutual exclusion by "syncron".  A service whose dependencies are met is
    held back exactly when another service that runs its start process has the
    same syncron string; the state does not change. *)
Theorem syncron_holds_back n e s a ssr g :
  wf g -> (length (g_active_db g) <= n)%nat -> ev_data e = ED_service s -> g_heap g !! s = Some a ->
  initng_active_state_find "SERVICE_START_RUN" g = Some ssr ->
  check_syncronicly_service n e g = Done (
    match svc_get_string SYNCRON a with
    | Some str => if List.existsb (runs_with g s ssr str) (g_active_db g) then e <| ev_status := FAILED |> else e
    | None => e
    end, g).
Proof.
  intros Hwf Hn He Ha Hs. unfold check_syncronicly_service, on_service, resolv_SSR, first_active.
  rewrite He, then_asks, Hs, (mthen_run _ _ _ _ _ (get_service_run _ _ _ Ha)).
  destruct (svc_get_string SYNCRON a) as [str|]; [|done].
  rewrite then_asks. erewrite mthen_run by (apply (safe_walk_find n (runs_with g s ssr str) tt);
    [apply syncron_body_looks|intros x Hx; by apply syncron_body_run, (wf_alloc g Hwf)|apply Hwf|done]).
  by destruct (List.existsb _ _).
Qed.

(** "synchronously" does nothing.  The hook that is to let only one service
    start at a time never holds back a service that is not running its start
    process itself, which no service is when its dependencies are met: it tests
    the service that asks, not the others. *)
Theorem synchronously_holds_nothing_back n e s a ssr g :
  wf g -> (length (g_active_db g) <= n)%nat -> ev_data e = ED_service s -> g_heap g !! s = Some a ->
  initng_active_state_find "SERVICE_START_RUN" g = Some ssr -> a_current_state a <> ssr ->
  check_syncronicly n e g = Done (e, g).
Proof.
  intros Hwf Hn He Ha Hs Hne. unfold check_syncronicly, on_service, resolv_SSR, first_active.
  rewrite He, then_asks, Hs, then_asks. erewrite mthen_run.
  2:{ apply (safe_walk_find n (fun _ => false) tt); [|intros x Hx|apply Hwf|done].
      - intros x g1 r g2. unfold synchronously_body. destruct (Pos.eqb x s); [by intros [= <- <-]|]. unfold get_service, deref, mthen.
        destruct (g_heap g1 !! s); [|done]. by intros [= <- <-].
      - unfold synchronously_body. destruct (Pos.eqb x s); [done|]. rewrite (mthen_run _ _ _ _ _ (get_service_run _ _ _ Ha)).
        unfold IS_MARK. by rewrite bool_decide_false. }
  assert (Hno : forall l : list addr, List.existsb (fun _ => false) l = false) by (intros l; by induction l). by rewrite Hno.
Qed.

(** ** limit *)

(** The product is an int; above, it wraps. *)
Lemma as_rlim_exact v times : 0 <= v * times < 2 ^ 31 -> as_rlim v times = v * times.
Proof.
  intros H. unfold as_rlim, to_int. change (2 ^ 31) with 2147483648 in *. change (2 ^ 32) with 4294967296.
  change (2 ^ 64) with 18446744073709551616. rewrite (Z.mod_small (v * times + _)) by lia. rewrite Z.mod_small; lia.
Qed.

Lemma as_rlim_wraps v times : 2 ^ 31 <= v * times < 2 ^ 32 -> as_rlim v times = v * times + 2 ^ 64 - 2 ^ 32.
Proof.
  intros H. unfold as_rlim, to_int. change (2 ^ 31) with 2147483648 in *. change (2 ^ 32) with 4294967296 in *.
  change (2 ^ 64) with 18446744073709551616.
  rewrite <- (Z.mod_unique_pos (v * times + _) _ 1 (v * times + 2147483648 - 4294967296)) by lia.
  symmetry. apply (Z.mod_unique_pos _ _ (-1)); lia.
Qed.

Lemma get_int_run type a v g : initng_data_get_int_var type None (a_data a) = Some v -> svc_get_int type a g = Done (v, g).
Proof. intros E. unfold svc_get_int, deref. by rewrite E. Qed.

(** Limits.  A soft limit that is set on a service reaches the kernel as the
    product of its value and the factor if that is below 2^31 (2 GiB), and the
    hard limit is raised to it where it is lower; a product from 2^31 to 2^32
    wraps around to almost 2^64, which is no limit at all. *)
Theorem soft_limit_is_set `{HS : HookSys} l s a v soft hard g :
  g_heap g !! s = Some a -> svc_is (soft_of l) a = true -> svc_is (hard_of l) a = false ->
  initng_data_get_int_var (soft_of l) None (a_data a) = Some v ->
  pr_limits (g_proc g) !! l_type l = Some (soft, hard) -> (forall t k lim, sys_setrlimit t k lim = true) ->
  exists new g', set_limit l s g = Done (0, g') /\
    pr_limits (g_proc g') = <[l_type l := (new, Z.max new hard)]> (pr_limits (g_proc g)) /\
    (0 <= v * l_times l < 2 ^ 31 -> new = v * l_times l) /\
    (2 ^ 31 <= v * l_times l < 2 ^ 32 -> 2 ^ 64 - 2 ^ 31 <= new < 2 ^ 64).
Proof.
  intros Ha Hs Hh Hv Hl Hok. exists (as_rlim v (l_times l)). eexists. split; [|split; [|split; [apply as_rlim_exact|]]].
  - unfold set_limit. rewrite (mthen_run _ _ _ _ _ (get_service_run _ _ _ Ha)), Hs, Hh. cbn [negb andb].
    rewrite then_asks, Hl, then_then, (mthen_run _ _ _ _ _ (get_int_run _ _ _ _ Hv)), !then_pure.
    unfold syscall. rewrite then_then, then_asks, then_then, then_modify, then_pure, Hok. unfold set_proc. by rewrite then_modify.
  - cbn. do 2 f_equal. destruct (Z.ltb_spec hard (as_rlim v (l_times l))); lia.
  - intros H. rewrite (as_rlim_wraps _ _ H). lia.
Qed.

(** ** suid *)

Lemma unchecked_run call f g :
  call (g_ticks g) = true ->
  unchecked call f g = Done (tt, g <| g_ticks := S (g_ticks g) |> <| g_proc := f (g_proc g) |>).
Proof. intros H. unfold unchecked. by rewrite (mthen_run _ _ _ _ _ (syscall_run _ _)), H. Qed.

Lemma adjust_env_proc s vn vv g :
  is_Some (g_heap g !! s) -> exists g', adjust_env s vn vv g = Done (tt, g') /\ g_proc g' = g_proc g /\ is_Some (g_heap g' !! s).
Proof.
  intros [a Ha]. unfold adjust_env. rewrite (mthen_run _ _ _ _ _ (get_service_run _ _ _ Ha)).
  destruct (initng_data_is_var _ _ _); [by eexists|]. unfold new_addr.
  rewrite (mthen_run _ _ g (g_fresh g) (g <| g_fresh := Pos.succ (g_fresh g) |>) eq_refl).
  eexists. split; [by apply (upd_service_run _ s a)|]. split; [done|]. eexists. apply put_service_lookup.
Qed.

Lemma adjust_envs_proc s user dir g :
  is_Some (g_heap g !! s) -> exists g',
    (adjust_env s "USER" user ;;; adjust_env s "HOME" dir ;;; adjust_env s "PATH" "/bin:/usr/bin") g = Done (tt, g') /\
    g_proc g' = g_proc g.
Proof.
  intros H. destruct (adjust_env_proc s "USER" user g H) as (g1 & E1 & P1 & H1). rewrite (mthen_run _ _ _ _ _ E1).
  destruct (adjust_env_proc s "HOME" dir g1 H1) as (g2 & E2 & P2 & H2). rewrite (mthen_run _ _ _ _ _ E2).
  destruct (adjust_env_proc s "PATH" "/bin:/usr/bin" g2 H2) as (g3 & E3 & P3 & _). exists g3. split; [done|congruence].
Qed.

(** The user a program runs as.  With a user that is known (and is not
    root), the forked child takes its uid, its gid and its groups.  With a user
    that is not known, the hook reports nothing to the caller and leaves the child
    as it is: the program then runs as root. *)
Theorem child_takes_the_user `{HS : HookSys} e s p a user pw g :
  ev_data e = ED_process s p -> g_heap g !! s = Some a -> svc_get_string SGID a = None -> svc_get_string SUID a = Some user ->
  (forall t, sys_getpwnam t user = pw) -> (forall uid gid dir, pw = Some (uid, gid, dir) -> uid <> 0 /\ gid <> 0) ->
  (forall t id, sys_setgid t id = true /\ sys_setuid t id = true) -> (forall t name, sys_initgroups t name = true) ->
  exists g', do_suid e g = Done (e, g') /\
    g_proc g' = match pw with
      | Some (uid, gid, _) => (g_proc g) <| pr_gid := gid |> <| pr_groups := Some user |> <| pr_uid := uid |>
      | None => g_proc g
      end.
Proof.
  intros He Ha Hg Hu Hpw Hnz Hids Hgr. unfold do_suid, on_fork. rewrite He, (mthen_run _ _ _ _ _ (get_service_run _ _ _ Ha)), Hg, then_pure, Hu.
  rewrite then_then, (mthen_run _ _ _ _ _ (syscall_run _ _)), Hpw, then_pure.
  destruct pw as [[[uid gid] dir]|]; cbn [fmap option_fmap option_map]; [|by eexists].
  destruct (Hnz uid gid dir eq_refl) as [Hu0 Hg0].
  assert (Hc : forall z, z <> 0 -> c_true z = true) by (intros z Hz; unfold c_true; lia).
  rewrite !Hc by done. rewrite (mthen_run _ _ _ _ _ (unchecked_run _ _ _ (proj1 (Hids _ gid)))).
  rewrite (mthen_run _ _ _ _ _ (unchecked_run _ _ _ (Hgr _ user))).
  rewrite then_then, (mthen_run _ _ _ _ _ (unchecked_run _ _ _ (proj2 (Hids _ uid)))).
  lazymatch goal with |- context [mthen _ _ ?G] => destruct (adjust_envs_proc s user dir G) as (g3 & E & P); [by exists a|] end.
  exists g3. by rewrite (mthen_run _ _ _ _ _ E), P.
Qed.
