(* ===== verification/LogMods.v ===== *)
(** * Modules that keep records: history, syslog, logfile and netdev

    src/modules/: history keeps the last changes of states and the output of
    services for the commands log and show_history; syslog sends them to the
    system log, and keeps them until it runs; logfile appends output to a file;
    netdev has a service for each network device. *)
From S2P Require Import Prelude Types Data CString Global ActiveDb Depend Io Interrupt Launch Modules ServiceMod DaemonMod Control HookMods.
From Stdlib Require Import String Ascii.
From stdpp Require Import prelude gmap strings pretty.
Local Open Scope Z_scope.

(** open(2) of a log file; the socket of netdev, and the names that SIOCGIFCONF
    gives; ctime(3). *)
Class LogSys := {
  sys_open_log : nat -> string -> Z;
  sys_netsock : nat -> bool;
  sys_ifconf : nat -> option (list string);
  ctime : Z -> string
}.

Definition set_statics (f : statics -> statics) : G unit := modify (fun g => g <| g_statics := f (g_statics g) |>).
Definition static {A} (f : statics -> A) : G A := asks (fun g => f (g_statics g)).

(** The text at buffer_pos in the buffer of a pipe. *)
Fixpoint until_nul (b : list Z) : option (list Z) :=
  match b with
  | [] => None
  | 0 :: _ => Some []
  | c :: b => cons c <$> until_nul b
  end.
Definition buffer_text (s p : addr) (k : nat) (pos : Z) : G chars :=
  let! pi := get_pipe s p k in
  deref (fun _ => b ← pi_buffer pi; if pos <? 0 then None else map char_of_byte <$> until_nul (drop (Z.to_nat pos) b)).

(** ** history *)

Definition HISTORY : Z := 800.

Definition add_hist (hist : history_h) : G Z :=
  set_statics (fun v => v <| history_db := hist :: history_db v |> <| history_records := history_records v + 1 |>) ;;;
  let! n := static history_records in
  (if HISTORY <? n then
     set_statics (fun v => v <| history_db := List.removelast (history_db v) |> <| history_records := history_records v - 1 |>)
   else mpure tt) ;;;
  mpure TRUE.

(** The loop ends at the first entry of the service. *)
Fixpoint clear_first (service : addr) (name : string) (db : list history_h) : list history_h :=
  match db with
  | [] => []
  | h :: db =>
    if bool_decide (h_service h = Some service) then h <| h_service := None |> <| h_name := Some name |> :: db
    else h :: clear_first service name db
  end.

Definition history_db_clear_service (service : addr) : G unit :=
  let! a := get_service service in
  set_statics (fun v => v <| history_db := clear_first service (a_name a) (history_db v) |>).

Definition history_free_all : G unit := set_statics (fun v => v <| history_db := [] |>).

Definition history_db_compensate_time (event : s_event) : G s_event :=
  match ev_data event with
  | ED_time skew =>
    set_statics (fun v => v <| history_db := map (fun h => h <| h_time := Timeval (tv_sec (h_time h) + skew) (tv_usec (h_time h)) |>)
      (history_db v) |>) ;;;
    mpure event
  | _ => fault
  end.

Definition history_add_values (event : s_event) : G s_event :=
  on_service event (fun service =>
    let! a := get_service service in
    let duration :=
      if bool_decide (is_Some (a_last_state a)) && (1 <? tv_sec (a_time_last_state a))
      then tv_sec (a_time_current_state a) - tv_sec (a_time_last_state a) else 0 in
    add_hist (Hist (Some service) None duration (a_time_current_state a) None (Some (a_current_state a))) ;;;
    (if IS_MARK a FREEING then history_db_clear_service service else mpure tt) ;;;
    mpure event).

Definition fetch_output (event : s_event) : G s_event :=
  match ev_data event with
  | ED_buffer service p k pos =>
    let! text := buffer_text service p k pos in
    let! now := asks g_clock in
    add_hist (Hist (Some service) None 0 now (Some (to_string text)) None) ;;;
    mpure event
  | _ => fault
  end.

(** current->service && current->service->name: a service that was freed is read. *)
Definition service_name (current : history_h) : G (option string) :=
  match h_service current with
  | None => mpure None
  | Some s => let! a := get_service s in mpure (Some (a_name a))
  end.

Definition names (arg : string) (current : history_h) : G bool :=
  if bool_decide (h_name current = Some arg) then mpure true
  else let! name := service_name current in mpure (bool_decide (name = Some arg)).

Definition entry_name (current : history_h) : G (option string) :=
  match h_name current with Some name => mpure (Some name) | None => service_name current end.

(** *** The command log *)

Definition LOG_ROW_LEN : nat := 70.
Definition LOG_ROW_LEN_BREAK_ON_SPACE : nat := 60.

Definition is_blank (c : ascii) : bool := Ascii.eqb c c_space || Ascii.eqb c c_tab.

Fixpoint skip_indent (tmp : chars) : chars :=
  match tmp with
  | c :: r => if is_blank c || Ascii.eqb c c_nl then skip_indent r else tmp
  | [] => []
  end.

(** The chars up to the newline, [i] of them counted. *)
Fixpoint row_len (tmp : chars) (i : nat) : nat :=
  match tmp with
  | [] => i
  | c :: r =>
    if Ascii.eqb c c_nl || negb (Nat.ltb i LOG_ROW_LEN) then i
    else if Nat.ltb LOG_ROW_LEN_BREAK_ON_SPACE i && is_blank c then i
    else row_len r (S i)
  end.

Fixpoint log_rows (n : nat) (tmp : chars) : outcome (list chars) :=
  match n with
  | O => NoFuel
  | S n =>
    match skip_indent tmp with
    | [] => Done []
    | tmp =>
      let i := row_len tmp 0 in
      if Nat.ltb LOG_ROW_LEN i then Fault
      else match log_rows n (drop i tmp) with
        | Done rows => Done (take i tmp :: rows)
        | Fault => Fault
        | NoFuel => NoFuel
        end
    end
  end.

(** %20s *)
Definition spacer (s : option string) : string :=
  let s := default "(null)"%string s in to_string (replicate (20 - String.length s) c_space) +:+ s.

Definition nl : string := to_string [c_nl].
Definition dashes : string := " ------------------------------------------------------" +:+ nl.

Definition state_line (name : option string) (current : history_h) (action : a_state_h) : string :=
  match st_is action with
  | IS_UP | IS_DOWN | IS_FAILED =>
    if 0 <? h_duration current
    then " " +:+ spacer name +:+ " | " +:+ st_name action +:+ " (after " +:+ pretty (h_duration current) +:+ " seconds)" +:+ nl
    else " " +:+ spacer name +:+ " | " +:+ st_name action +:+ nl
  | _ => ""
  end.

Section commands.
Context `{!LogSys}.

(** [st] is the string so far and [last]. *)
Definition log_entry (arg : option string) (only_output : bool) (st : string * Z) (current : history_h) : G (string * Z) :=
  if only_output && negb (bool_decide (is_Some (h_data current))) then mpure st
  else
    let! wanted := match arg with Some arg => names arg current | None => mpure true end in
    if negb wanted then mpure st
    else
      let! name := entry_name current in
      let head := if snd st =? tv_sec (h_time current) then ""%string
                  else nl +:+ " " +:+ ctime (tv_sec (h_time current)) +:+ dashes in
      let! lines := match h_data current with
        | Some data =>
          let! rows := lift (log_rows (S (String.length data)) (chars_of data)) in
          mpure (String.concat "" (map (fun buf => " " +:+ spacer name +:+ " : " +:+ to_string buf +:+ nl) rows))
        | None => let! action := deref (fun _ => h_action current) in mpure (state_line name current action)
        end in
      mpure (fst st +:+ head +:+ lines, tv_sec (h_time current)).

Fixpoint log_loop (arg : option string) (only_output : bool) (st : string * Z) (db : list history_h) : G (string * Z) :=
  match db with
  | [] => mpure st
  | current :: db => let! st := log_entry arg only_output st current in log_loop arg only_output st db
  end.

(** The argument "output" is an argument all the same. *)
Definition cmd_log (arg : option string) : G string :=
  let arg := match arg with Some ""%string => None | _ => arg end in
  let only_output := bool_decide (arg = Some "output"%string) in
  let! db := static history_db in
  let! st := log_loop arg only_output (" " +:+ spacer (Some "SERVICE"%string) +:+ " : STATUS" +:+ nl +:+ dashes, 0) (rev db) in
  mpure (fst st).

End commands.

(** *** The command show_history *)

(** modules/ngc4/initng_ngc4.h, without dt *)
Record active_row := Row { row_state : string; row_name : string; row_time_set : timeval; row_is : e_is; row_type : string }.

(** The block has HISTORY + 1 rows. *)
Fixpoint history_loop (arg : option string) (db : list history_h) (rows : list active_row) : G (list active_row) :=
  match db with
  | [] => mpure rows
  | current :: db =>
    if HISTORY <? Z.of_nat (length rows) then fault
    else match h_action current with
    | None => history_loop arg db rows
    | Some action =>
      let! wanted := match arg with
        | Some arg => if (1 <? String.length arg)%nat then names arg current else mpure true
        | None => mpure true
        end in
      if negb wanted then history_loop arg db rows
      else
        let! type := match h_service current with
          | Some s => let! a := get_service s in mpure (default ""%string (sty_name <$> a_type a))
          | None => mpure ""%string
          end in
        let! name := entry_name current in
        history_loop arg db (rows ++ [Row (String.substring 0 100 (st_name action)) (String.substring 0 100 (default ""%string name))
          (h_time current) (st_is action) (String.substring 0 100 type)])
    end
  end.

Definition cmd_history (arg : option string) : G (list active_row) :=
  let! db := static history_db in history_loop arg (rev db) [].

Definition history_add_values_ptr : fptr := 142.
Definition history_db_compensate_time_ptr : fptr := 143.
Definition fetch_output_ptr : fptr := 144.
Definition cmd_history_ptr : fptr := 145.
Definition cmd_log_ptr : fptr := 146.
Definition HISTORYS :=
  Command 620 (chr "L") (Some "show_history"%string) PAYLOAD_COMMAND STANDARD_COMMAND USES_OPT (Some cmd_history_ptr)
  (Some "Print out history_db."%string).
Definition LOG := Command 621 (chr "l") (Some "log"%string) STRING_COMMAND STANDARD_COMMAND USES_OPT (Some cmd_log_ptr)
  (Some "Print out log."%string).

Definition history_module_init : G Z :=
  history_free_all ;;;
  initng_command_register HISTORYS ;;; initng_command_register LOG ;;;
  hook_register "initng_history.c" EVENT_STATE_CHANGE history_add_values_ptr ;;;
  hook_register "initng_history.c" EVENT_COMPENSATE_TIME history_db_compensate_time_ptr ;;;
  hook_register "initng_history.c" EVENT_BUFFER_WATCHER fetch_output_ptr ;;; mpure TRUE.
Definition history_module_unload : G unit :=
  initng_command_unregister HISTORYS ;;; initng_command_unregister LOG ;;;
  history_free_all ;;;
  initng_event_hook_unregister_real EVENT_STATE_CHANGE history_add_values_ptr ;;;
  initng_event_hook_unregister_real EVENT_COMPENSATE_TIME history_db_compensate_time_ptr ;;;
  initng_event_hook_unregister_real EVENT_BUFFER_WATCHER fetch_output_ptr.

(** ** syslog *)

Definition LOG_NOTICE : Z := 5.

(** [log_list] has the newest message first. *)
Definition initng_log (prio : Z) (owner : option string) (text : string) : G unit :=
  let! running := static syslog_running in
  if running =? 1 then
    set_statics (fun v => v <| syslog_sent := syslog_sent v ++ [(prio, default "InitNG"%string owner, text)] |>)
  else
    set_statics (fun v => v <| log_list := LogEnt prio owner (String.substring 0 199 text) :: log_list v |>).

Definition is_sock (mode : Z) : bool := Z.land mode 61440 =? 49152.

Section syslog.
Context `{!ForkSys}.

Definition check_syslog : G unit :=
  let! st := syscall (fun t => sys_stat t "/dev/log") in
  if match st with Some mode => is_sock mode | None => false end then
    set_statics (fun v => v <| syslog_running := 1 |>) ;;;
    let! l := static log_list in
    for_each (R := unit) (rev l) (fun e => initng_log (le_prio e) (le_owner e) (le_buffert e) ;;; mpure None) ;;;
    set_statics (fun v => v <| log_list := [] |>)
  else set_statics (fun v => v <| syslog_running := 0 |>).

Definition free_buffert : G unit :=
  check_syslog ;;;
  set_statics (fun v => v <| log_list := [] |> <| syslog_running := 1 |>).

Definition syslog_print_status_change (event : s_event) : G s_event :=
  on_service event (fun service =>
    let! a := get_service service in
    let log text := initng_log LOG_NOTICE None ("Service " +:+ a_name a +:+ text +:+ nl) in
    (match GET_STATE a with
     | IS_UP => check_syslog ;;; log " is up."%string
     | IS_DOWN => log " has been stopped."%string
     | IS_FAILED => log " FAILED."%string
     | IS_STOPPING => log " is stopping."%string
     | IS_STARTING => log " is starting."%string
     | _ => mpure tt
     end) ;;;
    mpure event).

Definition syslog_print_system_state (event : s_event) : G s_event :=
  match ev_data event with
  | ED_sys_state state =>
    let log text := initng_log LOG_NOTICE None (text +:+ nl) in
    (match state with
     | STATE_UP => log "System is up and running!"%string ;;; free_buffert
     | STATE_STARTING => log "System is starting up."%string
     | STATE_STOPPING => log "System is going down."%string
     | STATE_ASE => log "Last service exited."%string
     | STATE_EXIT => log "Initng is exiting."%string
     | STATE_RESTART => log "Initng is restarting."%string
     | STATE_HALT => log "System is halting."%string
     | STATE_POWEROFF => log "System is power-off."%string
     | STATE_REBOOT => log "System is rebooting."%string
     | _ => mpure tt
     end) ;;;
    mpure event
  | _ => fault
  end.

(** The chars before the newline, at most 200. *)
Fixpoint line_len (buf : chars) (i : nat) : nat :=
  match buf with
  | [] => i
  | c :: r => if Ascii.eqb c c_nl || negb (Nat.ltb i 200) then i else line_len r (S i)
  end.

(** What follows the line is skipped, a newline or not. *)
Fixpoint fetch_loop (n : nat) (owner : string) (buf : chars) : G unit :=
  match n with
  | O => nofuel
  | S n =>
    match buf with
    | [] => mpure tt
    | _ =>
      let i := line_len buf 0 in
      initng_log LOG_NOTICE (Some owner) (to_string (take i buf)) ;;;
      fetch_loop n owner (List.tl (drop i buf))
    end
  end.

Definition syslog_fetch_output (event : s_event) : G s_event :=
  match ev_data event with
  | ED_buffer service p k pos =>
    let! a := get_service service in
    let! text := buffer_text service p k pos in
    fetch_loop (S (length text)) (a_name a) text ;;;
    mpure event
  | _ => fault
  end.

Definition syslog_print_status_change_ptr : fptr := 147.
Definition syslog_print_system_state_ptr : fptr := 148.
Definition syslog_fetch_output_ptr : fptr := 149.
Definition syslog_print_error_ptr : fptr := 150.

Definition syslog_module_init : G Z :=
  set_statics (fun v => v <| log_list := [] |>) ;;;
  check_syslog ;;;
  hook_register "initng_syslog.c" EVENT_IS_CHANGE syslog_print_status_change_ptr ;;;
  hook_register "initng_syslog.c" EVENT_SYSTEM_CHANGE syslog_print_system_state_ptr ;;;
  hook_register "initng_syslog.c" EVENT_BUFFER_WATCHER syslog_fetch_output_ptr ;;;
  hook_register "initng_syslog.c" EVENT_ERROR_MESSAGE syslog_print_error_ptr ;;; mpure TRUE.
Definition syslog_module_unload : G unit :=
  initng_event_hook_unregister_real EVENT_IS_CHANGE syslog_print_status_change_ptr ;;;
  initng_event_hook_unregister_real EVENT_SYSTEM_CHANGE syslog_print_system_state_ptr ;;;
  initng_event_hook_unregister_real EVENT_BUFFER_WATCHER syslog_fetch_output_ptr ;;;
  initng_event_hook_unregister_real EVENT_ERROR_MESSAGE syslog_print_error_ptr ;;;
  free_buffert.

End syslog.

(** ** logfile *)

Definition LOGFILE := SEntry 199 (Some "logfile"%string) STRING None None
  (Some "An extra output of service output."%string).
Definition program_output_ptr : fptr := 151.

Section logfile.
Context `{!LogSys}.

Definition program_output (event : s_event) : G s_event :=
  match ev_data event with
  | ED_buffer service p k pos =>
    let! a := get_service service in
    match svc_get_string LOGFILE a with
    | None => mpure event
    | Some filename =>
      let! fd := syscall (fun t => sys_open_log t filename) in
      if fd <? 1 then mpure event
      else
        let! text := buffer_text service p k pos in
        set_statics (fun v => v <| appended := appended v ++ [(filename, to_string text)] |>) ;;;
        mpure event
    end
  | _ => fault
  end.

End logfile.

Definition logfile_module_init : G Z :=
  entries_register [LOGFILE] ;;; hook_register "initng_logfile.c" EVENT_BUFFER_WATCHER program_output_ptr ;;; mpure TRUE.
Definition logfile_module_unload : G unit :=
  entries_unregister [LOGFILE] ;;; initng_event_hook_unregister_real EVENT_BUFFER_WATCHER program_output_ptr.

(** ** netdev *)

Definition NETDEV := SType 175 "netdev" true None None None.
Definition NIC_STARTING := AState 608 "NIC_STARTING" IS_STARTING None None None
  (Some "This interface is found, but dont have an ip adress."%string).
Definition NIC_UP := AState 609 "NIC_UP" IS_UP None None None
  (Some "This nic is up."%string).
Definition NIC_DOWN := AState 610 "NIC_DOWN" IS_DOWN None None None
  (Some "This nic is down."%string).

Definition devs_reset (l : list s_netdev) : list s_netdev := map (fun d => Netdev 0 (nd_dev d)) l.

(** The first loop: the device is in the table. *)
Fixpoint mark_found (name : string) (l : list s_netdev) : option (list s_netdev) :=
  match l with
  | [] => None
  | d :: l => if bool_decide (nd_dev d = Some name) then Some (Netdev 1 (nd_dev d) :: l) else cons d <$> mark_found name l
  end.
(** The second: the first free place is taken, if there is one. *)
Fixpoint add_found (name : string) (l : list s_netdev) : list s_netdev :=
  match l with
  | [] => []
  | d :: l => if bool_decide (nd_dev d = None) then Netdev 1 (Some name) :: l else d :: add_found name l
  end.
Definition set_found (l : list s_netdev) (name : string) : list s_netdev :=
  match mark_found name l with Some l => l | None => add_found name l end.

(** strncat(new_name, name, 10) *)
Definition device_name (name : string) : string := "device/" +:+ String.substring 0 10 name.

Definition net_create (name : string) : G (option addr) :=
  let! netdev := initng_active_db_new name in
  upd_service netdev (fun a => a <| a_type := Some NETDEV |>) ;;;
  let! r := initng_active_db_register netdev in
  if negb (c_true r) then initng_active_db_free netdev ;;; mpure None
  else mpure (Some netdev).

Definition find_or_create (name : string) : G (option addr) :=
  let! netdev := asks (initng_active_db_find_by_name name) in
  match netdev with
  | Some netdev =>
    let! a := get_service netdev in
    mpure (if bool_decide (a_type a = Some NETDEV) then Some netdev else None)
  | None => net_create name
  end.

Definition net_set_up (name : string) : G Z :=
  let! netdev := find_or_create (device_name name) in
  match netdev with
  | None => mpure FALSE
  | Some netdev => mark netdev NIC_UP ;;; mpure TRUE
  end.

Definition net_remove (name : string) : G unit :=
  let! netdev := asks (initng_active_db_find_by_name (device_name name)) in
  match netdev with
  | None => mpure tt
  | Some netdev =>
    let! a := get_service netdev in
    if negb (bool_decide (a_type a = Some NETDEV)) then mpure tt else mark netdev NIC_DOWN
  end.

(** The table after a device was handled. *)
Definition handle_dev (d : s_netdev) : G s_netdev :=
  match nd_dev d with
  | None => mpure d
  | Some name =>
    if nd_status d =? 1 then net_set_up name ;;; mpure d
    else net_remove name ;;; mpure (Netdev (nd_status d) None)
  end.
Fixpoint handle_devs (l : list s_netdev) : G (list s_netdev) :=
  match l with
  | [] => mpure []
  | d :: l => let! d := handle_dev d in let! l := handle_devs l in mpure (d :: l)
  end.

Definition set_devs (l : list s_netdev) : G unit := set_statics (fun v => v <| devs := l |>).

Section netdev.
Context `{!LogSys} (fuel : nat).

Definition probe_network_devices (event : s_event) : G s_event :=
  let! sys := asks g_sys_state in
  if decide (sys = STATE_STOPPING) then mpure event
  else
    let! l := static devs in
    set_devs (devs_reset l) ;;;
    let! sock := syscall sys_netsock in
    if negb sock then mpure event
    else
      let! ifc := syscall sys_ifconf in
      match ifc with
      | None => mpure event
      | Some found =>
        let! l := static devs in
        let! l := handle_devs (foldl set_found l found) in
        set_devs l ;;;
        initng_global_set_sleep 120 ;;;
        mpure event
      end.

Definition system_stopping (event : s_event) : G s_event :=
  match ev_data event with
  | ED_sys_state state =>
    if negb (bool_decide (state = STATE_STOPPING)) then mpure event
    else
      let! first := first_active in
      while_active_db (R := unit) fuel first (fun current =>
        let! a := get_service current in
        (if bool_decide (a_type a = Some NETDEV) then mark current NIC_DOWN else mpure tt) ;;;
        mpure None) ;;;
      mpure event
  | _ => fault
  end.

End netdev.

Definition probe_network_devices_ptr : fptr := 152.
Definition system_stopping_ptr : fptr := 153.
Definition nic_states : list a_state_h := [NIC_STARTING; NIC_UP; NIC_DOWN].

Definition netdev_module_init : G Z :=
  set_devs (replicate 20 (Netdev 0 None)) ;;;
  states_register nic_states ;;; service_type_register NETDEV ;;;
  hook_register "initng_netdev.c" EVENT_MAIN probe_network_devices_ptr ;;;
  hook_register "initng_netdev.c" EVENT_SYSTEM_CHANGE system_stopping_ptr ;;; mpure TRUE.
Definition netdev_module_unload : G unit :=
  states_unregister nic_states ;;;
  initng_event_hook_unregister_real EVENT_MAIN probe_network_devices_ptr ;;;
  initng_event_hook_unregister_real EVENT_SYSTEM_CHANGE system_stopping_ptr ;;;
  service_type_unregister NETDEV.

(** ** The hooks, by their addresses *)

Definition record_hooks `{!ForkSys, !LogSys} (fuel : nat) : list (fptr * (s_event -> G s_event)) := [
  (history_add_values_ptr, history_add_values);
  (history_db_compensate_time_ptr, history_db_compensate_time);
  (fetch_output_ptr, fetch_output);
  (syslog_print_status_change_ptr, syslog_print_status_change);
  (syslog_print_system_state_ptr, syslog_print_system_state);
  (syslog_fetch_output_ptr, syslog_fetch_output);
  (program_output_ptr, program_output);
  (probe_network_devices_ptr, probe_network_devices);
  (system_stopping_ptr, system_stopping fuel) ].

Definition record_hook `{!ForkSys, !LogSys} (fuel : nat) (other : fptr -> s_event -> G s_event) (f : fptr) (e : s_event) : G s_event :=
  match List.find (fun h => Pos.eqb (fst h) f) (record_hooks fuel) with
  | Some h => snd h e
  | None => other f e
  end.

Definition all_hook_states : list a_state_h := hook_states ++ nic_states.
