(* ===== verification/LogProps.v ===== *)
(** * Modules that keep records: theorems *)
From S2P Require Import Prelude Types Data CString Global ActiveDb Depend Io Interrupt Launch Modules ServiceMod DaemonMod Control HookMods LogMods.
From Stdlib Require Import String Ascii.
From stdpp Require Import prelude gmap strings pretty.
Local Open Scope Z_scope.

(** ** history *)

Definition hist_room : nat := Z.to_nat HISTORY.

(** The count is right, and there are no more entries than fit. *)
Definition history_ok (v : statics) : Prop :=
  history_records v = Z.of_nat (length (history_db v)) /\ (length (history_db v) <= hist_room)%nat.

Lemma removelast_take {A} (x : A) l n : length l = n -> List.removelast (x :: l) = take n (x :: l).
Proof.
  revert x n. induction l as [|y l IH]; intros x n Hn; [by subst n|]. destruct n as [|n]; [done|]. injection Hn as Hn.
  change (x :: List.removelast (y :: l) = x :: take n (y :: l)). by rewrite (IH y n Hn).
Qed.

Lemma add_hist_run h g :
  history_ok (g_statics g) -> exists g', add_hist h g = Done (TRUE, g') /\ history_ok (g_statics g') /\
    history_db (g_statics g') = take hist_room (h :: history_db (g_statics g)).
Proof.
  intros [Hn Hr]. unfold add_hist, set_statics, static. rewrite then_modify, then_asks.
  change (history_records (g_statics (g <| g_statics := _ |>))) with (history_records (g_statics g) + 1).
  assert (Hroom : HISTORY = Z.of_nat hist_room) by done. destruct (Z.ltb_spec HISTORY (history_records (g_statics g) + 1)).
  - rewrite then_modify. eexists. split; [done|]. unfold history_ok.
    set (g' := _ : s_global).
    assert (E1 : history_db (g_statics g') = List.removelast (h :: history_db (g_statics g))) by done.
    assert (E2 : history_records (g_statics g') = history_records (g_statics g) + 1 - 1) by done. rewrite E1, E2.
    assert (Hl : length (history_db (g_statics g)) = hist_room) by lia. rewrite (removelast_take h _ _ Hl).
    rewrite length_take. cbn [length]. split; [|done]. split; lia.
  - eexists. split; [done|]. unfold history_ok.
    set (g' := _ : s_global). assert (E1 : history_db (g_statics g') = h :: history_db (g_statics g)) by done.
    assert (E2 : history_records (g_statics g') = history_records (g_statics g) + 1) by done. rewrite E1, E2. cbn [length]. split; [split; lia|].
    symmetry. apply take_ge. cbn [length]. lia.
Qed.

(** The history is bounded.  However many changes and outputs are recorded,
    the history holds the newest 800 of them, newest first, and its count is
    right. *)
Theorem history_keeps_the_newest l g :
  history_ok (g_statics g) ->
  exists g', for_each (R := unit) l (fun h => add_hist h ;;; mpure None) g = Done (None, g') /\ history_ok (g_statics g') /\
    history_db (g_statics g') = take hist_room (rev l ++ history_db (g_statics g)).
Proof.
  revert g. induction l as [|h l IH]; intros g Hok.
  - exists g. split; [done|]. split; [done|]. symmetry. apply take_ge, Hok.
  - destruct (add_hist_run h g Hok) as (g1 & E1 & H1 & D1). destruct (IH g1 H1) as (g2 & E2 & H2 & D2).
    exists g2. cbn [for_each]. rewrite then_then, (mthen_run _ _ _ _ _ E1), then_pure. split; [exact E2|]. split; [done|].
    rewrite D2, D1. cbn [rev]. rewrite <- app_assoc. cbn [app].
    generalize (rev l) as r, (h :: history_db (g_statics g)) as d. intros r d.
    rewrite !take_app. f_equal. rewrite take_take. f_equal. lia.
Qed.

(** *** The rows of the log *)

Definition solid (c : ascii) : bool := negb (is_blank c || Ascii.eqb c c_nl).

Lemma skip_indent_spec tmp :
  List.filter solid (skip_indent tmp) = List.filter solid tmp /\ (length (skip_indent tmp) <= length tmp)%nat /\
  match skip_indent tmp with c :: _ => solid c = true | [] => True end.
Proof.
  induction tmp as [|c r (H1 & H2 & H3)]; [done|]. assert (Es : solid c = negb (is_blank c || Ascii.eqb c c_nl)) by done.
  cbn [skip_indent length]. destruct (is_blank c || Ascii.eqb c c_nl); cbn [negb] in Es.
  - cbn [List.filter]. rewrite Es. split; [done|]. split; [lia|done].
  - split; [done|]. split; [cbn [length]; lia|done].
Qed.

Lemma row_len_spec tmp i :
  (i <= LOG_ROW_LEN)%nat -> (i <= row_len tmp i <= LOG_ROW_LEN)%nat /\ (row_len tmp i - i <= length tmp)%nat /\
  c_nl ∉ take (row_len tmp i - i) tmp.
Proof.
  revert i. induction tmp as [|c r IH]; intros i Hi; cbn [row_len length].
  { rewrite Nat.sub_diag. cbn. split; [lia|]. split; [lia|]. apply not_elem_of_nil. }
  assert (Hstop : (i <= i <= LOG_ROW_LEN)%nat /\ (i - i <= S (length r))%nat /\ c_nl ∉ take (i - i) (c :: r)).
  { rewrite Nat.sub_diag. split; [lia|]. split; [lia|]. apply not_elem_of_nil. }
  destruct (Ascii.eqb_spec c c_nl) as [|Hne]; cbn [orb]; [done|].
  destruct (Nat.ltb_spec i LOG_ROW_LEN); cbn [negb]; [|done]. destruct (Nat.ltb _ i && is_blank c); [done|].
  destruct (IH (S i) ltac:(lia)) as (H1 & H2 & H3). split; [lia|]. split; [lia|].
  replace (row_len r (S i) - i)%nat with (S (row_len r (S i) - S i)) by lia. cbn [take]. by apply not_elem_of_cons.
Qed.

Lemma row_len_pos c r : solid c = true -> (0 < row_len (c :: r) 0)%nat.
Proof.
  unfold solid. intros H. cbn [row_len]. destruct (Ascii.eqb c c_nl); [by rewrite orb_true_r in H|]. cbn.
  destruct (row_len_spec r 1 ltac:(unfold LOG_ROW_LEN; lia)). lia.
Qed.

(** A row fits the buffer and is not empty. *)
Definition row_ok (row : chars) : Prop := (0 < length row <= LOG_ROW_LEN)%nat /\ c_nl ∉ row.

Lemma log_rows_spec n tmp :
  (length tmp < n)%nat -> exists rows, log_rows n tmp = Done rows /\ Forall row_ok rows /\
    List.filter solid (List.concat rows) = List.filter solid tmp.
Proof.
  revert tmp. induction n as [|n IH]; intros tmp Hn; [lia|]. cbn [log_rows].
  destruct (skip_indent_spec tmp) as (H1 & H2 & H3). rewrite <- H1. destruct (skip_indent tmp) as [|c r] eqn:Es.
  { exists []. split; [done|]. split; [constructor|done]. }
  destruct (row_len_spec (c :: r) 0 ltac:(lia)) as (L1 & L2 & L3). pose proof (row_len_pos c r H3) as L0.
  rewrite Nat.sub_0_r in L2, L3. set (i := row_len (c :: r) 0) in *. rewrite (proj2 (Nat.ltb_ge _ _)) by lia.
  destruct (IH (drop i (c :: r))) as (rows & -> & Hf & Hs); [rewrite length_drop; lia|].
  eexists. split; [done|]. split.
  - constructor; [|done]. split; [rewrite length_take; lia|done].
  - cbn [List.concat]. rewrite List.filter_app, Hs, <- List.filter_app. by rewrite take_drop.
Qed.

(** The rows of the log.  The output of a service is broken into rows that
    are not empty, fit the buffer of 70 chars and hold no newline; the loop ends,
    and apart from blanks and newlines between them the rows are the output, in
    its order. *)
Theorem log_rows_keep_the_output data :
  exists rows, log_rows (S (length data)) data = Done rows /\ Forall row_ok rows /\
    List.filter solid (List.concat rows) = List.filter solid data.
Proof. apply log_rows_spec. lia. Qed.

(** *** Services that were freed *)

Section freed.
Context `{LS : LogSys}.

(** An entry is read without a change, or it faults. *)
Lemma log_entry_reads st h g :
  (exists st', log_entry None false st h g = Done (st', g)) \/ log_entry None false st h g = Fault.
Proof.
  unfold log_entry. cbn [andb]. rewrite then_pure. cbn [negb].
  assert (Hn : (exists name, entry_name h g = Done (name, g)) \/ entry_name h g = Fault).
  { unfold entry_name, service_name. destruct (h_name h); [by left; eexists|]. destruct (h_service h) as [s|]; [|by left; eexists].
    destruct (g_heap g !! s) as [a|] eqn:Ha.
    - left. eexists. by rewrite (mthen_run _ _ _ _ _ (get_service_run _ _ _ Ha)).
    - right. unfold get_service, deref, mthen. by rewrite Ha. }
  destruct Hn as [[name E]|E]; [|right; unfold mthen; by rewrite E]. rewrite (mthen_run _ _ _ _ _ E).
  destruct (h_data h) as [data|].
  - destruct (log_rows_spec (S (String.length data)) (chars_of data)) as (rows & Er & _); [rewrite length_chars_of; lia|].
    left. eexists. unfold lift. rewrite Er. done.
  - destruct (h_action h) as [action|]; [left; by eexists|by right].
Qed.

Lemma dangling_entry st h s g :
  h_service h = Some s -> h_name h = None -> g_heap g !! s = None -> log_entry None false st h g = Fault.
Proof.
  intros Hs Hn Hg. unfold log_entry. cbn [andb]. rewrite then_pure. cbn [negb]. unfold entry_name, service_name. rewrite Hn, Hs.
  unfold get_service, deref, mthen. by rewrite Hg.
Qed.

Lemma log_loop_faults l h s g :
  h ∈ l -> h_service h = Some s -> h_name h = None -> g_heap g !! s = None -> forall st, log_loop None false st l g = Fault.
Proof.
  intros Hin Hs Hn Hg. induction l as [|x l IH]; intros st; [by apply elem_of_nil in Hin|]. cbn [log_loop].
  apply elem_of_cons in Hin as [->|Hin].
  - unfold mthen. by rewrite (dangling_entry st _ s g).
  - destruct (log_entry_reads st x g) as [[st' E]|E]; unfold mthen; rewrite E; [by apply IH|done].
Qed.

(** C26: the log reads services that were freed.  As soon as a service of which
    the history has an entry is freed, the command log reads freed memory:
    freeing marks the service as FREEING and takes it off the queue of
    interrupts, so that no change of state is announced and the history keeps
    its pointer. *)
Theorem log_reads_freed_services h s a g :
  h ∈ history_db (g_statics g) -> h_service h = Some s -> h_name h = None -> g_heap g !! s = Some a ->
  (initng_active_db_free s ;;; cmd_log None) g = Fault.
Proof.
  intros Hin Hs Hn Ha. rewrite (mthen_run _ _ _ _ _ (active_db_free_run g s a Ha)). unfold cmd_log, static. rewrite then_asks.
  unfold mthen. rewrite (log_loop_faults _ h s); [done| |done|done|].
  - apply list_elem_of_In. rewrite <- List.in_rev. by apply list_elem_of_In.
  - apply lookup_delete_eq.
Qed.

End freed.

(** ** syslog *)

(** The lines of a text; a newline at its end begins no further line. *)
Fixpoint lines_from (line : chars) (text : chars) : list chars :=
  match text with
  | [] => match line with [] => [] | _ => [line] end
  | c :: r => if Ascii.eqb c c_nl then line :: lines_from [] r else lines_from (line ++ [c]) r
  end.
Definition lines : chars -> list chars := lines_from [].

(** The first line, and the text behind it and its newline. *)
Lemma line_split line rest i :
  c_nl ∉ line -> (i + length line <= 200)%nat -> match rest with c :: _ => c = c_nl | [] => True end ->
  line_len (line ++ rest) i = (i + length line)%nat.
Proof.
  revert i. induction line as [|c line IH]; intros i Hn Hi Hr; cbn [app length].
  - rewrite Nat.add_0_r. destruct rest as [|c r]; [done|]. cbn [line_len]. by rewrite Hr.
  - apply not_elem_of_cons in Hn as [Hc Hn]. cbn [length] in Hi. cbn [line_len]. destruct (Ascii.eqb_spec c c_nl) as [->|_]; [done|].
    rewrite (proj2 (Nat.ltb_lt i 200)) by lia. cbn [orb negb]. rewrite IH; [lia|done|lia|done].
Qed.

Lemma lines_from_app acc line r :
  c_nl ∉ line -> lines_from acc (line ++ c_nl :: r) = (acc ++ line) :: lines r.
Proof.
  revert acc. induction line as [|c line IH]; intros acc Hn; cbn [app lines_from].
  - by rewrite app_nil_r.
  - apply not_elem_of_cons in Hn as [Hc Hn]. destruct (Ascii.eqb_spec c c_nl) as [->|_]; [done|].
    rewrite (IH _ Hn), <- app_assoc. done.
Qed.

Lemma lines_from_last acc line :
  c_nl ∉ line -> line <> [] -> lines_from acc line = [acc ++ line].
Proof.
  revert acc. induction line as [|c line IH]; intros acc Hn Hne; [done|]. apply not_elem_of_cons in Hn as [Hc Hn].
  cbn [lines_from]. destruct (Ascii.eqb_spec c c_nl) as [->|_]; [done|]. destruct line as [|d line]; [by destruct acc|].
  by rewrite (IH _ Hn), <- app_assoc by done.
Qed.

Lemma first_line (text : chars) : exists line rest, text = line ++ rest /\ c_nl ∉ line /\ match rest with c :: _ => c = c_nl | [] => True end.
Proof.
  induction text as [|c r (line & rest & -> & Hn & Hr)]; [exists [], []; split; [done|]; split; [apply not_elem_of_nil|done]|].
  destruct (decide (c = c_nl)) as [->|Hc].
  - exists [], (c_nl :: line ++ rest). split; [done|]. split; [apply not_elem_of_nil|done].
  - exists (c :: line), rest. split; [done|]. split; [|done]. apply not_elem_of_cons. done.
Qed.

Definition sent (msgs : list (Z * string * string)) (g : s_global) : s_global :=
  g <| g_statics := (g_statics g) <| syslog_sent := syslog_sent (g_statics g) ++ msgs |> |>.

Definition message (owner : string) (line : chars) : Z * string * string := (LOG_NOTICE, owner, to_string line).

Lemma sent_sent m1 m2 g : sent m2 (sent m1 g) = sent (m1 ++ m2) g.
Proof. unfold sent. destruct g as [? ? ? ? ? ? ? ? ? ? ? ? ? ? ? ? ? ? ? ? ? ? ? ? ? ? ? ? ? ? st]. destruct st. cbn. by rewrite app_assoc. Qed.

Lemma log_sends prio owner text g :
  syslog_running (g_statics g) = 1 -> initng_log prio (Some owner) text g = Done (tt, sent [(prio, owner, text)] g).
Proof. intros H. unfold initng_log, static. rewrite then_asks, H. done. Qed.

Lemma sent_nothing g : sent [] g = g.
Proof. unfold sent. destruct g as [? ? ? ? ? ? ? ? ? ? ? ? ? ? ? ? ? ? ? ? ? ? ? ? ? ? ? ? ? ? st]. destruct st. cbn. by rewrite app_nil_r. Qed.

(** One line, whatever follows. *)
Lemma fetch_line n owner line rest g :
  syslog_running (g_statics g) = 1 -> line ++ rest <> [] -> c_nl ∉ line -> (length line <= 200)%nat ->
  match rest with c :: _ => c = c_nl | [] => True end ->
  fetch_loop (S n) owner (line ++ rest) g = fetch_loop n owner (List.tl rest) (sent [message owner line] g).
Proof.
  intros Hr Hne Hn Hl Hrest. cbn [fetch_loop]. destruct (line ++ rest) as [|c r] eqn:E; [done|]. rewrite <- E.
  rewrite (line_split line rest 0 Hn Hl Hrest). cbn [Nat.add]. rewrite take_app_length, drop_app_length.
  by rewrite (mthen_run _ _ _ _ _ (log_sends _ _ _ _ Hr)).
Qed.

Lemma fetch_loop_run n owner text g :
  syslog_running (g_statics g) = 1 -> (length text < n)%nat -> Forall (fun l : chars => (length l <= 200)%nat) (lines text) ->
  fetch_loop n owner text g = Done (tt, sent (map (message owner) (lines text)) g).
Proof.
  revert text g. induction n as [|n IH]; intros text g Hr Hn Hl; [lia|].
  destruct (first_line text) as (line & rest & -> & Hnl & Hrest). unfold lines in Hl |- *. destruct rest as [|c r].
  - rewrite app_nil_r in *. destruct line as [|d line]; [cbn; by rewrite sent_nothing|].
    rewrite (lines_from_last [] (d :: line)) in * by done. apply Forall_inv in Hl.
    rewrite <- (app_nil_r (d :: line)) at 1. rewrite fetch_line by done. destruct n; [cbn in Hn; lia|]. done.
  - subst c. rewrite lines_from_app in Hl |- * by done. apply Forall_cons in Hl as [Hl1 Hl2].
    rewrite fetch_line; [|done|by destruct line|done|done|done]. rewrite length_app in Hn. cbn [List.tl length] in *.
    rewrite IH; [|done|lia|done]. by rewrite sent_sent.
Qed.

(** Lines to the system log.  When the system log runs, the output of a
    service is sent line by line, in its order and in the name of the service,
    as long as no line is longer than 200 chars.  Of a line of 201 chars the
    last is lost: it is skipped as if it were the newline. *)
Theorem output_goes_to_the_log owner text g :
  syslog_running (g_statics g) = 1 ->
  (Forall (fun l : chars => (length l <= 200)%nat) (lines text) ->
   fetch_loop (S (length text)) owner text g = Done (tt, sent (map (message owner) (lines text)) g)) /\
  (forall line c, text = line ++ [c] -> length line = 200%nat -> c_nl ∉ text ->
   fetch_loop (S (length text)) owner text g = Done (tt, sent [message owner line] g)).
Proof.
  intros Hr. split; [intros Hl; apply fetch_loop_run; [done|lia|done]|]. intros line c -> Hlen Hn.
  apply not_elem_of_app in Hn as [Hn Hc]. cbn [fetch_loop]. destruct (line ++ [c]) as [|d r] eqn:E; [by destruct line|]. rewrite <- E.
  assert (El : line_len (line ++ [c]) 0 = 200%nat).
  { clear E d r. revert Hlen. assert (H : forall i, (i + length line = 200)%nat -> line_len (line ++ [c]) i = 200%nat); [|apply (H 0%nat)].
    induction line as [|x line IH]; intros i Hi; cbn [app line_len length] in *.
    - rewrite orb_comm, (proj2 (Nat.ltb_ge i 200)) by lia. cbn. lia.
    - apply not_elem_of_cons in Hn as [Hx Hn]. destruct (Ascii.eqb_spec x c_nl) as [->|_]; [done|].
      rewrite (proj2 (Nat.ltb_lt i 200)) by lia. cbn [orb negb]. apply IH; [done|lia]. }
  rewrite El. rewrite <- Hlen at 1. rewrite take_app_length. rewrite (mthen_run _ _ _ _ _ (log_sends _ _ _ _ Hr)).
  rewrite <- Hlen at 1. rewrite drop_app_length. cbn [List.tl].
  destruct (length (line ++ [c])) eqn:En; [rewrite length_app in En; cbn in En; lia|]. done.
Qed.
