(* ===== verification/NgeMod.v ===== *)
(** * The module nge: src/modules/nge/initng_nge.c

    Listeners connect to a socket and get the state of the system, and then every
    change of it, as text in tags. *)
From S2P Require Import Prelude Types Data CString Global ActiveDb Depend Io Poll Interrupt Launch Modules ServiceMod DaemonMod Control HookMods LogMods.
From Stdlib Require Import String Ascii.
From stdpp Require Import prelude gmap strings pretty.
Local Open Scope Z_scope.

(** What the kernel answers about sockets: socket(2), accept(2) and how many chars
    send(2) took (or -1); whether bind(2), chmod(2) and listen(2) succeed, and
    whether a descriptor is open; stat(2) of a socket with its device, inode
    and time of change.  The build sets the version and the directory of the
    sockets. *)
Class SockSys := {
  sys_socket : nat -> Z;
  sys_accept : nat -> Z -> Z;
  sys_send : nat -> Z -> nat -> Z;
  sys_bind : nat -> Z -> string -> bool;
  sys_chmod : nat -> bool;
  sys_listen : nat -> Z -> bool;
  sys_fd_open : nat -> Z -> bool;
  sys_sock_stat : nat -> string -> option (Z * Z * Z);
  INITNG_VERSION : string;
  CTLDIR : string
}.

Definition set_nge_var (f : nge_state -> nge_state) : G unit := set_statics (fun v => v <| nge := f (nge v) |>).
Definition nge_var {A} (f : nge_state -> A) : G A := static (fun v => f (nge v)).

(** ** The texts of the messages *)

(** The numbers of e_is and h_sys_state. *)
Definition e_is_num (i : e_is) : Z :=
  match i with
  | IS_NEW => 0 | IS_UP => 1 | IS_DOWN => 2 | IS_FAILED => 3 | IS_STARTING => 4 | IS_STOPPING => 5 | IS_WAITING => 6
  end.
Definition sys_state_num (st : h_sys_state) : Z :=
  match st with
  | STATE_NULL => 0 | STATE_STARTING => 1 | STATE_UP => 2 | STATE_STOPPING => 3 | STATE_ASE => 4
  | STATE_SERVICES_LOADED => 5 | STATE_EXIT => 6 | STATE_RESTART => 7 | STATE_SULOGIN => 8 | STATE_HALT => 9
  | STATE_REBOOT => 10 | STATE_EXECVE => 11 | STATE_POWEROFF => 12
  end.

(** A part of a format: name="%s" with a space in front. *)
Definition attr (name : string) (value : chars) : chars :=
  c_space :: chars_of name ++ chars_of "=" ++ [c_quote] ++ value ++ [c_quote].
Definition attrs (l : list (string * chars)) : chars := concat (map (fun a => attr (fst a) (snd a)) l).

Definition event_tag (type : string) (l : list (string * chars)) : chars :=
  chars_of "<event" ++ attrs (("type"%string, chars_of type) :: l).
Definition closed_tag (type : string) (l : list (string * chars)) : chars := event_tag type l ++ chars_of "/>" ++ [c_nl].
Definition spaced_tag (type : string) (l : list (string * chars)) : chars := event_tag type l ++ chars_of " />" ++ [c_nl].

Definition header_text : chars := chars_of "<? xml" ++ attr "version" (chars_of "1.0") ++ chars_of " ?/>" ++ [c_nl].
Definition connect_text (version : chars) : chars :=
  chars_of "<connect" ++ attr "protocol_version" (dec NGE_VERSION) ++ chars_of "," ++ attr "initng_version" version ++ chars_of "/>" ++ [c_nl].
Definition initial_system_text (st : h_sys_state) (runlevel : chars) : chars :=
  spaced_tag "initial_system_state" [("system_state"%string, dec (sys_state_num st)); ("runlevel"%string, runlevel)].
Definition initial_service_text (name : chars) (state : a_state_h) (type : stype_h) : chars :=
  closed_tag "initial_service_state" [("service"%string, name); ("is"%string, dec (e_is_num (st_is state)));
    ("state"%string, chars_of (st_name state)); ("service_type"%string, chars_of (sty_name type));
    ("hidden"%string, dec (of_bool (sty_hidden type)))].
Definition finished_text : chars := spaced_tag "initial_state_finished" [].
Definition ping_text : chars := closed_tag "ping" [].
Definition killed_text (name : chars) (state : a_state_h) (process : chars) (r_code : Z) : chars :=
  closed_tag "process_killed" [("service"%string, name); ("is"%string, dec (e_is_num (st_is state)));
    ("state"%string, chars_of (st_name state)); ("process"%string, process);
    ("exit_status"%string, dec (WEXITSTATUS r_code)); ("term_sig"%string, dec (WTERMSIG r_code))].
Definition change_text (name : chars) (state : a_state_h) (started stopped : Z) (type : stype_h) : chars :=
  closed_tag "service_state_change" [("service"%string, name); ("is"%string, dec (e_is_num (st_is state)));
    ("state"%string, chars_of (st_name state)); ("percent_started"%string, dec started);
    ("percent_stopped"%string, dec stopped); ("service_type"%string, chars_of (sty_name type));
    ("hidden"%string, dec (of_bool (sty_hidden type)))].
Definition system_text (st : h_sys_state) (runlevel : chars) : chars :=
  spaced_tag "system_state_change" [("system_state"%string, dec (sys_state_num st)); ("runlevel"%string, runlevel)].
Definition output_text (name process output : chars) : chars :=
  event_tag "service_output" [("service"%string, name); ("process"%string, process)] ++
  chars_of ">" ++ output ++ chars_of "</event>" ++ [c_nl].

(** sprintf into a block of [size] chars. *)
Definition sprintf (size : nat) (text : chars) : G chars :=
  if (length text <? size)%nat then mpure text else fault.

Section nge.
Context `{!SockSys}.

Definition NGE_REAL : string := CTLDIR +:+ "/nge".

(** ** Sending *)

(** send(fd, text, length, 0) *)
Definition do_send (fd : Z) (text : chars) : G Z :=
  let! n := syscall (fun t => sys_send t fd (length text)) in
  (if 0 <? n then set_statics (fun v => v <| wire := wire v ++ [(fd, take (Z.to_nat n) text)] |>) else mpure tt) ;;;
  mpure n.

Definition MAX_LISTENERS : nat := 20.
Definition set_listener (i : nat) (fd : Z) : G unit := set_nge_var (fun n => n <| listeners := <[i := fd]> (listeners n) |>).
Definition listener (i : nat) : G Z := deref (fun g => listeners (nge (g_statics g)) !! i).

(** One round of the loop of send_to_all. *)
Definition send_to (text : chars) (i : nat) : G unit :=
  let! fd := listener i in
  if fd <? 1 then mpure tt
  else
    let! n := do_send fd text in
    if n <? Z.of_nat (length text) then set_listener i (-1) else mpure tt.

Definition send_to_all (text : chars) : G unit :=
  for_each (R := unit) (seq 0 MAX_LISTENERS) (fun i => send_to text i ;;; mpure None) ;;; mpure tt.

(** The literal has 15 chars with its NUL, and 16 are sent. *)
Definition send_disconnect (fd : Z) : G unit :=
  if (length (chars_of "</disconnect>" ++ [c_nl; c_nul]) <? 16)%nat then fault else mpure tt.

Definition close_all_listeners : G unit :=
  for_each (R := unit) (seq 0 MAX_LISTENERS) (fun i =>
    let! fd := listener i in
    (if 0 <? fd then send_disconnect fd ;;; set_listener i (-1) else mpure tt) ;;;
    mpure None) ;;;
  mpure tt.

(** ** The events that are forwarded *)

Definition nge_handle_killed (event : s_event) : G s_event :=
  match ev_data event with
  | ED_process s p =>
    let! a := get_service s in
    let! q := get_process s p in
    let name := chars_of (a_name a) in
    let pt := chars_of (pty_name (p_pt q)) in
    let! text := sprintf (180 + length name + String.length (st_name (a_current_state a)) + length pt)
                   (killed_text name (a_current_state a) pt (p_r_code q)) in
    (if (1 <? length text)%nat then send_to_all text else mpure tt) ;;;
    mpure event
  | _ => fault
  end.

Definition astatus_change (event : s_event) : G s_event :=
  on_service event (fun s =>
    let! a := get_service s in
    let! type := deref (fun _ => a_type a) in
    let! g := asks id in
    let name := chars_of (a_name a) in
    let started := if decide (g_sys_state g = STATE_STARTING) then initng_active_db_percent_started g else 0 in
    let stopped := if decide (g_sys_state g = STATE_STOPPING) then initng_active_db_percent_stopped g else 0 in
    let! text := sprintf (180 + length name + String.length (st_name (a_current_state a)) + String.length (sty_name type))
                   (change_text name (a_current_state a) started stopped type) in
    (if (1 <? length text)%nat then send_to_all text else mpure tt) ;;;
    mpure event).

(** strlen(g.runlevel) *)
Definition system_state_change (event : s_event) : G s_event :=
  match ev_data event with
  | ED_sys_state state =>
    let! runlevel := deref g_runlevel in
    let! text := sprintf (90 + String.length runlevel) (system_text state (chars_of runlevel)) in
    (if (1 <? length text)%nat then send_to_all text else mpure tt) ;;;
    mpure event
  | _ => fault
  end.

Definition system_pipe_watchers (event : s_event) : G s_event :=
  match ev_data event with
  | ED_buffer s p k pos =>
    let! a := get_service s in
    let! q := get_process s p in
    let! out := buffer_text s p k pos in
    let name := chars_of (a_name a) in
    let pt := chars_of (pty_name (p_pt q)) in
    let! text := sprintf (100 + length name + length pt + length out) (output_text name pt out) in
    (if (0 <? length text)%nat then send_to_all text else mpure tt) ;;;
    mpure event
  | _ => fault
  end.

Definition astatus_change_ptr : fptr := 161.
Definition system_state_change_ptr : fptr := 162.
Definition system_pipe_watchers_ptr : fptr := 163.
Definition nge_print_error_ptr : fptr := 164.
Definition nge_handle_killed_ptr : fptr := 165.
Definition io_event_acceptor_handler_ptr : fptr := 166.
Definition nge_check_socket_ptr : fptr := 167.

(** The hooks that events are forwarded from. *)
Definition forwarding : list (s_event_type * fptr) := [
  (EVENT_STATE_CHANGE, astatus_change_ptr);
  (EVENT_SYSTEM_CHANGE, system_state_change_ptr);
  (EVENT_BUFFER_WATCHER, system_pipe_watchers_ptr);
  (EVENT_ERROR_MESSAGE, nge_print_error_ptr);
  (EVENT_HANDLE_KILLED, nge_handle_killed_ptr) ].
Definition nge_file : string := "initng_nge.c".
Definition forward : G unit :=
  for_each (R := unit) forwarding (fun h => hook_register nge_file (fst h) (snd h) ;;; mpure None) ;;; mpure tt.
Definition unforward : G unit :=
  for_each (R := unit) forwarding (fun h => initng_event_hook_unregister_real (fst h) (snd h) ;;; mpure None) ;;; mpure tt.

(** ** Listeners *)

Fixpoint first_free (l : list Z) (lis : nat) : nat :=
  match l with
  | fd :: l => if (0 <? fd) && negb (lis =? MAX_LISTENERS)%nat then first_free l (S lis) else lis
  | [] => lis
  end.

(** The state of one service. *)
Definition send_service (fd : Z) (a : active_db_h) : G unit :=
  let! type := deref (fun _ => a_type a) in
  let name := chars_of (a_name a) in
  let! text := sprintf (160 + length name + String.length (st_name (a_current_state a)) + String.length (sty_name type))
                 (initial_service_text name (a_current_state a) type) in
  do_send fd text ;;; mpure tt.

(** The state of the system, for a new listener. *)
Definition send_initial (fd : Z) : G unit :=
  do_send fd header_text ;;;
  let! text := sprintf (70 + String.length INITNG_VERSION) (connect_text (chars_of INITNG_VERSION)) in
  do_send fd text ;;;
  let! g := asks id in
  let runlevel := chars_of (default ""%string (g_runlevel g)) in
  let! text := sprintf (100 + length runlevel) (initial_system_text (g_sys_state g) runlevel) in
  do_send fd text ;;;
  for_each (R := unit) (active_services g) (fun x => send_service fd (snd x) ;;; mpure None) ;;;
  let! text := sprintf 50 finished_text in
  do_send fd text ;;; mpure tt.

Definition event_acceptor : G unit :=
  let! l := nge_var listeners in
  let lis := first_free l 0 in
  if (lis =? MAX_LISTENERS)%nat then mpure tt
  else
    let! active := nge_var is_active in
    (if active =? FALSE then forward ;;; set_nge_var (fun n => n <| is_active := TRUE |>) else mpure tt) ;;;
    let! fds := nge_var acceptor_fds in
    let! fd := syscall (fun t => sys_accept t fds) in
    set_listener lis fd ;;;
    if fd <? 1 then mpure tt else send_initial fd.

(** ** The socket *)

Definition close_initiator_socket : G unit :=
  let! fds := nge_var acceptor_fds in
  if fds <? 0 then mpure tt
  else
    let! active := nge_var is_active in
    (if c_true active then unforward ;;; set_nge_var (fun n => n <| is_active := FALSE |>) else mpure tt) ;;;
    set_nge_var (fun n => n <| acceptor_fds := -1 |>) ;;;
    initng_event_hook_unregister_real EVENT_IO_WATCHER io_event_acceptor_handler_ptr.

Definition open_initiator_socket : G Z :=
  close_initiator_socket ;;;
  let! fd := syscall sys_socket in
  if fd <? 1 then set_nge_var (fun n => n <| acceptor_fds := -1 |>) ;;; mpure FALSE
  else
    set_nge_var (fun n => n <| acceptor_fds := fd |>) ;;;
    (if (108 <=? String.length NGE_REAL)%nat then fault else mpure tt) ;;;
    let! bound := syscall (fun t => sys_bind t fd NGE_REAL) in
    if negb bound then close_initiator_socket ;;; mpure FALSE
    else
      let! ok := syscall sys_chmod in
      if negb ok then close_initiator_socket ;;; mpure FALSE
      else
        let! st := syscall (fun t => sys_sock_stat t NGE_REAL) in
        (match st with Some st => set_nge_var (fun n => n <| sock_stat := st |>) | None => mpure tt end) ;;;
        let! ok := syscall (fun t => sys_listen t fd) in
        if negb ok then close_initiator_socket ;;; mpure FALSE
        else
          hook_register nge_file EVENT_IO_WATCHER io_event_acceptor_handler_ptr ;;;
          mpure TRUE.

(** IOW_ACTION_CLOSE and IOW_ACTION_DEBUG are never sent. *)
Definition io_event_acceptor_handler (event : s_event) : G s_event :=
  match ev_data event with
  | ED_io_watcher action added sets =>
    let! fds := nge_var acceptor_fds in
    if action =? IOW_ACTION_CHECK then
      if fds <=? 2 then mpure event
      else
        let! still_open := syscall (fun t => sys_fd_open t fds) in
        if negb still_open then set_nge_var (fun n => n <| acceptor_fds := -1 |>) ;;; mpure event
        else
          let! sets := deref (fun _ => fd_set false fds sets) in
          mpure (event <| ev_data := ED_io_watcher action (added + 1) sets |>)
    else if action =? IOW_ACTION_CALL then
      if (added =? 0) || (fds <=? 2) then mpure event
      else if negb (bool_decide (fds ∈ readset sets)) then mpure event
      else
        event_acceptor ;;;
        mpure (event <| ev_data := ED_io_watcher action (added - 1) sets |>)
    else mpure event
  | _ => fault
  end.

Definition SIGHUP : Z := 1.

Definition nge_check_socket (event : s_event) : G s_event :=
  match ev_data event with
  | ED_signal signal =>
    if negb (signal =? SIGHUP) then mpure event
    else
      send_to_all ping_text ;;;
      let! fds := nge_var acceptor_fds in
      if fds <=? 0 then open_initiator_socket ;;; mpure event
      else
        let! st := syscall (fun t => sys_sock_stat t NGE_REAL) in
        let! known := nge_var sock_stat in
        (if bool_decide (st = Some known) then mpure tt else open_initiator_socket ;;; mpure tt) ;;;
        mpure event
  | _ => fault
  end.

(** ** The module *)

Definition nge_module_init : G Z :=
  set_nge_var (fun n => n <| listeners := replicate MAX_LISTENERS (-1) ++ drop MAX_LISTENERS (listeners n) |>
                          <| acceptor_fds := -1 |> <| sock_stat := (0, 0, 0) |>) ;;;
  hook_register nge_file EVENT_SIGNAL nge_check_socket_ptr ;;;
  open_initiator_socket ;;;
  mpure TRUE.

Definition nge_module_unload : G unit :=
  close_initiator_socket ;;;
  close_all_listeners ;;;
  initng_event_hook_unregister_real EVENT_SIGNAL nge_check_socket_ptr.

(** The hooks, by their addresses. *)
Definition nge_hooks : list (fptr * (s_event -> G s_event)) := [
  (astatus_change_ptr, astatus_change);
  (system_state_change_ptr, system_state_change);
  (system_pipe_watchers_ptr, system_pipe_watchers);
  (nge_handle_killed_ptr, nge_handle_killed);
  (io_event_acceptor_handler_ptr, io_event_acceptor_handler);
  (nge_check_socket_ptr, nge_check_socket) ].

Definition nge_hook (other : fptr -> s_event -> G s_event) (f : fptr) (e : s_event) : G s_event :=
  match List.find (fun h => Pos.eqb (fst h) f) nge_hooks with
  | Some h => snd h e
  | None => other f e
  end.

End nge.
