(* ===== verification/Main.v ===== *)
(** * The program: src/main/frontend/ and src/main/main/

    The options of the kernel command line, what initng does when the last
    service is gone, the start of main and its loop.  A function that may not
    return gives [Some] end of the program. *)
From S2P Require Import Prelude Types Data CString Global ActiveDb Depend Io Poll Interrupt Launch Modules Control.
From Stdlib Require Import String Ascii.
From stdpp Require Import prelude gmap strings.
Local Open Scope Z_scope.

(** The process is replaced by another program, exits, or sleeps forever; in the
    last case the kernel may have been told to reboot, halt or power off. *)
Inductive main_end :=
| Replaced (file : string) (argv : list string)
| Exited (code : Z)
| Asleep (told : option h_then).

(** execve(2) only returns when it fails, here [false]; getuid(2).  The default
    runlevel is set by the build. *)
Class MainSys := {
  sys_execve : nat -> string -> bool;
  sys_getuid : nat -> Z;
  RUNLEVEL_DEFAULT : string
}.

(** ** frontend/options.c, built without DEBUG *)

Definition OPT_HELP : Z := 0.
Definition OPT_CONSOLE : Z := 1.
Definition OPT_RUNLEVEL : Z := 2.
Definition OPT_HOT_RELOAD : Z := 4.
Definition OPT_NO_CIRCULAR : Z := 5.
Definition OPT_VERSION : Z := 8.

Definition opts : list (Z * chars) :=
  [(OPT_CONSOLE, chars_of "console"); (OPT_RUNLEVEL, chars_of "runlevel"); (OPT_HOT_RELOAD, chars_of "hot_reload");
   (OPT_NO_CIRCULAR, chars_of "no_circular"); (OPT_HELP, chars_of "help"); (OPT_VERSION, chars_of "version")].

(** After printing its text, help and version exit. *)
Definition handle_it (str : chars) : G (option main_end) :=
  let '(id, val) := initng_config_opt_get opts str in
  let set f := modify f ;;; mpure None in
  if id =? OPT_CONSOLE then
    set (fun g => match val with Some v => g <| g_dev_console := Some (to_string v) |> | None => g end)
  else if id =? OPT_RUNLEVEL then
    set (fun g => match val with Some v => g <| g_runlevel := Some (to_string v) |> | None => g end)
  else if id =? OPT_NO_CIRCULAR then set (fun g => g <| g_no_circular := TRUE |>)
  else if id =? OPT_HOT_RELOAD then set (fun g => g <| g_hot_reload := TRUE |>)
  else if (id =? OPT_HELP) || (id =? OPT_VERSION) then mpure (Some (Exited 0))
  else mpure None.

(** What of an argument is looked at: not one that starts with a plus or with a
    single minus, and without two. *)
Definition opt_of (arg : chars) : option chars :=
  match arg with
  | "+"%char :: _ => None
  | "-"%char :: "-"%char :: opt => Some opt
  | "-"%char :: _ => None
  | _ => Some arg
  end.

Fixpoint options_parse_args (argv : list string) : G (option main_end) :=
  match argv with
  | [] => mpure None
  | arg :: argv =>
    match opt_of (chars_of arg) with
    | None => options_parse_args argv
    | Some opt =>
      let! e := handle_it opt in
      match e with
      | Some e => mpure (Some e)
      | None => options_parse_args argv
      end
    end
  end.

Section main.
Context `{!Callbacks, !Sys, !ForkSys, !Build, !PollSys, !ModuleCode, !ModuleSys, !MainSys} (fuel : nat).

(** ** main/segfault.c: the second execve has the arguments of the first *)

Definition initng_main_segfault : G main_end :=
  let argv := ["/sbin/initng-segfault"]%string in
  let! replaced := syscall (fun t => sys_execve t "/sbin/initng-segfault") in
  if (replaced : bool) then mpure (Replaced "/sbin/initng-segfault" argv)
  else
    let! replaced := syscall (fun t => sys_execve t "/sbin/initng") in
    if (replaced : bool) then mpure (Replaced "/sbin/initng" argv) else mpure (Asleep None).

(** ** main/su_login.c *)

Definition TRY_TIMES : Z := 3.

(** The static variable; the function never returns, so every call is the first. *)
Definition local_sulogin_count : Z := 0.

(** The child that is to run sulogin; when execve fails it goes on behind the
    if, with initng_main_segfault. *)
Definition sulogin_child (files : fds) : G child_end :=
  let! replaced := syscall (fun t => sys_execve t "/sbin/sulogin") in
  if (replaced : bool) then mpure (Execve ["/sbin/sulogin"]%string [] (after_execve files))
  else
    let! e := initng_main_segfault in
    mpure (match e with Replaced _ argv => Execve argv [] (after_execve files) | Exited i => Exit i | Asleep _ => Sleeps end).

(** The parent waits for the child, which ends unless it sleeps, and goes on with
    initng_main_segfault too. *)
Definition initng_main_su_login : G main_end :=
  let! r := if local_sulogin_count <=? TRY_TIMES then syscall sys_fork else mpure None in
  match r with
  | None => initng_main_segfault
  | Some (_, files) =>
    let! e := in_child (sulogin_child files) in
    modify (fun g => g <| g_children := g_children g ++ [e] |>) ;;;
    match e with Sleeps => mpure (Asleep None) | _ => initng_main_segfault end
  end.

(** ** main/restart.c and main/new_init.c: they return when execve fails *)

Definition initng_main_restart : G (option main_end) :=
  initng_main_set_sys_state STATE_RESTART ;;;
  let! runlevel := deref g_runlevel in
  let! arg := deref (fun _ => alloc_string (String.length runlevel + 12) ["runlevel="%string; runlevel]) in
  let! replaced := syscall (fun t => sys_execve t "/sbin/initng") in
  mpure (if (replaced : bool) then Some (Replaced "/sbin/initng" [arg]) else None).

Definition initng_main_new_init : G (option main_end) :=
  initng_main_set_sys_state STATE_EXECVE ;;;
  let! new_init := asks g_new_init in
  match new_init with
  | [] => mpure None
  | file :: _ =>
    let! replaced := syscall (fun t => sys_execve t file) in
    mpure (if (replaced : bool) then Some (Replaced file new_init) else None)
  end.

(** ** config/global.c and main/exit.c *)

(** Strings and arrays that are freed are left in the state. *)
Definition initng_config_global_free : G unit :=
  initng_active_db_free_all ;;;
  initng_service_data_type_unregister_all ;;;
  initng_command_unregister_all.

Definition initng_main_exit (i : Z) : G main_end :=
  initng_main_set_sys_state STATE_EXIT ;;;
  initng_config_global_free ;;;
  initng_module_unload_all fuel ;;;
  mpure (Exited i).

(** ** main/hard.c, built without CHECK_RO

    reboot(2) is called by a child, or by initng when it cannot fork. *)
Definition hard (t : h_then) : G (option main_end) :=
  match t with
  | THEN_REBOOT | THEN_HALT | THEN_POWEROFF =>
    initng_main_set_sys_state (match t with
      | THEN_REBOOT => STATE_REBOOT | THEN_HALT => STATE_HALT | _ => STATE_POWEROFF end) ;;;
    let! uid := syscall sys_getuid in
    if negb (uid =? 0) then mpure None
    else
      initng_module_unload_all fuel ;;;
      mpure (Some (Asleep (Some t)))
  | _ => mpure None
  end.

(** ** main/when_out.c; the services that failed are only printed *)

Definition initng_main_when_out : G (option main_end) :=
  if negb (initng_pid =? 1) then mpure None
  else
    let! when_out := asks g_when_out in
    let! e :=
      match when_out with
      | THEN_QUIT => let! e := initng_main_exit 0 in mpure (Some e)
      | THEN_RESTART => initng_main_restart
      | THEN_NEW_INIT => initng_main_new_init
      | THEN_REBOOT | THEN_HALT | THEN_POWEROFF => hard when_out
      | THEN_SULOGIN | THEN_NONE => mpure None
      end in
    match e with
    | Some e => mpure (Some e)
    | None => let! e := initng_main_su_login in mpure (Some e)
    end.

(** ** frontend/main.c *)

(** Lines 76-79: modules. *)
Definition main_modules : G (option main_end) :=
  let! r := initng_module_load_all fuel INITNG_MODULE_DIR in
  if c_true r then mpure None else let! e := initng_main_su_login in mpure (Some e).

(** Lines 81-98: after a hot reload. *)
Definition main_reload : G (option main_end) :=
  let! retval := initng_module_callers_active_db_reload in
  if negb (retval =? TRUE) then let! e := initng_main_su_login in mpure (Some e)
  else initng_main_set_sys_state STATE_UP ;;; mpure None.

(** Lines 108-122: the services of a boot. *)
Definition main_services : G (option main_end) :=
  initng_main_set_sys_state STATE_STARTING ;;;
  initng_main_start_extra_services fuel ;;;
  let! runlevel := deref g_runlevel in
  let! r := initng_handler_start_new_service_named fuel runlevel in
  match r with
  | Some _ => mpure None
  | None => let! e := initng_main_su_login in mpure (Some e)
  end.

(** A step is only taken when none before it was the end. *)
Definition or_end (m k : G (option main_end)) : G (option main_end) :=
  let! e := m in match e with Some e => mpure (Some e) | None => k end.

(** Lines 68-122. *)
Definition main_configured (argv : list string) : G (option main_end) :=
  or_end (options_parse_args argv)
    (modify (fun g => g <| g_when_out := THEN_SULOGIN |>) ;;;
     let! runlevel := asks g_runlevel in
     (if bool_decide (runlevel = None) then initng_main_set_runlevel RUNLEVEL_DEFAULT else mpure tt) ;;;
     or_end main_modules
       (let! hot_reload := asks g_hot_reload in
        or_end (if c_true hot_reload then main_reload else mpure None)
          (initng_signal_enable ;;;
           if c_true hot_reload then mpure None else main_services))).

(** One round of the loop: lines 126-240. *)
Definition main_round (last : timeval) : G (timeval + main_end) :=
  let! last := main_update_clock last in
  modify (fun g => g <| g_sleep_seconds := 0 |>) ;;;
  main_alarm fuel ;;;
  initng_signal_dispatch fuel ;;;
  let! unload := asks g_modules_to_unload in
  (if unload =? TRUE then
     modify (fun g => g <| g_modules_to_unload := FALSE |>) ;;;
     initng_module_unload_marked fuel
   else mpure tt) ;;;
  initng_event_send (new_event EVENT_MAIN ED_none) ;;;
  let! quit := asks initng_main_ready_to_quit in
  if (quit : bool) then
    initng_main_set_sys_state STATE_ASE ;;;
    let! e := initng_main_when_out in
    mpure (match e with Some e => inr e | None => inl last end)
  else
    initng_active_db_clean_down ;;;
    let! interrupt := initng_interrupt fuel in
    let! timeout := asks (fun g => closest_timeout (g_sleep_seconds g) (g_next_alarm g) (tv_sec (g_now g)) interrupt) in
    (match timeout with Some _ => initng_io_module_poll fuel | None => mpure tt end) ;;;
    mpure (inl last).

(** At most [n] rounds; [wait] is what happens outside between two of them. *)
Fixpoint main_loop (wait : G unit) (n : nat) (last : timeval) : G (option main_end) :=
  match n with
  | O => mpure None
  | S n =>
    let! r := main_round last in
    match r with
    | inr e => mpure (Some e)
    | inl last => wait ;;; main_loop wait n last
    end
  end.

Definition main (wait : G unit) (n : nat) (argv : list string) : G (option main_end) :=
  let! last := asks g_clock in
  initng_config_global_new argv ;;;
  or_end (main_configured argv) (main_loop wait n last).

End main.

(** ** Lemmas: the end of the program *)

(** What is left when everything else failed. *)
Definition fallback (e : main_end) : Prop :=
  e ∈ [Replaced "/sbin/initng-segfault" ["/sbin/initng-segfault"]; Replaced "/sbin/initng" ["/sbin/initng-segfault"]; Asleep None]%string.

Section ends.
Context `{CB : Callbacks, FS : ForkSys, BU : Build, MC : ModuleCode, ML : !ModuleLaws, MN : MainSys}.

Lemma segfault_run g : exists e g', initng_main_segfault g = Done (e, g') /\ fallback e.
Proof.
  unfold initng_main_segfault, syscall. cbv [mthen asks modify mpure].
  destruct (sys_execve _ _); [|destruct (sys_execve _ _)]; do 2 eexists; (split; [reflexivity|]); unfold fallback; set_solver.
Qed.

Lemma su_login_run g : exists e g', initng_main_su_login g = Done (e, g') /\ fallback e.
Proof.
  unfold initng_main_su_login. change (local_sulogin_count <=? TRY_TIMES) with true. cbv iota.
  rewrite (mthen_run _ _ g (sys_fork (g_ticks g)) (g <| g_ticks := S (g_ticks g) |>) eq_refl).
  destruct (sys_fork (g_ticks g)) as [[pid files]|]; [|apply segfault_run].
  set (g1 := g <| g_ticks := S (g_ticks g) |>).
  assert (Hc : exists e, in_child (sulogin_child files) g1 = Done (e, g1)).
  { unfold in_child, sulogin_child. rewrite (mthen_run _ _ g1 (sys_execve (g_ticks g1) "/sbin/sulogin") _ eq_refl).
    destruct (sys_execve _ _); [by eexists|]. destruct (segfault_run (g1 <| g_ticks := S (g_ticks g1) |>)) as (e & g2 & E & _).
    rewrite (mthen_run _ _ _ _ _ E). by eexists. }
  destruct Hc as [e Hc]. rewrite (mthen_run _ _ _ _ _ Hc), then_modify.
  destruct e; try apply segfault_run. eexists _, _. split; [reflexivity|]. unfold fallback. set_solver.
Qed.

(** Freeing everything returns, and leaves the modules. *)
Definition same_modules (g g' : s_global) : Prop := g_module_db g' = g_module_db g /\ g_fresh g' = g_fresh g.

Lemma free_all_run g :
  wf g -> exists g', initng_active_db_free_all g = Done (tt, g') /\ g_active_db g' = [] /\ same_modules g g'.
Proof.
  intros Hwf. pose proof (wf_nodup g Hwf) as Hnd. pose proof (wf_alloc g Hwf) as Hs. clear Hwf.
  unfold initng_active_db_free_all. rewrite then_asks.
  enough (exists g', for_each (R := unit) (g_active_db g) (fun current => initng_active_db_free current ;;; mpure None) g =
    Done (None, g') /\ g_active_db g' = [] /\ same_modules g g') as (g' & E & H)
    by (exists g'; by rewrite (mthen_run _ _ _ _ _ E)).
  remember (g_active_db g) as l eqn:El. revert g El Hs.
  induction l as [|s l IH]; intros g El Hs; cbn [for_each]; [by exists g|].
  destruct (Hs s ltac:(by left)) as [a Ha]. apply NoDup_cons in Hnd as [Hn Hnd].
  rewrite (mthen_run _ _ g None (removed s g)) by (by rewrite (mthen_run _ _ _ _ _ (active_db_free_run _ _ _ Ha))).
  destruct (IH Hnd (removed s g)) as (g' & E & H1 & H2).
  - cbn. rewrite <- El. cbn. by rewrite Pos.eqb_refl, filter_neq_id.
  - intros x Hx. cbn. rewrite lookup_delete_ne by set_solver. apply Hs. by right.
  - exists g'. by rewrite E.
Qed.

Lemma global_free_run g : wf g -> exists g', initng_config_global_free g = Done (tt, g') /\ same_modules g g'.
Proof.
  intros Hwf. unfold initng_config_global_free. destruct (free_all_run g Hwf) as (g1 & E1 & Hdb & Hm).
  rewrite (mthen_run _ _ _ _ _ E1). unfold initng_service_data_type_unregister_all. rewrite then_then, then_asks.
  assert (E2 : forall l h, g_active_db h = [] -> exists h', for_each (R := unit) l
    (fun e => initng_service_data_type_unregister e ;;; mpure None) h = Done (None, h') /\ g_active_db h' = [] /\ same_modules h h').
  { induction l as [|e l IH]; intros h Hh; cbn [for_each]; [by exists h|].
    set (h1 := h <| g_option_db := List.filter (fun e' => negb (same_entry e e')) (g_option_db h) |>).
    rewrite (mthen_run _ _ h None h1).
    2:{ rewrite (mthen_run _ _ h tt h1); [done|]. unfold initng_service_data_type_unregister. by rewrite then_asks, Hh. }
    destruct (IH h1 Hh) as (h' & E & H). by exists h'. }
  destruct (E2 (g_option_db g1) g1 Hdb) as (g2 & E & _ & Hm2). rewrite then_then, (mthen_run _ _ _ _ _ E), then_modify.
  unfold initng_command_unregister_all. rewrite then_asks. cbn [g_command_db].
  assert (E3 : forall l h, exists h', for_each (R := unit) l (fun c => initng_command_unregister c ;;; mpure None) h = Done (None, h') /\
    same_modules h h').
  { induction l as [|c l IH]; intros h; cbn [for_each]; [by exists h|]. unfold initng_command_unregister at 1.
    rewrite then_then, then_modify. destruct (IH (h <| g_command_db :=
      List.filter (fun current => negb (Pos.eqb (com_addr current) (com_addr c))) (g_command_db h) |>)) as (h' & E' & H). by exists h'. }
  edestruct E3 as (g3 & E4 & Hm3). rewrite (mthen_run _ _ _ _ _ E4). exists g3. split; [done|].
  destruct Hm as [A1 A2], Hm2 as [B1 B2], Hm3 as [C1 C2]. split; cbn in *; congruence.
Qed.

Lemma modules_ok_same g g' : same_modules g g' -> module_db_ok g -> module_db_ok g'.
Proof. intros [E F]. apply ok_called; [done|by rewrite F]. Qed.

Lemma exit_run fuel i g :
  wf g -> module_db_ok g -> g_hooks g EVENT_SYSTEM_CHANGE = [] -> (length (g_module_db g) <= fuel)%nat ->
  exists g', initng_main_exit fuel i g = Done (Exited i, g').
Proof.
  intros Hwf Hok Hh Hf. unfold initng_main_exit. rewrite (mthen_run _ _ _ _ _ (set_sys_state_run STATE_EXIT g Hh)).
  set (g1 := g <| g_sys_state := STATE_EXIT |>). destruct (global_free_run g1) as (g2 & E2 & Hm).
  { destruct Hwf as [H1 H2 H3 H4 H5 H6 H7]. by split. }
  rewrite (mthen_run _ _ _ _ _ E2). destruct (unload_all_run fuel g2) as (g3 & E3 & _).
  - apply (modules_ok_same g1); [done|]. destruct Hok as [H1 H2 H3]. by split.
  - by rewrite (proj1 Hm).
  - rewrite (mthen_run _ _ _ _ _ E3). by exists g3.
Qed.

Lemma hard_run fuel t g :
  t ∈ [THEN_REBOOT; THEN_HALT; THEN_POWEROFF] -> module_db_ok g -> g_hooks g EVENT_SYSTEM_CHANGE = [] ->
  (length (g_module_db g) <= fuel)%nat ->
  exists g', hard fuel t g = Done ((if sys_getuid (g_ticks g) =? 0 then Some (Asleep (Some t)) else None), g').
Proof.
  intros Ht Hok Hh Hf.
  assert (H : forall st, exists g', (initng_main_set_sys_state st ;;;
    let! uid := syscall sys_getuid in
    if negb (uid =? 0) then mpure None
    else initng_module_unload_all fuel ;;; mpure (Some (Asleep (Some t)))) g =
    Done ((if sys_getuid (g_ticks g) =? 0 then Some (Asleep (Some t)) else None), g')).
  { intros st. rewrite (mthen_run _ _ _ _ _ (set_sys_state_run st g Hh)). set (g1 := g <| g_sys_state := st |>).
    set (g2 := g1 <| g_ticks := S (g_ticks g1) |>). rewrite (mthen_run _ _ g1 (sys_getuid (g_ticks g1)) g2 eq_refl).
    change (g_ticks g1) with (g_ticks g). destruct (_ =? 0); cbn [negb]; [|by eexists].
    destruct (unload_all_run fuel g2) as (g3 & E3 & _); [|done|rewrite (mthen_run _ _ _ _ _ E3); by eexists].
    destruct Hok as [H1 H2 H3]. by split. }
  unfold hard. repeat (apply elem_of_cons in Ht as [->|Ht]; [apply H|]). by apply elem_of_nil in Ht.
Qed.

(** The end that is asked for, if the kernel plays along. *)
Definition wanted_end (g : s_global) : option main_end :=
  match g_when_out g with
  | THEN_QUIT => Some (Exited 0)
  | THEN_RESTART =>
    if sys_execve (g_ticks g) "/sbin/initng"
    then (fun r => Replaced "/sbin/initng" ["runlevel=" +:+ r]) <$> g_runlevel g else None
  | THEN_NEW_INIT =>
    file ← head (g_new_init g); if sys_execve (g_ticks g) file then Some (Replaced file (g_new_init g)) else None
  | THEN_REBOOT | THEN_HALT | THEN_POWEROFF => if sys_getuid (g_ticks g) =? 0 then Some (Asleep (Some (g_when_out g))) else None
  | _ => None
  end.

Lemma restart_run g r :
  g_hooks g EVENT_SYSTEM_CHANGE = [] -> g_runlevel g = Some r ->
  exists g', initng_main_restart g =
    Done ((if sys_execve (g_ticks g) "/sbin/initng" then Some (Replaced "/sbin/initng" ["runlevel=" +:+ r]) else None), g').
Proof.
  intros Hh Hr. unfold initng_main_restart. rewrite (mthen_run _ _ _ _ _ (set_sys_state_run STATE_RESTART g Hh)).
  rewrite (then_deref _ _ _ r) by done. rewrite (then_deref _ _ _ ("runlevel=" +:+ r)).
  2:{ unfold alloc_string. cbn [String.concat]. assert (E : forall x y, (x +:+ "" +:+ y = x +:+ y)%string) by done. rewrite E.
      rewrite length_append. rewrite (proj2 (Nat.leb_le _ _)); [done|]. cbn [String.length]. lia. }
  eexists. by rewrite (mthen_run _ _ _ _ _ eq_refl).
Qed.

(** C28: the end of init.  When the last service is gone, process 1 does not come
    back from initng_main_when_out: it ends as it was told to (reboots, halts,
    powers off, restarts with its runlevel, or is replaced by a new init) where
    the kernel lets it, and otherwise, as after a sulogin, it is replaced by
    /sbin/initng-segfault, or by /sbin/initng without the option hot_reload, or
    sleeps forever. *)
Theorem when_out_ends g fuel :
  initng_pid = 1 -> wf g -> module_db_ok g -> g_hooks g EVENT_SYSTEM_CHANGE = [] ->
  (length (g_module_db g) <= fuel)%nat -> is_Some (g_runlevel g) ->
  exists e g', initng_main_when_out fuel g = Done (Some e, g') /\
    match wanted_end g with Some w => e = w | None => fallback e end.
Proof.
  intros Hpid Hwf Hok Hh Hf [r Hr]. unfold initng_main_when_out. rewrite Hpid, Z.eqb_refl. cbn [negb].
  assert (Hor : forall (m : G (option main_end)) w, (exists g', m g = Done (w, g')) ->
    exists e g', (let! e := m in match e with Some e => mpure (Some e) | None => let! e := initng_main_su_login in mpure (Some e) end) g =
      Done (Some e, g') /\ match w with Some w => e = w | None => fallback e end).
  { intros m [w|] (g1 & E); rewrite (mthen_run _ _ _ _ _ E); [by eexists _, _|].
    destruct (su_login_run g1) as (e & g2 & E2 & H). rewrite (mthen_run _ _ _ _ _ E2). by eexists _, _. }
  rewrite then_asks. apply Hor. unfold wanted_end. destruct (g_when_out g) eqn:Ew; try (apply (hard_run fuel); [set_solver|done..]); try (by eexists).
  - destruct (exit_run fuel 0 g Hwf Hok Hh Hf) as (g1 & E). rewrite (mthen_run _ _ _ _ _ E). by eexists.
  - rewrite Hr. cbn [fmap option_fmap option_map]. by apply restart_run.
  - unfold initng_main_new_init. rewrite (mthen_run _ _ _ _ _ (set_sys_state_run STATE_EXECVE g Hh)), then_asks. cbn [g_new_init].
    change (g_new_init (g <| g_sys_state := STATE_EXECVE |>)) with (g_new_init g).
    destruct (g_new_init g) as [|file rest]; eexists; reflexivity.
Qed.

(** A restart keeps the runlevel.  The argument with which initng_main_restart
    runs initng again is an option that sets the runlevel to the one there was,
    whatever its name, and nothing else. *)
Theorem restart_keeps_the_runlevel g r :
  g_hooks g EVENT_SYSTEM_CHANGE = [] -> g_runlevel g = Some r -> sys_execve (g_ticks g) "/sbin/initng" = true ->
  exists argv g', initng_main_restart g = Done (Some (Replaced "/sbin/initng" argv), g') /\
    forall h, options_parse_args argv h = Done (None, h <| g_runlevel := Some r |>).
Proof.
  intros Hh Hr Hx. destruct (restart_run g r Hh Hr) as (g' & E). rewrite Hx in E. eexists _, _. split; [exact E|]. intros h.
  cbn [options_parse_args]. change (chars_of ("runlevel=" +:+ r)) with (chars_of "runlevel=" ++ chars_of r).
  cbn [opt_of app]. change (opt_of (chars_of "runlevel=" ++ chars_of r)) with (Some (chars_of "runlevel=" ++ chars_of r)).
  cbv iota. assert (Ep : initng_config_opt_get opts (chars_of "runlevel=" ++ chars_of r) = (OPT_RUNLEVEL, Some (chars_of r))) by done.
  unfold handle_it. rewrite Ep. cbn [Z.eqb OPT_RUNLEVEL OPT_CONSOLE Pos.eqb]. rewrite then_then, then_modify, then_pure.
  unfold to_string. by rewrite string_of_list_ascii_of_string.
Qed.

End ends.
