(* ===== verification/TaskMod.v ===== *)
(** * The task type: src/modules/task/initng_task.c *)
From S2P Require Import Prelude Types Data CString Global ActiveDb Depend Io Interrupt ServiceMod.
From Stdlib Require Import String.
From stdpp Require Import prelude gmap strings.
Local Open Scope Z_scope.

(** ** Code addresses and static structs *)

Definition start_task_ptr : fptr := 41.
Definition task_run_marked_ptr : fptr := 42.
Definition handle_deps_ptr : fptr := 43.
Definition task_deps_met_ptr : fptr := 44.
Definition handle_task_leave_ptr : fptr := 45.

Definition TYPE_TASK : stype_h := SType 140 "task" false (Some start_task_ptr) None None.
Definition RUN_TASK : ptype_h := PType 141 "task" (Some handle_task_leave_ptr).
Definition ONCE := SEntry 142 (Some "once"%string) SET (Some TYPE_TASK) None
  (Some "Task should run only once"%string).

Definition TASK_WAITING := AState 401 "TASK_WAITING" IS_DOWN None None None
  (Some "This task is waiting for a trigger."%string).
Definition TASK_RUNNING := AState 402 "TASK_RUNNING" IS_STARTING None None None
  (Some "This task is running."%string).
Definition TASK_DONE := AState 403 "TASK_DONE" IS_UP None None None
  (Some "Task completed."%string).
Definition TASK_FAILED := AState 404 "TASK_FAILED" IS_FAILED None None None
  (Some "When task has failed."%string).
Definition TASK_RUN_MARKED := AState 405 "TASK_RUN_MARKED" IS_STARTING None (Some task_run_marked_ptr) None
  (Some "When task is marked for running."%string).
Definition TASK_DEPS_FAILED := AState 406 "TASK_DEPS_FAILED" IS_FAILED None None None
  (Some "One of the depdencencies this task requires has failed, this task can't start."%string).
Definition TASK_WAITING_FOR_DEPS := AState 407 "TASK_WAITING_FOR_DEPS" IS_STARTING (Some handle_deps_ptr) None None
  (Some "This service is waiting for all its depdencencies to be met."%string).
Definition TASK_DEPS_MET := AState 408 "TASK_DEPS_MET" IS_STARTING None (Some task_deps_met_ptr) None
  (Some "The dependencies for starting this service are met."%string).

Section task.
Context `{!Callbacks} (fuel : nat).

(** ** The functions *)

(** The process of a task with ONCE set is not freed. *)
Definition handle_task_leave (killed_task process : addr) : G unit :=
  let! a := get_service killed_task in
  if svc_is ONCE a then mark killed_task TASK_DONE
  else
    upd_service killed_task (mark_process_free process) ;;;
    mark killed_task TASK_WAITING.

Definition start_task (task : addr) : G Z :=
  let! a := get_service task in
  (if IS_MARK a TASK_WAITING then mark task TASK_RUN_MARKED else mpure tt) ;;;
  mpure TRUE.

Definition task_run_marked (task : addr) : G unit :=
  let! r := initng_depend_start_deps fuel task in
  if negb (r =? TRUE) then mark task TASK_DEPS_FAILED
  else mark task TASK_WAITING_FOR_DEPS.

Definition handle_deps (task : addr) : G unit :=
  let! r := initng_depend_start_dep_met fuel task in
  if r =? TRUE then mark task TASK_DEPS_MET
  else if r =? FAIL then mark task TASK_DEPS_FAILED
  else mpure tt.

Definition task_deps_met (task : addr) : G unit :=
  mark task TASK_RUNNING ;;;
  let! r := initng_execute_launch task RUN_TASK None in
  if r =? FALSE then mark task TASK_FAILED
  else if r =? FAIL then mark task TASK_FAILED
  else mpure tt.

(** ** Dispatch of the code addresses *)

Definition task_stype (f : fptr) (s : addr) : G Z :=
  if Pos.eqb f start_task_ptr then start_task s else fault.

Definition task_state (f : fptr) (s : addr) : G unit :=
  if Pos.eqb f task_run_marked_ptr then task_run_marked s
  else if Pos.eqb f handle_deps_ptr then handle_deps s
  else if Pos.eqb f task_deps_met_ptr then task_deps_met s
  else fault.

Definition task_kill (f : fptr) (s p : addr) : G unit :=
  if Pos.eqb f handle_task_leave_ptr then handle_task_leave s p else fault.

End task.

(** ** module_init and module_unload *)

Definition task_states : list a_state_h :=
  [TASK_WAITING; TASK_RUNNING; TASK_FAILED; TASK_DONE; TASK_RUN_MARKED; TASK_DEPS_FAILED;
   TASK_WAITING_FOR_DEPS; TASK_DEPS_MET].

Definition task_module_init : G Z :=
  service_type_register TYPE_TASK ;;;
  process_type_register RUN_TASK ;;;
  for_each (R := unit) task_states (fun st => initng_active_state_register st ;;; mpure None) ;;;
  initng_service_data_type_register ONCE ;;;
  mpure TRUE.

Definition task_module_unload : G unit :=
  service_type_unregister TYPE_TASK ;;;
  process_type_unregister RUN_TASK ;;;
  for_each (R := unit) task_states (fun st => active_state_unregister st ;;; mpure None) ;;;
  initng_service_data_type_unregister ONCE.
