(* ===== verification/RunlevelMod.v ===== *)
(** * The types runlevel and virtual: src/modules/runlevel/initng_runlevel.c *)
From S2P Require Import Prelude Types Data CString Global ActiveDb Depend Io Interrupt ServiceMod.
From Stdlib Require Import String.
From stdpp Require Import prelude gmap strings.
Local Open Scope Z_scope.

(** ** Code addresses and static structs *)

Definition start_RUNLEVEL_ptr : fptr := 61.
Definition stop_RUNLEVEL_ptr : fptr := 62.
Definition init_RUNLEVEL_START_MARKED_ptr : fptr := 63.
Definition init_RUNLEVEL_STOP_MARKED_ptr : fptr := 64.
Definition handle_RUNLEVEL_WAITING_FOR_START_DEP_ptr : fptr := 65.
Definition handle_RUNLEVEL_WAITING_FOR_STOP_DEP_ptr : fptr := 66.

Definition TYPE_RUNLEVEL : stype_h :=
  SType 160 "runlevel" false (Some start_RUNLEVEL_ptr) (Some stop_RUNLEVEL_ptr) None.
Definition TYPE_VIRTUAL : stype_h :=
  SType 161 "virtual" true (Some start_RUNLEVEL_ptr) (Some stop_RUNLEVEL_ptr) None.

Definition RUNLEVEL_START_MARKED := AState 501 "START_MARKED" IS_STARTING
  None (Some init_RUNLEVEL_START_MARKED_ptr) None
  (Some "This runlevel is marked to be started."%string).
Definition RUNLEVEL_STOP_MARKED := AState 502 "STOP_MARKED" IS_STOPPING
  None (Some init_RUNLEVEL_STOP_MARKED_ptr) None
  (Some "This runlevel is marked to be stopped."%string).
Definition RUNLEVEL_UP := AState 503 "UP" IS_UP None None None
  (Some "This runlevel is UP."%string).
Definition RUNLEVEL_WAITING_FOR_START_DEP := AState 504 "WAITING_FOR_START_DEP" IS_STARTING
  (Some handle_RUNLEVEL_WAITING_FOR_START_DEP_ptr) None None
  (Some "Waiting for all services in this runlevel to start."%string).
Definition RUNLEVEL_WAITING_FOR_STOP_DEP := AState 505 "WAITING_FOR_STOP_DEP" IS_STOPPING
  (Some handle_RUNLEVEL_WAITING_FOR_STOP_DEP_ptr) None None
  (Some "Waiting for all services depending on this runlevel to stop, before the runlevel can be stopped."%string).
Definition RUNLEVEL_DOWN := AState 506 "DOWN" IS_DOWN None None None
  (Some "Runlevel is not currently active."%string).
Definition RUNLEVEL_START_DEPS_FAILED := AState 507 "START_DEPS_FAILED" IS_FAILED None None None
  (Some "Some services in this runlevel failed"%string).

(** ** Stype handlers *)

Definition start_RUNLEVEL (service : addr) : G Z :=
  let! a := get_service service in
  if IS_MARK a RUNLEVEL_WAITING_FOR_STOP_DEP then
    initng_common_mark_service service RUNLEVEL_UP ;;; mpure TRUE
  else
    let! r := initng_common_mark_service service RUNLEVEL_START_MARKED in
    if negb (c_true r) then mpure FALSE else mpure TRUE.

Definition stop_RUNLEVEL (service : addr) : G Z :=
  let! a := get_service service in
  if IS_MARK a RUNLEVEL_WAITING_FOR_START_DEP then
    initng_common_mark_service service RUNLEVEL_DOWN ;;; mpure TRUE
  else
    let! r := initng_common_mark_service service RUNLEVEL_STOP_MARKED in
    if negb (c_true r) then mpure FALSE else mpure TRUE.

(** ** Helpers *)

(** The runlevel that is not [new_rl]; the database does not change meanwhile. *)
Definition is_old_runlevel (new_rl : addr) (x : addr * active_db_h) : bool :=
  bool_decide (a_type (snd x) = Some TYPE_RUNLEVEL) && negb (Pos.eqb (fst x) new_rl).

Definition runlevel_find_old (new_rl : addr) (g : s_global) : option addr :=
  fst <$> List.find (is_old_runlevel new_rl) (active_services g).

(** Is [dep] a NEED of the runlevel with the variables [d]?  [n] bounds the
    rounds by the number of variables. *)
Fixpoint find_dep_loop (n : nat) (d : data_head) (dep : string) (itt : option addr) : option Z :=
  match n with
  | O => None
  | S n =>
    match initng_data_get_next_string_var NEED None d itt with
    | (Some dep_new, itt) => if String.eqb dep_new dep then Some TRUE else find_dep_loop n d dep itt
    | (None, _) => Some FALSE
    end
  end.

Definition runlevel_find_dep (rl : addr) (dep : string) : G Z :=
  let! a := get_service rl in
  match find_dep_loop (S (length (all_entries (a_data a)))) (a_data a) dep None with
  | Some r => mpure r
  | None => nofuel
  end.

Section runlevel.
Context `{!Callbacks} (fuel : nat).

(** The variables of the old runlevel are read again in every round. *)
Fixpoint stop_unneeded_loop (n : nat) (old_rl new_rl : addr) (itt_old : option addr) : G unit :=
  match n with
  | O => nofuel
  | S n =>
    let! a := get_service old_rl in
    match initng_data_get_next_string_var NEED None (a_data a) itt_old with
    | (None, _) => mpure tt
    | (Some dep_old, itt_old) =>
      let! found := runlevel_find_dep new_rl dep_old in
      (if negb (c_true found) then
         let! to_stop := asks (initng_active_db_find_by_name dep_old) in
         match to_stop with
         | Some to_stop => initng_handler_stop_service to_stop ;;; mpure tt
         | None => mpure tt
         end
       else mpure tt) ;;;
      stop_unneeded_loop n old_rl new_rl itt_old
    end
  end.

Definition runlevel_stop_unneeded (old_rl new_rl : addr) : G unit :=
  let! a := get_service old_rl in
  stop_unneeded_loop (S (length (all_entries (a_data a)))) old_rl new_rl None.

(** ** State functions *)

Definition init_RUNLEVEL_START_MARKED (new_runlevel : addr) : G unit :=
  initng_depend_start_deps fuel new_runlevel ;;;
  let! a := get_service new_runlevel in
  (if bool_decide (a_type a = Some TYPE_RUNLEVEL) then
     let! old_runlevel := asks (runlevel_find_old new_runlevel) in
     (match old_runlevel with
      | Some old_runlevel =>
        runlevel_stop_unneeded old_runlevel new_runlevel ;;;
        initng_handler_stop_service old_runlevel ;;; mpure tt
      | None => mpure tt
      end) ;;;
     let! a := get_service new_runlevel in
     modify (fun g => g <| g_runlevel := Some (a_name a) |>)
   else mpure tt) ;;;
  mark new_runlevel RUNLEVEL_WAITING_FOR_START_DEP.

Definition init_RUNLEVEL_STOP_MARKED (service : addr) : G unit :=
  initng_depend_stop_deps fuel service ;;;
  mark service RUNLEVEL_WAITING_FOR_STOP_DEP.

Definition handle_RUNLEVEL_WAITING_FOR_START_DEP (service : addr) : G unit :=
  let! r := initng_depend_start_dep_met fuel service in
  if r =? FALSE then mpure tt
  else if r =? FAIL then mark service RUNLEVEL_START_DEPS_FAILED
  else mark service RUNLEVEL_UP.

Definition handle_RUNLEVEL_WAITING_FOR_STOP_DEP (service : addr) : G unit :=
  let! r := initng_depend_stop_dep_met fuel service in
  if r =? FALSE then mpure tt
  else mark service RUNLEVEL_DOWN.

(** ** Dispatch of the code addresses *)

Definition runlevel_stype (f : fptr) (s : addr) : G Z :=
  if Pos.eqb f start_RUNLEVEL_ptr then start_RUNLEVEL s
  else if Pos.eqb f stop_RUNLEVEL_ptr then stop_RUNLEVEL s
  else fault.

Definition runlevel_state (f : fptr) (s : addr) : G unit :=
  if Pos.eqb f init_RUNLEVEL_START_MARKED_ptr then init_RUNLEVEL_START_MARKED s
  else if Pos.eqb f init_RUNLEVEL_STOP_MARKED_ptr then init_RUNLEVEL_STOP_MARKED s
  else if Pos.eqb f handle_RUNLEVEL_WAITING_FOR_START_DEP_ptr then handle_RUNLEVEL_WAITING_FOR_START_DEP s
  else if Pos.eqb f handle_RUNLEVEL_WAITING_FOR_STOP_DEP_ptr then handle_RUNLEVEL_WAITING_FOR_STOP_DEP s
  else fault.

End runlevel.

(** ** module_init and module_unload *)

Definition runlevel_states : list a_state_h :=
  [RUNLEVEL_START_MARKED; RUNLEVEL_STOP_MARKED; RUNLEVEL_UP; RUNLEVEL_WAITING_FOR_START_DEP;
   RUNLEVEL_WAITING_FOR_STOP_DEP; RUNLEVEL_DOWN; RUNLEVEL_START_DEPS_FAILED].

Definition runlevel_module_init : G Z :=
  service_type_register TYPE_RUNLEVEL ;;;
  service_type_register TYPE_VIRTUAL ;;;
  for_each (R := unit) runlevel_states (fun st => initng_active_state_register st ;;; mpure None) ;;;
  mpure TRUE.

Definition runlevel_module_unload : G unit :=
  service_type_unregister TYPE_RUNLEVEL ;;;
  service_type_unregister TYPE_VIRTUAL ;;;
  for_each (R := unit) runlevel_states (fun st => active_state_unregister st ;;; mpure None) ;;;
  mpure tt.

(** ** Switching runlevels *)

(** The names that entries list under NEED. *)
Definition is_need (c : s_data) : bool := entry_matches (Some NEED) None c.
Definition needs_of (l : list s_data) : list string := omap (fun c => t_s (d_t c)) (List.filter is_need l).

(** Every entry of type NEED holds a string. *)
Definition needs_are_strings (l : list s_data) : Prop :=
  Forall (fun c => is_need c = true -> is_Some (t_s (d_t c))) l.

Lemma needs_of_app l1 l2 : needs_of (l1 ++ l2) = needs_of l1 ++ needs_of l2.
Proof. unfold needs_of. by rewrite List.filter_app, omap_app. Qed.

(** The next round of a loop over get_next_string(&NEED, ...) that stands behind
    [l1]: it ends with nothing left, or the next name is found. *)
Lemma next_need d l1 l2 last :
  data_ok d -> all_entries d = l1 ++ l2 -> stands_behind l1 last -> needs_are_strings l2 ->
  (initng_data_get_next_string_var NEED None d last = (None, None) /\ needs_of l2 = []) \/
  exists m1 c m2 name, l2 = m1 ++ c :: m2 /\ needs_of (m1 ++ [c]) = [name] /\
    initng_data_get_next_string_var NEED None d last = (Some name, Some (d_addr c)) /\
    stands_behind (l1 ++ m1 ++ [c]) (Some (d_addr c)).
Proof.
  intros Hok E Hl Hs. unfold initng_data_get_next_string_var. rewrite (get_next_var_behind _ _ _ _ _ _ Hok E Hl).
  change (entry_matches (alias_walk <$> Some NEED) None) with is_need.
  destruct (List.find is_need l2) as [c|] eqn:Ef; [right|left].
  - destruct (find_split _ _ _ Ef) as (m1 & m2 & -> & Hm & Hc). unfold needs_are_strings in Hs.
    rewrite Forall_app, Forall_cons in Hs. destruct Hs as (_ & Hcs & _). destruct (Hcs Hc) as [name Hn].
    exists m1, c, m2, name. split; [done|]. split.
    + unfold needs_of. rewrite filter_app_nil by done. cbn. rewrite Hc. cbn. by rewrite Hn.
    + rewrite Hn. split; [done|]. exists (l1 ++ m1), c. by rewrite app_assoc.
  - split; [done|]. unfold needs_of. by rewrite (proj1 (find_filter_nil _ _) Ef).
Qed.

(** runlevel_find_dep searches the names. *)
Lemma find_dep_loop_run n d dep l1 l2 last :
  data_ok d -> all_entries d = l1 ++ l2 -> stands_behind l1 last -> needs_are_strings l2 -> (length l2 < n)%nat ->
  find_dep_loop n d dep last = Some (of_bool (bool_decide (dep ∈ needs_of l2))).
Proof.
  intros Hok. revert l1 l2 last. induction n as [|n IH]; intros l1 l2 last E Hl Hs Hn; [lia|]. cbn [find_dep_loop].
  destruct (next_need d l1 l2 last Hok E Hl Hs) as [[-> ->]|(m1 & c & m2 & name & -> & Hname & -> & Hl')].
  { by rewrite bool_decide_eq_false_2 by (by intros ?%elem_of_nil). }
  assert (Hin : dep ∈ needs_of (m1 ++ c :: m2) <-> dep = name \/ dep ∈ needs_of m2).
  { change (m1 ++ c :: m2) with (m1 ++ [c] ++ m2). rewrite app_assoc, needs_of_app, Hname. set_solver. }
  destruct (String.eqb_spec name dep) as [->|Hne].
  { by rewrite bool_decide_eq_true_2 by (apply Hin; by left). }
  rewrite (IH (l1 ++ m1 ++ [c]) m2 _).
  - do 2 f_equal. apply bool_decide_ext. rewrite Hin. naive_solver.
  - by rewrite E, <- !app_assoc.
  - done.
  - unfold needs_are_strings in Hs |- *. rewrite Forall_app, Forall_cons in Hs. apply Hs.
  - rewrite length_app in Hn. cbn in Hn. lia.
Qed.

Section switch.
Context `{CB : Callbacks} (T : stype_h -> Prop) `{SF : !StopFunctions T}.
Variables (g0 : s_global) (old_rl new_rl : addr) (aold anew : active_db_h).
Hypothesis Hwf : wf g0.
Hypothesis Hall : forall s a, g_heap g0 !! s = Some a -> a_state_lock a = 0 /\ forall ty, a_type a = Some ty -> T ty.
Hypothesis Hold : g_heap g0 !! old_rl = Some aold.
Hypothesis Hnew : g_heap g0 !! new_rl = Some anew.
Hypothesis Sold : needs_are_strings (all_entries (a_data aold)).
Hypothesis Snew : needs_are_strings (all_entries (a_data anew)).

(** Is the service at [s] to be stopped for one of [names]? *)
Definition unneeded (names : list string) (s : addr) (a : active_db_h) : bool :=
  bool_decide (s ∈ g_active_db g0) && bool_decide (a_name a ∈ names) &&
  negb (bool_decide (a_name a ∈ needs_of (all_entries (a_data anew)))).

Definition stopped_for (names : list string) (g : s_global) : Prop :=
  same_deps g0 g /\
  forall s a, g_heap g0 !! s = Some a ->
    exists b, g_heap g !! s = Some b /\ if unneeded names s a then stop_outcome a b else b = a.

Lemma stop_outcome_parts a b :
  stop_outcome a b -> a_state_lock a = 0 -> a_state_lock b = 0 /\ fixed_part b = fixed_part a.
Proof. unfold stop_outcome. destruct (will_stop a); [by intros (_ & ? & ?)|by intros ->]. Qed.

(** Stopping twice is stopping once. *)
Lemma stop_outcome_trans a b c : stop_outcome a b -> stop_outcome b c -> stop_outcome a c.
Proof.
  unfold stop_outcome. destruct (will_stop a) eqn:Ea; [|intros ->; by rewrite Ea]. intros (Hw & Hl & Hf).
  assert (will_stop b = false) as ->; [|by intros ->].
  unfold will_stop, stoppable, winding_down, is_state in *. by destruct (GET_STATE b).
Qed.

Lemma stopped_for_parts names g s a b :
  stopped_for names g -> g_heap g0 !! s = Some a -> g_heap g !! s = Some b ->
  a_state_lock b = 0 /\ fixed_part b = fixed_part a.
Proof.
  intros [_ H] Ha Hb. destruct (H s a Ha) as (b' & Hb' & Ho). simplify_eq. destruct (Hall s a Ha) as [Hl _].
  destruct (unneeded names s a); [by apply stop_outcome_parts|by subst].
Qed.

Lemma fixed_part_type a b : fixed_part b = fixed_part a -> a_type b = a_type a /\ a_data b = a_data a.
Proof. intros H. injection H as _ _ H1 H2. by split. Qed.

(** A name that the new runlevel needs, or that nobody has, changes nothing. *)
Lemma stopped_for_more names name g :
  stopped_for names g -> (forall s a, g_heap g0 !! s = Some a -> unneeded [name] s a = false) ->
  stopped_for (names ++ [name]) g.
Proof.
  intros [Hd H] Hn. split; [done|]. intros s a Ha. destruct (H s a Ha) as (b & Hb & Ho). exists b. split; [done|].
  assert (unneeded (names ++ [name]) s a = unneeded names s a) as ->; [|done].
  specialize (Hn s a Ha). unfold unneeded in *. rewrite (bool_decide_ext (a_name a ∈ names ++ [name]) (a_name a ∈ names \/ a_name a ∈ [name])) by set_solver.
  rewrite bool_decide_or. repeat case_bool_decide; done.
Qed.

(** Stopping the service of that name. *)
Lemma stopped_for_stop names name g t :
  stopped_for names g -> name ∉ needs_of (all_entries (a_data anew)) ->
  initng_active_db_find_by_name name g0 = Some t ->
  exists r g', initng_handler_stop_service t g = Done (r, g') /\ stopped_for (names ++ [name]) g'.
Proof.
  intros HI Hn Ht. apply (find_by_name_spec _ _ _ Hwf) in Ht as (Hin & at0 & Hat & Hname).
  pose proof HI as [(D1 & D2 & D3) H]. destruct (H t at0 Hat) as (b & Hb & Ho).
  destruct (stopped_for_parts names g t at0 b HI Hat Hb) as [Hlb Hfb].
  destruct (stop_service_run T g t b Hb Hlb) as (r & c & g' & E & E1 & E2 & Hc & Hoc & Hrest).
  { destruct (fixed_part_type _ _ Hfb) as [-> _]. intros ty Hty _. by apply (Hall t at0 Hat). }
  destruct (stop_outcome_parts _ _ Hoc Hlb) as [_ Hfc].
  assert (Hun : unneeded (names ++ [name]) t at0 = true).
  { unfold unneeded. rewrite Hname, (bool_decide_eq_true_2 _ Hin), (bool_decide_eq_false_2 _ Hn).
    rewrite bool_decide_eq_true_2; [done|]. apply elem_of_app. right. by apply list_elem_of_singleton. }
  exists r, g'. split; [done|]. split.
  - split; [congruence|]. split; [congruence|]. intros s. destruct (decide (s = t)) as [->|Hs].
    + rewrite Hc, Hat. cbn. by rewrite Hfc, Hfb.
    + by rewrite Hrest, D3 by done.
  - intros s a Ha. destruct (decide (s = t)) as [->|Hs].
    + simplify_eq. exists c. split; [done|]. rewrite Hun.
      destruct (unneeded names t at0); [by eapply stop_outcome_trans|by subst].
    + rewrite Hrest by done. destruct (H s a Ha) as (b' & Hb' & Ho'). exists b'. split; [done|].
      assert (unneeded (names ++ [name]) s a = unneeded names s a) as ->; [|done].
      unfold unneeded. destruct (decide (s ∈ g_active_db g0)) as [Hsin|]; [|by rewrite bool_decide_eq_false_2].
      assert (a_name a <> name) by (intros Ea; apply Hs; apply (wf_names g0 Hwf s t a at0); congruence).
      rewrite (bool_decide_ext (a_name a ∈ names ++ [name]) (a_name a ∈ names)) by set_solver. done.
Qed.

Lemma stop_unneeded_loop_run n l1 l2 last g :
  stopped_for (needs_of l1) g -> all_entries (a_data aold) = l1 ++ l2 -> stands_behind l1 last -> (length l2 < n)%nat ->
  exists g', stop_unneeded_loop n old_rl new_rl last g = Done (tt, g') /\ stopped_for (needs_of (l1 ++ l2)) g'.
Proof.
  revert l1 l2 last g. induction n as [|n IH]; intros l1 l2 last g HI E Hl Hn; [lia|]. cbn [stop_unneeded_loop].
  pose proof HI as [Hd H]. destruct (H old_rl aold Hold) as (b & Hb & _).
  destruct (stopped_for_parts _ _ _ _ _ HI Hold Hb) as [_ Hfb]. destruct (fixed_part_type _ _ Hfb) as [_ Hdb].
  rewrite (mthen_run _ _ _ _ _ (get_service_run _ _ _ Hb)), Hdb.
  assert (Hs2 : needs_are_strings l2).
  { unfold needs_are_strings in Sold |- *. rewrite E, Forall_app in Sold. apply Sold. }
  destruct (next_need (a_data aold) l1 l2 last (wfa_data _ (wf_svc g0 Hwf _ _ Hold)) E Hl Hs2)
    as [[-> Hnil]|(m1 & c & m2 & name & -> & Hname & -> & Hl')].
  { exists g. split; [done|]. by rewrite needs_of_app, Hnil, app_nil_r. }
  destruct (H new_rl anew Hnew) as (bn & Hbn & _).
  destruct (stopped_for_parts _ _ _ _ _ HI Hnew Hbn) as [_ Hfn]. destruct (fixed_part_type _ _ Hfn) as [_ Hdn].
  rewrite (mthen_run _ _ g (of_bool (bool_decide (name ∈ needs_of (all_entries (a_data anew))))) g).
  2:{ unfold runlevel_find_dep. rewrite (mthen_run _ _ _ _ _ (get_service_run _ _ _ Hbn)), Hdn.
      by rewrite (find_dep_loop_run _ _ _ [] _ None (wfa_data _ (wf_svc g0 Hwf _ _ Hnew)) eq_refl eq_refl Snew) by lia. }
  assert (Hround : exists g1, (if negb (c_true (of_bool (bool_decide (name ∈ needs_of (all_entries (a_data anew)))))) then
      let! to_stop := asks (initng_active_db_find_by_name name) in
      match to_stop with Some to_stop => initng_handler_stop_service to_stop ;;; mpure tt | None => mpure tt end
    else mpure tt) g = Done (tt, g1) /\ stopped_for (needs_of l1 ++ [name]) g1).
  { case_bool_decide as Hin; cbn [of_bool]; [change (c_true TRUE) with true|change (c_true FALSE) with false]; cbn [negb].
    - exists g. split; [done|]. apply stopped_for_more; [done|]. intros s a Ha. unfold unneeded.
      destruct (decide (a_name a = name)) as [->|Hne]; [rewrite (bool_decide_eq_true_2 _ Hin); apply andb_false_r|].
      by rewrite (bool_decide_eq_false_2 (a_name a ∈ [name])), andb_false_r by set_solver.
    - rewrite then_asks, (find_by_name_same_deps _ _ name Hd).
      destruct (initng_active_db_find_by_name name g0) as [t|] eqn:Et.
      + destruct (stopped_for_stop _ _ _ _ HI Hin Et) as (r & g1 & Es & HI1). exists g1.
        by rewrite (mthen_run _ _ _ _ _ Es).
      + exists g. split; [done|]. apply stopped_for_more; [done|]. intros s a Ha. unfold unneeded.
        destruct (decide (s ∈ g_active_db g0)) as [Hs|]; [|by rewrite bool_decide_eq_false_2].
        rewrite (bool_decide_eq_false_2 (a_name a ∈ [name])), andb_false_r; [done|].
        pose proof (proj1 (find_by_name_None _ _ Hwf) Et s a Hs Ha). set_solver. }
  destruct Hround as (g1 & Er & HI1). rewrite (mthen_run _ _ _ _ _ Er).
  destruct (IH (l1 ++ m1 ++ [c]) m2 (Some (d_addr c)) g1) as (g' & E' & HI').
  - by rewrite needs_of_app, Hname.
  - by rewrite E, <- !app_assoc.
  - done.
  - rewrite length_app in Hn. cbn in Hn. lia.
  - exists g'. split; [done|]. by rewrite <- !app_assoc in HI'.
Qed.


End switch.
