(* ===== verification/ServiceFile.v ===== *)
(** * Services from files: src/modules/service_file/initng_service_file.c

    A service that is not known is looked for as an executable file; the file is
    run as a process of the new service, with a socket on which it describes the
    service: NEW_ACTIVE, SET_VARIABLE, GET_VARIABLE, DONE and ABORT requests, each
    with a reply.  Without GLOBAL_SOCKET, as the sources are built, this socket
    is the only one.  A request is a struct of fixed size; the model starts from
    its fields. *)
From S2P Require Import Prelude Types Data CString Global ActiveDb Depend Io Interrupt Launch.
From S2P Require Import ServiceMod DaemonMod.
From Stdlib Require Import String Ascii.
From stdpp Require Import prelude gmap strings pretty.
Local Open Scope Z_scope.

(** ** Static structs *)

Definition handle_killed_ptr : fptr := 72.
Definition create_new_active_ptr : fptr := 73.
Definition get_pipe_ptr : fptr := 74.

Definition PARSING := AState 501 "PARSING" IS_NEW None None None
  (Some "This is service is parsing by service_file."%string).
Definition PARSING_FOR_START := AState 502 "PARSING_FOR_START" IS_NEW None None None
  (Some "This is service is parsing by service_file."%string).
Definition NOT_RUNNING := AState 503 "NOT_RUNNING" IS_DOWN None None None
  (Some "When a service is parsed done, its marked DOWN ready for starting."%string).
Definition REDY_FOR_START := AState 504 "REDY_TO_START" IS_DOWN None None None
  (Some "When a service is parsed done, its marked DOWN ready for starting."%string).
Definition PARSE_FAIL := AState 505 "PARSE_FAIL" IS_FAILED None None None
  (Some "This parse process failed."%string).

Definition parse : ptype_h := PType 170 "parse-process" (Some handle_killed_ptr).
Definition unset : stype_h := SType 171 "unset" false None None None.

(** ** The protocol *)

Definition SERVICE_FILE_VERSION : Z := 1.
Definition BP_REP_MAXLEN : nat := 1024.

(** The union [u] with the field [request]. *)
Inductive bp_body :=
| NEW_ACTIVE (type from_file : string)
| SET_VARIABLE (vartype varname value : string)
| GET_VARIABLE (vartype varname : string)
| DONE
| ABORT
| OTHER_REQUEST.

Record bp_req := Req { req_version : Z; req_service : string; req_u : bp_body }.

(** [message] is zeroed before a reply is filled in; a string of up to 1024
    chars fits. *)
Record bp_rep := Rep { rep_success : Z; rep_message : string }.

(** recv on a client: the end of the connection, too few bytes, or a request. *)
Inductive bp_recv := Recv_closed | Recv_short | Recv_req (req : bp_req).

Class ClientSys := { sys_recv : nat -> Z -> bp_recv }.

(** An answer; snprintf and strncpy cut it. *)
Definition failure (message : string) : bp_rep := Rep FALSE (String.substring 0 BP_REP_MAXLEN message).

Definition quoted (s : string) : string := String c_quote s +:+ String c_quote "".

(** An empty string stands for NULL. *)
Definition not_empty (s : string) : option string := if String.eqb s "" then None else Some s.

Section service_file.
Context `{!Callbacks, !ForkSys, !Build, !ClientSys} (fuel : nat).

(** ** bp_new_active *)

Definition set_string (type : s_entry) (s : addr) (value : string) : G unit :=
  let! fresh := new_addr in
  upd_service s (fun a => a <| a_data := initng_data_set_string_var (Some type) None fresh (a_data a) value |>).

Definition bp_new_active (type service from_file : string) : G bp_rep :=
  let! stype := asks (initng_service_type_get_by_name type) in
  match stype with
  | None => mpure (failure ("Unable to find service type " +:+ quoted (String.substring 0 500 type) +:+ " ."))
  | Some stype =>
    let finish new_active :=
      set_string FROM_FILE new_active from_file ;;;
      upd_service new_active (fun a => a <| a_type := Some stype |>) ;;;
      mpure (Rep TRUE "") in
    let! found := asks (initng_active_db_find_by_name service) in
    match found with
    | Some new_active =>
      let! a := get_service new_active in
      if IS_MARK a PARSING_FOR_START then finish new_active else mpure (failure "Duplet found.")
    | None =>
      let! new_active := initng_active_db_new service in
      upd_service new_active (fun a => a <| a_current_state := PARSING |>) ;;;
      let! r := initng_active_db_register new_active in
      if c_true r then finish new_active
      else initng_active_db_free new_active ;;; mpure (Rep FALSE "")
    end
  end.

(** ** bp_set_variable *)

Fixpoint set_words (n : nat) (type : s_entry) (varname : option string) (active : addr) (value : chars) : G unit :=
  match n with
  | O => nofuel
  | S n =>
    match initng_string_dup_next_word value with
    | (None, _) => mpure tt
    | (Some new_st, value) =>
      let! fresh := new_addr in
      upd_service active (fun a => a <| a_data :=
        initng_data_set_another_string_var (Some type) varname fresh (a_data a) (to_string new_st) |>) ;;;
      set_words n type varname active value
    end
  end.

Definition is_set_type (t : e_dt) : bool := match t with SET | VARIABLE_SET => true | _ => false end.

(** The switch over the type of the variable; [value] is only NULL for a SET. *)
Definition store_variable (type : s_entry) (varname value : option string) (active : addr) : G bp_rep :=
  let with_value k := match value with Some value => k value | None => fault end in
  let setter f :=
    let! fresh := new_addr in
    upd_service active (fun a => a <| a_data := f fresh (a_data a) |>) ;;; mpure (Rep TRUE "") in
  match ent_type type with
  | STRING | VARIABLE_STRING =>
    with_value (fun value => setter (fun fresh d => initng_data_set_string_var (Some type) varname fresh d value))
  | STRINGS | VARIABLE_STRINGS =>
    with_value (fun value =>
      set_words (S (String.length value)) type varname active (chars_of value) ;;; mpure (Rep TRUE ""))
  | SET | VARIABLE_SET => setter (fun fresh d => initng_data_set_var (Some type) varname fresh d)
  | INT | VARIABLE_INT =>
    with_value (fun value =>
      setter (fun fresh d => initng_data_set_int_var (Some type) varname fresh d (atoi (chars_of value))))
  | _ => mpure (failure "Unknown data type.")
  end.

Definition parsing (a : active_db_h) : bool := IS_MARK a PARSING || IS_MARK a PARSING_FOR_START.

Definition bp_set_variable (service vartype varname value : string) : G bp_rep :=
  let! active := asks (initng_active_db_find_by_name service) in
  let varname := not_empty varname in
  let value := not_empty value in
  if String.eqb service "" then mpure (failure "Service missing.")
  else if String.eqb vartype "" then mpure (failure "Vartype missing.")
  else match active with
  | None => mpure (failure (service +:+ ": service not found"))
  | Some active =>
    let! a := get_service active in
    if negb (parsing a) then mpure (failure "Please dont edit finished services.")
    else
      let! type := asks (initng_service_data_type_find vartype) in
      match type with
      | None => mpure (failure (vartype +:+ ": variable entry not found"))
      | Some type =>
        if bool_decide (value = None) && negb (is_set_type (ent_type type))
        then mpure (failure "Value missing.")
        else store_variable type varname value active
      end
  end.

(** ** bp_get_variable *)

(** memcpy of [s] to position [p] of the message. *)
Definition msg_write (p : nat) (s : chars) (msg : chars) : option chars :=
  if (p + length s <=? length msg)%nat then Some (take p msg ++ s ++ drop (p + length s) msg) else None.

(** The loop over the strings, at [first_iter]: [p] is where the next string
    goes; it moves on by the separators only.  strlen of NULL is a fault, and the
    loop ends only when [rem] is 0. *)
Fixpoint get_strings_loop (n : nat) (type : s_entry) (varname : option string) (d : data_head) (itt : option addr)
    (p rem : nat) (msg : chars) : outcome chars :=
  match n with
  | O => NoFuel
  | S n =>
    match initng_data_get_next_string_var type varname d itt with
    | (None, _) => Fault
    | (Some tmp, itt) =>
      let len := Nat.min (String.length tmp) rem in
      match msg_write p (take len (chars_of tmp)) msg with
      | None => Fault
      | Some msg =>
        let rem := (rem - len)%nat in
        if (rem =? 0)%nat then Done msg
        else match msg_write p [c_space] msg with
             | None => Fault
             | Some msg => get_strings_loop n type varname d itt (S p) (rem - 1) msg
             end
      end
    end
  end.

Definition empty_message : chars := replicate (BP_REP_MAXLEN + 1) c_nul.

Definition read_variable (type : s_entry) (varname : option string) (a : active_db_h) : G bp_rep :=
  match ent_type type with
  | STRING | VARIABLE_STRING =>
    let! s := deref (fun _ => initng_data_get_string_var type varname (a_data a)) in
    mpure (Rep TRUE (String.substring 0 BP_REP_MAXLEN s))
  | STRINGS | VARIABLE_STRINGS =>
    let! msg := lift (get_strings_loop (S (length (all_entries (a_data a)))) type varname (a_data a) None
                        0 BP_REP_MAXLEN empty_message) in
    mpure (Rep TRUE (to_string (CString.c_string msg)))
  | SET | VARIABLE_SET => mpure (Rep (of_bool (initng_data_is_var type varname (a_data a))) "")
  | INT | VARIABLE_INT =>
    let! var := deref (fun _ => initng_data_get_int_var type varname (a_data a)) in
    mpure (Rep TRUE (pretty var))
  | _ => mpure (failure "Unknown data type.")
  end.

Definition bp_get_variable (service vartype varname : string) : G bp_rep :=
  let! active := asks (initng_active_db_find_by_name service) in
  let varname := not_empty varname in
  if String.eqb service "" || String.eqb vartype "" then mpure (failure "Variables missing.")
  else match active with
  | None => mpure (failure (service +:+ ": service not found"))
  | Some active =>
    let! type := asks (initng_service_data_type_find vartype) in
    match type with
    | None => mpure (failure "Variable entry not found.")
    | Some type =>
      let! a := get_service active in
      read_variable type varname a
    end
  end.

(** ** bp_done, bp_abort *)

Definition bp_done (service : string) : G bp_rep :=
  let! active := asks (initng_active_db_find_by_name service) in
  match active with
  | None => mpure (failure "Service not found.")
  | Some active =>
    let! a := get_service active in
    let not_parsing := mpure (failure "Service is not in PARSING state, can not start.") in
    if bool_decide (a_type a = None) || bool_decide (a_type a = Some unset)
    then mpure (failure ("Type not set, please run iregister type service" +:+ String c_nl ""))
    else if IS_MARK a PARSING_FOR_START then
      let! r := initng_common_mark_service active REDY_FOR_START in
      if c_true r then
        let! r := initng_handler_start_service fuel active in
        mpure (Rep r "")
      else not_parsing
    else if IS_MARK a PARSING then
      let! r := initng_common_mark_service active NOT_RUNNING in
      mpure (Rep r "")
    else not_parsing
  end.

Definition bp_abort (service : string) : G bp_rep :=
  let! active := asks (initng_active_db_find_by_name service) in
  match active with
  | None => mpure (failure "Service not found.")
  | Some active =>
    let! a := get_service active in
    if negb (parsing a) then mpure (failure "Service is not in PARSING state, cant start.")
    else mpure (Rep TRUE "")
  end.

(** ** bp_handle_client: the reply that is sent, if any *)

Definition handle_req (req : bp_req) : G bp_rep :=
  let service := req_service req in
  match req_u req with
  | NEW_ACTIVE type from_file => bp_new_active type service from_file
  | SET_VARIABLE vartype varname value => bp_set_variable service vartype varname value
  | GET_VARIABLE vartype varname => bp_get_variable service vartype varname
  | DONE => bp_done service
  | ABORT => bp_abort service
  | OTHER_REQUEST => mpure (Rep FALSE "")
  end.

Definition bp_handle_client (fd : Z) : G (option bp_rep) :=
  let! r := syscall (fun t => sys_recv t fd) in
  match r with
  | Recv_closed => mpure None
  | Recv_short => mpure (Some (failure "Unable to read request"))
  | Recv_req req =>
    if negb (req_version req =? SERVICE_FILE_VERSION) then mpure (Some (failure "Bad protocol version"))
    else let! rep := handle_req req in mpure (Some rep)
  end.

(** ** handle_killed: the kill handler of a parse process *)

Definition handle_killed (service p : addr) : G unit :=
  let! process := get_process service p in
  let! a := get_service service in
  if negb (WEXITSTATUS (p_r_code process) =? 0) || bool_decide (a_type a = Some unset) then
    initng_common_mark_service service PARSE_FAIL ;;;
    process_free service p
  else
    process_free service p ;;;
    initng_handler_start_service fuel service ;;; mpure tt.

(** ** parse_new_service_file *)

Definition S_IFMT : Z := 61440.
Definition S_IXUSR : Z := 64.

(** The pipe to the parse process, which it sees as descriptor 3. *)
Definition parse_pipe : pipe_h :=
  let pi := initng_process_db_pipe_new IN_AND_OUT_PIPE in pi <| pi_targets := <[O := 3]> (pi_targets pi) |>.

Definition parse_process (p : addr) : process_h :=
  let q := initng_process_db_new p parse in q <| p_pipes := p_pipes q ++ [parse_pipe] |>.

Definition parse_new_service_file (event : s_event) (name file : string) : G (Z * s_event) :=
  let! mode := syscall (fun t => sys_stat t file) in
  match mode with
  | None => mpure (FALSE, event)
  | Some mode =>
    if negb (Z.land mode S_IFMT =? S_IFREG) then mpure (FALSE, event)
    else if Z.land mode S_IXUSR =? 0 then mpure (FALSE, event)
    else
      let! new_active := initng_active_db_new name in
      upd_service new_active (fun a => a <| a_current_state := PARSING_FOR_START |> <| a_type := Some unset |>) ;;;
      let! r := initng_active_db_register new_active in
      if negb (c_true r) then initng_active_db_free new_active ;;; mpure (FALSE, event)
      else
        let! p := new_addr in
        upd_service new_active (fun a => a <| a_processes := a_processes a ++ [parse_process p] |>) ;;;
        initng_fork new_active p (fun files =>
          let! env := initng_env_new new_active in
          mpure (Execve [file; "internal_setup"]%string env (after_execve files))) ;;;
        mpure (TRUE, event <| ev_ret := Some new_active |>)
  end.

(** ** create_new_active: the hook of EVENT_NEW_ACTIVE *)

Definition create_new_active (event : s_event) : G s_event :=
  match ev_data event with
  | ED_name name =>
    let bname := to_string (initng_string_basename (chars_of name)) in
    if String.eqb bname "this" || String.eqb bname "any" then mpure event
    else
      let file := INITNG_ROOT +:+ "/" +:+ name in
      let dir := to_string (initng_string_dirname (chars_of file)) in
      let found event := mpure (event <| ev_status := HANDLED |>) in
      let! (r, event) := parse_new_service_file event name file in
      if c_true r then found event
      else
        let! (r, event) := parse_new_service_file event name (file +:+ "/this") in
        if c_true r then found event
        else
          let! (r, event) := parse_new_service_file event name (dir +:+ "/any") in
          if c_true r then found event else mpure event
  | _ => fault
  end.

(** ** get_pipe: the hook of EVENT_PIPE_WATCHER *)

Definition bp_get_pipe (event : s_event) : G s_event :=
  match ev_data event with
  | ED_pipe s p k =>
    let! pi := get_pipe s p k in
    if negb (bool_decide (pi_dir pi = IN_AND_OUT_PIPE)) then mpure event
    else if negb (bool_decide (head (pi_targets pi) = Some 3)) then mpure event
    else
      bp_handle_client (pipe1 pi) ;;;
      mpure (event <| ev_status := HANDLED |>)
  | _ => fault
  end.

End service_file.

(** ** module_init, module_unload *)

(** PARSING_FOR_START is not registered. *)
Definition service_file_states : list a_state_h := [REDY_FOR_START; NOT_RUNNING; PARSING; PARSE_FAIL].

Definition service_file_module_init : G Z :=
  process_type_register parse ;;;
  initng_event_hook_register_real "initng_service_file.c" EVENT_NEW_ACTIVE create_new_active_ptr ;;;
  initng_event_hook_register_real "initng_service_file.c" EVENT_PIPE_WATCHER get_pipe_ptr ;;;
  for_each (R := unit) service_file_states (fun st => initng_active_state_register st ;;; mpure None) ;;;
  mpure TRUE.

Definition service_file_module_unload : G unit :=
  process_type_unregister parse ;;;
  initng_event_hook_unregister_real EVENT_NEW_ACTIVE create_new_active_ptr ;;;
  initng_event_hook_unregister_real EVENT_PIPE_WATCHER get_pipe_ptr ;;;
  for_each (R := unit) service_file_states (fun st => active_state_unregister st ;;; mpure None) ;;;
  mpure tt.

(** ** Lemmas *)

Lemma find_by_name_put name g s a b :
  g_heap g !! s = Some a -> a_name b = a_name a -> a_name_hash b = a_name_hash a ->
  initng_active_db_find_by_name name (put_service s b g) = initng_active_db_find_by_name name g.
Proof.
  intros Ha Hn Hh. unfold initng_active_db_find_by_name, active_services. cbn.
  induction (g_active_db g) as [|x l IH]; cbn; [done|].
  destruct (decide (x = s)) as [->|Hne].
  - rewrite lookup_insert_eq, Ha. cbn. rewrite Hn, Hh. by destruct (_ && _).
  - rewrite lookup_insert_ne by done. destruct (g_heap g !! x) as [c|]; cbn; [|done]. by destruct (_ && _).
Qed.

Lemma not_empty_Some s : s <> ""%string -> not_empty s = Some s.
Proof. intros H. unfold not_empty. by rewrite (proj2 (String.eqb_neq _ _) H). Qed.

Lemma substring_all n s : (String.length s <= n)%nat -> String.substring 0 n s = s.
Proof.
  revert n. induction s as [|c s IH]; intros [|n] H; cbn in *; [done|done|lia|]. by rewrite IH by lia.
Qed.

(** The types that hold a string are no aliases. *)
Lemma string_type_walk type :
  ent_type type = STRING \/ ent_type type = VARIABLE_STRING -> alias_walk type = type /\ IT type STRING = true.
Proof.
  intros H. destruct type as [a n t ot al]. cbn in H. split; [destruct al|]; destruct H; subst t; done.
Qed.

Section requests.
Context `{CB : Callbacks, FS : ForkSys, BU : Build, CS : ClientSys}.
Variables (g : s_global) (service : string) (s : addr) (a : active_db_h).
Hypothesis found : initng_active_db_find_by_name service g = Some s.
Hypothesis there : g_heap g !! s = Some a.

(** C29: a variable that a service file sets is read back.  For a string variable of
    a service that is being parsed, a SET_VARIABLE request succeeds, and a
    GET_VARIABLE request for it then answers with the value. *)
Theorem variable_set_is_read_back vartype varname value type :
  data_ok (a_data a) -> parsing a = true -> service <> ""%string -> vartype <> ""%string -> value <> ""%string ->
  (String.length value <= BP_REP_MAXLEN)%nat -> initng_service_data_type_find vartype g = Some type ->
  ent_type type = STRING \/ ent_type type = VARIABLE_STRING -> check_vn type (not_empty varname) = true ->
  exists g', bp_set_variable service vartype varname value g = Done (Rep TRUE "", g') /\
    bp_get_variable service vartype varname g' = Done (Rep TRUE value, g').
Proof.
  intros Hok Hp Hs Hv Hval Hlen Hty Hst Hvn. destruct (string_type_walk type Hst) as [Hw Hit].
  set (b := a <| a_data := initng_data_set_string_var (Some type) (not_empty varname) (g_fresh g) (a_data a) value |>).
  set (g1 := g <| g_fresh := Pos.succ (g_fresh g) |>). exists (put_service s b g1).
  apply String.eqb_neq in Hs, Hv. split.
  - unfold bp_set_variable. rewrite then_asks, Hs, Hv, found, (not_empty_Some _ Hval).
    rewrite (mthen_run _ _ _ _ _ (get_service_run _ _ _ there)), Hp. cbn [negb]. rewrite then_asks, Hty.
    rewrite bool_decide_eq_false_2 by done. cbn [andb]. unfold store_variable.
    assert (there1 : g_heap g1 !! s = Some a) by done.
    destruct Hst as [-> | ->]; rewrite (mthen_run _ _ g (g_fresh g) g1) by done;
      by rewrite (mthen_run _ _ _ _ _ (upd_service_run _ _ _ _ there1)).
  - unfold bp_get_variable. rewrite then_asks, (find_by_name_put _ g1 s a b there) by done.
    change (initng_active_db_find_by_name service g1) with (initng_active_db_find_by_name service g).
    rewrite Hs, Hv, found. cbn [orb]. rewrite then_asks.
    change (initng_service_data_type_find vartype (put_service s b g1)) with (initng_service_data_type_find vartype g).
    rewrite Hty, (mthen_run _ _ _ _ _ (get_service_run _ _ _ (put_service_lookup g1 s b))). unfold read_variable.
    destruct (set_string_get_string type (not_empty varname) (g_fresh g) (a_data a) value Hok) as [E _];
      [by rewrite Hw|by rewrite Hw|].
    destruct Hst as [-> | ->]; rewrite (then_deref _ _ _ value) by done; by rewrite (substring_all _ _ Hlen).
Qed.

(** The room that a string takes in the message, with its separator. *)
Definition room (c : s_data) : nat := match t_s (d_t c) with Some s => S (String.length s) | None => O end.

Lemma get_strings_loop_fault n type vn d l1 l2 itt p rem msg :
  data_ok d -> all_entries d = l1 ++ l2 -> stands_behind l1 itt -> (length l2 < n)%nat ->
  (list_sum (map room (List.filter (entry_matches (Some (alias_walk type)) vn) l2)) <= rem)%nat ->
  get_strings_loop n type vn d itt p rem msg = Fault.
Proof.
  revert l1 l2 itt p rem msg. induction n as [|n IH]; intros l1 l2 itt p rem msg Hok E Hb Hn Hsum; [lia|].
  cbn [get_strings_loop]. unfold initng_data_get_next_string_var.
  rewrite (get_next_var_behind _ _ _ _ _ _ Hok E Hb). cbn [fmap option_fmap option_map].
  destruct (List.find _ l2) as [c|] eqn:Ef; [|done].
  destruct (find_split _ _ _ Ef) as (m1 & m2 & -> & Hm & Hc).
  rewrite filter_app_nil in Hsum by done. cbn [List.filter] in Hsum. rewrite Hc in Hsum. cbn [map list_sum foldr] in Hsum.
  unfold room at 1 in Hsum. destruct (t_s (d_t c)) as [tmp|]; [|done].
  change (foldr Nat.add 0%nat) with list_sum in Hsum.
  destruct (msg_write p _ msg) as [msg1|]; [|done].
  rewrite (proj2 (Nat.eqb_neq _ _)) by lia. destruct (msg_write p [c_space] msg1) as [msg2|]; [|done].
  apply (IH (l1 ++ m1 ++ [c]) m2); [done| | | |].
  - by rewrite E, <- !app_assoc.
  - exists (l1 ++ m1), c. by rewrite app_assoc.
  - rewrite length_app in Hn. cbn in Hn. lia.
  - lia.
Qed.

(** Asking for a list of strings takes initng down.  A GET_VARIABLE request for
    a variable of type STRINGS, as "need" is, makes initng read behind the last
    string of the list, unless the strings fill the 1024 bytes of the message:
    the loop ends when the message is full and not when the strings are. *)
Theorem reading_strings_crashes vartype varname type :
  data_ok (a_data a) -> service <> ""%string -> vartype <> ""%string ->
  initng_service_data_type_find vartype g = Some type ->
  ent_type type = STRINGS \/ ent_type type = VARIABLE_STRINGS ->
  (list_sum (map room (List.filter (entry_matches (Some (alias_walk type)) (not_empty varname)) (all_entries (a_data a))))
    <= BP_REP_MAXLEN)%nat ->
  bp_get_variable service vartype varname g = Fault.
Proof.
  intros Hok Hs Hv Hty Hst Hsum. apply String.eqb_neq in Hs, Hv.
  unfold bp_get_variable. rewrite then_asks, Hs, Hv, found. cbn [orb]. rewrite then_asks, Hty.
  rewrite (mthen_run _ _ _ _ _ (get_service_run _ _ _ there)). unfold read_variable.
  pose proof (get_strings_loop_fault (S (length (all_entries (a_data a)))) type (not_empty varname) (a_data a) []
    (all_entries (a_data a)) None 0 BP_REP_MAXLEN empty_message Hok eq_refl eq_refl (Nat.lt_succ_diag_r _) Hsum) as E.
  by destruct Hst as [-> | ->]; unfold mthen, lift; rewrite E.
Qed.

(** C30: finished services are not edited.  Whatever NEW_ACTIVE, SET_VARIABLE and
    ABORT requests ask for, a service that is registered and not being parsed
    stays as it is, and so does everything else. *)
Theorem finished_services_are_not_edited req :
  req_service req = service -> parsing a = false ->
  match req_u req with NEW_ACTIVE _ _ | SET_VARIABLE _ _ _ | ABORT => True | _ => False end ->
  forall fuel, exists message, handle_req fuel req g = Done (Rep FALSE message, g).
Proof.
  intros Hs Hp Hreq fuel. unfold handle_req. rewrite Hs. destruct (req_u req) as [type file|ty vn v|ty vn| | |]; [| |done|done| |done].
  - unfold bp_new_active. rewrite then_asks. destruct (initng_service_type_get_by_name type g); [|by eexists].
    rewrite then_asks, found, (mthen_run _ _ _ _ _ (get_service_run _ _ _ there)).
    unfold parsing in Hp. apply orb_false_iff in Hp as [_ ->]. by eexists.
  - unfold bp_set_variable. rewrite then_asks, found. do 2 (case_match; [by eexists|]).
    rewrite (mthen_run _ _ _ _ _ (get_service_run _ _ _ there)), Hp. by eexists.
  - unfold bp_abort. rewrite then_asks, found, (mthen_run _ _ _ _ _ (get_service_run _ _ _ there)), Hp. by eexists.
Qed.

End requests.
