(* ===== verification/Hooks.v ===== *)
(** * What the launcher, service files, polling, modules and commands keep

    The hooks of simple_launcher and service_file keep the system well typed, as
    file Typed states it: the launcher changes no type of process, and a service
    that is loaded from a file is unsettled until the file is read.  Polling,
    registering, loading of modules and commands keep it too, provided the code
    they call does. *)
From S2P Require Import Prelude Types Data CString Global ActiveDb Depend Io Poll Interrupt Launch Modules Typed.
From S2P Require Import ServiceMod DaemonMod Control Main ServiceFile.
From Stdlib Require Import String.
From stdpp Require Import prelude gmap strings.
Local Open Scope Z_scope.

(** What the types of a system with service files have in common. *)
Class FileTyping `{!Typing} := {
  file_states st : st ∈ [NOT_RUNNING; REDY_FOR_START; PARSE_FAIL] -> st ∈ common_states /\ st ∉ unsettled;
  file_parsing st : st ∈ [PARSING; PARSING_FOR_START] -> st ∈ unsettled;
  file_parse : parse ∈ common_ptypes
}.

(** ** Variables *)

Section variables.
Context `{TY : Typing}.

Lemma stored_at fresh a t d :
  data_ok d -> Forall (fun c => (d_addr c < fresh)%positive) (all_entries d) ->
  data_ok (data_store a t d) /\ Forall (fun c => (d_addr c < fresh)%positive) (all_entries (data_store a t d)).
Proof.
  intros Hok Hf. split; [by apply data_ok_store|]. rewrite all_entries_store. apply Forall_fmap.
  apply (Forall_impl _ _ _ Hf). intros c Hc. cbn. by destruct (Pos.eqb _ _).
Qed.

Lemma sets_at_string type vn value : sets_at (fun fresh d => initng_data_set_string_var type vn fresh d value).
Proof.
  intros fresh d Hok Hf. unfold initng_data_set_string_var. repeat case_match; try by apply stay_at.
  - destruct (stored_at fresh (d_addr s0) (T_s value) d Hok Hf). by apply stay_at.
  - by apply add_at.
Qed.

Lemma sets_at_another type vn value : sets_at (fun fresh d => initng_data_set_another_string_var type vn fresh d value).
Proof.
  intros fresh d Hok Hf. unfold initng_data_set_another_string_var. repeat case_match; try by apply stay_at. by apply add_at.
Qed.

Lemma kept_store_string P s c t : kept P (store_string s c t).
Proof.
  intros g r g' _ E. unfold store_string in E. destruct (g_heap g !! s) as [a|] eqn:Ha.
  2:{ unfold upd_service, mthen, get_service, deref in E. by rewrite Ha in E. }
  rewrite (upd_service_run _ _ _ _ Ha) in E. injection E as <- <-. eapply put_step; [done|by intros|done|]. intros Hok.
  destruct (wf_svc g (ok_wf g Hok) s a Ha) as [W1 W2 W3 W4]. destruct (ok_svc g Hok s a Ha) as [S1 S2 SU S3 S4].
  destruct (stored_at (g_fresh g) (d_addr c) t _ W4 S4). by split; split.
Qed.

Lemma kept_set_string P type s value : kept P (set_string type s value).
Proof. apply (kept_set_data P s (fun fresh d => initng_data_set_string_var (Some type) None fresh d value)), sets_at_string. Qed.

(** A process of a type that every service may have. *)
Lemma kept_add_process P s q :
  p_pt q ∈ common_ptypes -> kept P (upd_service s (fun a => a <| a_processes := a_processes a ++ [q] |>)).
Proof.
  intros Hq g r g' _ E. destruct (g_heap g !! s) as [a|] eqn:Ha.
  2:{ unfold upd_service, mthen, get_service, deref in E. by rewrite Ha in E. }
  rewrite (upd_service_run _ _ _ _ Ha) in E. injection E as <- <-. apply (put_process_step g s a q Ha). intros _.
  split; [by apply ptype_ok_common|done].
Qed.

(** The type of a service that is being loaded may change. *)
Definition loading (s : addr) (g : s_global) : Prop := exists a, g_heap g !! s = Some a /\ a_current_state a ∈ unsettled.

Lemma kept_retype s ty : kept (loading s) (upd_service s (fun a => a <| a_type := Some ty |>)).
Proof.
  intros g r g' (a & Ha & Hu) E. rewrite (upd_service_run _ _ _ _ Ha) in E. injection E as <- <-.
  eapply put_step; [done|by intros ?|done|]. intros Hok.
  destruct (wf_svc g (ok_wf g Hok) s a Ha) as [W1 W2 W3 W4]. destruct (ok_svc g Hok s a Ha) as [S1 S2 SU S3 S4].
  destruct (SU Hu) as [U1 U2]. split; split; try done; cbn.
  - by apply state_ok_common, unsettled_common.
  - intros st Hst. split; [by apply state_ok_common, U2|by apply (S2 st)].
  - apply (Forall_impl _ _ _ U1). intros q Hq. by apply ptype_ok_common.
Qed.

Lemma loading_set_string s type value r g g' : loading s g -> set_string type s value g = Done (r, g') -> loading s g'.
Proof.
  intros (a & Ha & Hu) E. unfold set_string, new_addr in E.
  rewrite (mthen_run _ _ g (g_fresh g) (g <| g_fresh := Pos.succ (g_fresh g) |>) eq_refl) in E.
  set (g1 := g <| g_fresh := Pos.succ (g_fresh g) |>) in E. rewrite (upd_service_run g1 s a _ Ha) in E. injection E as <- <-.
  eexists. split; [apply put_service_lookup|done].
Qed.

End variables.

#[export] Hint Resolve kept_store_string kept_set_string : kept.

Ltac get_first := apply kept_then; [exact _|apply kept_deref|intro].
(** Through the lookups of services and processes too. *)
Ltac module_auto :=
  repeat first
    [ progress kept_auto
    | lazymatch goal with |- kept _ (mthen (get_service _) _) => get_first end
    | lazymatch goal with |- kept _ (mthen (get_process _ _) _) =>
        apply kept_then; [exact _|unfold get_process; get_first; apply kept_deref|intro] end ].

(** ** fork.c and the launcher *)

Section launcher_facts.
Context `{TY : Typing, CB : Callbacks, SY : Sys, TC : !TypedCallbacks, FS : ForkSys, BU : Build}.

Lemma kept_lift {A} P (o : outcome A) : kept P (lift o).
Proof. intros g a g' _ E. unfold lift in E. destruct o; [|done..]. by injection E as <- <-. Qed.

Lemma kept_in_child P m : kept P (in_child m).
Proof. intros g a g' _ E. unfold in_child in E. destruct (m g) as [[e g1]| |]; [|done|]; by injection E as <- <-. Qed.
#[local] Hint Resolve kept_lift kept_in_child : kept.

Lemma kept_pipes_create P s p : kept P (pipes_create s p).
Proof.
  apply kept_anywhere. unfold pipes_create. module_auto; [|by apply kept_upd_process].
  induction (p_pipes a) as [|pi l IH]; cbn [map_pipes]; unfold pipe_create; kept_auto.
Qed.
#[local] Hint Resolve kept_pipes_create : kept.

Lemma kept_fork_loop P n : kept P (fork_loop n).
Proof. apply kept_anywhere. induction n as [|n IH]; cbn [fork_loop]; kept_auto. Qed.
#[local] Hint Resolve kept_fork_loop : kept.

Lemma kept_fork P s p child : kept P (initng_fork s p child).
Proof.
  apply kept_anywhere. unfold initng_fork. module_auto; [by apply kept_modify|].
  apply kept_upd_process. intros q. by destruct (0 <? z).
Qed.
#[local] Hint Resolve kept_fork : kept.

Lemma kept_exec_fork P s p argv : kept P (simple_exec_fork p s argv).
Proof. apply kept_anywhere. unfold simple_exec_fork. module_auto. by apply kept_upd_process. Qed.
#[local] Hint Resolve kept_exec_fork : kept.

Lemma kept_next_string P type vn s itt : kept P (next_string type vn s itt).
Proof. apply kept_anywhere. unfold next_string. module_auto. Qed.

Lemma kept_fix_escapes_at P s c str : kept P (fix_escapes_at s c str).
Proof. apply kept_anywhere. unfold fix_escapes_at. module_auto. Qed.
#[local] Hint Resolve kept_next_string kept_fix_escapes_at : kept.

Lemma kept_exec_try P c exec s p name : kept P (simple_exec_try c exec s p name).
Proof. apply kept_anywhere. unfold simple_exec_try. module_auto. Qed.
#[local] Hint Resolve kept_exec_try : kept.

Lemma kept_simple_exec P s p : kept P (simple_exec s p).
Proof.
  apply kept_anywhere. unfold simple_exec. module_auto. generalize (S (length (all_entries (a_data a)))), (@None addr).
  induction n as [|n IH]; intros itt; cbn [simple_exec_loop]; module_auto.
Qed.

Lemma kept_expand_exec P exec : kept P (expand_exec exec).
Proof.
  apply kept_anywhere. unfold expand_exec. cbv zeta. module_auto.
  induction l as [|dir l IH]; cbn [expand_loop]; cbv zeta; kept_auto.
Qed.
#[local] Hint Resolve kept_simple_exec kept_expand_exec : kept.

Lemma kept_s_launch P e : kept P (initng_s_launch e).
Proof. apply kept_anywhere. unfold initng_s_launch, simple_run. cbv zeta. module_auto. Qed.

End launcher_facts.

#[export] Hint Resolve kept_lift kept_fork : kept.

(** ** service_file *)

Section file_facts.
Context `{TY : Typing, FT : !FileTyping, CB : Callbacks, SY : Sys, TC : !TypedCallbacks, FS : ForkSys, BU : Build, CS : ClientSys}.

(** A new service in a state of parsing. *)
Lemma kept_new_parsing P name f :
  (forall a, a_name (f a) = a_name a /\ a_name_hash (f a) = a_name_hash a /\ a_state_lock (f a) = a_state_lock a /\
    a_next_state (f a) = a_next_state a /\ a_data (f a) = a_data a /\ a_processes (f a) = a_processes a /\
    a_current_state (f a) ∈ [PARSING; PARSING_FOR_START]) -> kept P (new_with name f).
Proof.
  intros Hf. apply kept_new_with.
  - intros a [W1 W2 W3 W4]. destruct (Hf a) as (E1 & E2 & E3 & E4 & E5 & E6 & E7). split; [done|].
    split; by rewrite ?E1, ?E2, ?E3, ?E4, ?E5.
  - intros fresh now. destruct (Hf (new_active name now)) as (E1 & E2 & E3 & E4 & E5 & E6 & E7).
    split; rewrite ?E4, ?E5, ?E6; try done; [|constructor..]. by apply state_ok_common, unsettled_common, file_parsing.
Qed.

Lemma kept_parse_file P e name file : kept P (parse_new_service_file e name file).
Proof.
  apply kept_anywhere. unfold parse_new_service_file. apply kept_then; [exact _|kept_auto|].
  intros [mode|]; [|kept_auto]. do 2 (destruct (_ =? _); cbn [negb]; [try apply kept_pure|try apply kept_pure]).
  apply kept_new_then, kept_then; [exact _|apply kept_new_parsing; intros b; repeat split; cbn; set_solver|]. kept_auto.
  by apply kept_add_process, file_parse.
Qed.
#[local] Hint Resolve kept_parse_file : kept.

Lemma kept_create_new_active P e : kept P (create_new_active e).
Proof. apply kept_anywhere. unfold create_new_active. cbv zeta. kept_auto. Qed.

Lemma kept_finish s type value :
  kept (loading s) (set_string FROM_FILE s value ;;; upd_service s (fun a => a <| a_type := Some type |>) ;;; mpure (Rep TRUE "")).
Proof.
  intros g r g' Hl E. apply mthen_Done in E as ([] & g1 & E1 & E). apply mthen_Done in E as ([] & g2 & E2 & [= <- <-]).
  etransitivity; [by eapply (kept_set_string anywhere)|]. by eapply kept_retype; [eapply loading_set_string|].
Qed.

Lemma register_keeps_loading s x r g g' : loading s g -> initng_active_db_register x g = Done (r, g') -> loading s g'.
Proof.
  intros (a & Ha & Hu) E. exists a. split; [|done]. unfold initng_active_db_register, get_service, deref, mthen in E.
  destruct (g_heap g !! x); [|done]. unfold asks in E. destruct (initng_active_db_find_by_name _ g); injection E as <- <-; [done|].
  unfold active_db_add. by case_decide.
Qed.

Lemma kept_bp_new_active P type service from_file : kept P (bp_new_active type service from_file).
Proof.
  apply kept_anywhere. unfold bp_new_active. cbv zeta. apply kept_then; [exact _|kept_auto|].
  intros [stype|]; [|kept_auto]. apply kept_then; [exact _|kept_auto|]. intros [x|].
  - apply kept_get_service. intros a g r g' _ Ha E. unfold IS_MARK in E. case_bool_decide as Hm; [|by injection E as <- <-].
    eapply kept_finish; [|exact E]. exists a. split; [done|]. rewrite Hm. apply file_parsing. set_solver.
  - apply kept_new_then. intros g r g' _ E. apply mthen_Done in E as (x & g1 & E1 & E).
    etransitivity; [eapply (kept_new_parsing anywhere); [|done|exact E1]; intros b; cbn; repeat split; set_solver|].
    rewrite new_with_run in E1. injection E1 as <- <-. apply mthen_Done in E as (y & g2 & E2 & E).
    etransitivity; [by eapply (kept_register anywhere)|]. destruct (c_true y).
    + eapply kept_finish; [|exact E]. eapply register_keeps_loading; [|exact E2]. eexists. split; [apply put_service_lookup|].
      apply file_parsing. cbn. set_solver.
    + revert E. refine ((_ : kept anywhere _) _ _ _ I). kept_auto.
Qed.

Lemma kept_set_words P n type vn s value : kept P (set_words n type vn s value).
Proof.
  apply kept_anywhere. revert value. induction n as [|n IH]; intros value; cbn [set_words]; [kept_auto|].
  destruct (initng_string_dup_next_word value) as [[w|] rest]; [|kept_auto].
  intros g r g' _ E. apply mthen_Done in E as (x & g1 & E1 & E). apply mthen_Done in E as (y & g2 & E2 & E).
  etransitivity; [|by eapply IH].
  eapply (kept_set_data anywhere s (fun fresh d => initng_data_set_another_string_var (Some type) vn fresh d (to_string w)));
    [apply sets_at_another|done|]. by rewrite (mthen_run _ _ _ _ _ E1).
Qed.
#[local] Hint Resolve kept_set_words kept_bp_new_active : kept.

Lemma kept_setter P s F : sets_at F ->
  kept P (let! fresh := new_addr in upd_service s (fun a => a <| a_data := F fresh (a_data a) |>) ;;; mpure (Rep TRUE "")).
Proof.
  intros HF g r g' _ E. apply mthen_Done in E as (x & g1 & E1 & E). apply mthen_Done in E as (y & g2 & E2 & [= <- <-]).
  eapply (kept_set_data anywhere s F); [done|done|]. by rewrite (mthen_run _ _ _ _ _ E1).
Qed.

Lemma kept_store_variable P type vn value s : kept P (store_variable type vn value s).
Proof.
  unfold store_variable. cbv zeta. destruct (ent_type type), value as [v|]; lazymatch goal with
  | |- context [initng_data_set_string_var] =>
    apply (kept_setter P s (fun fresh d => initng_data_set_string_var (Some type) vn fresh d v)), sets_at_string
  | |- context [initng_data_set_int_var] =>
    apply (kept_setter P s (fun fresh d => initng_data_set_int_var (Some type) vn fresh d (atoi (chars_of v)))), sets_at_int
  | |- context [initng_data_set_var] =>
    apply (kept_setter P s (fun fresh d => initng_data_set_var (Some type) vn fresh d)), sets_at_var
  | |- _ => apply kept_anywhere; kept_auto
  end.
Qed.
#[local] Hint Resolve kept_store_variable : kept.

Lemma kept_bp_set_variable P service vartype varname value : kept P (bp_set_variable service vartype varname value).
Proof. apply kept_anywhere. unfold bp_set_variable. cbv zeta. module_auto. Qed.

Lemma kept_bp_get_variable P service vartype varname : kept P (bp_get_variable service vartype varname).
Proof. apply kept_anywhere. unfold bp_get_variable, read_variable. cbv zeta. module_auto. Qed.

(** The states that mark the end of parsing. *)
Lemma kept_mark_file P s st : st ∈ [NOT_RUNNING; REDY_FOR_START; PARSE_FAIL] -> kept P (initng_common_mark_service s st).
Proof. intros H. destruct (file_states st H). by apply kept_mark_common. Qed.

Lemma kept_bp_done P fuel service : kept P (bp_done fuel service).
Proof. apply kept_anywhere. unfold bp_done. cbv zeta. module_auto; apply kept_mark_file; set_solver. Qed.

Lemma kept_bp_abort P service : kept P (bp_abort service).
Proof. apply kept_anywhere. unfold bp_abort. module_auto. Qed.
#[local] Hint Resolve kept_bp_set_variable kept_bp_get_variable kept_bp_done kept_bp_abort : kept.

Lemma kept_file_pipe P fuel e : kept P (bp_get_pipe fuel e).
Proof. apply kept_anywhere. unfold bp_get_pipe, bp_handle_client, handle_req. cbv zeta. module_auto. Qed.

Lemma kept_parse_killed P fuel s p : kept P (handle_killed fuel s p).
Proof. apply kept_anywhere. unfold handle_killed, process_free. module_auto. apply kept_mark_file. set_solver. Qed.

End file_facts.

(** ** Polling *)

Section poll_facts.
Context `{TY : Typing, CB : Callbacks, SY : Sys, TC : !TypedCallbacks, PS : PollSys}.

Lemma kept_add_pipe P s p k st : kept P (add_pipe s p k st).
Proof. apply kept_anywhere. unfold add_pipe. module_auto. Qed.
#[local] Hint Resolve kept_add_pipe : kept.

Lemma kept_add_pipes P s p ks st : kept P (add_pipes s p ks st).
Proof. apply kept_anywhere. revert st. induction ks as [|k ks IH]; intros st; cbn [add_pipes]; module_auto. Qed.
#[local] Hint Resolve kept_add_pipes : kept.

Lemma kept_add_processes P s ps st : kept P (add_processes s ps st).
Proof. apply kept_anywhere. revert st. induction ps as [|p ps IH]; intros st; cbn [add_processes]; module_auto. Qed.
#[local] Hint Resolve kept_add_processes : kept.

Lemma kept_add_services P ss st : kept P (add_services ss st).
Proof. apply kept_anywhere. revert st. induction ss as [|s ss IH]; intros st; cbn [add_services]; module_auto. Qed.
#[local] Hint Resolve kept_add_services kept_read_input : kept.

Lemma kept_call_pipes P fuel n s p k sets retval : kept P (call_pipes fuel n s p k sets retval).
Proof.
  apply kept_anywhere. revert k retval. induction n as [|n IH]; intros k retval; cbn [call_pipes];
    unfold call_pipe, initng_io_pipe; module_auto.
Qed.
#[local] Hint Resolve kept_call_pipes : kept.

Lemma kept_call_processes P fuel n s current sets retval : kept P (call_processes fuel n s current sets retval).
Proof.
  apply kept_anywhere. revert current retval. induction n as [|n IH]; intros [p|] retval; cbn [call_processes]; module_auto.
Qed.
#[local] Hint Resolve kept_call_processes : kept.

Lemma kept_call_services P fuel n current sets retval : kept P (call_services fuel n current sets retval).
Proof.
  apply kept_anywhere. revert current retval. induction n as [|n IH]; intros [s|] retval; cbn [call_services]; module_auto.
Qed.
#[local] Hint Resolve kept_call_services : kept.

Lemma kept_poll P fuel : kept P (initng_io_module_poll fuel).
Proof. apply kept_anywhere. unfold initng_io_module_poll, send_io_watcher, first_active. module_auto. Qed.

End poll_facts.

(** ** Registering and unregistering touch no service but for the variables *)

Section registries.
Context `{TY : Typing}.

Lemma kept_stype_register P st : kept P (service_type_register st).
Proof. apply kept_modify. intros g. by case_decide. Qed.

Lemma kept_ptype_register P pt : kept P (process_type_register pt).
Proof. apply kept_modify. intros g. by case_decide. Qed.

Lemma kept_option_register P e : kept P (initng_service_data_type_register e).
Proof. apply kept_modify. intros g. by case_match. Qed.

Lemma kept_state_register P st : kept P (initng_active_state_register st).
Proof.
  apply kept_anywhere. unfold initng_active_state_register. kept_auto. apply kept_modify. intros g. by case_decide.
Qed.

Lemma kept_hook_register P file t f : kept P (initng_event_hook_register_real file t f).
Proof.
  unfold initng_event_hook_register_real. apply kept_anywhere, kept_then; [apply _| |intros; apply kept_pure].
  apply kept_modify. intros g. by destruct g.
Qed.

Lemma kept_command_register P c : kept P (initng_command_register c).
Proof. apply kept_anywhere. unfold initng_command_register. kept_auto. by apply kept_modify. Qed.

Lemma kept_stype_unregister P st : kept P (service_type_unregister st).
Proof. by apply kept_modify. Qed.

Lemma kept_ptype_unregister P pt : kept P (process_type_unregister pt).
Proof. by apply kept_modify. Qed.

Lemma kept_option_unregister P e : kept P (initng_service_data_type_unregister e).
Proof. apply kept_anywhere. unfold initng_service_data_type_unregister. kept_auto. by apply kept_modify. Qed.

Lemma kept_state_unregister P st : kept P (active_state_unregister st).
Proof. by apply kept_modify. Qed.

Lemma kept_hook_unregister P t f : kept P (initng_event_hook_unregister_real t f).
Proof. unfold initng_event_hook_unregister_real. apply kept_modify. intros g. by destruct g. Qed.

Lemma kept_command_unregister P c : kept P (initng_command_unregister c).
Proof. by apply kept_modify. Qed.

End registries.

#[export] Hint Resolve kept_stype_register kept_ptype_register kept_option_register kept_state_register kept_hook_register
  kept_command_register kept_stype_unregister kept_ptype_unregister kept_option_unregister kept_state_unregister
  kept_hook_unregister kept_command_unregister : kept.

(** ** Loading and unloading of modules *)

(** The functions of modules keep services well typed. *)
Class TypedModules `{!Typing, !ModuleCode} := {
  typed_init f : kept anywhere (call_init f);
  typed_unload f : kept anywhere (call_unload f)
}.

Section module_facts.
Context `{TY : Typing, MC : ModuleCode, TM : !TypedModules, MS : ModuleSys}.

Lemma kept_init_function P f : kept P (call_init f).
Proof. apply kept_anywhere, typed_init. Qed.
Lemma kept_unload_function P f : kept P (call_unload f).
Proof. apply kept_anywhere, typed_unload. Qed.

Lemma kept_set_flags P m f : kept P (set_flags m f).
Proof. by apply kept_modify. Qed.
Lemma kept_close P m : kept P (initng_module_close_and_free m).
Proof. by apply kept_modify. Qed.

Lemma kept_module_open P path name : kept P (initng_module_open path name).
Proof. apply kept_anywhere. unfold initng_module_open. kept_auto. Qed.
#[local] Hint Resolve kept_init_function kept_unload_function kept_set_flags kept_close kept_module_open : kept.

Lemma kept_open_static P dirs size name : kept P (open_static dirs size name).
Proof. apply kept_anywhere. induction dirs as [|dir dirs IH]; cbn [open_static]; kept_auto. Qed.
#[local] Hint Resolve kept_open_static : kept.

Lemma kept_module_load P name : kept P (initng_module_load name).
Proof. apply kept_anywhere. unfold initng_module_load. cbv zeta. kept_auto. by apply kept_modify. Qed.

Lemma kept_open_all P path files success : kept P (open_all path files success).
Proof.
  apply kept_anywhere. revert success. induction files as [|f files IH]; intros success; cbn [open_all]; kept_auto.
  by apply kept_modify.
Qed.
#[local] Hint Resolve kept_open_all : kept.

Lemma kept_while_modules n current body :
  (forall m, kept anywhere (body m)) -> forall P, kept P (while_module_db_safe n current body).
Proof.
  intros Hb P. apply kept_anywhere. revert current.
  induction n as [|n IH]; intros [a|]; cbn [while_module_db_safe]; kept_auto.
Qed.

Lemma kept_load_all P fuel path : kept P (initng_module_load_all fuel path).
Proof.
  apply kept_anywhere. unfold initng_module_load_all, first_module. kept_auto. apply kept_while_modules. intros m.
  unfold init_body. kept_auto.
Qed.

Lemma kept_unload P m : kept P (unload m).
Proof. apply kept_anywhere. unfold unload. kept_auto. Qed.
#[local] Hint Resolve kept_unload : kept.

Lemma kept_unload_named P name : kept P (initng_module_unload_named name).
Proof. apply kept_anywhere. unfold initng_module_unload_named. kept_auto. by apply kept_modify. Qed.

Lemma kept_unload_marked P fuel : kept P (initng_module_unload_marked fuel).
Proof.
  apply kept_anywhere. unfold initng_module_unload_marked, first_module. kept_auto. apply kept_while_modules. intros m.
  unfold unload_marked_body. kept_auto.
Qed.

Lemma kept_unload_all P fuel : kept P (initng_module_unload_all fuel).
Proof.
  apply kept_anywhere. unfold initng_module_unload_all, first_module. kept_auto; [|by apply kept_modify].
  apply kept_while_modules. intros m. kept_auto.
Qed.

End module_facts.

(** ** Commands *)

Class TypedCommands `{!Typing, !CommandCode} := typed_command f arg : kept anywhere (call_int_command f arg).

Section command_facts.
Context `{TY : Typing, CB : Callbacks, SY : Sys, TC : !TypedCallbacks, MC : ModuleCode, TM : !TypedModules, MS : ModuleSys}.
Hypothesis extern_run : EXTERN_RUN ∈ common_ptypes.

Lemma kept_set_when_out P t : kept P (set_when_out t).
Proof. by apply kept_modify. Qed.
#[local] Hint Resolve kept_set_when_out kept_stop_all kept_set_runlevel kept_restart_service kept_module_load kept_lift : kept.

Lemma kept_stop_then P fuel t : kept P (stop_then fuel t).
Proof. apply kept_anywhere. unfold stop_then. kept_auto. Qed.
#[local] Hint Resolve kept_stop_then : kept.

Lemma kept_zap_loop P n current ret : kept P (zap_loop n current ret).
Proof.
  apply kept_anywhere. revert current ret. induction n as [|n IH]; intros [s|] ret; cbn [zap_loop]; module_auto.
Qed.
#[local] Hint Resolve kept_zap_loop : kept.

Lemma kept_zap P fuel arg : kept P (cmd_free_service fuel arg).
Proof. apply kept_anywhere. unfold cmd_free_service, first_active. kept_auto. Qed.
#[local] Hint Resolve kept_zap : kept.

Lemma kept_stcmd P fuel f arg : kept P (stcmd_int fuel f arg).
Proof.
  apply kept_anywhere. unfold stcmd_int, cmd_get_pid_of, cmd_start_on_new, cmd_restart, cmd_initng_poweroff, cmd_initng_halt,
    cmd_initng_reboot, cmd_load_module, cmd_percent_done, cmd_new_init, cmd_run, cmd_signal, cmd_get_pid_of. cbv zeta.
  module_auto; first [by apply kept_modify|by apply kept_launch_common].
Qed.

Section registered.
Context `{CC : CommandCode, TCC : !TypedCommands, CS : ControlSys}.

Lemma kept_int_command P f arg : kept P (call_int_command f arg).
Proof. apply kept_anywhere, typed_command. Qed.
#[local] Hint Resolve kept_int_command : kept.

Lemma kept_execute_arg P cid arg : kept P (initng_command_execute_arg cid arg).
Proof. apply kept_anywhere. unfold initng_command_execute_arg. kept_auto. Qed.

Lemma kept_control_input P fuel fds : kept P (parse_control_input fuel fds).
Proof.
  apply kept_anywhere. unfold parse_control_input, handle_runlevel, initng_reload. cbv zeta. kept_auto.
Qed.

End registered.
End command_facts.

(** ** The program *)

Section main_facts.
Context `{TY : Typing, CB : Callbacks, SY : Sys, TC : !TypedCallbacks, FS : ForkSys, BU : Build, PS : PollSys}.
Context `{MC : ModuleCode, TM : !TypedModules, MS : ModuleSys, MN : MainSys}.

#[local] Hint Resolve kept_set_runlevel kept_unload_all kept_unload_marked kept_free_all kept_load_all kept_start_extra
  kept_update_clock kept_main_alarm kept_signal_dispatch kept_clean_down kept_interrupt kept_poll kept_in_child : kept.

Ltac plain := by apply kept_modify.

Lemma kept_handle_it P str : kept P (handle_it str).
Proof.
  apply kept_anywhere. unfold handle_it. destruct (initng_config_opt_get opts str) as [i v]. cbv zeta. kept_auto;
    apply kept_modify; intros g; by destruct v.
Qed.
#[local] Hint Resolve kept_handle_it : kept.

Lemma kept_parse_args P argv : kept P (options_parse_args argv).
Proof. apply kept_anywhere. induction argv as [|arg argv IH]; cbn [options_parse_args]; kept_auto. Qed.

Lemma kept_segfault P : kept P initng_main_segfault.
Proof. apply kept_anywhere. unfold initng_main_segfault. cbv zeta. kept_auto. Qed.
#[local] Hint Resolve kept_parse_args kept_segfault : kept.

Lemma kept_su_login P : kept P initng_main_su_login.
Proof. apply kept_anywhere. unfold initng_main_su_login. kept_auto; plain. Qed.
#[local] Hint Resolve kept_su_login : kept.

Lemma kept_option_unregister_all P : kept P initng_service_data_type_unregister_all.
Proof. apply kept_anywhere. unfold initng_service_data_type_unregister_all. kept_auto. plain. Qed.

Lemma kept_command_unregister_all P : kept P initng_command_unregister_all.
Proof. apply kept_anywhere. unfold initng_command_unregister_all. kept_auto. Qed.
#[local] Hint Resolve kept_option_unregister_all kept_command_unregister_all : kept.

Lemma kept_when_out P fuel : kept P (initng_main_when_out fuel).
Proof.
  apply kept_anywhere. unfold initng_main_when_out, initng_main_exit, initng_config_global_free, initng_main_restart,
    initng_main_new_init, hard. kept_auto.
Qed.
#[local] Hint Resolve kept_when_out : kept.

Lemma kept_main_round P fuel last : kept P (main_round fuel last).
Proof. apply kept_anywhere. unfold main_round. kept_auto; plain. Qed.
#[local] Hint Resolve kept_main_round : kept.

Lemma kept_main_loop P fuel wait n last : kept anywhere wait -> kept P (main_loop fuel wait n last).
Proof.
  intros Hw. apply kept_anywhere. revert last. induction n as [|n IH]; intros last; cbn [main_loop]; kept_auto.
Qed.

Lemma kept_or_end P m k : kept anywhere m -> kept anywhere k -> kept P (or_end m k).
Proof. intros Hm Hk. apply kept_anywhere. unfold or_end. kept_auto. Qed.

Lemma kept_main_configured P fuel argv : kept P (main_configured fuel argv).
Proof.
  apply kept_or_end; [kept_auto|]. kept_auto; [plain|]. apply kept_or_end; [unfold main_modules; kept_auto|].
  kept_auto. apply kept_or_end; [destruct (c_true _); unfold main_reload, initng_module_callers_active_db_reload; kept_auto|].
  unfold main_services. kept_auto. all: plain.
Qed.

(** Comparing a run of main with its body, main is unfolded and nothing run. *)
#[local] Strategy expand [main].

Lemma main_keeps fuel wait n argv g0 e g :
  (forall g1, initng_config_global_new argv g0 = Done (tt, g1) -> sys_ok g1) -> kept anywhere wait ->
  main fuel wait n argv g0 = Done (e, g) -> sys_ok g.
Proof.
  intros Hnew Hw E.
  assert (Hk : kept anywhere (or_end (main_configured fuel argv) (main_loop fuel wait n (g_clock g0)))).
  { apply kept_or_end; [apply kept_main_configured|by apply kept_main_loop]. }
  unfold main in E. rewrite then_asks in E. apply mthen_Done in E as (u & g1 & E1 & E). destruct u.
  exact (proj1 (Hk _ _ _ I E (Hnew _ E1))).
Qed.

End main_facts.
