(* ===== verification/HookTyped.v ===== *)
(** * What the modules that hook events keep

    Every hook of files HookMods, LogMods and NgeMod keeps the system well typed, as file Typed states
    it, provided any service may be in the states the hooks put it in. *)
From S2P Require Import Prelude Types Data CString Global ActiveDb Depend Io Interrupt Launch Modules Typed.
From S2P Require Import ServiceMod DaemonMod Control Hooks HookMods LogMods Poll NgeMod.
From Stdlib Require Import String.
From stdpp Require Import prelude gmap strings.
Local Open Scope Z_scope.

(** What the types of a system with these modules have in common. *)
Class HookTyping `{!Typing} := {
  hook_common st : st ∈ all_hook_states -> st ∈ common_states /\ st ∉ unsettled;
  hook_clean : T_DAEMON_CLEAN ∈ common_ptypes
}.

(** ** The static variables *)

Section static_facts.
Context `{TY : Typing, FS : ForkSys}.

Lemma kept_set_statics P f : kept P (set_statics f).
Proof. by apply kept_modify. Qed.
#[local] Hint Resolve kept_set_statics : kept.

Lemma kept_log P prio owner text : kept P (initng_log prio owner text).
Proof. apply kept_anywhere. unfold initng_log, static. kept_auto. Qed.
#[local] Hint Resolve kept_log : kept.

Lemma kept_check_syslog P : kept P check_syslog.
Proof. apply kept_anywhere. unfold check_syslog, static. kept_auto. Qed.
#[local] Hint Resolve kept_check_syslog : kept.

Lemma kept_free_buffert P : kept P free_buffert.
Proof. apply kept_anywhere. unfold free_buffert. kept_auto. Qed.

End static_facts.

#[export] Hint Resolve kept_set_statics kept_log kept_check_syslog kept_free_buffert : kept.

(** ** The hooks *)

Section hook_facts.
Context `{TY : Typing, HT : !HookTyping, CB : Callbacks, SY : Sys, TC : !TypedCallbacks, FS : ForkSys, HS : HookSys, LS : LogSys, SS : SockSys}.

Ltac plain := apply kept_modify; intros ?; repeat case_match; done.

Lemma kept_mark_hook P s st : st ∈ all_hook_states -> kept P (initng_common_mark_service s st).
Proof. intros H. destruct (hook_common st H). by apply kept_mark_common. Qed.

Lemma kept_hook_mark P s st : st ∈ all_hook_states -> kept P (mark s st).
Proof. intros H. apply kept_anywhere. unfold mark. kept_auto. by apply kept_mark_hook. Qed.

Ltac by_mark := first [apply kept_mark_hook|apply kept_hook_mark]; apply (bool_decide_unpack _); by vm_compute.

Lemma kept_global_sleep P sec : kept P (initng_global_set_sleep sec).
Proof. plain. Qed.
Lemma kept_set_proc P f : kept P (set_proc f).
Proof. plain. Qed.
#[local] Hint Resolve kept_global_sleep kept_set_proc : kept.

Lemma kept_unchecked P call f : kept P (unchecked call f).
Proof. apply kept_anywhere. unfold unchecked. kept_auto. Qed.
#[local] Hint Resolve kept_unchecked : kept.

Lemma kept_while_strings P n type s itt body : (forall str, kept anywhere (body str)) -> kept P (while_strings n type s itt body).
Proof.
  intros Hb. apply kept_anywhere. revert itt. induction n as [|n IH]; intros itt; cbn [while_strings]; module_auto.
Qed.

Lemma kept_on_service P e k : (forall s, kept P (k s)) -> kept P (on_service e k).
Proof. intros H. unfold on_service. kept_auto. Qed.

Lemma kept_on_fork P e k : (forall s p, kept P (k s p)) -> kept P (on_fork e k).
Proof. intros H. unfold on_fork. kept_auto. Qed.

Lemma kept_adjust_env P s vn vv : kept P (adjust_env s vn vv).
Proof.
  apply kept_anywhere. unfold adjust_env. get_first. destruct (initng_data_is_var _ _ _); [apply kept_pure|].
  apply (kept_set_data anywhere s (fun fresh d => initng_data_set_string_var (Some ENV) (Some vn) fresh d vv)), sets_at_string.
Qed.
#[local] Hint Resolve kept_adjust_env : kept.

Lemma kept_pcount P type s v : kept P (svc_set_int type s v).
Proof. apply (kept_set_data P s (fun fresh d => initng_data_set_int_var (Some type) None fresh d v)), sets_at_int. Qed.
#[local] Hint Resolve kept_pcount : kept.

(** The loops over the strings and over the services. *)
Ltac hook_auto :=
  repeat first
    [ progress module_auto
    | apply kept_on_service; intro | apply kept_on_fork; intros ? ?
    | apply kept_while_strings; intro | by_mark | plain ].

Lemma kept_set_limits P ls s ret : kept P (set_limits ls s ret).
Proof.
  apply kept_anywhere. revert ret. induction ls as [|l ls IH]; intros ret; cbn [set_limits]; unfold set_limit, svc_get_int; hook_auto.
Qed.
#[local] Hint Resolve kept_set_limits : kept.

Lemma kept_add_virtual P name : kept P (add_virtual_service name).
Proof.
  apply kept_anywhere. unfold add_virtual_service, svc_get_int. apply kept_then; [exact _|apply kept_asks|]. intros [s|]; [hook_auto|].
  apply kept_new_then, kept_then; [exact _|apply kept_new_typed|]. hook_auto.
Qed.
#[local] Hint Resolve kept_add_virtual : kept.

Lemma kept_hook_table fuel : List.Forall (fun h => forall e, kept anywhere (snd h e)) (hook_table fuel).
Proof.
  unfold hook_table.
  repeat (apply List.Forall_cons; [|]); [..|apply List.Forall_nil]; cbn [snd]; intros e;
    unfold check_conflict, conflict_body, also_service_state, also_start_body, also_stop_body, check_last, last_body,
      get_TYPE_PROVIDED, check_syncronicly_service, check_syncronicly, resolv_SSR, syncron_body, synchronously_body, first_active,
      check_files_to_exist, check_files_to_exist_after, check_files, file_body, ctrlaltdel, set_when_out, status_change,
      set_lockfiles_var, on_kill, interactive_STARTING, interactive_STOP_MARKED, interactive_ask, interactive_unhook, ask,
      do_chdir, do_chroot, do_renice, do_suid, do_limit, do_pause, provide_service_state, virtual_service_set_up,
      remove_virtual_service, svc_get_int; cbv zeta; hook_auto;
    [apply kept_stop_all|apply kept_launch_common, hook_clean].
Qed.

Lemma kept_module_hook fuel other f e : kept anywhere (other f e) -> kept anywhere (module_hook fuel other f e).
Proof.
  intros Ho. unfold module_hook. destruct (List.find _ _) as [h|] eqn:E; [|done]. apply List.find_some in E as [Hin _].
  exact (proj1 (List.Forall_forall _ _) (kept_hook_table fuel) h Hin e).
Qed.

(** *** Records *)

Lemma kept_buffer_text P s p k pos : kept P (buffer_text s p k pos).
Proof. apply kept_anywhere. unfold buffer_text, get_pipe. module_auto. Qed.
#[local] Hint Resolve kept_buffer_text : kept.

Lemma kept_add_hist P h : kept P (add_hist h).
Proof. apply kept_anywhere. unfold add_hist, static. kept_auto. Qed.

#[local] Hint Resolve kept_add_hist : kept.

Lemma kept_fetch_loop P n owner text : kept P (fetch_loop n owner text).
Proof. apply kept_anywhere. revert text. induction n as [|n IH]; intros text; cbn [fetch_loop]; cbv zeta; kept_auto. Qed.
#[local] Hint Resolve kept_fetch_loop : kept.

Lemma kept_find_or_create P name : kept P (find_or_create name).
Proof.
  apply kept_anywhere. unfold find_or_create. apply kept_then; [exact _|apply kept_asks|]. intros [s|]; [hook_auto|].
  unfold net_create. apply kept_new_then, kept_then; [exact _|apply kept_new_typed|]. hook_auto.
Qed.
#[local] Hint Resolve kept_find_or_create : kept.

Lemma kept_handle_devs P l : kept P (handle_devs l).
Proof.
  apply kept_anywhere. induction l as [|d l IH]; cbn [handle_devs]; unfold handle_dev, net_set_up, net_remove; hook_auto.
Qed.
#[local] Hint Resolve kept_handle_devs : kept.

Lemma kept_record_hooks fuel : List.Forall (fun h => forall e, kept anywhere (snd h e)) (record_hooks fuel).
Proof.
  unfold record_hooks.
  repeat (apply List.Forall_cons; [|]); [..|apply List.Forall_nil]; cbn [snd]; intros e;
    unfold history_add_values, history_db_compensate_time, history_db_clear_service, fetch_output, syslog_print_status_change,
      syslog_print_system_state, syslog_fetch_output, program_output, probe_network_devices, system_stopping, set_devs, static,
      first_active; cbv zeta; hook_auto.
Qed.

Lemma kept_record_hook fuel other f e : kept anywhere (other f e) -> kept anywhere (record_hook fuel other f e).
Proof.
  intros Ho. unfold record_hook. destruct (List.find _ _) as [h|] eqn:E; [|done]. apply List.find_some in E as [Hin _].
  exact (proj1 (List.Forall_forall _ _) (kept_record_hooks fuel) h Hin e).
Qed.

(** *** The listeners of nge *)

Lemma kept_set_nge P f : kept P (set_nge_var f).
Proof. apply kept_set_statics. Qed.
Lemma kept_sprintf P size text : kept P (sprintf size text).
Proof. unfold sprintf. kept_auto. Qed.
#[local] Hint Resolve kept_set_nge kept_sprintf : kept.

Lemma kept_do_send P fd text : kept P (do_send fd text).
Proof. apply kept_anywhere. unfold do_send. kept_auto. Qed.
Lemma kept_listener P i : kept P (listener i).
Proof. unfold listener. kept_auto. Qed.
Lemma kept_set_listener P i fd : kept P (set_listener i fd).
Proof. apply kept_set_nge. Qed.
#[local] Hint Resolve kept_do_send kept_listener kept_set_listener : kept.

Lemma kept_send_to_all P text : kept P (send_to_all text).
Proof. apply kept_anywhere. unfold send_to_all, send_to. kept_auto. Qed.
Lemma kept_forward P : kept P forward.
Proof. apply kept_anywhere. unfold forward, hook_register. kept_auto. Qed.
Lemma kept_unforward P : kept P unforward.
Proof. apply kept_anywhere. unfold unforward. kept_auto. Qed.
#[local] Hint Resolve kept_send_to_all kept_forward kept_unforward : kept.

Lemma kept_send_initial P fd : kept P (send_initial fd).
Proof. apply kept_anywhere. unfold send_initial, send_service. kept_auto. Qed.
#[local] Hint Resolve kept_send_initial : kept.

Lemma kept_event_acceptor P : kept P event_acceptor.
Proof. apply kept_anywhere. unfold event_acceptor, nge_var, static. kept_auto. Qed.
Lemma kept_close_initiator P : kept P close_initiator_socket.
Proof. apply kept_anywhere. unfold close_initiator_socket, nge_var, static. kept_auto. Qed.
#[local] Hint Resolve kept_event_acceptor kept_close_initiator : kept.

Lemma kept_open_initiator P : kept P open_initiator_socket.
Proof. apply kept_anywhere. unfold open_initiator_socket, hook_register. kept_auto. Qed.
#[local] Hint Resolve kept_open_initiator : kept.

Lemma kept_nge_hooks : List.Forall (fun h => forall e, kept anywhere (snd h e)) nge_hooks.
Proof.
  unfold nge_hooks.
  repeat (apply List.Forall_cons; [|]); [..|apply List.Forall_nil]; cbn [snd]; intros e;
    unfold astatus_change, system_state_change, system_pipe_watchers, nge_handle_killed, io_event_acceptor_handler,
      nge_check_socket, nge_var, static; cbv zeta; hook_auto.
Qed.

Lemma kept_nge_hook other f e : kept anywhere (other f e) -> kept anywhere (nge_hook other f e).
Proof.
  intros Ho. unfold nge_hook. destruct (List.find _ _) as [h|] eqn:E; [|done]. apply List.find_some in E as [Hin _].
  exact (proj1 (List.Forall_forall _ _) kept_nge_hooks h Hin e).
Qed.

Lemma kept_close_listeners P : kept P close_all_listeners.
Proof. apply kept_anywhere. unfold close_all_listeners, send_disconnect. kept_auto. Qed.

(** The command of unneeded. *)
Lemma kept_cmd_stop_unneeded P fuel : kept P (cmd_stop_unneeded fuel).
Proof. apply kept_anywhere. unfold cmd_stop_unneeded, stop_unneeded_body, needed_body, first_active. hook_auto. Qed.

End hook_facts.

(** ** module_init and module_unload *)

Section registering.
Context `{TY : Typing}.

Lemma kept_entries_register P es : kept P (entries_register es).
Proof. apply kept_anywhere. unfold entries_register. kept_auto. Qed.
Lemma kept_entries_unregister P es : kept P (entries_unregister es).
Proof. apply kept_anywhere. unfold entries_unregister. kept_auto. Qed.
Lemma kept_states_register P ss : kept P (states_register ss).
Proof. apply kept_anywhere. unfold states_register. kept_auto. Qed.
Lemma kept_states_unregister P ss : kept P (states_unregister ss).
Proof. apply kept_anywhere. unfold states_unregister. kept_auto. Qed.
Lemma kept_one_hook P file t f : kept P (hook_register file t f).
Proof. apply kept_anywhere. unfold hook_register. kept_auto. Qed.
Lemma kept_set_check P b : kept P (set_check_var b).
Proof. by apply kept_modify. Qed.
Lemma kept_set_active P b : kept P (set_active_var b).
Proof. by apply kept_modify. Qed.

End registering.

#[export] Hint Resolve kept_entries_register kept_entries_unregister kept_states_register kept_states_unregister kept_one_hook
  kept_set_check kept_set_active : kept.
