(* ===== verification/Ngcs.v ===== *)
(** * The wire format of the control socket: src/modules/ngcs/ngcs_common.c

    Packing and unpacking of typed data, and the transfer of whole buffers over
    a socket that takes and gives them in pieces.  Bytes are integers from 0 to
    255; int has 4 and long 8 bytes, little endian.  Reads and writes are
    checked against the blocks they go to. *)
From S2P Require Import Prelude Types Io.
From stdpp Require Import prelude gmap.
Local Open Scope Z_scope.

(** ** Native integers *)

Fixpoint le_bytes (n : nat) (z : Z) : list Z :=
  match n with
  | O => []
  | S n => z mod 256 :: le_bytes n (z / 256)
  end.

Fixpoint le_value (l : list Z) : Z :=
  match l with
  | [] => 0
  | b :: l => b + 256 * le_value l
  end.

(** The signed value of [8 * n] bits. *)
Definition signed (bits : Z) (z : Z) : Z :=
  let m := z mod 2 ^ bits in if m <? 2 ^ (bits - 1) then m else m - 2 ^ bits.

Definition sizeof_int : Z := 4.
Definition sizeof_long : Z := 8.

(** [*(int * )p = v], and [*(const int * )p] for a pointer into a block. *)
Definition put_int (pos v : Z) (buf : list Z) : option (list Z) := block_write pos (le_bytes 4 v) buf.

Definition block_read (pos n : Z) (buf : list Z) : option (list Z) :=
  if (0 <=? pos) && (0 <=? n) && (pos + n <=? Z.of_nat (length buf))
  then Some (take (Z.to_nat n) (drop (Z.to_nat pos) buf)) else None.

Definition get_int (pos : Z) (buf : list Z) : option Z :=
  bs ← block_read pos 4 buf; Some (signed 32 (le_value bs)).

Definition get_long (pos : Z) (buf : list Z) : option Z :=
  bs ← block_read pos 8 buf; Some (signed 64 (le_value bs)).

(** ** ngcs_data *)

Definition NGCS_TYPE_NULL : Z := 0.
Definition NGCS_TYPE_INT : Z := 1.
Definition NGCS_TYPE_STRING : Z := 2.
Definition NGCS_TYPE_BLOB : Z := 3.
Definition NGCS_TYPE_LONG : Z := 4.
Definition NGCS_TYPE_STRUCT : Z := 6.
Definition NGCS_TYPE_ERROR : Z := 8.

(** The member of the union [d] that was written: [D_s] is a string without its
    final NUL, [D_null] the null pointer. *)
Inductive ngcs_union :=
| D_i (i : Z)
| D_l (l : Z)
| D_s (s : list Z)
| D_p (p : list Z)
| D_null.

Record ngcs_data := NgcsData {
  nd_type : Z;
  nd_len : Z;
  nd_d : ngcs_union
}.

Definition is_string_type (t : Z) : bool := (t =? NGCS_TYPE_ERROR) || (t =? NGCS_TYPE_STRING).

(** ** ngcs_pack *)

(** What is written for one datum; reading the wrong member of the union is a
    fault. *)
Inductive pack_result :=
| Packed (data : ngcs_data) (outcnt : Z) (buf : option (Z * list Z))
| Pack_error (buf : option (list Z))
| Pack_fault.

(** strlen of a NUL-terminated object. *)
Fixpoint c_strlen (s : list Z) : Z :=
  match s with
  | [] => 0
  | b :: s => if b =? 0 then 0 else 1 + c_strlen s
  end.

(** Copy [len] bytes of the object [src]. *)
Definition pack_bytes (len : Z) (src : list Z) (pos : Z) (buf : list Z) : option (Z * list Z) :=
  b ← put_int pos len buf;
  let pos := pos + sizeof_int in
  bs ← block_read 0 len src;
  b ← block_write pos bs b;
  Some (pos + len, b).

(** One round of the loop.  [buf] is [None] for the null pointer, and otherwise
    the offset of the cursor and the block. *)
Definition pack_one (d : ngcs_data) (buf : option (Z * list Z)) : pack_result :=
  let put (f : Z -> list Z -> option (Z * list Z)) (d : ngcs_data) (outcnt : Z) : pack_result :=
    match buf with
    | None => Packed d outcnt None
    | Some (pos, b) =>
      match b ← put_int pos (nd_type d) b; f (pos + sizeof_int) b with
      | Some pb => Packed d outcnt (Some pb)
      | None => Pack_fault
      end
    end in
  if nd_type d =? NGCS_TYPE_INT then
    match nd_d d with
    | D_i i => put (fun pos b =>
        b ← put_int pos sizeof_int b; b ← put_int (pos + sizeof_int) i b;
        Some (pos + sizeof_int + sizeof_int, b)) d (3 * sizeof_int)
    | _ => Pack_fault
    end
  else if nd_type d =? NGCS_TYPE_LONG then
    match nd_d d with
    | D_l l => put (fun pos b =>
        b ← put_int pos sizeof_long b; b ← put_int (pos + sizeof_int) l b;
        Some (pos + sizeof_int + sizeof_long, b)) d (2 * sizeof_int + sizeof_long)
    | _ => Pack_fault
    end
  else if is_string_type (nd_type d) then
    match nd_d d with
    | D_s s =>
      let len := if nd_len d <? 0 then c_strlen s else nd_len d in
      put (pack_bytes len (s ++ [0])) (NgcsData (nd_type d) len (D_s s)) (2 * sizeof_int + len)
    | _ => Pack_fault
    end
  else if nd_len d <? 0 then
    match buf with
    | None => Pack_error None
    | Some (pos, b) =>
      match put_int pos (nd_type d) b with
      | Some b => Pack_error (Some b)
      | None => Pack_fault
      end
    end
  else match nd_d d with
       | D_p p => put (pack_bytes (nd_len d) p) d (2 * sizeof_int + nd_len d)
       | _ => Pack_fault
       end.

(** The loop: the data with the lengths filled in, the count and the block;
    an error returns 1. *)
Fixpoint pack_loop (data : list ngcs_data) (outcnt : Z) (buf : option (Z * list Z))
    : outcome (Z * list ngcs_data * option (list Z)) :=
  match data with
  | [] => Done (outcnt, [], snd <$> buf)
  | d :: data =>
    match pack_one d buf with
    | Pack_fault => Fault
    | Pack_error buf' => Done (1, d :: data, buf')
    | Packed d' n buf' =>
      match pack_loop data (outcnt + n) buf' with
      | Done (r, ds, b) => Done (r, d' :: ds, b)
      | NoFuel => NoFuel
      | Fault => Fault
      end
    end
  end.

Definition ngcs_pack (data : list ngcs_data) (buf : option (list Z)) :=
  pack_loop data 0 (pair 0 <$> buf).

(** ** ngcs_unpack_one *)

(** [None] is a read outside of [data], [Some None] the error return. *)
Definition ngcs_unpack_one (type len pos : Z) (data : list Z) : option (option ngcs_data) :=
  if len <? 0 then Some (Some (NgcsData type len D_null))
  else if type =? NGCS_TYPE_INT then
    if negb (len =? sizeof_int) then Some None
    else i ← get_int pos data; Some (Some (NgcsData type len (D_i i)))
  else if type =? NGCS_TYPE_LONG then
    if negb (len =? sizeof_long) then Some None
    else l ← get_long pos data; Some (Some (NgcsData type len (D_i (signed 32 l))))
  else if is_string_type type then
    s ← block_read pos len data; Some (Some (NgcsData type len (D_s s)))
  else
    p ← block_read pos len data; Some (Some (NgcsData type len (D_p p))).

(** ** ngcs_unpack *)

(** The first loop counts the entries. *)
Fixpoint unpack_count (fuel : nat) (data : list Z) (d l cnt : Z) : outcome Z :=
  if l <? 2 * sizeof_int then Done cnt
  else match fuel with
       | O => NoFuel
       | S fuel =>
         match get_int (d + sizeof_int) data with
         | None => Fault
         | Some h1 =>
           if h1 <? 0 then Done (-1)
           else unpack_count fuel data (d + 2 * sizeof_int + h1) (l - (2 * sizeof_int + h1)) (cnt + 1)
         end
       end.

(** The second loop fills [*res], which has room for [room] entries; [Done None]
    is the return of -1. *)
Fixpoint unpack_fill (fuel : nat) (data : list Z) (d l room : Z) : outcome (option (list ngcs_data)) :=
  if l <? 2 * sizeof_int then Done (Some [])
  else match fuel with
       | O => NoFuel
       | S fuel =>
         match get_int d data, get_int (d + sizeof_int) data with
         | Some rtype, Some rlen =>
           if rlen <? 0 then Done None
           else
             let d := d + 2 * sizeof_int in
             let l := l - 2 * sizeof_int in
             if l <? rlen then Done None
             else if room <=? 0 then Fault
             else match ngcs_unpack_one rtype rlen d data with
                  | None => Fault
                  | Some None => Done None
                  | Some (Some r) =>
                    match unpack_fill fuel data (d + rlen) (l - rlen) (room - 1) with
                    | Done (Some rs) => Done (Some (r :: rs))
                    | o => o
                    end
                  end
         | _, _ => Fault
         end
       end.

Definition ngcs_unpack (data : list Z) (len : Z) : outcome (option (list ngcs_data)) :=
  let fuel := S (length data) in
  match unpack_count fuel data 0 len 0 with
  | Done cnt => if cnt <? 0 then Done None else unpack_fill fuel data 0 len cnt
  | NoFuel => NoFuel
  | Fault => Fault
  end.

(** ** ngcs_sendall, ngcs_recvall and ngcs_recvmsg

    A socket is the list of what its next calls give: for a send, how many
    bytes are taken (or an error); for a receive, the bytes that have arrived
    (none at the end).  The result of ngcs_sendall carries the bytes that went
    out. *)

Fixpoint ngcs_sendall (sock : list Z) (buf : list Z) : Z * list Z :=
  match buf with
  | [] => (0, [])
  | _ =>
    match sock with
    | [] => (1, [])
    | ret :: sock =>
      if ret <=? 0 then (1, [])
      else
        let n := Nat.min (Z.to_nat ret) (length buf) in
        let '(r, out) := ngcs_sendall sock (drop n buf) in
        (r, take n buf ++ out)
    end
  end.

(** The bytes received and the rest of the socket; [None] is a failure. *)
Fixpoint ngcs_recvall (sock : list (list Z)) (len : nat) : option (list Z * list (list Z)) :=
  match len with
  | O => Some ([], sock)
  | _ =>
    match sock with
    | [] => None
    | [] :: _ => None
    | chunk :: sock' =>
      if Nat.leb (length chunk) len then
        '(bs, rest) ← ngcs_recvall sock' (len - length chunk);
        Some (chunk ++ bs, rest)
      else Some (take len chunk, drop len chunk :: sock')
    end
  end.

Record ngcs_msg := NgcsMsg { m_chan : Z; m_type : Z; m_len : Z; m_data : option (list Z) }.

Definition ngcs_recvmsg (sock : list (list Z)) : option (ngcs_msg * list (list Z)) :=
  '(head, sock) ← ngcs_recvall sock 12;
  chan ← get_int 0 head;
  type ← get_int 4 head;
  len ← get_int 8 head;
  if len <? 0 then Some (NgcsMsg chan type len None, sock)
  else
    '(data, sock) ← ngcs_recvall sock (Z.to_nat len);
    Some (NgcsMsg chan type len (Some data), sock).

(** The bytes of a message, as ngcs_conn_send puts them into its buffer. *)
Definition message_bytes (chan type len : Z) (data : list Z) : list Z :=
  le_bytes 4 chan ++ le_bytes 4 type ++ le_bytes 4 len ++ (if 0 <? len then data else []).

(** ** What is sent and what arrives *)

Definition int32 (z : Z) : Prop := - 2 ^ 31 <= z < 2 ^ 31.

(** A datum as the callers build them: its member of the union fits its type,
    its length is the true one or, for a string, negative. *)
Definition well_typed (d : ngcs_data) : Prop :=
  int32 (nd_type d) /\
  if nd_type d =? NGCS_TYPE_INT then exists i, nd_d d = D_i i /\ int32 i
  else if nd_type d =? NGCS_TYPE_LONG then exists l, nd_d d = D_l l
  else if is_string_type (nd_type d) then
    exists s, nd_d d = D_s s /\ 0 ∉ s /\ (nd_len d < 0 \/ nd_len d = Z.of_nat (length s)) /\ int32 (Z.of_nat (length s))
  else exists p, nd_d d = D_p p /\ nd_len d = Z.of_nat (length p) /\ int32 (Z.of_nat (length p)).

Definition payload (d : ngcs_data) : list Z :=
  match nd_d d with
  | D_i i => le_bytes 4 i
  | D_l l => le_bytes 4 l
  | D_s s => s
  | D_p p => p
  | D_null => []
  end.

(** The bytes of a datum; the datum itself with its length filled in. *)
Definition encode (d : ngcs_data) : list Z :=
  le_bytes 4 (nd_type d) ++ le_bytes 4 (Z.of_nat (length (payload d))) ++ payload d.
Definition received (d : ngcs_data) : ngcs_data := NgcsData (nd_type d) (Z.of_nat (length (payload d))) (nd_d d).

(** ** Lemmas: integers *)

Lemma le_bytes_length n z : length (le_bytes n z) = n.
Proof. revert z. induction n as [|n IH]; intros z; cbn; [done|]. by rewrite IH. Qed.

Lemma le_value_bytes n z : le_value (le_bytes n z) = z mod 256 ^ Z.of_nat n.
Proof.
  revert z. induction n as [|n IH]; intros z.
  - cbn. by rewrite Z.mod_1_r.
  - cbn [le_bytes le_value]. rewrite IH.
    replace (256 ^ Z.of_nat (S n)) with (256 * 256 ^ Z.of_nat n) by (rewrite Nat2Z.inj_succ, Z.pow_succ_r by lia; ring).
    rewrite Z.rem_mul_r by lia. lia.
Qed.

Lemma signed_id z : int32 z -> signed 32 (z mod 2 ^ 32) = z.
Proof.
  unfold int32, signed. intros H. cbv zeta. rewrite Z.mod_mod by lia. change (32 - 1) with 31.
  assert (E : z mod 2 ^ 32 = if z <? 0 then z + 2 ^ 32 else z).
  { destruct (Z.ltb_spec z 0); symmetry; [apply (Z.mod_unique z _ (-1))|apply (Z.mod_unique z _ 0)]; lia. }
  rewrite E. destruct (Z.ltb_spec z 0).
  - destruct (Z.ltb_spec (z + 2 ^ 32) (2 ^ 31)); lia.
  - destruct (Z.ltb_spec z (2 ^ 31)); lia.
Qed.

(** ** Lemmas: consecutive accesses *)

Lemma block_write_app pre bs rest :
  (length bs <= length rest)%nat ->
  block_write (Z.of_nat (length pre)) bs (pre ++ rest) = Some (pre ++ bs ++ drop (length bs) rest).
Proof.
  intros H. rewrite block_write_Some by (rewrite ?length_app; lia). rewrite Nat2Z.id.
  rewrite take_app_length. do 3 f_equal. rewrite drop_app_ge by lia. f_equal. lia.
Qed.

Lemma block_read_app pre bs post n pos :
  n = Z.of_nat (length bs) -> pos = Z.of_nat (length pre) -> block_read pos n (pre ++ bs ++ post) = Some bs.
Proof.
  intros -> ->. unfold block_read. rewrite !(proj2 (Z.leb_le _ _)) by (rewrite ?length_app; lia). cbn [andb].
  rewrite !Nat2Z.id, drop_app_length. by rewrite take_app_length.
Qed.

Lemma get_int_app pre v post pos :
  int32 v -> pos = Z.of_nat (length pre) -> get_int pos (pre ++ le_bytes 4 v ++ post) = Some v.
Proof.
  intros Hv ->. unfold get_int. rewrite (block_read_app pre (le_bytes 4 v) post); [|by rewrite le_bytes_length|done].
  cbn [mbind option_bind]. rewrite le_value_bytes. change (256 ^ Z.of_nat 4) with (2 ^ 32). by rewrite signed_id.
Qed.

Lemma c_strlen_length s : 0 ∉ s -> c_strlen s = Z.of_nat (length s).
Proof.
  induction s as [|b s IH]; intros H; [done|]. cbn [c_strlen length].
  destruct (Z.eqb_spec b 0); [set_solver|]. rewrite IH by set_solver. lia.
Qed.

(** ** Lemmas: packing *)

(** A write at the end [pos] of the part [pre] that is written already; the end
    moves on. *)
Lemma write_next pos pre bs rest :
  pos = Z.of_nat (length pre) -> (length bs <= length rest)%nat ->
  block_write pos bs (pre ++ rest) = Some ((pre ++ bs) ++ drop (length bs) rest) /\
  pos + Z.of_nat (length bs) = Z.of_nat (length (pre ++ bs)).
Proof. intros -> H. rewrite block_write_app by done. rewrite <- app_assoc, length_app. split; [done|lia]. Qed.

Lemma put_int_next pos pre v rest :
  pos = Z.of_nat (length pre) -> (4 <= length rest)%nat ->
  put_int pos v (pre ++ rest) = Some ((pre ++ le_bytes 4 v) ++ drop 4 rest) /\
  pos + sizeof_int = Z.of_nat (length (pre ++ le_bytes 4 v)).
Proof.
  intros Hp H. destruct (write_next pos pre (le_bytes 4 v) rest Hp) as [E1 E2]; [by rewrite le_bytes_length|].
  rewrite le_bytes_length in E1, E2. by split.
Qed.

Lemma pack_bytes_next pos pre bs src rest :
  pos = Z.of_nat (length pre) -> (4 + length bs <= length rest)%nat ->
  pack_bytes (Z.of_nat (length bs)) (bs ++ src) pos (pre ++ rest) =
  Some (Z.of_nat (length (pre ++ le_bytes 4 (Z.of_nat (length bs)) ++ bs)),
        (pre ++ le_bytes 4 (Z.of_nat (length bs)) ++ bs) ++ drop (4 + length bs) rest).
Proof.
  intros Hp H. unfold pack_bytes.
  destruct (put_int_next pos pre (Z.of_nat (length bs)) rest Hp) as [-> E1]; [lia|]. cbn [mbind option_bind].
  rewrite (block_read_app [] bs src) by done. cbn [mbind option_bind].
  destruct (write_next (pos + sizeof_int) (pre ++ le_bytes 4 (Z.of_nat (length bs))) bs (drop 4 rest) E1) as [-> E2];
    [rewrite length_drop; lia|].
  cbn [mbind option_bind]. rewrite E2, drop_drop, <- !app_assoc. done.
Qed.

Definition is_long (d : ngcs_data) : bool := nd_type d =? NGCS_TYPE_LONG.

(** The datum as ngcs_pack leaves it. *)
Definition packed (d : ngcs_data) : ngcs_data :=
  if is_string_type (nd_type d) then received d else d.

Lemma encode_length d : length (encode d) = (8 + length (payload d))%nat.
Proof. unfold encode. rewrite !length_app, !le_bytes_length. lia. Qed.

Lemma pack_one_null d :
  well_typed d -> is_long d = false -> pack_one d None = Packed (packed d) (Z.of_nat (length (encode d))) None.
Proof.
  unfold well_typed, is_long, pack_one, packed, received. intros [_ Hw] Hlong. rewrite encode_length.
  destruct (Z.eqb_spec (nd_type d) NGCS_TYPE_INT) as [E|_].
  { destruct Hw as (i & E2 & _). unfold payload. rewrite E2, le_bytes_length, E. done. }
  rewrite Hlong in *. destruct (is_string_type (nd_type d)).
  - destruct Hw as (s & E & Hs & Hl & _). unfold payload. rewrite E.
    assert (Hlen : (if nd_len d <? 0 then c_strlen s else nd_len d) = Z.of_nat (length s)).
    { destruct (Z.ltb_spec (nd_len d) 0); [by apply c_strlen_length|lia]. }
    cbv zeta. rewrite Hlen. f_equal. unfold sizeof_int. lia.
  - destruct Hw as (p & E & Hl & _). unfold payload. rewrite E, Hl.
    destruct (Z.ltb_spec (Z.of_nat (length p)) 0); [lia|]. f_equal. unfold sizeof_int. lia.
Qed.

Lemma pack_one_next d pos pre rest :
  well_typed d -> is_long d = false -> pos = Z.of_nat (length pre) -> (length (encode d) <= length rest)%nat ->
  pack_one d (Some (pos, pre ++ rest)) =
  Packed (packed d) (Z.of_nat (length (encode d)))
    (Some (Z.of_nat (length (pre ++ encode d)), (pre ++ encode d) ++ drop (length (encode d)) rest)).
Proof.
  intros Hw Hlong Hp Hr. pose proof (pack_one_null d Hw Hlong) as Hnull. revert Hnull.
  rewrite encode_length in Hr. unfold well_typed, is_long in *. destruct Hw as [_ Hw].
  destruct (put_int_next pos pre (nd_type d) rest Hp) as [Et E1]; [lia|]. unfold pack_one.
  destruct (Z.eqb_spec (nd_type d) NGCS_TYPE_INT) as [E|_].
  - destruct Hw as (i & E2 & _). rewrite E2. intros Hnull. rewrite Et.
    assert (Hd : packed d = d) by congruence.
    assert (Hn : Z.of_nat (length (encode d)) = 3 * sizeof_int) by congruence. cbn [mbind option_bind].
    assert (Hpl : payload d = le_bytes 4 i) by (unfold payload; by rewrite E2). rewrite Hpl, le_bytes_length in Hr.
    destruct (put_int_next _ (pre ++ le_bytes 4 (nd_type d)) sizeof_int (drop 4 rest) E1) as [-> E3];
      [rewrite length_drop; lia|]. cbn [mbind option_bind].
    destruct (put_int_next _ ((pre ++ le_bytes 4 (nd_type d)) ++ le_bytes 4 sizeof_int) i (drop 4 (drop 4 rest)) E3)
      as [-> E4]; [rewrite !length_drop; lia|]. cbn [mbind option_bind]. rewrite Hd, Hn, E4, !drop_drop.
    assert (Henc : encode d = le_bytes 4 (nd_type d) ++ le_bytes 4 sizeof_int ++ le_bytes 4 i).
    { unfold encode. by rewrite Hpl, le_bytes_length. }
    rewrite encode_length, Hpl, le_bytes_length, Henc, <- !app_assoc. done.
  - rewrite Hlong in *.
    assert (Hgo : forall src d' n,
      match b ← put_int pos (nd_type d) (pre ++ rest);
            pack_bytes (Z.of_nat (length (payload d))) (payload d ++ src) (pos + sizeof_int) b with
      | Some pb => Packed d' n (Some pb) | None => Pack_fault end =
      Packed d' n (Some (Z.of_nat (length (pre ++ encode d)), (pre ++ encode d) ++ drop (length (encode d)) rest))).
    { intros src d' n. rewrite Et. cbn [mbind option_bind].
      rewrite (pack_bytes_next _ _ (payload d) src (drop 4 rest) E1) by (rewrite length_drop; lia).
      rewrite drop_drop, encode_length, <- !app_assoc. done. }
    destruct (is_string_type (nd_type d)).
    + destruct Hw as (s & E & Hs & Hl & _). rewrite E.
      assert (Hlen : (if nd_len d <? 0 then c_strlen s else nd_len d) = Z.of_nat (length s)).
      { destruct (Z.ltb_spec (nd_len d) 0); [by apply c_strlen_length|lia]. }
      cbv zeta. rewrite Hlen. intros Hnull. cbn [nd_type].
      assert (Hd : packed d = NgcsData (nd_type d) (Z.of_nat (length s)) (D_s s)) by congruence.
      assert (Hn : Z.of_nat (length (encode d)) = 2 * sizeof_int + Z.of_nat (length s)) by congruence.
      assert (Hpl : payload d = s) by (unfold payload; by rewrite E). rewrite Hpl in Hgo.
      rewrite (Hgo [0]). by rewrite Hd, Hn.
    + destruct Hw as (p & E & Hl & _). assert (Hpl : payload d = p) by (unfold payload; by rewrite E).
      rewrite E, Hl. destruct (Z.ltb_spec (Z.of_nat (length p)) 0); [lia|]. intros Hnull.
      assert (Hd : packed d = d) by congruence.
      assert (Hn : Z.of_nat (length (encode d)) = 2 * sizeof_int + Z.of_nat (length p)) by congruence.
      rewrite Hpl in Hgo. specialize (Hgo [] d (2 * sizeof_int + Z.of_nat (length p))).
      rewrite app_nil_r in Hgo. rewrite Hgo, Hd. by rewrite <- Hn.
Qed.

Definition encode_all (l : list ngcs_data) : list Z := concat (map encode l).

Lemma pack_loop_null l n :
  Forall well_typed l -> Forall (fun d => is_long d = false) l ->
  pack_loop l n None = Done (n + Z.of_nat (length (encode_all l)), map packed l, None).
Proof.
  intros Hw Hl. revert n. induction Hw as [|d l Hd _ IH]; intros n; cbn [pack_loop].
  - cbn. do 3 f_equal. lia.
  - apply Forall_cons in Hl as [Hld Hl]. rewrite (pack_one_null d Hd Hld), (IH Hl).
    unfold encode_all. cbn [map concat]. rewrite length_app. do 3 f_equal. lia.
Qed.

Lemma pack_loop_next l n pos pre rest :
  Forall well_typed l -> Forall (fun d => is_long d = false) l ->
  pos = Z.of_nat (length pre) -> length (encode_all l) = length rest ->
  pack_loop l n (Some (pos, pre ++ rest)) =
  Done (n + Z.of_nat (length (encode_all l)), map packed l, Some (pre ++ encode_all l)).
Proof.
  intros Hw Hl. revert n pos pre rest. induction Hw as [|d l Hd _ IH]; intros n pos pre rest Hp Hr; cbn [pack_loop].
  - cbn in Hr |- *. destruct rest; [|done]. by rewrite Z.add_0_r.
  - apply Forall_cons in Hl as [Hld Hl]. unfold encode_all in Hr |- *. cbn [map concat] in *. rewrite length_app in Hr.
    rewrite (pack_one_next d pos pre rest Hd Hld Hp) by lia.
    rewrite (IH Hl) by (rewrite ?length_drop; unfold encode_all; done || lia).
    unfold encode_all. rewrite length_app, <- app_assoc, Nat2Z.inj_add, Z.add_assoc. done.
Qed.

(** ** Lemmas: unpacking *)

Lemma received_len d : well_typed d -> int32 (Z.of_nat (length (payload d))).
Proof.
  intros [_ Hw]. unfold payload. repeat case_match; naive_solver (rewrite ?le_bytes_length; cbv; done).
Qed.

Lemma unpack_one_encoded d pre post pos :
  well_typed d -> is_long d = false -> pos = Z.of_nat (length pre) ->
  ngcs_unpack_one (nd_type d) (Z.of_nat (length (payload d))) pos (pre ++ payload d ++ post) =
  Some (Some (received d)).
Proof.
  unfold well_typed, is_long, ngcs_unpack_one, received. intros [_ Hw] Hlong Hp.
  rewrite (proj2 (Z.ltb_ge _ 0)) by lia.
  destruct (Z.eqb_spec (nd_type d) NGCS_TYPE_INT) as [E|_].
  { destruct Hw as (i & E2 & Hi). unfold payload. rewrite E2, le_bytes_length. cbn [negb Z.eqb].
    rewrite get_int_app by done. done. }
  rewrite Hlong in *. destruct (is_string_type (nd_type d)).
  - destruct Hw as (s & E & _). unfold payload. rewrite E. by rewrite block_read_app.
  - destruct Hw as (p & E & _). unfold payload. rewrite E. by rewrite block_read_app.
Qed.

(** The head of an encoded datum, read at its place. *)
Lemma encoded_head d pre post pos :
  well_typed d -> pos = Z.of_nat (length pre) ->
  get_int pos (pre ++ encode d ++ post) = Some (nd_type d) /\
  get_int (pos + sizeof_int) (pre ++ encode d ++ post) = Some (Z.of_nat (length (payload d))).
Proof.
  intros Hw Hp. unfold encode. rewrite <- !app_assoc. split.
  - apply get_int_app; [apply Hw|done].
  - rewrite app_assoc. apply get_int_app; [by apply received_len|].
    rewrite length_app, le_bytes_length, Hp. unfold sizeof_int. lia.
Qed.

Lemma unpack_count_encoded fuel l pre post pos n :
  Forall well_typed l -> pos = Z.of_nat (length pre) -> (length l < fuel)%nat -> (length post < 8)%nat ->
  unpack_count fuel (pre ++ encode_all l ++ post) pos (Z.of_nat (length (encode_all l) + length post)) n =
  Done (n + Z.of_nat (length l)).
Proof.
  intros Hw. revert fuel pre pos n.
  induction Hw as [|d l Hd _ IH]; intros [|fuel] pre pos n Hp Hf Hpost; try (cbn in Hf; lia).
  - cbn [unpack_count encode_all map concat length]. rewrite (proj2 (Z.ltb_lt _ _)) by (unfold sizeof_int; lia).
    by rewrite Z.add_0_r.
  - cbn [unpack_count]. unfold encode_all in *. cbn [map concat]. rewrite <- app_assoc.
    pose proof (encode_length d) as He. rewrite length_app.
    rewrite (proj2 (Z.ltb_ge _ _)) by (unfold sizeof_int; lia).
    destruct (encoded_head d pre (concat (map encode l) ++ post) pos Hd Hp) as [_ ->].
    rewrite (proj2 (Z.ltb_ge _ 0)) by lia. rewrite app_assoc.
    replace (Z.of_nat (length (encode d) + length (concat (map encode l)) + length post) -
      (2 * sizeof_int + Z.of_nat (length (payload d)))) with (Z.of_nat (length (concat (map encode l)) + length post))
      by (unfold sizeof_int; lia).
    rewrite IH; [|rewrite length_app; unfold sizeof_int; lia|cbn in Hf; lia|done]. f_equal. cbn [length]. lia.
Qed.

Lemma unpack_fill_encoded fuel l pre post pos room :
  Forall well_typed l -> Forall (fun d => is_long d = false) l ->
  pos = Z.of_nat (length pre) -> (length l < fuel)%nat -> (length post < 8)%nat -> room = Z.of_nat (length l) ->
  unpack_fill fuel (pre ++ encode_all l ++ post) pos (Z.of_nat (length (encode_all l) + length post)) room =
  Done (Some (map received l)).
Proof.
  intros Hw Hl. revert fuel pre pos room.
  induction Hw as [|d l Hd _ IH]; intros [|fuel] pre pos room Hp Hf Hpost Hroom; try (cbn in Hf; lia).
  - cbn [unpack_fill encode_all map concat length]. by rewrite (proj2 (Z.ltb_lt _ _)) by (unfold sizeof_int; lia).
  - apply Forall_cons in Hl as [Hld Hl].
    cbn [unpack_fill]. unfold encode_all in *. cbn [map concat]. rewrite <- app_assoc.
    pose proof (encode_length d) as He. rewrite length_app.
    rewrite (proj2 (Z.ltb_ge _ _)) by (unfold sizeof_int; lia).
    destruct (encoded_head d pre (concat (map encode l) ++ post) pos Hd Hp) as [-> ->].
    rewrite (proj2 (Z.ltb_ge _ 0)) by lia. cbv zeta. rewrite (proj2 (Z.ltb_ge _ _)) by (unfold sizeof_int; lia).
    rewrite (proj2 (Z.leb_gt _ _)) by (cbn in Hroom; lia).
    assert (Hsplit : pre ++ encode d ++ concat (map encode l) ++ post =
      (pre ++ le_bytes 4 (nd_type d) ++ le_bytes 4 (Z.of_nat (length (payload d)))) ++ payload d ++
        (concat (map encode l) ++ post)) by (unfold encode; by rewrite <- !app_assoc).
    rewrite Hsplit, (unpack_one_encoded d _ _ _ Hd Hld), <- Hsplit.
    2:{ rewrite !length_app, !le_bytes_length, Hp. unfold sizeof_int. lia. }
    rewrite app_assoc.
    replace (Z.of_nat (length (encode d) + length (concat (map encode l)) + length post) - 2 * sizeof_int -
      Z.of_nat (length (payload d))) with (Z.of_nat (length (concat (map encode l)) + length post))
      by (unfold sizeof_int; lia).
    rewrite (IH Hl); [done|rewrite length_app; unfold sizeof_int; lia|cbn in Hf; lia|done|cbn in Hroom; lia].
Qed.

Lemma encode_all_length l : (length l <= length (encode_all l))%nat.
Proof.
  unfold encode_all. induction l as [|d l IH]; [done|]. cbn [map concat length].
  rewrite length_app, encode_length. lia.
Qed.

(** C31: packing and unpacking round trip.  For data without longs, ngcs_pack
    with a null buffer returns the number of bytes needed; with a buffer of
    that size it fills it exactly, without a write outside of it; and
    ngcs_unpack of these bytes returns the data with their true lengths. *)
Theorem ngcs_pack_unpack l buf :
  Forall well_typed l -> Forall (fun d => is_long d = false) l ->
  Z.of_nat (length buf) = Z.of_nat (length (encode_all l)) ->
  ngcs_pack l None = Done (Z.of_nat (length buf), map packed l, None) /\
  exists bytes, ngcs_pack l (Some buf) = Done (Z.of_nat (length buf), map packed l, Some bytes) /\
    ngcs_unpack bytes (Z.of_nat (length bytes)) = Done (Some (map received l)).
Proof.
  intros Hw Hl Hlen. apply Nat2Z.inj in Hlen. unfold ngcs_pack. cbn [fmap option_fmap option_map].
  rewrite (pack_loop_null l 0 Hw Hl), Hlen. split; [done|]. exists (encode_all l). split.
  - exact (pack_loop_next l 0 0 [] buf Hw Hl eq_refl (eq_sym Hlen)).
  - pose proof (encode_all_length l). unfold ngcs_unpack.
    pose proof (unpack_count_encoded (S (length (encode_all l))) l [] [] 0 0 Hw eq_refl) as Hc.
    pose proof (unpack_fill_encoded (S (length (encode_all l))) l [] [] 0 (Z.of_nat (length l)) Hw Hl eq_refl) as Hfill.
    cbn [app length] in Hc, Hfill. rewrite app_nil_r, Nat.add_0_r in Hc, Hfill.
    rewrite Hc by lia. rewrite Z.add_0_l, (proj2 (Z.ltb_ge _ 0)) by lia. apply Hfill; lia.
Qed.

(** ** Lemmas: arbitrary input *)

Lemma block_read_inside pos n data :
  0 <= pos -> 0 <= n -> pos + n <= Z.of_nat (length data) -> is_Some (block_read pos n data).
Proof. intros. unfold block_read. rewrite !(proj2 (Z.leb_le _ _)) by done. by eexists. Qed.

Lemma get_int_inside pos data :
  0 <= pos -> pos + 4 <= Z.of_nat (length data) -> is_Some (get_int pos data).
Proof. intros. unfold get_int. destruct (block_read_inside pos 4 data) as [bs ->]; [lia..|]. by eexists. Qed.

Lemma unpack_one_inside type len pos data :
  0 <= pos -> pos + len <= Z.of_nat (length data) -> is_Some (ngcs_unpack_one type len pos data).
Proof.
  intros Hp Hb. unfold ngcs_unpack_one. destruct (Z.ltb_spec len 0); [by eexists|].
  assert (H4 : forall n, 0 <= n <= len -> is_Some (block_read pos n data)) by (intros; apply block_read_inside; lia).
  destruct (type =? NGCS_TYPE_INT).
  { destruct (Z.eqb_spec len sizeof_int) as [->|]; [|by eexists]. unfold get_int.
    destruct (H4 4) as [bs ->]; [cbv; done|]. by eexists. }
  destruct (type =? NGCS_TYPE_LONG).
  { destruct (Z.eqb_spec len sizeof_long) as [->|]; [|by eexists]. unfold get_long.
    destruct (H4 8) as [bs ->]; [cbv; done|]. by eexists. }
  destruct (H4 len) as [bs Hbs]; [lia|]. destruct (is_string_type type); rewrite Hbs; by eexists.
Qed.

(** The counting loop returns; a count is at least the one it started with. *)
Lemma unpack_count_safe fuel data d l n :
  0 <= d -> d + l = Z.of_nat (length data) -> l < Z.of_nat fuel \/ l < 0 ->
  exists c, unpack_count fuel data d l n = Done c /\ (c < 0 \/ n <= c).
Proof.
  revert d l n. induction fuel as [|fuel IH]; intros d l n Hd Hdl Hf; cbn [unpack_count]; unfold sizeof_int in *;
    destruct (Z.ltb_spec l (2 * 4)); try (exists n; split; [done|lia]); [lia|].
  destruct (get_int_inside (d + 4) data) as [h1 ->]; [lia..|].
  destruct (Z.ltb_spec h1 0); [exists (-1); split; [done|lia]|].
  destruct (IH (d + 2 * 4 + h1) (l - (2 * 4 + h1)) (n + 1)) as (c & -> & Hc); [lia..|]. exists c. split; [done|lia].
Qed.

Lemma unpack_fill_safe fuel data d l n c :
  0 <= d -> d + l = Z.of_nat (length data) -> l < Z.of_nat fuel \/ l < 0 ->
  unpack_count fuel data d l n = Done c -> 0 <= c ->
  exists r, unpack_fill fuel data d l (c - n) = Done r /\
    match r with Some rs => Z.of_nat (length rs) <= c - n | None => True end.
Proof.
  revert d l n. induction fuel as [|fuel IH]; intros d l n Hd Hdl Hf Hcount Hc; cbn [unpack_count unpack_fill] in *;
    unfold sizeof_int in *; destruct (Z.ltb_spec l (2 * 4)); try lia;
    try (simplify_eq; eexists; split; [done|cbn; lia]).
  destruct (get_int_inside d data) as [h0 ->]; [lia..|].
  destruct (get_int_inside (d + 4) data) as [h1 E1]; [lia..|]. rewrite E1 in Hcount |- *.
  destruct (Z.ltb_spec h1 0); [by eexists|]. cbv zeta.
  destruct (Z.ltb_spec (l - 2 * 4) h1); [by eexists|].
  assert (Hge : n + 1 <= c).
  { destruct (unpack_count_safe fuel data (d + 2 * 4 + h1) (l - (2 * 4 + h1)) (n + 1)) as (c' & E & Hc'); [lia..|].
    rewrite Hcount in E. simplify_eq. lia. }
  rewrite (proj2 (Z.leb_gt _ _)) by lia.
  destruct (unpack_one_inside h0 h1 (d + 2 * 4) data) as [[r|] ->]; [lia..| |by eexists].
  replace (l - (2 * 4 + h1)) with (l - 2 * 4 - h1) in Hcount by lia.
  destruct (IH (d + 2 * 4 + h1) (l - 2 * 4 - h1) (n + 1)) as (rs & E & Hrs); [lia|lia|lia|done|done|].
  replace (c - n - 1) with (c - (n + 1)) by lia. rewrite E. destruct rs as [rs|]; [|by eexists].
  eexists. split; [done|]. cbn [length]. lia.
Qed.

(** C32: ngcs_unpack is safe on any input.  Whatever bytes arrived, with whatever
    lengths inside, it returns, reads only inside the message, and fills no
    more entries than it allocated. *)
Theorem ngcs_unpack_safe data :
  exists r, ngcs_unpack data (Z.of_nat (length data)) = Done r.
Proof.
  unfold ngcs_unpack. cbv zeta.
  destruct (unpack_count_safe (S (length data)) data 0 (Z.of_nat (length data)) 0) as (c & E & Hc); [lia..|].
  rewrite E. destruct (Z.ltb_spec c 0); [by eexists|].
  destruct (unpack_fill_safe (S (length data)) data 0 (Z.of_nat (length data)) 0 c) as (r & Er & _); [lia..|done|lia|].
  rewrite Z.sub_0_r in Er. by exists r.
Qed.

Lemma signed_32_64 z : signed 32 (signed 64 z) = signed 32 z.
Proof.
  assert (E : signed 64 z mod 2 ^ 32 = z mod 2 ^ 32).
  { assert (Hm : (z mod 2 ^ 64) mod 2 ^ 32 = z mod 2 ^ 32) by (apply Z.mod_mod_divide; by exists (2 ^ 32)).
    unfold signed. cbv zeta. destruct (_ <? _); [done|].
    replace (z mod 2 ^ 64 - 2 ^ 64) with (z mod 2 ^ 64 + (- 2 ^ 32) * 2 ^ 32) by lia. by rewrite Z_mod_plus_full. }
  unfold signed at 1 3. cbv zeta. by rewrite E.
Qed.

Lemma unpack_long v tail :
  length tail = 4%nat ->
  ngcs_unpack (le_bytes 4 4 ++ le_bytes 4 8 ++ le_bytes 4 v ++ tail) 16 =
  Done (Some [NgcsData NGCS_TYPE_LONG 8 (D_i (signed 32 v))]).
Proof.
  intros Ht. set (data := le_bytes 4 4 ++ le_bytes 4 8 ++ le_bytes 4 v ++ tail).
  assert (G0 : get_int 0 data = Some 4) by (by apply (get_int_app [] 4)).
  assert (G4 : get_int 4 data = Some 8) by (by apply (get_int_app (le_bytes 4 4) 8)).
  assert (G8 : get_long 8 data = Some (signed 64 (le_value (le_bytes 4 v ++ tail)))).
  { unfold get_long, data. rewrite app_assoc, <- (app_nil_r (le_bytes 4 v ++ tail)) at 1.
    rewrite (block_read_app _ (le_bytes 4 v ++ tail) []); [done| |done]. by rewrite length_app, le_bytes_length, Ht. }
  assert (Hv : signed 32 (signed 64 (le_value (le_bytes 4 v ++ tail))) = signed 32 v).
  { rewrite signed_32_64. destruct tail as [|t0 [|t1 [|t2 [|t3 [|]]]]]; try done.
    unfold signed. cbv zeta.
    assert (E : le_value (le_bytes 4 v ++ [t0; t1; t2; t3]) = v mod 2 ^ 32 + le_value [t0; t1; t2; t3] * 2 ^ 32).
    { change (2 ^ 32) with (256 ^ Z.of_nat 4) at 1. rewrite <- le_value_bytes. cbn [le_bytes app le_value]. ring. }
    rewrite E, Z_mod_plus_full, Z.mod_mod by lia. done. }
  unfold ngcs_unpack. replace (S (length data)) with 17%nat by (unfold data; rewrite !length_app, !le_bytes_length; lia).
  assert (Hc : unpack_count 17 data 0 16 0 = Done 1).
  { change (unpack_count 17 data 0 16 0) with
      (match get_int 4 data with None => Fault | Some h1 => if h1 <? 0 then Done (-1)
         else unpack_count 16 data (8 + h1) (16 - (8 + h1)) 1 end). by rewrite G4. }
  rewrite Hc.
  change (unpack_fill 17 data 0 16 1) with
    (match get_int 0 data, get_int 4 data with
     | Some rtype, Some rlen =>
       if rlen <? 0 then Done None else if 8 <? rlen then Done None
       else match ngcs_unpack_one rtype rlen 8 data with
            | None => Fault | Some None => Done None
            | Some (Some r) => match unpack_fill 16 data (8 + rlen) (8 - rlen) 0 with
              | Done (Some rs) => Done (Some (r :: rs)) | o => o end
            end
     | _, _ => Fault end).
  rewrite G0, G4.
  change (ngcs_unpack_one 4 8 8 data) with (l ← get_long 8 data; Some (Some (NgcsData 4 8 (D_i (signed 32 l))))).
  rewrite G8. cbn [mbind option_bind]. by rewrite Hv.
Qed.

(** Longs do not survive.  Of the 8 bytes ngcs_pack reserves for a long it
    writes 4, the other 4 keep what the buffer held; ngcs_unpack stores only an
    int, the low 32 bits of the value, whatever the long was. *)
Theorem ngcs_long_is_truncated v buf :
  length buf = 16%nat ->
  exists bytes, ngcs_pack [NgcsData NGCS_TYPE_LONG 8 (D_l v)] (Some buf) =
      Done (16, [NgcsData NGCS_TYPE_LONG 8 (D_l v)], Some bytes) /\
    drop 12 bytes = drop 12 buf /\
    ngcs_unpack bytes 16 = Done (Some [NgcsData NGCS_TYPE_LONG 8 (D_i (signed 32 v))]).
Proof.
  intros Hlen. set (bytes := le_bytes 4 4 ++ le_bytes 4 8 ++ le_bytes 4 v ++ drop 12 buf).
  exists bytes. split; [|split; [done|exact (unpack_long v (drop 12 buf) ltac:(rewrite length_drop; lia))]].
  unfold ngcs_pack, pack_loop, pack_one. cbn [fmap option_fmap option_map nd_type nd_d Z.eqb NGCS_TYPE_LONG NGCS_TYPE_INT Pos.eqb].
  destruct (put_int_next 0 [] 4 buf eq_refl) as [E1 P1]; [lia|]. cbn [app] in E1. change (put_int 0 NGCS_TYPE_LONG buf) with (put_int 0 4 buf). rewrite E1. cbn [mbind option_bind].
  destruct (put_int_next (0 + sizeof_int) _ sizeof_long (drop 4 buf) P1) as [E2 P2]; [rewrite length_drop; lia|].
  cbn [app] in E2. rewrite E2. cbn [mbind option_bind].
  destruct (put_int_next (0 + sizeof_int + sizeof_int) _ v (drop 4 (drop 4 buf)) P2) as [E3 _]; [rewrite !length_drop; lia|].
  cbn [app] in E3. rewrite E3. cbn [mbind option_bind]. rewrite !drop_drop, <- !app_assoc. done.
Qed.

(** ** Lemmas: pieces *)

Definition pieces (sock : list (list Z)) : Prop := Forall (fun c => c <> []) sock.

(** The three ints in front of a message. *)
Lemma head_fields a b c :
  int32 a -> int32 b -> int32 c ->
  let head := le_bytes 4 a ++ le_bytes 4 b ++ le_bytes 4 c in
  get_int 0 head = Some a /\ get_int 4 head = Some b /\ get_int 8 head = Some c.
Proof.
  intros Ha Hb Hc. cbv zeta. split; [by apply (get_int_app [])|]. split; [by apply (get_int_app (le_bytes 4 a))|].
  rewrite app_assoc, <- (app_nil_r (le_bytes 4 c)). by apply get_int_app.
Qed.

Lemma recvall_spec sock len :
  pieces sock -> (len <= length (concat sock))%nat ->
  exists rest, ngcs_recvall sock len = Some (take len (concat sock), rest) /\
    concat rest = drop len (concat sock) /\ pieces rest.
Proof.
  intros Hp. revert len. induction Hp as [|c sock Hc Hp IH]; intros len Hlen.
  - cbn in Hlen. assert (len = 0%nat) as -> by lia.
    exists []. split; [done|]. split; [done|]. constructor.
  - destruct len as [|len]; [exists (c :: sock); rewrite take_0, drop_0; split; [done|]; split; [done|by constructor]|].
    destruct c as [|b c]; [done|]. cbn [concat] in *. rewrite length_app in Hlen.
    change (ngcs_recvall ((b :: c) :: sock) (S len)) with
      (if Nat.leb (length (b :: c)) (S len) then
         '(bs, rest) ← ngcs_recvall sock (S len - length (b :: c)); Some ((b :: c) ++ bs, rest)
       else Some (take (S len) (b :: c), drop (S len) (b :: c) :: sock)).
    set (c' := b :: c) in *. destruct (Nat.leb_spec (length c') (S len)) as [Hle|Hgt].
    + destruct (IH (S len - length c')%nat) as (rest & E & Hr & Hpr); [lia|]. rewrite E. cbn [mbind option_bind].
      exists rest. rewrite take_app_ge, drop_app_ge by lia. by split.
    + exists (drop (S len) c' :: sock). rewrite take_app_le, drop_app_le by lia. split; [done|]. split; [done|].
      constructor; [|done]. intros Hd. assert (Hz : length (drop (S len) c') = 0%nat) by (by rewrite Hd).
      rewrite length_drop in Hz. lia.
Qed.

(** Ngcs_sendall hands over a prefix of the buffer, and the whole buffer
    exactly when it returns 0. *)
Theorem sendall_sends_a_prefix sock buf :
  exists rest, buf = snd (ngcs_sendall sock buf) ++ rest /\
    (fst (ngcs_sendall sock buf) = 0 <-> rest = []).
Proof.
  revert buf. induction sock as [|ret sock IH]; intros [|b buf]; try (by exists []).
  - by exists (b :: buf).
  - cbn [ngcs_sendall]. set (buf' := b :: buf). destruct (Z.leb_spec ret 0) as [Hle|Hgt]; [by exists buf'|].
    cbv zeta. set (n := Nat.min (Z.to_nat ret) (length buf')).
    destruct (IH (drop n buf')) as (rest & E & Hiff).
    destruct (ngcs_sendall sock (drop n buf')) as [r out]. cbn [fst snd] in *. exists rest. split; [|done].
    rewrite <- app_assoc, <- E. symmetry. apply take_drop.
Qed.
