(* ===== verification/NgcWire.v ===== *)
(** * The structs that initng and its control clients exchange:
    src/modules/ngc4/initng_ngc4.h

    A request is a [read_header] and the chars of an argument, a reply a
    [result_desc] and a payload, often an array of rows.  Both sides copy the
    structs as they lie in memory: int and enum have 4 bytes, size_t and the
    members of timeval 8, little endian, each at a multiple of its size, and
    a struct is filled up to a multiple of the size of its largest member. *)
From S2P Require Import Prelude Types CString Io Ngcs DaemonMod Control LogMods NgeMod.
From Stdlib Require Import String Ascii.
From stdpp Require Import prelude strings.
Local Open Scope Z_scope.

Definition PROTOCOL_4_VERSION : Z := 10.

(** data_type *)
Definition HELP_ROW : Z := 1.
Definition ACTIVE_ROW : Z := 2.
Definition STATE_ROW : Z := 3.
Definition OPTION_ROW : Z := 4.

(** e_suceed *)
Definition S_FALSE : Z := 0.
Definition S_TRUE : Z := 1.
Definition S_REQUIRES_OPT : Z := 2.
Definition S_NOT_REQUIRES_OPT : Z := 3.
Definition S_INVALID_TYPE : Z := 4.
Definition S_COMMAND_NOT_FOUND : Z := 5.

(** The numbers of e_com_type and e_opt_type. *)
Definition com_type_num (t : e_com_type) : Z :=
  match t with COMMAND_FAIL => 0 | PAYLOAD_COMMAND => 1 | INT_COMMAND => 3 | STRING_COMMAND => 5 end.
Definition opt_type_num (t : e_opt_type) : Z :=
  match t with NO_OPT => 0 | USES_OPT => 1 | REQUIRES_OPT => 2 end.

(** ** Members *)

Definition bytes_of (s : string) : list Z := map byte_of_char (chars_of s).
Definition zeros (n : nat) : list Z := replicate n 0.

(** A char array of [n] bytes in zeroed memory that strncpy filled up to its last
    byte. *)
Definition char_array (n : nat) (s : string) : list Z :=
  let b := take (n - 1) (bytes_of s) in b ++ zeros (n - length b).

(** The string at a position, up to its NUL. *)
Definition get_string (pos : nat) (mem : list Z) : option string :=
  b ← until_nul (drop pos mem); Some (string_of_list_ascii (map char_of_byte b)).
Definition get_char (pos : Z) (mem : list Z) : option Z := b ← block_read pos 1 mem; Some (signed 8 (le_value b)).
Definition get_size (pos : Z) (mem : list Z) : option Z := b ← block_read pos 8 mem; Some (le_value b).

(** ** read_header *)

Record read_header := Header { h_c : Z; h_l : string; h_p_ver : Z; h_body_len : Z }.
Definition sizeof_header : Z := 120.
Definition header_bytes (h : read_header) : list Z :=
  le_bytes 1 (h_c h) ++ char_array 101 (h_l h) ++ zeros 2 ++ le_bytes 4 (h_p_ver h) ++ zeros 4 ++ le_bytes 8 (h_body_len h).

(** The server puts a NUL at the end of the name. *)
Definition header_of (mem : list Z) : option read_header :=
  c ← get_char 0 mem;
  l ← get_string 0 (take 100 (drop 1 mem) ++ [0]);
  p_ver ← get_int 104 mem;
  body_len ← get_size 112 mem;
  Some (Header c l p_ver body_len).

(** ** result_desc *)

Record result_desc := Result { r_s : Z; r_c : Z; r_t : Z; r_version : string; r_p_ver : Z; r_payload : Z }.
Definition sizeof_result : Z := 128.
Definition result_bytes (r : result_desc) : list Z :=
  le_bytes 4 (r_s r) ++ le_bytes 1 (r_c r) ++ zeros 3 ++ le_bytes 4 (r_t r) ++ char_array 101 (r_version r) ++ zeros 3 ++
  le_bytes 4 (r_p_ver r) ++ le_bytes 8 (r_payload r).

(** The client never reads the version. *)
Definition result_of (mem : list Z) : option result_desc :=
  s ← get_int 0 mem;
  c ← get_char 4 mem;
  t ← get_int 8 mem;
  p_ver ← get_int 116 mem;
  payload ← get_size 120 mem;
  Some (Result s c t "" p_ver payload).

(** ** Rows; active_row is in file LogMods *)

Record help_row := HelpRow { hr_c : Z; hr_l : string; hr_t : e_com_type; hr_o : e_opt_type; hr_d : string }.
Record state_row := StateRow { sr_name : string; sr_is : e_is; sr_desc : string }.
Record option_row := OptionRow { or_n : string; or_t : e_dt; or_o : string; or_d : string }.

Definition sizeof_help_row : Z := 320.
Definition sizeof_active_row : Z := 336.
Definition sizeof_state_row : Z := 316.
Definition sizeof_option_row : Z := 516.

Definition help_row_bytes (r : help_row) : list Z :=
  le_bytes 4 HELP_ROW ++ le_bytes 1 (hr_c r) ++ char_array 101 (hr_l r) ++ zeros 2 ++ le_bytes 4 (com_type_num (hr_t r)) ++
  le_bytes 4 (opt_type_num (hr_o r)) ++ char_array 201 (hr_d r) ++ zeros 3.
Definition active_row_bytes (r : active_row) : list Z :=
  le_bytes 4 ACTIVE_ROW ++ char_array 101 (row_state r) ++ char_array 101 (row_name r) ++ zeros 2 ++
  le_bytes 8 (tv_sec (row_time_set r)) ++ le_bytes 8 (tv_usec (row_time_set r)) ++ le_bytes 4 (e_is_num (row_is r)) ++
  char_array 101 (row_type r) ++ zeros 7.
Definition state_row_bytes (r : state_row) : list Z :=
  le_bytes 4 STATE_ROW ++ char_array 101 (sr_name r) ++ zeros 3 ++ le_bytes 4 (e_is_num (sr_is r)) ++
  char_array 201 (sr_desc r) ++ zeros 3.
Definition option_row_bytes (r : option_row) : list Z :=
  le_bytes 4 OPTION_ROW ++ char_array 101 (or_n r) ++ zeros 3 ++ le_bytes 4 (e_dt_num (or_t r)) ++ char_array 101 (or_o r) ++
  char_array 301 (or_d r) ++ zeros 2.

(** ** What is put in is read back *)

Lemma char_array_length n s : (0 < n)%nat -> length (char_array n s) = n.
Proof.
  intros Hn. unfold char_array, zeros. cbv zeta. rewrite length_app, length_replicate.
  pose proof (length_take_le (bytes_of s) (n - 1)). rewrite length_take in *. lia.
Qed.

Lemma help_row_length r : Z.of_nat (length (help_row_bytes r)) = sizeof_help_row.
Proof. unfold help_row_bytes. rewrite !length_app, !le_bytes_length, !char_array_length by lia. done. Qed.
Lemma active_row_length r : Z.of_nat (length (active_row_bytes r)) = sizeof_active_row.
Proof. unfold active_row_bytes. rewrite !length_app, !le_bytes_length, !char_array_length by lia. done. Qed.
Lemma state_row_length r : Z.of_nat (length (state_row_bytes r)) = sizeof_state_row.
Proof. unfold state_row_bytes. rewrite !length_app, !le_bytes_length, !char_array_length by lia. done. Qed.
Lemma option_row_length r : Z.of_nat (length (option_row_bytes r)) = sizeof_option_row.
Proof. unfold option_row_bytes. rewrite !length_app, !le_bytes_length, !char_array_length by lia. done. Qed.
Lemma header_length h : Z.of_nat (length (header_bytes h)) = sizeof_header.
Proof. unfold header_bytes. rewrite !length_app, !le_bytes_length, !char_array_length by lia. done. Qed.
Lemma result_length r : Z.of_nat (length (result_bytes r)) = sizeof_result.
Proof. unfold result_bytes. rewrite !length_app, !le_bytes_length, !char_array_length by lia. done. Qed.

(** A C string has no NUL in it. *)
Definition nul_free (s : string) : bool := List.forallb (fun c => negb (Ascii.eqb c c_nul)) (chars_of s).
(** The first [n] chars. *)
Definition cut (n : nat) (s : string) : string := string_of_list_ascii (take n (chars_of s)).

Lemma bytes_of_nonzero s b : nul_free s = true -> b ∈ bytes_of s -> b <> 0.
Proof.
  unfold nul_free, bytes_of. rewrite List.forallb_forall. intros Hs Hb ->. apply list_elem_of_fmap in Hb as (c & Ec & Hc).
  apply list_elem_of_In in Hc. specialize (Hs c Hc). apply negb_true_iff, Ascii.eqb_neq in Hs. apply Hs.
  rewrite <- (ascii_nat_embedding c). unfold byte_of_char in Ec. by replace (nat_of_ascii c) with 0%nat by lia.
Qed.

Lemma until_nul_app bs rest : (forall b, b ∈ bs -> b <> 0) -> until_nul (bs ++ 0 :: rest) = Some bs.
Proof.
  induction bs as [|b bs IH]; intros H; [done|]. cbn [until_nul app]. assert (Hb : b <> 0) by (apply H; by left).
  destruct b; [done| |]; rewrite IH by (intros x Hx; apply H; by right); done.
Qed.

Lemma get_string_at pos mem n s rest :
  (0 < n)%nat -> nul_free s = true -> drop pos mem = char_array n s ++ rest -> get_string pos mem = Some (cut (n - 1) s).
Proof.
  intros Hn Hs E. unfold get_string. rewrite E. unfold char_array. cbv zeta. set (b := take (n - 1) (bytes_of s)).
  assert (Hl : (length b <= n - 1)%nat) by (unfold b; rewrite length_take; lia).
  destruct (n - length b)%nat as [|z] eqn:Ez; [lia|]. unfold zeros. cbn [replicate]. rewrite <- app_assoc. cbn [app].
  rewrite until_nul_app.
  - cbn [mbind option_bind]. unfold b, bytes_of, cut. f_equal. f_equal. rewrite <- firstn_map. by rewrite char_of_byte_of_char.
  - intros x Hx. eapply bytes_of_nonzero; [done|]. unfold b in Hx. apply elem_of_take in Hx as (i & Hi & _). by eapply list_elem_of_lookup_2.
Qed.

Lemma read_at (pos n : Z) mem bs rest :
  0 <= pos -> 0 < n -> n = Z.of_nat (length bs) -> drop (Z.to_nat pos) mem = bs ++ rest -> block_read pos n mem = Some bs.
Proof.
  intros Hp Hn -> E. unfold block_read. assert (Hl : length (drop (Z.to_nat pos) mem) = (length bs + length rest)%nat) by (by rewrite E, length_app).
  rewrite length_drop in Hl. rewrite !(proj2 (Z.leb_le _ _)) by lia. cbn [andb]. by rewrite Nat2Z.id, E, take_app_length.
Qed.

Lemma get_int_at pos mem v rest : int32 v -> 0 <= pos -> drop (Z.to_nat pos) mem = le_bytes 4 v ++ rest -> get_int pos mem = Some v.
Proof.
  intros Hv Hp E. unfold get_int. rewrite (read_at pos 4 mem (le_bytes 4 v) rest Hp ltac:(lia) ltac:(by rewrite le_bytes_length) E).
  cbn [mbind option_bind]. rewrite le_value_bytes. change (256 ^ Z.of_nat 4) with (2 ^ 32). by rewrite signed_id.
Qed.

Lemma get_size_at pos mem v rest :
  0 <= v < 2 ^ 64 -> 0 <= pos -> drop (Z.to_nat pos) mem = le_bytes 8 v ++ rest -> get_size pos mem = Some v.
Proof.
  intros Hv Hp E. unfold get_size. rewrite (read_at pos 8 mem (le_bytes 8 v) rest Hp ltac:(lia) ltac:(by rewrite le_bytes_length) E).
  cbn [mbind option_bind]. rewrite le_value_bytes. change (256 ^ Z.of_nat 8) with (2 ^ 64). by rewrite Z.mod_small.
Qed.

Lemma get_char_at pos mem v rest :
  - 128 <= v < 128 -> 0 <= pos -> drop (Z.to_nat pos) mem = le_bytes 1 v ++ rest -> get_char pos mem = Some v.
Proof.
  intros Hv Hp E. unfold get_char. rewrite (read_at pos 1 mem (le_bytes 1 v) rest Hp ltac:(lia) ltac:(by rewrite le_bytes_length) E).
  cbn [mbind option_bind]. rewrite le_value_bytes. change (256 ^ Z.of_nat 1) with 256. unfold signed. change (2 ^ 8) with 256.
  change (2 ^ (8 - 1)) with 128. rewrite Z.mod_mod by lia. f_equal.
  assert (Em : v mod 256 = if v <? 0 then v + 256 else v).
  { destruct (Z.ltb_spec v 0); symmetry; [apply (Z.mod_unique v _ (-1))|apply (Z.mod_unique v _ 0)]; lia. }
  rewrite Em. destruct (v <? 0) eqn:Ev; [apply Z.ltb_lt in Ev|apply Z.ltb_ge in Ev]; case_match; lia.
Qed.

Lemma signed_id_64 z : - 2 ^ 63 <= z < 2 ^ 63 -> signed 64 (z mod 2 ^ 64) = z.
Proof.
  unfold signed. intros H. cbv zeta. rewrite Z.mod_mod by lia. change (64 - 1) with 63.
  assert (E : z mod 2 ^ 64 = if z <? 0 then z + 2 ^ 64 else z).
  { destruct (Z.ltb_spec z 0); symmetry; [apply (Z.mod_unique z _ (-1))|apply (Z.mod_unique z _ 0)]; lia. }
  rewrite E. destruct (z <? 0) eqn:Ev; [apply Z.ltb_lt in Ev|apply Z.ltb_ge in Ev]; case_match; lia.
Qed.

Lemma get_long_at pos mem v rest :
  - 2 ^ 63 <= v < 2 ^ 63 -> 0 <= pos -> drop (Z.to_nat pos) mem = le_bytes 8 v ++ rest -> get_long pos mem = Some v.
Proof.
  intros Hv Hp E. unfold get_long. rewrite (read_at pos 8 mem (le_bytes 8 v) rest Hp ltac:(lia) ltac:(by rewrite le_bytes_length) E).
  cbn [mbind option_bind]. rewrite le_value_bytes. change (256 ^ Z.of_nat 8) with (2 ^ 64). by rewrite signed_id_64.
Qed.

(** What lies behind the first members of a struct, and behind what is in front
    of the struct. *)
Lemma skip_member (f rest : list Z) n k : length f = n -> (n <= k)%nat -> drop k (f ++ rest) = drop (k - n) rest.
Proof. intros <- Hk. by rewrite drop_app_ge. Qed.

Lemma member_at (pre row post : list Z) k : drop (length pre + k) (pre ++ row ++ post) = drop k (row ++ post).
Proof. by rewrite drop_app_add. Qed.

Lemma member_at_Z (pre row post : list Z) (k : Z) :
  0 <= k -> drop (Z.to_nat (Z.of_nat (length pre) + k)) (pre ++ row ++ post) = drop (Z.to_nat k) (row ++ post).
Proof. intros Hk. rewrite Z2Nat.inj_add, Nat2Z.id by lia. apply member_at. Qed.

(** Reaches the member: goal [drop k (struct ++ post) = member ++ ?rest]. *)
Ltac member_length := first [apply le_bytes_length|apply char_array_length; lia|apply length_replicate].
Ltac reach :=
  rewrite <- ?app_assoc;
  match goal with |- drop ?k _ = _ => let k' := eval vm_compute in k in change k with k' end;
  repeat (erewrite skip_member; [|member_length|lia]; cbn [Nat.sub]);
  rewrite drop_0; reflexivity.

(** ** The header of a request and of a reply *)

(** The last byte of the array is a NUL. *)
Lemma char_array_end n s rest : (0 < n)%nat -> take (n - 1) (char_array n s ++ rest) ++ [0] = char_array n s.
Proof.
  intros Hn. rewrite take_app_le by (rewrite char_array_length by done; lia). unfold char_array. cbv zeta.
  set (b := take (n - 1) (bytes_of s)). assert (Hl : (length b <= n - 1)%nat) by (unfold b; rewrite length_take; lia).
  rewrite take_app_ge by done. unfold zeros. rewrite take_replicate, <- app_assoc. f_equal.
  replace [0] with (replicate 1 0) by done. rewrite <- replicate_add. f_equal. lia.
Qed.

Lemma header_read h :
  - 128 <= h_c h < 128 -> nul_free (h_l h) = true -> int32 (h_p_ver h) -> 0 <= h_body_len h < 2 ^ 64 ->
  header_of (header_bytes h) = Some (Header (h_c h) (cut 100 (h_l h)) (h_p_ver h) (h_body_len h)).
Proof.
  intros H1 H2 H3 H4. unfold header_of. rewrite <- (app_nil_r (header_bytes h)). unfold header_bytes.
  erewrite get_char_at; [|done|done|reach]. cbn [mbind option_bind].
  erewrite (get_string_at 0 _ 101 (h_l h) []); [|lia|done|]; cycle 1.
  { rewrite <- !app_assoc, drop_0, app_nil_r. erewrite (skip_member _ _ 1 1); [|apply le_bytes_length|lia]. cbn [Nat.sub]. rewrite drop_0.
    etrans; [apply (char_array_end 101); lia|by rewrite app_nil_r]. }
  cbn [mbind option_bind Nat.sub].
  erewrite (get_int_at _ _ (h_p_ver h)); [|done|done|reach]. cbn [mbind option_bind].
  erewrite get_size_at; [done|done|done|reach].
Qed.

Lemma result_read r :
  int32 (r_s r) -> - 128 <= r_c r < 128 -> int32 (r_t r) -> int32 (r_p_ver r) -> 0 <= r_payload r < 2 ^ 64 ->
  result_of (result_bytes r) = Some (Result (r_s r) (r_c r) (r_t r) "" (r_p_ver r) (r_payload r)).
Proof.
  intros H1 H2 H3 H4 H5. unfold result_of. rewrite <- (app_nil_r (result_bytes r)). unfold result_bytes.
  erewrite (get_int_at 0 _ (r_s r)); [|done|done|reach]. cbn [mbind option_bind].
  erewrite get_char_at; [|done|done|reach]. cbn [mbind option_bind].
  erewrite (get_int_at 8 _ (r_t r)); [|done|done|reach]. cbn [mbind option_bind].
  erewrite (get_int_at 116 _ (r_p_ver r)); [|done|done|reach]. cbn [mbind option_bind].
  erewrite get_size_at; [done|done|done|reach].
Qed.
