(* ===== verification/Ngc4Mod.v ===== *)
(** * The module ngc4: src/modules/ngc4/initng_ngc4.c

    Clients connect to a socket, send one request and get one reply.  The module
    runs the command of the request, one of its own or a registered one, while
    the rest of initng waits. *)
From S2P Require Import Prelude Types Data CString Global ActiveDb Depend Io Poll Interrupt Launch Modules ServiceMod DaemonMod Control HookMods LogMods NgeMod.
From S2P Require Import Ngcs NgcWire.
From Stdlib Require Import String Ascii.
From stdpp Require Import prelude gmap strings.
Local Open Scope Z_scope.

(** The functions behind commands that return a string, none when the pointer is
    null, and behind those that return a payload: the bytes that it counts. *)
Class ReplyCode := {
  call_string_command : fptr -> option string -> G (option string);
  call_data_command : fptr -> option string -> G (list Z)
}.

(** What the kernel answers besides the answers of [SockSys]: the bytes that a
    recv(2) gets, or an error; whether connect(2) succeeds; how many bytes
    write(2) takes; whether accept(2) failed only for now. *)
Class Ngc4Sys := {
  sys_recv_bytes : nat -> Z -> Z -> option (list Z);
  sys_connect : nat -> Z -> string -> bool;
  sys_write : nat -> Z -> nat -> Z;
  sys_accept_again : nat -> bool
}.

Definition set_ngc4_var (f : ngc4_state -> ngc4_state) : G unit := set_statics (fun v => v <| ngc4 := f (ngc4 v) |>).
Definition ngc4_var {A} (f : ngc4_state -> A) : G A := static (fun v => f (ngc4 v)).

(** ** The commands of the module *)

(** The array for the rows has room for [n]. *)
Definition store_row {A} (n : nat) (rows : list A) (row : A) : option (list A) :=
  if (length rows <? n)%nat then Some (rows ++ [row]) else None.

Definition or_empty (s : option string) : string := default ""%string s.

Definition help_row_of (c : s_command) : help_row :=
  HelpRow (com_id c) (or_empty (com_long_id c)) (com_type c) (com_opt_type c) (or_empty (com_description c)).

(** A loop over commands; with [bounded] it ends behind row 101. *)
Fixpoint help_loop (shown : e_opt_vissible -> bool) (bounded : bool) (db : list s_command) (rows : list help_row) : option (list help_row) :=
  match db with
  | [] => Some rows
  | current :: db =>
    if negb (shown (com_opt_visible current)) then help_loop shown bounded db rows
    else
      rows ← store_row 101 rows (help_row_of current);
      if bounded && (100 <? length rows)%nat then Some rows else help_loop shown bounded db rows
  end.

Definition standard (v : e_opt_vissible) : bool := bool_decide (v = STANDARD_COMMAND).
Definition standard_or_advanced (v : e_opt_vissible) : bool := standard v || bool_decide (v = ADVANCHED_COMMAND).

Definition cmd_help (arg : option string) : G (list help_row) :=
  let! local := ngc4_var local_commands_db in
  let! db := asks g_command_db in
  deref (fun _ => rows ← help_loop standard true local []; help_loop standard true db rows).

Definition cmd_help_all (arg : option string) : G (list help_row) :=
  let! local := ngc4_var local_commands_db in
  let! db := asks g_command_db in
  deref (fun _ => rows ← help_loop standard_or_advanced false local []; help_loop standard_or_advanced true db rows).

Definition type_name (a : active_db_h) : string := or_empty (sty_name <$> a_type a).

Definition service_row (a : active_db_h) : active_row :=
  Row (st_name (a_current_state a)) (a_name a) (a_time_current_state a) (GET_STATE a) (type_name a).
Definition zero_time : timeval := Timeval 0 0.
Definition not_found (name : string) : active_row := Row "NOT_FOUND" name zero_time IS_FAILED "".

Definition option_row_of (e : s_entry) (name : string) : option_row :=
  OptionRow name (ent_type e) (match ent_ot e with Some ot => sty_name ot | None => "all"%string end) (or_empty (ent_description e)).

(** The loop over the types of variables. *)
Fixpoint options_loop (db : list s_entry) (rows : list option_row) : option (list option_row) :=
  match db with
  | [] => Some rows
  | current :: db =>
    match ent_name current with
    | None => options_loop db rows
    | Some name =>
      if is_prefix (chars_of "internal") (chars_of name) then options_loop db rows
      else
        rows ← store_row 101 rows (option_row_of current name);
        if (100 <? length rows)%nat then Some rows else options_loop db rows
    end
  end.

(** For a single type the name of its service type is read without a test. *)
Definition cmd_options (arg : option string) : G (list option_row) :=
  let all := let! db := asks g_option_db in deref (fun _ => options_loop db []) in
  match arg with
  | None => all
  | Some arg =>
    if (1 <? String.length arg)%nat then
      let! current := asks (initng_service_data_type_find arg) in
      match current with
      | None => mpure [OptionRow arg U_D_T "UNKNOWN" "NOT_FOUND"]
      | Some current =>
        let! ot := deref (fun _ => ent_ot current) in
        mpure [OptionRow (default arg (ent_name current)) (ent_type current) (sty_name ot) (default "NOT_FOUND"%string (ent_description current))]
      end
    else all
  end.

(** The array has room for [room] states. *)
Fixpoint states_loop (room : nat) (db : list a_state_h) (rows : list state_row) : option (list state_row) :=
  match db with
  | [] => Some rows
  | current :: db =>
    rows ← store_row room rows (StateRow (st_name current) (st_is current) (or_empty (st_description current)));
    if (100 <? length rows)%nat then Some rows else states_loop room db rows
  end.

Definition cmd_states (arg : option string) : G (list state_row) :=
  let! db := asks g_states in deref (fun _ => states_loop (S (length db)) db []).

Fixpoint services_loop (hide : bool) (db : list active_db_h) (rows : list active_row) : option (list active_row) :=
  match db with
  | [] => Some rows
  | current :: db =>
    if hide && bool_decide (sty_hidden <$> a_type current = Some true) then services_loop hide db rows
    else
      rows ← store_row 101 rows (service_row current);
      if (100 <? length rows)%nat then Some rows else services_loop hide db rows
  end.

Definition list_services (hide : bool) : G (list active_row) :=
  let! g := asks id in deref (fun _ => services_loop hide (map snd (active_services g)) []).

Definition cmd_services (arg : option string) : G (list active_row) :=
  match arg with
  | None => list_services true
  | Some arg =>
    if (1 <? String.length arg)%nat then
      let! current := asks (initng_active_db_find_by_name arg) in
      match current with
      | None => mpure [not_found arg]
      | Some s => let! a := get_service s in mpure [service_row a]
      end
    else list_services true
  end.

Definition cmd_all_services (arg : option string) : G (list active_row) := list_services false.

Section ngc4.
Context `{!Callbacks, !CommandCode, !ReplyCode, !SockSys, !Ngc4Sys} (fuel : nat).

Definition cmd_start (arg : option string) : G (list active_row) :=
  match arg with
  | None => mpure [not_found ""]
  | Some arg =>
    if (String.length arg <? 1)%nat then mpure [not_found ""]
    else
      let! serv := asks (initng_active_db_find_by_name arg) in
      match serv with
      | Some serv =>
        let! before := get_service serv in
        let! state := (if decide (GET_STATE before = IS_UP) then mpure "ALREADY_RUNNING"%string
                       else
                         initng_handler_start_service fuel serv ;;;
                         let! a := get_service serv in mpure (st_name (a_current_state a))) in
        let! a := get_service serv in
        mpure [Row state (a_name before) (a_time_current_state before) (GET_STATE a) (type_name a)]
      | None =>
        let! serv := initng_handler_start_new_service_named fuel arg in
        match serv with
        | None => mpure [not_found arg]
        | Some serv => let! a := get_service serv in mpure [service_row a]
        end
      end
  end.

Definition cmd_stop (arg : option string) : G (list active_row) :=
  match arg with
  | None => mpure [not_found "UNSET"]
  | Some arg =>
    if (String.length arg <? 2)%nat then mpure [not_found "UNSET"]
    else
      let! serv := asks (initng_active_db_find_by_name arg) in
      match serv with
      | None => mpure [not_found arg]
      | Some serv =>
        initng_handler_stop_service serv ;;;
        let! a := get_service serv in
        mpure [service_row a]
      end
  end.

Definition cmd_help_ptr : fptr := 171.
Definition cmd_help_all_ptr : fptr := 172.
Definition cmd_services_ptr : fptr := 173.
Definition cmd_all_services_ptr : fptr := 174.
Definition cmd_states_ptr : fptr := 175.
Definition cmd_options_ptr : fptr := 176.
Definition cmd_start_ptr : fptr := 177.
Definition cmd_stop_ptr : fptr := 178.
Definition fdh_handler_ptr : fptr := 179.
Definition check_socket_ptr : fptr := 180.

Definition HELP := Command 631 (chr "h") (Some "help"%string) PAYLOAD_COMMAND STANDARD_COMMAND NO_OPT (Some cmd_help_ptr)
  (Some "Print what commands you can send to initng."%string).
Definition HELP_ALL := Command 632 (chr "H") (Some "help_all"%string) PAYLOAD_COMMAND STANDARD_COMMAND NO_OPT (Some cmd_help_all_ptr)
  (Some "Print out verbose list of all commands."%string).
Definition SERVICES := Command 633 (chr "s") (Some "status"%string) PAYLOAD_COMMAND STANDARD_COMMAND USES_OPT (Some cmd_services_ptr)
  (Some "Print all services."%string).
Definition ALL_SERVICES := Command 634 (chr "S") (Some "allservice"%string) PAYLOAD_COMMAND HIDDEN_COMMAND NO_OPT (Some cmd_all_services_ptr)
  (Some "Print all servics, even hidden ones."%string).
Definition STATES := Command 635 (chr "t") (Some "states"%string) PAYLOAD_COMMAND STANDARD_COMMAND USES_OPT (Some cmd_states_ptr)
  (Some "Print out all possible states."%string).
Definition OPTIONS := Command 636 (chr "O") (Some "options"%string) PAYLOAD_COMMAND ADVANCHED_COMMAND USES_OPT (Some cmd_options_ptr)
  (Some "Print out option_db."%string).
Definition START := Command 637 (chr "u") (Some "start"%string) PAYLOAD_COMMAND STANDARD_COMMAND REQUIRES_OPT (Some cmd_start_ptr)
  (Some "Start service."%string).
Definition STOP := Command 638 (chr "d") (Some "stop"%string) PAYLOAD_COMMAND STANDARD_COMMAND REQUIRES_OPT (Some cmd_stop_ptr)
  (Some "Stop service."%string).

(** [payload->p] and [payload->s]: all bytes of the rows. *)
Definition payload_of {A} (bytes : A -> list Z) (m : G (list A)) : G (list Z) :=
  let! rows := m in mpure (concat (map bytes rows)).

Definition data_command (f : fptr) (arg : option string) : G (list Z) :=
  if Pos.eqb f cmd_help_ptr then payload_of help_row_bytes (cmd_help arg)
  else if Pos.eqb f cmd_help_all_ptr then payload_of help_row_bytes (cmd_help_all arg)
  else if Pos.eqb f cmd_services_ptr then payload_of active_row_bytes (cmd_services arg)
  else if Pos.eqb f cmd_all_services_ptr then payload_of active_row_bytes (cmd_all_services arg)
  else if Pos.eqb f cmd_states_ptr then payload_of state_row_bytes (cmd_states arg)
  else if Pos.eqb f cmd_options_ptr then payload_of option_row_bytes (cmd_options arg)
  else if Pos.eqb f cmd_start_ptr then payload_of active_row_bytes (cmd_start arg)
  else if Pos.eqb f cmd_stop_ptr then payload_of active_row_bytes (cmd_stop arg)
  else call_data_command f arg.

(** ** One client *)

Definition lfbc (cid : Z) : G (option s_command) :=
  let! db := ngc4_var local_commands_db in mpure (List.find (fun c => com_id c =? cid) db).
Definition lfbs (name : string) : G (option s_command) :=
  let! db := ngc4_var local_commands_db in mpure (List.find (fun c => bool_decide (com_long_id c = Some name)) db).

(** On a client of another version. *)
Definition ngc4_reload : G unit :=
  let! reload := asks (initng_command_find_by_command_id (chr "c")) in
  match reload ≫= com_u with
  | Some f => call_int_command f None ;;; mpure tt
  | None => mpure tt
  end.

(** recv(fd, buffer, len, 0): at most [len] bytes. *)
Definition recv (fd len : Z) : G (option (list Z)) :=
  let! r := syscall (fun t => sys_recv_bytes t fd len) in
  mpure ((fun b : list Z => take (Z.to_nat (Z.min len (Z.of_nat (length b)))) b) <$> r).
Definition returned (r : option (list Z)) : Z := match r with Some b => Z.of_nat (length b) | None => -1 end.

Definition send_bytes (fd : Z) (bytes : list Z) : G Z := do_send fd (map char_of_byte bytes).

(** The argument, in a block of [body_len] + 1 bytes, a size_t; the bound of the
    test is an int. *)
Definition recv_body (fd body_len : Z) : G (option (list Z)) :=
  let size := (body_len + 1) mod 2 ^ 64 in
  let! r := recv fd body_len in
  let got := default [] r in
  if size <? Z.of_nat (length got) then fault
  else if returned r <? to_int body_len then mpure None
  else mpure (Some (got ++ zeros (Z.to_nat (size - Z.of_nat (length got))))).

(** The argument as the commands read it. *)
Definition arg_of (header_data : option (list Z)) : G (option string) :=
  match header_data with
  | None => mpure None
  | Some block => let! s := deref (fun _ => get_string 0 block) in mpure (Some s)
  end.

Definition result (c : Z) (t : e_com_type) (s payload : Z) : result_desc :=
  Result s c (com_type_num t) INITNG_VERSION PROTOCOL_4_VERSION payload.
Definition send_result (fd : Z) (r : result_desc) : G Z := send_bytes fd (result_bytes r).

(** The result and, when it was sent, the payload. *)
Definition send_reply (fd : Z) (cmd : s_command) (bytes : list Z) : G unit :=
  let! sent := send_result fd (result (com_id cmd) (com_type cmd) S_TRUE (Z.of_nat (length bytes))) in
  if negb (sent =? sizeof_result) then mpure tt
  else send_bytes fd bytes ;;; mpure tt.

Definition run_client_command (fd : Z) (cmd : s_command) (header_data : option (list Z)) : G unit :=
  match com_type cmd with
  | INT_COMMAND =>
    let! f := deref (fun _ => com_u cmd) in
    let! arg := arg_of header_data in
    let! ret := call_int_command f arg in
    send_reply fd cmd (le_bytes 4 ret)
  | STRING_COMMAND =>
    let! f := deref (fun _ => com_u cmd) in
    let! arg := arg_of header_data in
    let! send_buf := call_string_command f arg in
    match send_buf with
    | None => mpure tt
    | Some s => send_reply fd cmd (bytes_of s)
    end
  | PAYLOAD_COMMAND =>
    let! f := deref (fun _ => com_u cmd) in
    let! arg := arg_of header_data in
    let! p := data_command f arg in
    send_reply fd cmd p
  | COMMAND_FAIL =>
    send_result fd (result (com_id cmd) COMMAND_FAIL S_INVALID_TYPE 0) ;;; mpure tt
  end.

Definition answer_request (fd : Z) (h : read_header) (header_data : option (list Z)) : G unit :=
  if h_c h =? chr "X" then send_result fd (result (chr "Y") INT_COMMAND S_TRUE 0) ;;; mpure tt
  else
    let! local := (if c_true (h_c h) then lfbc (h_c h) else lfbs (h_l h)) in
    let! cmd := match local with
                | Some cmd => mpure (Some cmd)
                | None => asks (if c_true (h_c h) then initng_command_find_by_command_id (h_c h)
                                else initng_command_find_by_command_string (h_l h))
                end in
    let refuse s := send_result fd (result (h_c h) COMMAND_FAIL s 0) ;;; mpure tt in
    match cmd with
    | None => refuse S_COMMAND_NOT_FOUND
    | Some cmd =>
      if bool_decide (com_type cmd = COMMAND_FAIL) then refuse S_COMMAND_NOT_FOUND
      else if bool_decide (com_opt_type cmd = REQUIRES_OPT) && (h_body_len h <? 1) then refuse S_REQUIRES_OPT
      else if bool_decide (com_opt_type cmd = NO_OPT) && (0 <? h_body_len h) then refuse S_NOT_REQUIRES_OPT
      else run_client_command fd cmd header_data
    end.

Definition handle_client (fd : Z) : G unit :=
  let! r := recv fd sizeof_header in
  if returned r <? sizeof_header then mpure tt
  else
    let! h := deref (fun _ => r ≫= header_of) in
    if negb (h_p_ver h =? PROTOCOL_4_VERSION) then ngc4_reload
    else if 0 <? h_body_len h then
      let! body := recv_body fd (h_body_len h) in
      match body with
      | None => mpure tt
      | Some body => answer_request fd h (Some body)
      end
    else answer_request fd h None.

(** ** The socket *)

Definition SOCKET_4_FILENAME_REAL : string := CTLDIR +:+ "/ngc4".

Definition closesock : G unit :=
  let! fds := ngc4_var fdh_fds in
  if fds <? 0 then mpure tt else set_ngc4_var (fun n => n <| fdh_fds := -1 |>).

(** [reopen] is [open_socket]. *)
Definition accepted_client_with (reopen : G unit) : G unit :=
  let! fds := ngc4_var fdh_fds in
  if fds <=? 0 then reopen
  else
    let! newsock := syscall (fun t => sys_accept t fds) in
    if 0 <? newsock then handle_client newsock
    else
      let! again := syscall sys_accept_again in
      if (again : bool) then mpure tt else closesock.

Definition ping_header : read_header := Header (chr "X") "" PROTOCOL_4_VERSION 0.

(** When it is called the socket is open, and [accepted_client] does not open it
    again. *)
Definition sendping : G Z :=
  let! client := syscall sys_socket in
  if client <? 0 then mpure FALSE
  else
    (if (108 <=? String.length SOCKET_4_FILENAME_REAL)%nat then fault else mpure tt) ;;;
    let! ok := syscall (fun t => sys_connect t client SOCKET_4_FILENAME_REAL) in
    if negb ok then mpure FALSE
    else
      let! n := syscall (fun t => sys_write t client (length (header_bytes ping_header))) in
      if n <? sizeof_header then mpure FALSE
      else
        accepted_client_with nofuel ;;;
        let! r := recv client sizeof_result in
        if returned r <? sizeof_result then mpure FALSE
        else
          let! pong := deref (fun _ => r ≫= result_of) in
          mpure (of_bool ((r_c pong =? chr "Y") && (r_s pong =? S_TRUE))).

Definition open_socket : G Z :=
  closesock ;;;
  let! fd := syscall sys_socket in
  if fd <? 1 then set_ngc4_var (fun n => n <| fdh_fds := -1 |>) ;;; mpure FALSE
  else
    set_ngc4_var (fun n => n <| fdh_fds := fd |>) ;;;
    (if (108 <=? String.length SOCKET_4_FILENAME_REAL)%nat then fault else mpure tt) ;;;
    let! bound := syscall (fun t => sys_bind t fd SOCKET_4_FILENAME_REAL) in
    if negb bound then closesock ;;; mpure FALSE
    else
      let! ok := syscall sys_chmod in
      if negb ok then closesock ;;; mpure FALSE
      else
        let! st := syscall (fun t => sys_sock_stat t SOCKET_4_FILENAME_REAL) in
        (match st with Some st => set_ngc4_var (fun n => n <| fdh_stat := st |>) | None => mpure tt end) ;;;
        let! ok := syscall (fun t => sys_listen t fd) in
        if negb ok then closesock ;;; mpure FALSE
        else
          let! pong := sendping in
          if negb (c_true pong) then closesock ;;; mpure FALSE
          else mpure TRUE.

Definition accepted_client : G unit := accepted_client_with (open_socket ;;; mpure tt).

(** IOW_ACTION_CLOSE and IOW_ACTION_DEBUG are never sent. *)
Definition fdh_handler (event : s_event) : G s_event :=
  match ev_data event with
  | ED_io_watcher action added sets =>
    let! fds := ngc4_var fdh_fds in
    if action =? IOW_ACTION_CHECK then
      if fds <=? 2 then mpure event
      else
        let! still_open := syscall (fun t => sys_fd_open t fds) in
        if negb still_open then set_ngc4_var (fun n => n <| fdh_fds := -1 |>) ;;; mpure event
        else
          let! sets := deref (fun _ => fd_set false fds sets) in
          mpure (event <| ev_data := ED_io_watcher action (added + 1) sets |>)
    else if action =? IOW_ACTION_CALL then
      if (added =? 0) || (fds <=? 2) then mpure event
      else if negb (bool_decide (fds ∈ readset sets)) then mpure event
      else
        accepted_client ;;;
        mpure (event <| ev_data := ED_io_watcher action (added - 1) sets |>)
    else mpure event
  | _ => fault
  end.

Definition check_socket (event : s_event) : G s_event :=
  match ev_data event with
  | ED_signal signal =>
    if negb (signal =? SIGHUP) then mpure event
    else
      let! fds := ngc4_var fdh_fds in
      if fds <=? 0 then open_socket ;;; mpure event
      else
        let! st := syscall (fun t => sys_sock_stat t SOCKET_4_FILENAME_REAL) in
        let! known := ngc4_var fdh_stat in
        (if bool_decide (st = Some known) then mpure tt else open_socket ;;; mpure tt) ;;;
        mpure event
  | _ => fault
  end.

(** ** The module *)

Definition local_commands : list s_command := [HELP; HELP_ALL; SERVICES; ALL_SERVICES; OPTIONS; START; STOP; STATES].
Definition ngc4_file : string := "initng_ngc4.c".

Definition ngc4_module_init : G Z :=
  set_ngc4_var (fun _ => Ngc4 (-1) (0, 0, 0) []) ;;;
  hook_register ngc4_file EVENT_IO_WATCHER fdh_handler_ptr ;;;
  hook_register ngc4_file EVENT_SIGNAL check_socket_ptr ;;;
  set_ngc4_var (fun n => n <| local_commands_db := local_commands |>) ;;;
  open_socket ;;;
  mpure TRUE.

Definition ngc4_module_unload : G unit :=
  closesock ;;;
  initng_event_hook_unregister_real EVENT_IO_WATCHER fdh_handler_ptr ;;;
  initng_event_hook_unregister_real EVENT_SIGNAL check_socket_ptr.

End ngc4.
