(* ===== verification/NgcTyped.v ===== *)
(** * What the requests of control clients keep

    Requests on the socket of ngc4, and the module itself, keep every service
    within its type, for any system whose commands do. *)
From S2P Require Import Prelude Types Data CString Global ActiveDb Depend Io Poll Interrupt Launch Modules Typed.
From S2P Require Import ServiceMod DaemonMod Control Main Hooks HookMods LogMods NgeMod HookTyped Ngcs NgcWire Ngc4Mod.
From Stdlib Require Import String.
From stdpp Require Import prelude gmap strings.
Local Open Scope Z_scope.

(** What the functions behind commands with a reply promise. *)
Class TypedReplies `{!Typing, !ReplyCode} := {
  typed_string_command f arg : kept anywhere (call_string_command f arg);
  typed_data_command f arg : kept anywhere (call_data_command f arg)
}.

Section facts.
Context `{TY : Typing, CB : Callbacks, SY : Sys, TC : !TypedCallbacks, CC : CommandCode, TCC : !TypedCommands, RC : ReplyCode, TR : !TypedReplies}.
Context `{SS : SockSys, NS : Ngc4Sys} (fuel : nat).

Lemma kept_set_ngc4 P f : kept P (set_ngc4_var f).
Proof. apply kept_set_statics. Qed.
Lemma kept_listing P arg : kept P (cmd_help arg) /\ kept P (cmd_help_all arg) /\ kept P (cmd_services arg) /\ kept P (cmd_all_services arg) /\
  kept P (cmd_states arg) /\ kept P (cmd_options arg).
Proof.
  refine (conj _ (conj _ (conj _ (conj _ (conj _ _))))); apply kept_anywhere; unfold cmd_help, cmd_help_all, cmd_services, cmd_all_services, cmd_states, cmd_options, list_services, ngc4_var, static,
    get_service; cbv zeta; kept_auto.
Qed.

#[local] Hint Resolve kept_set_ngc4 kept_start_service kept_start_new_named kept_stop_service kept_syscall kept_do_send kept_int_command
  kept_hook_register kept_hook_unregister : kept.

Lemma kept_data_command P f arg : kept P (data_command fuel f arg).
Proof.
  apply kept_anywhere. destruct (kept_listing anywhere arg) as (H1 & H2 & H3 & H4 & H5 & H6).
  assert (Hp : forall A (b : A -> list Z) m, kept anywhere m -> kept anywhere (payload_of b m)) by (intros A b m Hm; unfold payload_of; kept_auto).
  unfold data_command. repeat (destruct (Pos.eqb f _); [apply Hp; first [assumption|unfold cmd_start, cmd_stop, get_service; kept_auto]|]).
  apply typed_data_command.
Qed.

Lemma kept_handle_client P fd : kept P (handle_client fuel fd).
Proof.
  apply kept_anywhere. assert (Hd := fun f arg => kept_data_command anywhere f arg). assert (Hs := typed_string_command).
  unfold handle_client, recv_body, recv, answer_request, run_client_command, send_reply, send_result, send_bytes, arg_of, lfbc, lfbs, ngc4_var,
    static, ngc4_reload. cbv zeta. kept_auto; auto.
Qed.
#[local] Hint Resolve kept_handle_client : kept.

Lemma kept_accepted P m : kept anywhere m -> kept P (accepted_client_with fuel m).
Proof. intros Hm. apply kept_anywhere. unfold accepted_client_with, closesock, ngc4_var, static. kept_auto. Qed.

Lemma kept_open_socket P : kept P (open_socket fuel).
Proof.
  apply kept_anywhere. unfold open_socket, sendping, closesock, ngc4_var, static, recv. kept_auto. apply kept_accepted, kept_nofuel.
Qed.
#[local] Hint Resolve kept_open_socket : kept.

Lemma kept_ngc4_unload P : kept P ngc4_module_unload.
Proof. apply kept_anywhere. unfold ngc4_module_unload, closesock, ngc4_var, static. kept_auto. Qed.

Lemma kept_ngc4 P : (forall e, kept P (fdh_handler fuel e)) /\ (forall e, kept P (check_socket fuel e)) /\
  kept P (ngc4_module_init fuel).
Proof.
  refine (conj (fun e => _) (conj (fun e => _) _)); apply kept_anywhere; unfold fdh_handler, check_socket, ngc4_module_init, accepted_client, closesock, ngc4_var, static;
    kept_auto. apply kept_accepted. kept_auto.
Qed.

End facts.

(** ** The commands of stcmd and history that reply *)

Section replies.
Context `{TY : Typing, CB : Callbacks, TC : !TypedCallbacks} (fuel : nat).

Lemma kept_depends_loop P n current test out : (forall s, kept anywhere (test s)) -> kept P (depends_loop n current test out).
Proof.
  intros Ht. apply kept_anywhere. revert current out. induction n as [|n IH]; intros [s|] out; cbn [depends_loop]; unfold get_service; kept_auto; auto.
Qed.

Lemma kept_depends P head_line test arg : (forall s t, kept anywhere (test s t)) -> kept P (cmd_depends fuel head_line test arg).
Proof.
  intros Ht. apply kept_anywhere. unfold cmd_depends, first_active, get_service. kept_auto. apply kept_depends_loop. auto.
Qed.

Lemma kept_history_loop P arg db rows : kept P (history_loop arg db rows).
Proof.
  apply kept_anywhere. revert rows. induction db as [|x db IH]; intros rows; cbn [history_loop]; unfold names, entry_name, service_name, get_service; kept_auto.
Qed.

Lemma kept_history_reply P arg : kept P (payload_of active_row_bytes (cmd_history arg)).
Proof. apply kept_anywhere. unfold payload_of, cmd_history, static. kept_auto. apply kept_history_loop. Qed.

Lemma kept_log_loop `{!LogSys} P arg only st db : kept P (log_loop arg only st db).
Proof.
  apply kept_anywhere. revert st. induction db as [|x db IH]; intros st; cbn [log_loop];
    unfold log_entry, names, entry_name, service_name, get_service; cbv zeta; kept_auto; apply kept_lift.
Qed.
Lemma kept_cmd_log `{!LogSys} P arg : kept P (cmd_log arg).
Proof. apply kept_anywhere. unfold cmd_log, static. cbv zeta. kept_auto. apply kept_log_loop. Qed.

End replies.
