(* ===== verification/System.v ===== *)
(** * The system: the core with the modules that boot a machine

    The modules service, daemon, task and runlevel with the types of the
    services, simple_launcher, which starts their processes, service_file, which
    reads services from files, stcmd and initctl, which take commands, the
    modules that hook events and keep records, and nge, which tells listeners.  Their functions together, as the core sees them once they are loaded, and what they
    keep: every service stays in the states and process types of its own module. *)
From S2P Require Import Prelude Types Data CString Global ActiveDb Depend Io Poll Interrupt Launch Modules Typed.
From S2P Require Import ServiceMod DaemonMod Control Main TaskMod RunlevelMod ServiceFile Hooks HookMods LogMods NgeMod HookTyped Ngcs NgcWire Ngc4Mod NgcTyped.
From Stdlib Require Import String.
From stdpp Require Import prelude gmap strings.
Local Open Scope Z_scope.

(** ** The types of the modules *)

Inductive module_name := In_service | In_daemon | In_task | In_runlevel.

Definition type_module (ty : stype_h) : option module_name :=
  if bool_decide (ty = TYPE_SERVICE) then Some In_service
  else if bool_decide (ty = TYPE_DAEMON) then Some In_daemon
  else if bool_decide (ty = TYPE_TASK) then Some In_task
  else if bool_decide (ty = TYPE_RUNLEVEL) || bool_decide (ty = TYPE_VIRTUAL) then Some In_runlevel
  else None.

Definition module_states (m : module_name) : list a_state_h :=
  match m with
  | In_service => service_states
  | In_daemon => daemon_states
  | In_task => task_states
  | In_runlevel => runlevel_states
  end.

Definition module_ptypes (m : module_name) : list ptype_h :=
  match m with
  | In_service => [T_START; T_STOP]
  | In_daemon => [T_DAEMON; T_KILL]
  | In_task => [RUN_TASK]
  | In_runlevel => []
  end.

(** The states of a service that is read from a file, whatever its type will be. *)
Definition loading_states : list a_state_h := [PARSING; PARSING_FOR_START].
Definition shared_states : list a_state_h := core_states ++ [NOT_RUNNING; REDY_FOR_START; PARSE_FAIL] ++ all_hook_states ++ loading_states.

(** The processes that a service of any type may have. *)
Definition shared_ptypes : list ptype_h := [parse; EXTERN_RUN; T_DAEMON_CLEAN].

#[export] Instance system_typing : Typing.
Proof.
  refine {|
    type_states ty := module_states <$> type_module ty;
    type_ptypes ty := module_ptypes <$> type_module ty;
    common_states := shared_states;
    common_ptypes := shared_ptypes;
    unsettled := loading_states
  |}.
  - intros st Hst. apply (proj1 (Forall_forall (fun st => st ∈ shared_states /\ st ∉ loading_states) core_states)); [|done].
    apply (bool_decide_unpack _). by vm_compute.
  - intros st Hst. do 3 (apply elem_of_app; right). done.
  - intros st Hst. repeat (apply elem_of_cons in Hst as [->|Hst]; [done|]). by apply elem_of_nil in Hst.
Defined.

#[export] Instance system_file_typing : FileTyping.
Proof.
  split; [|done|by left]. intros st Hst.
  apply (proj1 (Forall_forall (fun st => st ∈ shared_states /\ st ∉ loading_states) [NOT_RUNNING; REDY_FOR_START; PARSE_FAIL])); [|done].
  apply (bool_decide_unpack _). by vm_compute.
Qed.

#[export] Instance system_hook_typing : HookTyping.
Proof.
  split; [|do 2 right; by left]. intros st Hst.
  apply (proj1 (Forall_forall (fun st => st ∈ shared_states /\ st ∉ loading_states) all_hook_states)); [|done].
  apply (bool_decide_unpack _). by vm_compute.
Qed.

(** ** The callbacks: each code address belongs to one module *)

Definition module_of (f : fptr) : option module_name :=
  if Pos.leb f 14 then Some In_service
  else if Pos.leb 21 f && Pos.leb f 37 then Some In_daemon
  else if Pos.leb 41 f && Pos.leb f 45 then Some In_task
  else if Pos.leb 61 f && Pos.leb f 66 then Some In_runlevel
  else None.

(** A virtual service of module provide is neither started nor stopped. *)
Definition system_stype (f : fptr) (s : addr) : G Z :=
  if Pos.eqb f dont_try_ptr then mpure FALSE
  else match module_of f with
  | Some In_service => service_stype f s
  | Some In_daemon => daemon_stype f s
  | Some In_task => task_stype f s
  | Some In_runlevel => runlevel_stype f s
  | None => fault
  end.

Section dispatch.
Context `{!Callbacks, !Sys, !DaemonSys, !ForkSys, !Build, !ClientSys, !HookSys, !LogSys, !SockSys} (fuel : nat).

Definition system_state (f : fptr) (s : addr) : G unit :=
  match module_of f with
  | Some In_service => service_state fuel f s
  | Some In_daemon => daemon_state fuel f s
  | Some In_task => task_state fuel f s
  | Some In_runlevel => runlevel_state fuel f s
  | None => fault
  end.

Definition system_kill (f : fptr) (s p : addr) : G unit :=
  if Pos.eqb f handle_killed_ptr then handle_killed fuel s p
  else match module_of f with
  | Some In_service => service_kill f s p
  | Some In_daemon => daemon_kill f s p
  | Some In_task => task_kill f s p
  | _ => fault
  end.

(** [other] are the event hooks of modules that are not modelled. *)
Definition system_hook (other : fptr -> s_event -> G s_event) (f : fptr) (e : s_event) : G s_event :=
  if Pos.eqb f initng_s_launch_ptr then initng_s_launch e
  else if Pos.eqb f create_new_active_ptr then create_new_active e
  else if Pos.eqb f get_pipe_ptr then bp_get_pipe fuel e
  else module_hook fuel (record_hook fuel (nge_hook other)) f e.

End dispatch.

(** [hook] are the event hooks of other modules, [n] is how deep functions of
    the modules may be nested. *)
Fixpoint system_callbacks `{!Sys, !DaemonSys, !ForkSys, !Build, !ClientSys, !HookSys, !LogSys, !SockSys} (hook : fptr -> s_event -> G s_event)
    (fuel n : nat) : Callbacks :=
  match n with
  | O => {| call_hook := fun _ _ => nofuel; call_stype := system_stype;
            call_state := fun _ _ => nofuel; call_kill := fun _ _ _ => nofuel |}
  | S n =>
    let cb := system_callbacks hook fuel n in
    {| call_hook := @system_hook cb _ _ _ _ _ _ _ fuel hook; call_stype := system_stype;
       call_state := @system_state cb _ _ fuel; call_kill := @system_kill cb _ _ fuel |}
  end.

(** ** The functions module_init and module_unload, by their addresses *)

Record module_code := MCode { mc_init_ptr : fptr; mc_unload_ptr : fptr; mc_init : G Z; mc_unload : G unit }.

Definition system_modules `{!ForkSys, !SockSys} : list module_code := [
  MCode 101 111 service_module_init service_module_unload;
  MCode 102 112 daemon_module_init daemon_module_unload;
  MCode 103 113 task_module_init task_module_unload;
  MCode 104 114 runlevel_module_init runlevel_module_unload;
  MCode 105 115 launcher_module_init launcher_module_unload;
  MCode 106 116 service_file_module_init service_file_module_unload;
  MCode 107 117 stcmd_module_init stcmd_module_unload;
  MCode 201 221 conflict_module_init conflict_module_unload;
  MCode 202 222 also_module_init also_module_unload;
  MCode 203 223 last_module_init last_module_unload;
  MCode 204 224 synchron_module_init synchron_module_unload;
  MCode 205 225 fstat_module_init fstat_module_unload;
  MCode 206 226 ctrlaltdel_module_init ctrlaltdel_module_unload;
  MCode 207 227 lockfile_module_init lockfile_module_unload;
  MCode 208 228 daemon_clean_module_init daemon_clean_module_unload;
  MCode 209 229 interactive_module_init interactive_module_unload;
  MCode 210 230 unneeded_module_init unneeded_module_unload;
  MCode 211 231 chdir_module_init chdir_module_unload;
  MCode 212 232 chroot_module_init chroot_module_unload;
  MCode 213 233 renice_module_init renice_module_unload;
  MCode 214 234 suid_module_init suid_module_unload;
  MCode 215 235 pause_module_init pause_module_unload;
  MCode 216 236 limit_module_init limit_module_unload;
  MCode 217 237 provide_module_init provide_module_unload;
  MCode 241 251 history_module_init history_module_unload;
  MCode 242 252 syslog_module_init syslog_module_unload;
  MCode 243 253 logfile_module_init logfile_module_unload;
  MCode 244 254 netdev_module_init netdev_module_unload;
  MCode 245 255 nge_module_init nge_module_unload ].

(** [other_init] and [other_unload] are those of the modules that are not
    modelled. *)
Definition system_module_code `{!ForkSys, !SockSys} (other_init : fptr -> G Z) (other_unload : fptr -> G unit) : ModuleCode := {|
  call_init f := match List.find (fun m => Pos.eqb (mc_init_ptr m) f) system_modules with
    | Some m => mc_init m | None => other_init f end;
  call_unload f := match List.find (fun m => Pos.eqb (mc_unload_ptr m) f) system_modules with
    | Some m => mc_unload m | None => other_unload f end
|}.

(** The functions of commands. *)
Definition system_commands `{!Callbacks, !Sys, !ModuleCode, !ModuleSys} (fuel : nat)
    (other : fptr -> option string -> G Z) : CommandCode := {|
  call_int_command f arg :=
    if Pos.leb 81 f && Pos.leb f 98 then stcmd_int fuel f arg
    else if Pos.eqb f cmd_stop_unneeded_ptr then cmd_stop_unneeded fuel
    else other f arg
|}.

(** The functions of commands with a reply. *)
Definition system_replies `{!Callbacks, !Sys, !LogSys} (fuel : nat) (other : ReplyCode) : ReplyCode := {|
  call_string_command f arg :=
    let text m := let! s := m in mpure (Some s) in
    let need m := match arg with Some arg => text (m arg) | None => fault end in
    if Pos.eqb f cmd_print_uptime_ptr then text (cmd_print_uptime arg)
    else if Pos.eqb f cmd_print_modules_ptr then text cmd_print_modules
    else if Pos.eqb f cmd_get_depends_on_ptr then need (cmd_get_depends_on fuel)
    else if Pos.eqb f cmd_get_depends_on_deep_ptr then need (cmd_get_depends_on_deep fuel)
    else if Pos.eqb f cmd_get_depends_off_ptr then need (cmd_get_depends_off fuel)
    else if Pos.eqb f cmd_get_depends_off_deep_ptr then need (cmd_get_depends_off_deep fuel)
    else if Pos.eqb f cmd_log_ptr then text (cmd_log arg)
    else @call_string_command other f arg;
  call_data_command f arg :=
    if Pos.eqb f cmd_history_ptr then payload_of active_row_bytes (cmd_history arg) else @call_data_command other f arg
|}.

(** ** The functions of each module keep services of its type well typed *)

Lemma kept_mark `{TY : Typing} s ty st : mark_ok ty st -> kept (of_type s ty) (mark s st).
Proof. intros H. unfold mark. kept_auto. by apply kept_mark_service. Qed.

(** A state of a module is among the states of the module. *)
Ltac in_list := apply (bool_decide_unpack _); by vm_compute.
Section service_module.
Context `{TY : Typing, CB : Callbacks, SY : Sys, TC : !TypedCallbacks} (ty : option stype_h).
Hypothesis Hst : forall st, st ∈ service_states -> mark_ok ty st.
Hypothesis Hpt : ptype_ok ty T_START /\ ptype_ok ty T_STOP.

Ltac by_mark := first [apply kept_mark, Hst; in_list|apply kept_mark_service, Hst; in_list|apply kept_launch; apply Hpt].

Lemma kept_process_gone P pid : kept P (process_gone pid).
Proof. apply kept_anywhere. unfold process_gone. kept_auto. Qed.
#[local] Hint Resolve kept_process_gone : kept.

Lemma kept_service_kill f s p : kept (of_type s ty) (service_kill f s p).
Proof.
  unfold service_kill, handle_killed_start, handle_killed_stop. module_auto; by_mark.
Qed.

Lemma kept_service_stype f s : kept (of_type s ty) (service_stype f s).
Proof. unfold service_stype, start_SERVICE, stop_SERVICE. module_auto; by_mark. Qed.

Lemma kept_service_state fuel f s : kept (of_type s ty) (service_state fuel f s).
Proof.
  unfold service_state, init_SERVICE_START_MARKED, init_SERVICE_STOP_MARKED, handle_SERVICE_WAITING_FOR_START_DEP,
    handle_SERVICE_WAITING_FOR_STOP_DEP, init_SERVICE_START_DEPS_MET, init_SERVICE_STOP_DEPS_MET,
    init_SERVICE_START_RUN, init_SERVICE_STOP_RUN, timeout_SERVICE_START_RUN, timeout_SERVICE_STOP_RUN,
    handle_killed_start, handle_killed_stop, svc_get_int.
  module_auto; by_mark.
Qed.

End service_module.

Section daemon_module.
Context `{TY : Typing, CB : Callbacks, SY : Sys, DS : DaemonSys, TC : !TypedCallbacks} (ty : option stype_h).
Hypothesis Hst : forall st, st ∈ daemon_states -> mark_ok ty st.
Hypothesis Hpt : ptype_ok ty T_DAEMON /\ ptype_ok ty T_KILL.

Ltac by_mark := first [apply kept_mark, Hst; in_list|apply kept_mark_service, Hst; in_list|apply kept_launch; apply Hpt].
#[local] Hint Resolve kept_process_gone : kept.

Lemma kept_pid_of P name : kept P (pid_of name).
Proof.
  apply kept_anywhere. unfold pid_of. kept_auto. induction l as [|d l IH]; cbn [pid_of_loop]; kept_auto.
Qed.
#[local] Hint Resolve kept_pid_of : kept.

Lemma kept_get_pidof P s : kept P (get_pidof s).
Proof. apply kept_anywhere. unfold get_pidof, get_service. kept_auto. Qed.
#[local] Hint Resolve kept_get_pidof : kept.

Lemma kept_get_pidfile P s : kept P (get_pidfile s).
Proof.
  apply kept_anywhere. unfold get_pidfile, get_service. kept_auto. generalize (variables a) as n, (@None addr) as itt.
  induction n as [|n IH]; intros itt; cbn [pidfile_loop]; unfold get_service, pid_from_file; kept_auto.
Qed.
#[local] Hint Resolve kept_get_pidfile : kept.

Lemma kept_kill_daemon P s sig : kept P (kill_daemon s sig).
Proof. apply kept_anywhere. unfold kill_daemon, process_free, get_service. kept_auto. Qed.
#[local] Hint Resolve kept_kill_daemon : kept.

Lemma kept_svc_set_int P type s v : kept P (svc_set_int type s v).
Proof.
  apply (kept_set_data P s (fun fresh d => initng_data_set_int_var (Some type) None fresh d v)), sets_at_int.
Qed.
#[local] Hint Resolve kept_svc_set_int : kept.

Lemma kept_check_respawn s : kept (of_type s ty) (check_respawn s).
Proof. unfold check_respawn, svc_get_int. module_auto; by_mark. Qed.

Lemma kept_try_get_pid s : kept (of_type s ty) (try_get_pid s).
Proof. unfold try_get_pid, found_pid. module_auto; try by_mark. by apply kept_upd_process. Qed.

Lemma kept_adopt_running s : kept (of_type s ty) (adopt_running s).
Proof.
  unfold adopt_running. module_auto; try by_mark.
  intros g r g' [Hs Hty] E. destruct (g_heap g !! s) as [b|] eqn:Hb.
  2:{ unfold upd_service, mthen, get_service, deref in E. by rewrite Hb in E. }
  rewrite (upd_service_run _ _ _ _ Hb) in E. injection E as <- <-. destruct (Hty b eq_refl) as [Et Hset].
  eapply put_step; [done|by intros|done|]. intros Hok.
  destruct (wf_svc g (ok_wf g Hok) s b Hb) as [W1 W2 W3 W4]. destruct (ok_svc g Hok s b Hb) as [S1 S2 SU S3 S4].
  split; split; try done. apply Forall_app. split; [done|]. constructor; [|constructor].
  change (a_type (b <| a_processes := _ |>)) with (a_type b). rewrite Et. apply Hpt.
Qed.

#[local] Hint Resolve kept_check_respawn kept_try_get_pid kept_adopt_running : kept.

Lemma kept_daemon_kill f s p : kept (of_type s ty) (daemon_kill f s p).
Proof. unfold daemon_kill, handle_killed_daemon, process_free. module_auto; by_mark. Qed.

Lemma kept_daemon_stype f s : kept (of_type s ty) (daemon_stype f s).
Proof. unfold daemon_stype, start_DAEMON, stop_DAEMON. module_auto; by_mark. Qed.

Lemma kept_daemon_state fuel f s : kept (of_type s ty) (daemon_state fuel f s).
Proof.
  unfold daemon_state, init_DAEMON_START_MARKED, init_DAEMON_STOP_MARKED, handle_DAEMON_WAITING_FOR_START_DEP,
    handle_DAEMON_WAITING_FOR_STOP_DEP, init_DAEMON_START_DEPS_MET, init_DAEMON_STOP_DEPS_MET,
    init_DAEMON_WAIT_FOR_PID_FILE, timeout_DAEMON_WAIT_FOR_PID_FILE, init_DAEMON_WAIT_RESP_TOUT,
    timeout_DAEMON_WAIT_RESP_TOUT, init_DAEMON_TERM, timeout_DAEMON_TERM, init_DAEMON_KILL, timeout_DAEMON_KILL,
    clear_pidfile, process_free, svc_get_int.
  module_auto; by_mark.
Qed.

End daemon_module.

Section task_module.
Context `{TY : Typing, CB : Callbacks, TC : !TypedCallbacks} (ty : option stype_h).
Hypothesis Hst : forall st, st ∈ task_states -> mark_ok ty st.
Hypothesis Hpt : ptype_ok ty RUN_TASK.

Ltac by_mark := first [apply kept_mark, Hst; in_list|by apply kept_launch].

Lemma kept_task_kill f s p : kept (of_type s ty) (task_kill f s p).
Proof. unfold task_kill, handle_task_leave. module_auto; by_mark. Qed.

Lemma kept_task_stype f s : kept (of_type s ty) (task_stype f s).
Proof. unfold task_stype, start_task. module_auto; by_mark. Qed.

Lemma kept_task_state fuel f s : kept (of_type s ty) (task_state fuel f s).
Proof. unfold task_state, task_run_marked, handle_deps, task_deps_met. module_auto; by_mark. Qed.

End task_module.

Section runlevel_module.
Context `{TY : Typing, CB : Callbacks, TC : !TypedCallbacks} (ty : option stype_h).
Hypothesis Hst : forall st, st ∈ runlevel_states -> mark_ok ty st.

Ltac by_mark := first [apply kept_mark, Hst; in_list|apply kept_mark_service, Hst; in_list].

Lemma kept_runlevel_stype f s : kept (of_type s ty) (runlevel_stype f s).
Proof. unfold runlevel_stype, start_RUNLEVEL, stop_RUNLEVEL. module_auto; by_mark. Qed.

Lemma kept_stop_unneeded P old new : kept P (runlevel_stop_unneeded old new).
Proof.
  apply kept_anywhere. unfold runlevel_stop_unneeded, get_service. kept_auto.
  generalize (S (length (all_entries (a_data a)))) as n, (@None addr) as itt.
  induction n as [|n IH]; intros itt; cbn [stop_unneeded_loop]; unfold runlevel_find_dep, get_service; kept_auto.
Qed.
#[local] Hint Resolve kept_stop_unneeded : kept.

Lemma kept_runlevel_state fuel f s : kept (of_type s ty) (runlevel_state fuel f s).
Proof.
  unfold runlevel_state, init_RUNLEVEL_START_MARKED, init_RUNLEVEL_STOP_MARKED,
    handle_RUNLEVEL_WAITING_FOR_START_DEP, handle_RUNLEVEL_WAITING_FOR_STOP_DEP.
  module_auto; try by_mark. by apply kept_modify.
Qed.

End runlevel_module.

(** ** The callbacks together *)

#[export] Instance module_name_eq_dec : EqDecision module_name.
Proof. solve_decision. Defined.

(** Services of type [ty] may be in all states of the module. *)
Definition allows (ty : option stype_h) (m : module_name) : Prop :=
  (forall st, st ∈ module_states m -> mark_ok ty st) /\ (forall pt, pt ∈ module_ptypes m -> ptype_ok ty pt).

Lemma module_states_settled m st : st ∈ module_states m -> st ∉ unsettled.
Proof.
  revert st. apply Forall_forall. destruct m; apply (bool_decide_unpack _); by vm_compute.
Qed.

Lemma allows_own ty m : type_module ty = Some m -> allows (Some ty) m.
Proof.
  intros E. unfold allows, state_ok, ptype_ok. cbn [mbind option_bind type_states type_ptypes system_typing].
  rewrite E. cbn [fmap option_fmap option_map].
  split; [|intros pt Hpt; apply elem_of_app; by right]. intros st Hst. split; [|by eapply module_states_settled].
  unfold state_ok. cbn [mbind option_bind type_states system_typing]. rewrite E. apply elem_of_app. by right.
Qed.

Lemma allows_unknown ty m : ty ≫= type_module = None -> allows ty m.
Proof.
  intros E. assert (Hs : forall st, state_ok ty st) by (intros st; unfold state_ok; destruct ty; cbn in E |- *; by rewrite ?E).
  split; [intros st Hst; split; [done|by eapply module_states_settled]|].
  intros pt Hpt. unfold ptype_ok. destruct ty; cbn in E |- *; by rewrite ?E.
Qed.

(** A function of a type, a state or a process type of a module is in it. *)
Lemma stype_function ty f m :
  type_module ty = Some m -> sty_start ty = Some f \/ sty_stop ty = Some f \/ sty_restart ty = Some f ->
  module_of f = Some m.
Proof.
  unfold type_module. repeat case_bool_decide; subst; cbn; intros [= <-] Hf; destruct Hf as [Hf|[Hf|Hf]]; simplify_eq; done.
Qed.

Definition fn_in (m : module_name) (f : option fptr) : bool :=
  match f with Some f => bool_decide (module_of f = Some m) | None => true end.

Lemma state_function m st f :
  st ∈ shared_states ++ module_states m -> st_interrupt st = Some f \/ st_init st = Some f \/ st_alarm st = Some f ->
  module_of f = Some m.
Proof.
  intros Hst Hf.
  assert (Hall : forall m, Forall (fun st => fn_in m (st_interrupt st) && fn_in m (st_init st) && fn_in m (st_alarm st) = true)
    (shared_states ++ module_states m)) by (intros []; apply (bool_decide_unpack _); by vm_compute).
  specialize (Hall m). rewrite Forall_forall in Hall. specialize (Hall st Hst).
  apply andb_prop in Hall as [[H1 H2]%andb_prop H3].
  destruct Hf as [Hf|[Hf|Hf]]; rewrite Hf in *; by eapply bool_decide_eq_true_1.
Qed.

Lemma kill_function m pt f : pt ∈ module_ptypes m -> pty_kill_handler pt = Some f -> module_of f = Some m.
Proof.
  intros Hpt Hf.
  assert (Hall : forall m, Forall (fun pt => fn_in m (pty_kill_handler pt) = true) (module_ptypes m))
    by (intros []; apply (bool_decide_unpack _); by vm_compute).
  specialize (Hall m). rewrite Forall_forall in Hall. specialize (Hall pt Hpt).
  rewrite Hf in Hall. by eapply bool_decide_eq_true_1.
Qed.

(** The service allows the module its function comes from. *)
Lemma module_allowed ty f :
  (forall t m, ty = Some t -> type_module t = Some m -> module_of f = Some m) ->
  forall m, module_of f = Some m -> allows ty m.
Proof.
  intros H m Hm. destruct (ty ≫= type_module) as [m'|] eqn:E; [|by apply allows_unknown].
  destruct ty as [t|]; [|done]. cbn in E. rewrite (H t m' eq_refl E) in Hm. injection Hm as ->. by apply allows_own.
Qed.

Section dispatch_facts.
Context `{CB : Callbacks, SY : Sys, DS : DaemonSys, FS : ForkSys, BU : Build, CS : ClientSys, HS : HookSys, LS : LogSys, SS : SockSys, TC : !TypedCallbacks}.
Context (fuel : nat) (ty : option stype_h) (f : fptr).
Hypothesis allowed : forall m, module_of f = Some m -> allows ty m.

Lemma kept_system_stype s : kept (of_type s ty) (system_stype f s).
Proof.
  unfold system_stype. destruct (Pos.eqb f _); [apply kept_pure|]. destruct (module_of f) as [m|]; [|apply kept_fault]. destruct (allowed m eq_refl) as [Hst _].
  destruct m; [by apply kept_service_stype|by apply kept_daemon_stype|by apply kept_task_stype|by apply kept_runlevel_stype].
Qed.

Lemma kept_system_state s : kept (of_type s ty) (system_state fuel f s).
Proof.
  unfold system_state. destruct (module_of f) as [m|]; [|apply kept_fault]. destruct (allowed m eq_refl) as [Hst Hpt].
  destruct m; [apply kept_service_state|apply kept_daemon_state|apply kept_task_state|apply kept_runlevel_state];
    try exact Hst; repeat split; apply Hpt; cbn; set_solver.
Qed.

Lemma kept_system_kill s p : kept (of_type s ty) (system_kill fuel f s p).
Proof.
  unfold system_kill. destruct (Pos.eqb f _); [apply kept_parse_killed|]. destruct (module_of f) as [m|]; [|apply kept_fault]. destruct (allowed m eq_refl) as [Hst Hpt].
  destruct m; [apply kept_service_kill|apply kept_daemon_kill|apply kept_task_kill|apply kept_fault]; try exact Hst.
Qed.

End dispatch_facts.

#[local] Hint Resolve kept_unload_named kept_set_nge kept_open_initiator kept_close_initiator kept_close_listeners : kept.

Lemma kept_system_init `{!ForkSys, !SockSys} f other unl : kept anywhere (other f) -> kept anywhere (@call_init (system_module_code other unl) f).
Proof.
  intros Ho. cbn [call_init system_module_code]. destruct (List.find _ system_modules) as [m|] eqn:E; [|done].
  apply List.find_some in E as [E _]. revert m E. apply List.Forall_forall.
  repeat (apply List.Forall_cons; [|]); [..|apply List.Forall_nil]; cbn [mc_init]; unfold service_module_init, daemon_module_init, task_module_init,
    runlevel_module_init, launcher_module_init, service_file_module_init, stcmd_module_init,
    conflict_module_init, also_module_init, last_module_init, synchron_module_init, fstat_module_init,
    ctrlaltdel_module_init, lockfile_module_init, daemon_clean_module_init, interactive_module_init,
    unneeded_module_init, chdir_module_init, chroot_module_init, renice_module_init, suid_module_init,
    pause_module_init, limit_module_init, provide_module_init, fork_module_init,
    history_module_init, syslog_module_init, logfile_module_init, netdev_module_init, nge_module_init, history_free_all, set_devs;
    kept_auto.
Qed.

Lemma kept_system_unload `{!ForkSys, !SockSys} f ini other : kept anywhere (other f) -> kept anywhere (@call_unload (system_module_code ini other) f).
Proof.
  intros Ho. cbn [call_unload system_module_code]. destruct (List.find _ system_modules) as [m|] eqn:E; [|done].
  apply List.find_some in E as [E _]. revert m E. apply List.Forall_forall.
  repeat (apply List.Forall_cons; [|]); [..|apply List.Forall_nil]; cbn [mc_unload]; unfold service_module_unload, daemon_module_unload, task_module_unload,
    runlevel_module_unload, launcher_module_unload, service_file_module_unload, stcmd_module_unload,
    conflict_module_unload, also_module_unload, last_module_unload, synchron_module_unload, fstat_module_unload,
    ctrlaltdel_module_unload, lockfile_module_unload, daemon_clean_module_unload, interactive_module_unload,
    unneeded_module_unload, chdir_module_unload, chroot_module_unload, renice_module_unload, suid_module_unload,
    pause_module_unload, limit_module_unload, provide_module_unload, fork_module_unload,
    history_module_unload, syslog_module_unload, logfile_module_unload, netdev_module_unload, nge_module_unload, history_free_all, set_devs;
    kept_auto.
Qed.

Section system.
Context `{SY : Sys, DS : DaemonSys, FS : ForkSys, BU : Build, CS : ClientSys, HS : HookSys, LS : LogSys, SS : SockSys} (hook : fptr -> s_event -> G s_event) (fuel : nat).

(** What is asked of the hooks of the modules that are not modelled. *)
Definition hooks_keep : Prop := forall f e, kept anywhere (hook f e).

#[export] Instance system_typed_callbacks (Hh : hooks_keep) n : @TypedCallbacks _ (system_callbacks hook fuel n).
Proof.
  assert (Hstype : forall ty f s, sty_start ty = Some f \/ sty_stop ty = Some f \/ sty_restart ty = Some f ->
    kept (of_type s (Some ty)) (system_stype f s)).
  { intros ty f s Hf. apply kept_system_stype, module_allowed. intros t m [= ->] Et. eapply stype_function; [exact Et|exact Hf]. }
  induction n as [|n IH]; split; try exact Hstype; try (intros; apply kept_nofuel).
  - intros f e. cbn [call_hook system_callbacks]. unfold system_hook.
    destruct (Pos.eqb f _); [apply kept_s_launch|]. destruct (Pos.eqb f _); [apply (kept_create_new_active (CB := system_callbacks hook fuel n))|].
    destruct (Pos.eqb f _); [apply kept_file_pipe|apply kept_module_hook, kept_record_hook, kept_nge_hook, Hh].
  - intros ty st f s Hst Hf. apply kept_system_state, module_allowed. intros t m -> Et.
    unfold state_ok in Hst. cbn in Hst. rewrite Et in Hst. exact (state_function m st f Hst Hf).
  - intros ty pt f s p Hpt Hf. cbn [call_kill system_callbacks]. destruct (decide (pt = parse)) as [->|Hne].
    { injection Hf as <-. apply kept_parse_killed. }
    apply kept_system_kill, module_allowed. intros t m -> Et.
    unfold ptype_ok in Hpt. cbn in Hpt. rewrite Et in Hpt. apply elem_of_cons in Hpt as [?|Hpt]; [done|].
    do 2 (apply elem_of_cons in Hpt as [->|Hpt]; [done|]). exact (kill_function m pt f Hpt Hf).
  - intros pt f s p Hpt Hf. apply elem_of_cons in Hpt as [->|Hpt]; [injection Hf as <-; apply kept_parse_killed|].
    repeat (apply elem_of_cons in Hpt as [->|Hpt]; [done|]). by apply not_elem_of_nil in Hpt.
Qed.

(** ** The modules together implement the interfaces of starting and stopping *)

Definition known_type (ty : stype_h) : Prop := is_Some (type_module ty).

Lemma known_types ty : known_type ty -> ty ∈ [TYPE_SERVICE; TYPE_DAEMON; TYPE_TASK; TYPE_RUNLEVEL; TYPE_VIRTUAL].
Proof. intros [m E]. unfold type_module in E. repeat case_bool_decide; subst; cbn in E; try done; set_solver. Qed.

Lemma system_call_stype n f s g : @call_stype (system_callbacks hook fuel n) f s g = system_stype f s g.
Proof. by destruct n. Qed.

#[export] Instance system_start_functions n : @StartFunctions (system_callbacks hook fuel n) known_type.
Proof.
  intros ty f s a g Hk Hf Hwf Ha _. rewrite system_call_stype. apply known_types in Hk.
  assert (Htask : exists r g', start_task s g = Done (r, g') /\ wf g' /\ same_deps g g').
  { unfold start_task. rewrite (mthen_run _ _ _ _ _ (get_service_run _ _ _ Ha)).
    destruct (IS_MARK a TASK_WAITING); [|by exists TRUE, g].
    destruct (mark_result s TASK_RUN_MARKED a g) as [r g'] eqn:E.
    assert (E' : initng_common_mark_service s TASK_RUN_MARKED g = Done (r, g')) by (by rewrite (mark_service_run _ _ _ _ Ha), E).
    exists TRUE, g'. unfold mark. rewrite (mthen_run _ _ g tt g') by (by rewrite (mthen_run _ _ _ _ _ E')).
    split; [done|]. split; [by eapply steps_mark|by eapply mark_same_deps]. }
  repeat (apply elem_of_cons in Hk as [->|Hk]; [injection Hf as <-; first [exact Htask|by eapply start_or_back_returns]|]).
  by apply not_elem_of_nil in Hk.
Qed.

#[export] Instance system_stop_functions n : @StopFunctions (system_callbacks hook fuel n) known_type.
Proof.
  intros ty f s a g Hk Hf Ha _ Hl Hs. rewrite system_call_stype. apply known_types in Hk.
  repeat (apply elem_of_cons in Hk as [->|Hk]; [first [discriminate Hf|injection Hf as <-; by eapply start_or_back_stops]|]).
  by apply not_elem_of_nil in Hk.
Qed.

(** ** The system as a state machine: one step is one call of the main loop, of
    a command or of the world outside that returns *)

Context `{PS : PollSys, MS : ModuleSys, CTS : ControlSys, NS : Ngc4Sys}.
Context (other_init : fptr -> G Z) (other_unload : fptr -> G unit) (other_command : fptr -> option string -> G Z) (other_replies : ReplyCode).
Let modules_code : ModuleCode := system_module_code other_init other_unload.
Let code_of (n : nat) : CommandCode :=
  @system_commands (system_callbacks hook fuel n) _ modules_code _ fuel other_command.
Let replies_of (n : nat) : ReplyCode :=
  @system_replies (system_callbacks hook fuel n) _ _ fuel other_replies.

(** What is asked of the code of the modules that are not modelled. *)
Definition code_keeps : Prop :=
  (forall f, kept anywhere (other_init f)) /\ (forall f, kept anywhere (other_unload f)) /\
  (forall f arg, kept anywhere (other_command f arg)) /\ @TypedReplies _ other_replies.

#[local] Instance system_typed_modules (Hc : code_keeps) : @TypedModules _ modules_code.
Proof.
  destruct Hc as (H1 & H2 & _). split; intros f.
  - apply kept_system_init, H1.
  - apply kept_system_unload, H2.
Qed.

Lemma extern_run_common : EXTERN_RUN ∈ common_ptypes.
Proof. right. by left. Qed.

#[local] Instance system_typed_commands (Hh : hooks_keep) (Hc : code_keeps) n : @TypedCommands _ (code_of n).
Proof.
  intros f arg. cbn [call_int_command code_of system_commands]. pose proof (system_typed_callbacks Hh n) as TC.
  pose proof (system_typed_modules Hc) as TM. destruct (_ && _); [by apply kept_stcmd, extern_run_common|].
  destruct (Pos.eqb f _); [apply kept_cmd_stop_unneeded|apply Hc].
Qed.

#[local] Instance system_typed_replies (Hh : hooks_keep) (Hc : code_keeps) n : @TypedReplies _ (replies_of n).
Proof.
  pose proof (system_typed_callbacks Hh n) as TC. destruct Hc as (_ & _ & _ & TR). split; intros f arg.
  - cbn [call_string_command replies_of system_replies]. cbv zeta.
    unfold cmd_get_depends_on, cmd_get_depends_on_deep, cmd_get_depends_off, cmd_get_depends_off_deep, cmd_print_uptime, cmd_print_modules, get_service.
    kept_auto; first [apply typed_string_command|apply kept_cmd_log|apply kept_depends; intros; first [apply kept_depend|apply kept_depend_deep]].
  - cbn [call_data_command replies_of system_replies]. destruct (Pos.eqb f _); [apply kept_history_reply|apply typed_data_command].
Qed.

Inductive main_step : s_global -> s_global -> Prop :=
| do_interrupt n k g r g' : @initng_interrupt (system_callbacks hook fuel n) k g = Done (r, g') -> main_step g g'
| do_signals n k g g' : @initng_signal_dispatch (system_callbacks hook fuel n) _ k g = Done (tt, g') -> main_step g g'
| do_alarms n k g g' : @main_alarm (system_callbacks hook fuel n) k g = Done (tt, g') -> main_step g g'
| do_clock n last g t g' : @main_update_clock (system_callbacks hook fuel n) last g = Done (t, g') -> main_step g g'
| do_output n k s p pi g g' :
    @initng_io_process_read_input (system_callbacks hook fuel n) _ k s p pi g = Done (tt, g') -> main_step g g'
| do_death n k pid r g g' :
    @initng_kill_handler_killed_by_pid (system_callbacks hook fuel n) _ k pid r g = Done (tt, g') -> main_step g g'
| do_start n k s g r g' : @initng_handler_start_service (system_callbacks hook fuel n) k s g = Done (r, g') -> main_step g g'
| do_start_named n k name g r g' :
    @initng_handler_start_new_service_named (system_callbacks hook fuel n) k name g = Done (r, g') -> main_step g g'
| do_start_extra n k g g' :
    @initng_main_start_extra_services (system_callbacks hook fuel n) k g = Done (tt, g') -> main_step g g'
| do_stop n s g r g' : @initng_handler_stop_service (system_callbacks hook fuel n) s g = Done (r, g') -> main_step g g'
| do_stop_all n k g r g' : @initng_handler_stop_all (system_callbacks hook fuel n) k g = Done (r, g') -> main_step g g'
| do_restart n k s g r g' :
    @initng_handler_restart_service (system_callbacks hook fuel n) k s g = Done (r, g') -> main_step g g'
| do_sys_state n st g g' : @initng_main_set_sys_state (system_callbacks hook fuel n) st g = Done (tt, g') -> main_step g g'
| do_runlevel n r g g' : @initng_main_set_runlevel (system_callbacks hook fuel n) r g = Done (tt, g') -> main_step g g'
| do_clean g g' : initng_active_db_clean_down g = Done (tt, g') -> main_step g g'
| do_free s g g' : initng_active_db_free s g = Done (tt, g') -> main_step g g'
| do_hook file t f g r g' : initng_event_hook_register_real file t f g = Done (r, g') -> main_step g g'
| do_unhook t f g g' : initng_event_hook_unregister_real t f g = Done (tt, g') -> main_step g g'
| do_poll n k g g' : @initng_io_module_poll (system_callbacks hook fuel n) _ _ k g = Done (tt, g') -> main_step g g'
| do_command n cid arg g r g' :
    @initng_command_execute_arg (code_of n) cid arg g = Done (r, g') -> main_step g g'
| do_control n k fds g g' :
    @parse_control_input (system_callbacks hook fuel n) (code_of n) _ k fds g = Done (tt, g') -> main_step g g'
| do_load_all k path g r g' : @initng_module_load_all modules_code _ k path g = Done (r, g') -> main_step g g'
| do_load name g r g' : @initng_module_load modules_code _ name g = Done (r, g') -> main_step g g'
| do_unload_named name g r g' : initng_module_unload_named name g = Done (r, g') -> main_step g g'
| do_unload_marked k g g' : @initng_module_unload_marked modules_code k g = Done (tt, g') -> main_step g g'
| do_unload_all k g g' : @initng_module_unload_all modules_code k g = Done (tt, g') -> main_step g g'
| do_ngc4_io n e g e' g' :
    @fdh_handler (system_callbacks hook fuel n) (code_of n) (replies_of n) _ _ fuel e g = Done (e', g') -> main_step g g'
| do_ngc4_signal n e g e' g' :
    @check_socket (system_callbacks hook fuel n) (code_of n) (replies_of n) _ _ fuel e g = Done (e', g') -> main_step g g'
| do_ngc4_init n g r g' :
    @ngc4_module_init (system_callbacks hook fuel n) (code_of n) (replies_of n) _ _ fuel g = Done (r, g') -> main_step g g'
| do_ngc4_unload g g' : ngc4_module_unload g = Done (tt, g') -> main_step g g'
| do_tick t g : main_step g (g <| g_clock := t |>)
| do_signal sig g g' : set_signal sig g = Done (tt, g') -> main_step g g'.

Lemma main_step_keeps g g' : hooks_keep -> code_keeps -> main_step g g' -> sys_step g g'.
Proof.
  intros Hh Hc Hs.
  assert (TC : forall n, @TypedCallbacks _ (system_callbacks hook fuel n)) by (intros n; by apply system_typed_callbacks).
  pose proof (system_typed_modules Hc) as TM.
  assert (TCC : forall n, @TypedCommands _ (code_of n)) by (intros n; by apply system_typed_commands).
  assert (TRR : forall n, @TypedReplies _ (replies_of n)) by (intros n; by apply system_typed_replies).
  destruct Hs as
    [n k g r g' E|n k g g' E|n k g g' E|n last g t g' E|n k s p pi g g' E|n k pid r g g' E|n k s g r g' E|n k name g r g' E
    |n k g g' E|n s g r g' E|n k g r g' E|n k s g r g' E|n st g g' E|n r g g' E|g g' E|s g g' E|file t f g r g' E|t f g g' E
    |n k g g' E|n cid arg g r g' E|n k fds g g' E|k path g r g' E|name g r g' E|name g r g' E|k g g' E|k g g' E
    |n e g e' g' E|n e g e' g' E|n g r g' E|g g' E|t g|sig g g' E]; try (specialize (TC n)); try (specialize (TCC n)); try (specialize (TRR n));
    try (revert E;
      first [by apply (kept_interrupt anywhere)|by apply (kept_signal_dispatch anywhere)|by apply (kept_main_alarm anywhere)
        |by apply (kept_update_clock anywhere)|by apply (kept_read_input anywhere)|by apply (kept_killed_by_pid anywhere)
        |by apply (kept_start_service anywhere)|by apply (kept_start_new_named anywhere)|by apply (kept_start_extra anywhere)
        |by apply (kept_stop_service anywhere)|by apply (kept_stop_all anywhere)|by apply (kept_restart_service anywhere)
        |by apply (kept_set_sys_state anywhere)|by apply (kept_set_runlevel anywhere)|by apply (kept_clean_down anywhere)
        |by apply (kept_free anywhere)|by apply (kept_hook_register anywhere)|by apply (kept_hook_unregister anywhere)
        |by apply (kept_poll anywhere)|by apply (kept_execute_arg (CC := code_of n) anywhere)
        |by apply (kept_control_input (CC := code_of n) anywhere)|by apply (kept_load_all (MC := modules_code) anywhere)
        |by apply (kept_module_load (MC := modules_code) anywhere)|by apply (kept_unload_named anywhere)
        |by apply (kept_unload_marked (MC := modules_code) anywhere)|by apply (kept_unload_all (MC := modules_code) anywhere)
        |by apply (proj1 (kept_ngc4 (CC := code_of n) (RC := replies_of n) fuel anywhere))
        |by apply (proj1 (proj2 (kept_ngc4 (CC := code_of n) (RC := replies_of n) fuel anywhere)))
        |by apply (proj2 (proj2 (kept_ngc4 (CC := code_of n) (RC := replies_of n) fuel anywhere)))
        |by apply (kept_ngc4_unload anywhere)]).
  - by apply (kept_modify anywhere (fun g => g <| g_clock := t |>) ltac:(done) g tt).
  - revert E. by apply (kept_modify anywhere (fun g => g <| g_signals_got := set_signal_slots sig (g_signals_got g) |>)).
Qed.

Lemma kept_static_defaults P :
  kept P (initng_static_data_id_register_defaults ;;; initng_static_states_register_defaults ;;;
    initng_static_stypes_register_defaults).
Proof.
  apply kept_anywhere. unfold initng_static_data_id_register_defaults, initng_static_states_register_defaults,
    initng_static_stypes_register_defaults. kept_auto.
Qed.

Lemma zeroed_ok argv clock ticks kills children proc vars :
  sys_ok ((zeroed_global argv clock) <| g_ticks := ticks |> <| g_kills := kills |> <| g_children := children |>
    <| g_proc := proc |> <| g_statics := vars |>).
Proof.
  split; [destruct (wf_zeroed argv clock); by split|]. intros s a. cbn. by rewrite lookup_empty.
Qed.

Lemma global_new_ok argv g0 g1 : initng_config_global_new argv g0 = Done (tt, g1) -> sys_ok g1.
Proof.
  unfold initng_config_global_new. rewrite then_modify. intros E1.
  exact (proj1 (kept_static_defaults anywhere _ _ _ I E1 (zeroed_ok _ _ _ _ _ _ _))).
Qed.

(** Every service of a type of the modules service, daemon, task and runlevel is
    in a state of its own module or in a shared one, of the core, of service_file
    or of a module that hooks events, waits for no other state, and has only
    processes of its own module and shared ones, parse processes and those of the
    command run and of daemon_clean.  While its file is read, it has no processes
    of its module. *)
Definition services_typed (g : s_global) : Prop :=
  forall s a ty m, g_heap g !! s = Some a -> a_type a = Some ty -> type_module ty = Some m ->
    a_current_state a ∈ shared_states ++ module_states m /\
    (forall st, a_next_state a = Some st -> st ∈ shared_states ++ module_states m /\ st ∉ loading_states) /\
    Forall (fun q => p_pt q ∈ shared_ptypes ++ module_ptypes m) (a_processes a) /\
    (a_current_state a ∈ loading_states -> Forall (fun q => p_pt q ∈ shared_ptypes) (a_processes a)).

Lemma sys_ok_typed g : sys_ok g -> wf g /\ services_typed g.
Proof.
  intros Hok. split; [apply Hok|]. intros s a ty m Ha Et Em. destruct (ok_svc g Hok s a Ha) as [S1 S2 SU S3 _].
  unfold mark_ok, state_ok, ptype_ok in *. rewrite Et in *.
  cbn [mbind option_bind type_states type_ptypes common_states common_ptypes unsettled system_typing] in *.
  rewrite Em in *. repeat split; try done; try by apply S2. intros Hu. by destruct (SU Hu).
Qed.

(** C1: services stay within their types.  From the initialised system, whatever
    of the 30 modules are loaded and unloaded, and whatever the parts of the main
    loop, the commands, requests on /dev/initctl and of control clients, the files of services and the
    world do, in whatever order: the database is well formed, and every service
    of a type of the modules service, daemon, task and runlevel is in a state of
    its own module or in a shared one, of the core, of service_file or of a
    module that hooks events, waits for no other state, and has only processes of
    its own module and shared ones; while its file is read, none of its module. *)
Theorem reachable_systems_are_well_typed argv g0 g1 g :
  hooks_keep -> code_keeps -> initng_config_global_new argv g0 = Done (tt, g1) -> rtc main_step g1 g ->
  wf g /\ services_typed g.
Proof.
  intros Hh Hc E1 Hr. apply sys_ok_typed. revert Hr. eapply rtc_ind_r; [by eapply global_new_ok|].
  intros g' g'' _ Hs IH. by apply (main_step_keeps _ _ Hh Hc Hs IH).
Qed.

(** C2: the program itself.  For any arguments, kernel, directory of modules and
    number of rounds, and whatever happens outside between two rounds: whenever
    main has run its start and [n] rounds of its loop, or has come to its end,
    the database is well formed and every service within its type, as above. *)
Theorem main_keeps_services_typed `{MN : MainSys} argv depth n wait g0 e g :
  hooks_keep -> code_keeps -> kept anywhere wait ->
  @main (system_callbacks hook fuel depth) _ _ _ _ modules_code _ _ fuel wait n argv g0 = Done (e, g) ->
  wf g /\ services_typed g.
Proof.
  intros Hh Hc Hw E. apply sys_ok_typed.
  exact (main_keeps (TC := system_typed_callbacks Hh depth) (TM := system_typed_modules Hc) fuel wait n argv g0 e g
    (global_new_ok argv g0) Hw E).
Qed.

End system.
