(* ===== verification/Reload.v ===== *)
(** * Hot reload: src/modules/reload/initng_reload.c and initng_reload.h

    The file is the list of its structs; fwrite and fread of a whole struct are
    taken as exact.  The arrays of the structs are lists of their length, so
    that a write or a read beside them is a fault; a char array of n + 1 bytes
    that strncpy fills from zeroed memory is a string of at most n chars. *)
From S2P Require Import Prelude Types Data CString Global ActiveDb Depend Io.
From Stdlib Require Import String Ascii.
From stdpp Require Import prelude gmap strings.
Local Open Scope Z_scope.

(** ** initng_reload.h *)

Definition MAX_SERVICE_NAME_STRING_LEN : nat := 200.
Definition MAX_SERVICE_STATE_LEN : nat := 100.
Definition MAX_DATA_STRING_LEN : nat := 200.
Definition MAX_TYPE_STRING_LEN : nat := 100.
Definition MAX_PROCESSES : nat := 6.
Definition MAX_PTYPE_STRING_LEN : nat := 100.
Definition MAX_ENTRYS_FOR_SERVICE : nat := 20.
Definition MAX_DATA_VN_LEN : nat := 100.
Definition MAX_PIPES : nat := 6.
Definition MAX_PIPE_TARGETS : nat := 5.

Record r_d_e := RDE { rd_type : string; rd_opt_type : Z; rd_vn : string; rd_t : t_union }.
Record r_pipe := RPipe { rp_pipe0 : Z; rp_pipe1 : Z; rp_dir : e_dir; rp_targets : list Z }.
Record r_process := RProcess { rr_ptype : string; rr_pipes : list r_pipe; rr_pid : Z; rr_rcode : Z }.

Record data_save_struct := DataSave {
  ds_name : string;
  ds_type : string;
  ds_state : string;
  ds_time_current_state : timeval;
  ds_process : list r_process;
  ds_data : list r_d_e
}.

(** Zeroed memory. *)
Definition no_pipe : r_pipe := RPipe 0 0 UNKNOWN_PIPE (replicate (MAX_PIPE_TARGETS + 1) 0).
Definition no_process : r_process := RProcess "" (replicate (MAX_PIPES + 1) no_pipe) 0 0.
Definition no_data : r_d_e := RDE "" 0 "" T_null.

(** strncpy into a zeroed array of [n] + 1 chars. *)
Definition strncpy (n : nat) (s : string) : string := String.substring 0 n s.

(** [l] at the start of an array of [n] elements; beyond the array is a fault. *)
Definition in_array {A} (n : nat) (zero : A) (l : list A) : option (list A) :=
  if (length l <=? n)%nat then Some (l ++ replicate (n - length l) zero) else None.

(** ** write_file *)

Fixpoint positive_prefix (l : list Z) : list Z :=
  match l with
  | [] => []
  | x :: l => if 0 <? x then x :: positive_prefix l else []
  end.

(** The targets up to the first that is not positive, at most five. *)
Definition save_targets (targets : list Z) : list Z :=
  let l := positive_prefix (take (Nat.min MAX_TARGETS MAX_PIPE_TARGETS) targets) in
  l ++ replicate (MAX_PIPE_TARGETS + 1 - length l) 0.

Definition save_pipe (p : pipe_h) : r_pipe :=
  RPipe (pipe0 p) (pipe1 p) (pi_dir p) (save_targets (pi_targets p)).

(** The loop over the pipes has no bound of its own. *)
Definition save_process (q : process_h) : option r_process :=
  pipes ← in_array (MAX_PIPES + 1) no_pipe (map save_pipe (p_pipes q));
  Some (RProcess (strncpy MAX_PTYPE_STRING_LEN (pty_name (p_pt q))) pipes (p_pid q) (p_r_code q)).

(** At most six processes, and an empty one behind the last. *)
Definition save_processes (l : list process_h) : option (list r_process) :=
  ps ← mapM save_process (take MAX_PROCESSES l);
  in_array MAX_PROCESSES no_process (ps ++ [no_process]).

Definition dt_is_string (t : e_dt) : bool :=
  match t with STRING | STRINGS | VARIABLE_STRING | VARIABLE_STRINGS => true | _ => false end.
Definition dt_is_int (t : e_dt) : bool := match t with INT | VARIABLE_INT => true | _ => false end.
Definition has_vn (t : e_dt) : bool := 50 <? e_dt_num t.

Definition save_value (t : e_dt) (v : t_union) : option t_union :=
  if dt_is_string t then s ← t_s v; Some (T_s (strncpy MAX_DATA_STRING_LEN s))
  else if dt_is_int t then i ← t_i v; Some (T_i i)
  else Some T_null.

(** One variable, whose type has the name [name]. *)
Definition save_data (name : string) (c : s_data) : option r_d_e :=
  let t := ent_type (d_type c) in
  v ← save_value t (d_t c);
  vn ← (if has_vn t then s ← d_vn c; Some (strncpy MAX_DATA_VN_LEN s) else Some ""%string);
  Some (RDE (strncpy MAX_TYPE_STRING_LEN name) (e_dt_num t) vn v).

(** The loop from slot [i] on: what is saved, and [success]. *)
Fixpoint save_data_loop (i : nat) (l : list s_data) : option (list r_d_e * bool) :=
  match l with
  | [] => Some ([], true)
  | c :: l =>
    match ent_name (d_type c) with
    | None => save_data_loop i l
    | Some name =>
      d ← save_data name c;
      if (S i =? MAX_ENTRYS_FOR_SERVICE)%nat then Some ([d], false)
      else '(ds, ok) ← save_data_loop (S i) l; Some (d :: ds, ok)
    end
  end.

(** initng_list_foreach goes from the newest entry to the oldest. *)
Definition newest_first (d : data_head) : list s_data := rev (dh_entries d).

(** A struct, unless the name is too long, and [success]. *)
Definition save_service (a : active_db_h) : option (option data_save_struct * bool) :=
  if (MAX_SERVICE_NAME_STRING_LEN <=? String.length (a_name a))%nat then Some (None, false)
  else
    process ← save_processes (a_processes a);
    '(ds, ok) ← save_data_loop 0 (newest_first (a_data a));
    data ← in_array (MAX_ENTRYS_FOR_SERVICE + 1) no_data ds;
    Some (Some (DataSave
      (strncpy MAX_SERVICE_NAME_STRING_LEN (a_name a))
      (match a_type a with Some t => strncpy MAX_TYPE_STRING_LEN (sty_name t) | None => "" end)
      (strncpy MAX_SERVICE_STATE_LEN (st_name (a_current_state a)))
      (a_time_current_state a) process data), ok).

(** fopen and fwrite may fail; the file is what was written. *)
Class ReloadSys := { sys_fopen : nat -> bool; sys_fwrite : nat -> bool }.

Section write_file.
Context `{!ReloadSys}.

Fixpoint write_loop (l : list (addr * active_db_h)) (success : Z) : G (Z * list data_save_struct) :=
  match l with
  | [] => mpure (success, [])
  | (_, current) :: l =>
    let! (entry, ok) := deref (fun _ => save_service current) in
    let success := if (ok : bool) then success else FALSE in
    match entry with
    | None => write_loop l success
    | Some entry =>
      let! written := syscall sys_fwrite in
      if (written : bool) then
        let! (success, file) := write_loop l success in
        mpure (success, entry :: file)
      else mpure (FALSE, [])
    end
  end.

(** The result and, if it could be opened, what is in the file. *)
Definition write_file : G (Z * option (list data_save_struct)) :=
  let! opened := syscall sys_fopen in
  if (opened : bool) then
    let! services := asks active_services in
    let! (success, file) := write_loop services TRUE in
    mpure (success, Some file)
  else mpure (FALSE, None).

End write_file.

(** ** read_file *)

(** The pipe: calloc, then the targets up to the first that is not positive. *)
Definition load_pipe (r : r_pipe) : pipe_h :=
  let l := positive_prefix (take (Nat.min MAX_TARGETS MAX_PIPE_TARGETS) (rp_targets r)) in
  Pipe (rp_pipe0 r) (rp_pipe1 r) (rp_dir r) (l ++ replicate (MAX_TARGETS + 1 - length l) 0) None 0 0.

Fixpoint pipes_in (l : list r_pipe) : list r_pipe :=
  match l with
  | [] => []
  | r :: l => if bool_decide (rp_dir r = UNKNOWN_PIPE) then [] else r :: pipes_in l
  end.

(** The pipes are added to the one that initng_process_db_new makes. *)
Definition load_process (p : addr) (pt : ptype_h) (r : r_process) : process_h :=
  let q := initng_process_db_new p pt in
  q <| p_pid := rr_pid r |>
    <| p_pipes := p_pipes q ++ map load_pipe (take MAX_PIPES (pipes_in (rr_pipes r))) |>
    <| p_r_code := rr_rcode r |>.

Definition add_process (s : addr) (q : process_h) : G unit :=
  upd_service s (fun a => a <| a_processes := a_processes a ++ [q] |>).

(** The loop ends at an empty ptype; the array has no seventh element to look
    at.  When no process type has the name, the loop variable of while_ptypes
    is no process type, and its name is read. *)
Fixpoint load_processes (s : addr) (l : list r_process) : G unit :=
  match l with
  | [] => fault
  | r :: l =>
    if String.eqb (rr_ptype r) "" then mpure tt
    else
      let! pt := deref (initng_process_db_ptype_find (rr_ptype r)) in
      let! p := new_addr in
      add_process s (load_process p pt r) ;;;
      load_processes s l
  end.

(** The union read as a string or as an int. *)
Definition load_value (t : e_dt) (v : t_union) : option t_union :=
  if dt_is_string t then match v with T_s s => Some (T_s s) | T_null => Some (T_s "") | _ => None end
  else if dt_is_int t then match v with T_i i => Some (T_i i) | T_null => Some (T_i 0) | _ => None end
  else Some T_null.

Definition load_data (a : addr) (type : s_entry) (r : r_d_e) : option s_data :=
  v ← load_value (ent_type type) (rd_t r);
  Some (SData a v type (if has_vn (ent_type type) then Some (rd_vn r) else None) false).

Fixpoint load_data_loop (s : addr) (l : list r_d_e) : G unit :=
  match l with
  | [] => fault
  | r :: l =>
    if rd_opt_type r =? 0 then mpure tt
    else
      let! type := asks (initng_service_data_type_find (rd_type r)) in
      match type with
      | None => load_data_loop s l
      | Some type =>
        let! d := new_addr in
        let! c := deref (fun _ => load_data d type r) in
        upd_service s (fun a => a <| a_data := data_list_add c (a_data a) |>) ;;;
        load_data_loop s l
      end
  end.

(** What follows the type in both formats: processes, variables, register. *)
Definition read_rest (new_entry : addr) (processes data : G unit) : G Z :=
  processes ;;;
  data ;;;
  let! r := initng_active_db_register new_entry in
  if negb (r =? TRUE) then initng_active_db_free new_entry ;;; mpure FALSE
  else mpure TRUE.

(** One struct of the file; the result is [success].  A service whose state or
    type is not found is not freed; nothing refers to it. *)
Definition read_entry (entry : data_save_struct) : G Z :=
  let! dup := asks (initng_active_db_find_by_name (ds_name entry)) in
  match dup with
  | Some _ => mpure TRUE
  | None =>
    let! new_entry := initng_active_db_new (ds_name entry) in
    let! state := asks (initng_active_state_find (ds_state entry)) in
    match state with
    | None => mpure FALSE
    | Some state =>
      upd_service new_entry (fun a => a <| a_current_state := state |>) ;;;
      let! type := asks (initng_service_type_get_by_name (ds_type entry)) in
      match type with
      | None => mpure FALSE
      | Some type =>
        upd_service new_entry (fun a => a <| a_type := Some type |>
          <| a_time_current_state := ds_time_current_state entry |>) ;;;
        read_rest new_entry (load_processes new_entry (ds_process entry)) (load_data_loop new_entry (ds_data entry))
      end
    end
  end.

Fixpoint read_entries (file : list data_save_struct) (success : Z) : G Z :=
  match file with
  | [] => mpure success
  | entry :: file =>
    let! r := read_entry entry in
    read_entries file (if c_true r then success else FALSE)
  end.

(** [None] when the file cannot be opened. *)
Definition read_file (file : option (list data_save_struct)) : G Z :=
  match file with
  | None => mpure FALSE
  | Some file => read_entries file TRUE
  end.

(** ** read_file_v13: the older format has two descriptors and no variable names *)

Record r_d_e_v13 := RDE13 { rd13_type : string; rd13_opt_type : Z; rd13_t : t_union }.
Record r_process_v13 := RProcess13 {
  rr13_ptype : string; rr13_stdout1 : Z; rr13_stdout2 : Z; rr13_pid : Z; rr13_rcode : Z
}.
Record data_save_struct_v13 := DataSave13 {
  ds13_name : string;
  ds13_type : string;
  ds13_state : string;
  ds13_time_current_state : timeval;
  ds13_process : list r_process_v13;
  ds13_data : list r_d_e_v13
}.

Definition load_process_v13 (p : addr) (pt : ptype_h) (r : r_process_v13) : process_h :=
  let q := initng_process_db_new p pt in
  let op := Pipe (rr13_stdout1 r) (rr13_stdout2 r) BUFFERED_OUT_PIPE
              ([1; 2] ++ replicate (MAX_TARGETS + 1 - 2) 0) None 0 0 in
  q <| p_pid := rr13_pid r |> <| p_pipes := p_pipes q ++ [op] |> <| p_r_code := rr13_rcode r |>.

Fixpoint load_processes_v13 (s : addr) (l : list r_process_v13) : G unit :=
  match l with
  | [] => fault
  | r :: l =>
    if String.eqb (rr13_ptype r) "" then mpure tt
    else
      let! pt := deref (initng_process_db_ptype_find (rr13_ptype r)) in
      let! p := new_addr in
      add_process s (load_process_v13 p pt r) ;;;
      load_processes_v13 s l
  end.

Fixpoint load_data_loop_v13 (s : addr) (l : list r_d_e_v13) : G unit :=
  match l with
  | [] => fault
  | r :: l =>
    if rd13_opt_type r =? 0 then mpure tt
    else
      let! type := asks (initng_service_data_type_find (rd13_type r)) in
      match type with
      | None => load_data_loop_v13 s l
      | Some type =>
        let! d := new_addr in
        let! v := deref (fun _ => load_value (ent_type type) (rd13_t r)) in
        upd_service s (fun a => a <| a_data := data_list_add (SData d v type None false) (a_data a) |>) ;;;
        load_data_loop_v13 s l
      end
  end.

Definition read_entry_v13 (entry : data_save_struct_v13) : G Z :=
  let! dup := asks (initng_active_db_find_by_name (ds13_name entry)) in
  match dup with
  | Some _ => mpure TRUE
  | None =>
    let! new_entry := initng_active_db_new (ds13_name entry) in
    let! state := asks (initng_active_state_find (ds13_state entry)) in
    match state with
    | None => mpure FALSE
    | Some state =>
      upd_service new_entry (fun a => a <| a_current_state := state |>) ;;;
      let! type := asks (initng_service_type_get_by_name (ds13_type entry)) in
      match type with
      | None => mpure FALSE
      | Some type =>
        upd_service new_entry (fun a => a <| a_type := Some type |>
          <| a_time_current_state := ds13_time_current_state entry |>) ;;;
        read_rest new_entry (load_processes_v13 new_entry (ds13_process entry))
          (load_data_loop_v13 new_entry (ds13_data entry))
      end
    end
  end.

Fixpoint read_entries_v13 (file : list data_save_struct_v13) (success : Z) : G Z :=
  match file with
  | [] => mpure success
  | entry :: file =>
    let! r := read_entry_v13 entry in
    read_entries_v13 file (if c_true r then success else FALSE)
  end.

Definition read_file_v13 (file : option (list data_save_struct_v13)) : G Z :=
  match file with
  | None => mpure FALSE
  | Some file => read_entries_v13 file TRUE
  end.

(** ** The hooks

    [SAVE_FILE] and [SAVE_FILE_V13] on the disk, if they are there; a file that
    was read is removed. *)
Record save_files := SaveFiles {
  f_v15 : option (list data_save_struct);
  f_v13 : option (list data_save_struct_v13)
}.

Section hooks.
Context `{!ReloadSys}.

Definition save_v15 (fs : save_files) : G (Z * save_files) :=
  let! (r, file) := write_file in
  mpure (r, SaveFiles (match file with Some l => Some l | None => f_v15 fs end) (f_v13 fs)).

Definition dump_state (fs : save_files) (event : s_event) : G (s_event * save_files) :=
  let! (r, fs) := save_v15 fs in
  mpure (if negb (r =? TRUE) then event <| ev_status := FAILED |> else event, fs).

Definition reload_state (fs : save_files) (event : s_event) : G (s_event * save_files) :=
  match f_v15 fs with
  | Some file =>
    let! r := read_file (Some file) in
    mpure (if negb (c_true r) then event <| ev_status := FAILED |> else event, SaveFiles None (f_v13 fs))
  | None =>
    match f_v13 fs with
    | Some file =>
      let! r := read_file_v13 (Some file) in
      mpure (if negb (c_true r) then event <| ev_status := FAILED |> else event, SaveFiles None None)
    | None => mpure (event, fs)
    end
  end.

Definition save_backup (fs : save_files) (state : h_sys_state) : G save_files :=
  if bool_decide (state = STATE_UP) then
    let! (_, fs) := save_v15 fs in mpure fs
  else if bool_decide (state = STATE_STOPPING) then mpure (SaveFiles None (f_v13 fs))
  else mpure fs.

End hooks.

(** ** What fits into the file *)

Lemma strncpy_fits n s : (String.length s <= n)%nat -> strncpy n s = s.
Proof.
  unfold strncpy. revert n. induction s as [|c s IH]; intros [|n] Hn; cbn in *; try done; try lia.
  by rewrite IH by lia.
Qed.

Definition value_fits (t : e_dt) (v : t_union) : Prop :=
  if dt_is_string t then exists s, v = T_s s /\ (String.length s <= MAX_DATA_STRING_LEN)%nat
  else if dt_is_int t then exists i, v = T_i i
  else v = T_null.

(** A variable whose type is registered under its name, and whose strings fit. *)
Record data_fits (db : list s_entry) (c : s_data) : Prop := {
  df_name : exists name, ent_name (d_type c) = Some name /\ (String.length name <= MAX_TYPE_STRING_LEN)%nat /\
    List.find (fun e => match ent_name e with Some n => String.eqb n name | None => false end) db = Some (d_type c);
  df_type : e_dt_num (ent_type (d_type c)) <> 0;
  df_value : value_fits (ent_type (d_type c)) (d_t c);
  df_vn : if has_vn (ent_type (d_type c)) then exists v, d_vn c = Some v /\ (String.length v <= MAX_DATA_VN_LEN)%nat
          else d_vn c = None
}.

Record process_fits (db : list ptype_h) (q : process_h) : Prop := {
  pf_name : pty_name (p_pt q) <> ""%string;
  pf_length : (String.length (pty_name (p_pt q)) <= MAX_PTYPE_STRING_LEN)%nat;
  pf_found : List.find (fun t => String.eqb (pty_name (p_pt q)) (pty_name t)) db = Some (p_pt q);
  pf_pipes : (length (p_pipes q) <= MAX_PIPES)%nat;
  pf_dirs : Forall (fun p => pi_dir p <> UNKNOWN_PIPE) (p_pipes q)
}.

(** A service that can be saved, with the registries of [g]. *)
Record fits (g : s_global) (a : active_db_h) : Prop := {
  ft_name : (String.length (a_name a) < MAX_SERVICE_NAME_STRING_LEN)%nat;
  ft_state : (String.length (st_name (a_current_state a)) <= MAX_SERVICE_STATE_LEN)%nat /\
    initng_active_state_find (st_name (a_current_state a)) g = Some (a_current_state a);
  ft_type : exists ty, a_type a = Some ty /\ (String.length (sty_name ty) <= MAX_TYPE_STRING_LEN)%nat /\
    initng_service_type_get_by_name (sty_name ty) g = Some ty;
  ft_count : (length (a_processes a) < MAX_PROCESSES)%nat;
  ft_processes : Forall (process_fits (g_ptypes g)) (a_processes a);
  ft_data : exists l, a_data a = DH l /\ (length l < MAX_ENTRYS_FOR_SERVICE)%nat /\ Forall (data_fits (g_option_db g)) l
}.

(** What comes back of a pipe, a process, a variable and a service: [b] after,
    [a] before.  The buffer of a pipe is lost, as are all targets but the first
    five; a process has one pipe more in front, and is active whatever it was;
    the variables come in the opposite order; alarm, lock and cache are 0. *)
Definition pipe_again (p : pipe_h) : pipe_h := load_pipe (save_pipe p).

Definition process_again (q r : process_h) : Prop :=
  p_pt r = p_pt q /\ p_pid r = p_pid q /\ p_r_code r = p_r_code q /\ p_pst r = P_ACTIVE /\
  exists first, p_pipes r = first :: map pipe_again (p_pipes q).

Definition content (c : s_data) : t_union * s_entry * option string := (d_t c, d_type c, d_vn c).

Record service_again (a b : active_db_h) : Prop := {
  sa_name : a_name b = a_name a;
  sa_type : a_type b = a_type a;
  sa_state : a_current_state b = a_current_state a;
  sa_time : a_time_current_state b = a_time_current_state a;
  sa_processes : Forall2 process_again (a_processes a) (a_processes b);
  sa_data : map content (dh_entries (a_data b)) = rev (map content (dh_entries (a_data a)));
  sa_rest : a_alarm b = 0 /\ a_state_lock b = 0 /\ a_next_state b = None /\ a_depend_cache b = 0
}.

(** ** Saving *)

Definition saved_process (q : process_h) : r_process :=
  RProcess (pty_name (p_pt q)) (map save_pipe (p_pipes q) ++ replicate (MAX_PIPES + 1 - length (p_pipes q)) no_pipe)
    (p_pid q) (p_r_code q).

Lemma save_process_fits db q : process_fits db q -> save_process q = Some (saved_process q).
Proof.
  intros [_ H2 _ H4 _]. unfold save_process, in_array, saved_process. rewrite length_map.
  rewrite (proj2 (Nat.leb_le _ _)) by lia. cbn [mbind option_bind]. by rewrite strncpy_fits.
Qed.

Lemma save_processes_fits db l :
  Forall (process_fits db) l -> (length l < MAX_PROCESSES)%nat ->
  save_processes l = Some (map saved_process l ++ replicate (MAX_PROCESSES - length l) no_process).
Proof.
  intros Hall Hl. unfold save_processes. rewrite take_ge by (unfold MAX_PROCESSES in *; lia).
  assert (E : mapM save_process l = Some (map saved_process l)).
  { clear Hl. induction Hall as [|q l Hq Hall IH]; [done|]. cbn. rewrite (save_process_fits _ _ Hq). cbn.
    by rewrite IH. }
  rewrite E. cbn [mbind option_bind]. unfold in_array. rewrite length_app, length_map. cbn [length].
  rewrite (proj2 (Nat.leb_le _ _)) by lia. rewrite <- app_assoc. do 2 f_equal.
  replace (MAX_PROCESSES - length l)%nat with (S (MAX_PROCESSES - (length l + 1)))%nat by lia. done.
Qed.

Definition saved_data (c : s_data) : r_d_e :=
  RDE (default ""%string (ent_name (d_type c))) (e_dt_num (ent_type (d_type c))) (default ""%string (d_vn c)) (d_t c).

Lemma save_data_fits db c :
  data_fits db c -> exists name, ent_name (d_type c) = Some name /\ save_data name c = Some (saved_data c).
Proof.
  intros [(name & En & Hn & _) _ Hv Hvn]. exists name. split; [done|]. unfold save_data, saved_data. rewrite En.
  assert (Ev : save_value (ent_type (d_type c)) (d_t c) = Some (d_t c)).
  { unfold save_value, value_fits in *. destruct (dt_is_string _).
    - destruct Hv as (s & -> & Hs). cbn. by rewrite strncpy_fits.
    - destruct (dt_is_int _); [by destruct Hv as (i & ->)|by rewrite Hv]. }
  rewrite Ev. cbn [mbind option_bind]. rewrite strncpy_fits by done.
  destruct (has_vn _); [|by rewrite Hvn]. destruct Hvn as (v & -> & Hl). cbn. by rewrite strncpy_fits.
Qed.

Lemma save_data_loop_fits db i l :
  Forall (data_fits db) l -> (i + length l < MAX_ENTRYS_FOR_SERVICE)%nat ->
  save_data_loop i l = Some (map saved_data l, true).
Proof.
  intros Hall. revert i. induction Hall as [|c l Hc _ IH]; intros i Hi; [done|]. cbn [save_data_loop length map] in *.
  destruct (save_data_fits _ _ Hc) as (name & -> & ->). cbn [mbind option_bind].
  rewrite (proj2 (Nat.eqb_neq _ _)) by lia. rewrite IH by lia. done.
Qed.

Definition saved (a : active_db_h) : data_save_struct :=
  DataSave (a_name a) (from_option sty_name ""%string (a_type a)) (st_name (a_current_state a)) (a_time_current_state a)
    (map saved_process (a_processes a) ++ replicate (MAX_PROCESSES - length (a_processes a)) no_process)
    (map saved_data (newest_first (a_data a)) ++
       replicate (MAX_ENTRYS_FOR_SERVICE + 1 - length (newest_first (a_data a))) no_data).

Lemma save_service_fits g a : fits g a -> save_service a = Some (Some (saved a), true).
Proof.
  intros [Hn [Hs _] (ty & Et & Hty & _) Hc Hp (l & El & Hl & Hd)]. unfold save_service, saved.
  rewrite (proj2 (Nat.leb_gt _ _)) by done. rewrite (save_processes_fits _ _ Hp Hc). cbn [mbind option_bind].
  assert (Hrev : Forall (data_fits (g_option_db g)) (newest_first (a_data a)) /\ length (newest_first (a_data a)) = length l).
  { unfold newest_first. rewrite El. cbn. split; [by apply Forall_rev|apply length_rev]. }
  destruct Hrev as [Hrev Hlen].
  rewrite (save_data_loop_fits _ 0 _ Hrev) by lia. cbn [mbind option_bind]. unfold in_array. rewrite length_map.
  rewrite (proj2 (Nat.leb_le _ _)) by lia. cbn [mbind option_bind]. rewrite Et. cbn [from_option].
  rewrite !strncpy_fits by lia. done.
Qed.

(** ** Loading *)

(** The registries a file is read with. *)
Definition registries (g : s_global) : list a_state_h * list stype_h * list ptype_h * list s_entry :=
  (g_states g, g_stypes g, g_ptypes g, g_option_db g).

(** From [g] to [g'], the service at [s] has become [b] and addresses were used. *)
Definition becomes (s : addr) (b : active_db_h) (g g' : s_global) : Prop :=
  g_heap g' = <[s := b]> (g_heap g) /\ g_active_db g' = g_active_db g /\ g_interrupt g' = g_interrupt g /\
  registries g' = registries g /\ (g_fresh g <= g_fresh g')%positive.

Lemma becomes_lookup s b g g' : becomes s b g g' -> g_heap g' !! s = Some b.
Proof. intros (-> & _). apply lookup_insert_eq. Qed.

Lemma becomes_trans s b c g1 g2 g3 : becomes s b g1 g2 -> becomes s c g2 g3 -> becomes s c g1 g3.
Proof.
  intros (H1 & H2 & H3 & H4 & H5) (K1 & K2 & K3 & K4 & K5). split; [by rewrite K1, H1, insert_insert_eq|].
  split; [congruence|]. split; [congruence|]. split; [congruence|lia].
Qed.

Lemma becomes_put s b g : becomes s b g (put_service s b g).
Proof. by repeat split. Qed.

Lemma becomes_refl s a g : g_heap g !! s = Some a -> becomes s a g g.
Proof. intros Ha. split; [by rewrite insert_id|]. by repeat split. Qed.

Lemma new_addr_run g : new_addr g = Done (g_fresh g, g <| g_fresh := Pos.succ (g_fresh g) |>).
Proof. done. Qed.

Lemma becomes_fresh s b g g' :
  becomes s b (g <| g_fresh := Pos.succ (g_fresh g) |>) g' -> becomes s b g g'.
Proof. intros (H1 & H2 & H3 & H4 & H5). split; [done|]. split; [done|]. split; [done|]. split; [done|]. cbn in H5. lia. Qed.

Lemma pipes_in_saved l n :
  Forall (fun p => pi_dir p <> UNKNOWN_PIPE) l -> pipes_in (map save_pipe l ++ replicate n no_pipe) = map save_pipe l.
Proof.
  intros Hall. induction Hall as [|p l Hp _ IH]; cbn; [by destruct n|].
  rewrite bool_decide_eq_false_2 by done. by rewrite IH.
Qed.

Lemma load_process_again db p q :
  process_fits db q -> process_again q (load_process p (p_pt q) (saved_process q)).
Proof.
  intros [_ _ _ H4 H5]. unfold process_again, load_process. cbn. repeat split; try done.
  rewrite pipes_in_saved by done. eexists. rewrite take_ge by (rewrite length_map; unfold MAX_PIPES in *; lia).
  unfold pipe_again. by rewrite List.map_map.
Qed.

Lemma load_processes_run g s a l n :
  g_heap g !! s = Some a -> Forall (process_fits (g_ptypes g)) l -> n <> O ->
  exists g' b, load_processes s (map saved_process l ++ replicate n no_process) g = Done (tt, g') /\
    becomes s (a <| a_processes := a_processes a ++ b |>) g g' /\ Forall2 process_again l b.
Proof.
  intros Ha Hall Hn. revert g a Ha Hall. induction l as [|q l IH]; intros g a Ha Hall; cbn [map app load_processes].
  { destruct n as [|n]; [done|]. cbn. exists g, []. rewrite app_nil_r. split; [done|]. split; [|constructor].
    destruct a. by apply becomes_refl. }
  apply Forall_cons in Hall as [Hq Hall]. pose proof Hq as [Hne _ Hfound _ _].
  cbn [saved_process rr_ptype]. destruct (String.eqb_spec (pty_name (p_pt q)) "") as [|_]; [done|].
  erewrite then_deref by exact Hfound. rewrite (mthen_run _ _ _ _ _ (new_addr_run g)).
  set (g1 := g <| g_fresh := Pos.succ (g_fresh g) |>). set (r := load_process (g_fresh g) (p_pt q) (saved_process q)).
  rewrite (mthen_run _ _ g1 tt (put_service s (a <| a_processes := a_processes a ++ [r] |>) g1))
    by (unfold add_process; by rewrite (upd_service_run g1 s a _ Ha)).
  set (a1 := a <| a_processes := a_processes a ++ [r] |>).
  destruct (IH (put_service s a1 g1) a1 (put_service_lookup _ _ _) Hall) as (g' & b & E & Hb & H2).
  exists g', (r :: b). split; [done|]. split.
  - apply becomes_fresh. eapply becomes_trans; [apply becomes_put|].
    unfold a1 in Hb. cbn in Hb. by rewrite <- app_assoc in Hb.
  - constructor; [|done]. by eapply load_process_again.
Qed.

Lemma load_value_fits t v : value_fits t v -> load_value t v = Some v.
Proof.
  unfold value_fits, load_value. destruct (dt_is_string t); [by intros (s & -> & _)|].
  destruct (dt_is_int t); [by intros (i & ->)|by intros ->].
Qed.

Lemma load_data_loop_run g s a l m n :
  g_heap g !! s = Some a -> a_data a = DH m -> Forall (data_fits (g_option_db g)) l -> n <> O ->
  exists g' k, load_data_loop s (map saved_data l ++ replicate n no_data) g = Done (tt, g') /\
    becomes s (a <| a_data := DH (m ++ k) |>) g g' /\ map content k = map content l.
Proof.
  intros Ha Hm Hall Hn. revert g a m Ha Hm Hall. induction l as [|c l IH]; intros g a m Ha Hm Hall; cbn [map app load_data_loop].
  { destruct n as [|n]; [done|]. cbn. exists g, []. rewrite app_nil_r, <- Hm. split; [done|]. split; [|done].
    destruct a. by apply becomes_refl. }
  apply Forall_cons in Hall as [[(name & En & _ & Hfound) Ht Hv Hvn] Hall].
  cbn [saved_data rd_opt_type rd_type]. rewrite (proj2 (Z.eqb_neq _ _)) by done. rewrite En. cbn [default from_option id].
  rewrite then_asks. unfold initng_service_data_type_find. rewrite Hfound, (mthen_run _ _ _ _ _ (new_addr_run g)).
  set (g1 := g <| g_fresh := Pos.succ (g_fresh g) |>).
  set (c1 := SData (g_fresh g) (d_t c) (d_type c) (d_vn c) false).
  rewrite (then_deref _ _ _ c1).
  2:{ unfold load_data, saved_data. cbn [rd_t rd_vn]. rewrite (load_value_fits _ _ Hv). cbn [mbind option_bind rd_vn].
      destruct (has_vn _); [destruct Hvn as (v & Ev & _)|]; unfold c1; rewrite ?Ev, ?Hvn; done. }
  set (a1 := a <| a_data := DH (m ++ [c1 <| d_linked := true |>]) |>).
  rewrite (mthen_run _ _ g1 tt (put_service s a1 g1)).
  2:{ rewrite (upd_service_run g1 s a _ Ha). by rewrite Hm. }
  destruct (IH (put_service s a1 g1) a1 (m ++ [c1 <| d_linked := true |>]) (put_service_lookup _ _ _) eq_refl Hall)
    as (g' & k & E & Hb & Hk).
  exists g', ((c1 <| d_linked := true |>) :: k). split; [done|]. split.
  - apply becomes_fresh. eapply becomes_trans; [apply becomes_put|].
    unfold a1 in Hb. cbn in Hb. by rewrite <- app_assoc in Hb.
  - cbn [map]. rewrite Hk. done.
Qed.

(** The addresses on the list were allocated. *)
Definition db_fresh (g : s_global) : Prop := forall s, s ∈ g_active_db g -> (s < g_fresh g)%positive.

Definition nobody_called (name : string) (g : s_global) : Prop :=
  Forall (fun '(_, a) => a_name a <> name) (active_services g).

Lemma find_by_name_nobody name g : nobody_called name g -> initng_active_db_find_by_name name g = None.
Proof.
  unfold nobody_called, initng_active_db_find_by_name. cbv zeta. intros Hall.
  assert (E : List.find (fun '(_, current) => (a_name_hash current =? initng_hash_str name) && String.eqb (a_name current) name)
    (active_services g) = None); [|by rewrite E].
  induction Hall as [|[s a] l Hs _ IH]; [done|]. cbn. destruct (String.eqb_spec (a_name a) name) as [|_]; [done|].
  by rewrite andb_false_r.
Qed.

(** A change at an address that is not on the list does not show in the walk. *)
Lemma active_services_ext g g' :
  g_active_db g' = g_active_db g -> (forall s, s ∈ g_active_db g -> g_heap g' !! s = g_heap g !! s) ->
  active_services g' = active_services g.
Proof.
  intros Hdb Hh. unfold active_services. rewrite Hdb. clear Hdb. induction (g_active_db g) as [|s l IH]; [done|].
  cbn. rewrite Hh by set_solver. rewrite IH; [done|]. intros x Hx. apply Hh. set_solver.
Qed.

Lemma active_services_snoc g g' s b :
  g_active_db g' = g_active_db g ++ [s] -> (forall x, x ∈ g_active_db g -> g_heap g' !! x = g_heap g !! x) ->
  g_heap g' !! s = Some b -> active_services g' = active_services g ++ [(s, b)].
Proof.
  intros Hdb Hh Hs. unfold active_services. rewrite Hdb, omap_app. cbn. rewrite Hs. cbn. f_equal. clear Hdb.
  induction (g_active_db g) as [|x l IH]; [done|]. cbn. rewrite Hh by set_solver. rewrite IH; [done|].
  intros y Hy. apply Hh. set_solver.
Qed.

(** A service at the start of read_entry: state, type and time are set. *)
Definition half_loaded (now : timeval) (a : active_db_h) : active_db_h :=
  Active (initng_hash_str (a_name a)) (a_name a) (a_type a) (a_current_state a) (a_time_current_state a) None now None 0
    IS_NEW now [] (DH []) 0 0.

Lemma read_entry_prefix g a ty (k : addr -> G Z) :
  fits g a -> a_type a = Some ty ->
  (let! new_entry := initng_active_db_new (a_name a) in
   let! state := asks (initng_active_state_find (st_name (a_current_state a))) in
   match state with
   | None => mpure FALSE
   | Some state =>
     upd_service new_entry (fun a => a <| a_current_state := state |>) ;;;
     let! type := asks (initng_service_type_get_by_name (sty_name ty)) in
     match type with
     | None => mpure FALSE
     | Some type =>
       upd_service new_entry (fun b => b <| a_type := Some type |> <| a_time_current_state := a_time_current_state a |>) ;;;
       k new_entry
     end
   end) g =
  k (g_fresh g) (put_service (g_fresh g) (half_loaded (g_clock g) a) (g <| g_fresh := Pos.succ (g_fresh g) |>)).
Proof.
  intros [_ [_ Hst] (ty' & Et & _ & Hty) _ _ _] Ety. rewrite Ety in Et. injection Et as <-.
  erewrite mthen_run by reflexivity. rewrite then_asks.
  change (initng_active_state_find (st_name (a_current_state a)) (put_service _ _ _)) with
    (initng_active_state_find (st_name (a_current_state a)) g). rewrite Hst.
  erewrite mthen_run by (apply upd_service_run, put_service_lookup). rewrite put_put_service, then_asks.
  change (initng_service_type_get_by_name (sty_name ty) (put_service _ _ _)) with
    (initng_service_type_get_by_name (sty_name ty) g). rewrite Hty.
  erewrite mthen_run by (apply upd_service_run, put_service_lookup). rewrite put_put_service.
  unfold half_loaded. by rewrite Ety.
Qed.

Lemma read_entry_run g a :
  db_fresh g -> fits g a -> nobody_called (a_name a) g ->
  exists g' b, read_entry (saved a) g = Done (TRUE, g') /\ service_again a b /\ db_fresh g' /\
    registries g' = registries g /\ active_services g' = active_services g ++ [(g_fresh g, b)].
Proof.
  intros Hfr Hfit Hno. pose proof Hfit as [_ _ (ty & Ety & _ & _) Hc Hp (l & El & Hl & Hd)].
  unfold read_entry. rewrite then_asks. cbn [saved ds_name ds_state ds_type ds_time_current_state].
  rewrite (find_by_name_nobody _ _ Hno), Ety. cbn [from_option]. rewrite (read_entry_prefix g a ty _ Hfit Ety).
  set (s := g_fresh g). set (a1 := half_loaded (g_clock g) a).
  set (g1 := put_service s a1 (g <| g_fresh := Pos.succ (g_fresh g) |>)).
  unfold read_rest. cbn [saved ds_process ds_data].
  destruct (load_processes_run g1 s a1 (a_processes a) (MAX_PROCESSES - length (a_processes a)) (put_service_lookup _ _ _) Hp)
    as (g2 & ps & E2 & B2 & Hps); [lia|]. rewrite (mthen_run _ _ _ _ _ E2).
  set (a2 := a1 <| a_processes := a_processes a1 ++ ps |>) in B2.
  assert (Hd2 : Forall (data_fits (g_option_db g2)) (newest_first (a_data a))).
  { destruct B2 as (_ & _ & _ & Hr & _). unfold registries in Hr. injection Hr as _ _ _ ->. unfold newest_first.
    rewrite El. by apply Forall_rev. }
  destruct (load_data_loop_run g2 s a2 (newest_first (a_data a)) [] (MAX_ENTRYS_FOR_SERVICE + 1 - length (newest_first (a_data a)))
    (becomes_lookup _ _ _ _ B2) eq_refl Hd2) as (g3 & k & E3 & B3 & Hk).
  { unfold newest_first. rewrite El. cbn [dh_entries]. rewrite length_rev. lia. }
  rewrite (mthen_run _ _ _ _ _ E3). set (b := a2 <| a_data := DH ([] ++ k) |>) in B3.
  pose proof (becomes_trans _ _ _ _ _ _ B2 B3) as B. destruct B as (Hh & Hdb & _ & Hr & Hf).
  assert (Hs : s ∉ g_active_db g) by (intros Hs; apply Hfr in Hs; lia).
  assert (Hold : forall x, x ∈ g_active_db g -> g_heap g3 !! x = g_heap g !! x).
  { intros x Hx. rewrite Hh. cbn. rewrite !lookup_insert_ne; [done|set_solver..]. }
  assert (Hb : g_heap g3 !! s = Some b) by (rewrite Hh; apply lookup_insert_eq).
  assert (Hno3 : nobody_called (a_name a) g3) by (unfold nobody_called; by rewrite (active_services_ext g g3)).
  assert (E4 : initng_active_db_register s g3 = Done (TRUE, active_db_add s g3)).
  { unfold initng_active_db_register. rewrite (mthen_run _ _ _ _ _ (get_service_run _ _ _ Hb)), then_asks.
    change (a_name b) with (a_name a). by rewrite (find_by_name_nobody _ _ Hno3). }
  rewrite (mthen_run _ _ _ _ _ E4). assert (Hdb3 : g_active_db g3 = g_active_db g) by exact Hdb.
  exists (active_db_add s g3), b. split; [done|]. split.
  - split; try done. cbn. rewrite Hk. unfold newest_first. rewrite El. cbn. apply List.map_rev.
  - unfold active_db_add. rewrite decide_False by (by rewrite Hdb3). split.
    + intros x. cbn. rewrite Hdb3. cbn in Hf. intros [Hx|Hx%list_elem_of_singleton]%elem_of_app; [apply Hfr in Hx; lia|subst; lia].
    + split; [done|]. apply active_services_snoc; [cbn; by rewrite Hdb3|exact Hold|exact Hb].
Qed.

Lemma fits_registries g g' a : registries g' = registries g -> fits g a -> fits g' a.
Proof.
  unfold registries. intros [= E1 E2 E3 E4] [H1 H2 H3 H4 H5 H6].
  unfold initng_active_state_find, initng_service_type_get_by_name in *.
  split; unfold initng_active_state_find, initng_service_type_get_by_name; rewrite ?E1, ?E2, ?E3, ?E4; done.
Qed.

Lemma read_entries_run g l :
  db_fresh g -> Forall (fits g) l -> NoDup (map a_name l) -> Forall (fun a => nobody_called (a_name a) g) l ->
  exists g' new, read_entries (map saved l) TRUE g = Done (TRUE, g') /\
    active_services g' = active_services g ++ new /\ Forall2 service_again l (map snd new).
Proof.
  revert g. induction l as [|a l IH]; intros g Hfr Hfit Hnd Hno; cbn [map read_entries].
  { exists g, []. rewrite app_nil_r. split; [done|]. split; [done|constructor]. }
  apply Forall_cons in Hfit as [Ha Hfit], Hno as [Hna Hno]. cbn in Hnd. apply NoDup_cons in Hnd as [Hni Hnd].
  destruct (read_entry_run g a Hfr Ha Hna) as (g1 & b & E1 & Hb & Hfr1 & Hr1 & Hs1).
  rewrite (mthen_run _ _ _ _ _ E1). change (c_true TRUE) with true. cbv iota.
  destruct (IH g1) as (g' & new & E & Hs & H2).
  - done.
  - apply (Forall_impl _ _ _ Hfit). intros x. by apply fits_registries.
  - done.
  - rewrite Forall_forall in Hno |- *. intros x Hx. unfold nobody_called. rewrite Hs1. apply Forall_app.
    split; [by apply Hno|]. constructor; [|constructor]. rewrite (sa_name _ _ Hb). intros E. apply Hni. rewrite E.
    by apply list_elem_of_fmap_2.
  - exists g', ((g_fresh g, b) :: new). split; [done|]. split; [by rewrite Hs, Hs1, <- app_assoc|]. by constructor.
Qed.

Section roundtrip.
Context `{RS : ReloadSys}.
Hypothesis fopen_works : forall t, sys_fopen t = true.
Hypothesis fwrite_works : forall t, sys_fwrite t = true.

Lemma write_loop_run l g :
  Forall (fun x => fits g (snd x)) l ->
  exists g', write_loop l TRUE g = Done ((TRUE, map (fun x => saved (snd x)) l), g').
Proof.
  intros Hall. assert (H : forall g1, registries g1 = registries g ->
    exists g', write_loop l TRUE g1 = Done ((TRUE, map (fun x => saved (snd x)) l), g')); [|by apply H].
  induction Hall as [|[s a] l Ha Hall IH]; intros g1 Hr; cbn [write_loop map snd]; [by exists g1|].
  rewrite (then_deref _ _ _ (Some (saved a), true)) by (by apply (save_service_fits g)).
  set (g2 := g1 <| g_ticks := S (g_ticks g1) |>).
  rewrite (mthen_run _ _ g1 true g2) by (unfold syscall; cbn; by rewrite fwrite_works).
  destruct (IH g2 Hr) as (g' & E). exists g'. cbv iota beta zeta.
  by rewrite (mthen_run _ _ _ _ _ E).
Qed.

(** C23: a hot reload brings the services back.  When every service of the old
    system fits the file format, write_file saves all of them, and a new initng
    with the same registries that reads the file has the same services in the
    same order: with their names, types, states and times, and with their
    processes and pids; but with the variables of each in reverse order, one
    pipe more per process, and every alarm gone, so that no state that was
    waiting for a timeout gets one any more. *)
Theorem reload_roundtrip g g1 :
  wf g -> Forall (fun x => fits g (snd x)) (active_services g) ->
  registries g1 = registries g -> g_active_db g1 = [] ->
  exists file g' g1', write_file g = Done ((TRUE, Some file), g') /\ read_file (Some file) g1 = Done (TRUE, g1') /\
    Forall2 service_again (map snd (active_services g)) (map snd (active_services g1')).
Proof.
  intros Hwf Hall Hr Hdb. unfold write_file.
  set (gt := g <| g_ticks := S (g_ticks g) |>).
  rewrite (mthen_run _ _ g true gt) by (unfold syscall; cbn; by rewrite fopen_works).
  rewrite then_asks. change (active_services gt) with (active_services g).
  destruct (write_loop_run (active_services g) gt) as (g' & E).
  { apply (Forall_impl _ _ _ Hall). intros x. by apply fits_registries. }
  rewrite (mthen_run _ _ _ _ _ E).
  assert (Hnil : active_services g1 = []) by (unfold active_services; by rewrite Hdb).
  destruct (read_entries_run g1 (map snd (active_services g))) as (g1' & new & E1 & Hs & H2).
  - intros s. rewrite Hdb. by intros ?%elem_of_nil.
  - apply Forall_fmap. apply (Forall_impl _ _ _ Hall). intros x. by apply fits_registries.
  - assert (Hnd : forall l1 l2, g_active_db g = l1 ++ l2 ->
      NoDup (map a_name (map snd (omap (fun s => pair s <$> (g_heap g !! s)) l2)))); [|by apply (Hnd [])].
    intros l1 l2. revert l1. induction l2 as [|s l2 IH]; intros l1 E2; [constructor|]. cbn.
    assert (IH' := IH (l1 ++ [s])). rewrite <- app_assoc in IH'. specialize (IH' E2).
    destruct (g_heap g !! s) as [a|] eqn:Ha; [|exact IH']. cbn. constructor; [|exact IH'].
    intros (b & Eb & (x & -> & (t & Ht & Hx)%list_elem_of_omap)%list_elem_of_fmap)%list_elem_of_fmap.
    apply fmap_Some in Hx as (c & Hc & ->). cbn in Eb.
    assert (s = t) as <-.
    { eapply (wf_names g Hwf s t a c); try done; rewrite E2; set_solver. }
    pose proof (wf_nodup g Hwf) as Hn. rewrite E2 in Hn. apply NoDup_app in Hn as (_ & _ & Hn). by apply NoDup_cons in Hn as [? _].
  - apply Forall_forall. intros a _. unfold nobody_called. rewrite Hnil. constructor.
  - exists (map saved (map snd (active_services g))), g', g1'. split; [by rewrite List.map_map|]. split; [exact E1|].
    rewrite Hs, Hnil. exact H2.
Qed.

End roundtrip.

(** ** Reloading again and again *)

Fixpoint reload_process (n : nat) (q : process_h) : process_h :=
  match n with
  | O => q
  | S n => reload_process n (load_process (p_addr q) (p_pt q) (saved_process q))
  end.

(** A process with one pipe, to descriptor [fd]. *)
Definition piped (pt : ptype_h) (fd : Z) : process_h :=
  Process 1 pt 77 0 [Pipe fd 0 BUFFERED_OUT_PIPE [1; 2; 0; 0; 0; 0; 0; 0; 0; 0; 0] None 0 0] P_ACTIVE.

(** The seventh hot reload loses the output of a process.  Every reload puts
    an unused pipe in front of the pipes of a process, and no more than six are
    read back: after six reloads the pipe the process writes to is the seventh
    and last, after one more it is gone. *)
Theorem seventh_reload_loses_the_pipe pt fd :
  map pipe0 (p_pipes (reload_process 6 (piped pt fd))) = [0; 0; 0; 0; 0; 0; fd] /\
  map pipe0 (p_pipes (reload_process 7 (piped pt fd))) = [0; 0; 0; 0; 0; 0; 0].
Proof. split; reflexivity. Qed.
