(* ===== verification/EventType.v ===== *)
(** * The registry of event types: src/main/event/type.c

    The registry is a list that goes through the event types.  Whether an entry
    gets on it depends on its link fields, so this file works on the heap of
    links of file ListH.  An event type is given by the addresses of its two
    links and by its name. *)
From S2P Require Import Prelude ListH.
From Stdlib Require Import String.
From stdpp Require Import prelude gmap strings.
Local Open Scope Z_scope.

Record event_type := EventTypeH {
  et_name : option string;
  et_list : positive;
  et_hooks : positive
}.

(** g.event_db.list is at address [event_db]. *)
Section event_db.
Variable event_db : positive.

(** The length of the name, kept for printing, is left out. *)
Definition initng_event_type_register (ent : event_type) : M heap unit :=
  initng_list_init (et_list ent) ;;;
  initng_list_init (et_hooks ent) ;;;
  initng_list_add (et_list ent) event_db.

Definition initng_event_type_unregister (ent : event_type) : M heap unit := initng_list_del (et_list ent).

Definition initng_event_type_unregister_all (fuel : nat) : M heap unit :=
  initng_list_foreach_rev_safe fuel event_db initng_list_del ;;;
  initng_list_init event_db.

(** The walk of [initng_event_type_find]; [struct_at] gives the event type whose
    link is at an address. *)
Fixpoint type_find_from (fuel : nat) (struct_at : positive -> option event_type)
    (string : string) (pos : option positive) : M heap (option event_type) :=
  match fuel with
  | O => nofuel
  | S fuel =>
    let! pos := nonnull pos in
    if bool_decide (pos = event_db) then mpure None
    else
      let! current := deref (fun _ => struct_at pos) in
      if match et_name current with Some n => String.eqb n string | None => false end
      then mpure (Some current)
      else
        let! pos' := ld_prev pos in
        type_find_from fuel struct_at string pos'
  end.

Definition initng_event_type_find (fuel : nat) (struct_at : positive -> option event_type)
    (string : string) : M heap (option event_type) :=
  let! pos := ld_prev event_db in type_find_from fuel struct_at string pos.

(** Register one type after the other. *)
Fixpoint register_each (l : list event_type) : M heap unit :=
  match l with
  | [] => mpure tt
  | ent :: l => initng_event_type_register ent ;;; register_each l
  end.

(** ** Lemmas *)

(** A link field that exists. *)
Definition allocated (h : heap) (p : positive) : Prop := is_Some (nextp h !! p) /\ is_Some (prevp h !! p).

Lemma list_init_run h p :
  allocated h p ->
  exists h', initng_list_init p h = Done (tt, h') /\
    nextp h' !! p = Some (Some p) /\ prevp h' !! p = Some (Some p) /\
    same_outside [p] h h' /\ (forall q, allocated h q -> allocated h' q).
Proof.
  intros [[n Hn] [q Hq]]. unfold initng_list_init.
  rewrite (mthen_run _ _ _ _ _ (st_next_run _ _ _ _ Hn)). erewrite st_prev_run by done.
  eexists. split; [reflexivity|]. cbn. rewrite !lookup_insert_eq. split; [done|]. split; [done|]. split.
  - intros r Hr. cbn. rewrite !lookup_insert_ne by set_solver. done.
  - intros r [H1 H2]. split; cbn; rewrite lookup_insert; by case_decide.
Qed.

(** The link is initialised right before it would be added, so it looks linked
    and is left alone. *)
Lemma register_run h ent :
  allocated h (et_list ent) -> allocated h (et_hooks ent) ->
  exists h', initng_event_type_register ent h = Done (tt, h') /\
    same_outside [et_list ent; et_hooks ent] h h' /\ (forall q, allocated h q -> allocated h' q).
Proof.
  intros Hl Hh. destruct (list_init_run h _ Hl) as (h1 & E1 & N1 & P1 & S1 & A1).
  destruct (list_init_run h1 _ (A1 _ Hh)) as (h2 & E2 & N2 & P2 & S2 & A2).
  unfold initng_event_type_register. rewrite (mthen_run _ _ _ _ _ E1), (mthen_run _ _ _ _ _ E2).
  exists h2. split; [|split; [|by auto]].
  - assert (Hself : nextp h2 !! et_list ent = Some (Some (et_list ent)) /\ is_Some (prevp h2 !! et_list ent)).
    { destruct (decide (et_list ent = et_hooks ent)) as [->|Hne]; [by eauto|].
      destruct (S2 (et_list ent)) as [-> ->]; [set_solver|]. by eauto. }
    destruct Hself as [Hn [p Hp]]. unfold initng_list_add.
    rewrite (mthen_run _ _ _ _ _ (ld_next_run _ _ _ Hn)), (mthen_run _ _ _ _ _ (ld_prev_run _ _ _ Hp)).
    by rewrite bool_decide_eq_true_2 by eauto.
  - intros q Hq. destruct (S2 q), (S1 q); [set_solver..|]. split; congruence.
Qed.

Lemma register_each_run h l :
  (forall ent, ent ∈ l -> allocated h (et_list ent) /\ allocated h (et_hooks ent) /\
    et_list ent <> event_db /\ et_hooks ent <> event_db) ->
  is_list h event_db [] ->
  exists h', register_each l h = Done (tt, h') /\ is_list h' event_db [].
Proof.
  revert h. induction l as [|ent l IH]; intros h Hall Hl; [by exists h|]. cbn [register_each].
  destruct (Hall ent) as (A1 & A2 & N1 & N2); [set_solver|].
  destruct (register_run h ent A1 A2) as (h1 & E & S & A). rewrite (mthen_run _ _ _ _ _ E). apply IH.
  - intros e He. destruct (Hall e) as (B1 & B2 & B3 & B4); [set_solver|]. auto.
  - destruct Hl as [Hnd Hs]. split; [done|]. cbn in *. destruct (S event_db) as [-> ->]; [set_solver|]. done.
Qed.

(** Event types never reach the registry.  Whatever types are registered
    with an empty [g.event_db], in whatever order, the list is still empty
    afterwards and [initng_event_type_find] finds none of them, by any name:
    the link is initialised, and then [initng_list_add] takes it for linked. *)
Theorem event_types_are_never_found h l struct_at name fuel :
  (forall ent, ent ∈ l -> allocated h (et_list ent) /\ allocated h (et_hooks ent) /\
    et_list ent <> event_db /\ et_hooks ent <> event_db) ->
  is_list h event_db [] ->
  exists h', register_each l h = Done (tt, h') /\
    initng_event_type_find (S fuel) struct_at name h' = Done (None, h').
Proof.
  intros Hall Hl. destruct (register_each_run h l Hall Hl) as (h' & E & [_ [_ Hp]]).
  exists h'. split; [done|]. unfold initng_event_type_find.
  rewrite (mthen_run _ _ _ _ _ (ld_prev_run _ _ _ Hp)). cbn [type_find_from].
  rewrite (mthen_run _ _ h' event_db h' eq_refl). by rewrite bool_decide_eq_true_2.
Qed.

End event_db.
