(* ===== verification/NgcsConn.v ===== *)
(** * Connections and channels: modules/ngcs/ngcs_common.c from line 302 on

    One connection with its write buffer, its channels and its queue.  [cn_wire]
    is what the kernel has taken from the write buffer so far, and [cn_in] what
    will still arrive on the socket; neither is a field of the struct.
    Messages are kept with their borders by file Ngcs; here they go through the
    buffer, in any number of sends. *)
From S2P Require Import Prelude Types Io Ngcs.
From stdpp Require Import prelude gmap.
Local Open Scope Z_scope.

(** ** ngcs_common.h: ngcs_chan_s and ngcs_conn_s *)

Inductive e_ngcs_chan_state := NGCS_CHAN_OPEN | NGCS_CHAN_CLOSING | NGCS_CHAN_CLOSED.
#[export] Instance e_ngcs_chan_state_eq_dec : EqDecision e_ngcs_chan_state.
Proof. solve_decision. Defined.

Record ngcs_chan := Chan {
  ch_id : Z;
  ch_gotdata : option fptr;
  ch_onclose : option fptr;
  ch_onfree : option fptr;
  ch_close_state : e_ngcs_chan_state;
  ch_is_freed : bool;
  ch_is_freeing : bool
}.
Definition eta_chan (c : ngcs_chan) :=
  Chan (ch_id c) (ch_gotdata c) (ch_onclose c) (ch_onfree c) (ch_close_state c) (ch_is_freed c)
    (ch_is_freeing c).
#[export] Instance set_ch_gotdata : Setter ch_gotdata := ltac:(build_setter eta_chan ch_gotdata).
#[export] Instance set_ch_onclose : Setter ch_onclose := ltac:(build_setter eta_chan ch_onclose).
#[export] Instance set_ch_close_state : Setter ch_close_state := ltac:(build_setter eta_chan ch_close_state).
#[export] Instance set_ch_is_freed : Setter ch_is_freed := ltac:(build_setter eta_chan ch_is_freed).
#[export] Instance set_ch_is_freeing : Setter ch_is_freeing := ltac:(build_setter eta_chan ch_is_freeing).

Record ngcs_conn := Conn {
  cn_fd : Z;
  cn_chans : list addr;
  cn_chan : gmap addr ngcs_chan;
  cn_close_hook : option fptr;
  cn_pollmode_hook : option fptr;
  cn_wrbuf : list Z;
  cn_wrbuflen : Z;
  cn_towrite : Z;
  cn_inqueue : list (addr * ngcs_msg);
  cn_fresh : addr;
  cn_wire : list Z;
  cn_in : list (list Z);
  cn_ticks : nat
}.
Definition eta_conn (c : ngcs_conn) :=
  Conn (cn_fd c) (cn_chans c) (cn_chan c) (cn_close_hook c) (cn_pollmode_hook c) (cn_wrbuf c)
    (cn_wrbuflen c) (cn_towrite c) (cn_inqueue c) (cn_fresh c) (cn_wire c) (cn_in c) (cn_ticks c).
#[export] Instance set_cn_fd : Setter cn_fd := ltac:(build_setter eta_conn cn_fd).
#[export] Instance set_cn_chans : Setter cn_chans := ltac:(build_setter eta_conn cn_chans).
#[export] Instance set_cn_chan : Setter cn_chan := ltac:(build_setter eta_conn cn_chan).
#[export] Instance set_cn_wrbuf : Setter cn_wrbuf := ltac:(build_setter eta_conn cn_wrbuf).
#[export] Instance set_cn_wrbuflen : Setter cn_wrbuflen := ltac:(build_setter eta_conn cn_wrbuflen).
#[export] Instance set_cn_towrite : Setter cn_towrite := ltac:(build_setter eta_conn cn_towrite).
#[export] Instance set_cn_inqueue : Setter cn_inqueue := ltac:(build_setter eta_conn cn_inqueue).
#[export] Instance set_cn_fresh : Setter cn_fresh := ltac:(build_setter eta_conn cn_fresh).
#[export] Instance set_cn_wire : Setter cn_wire := ltac:(build_setter eta_conn cn_wire).
#[export] Instance set_cn_in : Setter cn_in := ltac:(build_setter eta_conn cn_in).
#[export] Instance set_cn_ticks : Setter cn_ticks := ltac:(build_setter eta_conn cn_ticks).

Notation C := (M ngcs_conn).

(** ** What the code calls: the functions of a channel and of a connection, and
    send(2), which takes a number of bytes or fails with errno *)

Class ConnCallbacks := {
  call_gotdata : fptr -> addr -> Z -> Z -> list Z -> C unit;
  call_chan : fptr -> addr -> C unit;  (* onclose and onfree *)
  call_close_hook : fptr -> C unit;
  call_pollmode : fptr -> bool -> C unit
}.

Inductive send_result := Sent (n : nat) | Send_error (errno : Z).

Class ConnSys := { sys_send : nat -> list Z -> send_result }.

Definition EAGAIN : Z := 11.
Definition EINTR : Z := 4.

Definition get_chan (a : addr) : C ngcs_chan := deref (fun c => cn_chan c !! a).
Definition upd_chan (a : addr) (f : ngcs_chan -> ngcs_chan) : C unit :=
  let! ch := get_chan a in modify (fun c => c <| cn_chan := <[a := f ch]> (cn_chan c) |>).

(** initng_list_del and free of a channel *)
Definition free_chan (a : addr) : C unit :=
  modify (fun c => c <| cn_chans := List.filter (fun x => negb (Pos.eqb x a)) (cn_chans c) |>
                     <| cn_chan := delete a (cn_chan c) |>).

Definition set_state (st : e_ngcs_chan_state) (a : addr) : C unit :=
  upd_chan a (fun ch => ch <| ch_close_state := st |>).

Section conn.
Context `{!ConnCallbacks, !ConnSys}.

Definition run_chan (f : option fptr) (a : addr) : C unit :=
  match f with Some f => call_chan f a | None => mpure tt end.

(** [if (conn->pollmode_hook) conn->pollmode_hook(conn, b)] *)
Definition pollmode (b : bool) : C unit :=
  let! f := asks cn_pollmode_hook in
  match f with Some f => call_pollmode f b | None => mpure tt end.

(** send(conn->fd, bytes): what the kernel takes is on the wire. *)
Definition do_send (bytes : list Z) : C send_result :=
  let! t := asks cn_ticks in
  modify (fun c => c <| cn_ticks := S t |>) ;;;
  match sys_send t bytes with
  | Sent n =>
    let n := Nat.min n (length bytes) in
    modify (fun c => c <| cn_wire := cn_wire c ++ take n bytes |>) ;;;
    mpure (Sent n)
  | Send_error e => mpure (Send_error e)
  end.

(** ** Sending.  A send that fails closes the connection, which closes the
    channels, which send: [conn_close] is the function one level down. *)

Section with_close.
Variable conn_close : C unit.

Definition write_ready_with : C unit :=
  let! c := asks (fun c => c) in
  if (cn_fd c <? 0) || (cn_towrite c <=? 0) then mpure tt
  else
    let! bytes := deref (fun c => block_read 0 (cn_towrite c) (cn_wrbuf c)) in
    let! retval := do_send bytes in
    match retval with
    | Send_error errno =>
      if negb (errno =? EAGAIN) && negb (errno =? EINTR) then conn_close else mpure tt
    | Sent n =>
      let retval := Z.of_nat n in
      let! wrbuf := deref (fun c => block_move retval (cn_towrite c - retval) (cn_wrbuf c)) in
      modify (fun c => c <| cn_wrbuf := wrbuf |> <| cn_towrite := cn_towrite c - retval |>) ;;;
      let! towrite := asks cn_towrite in
      if towrite <=? 0 then pollmode false else mpure tt
    end.

Definition conn_send_with (chan type len : Z) (data : list Z) : C Z :=
  let total_len := 12 + (if len <? 0 then 0 else len) in
  let head := le_bytes 4 chan ++ le_bytes 4 type ++ le_bytes 4 len in
  let! fd := asks cn_fd in
  if fd <? 0 then mpure 1
  else
    modify (fun c =>
      if cn_wrbuflen c - cn_towrite c <? total_len then
        c <| cn_wrbuf := block_realloc (Some (cn_wrbuf c)) (cn_towrite c + total_len) |>
          <| cn_wrbuflen := cn_towrite c + total_len |>
      else c) ;;;
    let! wrbuf := deref (fun c => block_write (cn_towrite c) head (cn_wrbuf c)) in
    let! wrbuf := deref (fun c =>
      if 0 <? len then d ← block_read 0 len data; block_write (cn_towrite c + 12) d wrbuf else Some wrbuf) in
    modify (fun c => c <| cn_wrbuf := wrbuf |> <| cn_towrite := cn_towrite c + total_len |>) ;;;
    write_ready_with ;;;
    let! towrite := asks cn_towrite in
    (if 0 <? towrite then pollmode true else mpure tt) ;;;
    let! fd := asks cn_fd in
    mpure (of_bool (fd <? 0)).

Definition chan_close_with (chan : addr) : C unit :=
  let! ch := get_chan chan in
  if negb (bool_decide (ch_close_state ch = NGCS_CHAN_OPEN)) then mpure tt
  else
    set_state NGCS_CHAN_CLOSING chan ;;;
    let! fd := asks cn_fd in
    if 0 <=? fd then
      conn_send_with (ch_id ch) NGCS_TYPE_NULL (-1) [] ;;; mpure tt
    else
      set_state NGCS_CHAN_CLOSED chan ;;;
      run_chan (ch_onclose ch) chan.
End with_close.

(** ** while_ngcs_chans_safe *)

Fixpoint chans_safe (fuel : nat) (chan : option addr) (body : addr -> C unit) : C unit :=
  match chan with
  | None => mpure tt
  | Some a =>
    match fuel with
    | O => nofuel
    | S fuel =>
      let! next := deref (fun c => next_of a (cn_chans c)) in
      body a ;;;
      chans_safe fuel next body
    end
  end.

(** ** ngcs_conn_close and the functions above with it *)

Fixpoint ngcs_conn_close (fuel : nat) : C unit :=
  match fuel with
  | O => nofuel
  | S fuel =>
    let! fd := asks cn_fd in
    if fd <? 0 then mpure tt
    else
      modify (fun c => c <| cn_fd := -1 |>) ;;;
      let! towrite := asks cn_towrite in
      (if 0 <? towrite then pollmode false else mpure tt) ;;;
      let! first := asks (fun c => head (cn_chans c)) in
      chans_safe fuel first (chan_close_with (ngcs_conn_close fuel)) ;;;
      modify (fun c => c <| cn_inqueue := [] |>) ;;;
      let! hook := asks cn_close_hook in
      match hook with Some f => call_close_hook f | None => mpure tt end
  end.

Definition ngcs_conn_write_ready (fuel : nat) : C unit := write_ready_with (ngcs_conn_close fuel).
Definition ngcs_conn_send (fuel : nat) := conn_send_with (ngcs_conn_close fuel).
Definition ngcs_chan_close (fuel : nat) : addr -> C unit := chan_close_with (ngcs_conn_close fuel).

Definition ngcs_conn_has_pending_writes (c : ngcs_conn) : bool :=
  (0 <=? cn_fd c) && (0 <? cn_towrite c).

Definition ngcs_chan_send (fuel : nat) (chan : addr) (type len : Z) (data : list Z) : C Z :=
  let! ch := get_chan chan in ngcs_conn_send fuel (ch_id ch) type len data.

(** ** Channels *)

Definition ngcs_conn_from_fd (fd : Z) (close_hook pollmode_hook : option fptr) (input : list (list Z))
    : ngcs_conn :=
  Conn fd [] ∅ close_hook pollmode_hook (replicate 1024 0) 1024 0 [] 1 [] input 0.

Definition ngcs_chan_reg (chanid : Z) (gotdata chanclose chanfree : option fptr) : C addr :=
  let! a := asks cn_fresh in
  modify (fun c => c <| cn_fresh := Pos.succ a |>
                     <| cn_chan := <[a := Chan chanid gotdata chanclose chanfree NGCS_CHAN_OPEN false false]> (cn_chan c) |>
                     <| cn_chans := cn_chans c ++ [a] |>) ;;;
  mpure a.

(** Called when the other side closes a channel. *)
Definition ngcs_chan_closed (chan : addr) : C unit :=
  let! ch := get_chan chan in
  if bool_decide (ch_close_state ch = NGCS_CHAN_CLOSED) then fault
  else
    set_state NGCS_CHAN_CLOSED chan ;;;
    if ch_is_freed ch then free_chan chan else run_chan (ch_onclose ch) chan.

Definition ngcs_chan_close_now (fuel : nat) (chan : addr) : C unit :=
  let! ch := get_chan chan in
  if negb (bool_decide (ch_close_state ch = NGCS_CHAN_OPEN)) then mpure tt
  else
    ngcs_chan_close fuel chan ;;;
    upd_chan chan (fun ch => ch <| ch_gotdata := None |>) ;;;
    let! ch := get_chan chan in
    let onclose := ch_onclose ch in
    upd_chan chan (fun ch => ch <| ch_onclose := None |>) ;;;
    if bool_decide (ch_close_state ch = NGCS_CHAN_CLOSING) then run_chan onclose chan else mpure tt.

Definition ngcs_chan_del (fuel : nat) (chan : addr) : C unit :=
  let! ch := get_chan chan in
  if ch_is_freeing ch then mpure tt
  else
    upd_chan chan (fun ch => ch <| ch_is_freeing := true |>) ;;;
    (if ch_is_freed ch then mpure tt
     else
       ngcs_chan_close_now fuel chan ;;;
       upd_chan chan (fun ch => ch <| ch_is_freed := true |>) ;;;
       let! ch := get_chan chan in
       run_chan (ch_onfree ch) chan) ;;;
    let! ch := get_chan chan in
    if bool_decide (ch_close_state ch = NGCS_CHAN_CLOSED) then free_chan chan
    else upd_chan chan (fun ch => ch <| ch_is_freeing := true |>).

(** ** Receiving *)

(** The channel a message goes to. *)
Definition find_chan (id : Z) (c : ngcs_conn) : option addr :=
  List.find (fun a => match cn_chan c !! a with
                      | Some ch => (ch_id ch =? id) && negb (bool_decide (ch_close_state ch = NGCS_CHAN_CLOSED))
                      | None => false
                      end) (cn_chans c).

Definition ngcs_conn_dispatch_one (fuel : nat) (it : ngcs_msg) : C unit :=
  let! chan := asks (find_chan (m_chan it)) in
  match chan with
  | Some chan =>
    if m_len it <? 0 then ngcs_chan_closed chan
    else
      let! ch := get_chan chan in
      match ch_gotdata ch with
      | Some f => call_gotdata f chan (m_type it) (m_len it) (default [] (m_data it))
      | None => mpure tt
      end
  | None =>
    if 0 <=? m_len it then
      ngcs_conn_send fuel (m_chan it) NGCS_TYPE_NULL (-1) [] ;;; mpure tt
    else mpure tt
  end.

Definition queue_addrs (c : ngcs_conn) : list addr := map fst (cn_inqueue c).

(** initng_list_foreach_rev_safe over the queue; an entry that was freed
    meanwhile is not on the queue any more. *)
Fixpoint dispatch_loop (fuel : nat) (it : option addr) : C unit :=
  match it with
  | None => mpure tt
  | Some a =>
    match fuel with
    | O => nofuel
    | S fuel =>
      let! next := deref (fun c => next_of a (queue_addrs c)) in
      let! msg := deref (fun c => snd <$> List.find (fun x => Pos.eqb (fst x) a) (cn_inqueue c)) in
      ngcs_conn_dispatch_one fuel msg ;;;
      deref (fun c => next_of a (queue_addrs c)) ;;;
      modify (fun c => c <| cn_inqueue := List.filter (fun x => negb (Pos.eqb (fst x) a)) (cn_inqueue c) |>) ;;;
      dispatch_loop fuel next
    end
  end.

Definition ngcs_conn_dispatch (fuel : nat) : C unit :=
  let! first := asks (fun c => head (queue_addrs c)) in dispatch_loop fuel first.

(** ngcs_recvmsg on the socket of the connection: it fails on a closed one. *)
Definition recv_from_conn : C (option ngcs_msg) :=
  let! c := asks (fun c => c) in
  if cn_fd c <? 0 then mpure None
  else match ngcs_recvmsg (cn_in c) with
       | Some (msg, rest) => modify (fun c => c <| cn_in := rest |>) ;;; mpure (Some msg)
       | None => mpure None
       end.

Definition ngcs_conn_data_ready (fuel : nat) : C unit :=
  ngcs_conn_dispatch fuel ;;;
  let! msg := recv_from_conn in
  match msg with
  | None => ngcs_conn_close fuel
  | Some msg => ngcs_conn_dispatch_one fuel msg
  end.

Definition ngcs_conn_free (fuel : nat) : C unit :=
  ngcs_conn_close fuel ;;;
  modify (fun c => c <| cn_chans := [] |> <| cn_chan := ∅ |> <| cn_wrbuf := [] |>).

End conn.

(** ** The interface of the callbacks, and the state of the buffer *)

(** What the hooks of a connection may do to it: nothing to the buffer, the socket
    or the list of channels. *)
Definition same_buffers (c c' : ngcs_conn) : Prop :=
  cn_fd c' = cn_fd c /\ cn_wire c' = cn_wire c /\ cn_wrbuf c' = cn_wrbuf c /\
  cn_wrbuflen c' = cn_wrbuflen c /\ cn_towrite c' = cn_towrite c /\ cn_chans c' = cn_chans c /\
  (forall a, is_Some (cn_chan c !! a) -> is_Some (cn_chan c' !! a)).

#[export] Instance same_buffers_preorder : PreOrder same_buffers.
Proof.
  split; [by intros c|].
  intros c1 c2 c3 (H1 & H2 & H3 & H4 & H5 & H6 & H7) (K1 & K2 & K3 & K4 & K5 & K6 & K7).
  repeat split; try congruence. intros a Ha. by apply K7, H7.
Qed.

(** What the onclose function of the channel [a] may do in addition: free the
    channel, as ngcs_chan_del does, which is the onclose function of the server's
    channels. *)
Definition may_free (a : addr) (c c' : ngcs_conn) : Prop :=
  cn_fd c' = cn_fd c /\ cn_wire c' = cn_wire c /\ cn_wrbuf c' = cn_wrbuf c /\
  cn_wrbuflen c' = cn_wrbuflen c /\ cn_towrite c' = cn_towrite c /\
  (cn_chans c' = cn_chans c \/ cn_chans c' = List.filter (fun x => negb (Pos.eqb x a)) (cn_chans c)) /\
  (forall x, x ∈ cn_chans c' -> is_Some (cn_chan c !! x) -> is_Some (cn_chan c' !! x)).

(** The onclose functions are called for channels that are closed, on a
    connection that is. *)
Class ConnHooks `{!ConnCallbacks} := {
  pollmode_keeps f b c : exists c', call_pollmode f b c = Done (tt, c') /\ same_buffers c c';
  onclose_keeps f a ch c : cn_fd c < 0 -> cn_chan c !! a = Some ch -> ch_close_state ch = NGCS_CHAN_CLOSED ->
    exists c', call_chan f a c = Done (tt, c') /\ may_free a c c';
  close_hook_keeps f c : exists c', call_close_hook f c = Done (tt, c') /\ same_buffers c c'
}.

(** The buffer holds [cn_towrite] bytes in a block of [cn_wrbuflen]; the
    channels on the list are allocated. *)
Record conn_ok (c : ngcs_conn) : Prop := {
  ok_towrite : 0 <= cn_towrite c <= cn_wrbuflen c;
  ok_block : Z.of_nat (length (cn_wrbuf c)) = cn_wrbuflen c;
  ok_nodup : NoDup (cn_chans c);
  ok_chans : forall a, a ∈ cn_chans c -> is_Some (cn_chan c !! a)
}.

Definition pending (c : ngcs_conn) : list Z := take (Z.to_nat (cn_towrite c)) (cn_wrbuf c).

(** What was and will be sent. *)
Definition stream (c : ngcs_conn) : list Z := cn_wire c ++ pending c.

Lemma same_buffers_ok c c' : same_buffers c c' -> conn_ok c -> conn_ok c'.
Proof.
  intros (H1 & H2 & H3 & H4 & H5 & H6 & H7) [K1 K2 K3 K4]. split; rewrite ?H3, ?H4, ?H5, ?H6; [done|done|done|].
  intros a Ha. by apply H7, K4.
Qed.

Lemma same_buffers_stream c c' : same_buffers c c' -> stream c' = stream c.
Proof. intros (H1 & H2 & H3 & H4 & H5 & H6 & H7). unfold stream, pending. by rewrite H2, H3, H5. Qed.

Section conn_facts.
Context `{CB : ConnCallbacks, SY : ConnSys, HK : !ConnHooks}.

Lemma pollmode_run b c : exists c', pollmode b c = Done (tt, c') /\ same_buffers c c'.
Proof.
  unfold pollmode. rewrite (mthen_run _ _ c _ c eq_refl). destruct (cn_pollmode_hook c) as [f|].
  - apply pollmode_keeps.
  - by exists c.
Qed.

Lemma same_may_free a c c' : same_buffers c c' -> may_free a c c'.
Proof. intros (H1 & H2 & H3 & H4 & H5 & H6 & H7). repeat split; try done; [by left|]. intros x _. apply H7. Qed.

Lemma run_chan_run f a ch c :
  cn_fd c < 0 -> cn_chan c !! a = Some ch -> ch_close_state ch = NGCS_CHAN_CLOSED ->
  exists c', run_chan f a c = Done (tt, c') /\ may_free a c c'.
Proof. intros H1 H2 H3. destruct f as [f|]; [by eapply onclose_keeps|exists c; split; [done|by apply same_may_free]]. Qed.

Lemma set_state_run st a ch c :
  cn_chan c !! a = Some ch ->
  let c' := c <| cn_chan := <[a := ch <| ch_close_state := st |>]> (cn_chan c) |> in
  set_state st a c = Done (tt, c') /\ same_buffers c c'.
Proof.
  intros Ha. unfold set_state, upd_chan, get_chan, deref.
  erewrite mthen_run by (by rewrite Ha). split; [reflexivity|]. repeat split; try done.
  intros x Hx. cbn. rewrite lookup_insert. by case_decide.
Qed.

(** A channel of a closed connection is closed without a send. *)
Lemma chan_close_closed conn_close a c :
  cn_fd c < 0 -> is_Some (cn_chan c !! a) ->
  exists c', chan_close_with conn_close a c = Done (tt, c') /\ may_free a c c'.
Proof.
  intros Hfd [ch Ha]. unfold chan_close_with, get_chan, deref at 1.
  erewrite mthen_run by (by rewrite Ha). destruct (negb _); [exists c; split; [done|by apply same_may_free]|].
  destruct (set_state_run NGCS_CHAN_CLOSING a ch c Ha) as [E1 S1]. set (c1 := c <| cn_chan := _ |>) in *.
  rewrite (mthen_run _ _ _ _ _ E1), (mthen_run _ _ c1 _ c1 eq_refl). change (cn_fd c1) with (cn_fd c).
  rewrite (proj2 (Z.leb_gt 0 (cn_fd c)) Hfd).
  destruct (set_state_run NGCS_CHAN_CLOSED a _ c1 (lookup_insert_eq _ _ _)) as [E2 S2]. set (c2 := c1 <| cn_chan := _ |>) in *.
  rewrite (mthen_run _ _ _ _ _ E2).
  destruct (run_chan_run (ch_onclose ch) a _ c2 Hfd (lookup_insert_eq _ _ _) eq_refl) as (c3 & E3 & S3).
  exists c3. split; [done|]. destruct S3 as (K1 & K2 & K3 & K4 & K5 & K6 & K7). repeat split; try done.
  intros x Hx Hs. apply K7; [done|]. assert (S12 : same_buffers c c2) by (by transitivity c1). by apply S12.
Qed.

(** What closing the channels does to the rest. *)
Definition fewer_chans (c c' : ngcs_conn) : Prop :=
  cn_fd c' = cn_fd c /\ cn_wire c' = cn_wire c /\ cn_wrbuf c' = cn_wrbuf c /\
  cn_wrbuflen c' = cn_wrbuflen c /\ cn_towrite c' = cn_towrite c /\ (length (cn_chans c') <= length (cn_chans c))%nat.

#[local] Instance fewer_chans_preorder : PreOrder fewer_chans.
Proof.
  split; [by intros c; repeat split|].
  intros c1 c2 c3 (H1 & H2 & H3 & H4 & H5 & H6) (K1 & K2 & K3 & K4 & K5 & K6). repeat split; try congruence. lia.
Qed.

Lemma same_fewer c c' : same_buffers c c' -> fewer_chans c c'.
Proof. intros (H1 & H2 & H3 & H4 & H5 & H6 & H7). repeat split; try done. by rewrite H6. Qed.

(** The walk goes on behind the channel, whether it was freed or not. *)
Lemma may_free_walk a l1 l2 c c' :
  may_free a c c' -> conn_ok c -> cn_chans c = l1 ++ a :: l2 ->
  conn_ok c' /\ fewer_chans c c' /\ exists l1', cn_chans c' = l1' ++ l2.
Proof.
  intros (H1 & H2 & H3 & H4 & H5 & H6 & H7) [K1 K2 K3 K4] El. rewrite El in *.
  assert (Hf : List.filter (fun x => negb (Pos.eqb x a)) (l1 ++ a :: l2) = l1 ++ l2).
  { rewrite List.filter_app. cbn. rewrite Pos.eqb_refl. cbn. apply NoDup_app in K3 as (_ & Hd & Ha%NoDup_cons). destruct Ha as [Ha _].
    assert (Hid : forall l, a ∉ l -> List.filter (fun x => negb (Pos.eqb x a)) l = l).
    { induction l as [|x l IH]; intros Hl; [done|]. cbn. destruct (Pos.eqb_spec x a) as [->|_]; [set_solver|]. cbn. rewrite IH; set_solver. }
    rewrite !Hid; [done|done|]. intros Hin. apply (Hd a Hin). by left. }
  rewrite Hf in H6. assert (Hsub : cn_chans c' `sublist_of` l1 ++ a :: l2).
  { destruct H6 as [->| ->]; [done|]. apply sublist_app; [done|]. by apply sublist_cons. }
  split; [|split].
  - split; rewrite ?H3, ?H4, ?H5; [done|done|by eapply sublist_NoDup|]. intros x Hx. apply H7; [done|]. apply K4.
    by eapply sublist_subseteq.
  - repeat split; try done. rewrite El. by apply sublist_length.
  - destruct H6 as [->| ->]; [exists (l1 ++ [a]); by rewrite <- app_assoc|by exists l1].
Qed.

Lemma chans_safe_closed conn_close fuel l1 l2 c :
  cn_fd c < 0 -> conn_ok c -> cn_chans c = l1 ++ l2 -> (length l2 <= fuel)%nat ->
  exists c', chans_safe fuel (head l2) (chan_close_with conn_close) c = Done (tt, c') /\ conn_ok c' /\ fewer_chans c c'.
Proof.
  revert fuel l1 c. induction l2 as [|a l2 IH]; intros fuel l1 c Hfd Hok Hl Hf; [exists c; by destruct fuel|].
  destruct fuel as [|fuel]; [cbn in Hf; lia|]. cbn [head chans_safe].
  rewrite (mthen_run _ _ c (head l2) c); [|unfold deref; rewrite Hl, next_of_mid by (rewrite <- Hl; apply ok_nodup, Hok); done].
  destruct (chan_close_closed conn_close a c Hfd) as (c1 & E1 & S1); [apply (ok_chans c Hok); rewrite Hl; set_solver|].
  rewrite (mthen_run _ _ _ _ _ E1). destruct (may_free_walk a l1 l2 c c1 S1 Hok Hl) as (Hok1 & F1 & l1' & Hl1).
  destruct (IH fuel l1' c1) as (c2 & E2 & Hok2 & F2); [by rewrite (proj1 F1)|done|done|cbn in Hf; lia|].
  exists c2. split; [done|]. split; [done|]. by transitivity c1.
Qed.

(** Closing: the socket is closed, what was not sent stays behind. *)
Lemma conn_close_run fuel c :
  0 <= cn_fd c -> conn_ok c -> (length (cn_chans c) < fuel)%nat ->
  exists c', ngcs_conn_close fuel c = Done (tt, c') /\ conn_ok c' /\ fewer_chans (c <| cn_fd := -1 |>) c'.
Proof.
  intros Hfd Hok Hf. destruct fuel as [|fuel]; [lia|]. cbn [ngcs_conn_close].
  rewrite (mthen_run _ _ c _ c eq_refl), (proj2 (Z.ltb_ge (cn_fd c) 0) Hfd).
  rewrite (mthen_run _ _ c tt (c <| cn_fd := -1 |>) eq_refl), (mthen_run _ _ _ _ _ eq_refl).
  set (c0 := c <| cn_fd := -1 |>). assert (Hok0 : conn_ok c0) by (destruct Hok; by split).
  assert (Hpoll : exists c1, (if 0 <? cn_towrite c0 then pollmode false else mpure tt) c0 = Done (tt, c1) /\
    same_buffers c0 c1) by (destruct (0 <? cn_towrite c0); [apply pollmode_run|by exists c0]).
  destruct Hpoll as (c1 & E1 & S1). rewrite (mthen_run _ _ _ _ _ E1), (mthen_run _ _ c1 _ c1 eq_refl).
  pose proof S1 as (H1 & _ & _ & _ & _ & H6 & _).
  destruct (chans_safe_closed (ngcs_conn_close fuel) fuel [] (cn_chans c1) c1) as (c2 & E2 & Hok2 & F2);
    [by rewrite H1|by eapply same_buffers_ok|done|rewrite H6; cbn; lia|].
  rewrite (mthen_run _ _ _ _ _ E2), (mthen_run _ _ c2 tt (c2 <| cn_inqueue := [] |>) eq_refl).
  rewrite (mthen_run _ _ _ _ _ eq_refl). set (c3 := c2 <| cn_inqueue := [] |>).
  assert (F3 : fewer_chans c0 c3) by (transitivity c1; [by apply same_fewer|]; by transitivity c2).
  assert (Hok3 : conn_ok c3) by (destruct Hok2; by split).
  destruct (cn_close_hook c3) as [f|]; [|by exists c3].
  destruct (close_hook_keeps f c3) as (c4 & E4 & S4). exists c4. split; [done|]. split; [by eapply same_buffers_ok|].
  transitivity c3; [done|]. by apply same_fewer.
Qed.

Lemma block_move_pending n m buf :
  0 <= n -> 0 <= m -> n + m <= Z.of_nat (length buf) ->
  exists b, block_move n m buf = Some b /\ length b = length buf /\
    take (Z.to_nat m) b = take (Z.to_nat m) (drop (Z.to_nat n) buf).
Proof.
  intros Hn Hm Hl. unfold block_move. rewrite !(proj2 (Z.leb_le _ _)) by done. cbn [andb].
  set (src := take (Z.to_nat m) (drop (Z.to_nat n) buf)).
  assert (Hs : length src = Z.to_nat m) by (unfold src; rewrite length_take, length_drop; lia).
  destruct (block_write 0 src buf) as [b|] eqn:E; [|rewrite block_write_Some in E by lia; done].
  exists b. split; [done|]. split; [by eapply block_write_length|].
  pose proof (block_write_take _ _ _ _ E) as Ht. cbn in Ht. by rewrite Hs, take_0 in Ht.
Qed.

Lemma do_send_run bytes c :
  let c1 := c <| cn_ticks := S (cn_ticks c) |> in
  do_send bytes c =
  match sys_send (cn_ticks c) bytes with
  | Sent n => let k := Nat.min n (length bytes) in Done (Sent k, c1 <| cn_wire := cn_wire c ++ take k bytes |>)
  | Send_error e => Done (Send_error e, c1)
  end.
Proof. unfold do_send, mthen, asks, modify, mpure. cbn beta iota. by destruct (sys_send _ _). Qed.

(** One call of write_ready: bytes move from the buffer to the wire, in order;
    or the connection is closed and nothing has moved. *)
Lemma write_ready_run fuel c :
  0 <= cn_fd c -> conn_ok c -> (length (cn_chans c) < fuel)%nat ->
  exists c', ngcs_conn_write_ready fuel c = Done (tt, c') /\ conn_ok c' /\ (length (cn_chans c') <= length (cn_chans c))%nat /\
    ((cn_fd c' = cn_fd c /\ stream c' = stream c) \/ (cn_fd c' < 0 /\ cn_wire c' = cn_wire c)).
Proof.
  intros Hfd Hok Hf. pose proof Hok as [[Ht1 Ht2] Hb Hnd Hch].
  unfold ngcs_conn_write_ready, write_ready_with. rewrite (mthen_run (asks (fun c => c)) _ c c c eq_refl).
  rewrite (proj2 (Z.ltb_ge (cn_fd c) 0) Hfd). cbn [orb].
  destruct (Z.leb_spec (cn_towrite c) 0) as [Hz|Hz]; [exists c; split; [done|]; by auto|].
  assert (Er : block_read 0 (cn_towrite c) (cn_wrbuf c) = Some (pending c)).
  { unfold block_read. rewrite !(proj2 (Z.leb_le _ _)) by lia. done. }
  rewrite (mthen_run _ _ c (pending c) c) by (unfold deref; by rewrite Er).
  assert (Hp : length (pending c) = Z.to_nat (cn_towrite c)) by (unfold pending; rewrite length_take; lia).
  pose proof (do_send_run (pending c) c) as Esend. cbv zeta in Esend.
  set (c1 := c <| cn_ticks := S (cn_ticks c) |>) in *.
  destruct (sys_send (cn_ticks c) (pending c)) as [n|e] eqn:Es.
  - set (k := Nat.min n (length (pending c))).
    set (c2 := c1 <| cn_wire := cn_wire c ++ take k (pending c) |>).
    rewrite ?Es in Esend. rewrite (mthen_run _ _ c (Sent k) c2 Esend).
    destruct (block_move_pending (Z.of_nat k) (cn_towrite c - Z.of_nat k) (cn_wrbuf c)) as (b & Em & Hlb & Htb); [lia..|].
    rewrite (mthen_run _ _ c2 b c2) by (unfold deref; cbn; by rewrite Em).
    set (c3 := c2 <| cn_wrbuf := b |> <| cn_towrite := cn_towrite c2 - Z.of_nat k |>).
    rewrite (mthen_run (modify _) _ c2 tt c3 eq_refl), (mthen_run _ _ c3 _ c3 eq_refl).
    assert (Hok3 : conn_ok c3).
    { split; [change (0 <= cn_towrite c - Z.of_nat k <= cn_wrbuflen c); lia| |done|done].
      change (Z.of_nat (length b) = cn_wrbuflen c). by rewrite Hlb. }
    assert (Hs3 : stream c3 = stream c).
    { unfold stream. change (cn_wire c3) with (cn_wire c ++ take k (pending c)).
      change (pending c3) with (take (Z.to_nat (cn_towrite c - Z.of_nat k)) b). rewrite Htb, Nat2Z.id, <- app_assoc.
      f_equal. transitivity (take k (pending c) ++ drop k (pending c)); [|apply take_drop]. f_equal.
      unfold pending. rewrite take_drop_commute. do 2 f_equal. lia. }
    assert (Hlast : exists c', (if cn_towrite c3 <=? 0 then pollmode false else mpure tt) c3 = Done (tt, c') /\
      same_buffers c3 c') by (destruct (cn_towrite c3 <=? 0); [apply pollmode_run|by exists c3]).
    destruct Hlast as (c4 & E4 & S4). exists c4. split; [done|]. split; [by eapply same_buffers_ok|].
    rewrite (same_buffers_stream _ _ S4), Hs3. destruct S4 as (-> & _ & _ & _ & _ & -> & _). split; [done|by left].
  - rewrite ?Es in Esend. rewrite (mthen_run _ _ c (Send_error e) c1 Esend).
    assert (Hok1 : conn_ok c1) by (by split).
    destruct (negb (e =? EAGAIN) && negb (e =? EINTR)); [|exists c1; split; [done|]; by auto].
    destruct (conn_close_run fuel c1 Hfd Hok1 Hf) as (c4 & E4 & Hok4 & F4). exists c4. split; [done|]. split; [done|].
    destruct F4 as (-> & -> & _ & _ & _ & F4). split; [exact F4|]. right. done.
Qed.

(** The buffer is made big enough for the message. *)
Definition grown (c : ngcs_conn) (total_len : Z) : ngcs_conn :=
  if cn_wrbuflen c - cn_towrite c <? total_len then
    c <| cn_wrbuf := block_realloc (Some (cn_wrbuf c)) (cn_towrite c + total_len) |>
      <| cn_wrbuflen := cn_towrite c + total_len |>
  else c.

Lemma grown_ok c n :
  conn_ok c -> 0 <= n -> conn_ok (grown c n) /\ pending (grown c n) = pending c /\
    cn_towrite c + n <= Z.of_nat (length (cn_wrbuf (grown c n))) /\
    cn_fd (grown c n) = cn_fd c /\ cn_wire (grown c n) = cn_wire c /\ cn_towrite (grown c n) = cn_towrite c /\
    cn_chans (grown c n) = cn_chans c.
Proof.
  intros Hok Hn. pose proof Hok as [[Ht1 Ht2] Hb Hnd Hch]. unfold grown.
  destruct (Z.ltb_spec (cn_wrbuflen c - cn_towrite c) n) as [Hs|Hs]; [|repeat split; try done; lia].
  pose proof (block_realloc_length (Some (cn_wrbuf c)) (cn_towrite c + n) ltac:(lia)) as Hl.
  split; [split; [|exact Hl|done|done]|split; [|split; [|done]]].
  - change (0 <= cn_towrite c <= cn_towrite c + n). lia.
  - change (pending _) with (take (Z.to_nat (cn_towrite c)) (block_realloc (Some (cn_wrbuf c)) (cn_towrite c + n))) at 1.
    apply block_realloc_take; cbn; lia.
  - change (cn_towrite c + n <= Z.of_nat (length (block_realloc (Some (cn_wrbuf c)) (cn_towrite c + n)))). lia.
Qed.

(** The message is put behind what is pending. *)
Lemma append_block buf t bs : (t + length bs <= length buf)%nat ->
  exists b, block_write (Z.of_nat t) bs buf = Some b /\ length b = length buf /\ take (t + length bs) b = take t buf ++ bs.
Proof.
  intros H. destruct (block_write (Z.of_nat t) bs buf) as [b|] eqn:E; [|rewrite block_write_Some in E by lia; done].
  exists b. split; [done|]. split; [by eapply block_write_length|].
  pose proof (block_write_take _ _ _ _ E) as Ht. by rewrite Nat2Z.id in Ht.
Qed.

Definition msg_bytes (m : ngcs_msg) : list Z :=
  message_bytes (m_chan m) (m_type m) (m_len m) (default [] (m_data m)).

(** A message as its sender builds it: its length is that of its data, negative
    without. *)
Definition msg_ok (m : ngcs_msg) : Prop :=
  int32 (m_chan m) /\ int32 (m_type m) /\ int32 (m_len m) /\
  match m_data m with Some d => m_len m = Z.of_nat (length d) | None => m_len m < 0 end.

Lemma msg_bytes_head m : msg_ok m ->
  msg_bytes m = (le_bytes 4 (m_chan m) ++ le_bytes 4 (m_type m) ++ le_bytes 4 (m_len m)) ++ default [] (m_data m).
Proof.
  intros (_ & _ & _ & Hd). unfold msg_bytes, message_bytes. rewrite <- !app_assoc. do 3 f_equal.
  destruct (Z.ltb_spec 0 (m_len m)); [done|]. destruct (m_data m) as [[|b d]|]; [done|cbn in Hd; lia|done].
Qed.

Definition send_msg (fuel : nat) (m : ngcs_msg) : C Z :=
  ngcs_conn_send fuel (m_chan m) (m_type m) (m_len m) (default [] (m_data m)).

(** What one message does to the buffer before the first send. *)
Lemma conn_send_fill fuel m c :
  0 <= cn_fd c -> conn_ok c -> msg_ok m ->
  exists c1, conn_ok c1 /\ cn_fd c1 = cn_fd c /\ cn_wire c1 = cn_wire c /\ cn_chans c1 = cn_chans c /\
    pending c1 = pending c ++ msg_bytes m /\
    send_msg fuel m c =
      (ngcs_conn_write_ready fuel ;;;
       let! towrite := asks cn_towrite in
       (if 0 <? towrite then pollmode true else mpure tt) ;;;
       let! fd := asks cn_fd in mpure (of_bool (fd <? 0))) c1.
Proof.
  intros Hfd Hok Hm. pose proof (msg_bytes_head m Hm) as Hbytes. destruct Hm as (_ & _ & _ & Hd).
  set (head := le_bytes 4 (m_chan m) ++ le_bytes 4 (m_type m) ++ le_bytes 4 (m_len m)) in *.
  set (data := default [] (m_data m)) in *.
  assert (Hh : length head = 12%nat) by (unfold head; by rewrite !length_app, !le_bytes_length).
  set (total := 12 + (if m_len m <? 0 then 0 else m_len m)).
  assert (Htot : total = 12 + Z.of_nat (length data)).
  { unfold total, data. destruct (Z.ltb_spec (m_len m) 0), (m_data m); cbn in *; lia. }
  destruct (grown_ok c total Hok ltac:(lia)) as (Hok1 & Hp1 & Hroom & Hf1 & Hw1 & Ht1 & Hc1).
  set (c1 := grown c total) in *. pose proof (ok_towrite c Hok) as [Hn0 _].
  set (t := Z.to_nat (cn_towrite c)). assert (Et : cn_towrite c1 = Z.of_nat t) by (unfold t; lia).
  destruct (append_block (cn_wrbuf c1) t head) as (b1 & E1 & L1 & T1); [lia|].
  destruct (append_block b1 (t + 12) data) as (b2 & E2 & L2 & T2); [lia|].
  exists (c1 <| cn_wrbuf := b2 |> <| cn_towrite := cn_towrite c1 + total |>).
  assert (Hpend : take (Z.to_nat (cn_towrite c1 + total)) b2 = pending c ++ msg_bytes m).
  { rewrite Et. replace (Z.to_nat (Z.of_nat t + total)) with (t + 12 + length data)%nat by lia.
    rewrite T2. replace (t + 12)%nat with (t + length head)%nat by lia. rewrite T1, <- Hp1, Hbytes.
    unfold pending. rewrite Et, Nat2Z.id. by rewrite <- !app_assoc. }
  split; [|repeat split; try done].
  - destruct Hok1 as [K1 K2 K3 K4]. split; [|change (Z.of_nat (length b2) = cn_wrbuflen c1); lia|done|done].
    change (0 <= cn_towrite c1 + total <= cn_wrbuflen c1). lia.
  - unfold send_msg, ngcs_conn_send, conn_send_with. fold data total head.
    rewrite (mthen_run _ _ c _ c eq_refl), (proj2 (Z.ltb_ge (cn_fd c) 0) Hfd).
    rewrite then_modify. fold (grown c total). fold c1.
    rewrite (then_deref _ _ c1 b1) by (by rewrite Et, E1).
    rewrite (then_deref _ _ c1 b2); [done|]. rewrite Et.
    destruct (Z.ltb_spec 0 (m_len m)) as [Hl|Hl].
    + assert (m_len m = Z.of_nat (length data)) as -> by (unfold data; destruct (m_data m); cbn in *; lia).
      unfold block_read. rewrite !(proj2 (Z.leb_le _ _)) by lia. cbn [andb mbind option_bind].
      rewrite drop_0, Nat2Z.id, firstn_all. replace (Z.of_nat t + 12) with (Z.of_nat (t + 12)) by lia. by rewrite E2.
    + assert (data = []) as Hnil by (unfold data; destruct (m_data m) as [[|]|]; cbn in *; [done|lia|done]).
      rewrite Hnil in E2. rewrite block_write_Some in E2 by (cbn; lia). cbn in E2.
      rewrite Nat.add_0_r, take_drop in E2. by simplify_eq.
Qed.

(** Sending a message on an open connection: it is the end of the stream, or
    the connection is closed and nothing of it went out. *)
Lemma conn_send_run fuel m c :
  0 <= cn_fd c -> conn_ok c -> msg_ok m -> (length (cn_chans c) < fuel)%nat ->
  exists r c', send_msg fuel m c = Done (r, c') /\ conn_ok c' /\ (length (cn_chans c') <= length (cn_chans c))%nat /\
    ((r = 0 /\ cn_fd c' = cn_fd c /\ stream c' = stream c ++ msg_bytes m) \/
     (r = 1 /\ cn_fd c' < 0 /\ cn_wire c' = cn_wire c)).
Proof.
  intros Hfd Hok Hm Hf. destruct (conn_send_fill fuel m c Hfd Hok Hm) as (c1 & Hok1 & Hf1 & Hw1 & Hc1 & Hp1 & ->).
  destruct (write_ready_run fuel c1) as (c2 & E2 & Hok2 & Hc2 & H2); [lia|done|by rewrite Hc1|].
  rewrite (mthen_run _ _ _ _ _ E2), (mthen_run _ _ c2 _ c2 eq_refl).
  assert (Hpoll : exists c3, (if 0 <? cn_towrite c2 then pollmode true else mpure tt) c2 = Done (tt, c3) /\
    same_buffers c2 c3) by (destruct (0 <? cn_towrite c2); [apply pollmode_run|by exists c2]).
  destruct Hpoll as (c3 & E3 & S3). rewrite (mthen_run _ _ _ _ _ E3), (mthen_run _ _ c3 _ c3 eq_refl).
  pose proof (same_buffers_stream _ _ S3) as Hs3. pose proof (same_buffers_ok _ _ S3 Hok2) as Hok3.
  destruct S3 as (F3 & W3 & _ & _ & _ & C3 & _). rewrite F3. eexists _, c3. split; [reflexivity|].
  split; [done|]. split; [by rewrite C3, <- Hc1|]. rewrite F3, W3, Hs3. destruct H2 as [[K1 K2]|[K1 K2]].
  - left. rewrite K1, K2, Hf1, (proj2 (Z.ltb_ge _ 0) Hfd). split; [done|]. split; [done|].
    unfold stream. by rewrite Hp1, Hw1, app_assoc.
  - right. rewrite (proj2 (Z.ltb_lt _ 0) K1). split; [done|]. split; [done|]. congruence.
Qed.

(** ** A sender: messages, and calls of write_ready in between.  The messages
    whose send returned 0 are the result. *)

Inductive action := Send (m : ngcs_msg) | Write_ready.

Fixpoint run_actions (fuel : nat) (acts : list action) : C (list ngcs_msg) :=
  match acts with
  | [] => mpure []
  | Send m :: acts =>
    let! r := send_msg fuel m in
    let! rest := run_actions fuel acts in
    mpure (if r =? 0 then m :: rest else rest)
  | Write_ready :: acts => ngcs_conn_write_ready fuel ;;; run_actions fuel acts
  end.

Definition action_ok (a : action) : Prop := match a with Send m => msg_ok m | Write_ready => True end.

(** The wire holds a part of the accepted messages, from the start; as long as
    the connection is open, the rest is pending. *)
Definition sent_so_far (acc : list ngcs_msg) (c : ngcs_conn) : Prop :=
  cn_wire c `prefix_of` concat (map msg_bytes acc) /\
  (0 <= cn_fd c -> stream c = concat (map msg_bytes acc)).

Lemma sent_so_far_open acc c : stream c = concat (map msg_bytes acc) -> sent_so_far acc c.
Proof. intros E. split; [|done]. exists (pending c). by rewrite <- E. Qed.

(** On a closed connection nothing happens. *)
Lemma closed_does_nothing fuel m c :
  cn_fd c < 0 -> send_msg fuel m c = Done (1, c) /\ ngcs_conn_write_ready fuel c = Done (tt, c).
Proof.
  intros Hfd. unfold send_msg, ngcs_conn_send, conn_send_with, ngcs_conn_write_ready, write_ready_with.
  cbv zeta. by rewrite !then_asks, (proj2 (Z.ltb_lt _ 0) Hfd).
Qed.

Lemma run_actions_spec fuel acts acc c :
  conn_ok c -> Forall action_ok acts -> (length (cn_chans c) < fuel)%nat -> sent_so_far acc c ->
  exists more c', run_actions fuel acts c = Done (more, c') /\ conn_ok c' /\ sent_so_far (acc ++ more) c' /\
    Forall msg_ok more.
Proof.
  intros Hok Hall Hf. revert acc c Hok Hf. induction Hall as [|a acts Ha _ IH]; intros acc c Hok Hf Hs.
  { exists [], c. rewrite app_nil_r. by repeat split; try apply Hs; try apply Hok. }
  destruct (Z.neg_nonneg_cases (cn_fd c)) as [Hfd|Hfd].
  { destruct a as [m|]; cbn [run_actions].
    - rewrite (mthen_run _ _ _ _ _ (proj1 (closed_does_nothing fuel m c Hfd))).
      destruct (IH acc c Hok Hf Hs) as (more & c' & E & K). rewrite (mthen_run _ _ _ _ _ E). by exists more, c'.
    - rewrite (mthen_run _ _ _ _ _ (proj2 (closed_does_nothing fuel (NgcsMsg 0 0 0 None) c Hfd))). by apply IH. }
  pose proof Hs as [Hw Hst]. specialize (Hst Hfd). destruct a as [m|]; cbn [run_actions].
  - destruct (conn_send_run fuel m c Hfd Hok Ha Hf) as (r & c1 & E1 & Hok1 & Hc1 & H1).
    rewrite (mthen_run _ _ _ _ _ E1). destruct H1 as [(-> & Hf1 & Hs1)|(-> & Hf1 & Hw1)].
    + destruct (IH (acc ++ [m]) c1) as (more & c' & E & K1 & K2 & K3);
        [done|lia|apply sent_so_far_open; by rewrite Hs1, Hst, map_app, concat_app; cbn; rewrite app_nil_r|].
      rewrite (mthen_run _ _ _ _ _ E). exists (m :: more), c'. rewrite <- app_assoc in K2. repeat split; try apply K1; try apply K2.
      by constructor.
    + destruct (IH acc c1) as (more & c' & E & K); [done|lia|split; [by rewrite Hw1|lia]|].
      rewrite (mthen_run _ _ _ _ _ E). by exists more, c'.
  - destruct (write_ready_run fuel c Hfd Hok Hf) as (c1 & E1 & Hok1 & Hc1 & H1).
    rewrite (mthen_run _ _ _ _ _ E1). apply IH; [done|lia|]. destruct H1 as [[Hf1 Hs1]|[Hf1 Hw1]].
    + apply sent_so_far_open. congruence.
    + split; [by rewrite Hw1|lia].
Qed.

(** ** A receiver *)

Fixpoint recv_n (n : nat) (sock : list (list Z)) : option (list ngcs_msg * list (list Z)) :=
  match n with
  | O => Some ([], sock)
  | S n =>
    '(m, sock) ← ngcs_recvmsg sock;
    '(ms, sock) ← recv_n n sock;
    Some (m :: ms, sock)
  end.

Lemma recvall_inv sock len bs rest :
  pieces sock -> ngcs_recvall sock len = Some (bs, rest) ->
  bs = take len (concat sock) /\ (len <= length (concat sock))%nat /\
  concat rest = drop len (concat sock) /\ pieces rest.
Proof.
  intros Hp E. destruct (decide (len <= length (concat sock))%nat) as [Hl|Hl].
  - destruct (recvall_spec sock len Hp Hl) as (rest' & E' & K). rewrite E' in E. simplify_eq. naive_solver.
  - exfalso. revert len bs rest E Hl. induction Hp as [|c sock Hc Hp IH]; intros len bs rest E Hl.
    + destruct len; [cbn in Hl; lia|done].
    + destruct len as [|len]; [lia|]. destruct c as [|b c]; [done|]. cbn [concat] in Hl. rewrite length_app in Hl.
      cbn [ngcs_recvall] in E. destruct (Nat.leb_spec (length (b :: c)) (S len)) as [Hle|Hgt]; [|lia].
      destruct (ngcs_recvall sock (S len - length (b :: c))) as [[bs' rest']|] eqn:E'; [|done].
      eapply IH; [exact E'|lia].
Qed.

(** What is received at the front of a stream of messages is the first of them. *)
Lemma recvmsg_first sock more m tail m' rest :
  pieces sock -> msg_ok m -> concat sock ++ more = msg_bytes m ++ tail ->
  ngcs_recvmsg sock = Some (m', rest) -> m' = m /\ concat rest ++ more = tail /\ pieces rest.
Proof.
  intros Hp Hm E R. rewrite (msg_bytes_head m Hm) in E. destruct Hm as (H1 & H2 & H3 & Hd).
  set (head := le_bytes 4 (m_chan m) ++ le_bytes 4 (m_type m) ++ le_bytes 4 (m_len m)) in *.
  assert (Hh : length head = 12%nat) by (unfold head; by rewrite !length_app, !le_bytes_length).
  unfold ngcs_recvmsg in R. destruct (ngcs_recvall sock 12) as [[hd s1]|] eqn:E1; [|done]. cbn [mbind option_bind] in R.
  destruct (recvall_inv _ _ _ _ Hp E1) as (-> & L1 & R1 & P1).
  assert (Ht : take 12 (concat sock) = head /\ concat s1 ++ more = default [] (m_data m) ++ tail).
  { rewrite R1. rewrite <- (take_app_le (concat sock) more) by done. rewrite <- (drop_app_le (concat sock) more) by done.
    rewrite E, <- app_assoc, <- Hh. by rewrite take_app_length, drop_app_length. }
  destruct Ht as [Ht Hs1]. rewrite Ht in R.
  destruct (head_fields _ _ _ H1 H2 H3) as (G1 & G2 & G3). fold head in G1, G2, G3. rewrite G1, G2, G3 in R. cbn [mbind option_bind] in R.
  destruct m as [chan type len [d|]]; cbn in Hd, R, Hs1.
  - subst len. rewrite (proj2 (Z.ltb_ge _ 0)) in R by lia. rewrite Nat2Z.id in R.
    destruct (ngcs_recvall s1 (length d)) as [[dd s2]|] eqn:E2; [|done]. cbn in R. simplify_eq.
    destruct (recvall_inv _ _ _ _ P1 E2) as (-> & L2 & R2 & P2). rewrite R2.
    rewrite <- (take_app_le (concat s1) more), <- (drop_app_le (concat s1) more) by done.
    by rewrite Hs1, take_app_length, drop_app_length.
  - rewrite (proj2 (Z.ltb_lt _ 0) Hd) in R. by simplify_eq.
Qed.

(** Of a message that has arrived in full something is received. *)
Lemma recvmsg_arrived sock m tail :
  pieces sock -> msg_ok m -> concat sock = msg_bytes m ++ tail -> is_Some (ngcs_recvmsg sock).
Proof.
  intros Hp Hm E. rewrite (msg_bytes_head m Hm) in E. destruct Hm as (H1 & H2 & H3 & Hd).
  set (head := le_bytes 4 (m_chan m) ++ le_bytes 4 (m_type m) ++ le_bytes 4 (m_len m)) in *.
  assert (Hh : length head = 12%nat) by (unfold head; by rewrite !length_app, !le_bytes_length).
  destruct (recvall_spec sock 12 Hp) as (s1 & E1 & R1 & P1); [rewrite E, !length_app; lia|].
  rewrite E, <- app_assoc, <- Hh, take_app_length, Hh in E1. rewrite E, <- app_assoc, <- Hh, drop_app_length in R1.
  unfold ngcs_recvmsg. rewrite E1. cbn [mbind option_bind].
  destruct (head_fields _ _ _ H1 H2 H3) as (G1 & G2 & G3). fold head in G1, G2, G3. rewrite G1, G2, G3. cbn [mbind option_bind]. destruct (Z.ltb_spec (m_len m) 0); [by eexists|].
  destruct (recvall_spec s1 (Z.to_nat (m_len m)) P1) as (s2 & -> & _); [|by eexists].
  rewrite R1, length_app. destruct (m_data m); cbn in *; lia.
Qed.

Lemma recv_n_prefix n sock more msgs ms rest :
  pieces sock -> Forall msg_ok msgs -> concat sock ++ more = concat (map msg_bytes msgs) ->
  recv_n n sock = Some (ms, rest) -> ms `prefix_of` msgs.
Proof.
  revert sock msgs ms rest. induction n as [|n IH]; intros sock msgs ms rest Hp Hall E R; cbn in R.
  { simplify_eq. apply prefix_nil. }
  destruct (ngcs_recvmsg sock) as [[m s1]|] eqn:E1; [|done]. cbn in R.
  destruct (recv_n n s1) as [[ms' s2]|] eqn:E2; [|done]. cbn in R. simplify_eq.
  destruct Hall as [|m0 msgs Hm Hall]; cbn in E.
  - apply app_eq_nil in E as [E _]. assert (sock = []) as ->.
    { destruct Hp as [|c sock Hc Hp]; [done|]. cbn in E. by apply app_eq_nil in E as [-> _]. }
    done.
  - destruct (recvmsg_first _ _ _ _ _ _ Hp Hm E E1) as (-> & Es & Hp1).
    apply prefix_cons. by eapply IH.
Qed.

Lemma recv_n_all sock msgs :
  pieces sock -> Forall msg_ok msgs -> concat sock = concat (map msg_bytes msgs) ->
  exists rest, recv_n (length msgs) sock = Some (msgs, rest) /\ concat rest = [].
Proof.
  intros Hp Hall. revert sock Hp. induction Hall as [|m msgs Hm Hall IH]; intros sock Hp E; [by exists sock|].
  cbn in E |- *. destruct (recvmsg_arrived _ _ _ Hp Hm E) as [[m' s1] E1]. rewrite E1. cbn.
  rewrite <- (app_nil_r (concat sock)) in E. destruct (recvmsg_first _ _ _ _ _ _ Hp Hm E E1) as (-> & Es & Hp1).
  rewrite app_nil_r in Es. destruct (IH s1 Hp1 Es) as (rest & -> & Hr). by exists rest.
Qed.

(** C17: messages arrive in order and unchanged.  Whatever the sender does -
    messages of any kind, calls of write_ready in between - and however the
    kernel takes the bytes, in parts, not now, or with an error that closes the
    connection: the sender returns without an access outside its buffer; what a
    receiver gets from any part of the wire, cut into pieces in any way, are
    the first of the messages whose send returned 0; and all of them once the
    connection is open and nothing is pending.  The callbacks are those of
    [ConnHooks]: an onclose function may free its channel, as ngcs_chan_del does
    ([server_hooks]), and no callback touches the buffer. *)
Theorem messages_arrive_in_order fuel acts c :
  conn_ok c -> 0 <= cn_fd c -> stream c = [] -> (length (cn_chans c) < fuel)%nat -> Forall action_ok acts ->
  exists accepted c', run_actions fuel acts c = Done (accepted, c') /\ conn_ok c' /\
    (forall sock n ms rest, pieces sock -> concat sock `prefix_of` cn_wire c' ->
      recv_n n sock = Some (ms, rest) -> ms `prefix_of` accepted) /\
    (forall sock, pieces sock -> concat sock = cn_wire c' -> 0 <= cn_fd c' ->
      ngcs_conn_has_pending_writes c' = false ->
      exists rest, recv_n (length accepted) sock = Some (accepted, rest) /\ concat rest = []).
Proof.
  intros Hok Hfd Hs Hf Hall.
  destruct (run_actions_spec fuel acts [] c Hok Hall Hf (sent_so_far_open [] c Hs)) as (acc & c' & E & Hok' & [Hw Hst] & Hacc).
  cbn [app] in Hw, Hst.
  exists acc, c'. split; [done|]. split; [done|]. split.
  - intros sock n ms rest Hp [more1 Hpre] R. destruct Hw as [more2 Hw].
    eapply (recv_n_prefix n sock (more1 ++ more2)); [done|done| |done]. by rewrite Hw, Hpre, app_assoc.
  - intros sock Hp Hc Hfd' Hnp. apply recv_n_all; [done|done|]. rewrite Hc, <- (Hst Hfd').
    unfold ngcs_conn_has_pending_writes in Hnp. rewrite (proj2 (Z.leb_le 0 _) Hfd') in Hnp. apply Z.ltb_ge in Hnp.
    unfold stream, pending. pose proof (ok_towrite c' Hok'). replace (Z.to_nat (cn_towrite c')) with 0%nat by lia.
    by rewrite take_0, app_nil_r.
Qed.

End conn_facts.

(** ** The callbacks of the server

    The channels of the server have ngcs_chan_del as their onclose function
    (initng_ngcs.c); their onfree functions free what belongs to a channel and do
    not touch the connection, nor do the two hooks of a connection. *)

Definition ngcs_chan_del_ptr : fptr := 1.

Section server.
Context `{SY : ConnSys} (onfree : fptr -> addr -> C unit) (fuel : nat).
Hypothesis onfree_keeps : forall f a c, onfree f a c = Done (tt, c).

Definition onfree_callbacks : ConnCallbacks :=
  {| call_gotdata := fun _ _ _ _ _ => mpure tt; call_chan := onfree;
     call_close_hook := fun _ => mpure tt; call_pollmode := fun _ _ => mpure tt |}.
Definition server_callbacks : ConnCallbacks :=
  {| call_gotdata := fun _ _ _ _ _ => mpure tt;
     call_chan := fun f a => if Pos.eqb f ngcs_chan_del_ptr then @ngcs_chan_del onfree_callbacks SY fuel a else onfree f a;
     call_close_hook := fun _ => mpure tt; call_pollmode := fun _ _ => mpure tt |}.

Lemma upd_chan_run a ch f c :
  cn_chan c !! a = Some ch -> upd_chan a f c = Done (tt, c <| cn_chan := <[a := f ch]> (cn_chan c) |>).
Proof. intros Ha. unfold upd_chan, get_chan, deref. by erewrite mthen_run by (by rewrite Ha). Qed.
Lemma get_chan_run a ch c : cn_chan c !! a = Some ch -> get_chan a c = Done (ch, c).
Proof. intros Ha. unfold get_chan, deref. by rewrite Ha. Qed.

(** A closed channel is deleted, unless that is under way. *)
Lemma chan_del_closed a ch c :
  cn_chan c !! a = Some ch -> ch_close_state ch = NGCS_CHAN_CLOSED ->
  exists c', @ngcs_chan_del onfree_callbacks SY fuel a c = Done (tt, c') /\ may_free a c c'.
Proof.
  intros Ha Hst. unfold ngcs_chan_del. rewrite (mthen_run _ _ _ _ _ (get_chan_run _ _ _ Ha)).
  destruct (ch_is_freeing ch); [exists c; split; [done|by apply same_may_free]|].
  rewrite (mthen_run _ _ _ _ _ (upd_chan_run _ _ _ _ Ha)). set (ch1 := ch <| ch_is_freeing := true |>). set (c1 := c <| cn_chan := _ |>).
  assert (H1 : cn_chan c1 !! a = Some ch1) by apply lookup_insert_eq.
  assert (Hgo : exists ch2, (if ch_is_freed ch then mpure tt else
      @ngcs_chan_close_now onfree_callbacks SY fuel a ;;; upd_chan a (fun ch => ch <| ch_is_freed := true |>) ;;;
      let! ch := get_chan a in @run_chan onfree_callbacks (ch_onfree ch) a) c1 =
      Done (tt, c <| cn_chan := <[a := ch2]> (cn_chan c) |>) /\ ch_close_state ch2 = NGCS_CHAN_CLOSED).
  { destruct (ch_is_freed ch); [by exists ch1|]. exists (ch1 <| ch_is_freed := true |>). split; [|done].
    rewrite (mthen_run _ _ c1 tt c1).
    2:{ unfold ngcs_chan_close_now. rewrite (mthen_run _ _ _ _ _ (get_chan_run _ _ _ H1)). cbn [ch1 ch_close_state setf set_ch_is_freeing].
        by rewrite Hst. }
    rewrite (mthen_run _ _ _ _ _ (upd_chan_run _ _ _ _ H1)). set (c2 := c1 <| cn_chan := _ |>).
    assert (E2 : c2 = c <| cn_chan := <[a := ch1 <| ch_is_freed := true |>]> (cn_chan c) |>)
      by (unfold c2, c1; cbn; by rewrite insert_insert_eq).
    rewrite (mthen_run _ _ _ _ _ (get_chan_run a _ c2 (lookup_insert_eq _ _ _))), <- E2. unfold run_chan. destruct (ch_onfree _); [apply onfree_keeps|done]. }
  destruct Hgo as (ch2 & Ego & H2). rewrite (mthen_run _ _ _ _ _ Ego).
  rewrite (mthen_run _ _ _ _ _ (get_chan_run a ch2 _ (lookup_insert_eq _ _ _))).
  rewrite bool_decide_eq_true_2 by done. eexists. split; [reflexivity|]. repeat split; try done; [by right|].
  intros x Hx Hs. cbn in *. apply list_elem_of_In, List.filter_In in Hx as [_ Hx]. destruct (Pos.eqb_spec x a); [done|].
  by rewrite lookup_delete_ne, lookup_insert_ne.
Qed.

#[export] Instance server_hooks : @ConnHooks server_callbacks.
Proof.
  split.
  - intros f b c. by exists c.
  - intros f a ch c _ Ha Hst. cbn [call_chan server_callbacks]. destruct (Pos.eqb f ngcs_chan_del_ptr); [by eapply chan_del_closed|].
    exists c. split; [apply onfree_keeps|by apply same_may_free].
  - intros f c. by exists c.
Qed.

End server.

(** ** A close that meets a broken connection *)

Definition EPIPE : Z := 32.
Definition broken_pipe : ConnSys := {| sys_send := fun _ _ => Send_error EPIPE |}.
Definition no_callbacks : ConnCallbacks :=
  {| call_gotdata := fun _ _ _ _ _ => mpure tt; call_chan := fun _ _ => mpure tt;
     call_close_hook := fun _ => mpure tt; call_pollmode := fun _ _ => mpure tt |}.

#[export] Instance no_callbacks_hooks : @ConnHooks no_callbacks.
Proof. split; intros; eexists; (split; [reflexivity|done || by apply same_may_free]). Qed.

Definition two_channels : outcome (addr * ngcs_conn) :=
  (ngcs_chan_reg 7 None None None ;;; ngcs_chan_reg 8 None None None) (ngcs_conn_from_fd 5 None None []).

Definition state_of (a : addr) (c : ngcs_conn) : option e_ngcs_chan_state := ch_close_state <$> cn_chan c !! a.

(** A channel whose close message meets a broken connection is never
    closed.  The failed send closes the connection and with it every other
    channel, but this one is CLOSING already and is passed over: it stays
    CLOSING, its onclose function is not called, and closing it again does
    nothing. *)
Theorem failed_close_leaves_channel_closing :
  exists c c', two_channels = Done (2%positive, c) /\
    @ngcs_chan_close no_callbacks broken_pipe 9 1 c = Done (tt, c') /\ cn_fd c' = -1 /\
    state_of 1 c' = Some NGCS_CHAN_CLOSING /\ state_of 2 c' = Some NGCS_CHAN_CLOSED /\
    @ngcs_chan_close no_callbacks broken_pipe 9 1 c' = Done (tt, c').
Proof. eexists _, _. split; [reflexivity|]. split; [vm_compute; reflexivity|]. by vm_compute. Qed.
