(* ===== verification/NgeClient.v ===== *)
(** * The client side of the event protocol: src/modules/nge/

    libngeclient.c, which turns the text that initng sends to its listeners
    back into events, nge.c, which prints them, and nge_raw.c, which prints the text.  A buffer is its chars before
    the NUL that ends it; less than 2^31 of them, so that the length is an int. *)
From S2P Require Import Prelude Types Data CString Global ActiveDb Depend Io Interrupt Launch DaemonMod.
From Stdlib Require Import String Ascii.
From stdpp Require Import prelude gmap strings pretty.
Local Open Scope Z_scope.

Definition c_lt : ascii := "<".
Definition c_gt : ascii := ">".
Definition c_eq : ascii := "=".

(** ** The connection *)

(** What the kernel answers to one poll(2): what it returns when nothing has
    come, or what the recv(2) calls that follow give, until one gives nothing. *)
Inductive poll_answer := Poll_none (ret : Z) | Poll_in (chunks : list chars).

(** [net] are the answers still to come; without any left, nothing comes.
    [ngeclient_error] is the global of libngeclient.c.  The length outlives a
    buffer that is freed. *)
Record nge_connection := NgeConn {
  sock : Z;
  read_buffer : option chars;
  read_buffer_len : Z;
  net : list poll_answer;
  ngeclient_error : option string
}.
Definition eta_nge (c : nge_connection) := NgeConn (sock c) (read_buffer c) (read_buffer_len c) (net c) (ngeclient_error c).
#[export] Instance set_read_buffer : Setter read_buffer := ltac:(build_setter eta_nge read_buffer).
#[export] Instance set_read_buffer_len : Setter read_buffer_len := ltac:(build_setter eta_nge read_buffer_len).
#[export] Instance set_net : Setter net := ltac:(build_setter eta_nge net).
#[export] Instance set_ngeclient_error : Setter ngeclient_error := ltac:(build_setter eta_nge ngeclient_error).

Notation E := (M nge_connection).

Definition set_error (msg : string) : E unit := modify (fun c => c <| ngeclient_error := Some msg |>).
Definition lift_e {A} (o : outcome A) : E A := fun c =>
  match o with Done a => Done (a, c) | Fault => Fault | NoFuel => NoFuel end.

(** c->read_buffer = b, with its length. *)
Definition put_buffer (b : chars) : E unit :=
  modify (fun c => c <| read_buffer := Some b |> <| read_buffer_len := Z.of_nat (length b) |>).

(** socket(2) and connect(2). *)
Class NgeNet := {
  net_socket : Z;
  net_connect : Z -> string -> bool;
  net_input : list poll_answer
}.

(** sun_path has 108 chars. *)
Definition SUN_PATH : nat := 108.

(** The connection, if there is one, and ngeclient_error. *)
Definition ngeclient_connect `{!NgeNet} (path : string) (error : option string) : outcome (option nge_connection * option string) :=
  if net_socket <? 0 then Done (None, Some "Failed to init socket."%string)
  else if (SUN_PATH <=? String.length path)%nat then Fault
  else if negb (net_connect net_socket path) then Done (None, Some "Error connecting to socket"%string)
  else Done (Some (NgeConn net_socket None 0 net_input error), error).

(** The loop of recv, up to 100 chars each. *)
Fixpoint recv_loop (chunks : list chars) (b : chars) (totally_got : Z) : chars * Z :=
  match chunks with
  | [] | [] :: _ => (b, totally_got)
  | got :: chunks => recv_loop chunks (b ++ got) (totally_got + Z.of_nat (length got))
  end.

(** When the buffer was freed and its length was not zero, what is in front of
    the new chars was never written. *)
Definition ngeclient_read_and_fill_buffer (chunks : list chars) : E Z :=
  let! c := asks id in
  if sock c <=? 0 then fault
  else
    let! b := deref (fun _ => match read_buffer c with
                              | Some b => Some b
                              | None => if read_buffer_len c =? 0 then Some [] else None
                              end) in
    let '(b, got) := recv_loop chunks b 0 in
    put_buffer b ;;; mpure got.

Definition ngeclient_poll_for_input : E Z :=
  let! answers := asks net in
  match answers with
  | [] => mpure 0
  | answer :: answers =>
    modify (fun c => c <| net := answers |>) ;;;
    match answer with
    | Poll_none ret => mpure ret
    | Poll_in chunks => ngeclient_read_and_fill_buffer chunks
    end
  end.

Definition ngeclient_cut_buffert (n : nat) : E unit :=
  let! c := asks id in
  match read_buffer c with
  | None => mpure tt
  | Some b => if (n =? 0)%nat || (read_buffer_len c <? 1) then mpure tt else put_buffer (drop n b)
  end.

(** ** Tags *)

Definition bad_xml : string := "ngeclient_get_content failed. Bad xml.".

(** The text between the first > and the next <; none when it is empty. *)
Definition content_of (tag : chars) : option (option chars) :=
  match tag with
  | c :: _ =>
    if negb (Ascii.eqb c c_lt) then None
    else match drop (strcspn tag [c_gt]) tag with
         | _ :: point =>
           let len := strcspn point [c_lt] in
           if (len <? length point)%nat then Some (if (0 <? len)%nat then Some (take len point) else None) else None
         | [] => None
         end
  | [] => None
  end.
Definition ngeclient_get_content (tag : chars) : E (option chars) :=
  match content_of tag with
  | Some content => mpure content
  | None => set_error bad_xml ;;; mpure None
  end.

(** The loop of strstr.  The two loops that shall skip blanks ask for a char that
    is a space and a tab at once, and do nothing. *)
Fixpoint option_loop (n : nat) (name point : chars) : outcome (option chars) :=
  match n with
  | O => NoFuel
  | S n =>
    match CString.strstr point name with
    | None => Done None
    | Some i =>
      match drop (i + length name) point with
      | e :: point1 =>
        if negb (Ascii.eqb e c_eq) then option_loop n name (e :: point1)
        else match point1 with
             | q :: point2 =>
               if negb (Ascii.eqb q c_quote) then option_loop n name point1
               else Done (Some (take (strcspn point2 [c_quote]) point2))
             | [] => option_loop n name point1
             end
      | [] => option_loop n name []
      end
    end
  end.

Definition ngeclient_get_option (tag : chars) (name : string) : E (option chars) :=
  let! r := lift_e (option_loop (S (length tag)) (chars_of name) tag) in
  match r with
  | Some _ => mpure r
  | None =>
    set_error ("Could not find option " +:+ String c_quote name +:+ String c_quote " in tag") ;;; mpure None
  end.

Definition ngeclient_get_int (tag : chars) (name : string) : E Z :=
  let! r := ngeclient_get_option tag name in
  mpure (match r with Some s => atoi s | None => -1 end).

(** ** Events *)

(** nge_event: the type of the event with its part of the union. *)
Inductive nge_event :=
| PING
| SERVICE_STATE_CHANGE (service : option chars) (is_ : Z) (state_name : option chars) (percent_started percent_stopped : Z)
    (service_type : option chars) (hidden : Z)
| SYSTEM_STATE_CHANGE (system_state : Z) (runlevel : option chars)
| ERR_MSG (mt : Z) (file func : option chars) (line : Z) (message : option chars)
| CONNECT (pver : Z) (initng_version : option chars)
| DISCONNECT
| INITIAL_SERVICE_STATE_CHANGE (service : option chars) (is_ : Z) (state_name : option chars) (percent_started percent_stopped : Z)
    (service_type : option chars) (hidden : Z)
| INITIAL_SYSTEM_STATE_CHANGE (system_state : Z) (runlevel : option chars)
| INITIAL_STATE_FINISHED
| SERVICE_OUTPUT (service process output : option chars)
| PROCESS_KILLED (service : option chars) (is_ : Z) (state_name process : option chars) (exit_status term_sig : Z).

(** The numbers of e_state_type. *)
Definition state_type (e : nge_event) : Z :=
  match e with
  | PING => 0
  | SERVICE_STATE_CHANGE _ _ _ _ _ _ _ => 1
  | SYSTEM_STATE_CHANGE _ _ => 2
  | ERR_MSG _ _ _ _ _ => 3
  | CONNECT _ _ => 4
  | DISCONNECT => 5
  | INITIAL_SERVICE_STATE_CHANGE _ _ _ _ _ _ _ => 6
  | INITIAL_SYSTEM_STATE_CHANGE _ _ => 7
  | INITIAL_STATE_FINISHED => 8
  | SERVICE_OUTPUT _ _ _ => 9
  | PROCESS_KILLED _ _ _ _ _ _ => 10
  end.

(** What calloc gives. *)
Definition zero_event : nge_event := PING.

Definition ngeclient_handle_service_state_change (tag : chars) : E nge_event :=
  let! service := ngeclient_get_option tag "service" in
  let! is_ := ngeclient_get_int tag "is" in
  let! state_name := ngeclient_get_option tag "state" in
  let! percent_started := ngeclient_get_int tag "percent_started" in
  let! percent_stopped := ngeclient_get_int tag "percent_stopped" in
  let! service_type := ngeclient_get_option tag "service_type" in
  let! hidden := ngeclient_get_int tag "hidden" in
  mpure (SERVICE_STATE_CHANGE service is_ state_name percent_started percent_stopped service_type hidden).

Definition ngeclient_handle_system_state_change (tag : chars) : E nge_event :=
  let! system_state := ngeclient_get_int tag "system_state" in
  let! runlevel := ngeclient_get_option tag "runlevel" in
  mpure (SYSTEM_STATE_CHANGE system_state runlevel).

Definition ngeclient_handle_initial_service_state (tag : chars) : E nge_event :=
  let! service := ngeclient_get_option tag "service" in
  let! is_ := ngeclient_get_int tag "is" in
  let! state_name := ngeclient_get_option tag "state" in
  let! service_type := ngeclient_get_option tag "service_type" in
  let! hidden := ngeclient_get_int tag "hidden" in
  mpure (INITIAL_SERVICE_STATE_CHANGE service is_ state_name 0 0 service_type hidden).

Definition ngeclient_handle_process_killed (tag : chars) : E nge_event :=
  let! service := ngeclient_get_option tag "service" in
  let! is_ := ngeclient_get_int tag "is" in
  let! state_name := ngeclient_get_option tag "state" in
  let! process := ngeclient_get_option tag "process" in
  let! exit_status := ngeclient_get_int tag "exit_status" in
  let! term_sig := ngeclient_get_int tag "term_sig" in
  mpure (PROCESS_KILLED service is_ state_name process exit_status term_sig).

Definition ngeclient_handle_initial_system_state (tag : chars) : E nge_event :=
  let! system_state := ngeclient_get_int tag "system_state" in
  let! runlevel := ngeclient_get_option tag "runlevel" in
  mpure (INITIAL_SYSTEM_STATE_CHANGE system_state runlevel).

Definition ngeclient_handle_initial_state_finished (tag : chars) : E nge_event := mpure INITIAL_STATE_FINISHED.

Definition ngeclient_handle_service_output (tag : chars) : E nge_event :=
  let! service := ngeclient_get_option tag "service" in
  let! process := ngeclient_get_option tag "process" in
  let! output := ngeclient_get_content tag in
  mpure (SERVICE_OUTPUT service process output).

Definition ngeclient_handle_err_msg (tag : chars) : E nge_event :=
  let! mt := ngeclient_get_int tag "mt" in
  let! file := ngeclient_get_option tag "file" in
  let! func := ngeclient_get_option tag "func" in
  let! line := ngeclient_get_int tag "line" in
  let! message := ngeclient_get_content tag in
  mpure (ERR_MSG mt file func line message).

Definition ngeclient_handle_ping (tag : chars) : E nge_event := mpure PING.

(** strcmp reads the type, also when there is none. *)
Definition ngeclient_handle_event (tag : chars) : E nge_event :=
  let! type := ngeclient_get_option tag "type" in
  match type with
  | None => fault
  | Some type =>
    let is_type name := bool_decide (type = chars_of name) in
    if is_type "service_state_change"%string then ngeclient_handle_service_state_change tag
    else if is_type "system_state_change"%string then ngeclient_handle_system_state_change tag
    else if is_type "service_output"%string then ngeclient_handle_service_output tag
    else if is_type "process_killed"%string then ngeclient_handle_process_killed tag
    else if is_type "err_msg"%string then ngeclient_handle_err_msg tag
    else if is_type "initial_service_state"%string then ngeclient_handle_initial_service_state tag
    else if is_type "initial_system_state"%string then ngeclient_handle_initial_system_state tag
    else if is_type "initial_state_finished"%string then ngeclient_handle_initial_state_finished tag
    else if is_type "ping"%string then ngeclient_handle_ping tag
    else mpure zero_event
  end.

Definition ngeclient_handle_connect (tag : chars) : E nge_event :=
  let! initng_version := ngeclient_get_option tag "initng_version" in
  let! pver := ngeclient_get_int tag "protocol_version" in
  (if negb (pver =? NGE_VERSION) then
     set_error ("NGE protocol version missmatch!" +:+ String c_nl " LOCAL:" +:+ pretty NGE_VERSION +:+ String c_nl " REMOTE: " +:+ pretty pver)
   else mpure tt) ;;;
  mpure (CONNECT pver initng_version).

Definition ngeclient_handle_disconnect (tag : chars) : E nge_event := mpure DISCONNECT.

(** strncmp of disconnect> over 12 chars goes up to the NUL of both. *)
Definition ngeclient_handle_tag (tag : chars) : E nge_event :=
  if bool_decide (tag !! 1%nat = Some c_question) then mpure zero_event
  else if is_prefix (chars_of "event ") (drop 1 tag) then ngeclient_handle_event tag
  else if is_prefix (chars_of "connect ") (drop 1 tag) then ngeclient_handle_connect tag
  else if bool_decide (drop 1 tag = chars_of "disconnect>") then ngeclient_handle_disconnect tag
  else set_error "Unknown tag to handle." ;;; mpure zero_event.

(** The length of the tag at the start of the buffer: up to /> or to the > behind
    </, or up to a NUL when there is no such >. *)
Definition is_end (c : ascii) : bool := Ascii.eqb c c_nul.
Fixpoint tag_len (b : chars) : option nat :=
  match b with
  | [] => None
  | c :: r =>
    if is_end c then None
    else match r with
         | d :: r' =>
           if Ascii.eqb c c_slash && Ascii.eqb d c_gt then Some 2%nat
           else if Ascii.eqb c c_lt && Ascii.eqb d c_slash then
             let k := strcspn r' [c_nul; c_gt] in
             Some (2 + k + (if bool_decide (r' !! k = Some c_gt) then 1 else 0))%nat
           else S <$> tag_len r
         | [] => S <$> tag_len r
         end
  end.

(** The buffer without its leading newlines. *)
Definition is_nl (c : ascii) : bool := Ascii.eqb c c_nl.
Definition skip_newlines : E unit :=
  let! b := asks read_buffer in
  match b with
  | None => fault
  | Some b => put_buffer (drop_while is_nl b)
  end.

Definition ends (b : chars) : bool := match b with [] => true | c :: _ => is_end c end.

(** The loop over the tags; [again] runs the whole function once more. *)
Fixpoint tag_loop (n : nat) (again : E (option nge_event)) : E (option nge_event) :=
  match n with
  | O => nofuel
  | S n =>
    let! c := asks id in
    match read_buffer c with
    | None => mpure None
    | Some b =>
      if ends b || (read_buffer_len c <? 1) then mpure None
      else
        skip_newlines ;;;
        let! b := deref read_buffer in
        if ends b then modify (fun c => c <| read_buffer := None |>) ;;; again
        else if negb (bool_decide (head b = Some c_lt)) then
          set_error "Expected an < char, as the first char in an xml protocol." ;;; mpure None
        else match tag_len b with
             | None => set_error "Onlt got a segment of a tag." ;;; mpure None
             | Some chars =>
               ngeclient_cut_buffert chars ;;;
               let! event := ngeclient_handle_tag (take chars b) in
               if negb (state_type event =? 0) then mpure (Some event) else tag_loop n again
             end
    end
  end.

Definition nothing_read (c : nge_connection) : bool :=
  match read_buffer c with None => true | Some _ => read_buffer_len c <? 1 end.

Fixpoint get_next_event (fuel : nat) : E (option nge_event) :=
  match fuel with
  | O => nofuel
  | S fuel =>
    ngeclient_poll_for_input ;;;
    let! nothing := asks nothing_read in
    (if (nothing : bool) then ngeclient_poll_for_input ;;; mpure tt else mpure tt) ;;;
    let! c := asks id in
    if nothing_read c then mpure None
    else tag_loop (S (Z.to_nat (read_buffer_len c))) (get_next_event fuel)
  end.

(** The strings that are freed with an event. *)
Definition ngeclient_event_free (e : nge_event) : list (option chars) :=
  match e with
  | PING | DISCONNECT | INITIAL_STATE_FINISHED => []
  | SYSTEM_STATE_CHANGE _ runlevel | INITIAL_SYSTEM_STATE_CHANGE _ runlevel => [runlevel]
  | SERVICE_STATE_CHANGE service _ state_name _ _ service_type _
  | INITIAL_SERVICE_STATE_CHANGE service _ state_name _ _ service_type _ => [service; state_name; service_type]
  | ERR_MSG _ file func _ message => [file; func; message]
  | CONNECT _ initng_version => [initng_version]
  | SERVICE_OUTPUT service process output => [service; process; output]
  | PROCESS_KILLED service _ state_name process _ _ => [service; state_name; process]
  end.

(** ** nge.c *)

(** printf of a string that may be NULL, in quotes. *)
Definition shown (s : option chars) : string := to_string (default (chars_of "(null)") s).
Definition quoted (s : option chars) : string := String c_quote (shown s) +:+ String c_quote "".
Definition quoted_int (n : Z) : string := String c_quote (pretty n) +:+ String c_quote "".
Definition with_nl (s : string) : string := s +:+ String c_nl "".

Definition service_change (service : option chars) (is_ : Z) (state : option chars) (pstart pstop : Z) (service_type : option chars)
    (hidden : Z) : string :=
  with_nl ((if hidden =? 0 then "" else "<HIDDEN> ") +:+ "Service " +:+ quoted service_type +:+ "::" +:+ quoted service +:+
    " have state " +:+ quoted state +:+ " (" +:+ pretty is_ +:+ ")  " +:+ pretty pstart +:+ ":" +:+ pretty pstop).

Definition sys_state_text (state : Z) (runlevel : option chars) : string :=
  with_nl ("Initng [" +:+ shown runlevel +:+ "] got a new system state no: " +:+ pretty state).

(** What handle_event prints. *)
Definition nge_handle_event (e : nge_event) : string :=
  match e with
  | PING => "Got an ping from initng."
  | SERVICE_STATE_CHANGE service is_ state pstart pstop type hidden
  | INITIAL_SERVICE_STATE_CHANGE service is_ state pstart pstop type hidden => service_change service is_ state pstart pstop type hidden
  | SYSTEM_STATE_CHANGE state runlevel | INITIAL_SYSTEM_STATE_CHANGE state runlevel => sys_state_text state runlevel
  | ERR_MSG mt file func line message =>
    with_nl ("Message mt: " +:+ pretty mt +:+ ", file: " +:+ shown file +:+ ", func: " +:+ shown func +:+ ", line " +:+ pretty line +:+ "." +:+
      String c_nl (shown message))
  | CONNECT _ version => with_nl ("Connected to initng " +:+ shown version)
  | DISCONNECT => with_nl "Dissonnected from initng."
  | INITIAL_STATE_FINISHED => "Initial initng state finished."
  | SERVICE_OUTPUT service process output =>
    with_nl ("Service " +:+ quoted service +:+ " process " +:+ quoted process +:+ " outputed:" +:+ String c_nl (shown output))
  | PROCESS_KILLED service is_ state process exit_status term_sig =>
    with_nl ("Service " +:+ quoted service +:+ " state " +:+ quoted state +:+ " (" +:+ pretty is_ +:+ ") process " +:+ quoted process +:+
      " killed: exit_status " +:+ quoted_int exit_status +:+ " term_sig " +:+ quoted_int term_sig)
  end%string.

(** The loop of main: it ends at the first call that gives no event. *)
Fixpoint nge_loop (n fuel : nat) (out : string) : E string :=
  match n with
  | O => nofuel
  | S n =>
    let! e := get_next_event fuel in
    match e with
    | Some e => nge_loop n fuel (out +:+ nge_handle_event e)
    | None => mpure out
    end
  end.

(** The socket that a client named by [argv0] opens. *)
Definition client_socket (argv0 ctldir : string) : string :=
  match CString.strstr (chars_of argv0) (chars_of "ngde") with Some _ => ctldir +:+ "/nge-test" | None => ctldir +:+ "/nge" end.

(** What is printed, and the exit code. *)
Definition nge_main `{!NgeNet} (argv0 ctldir : string) (n fuel : nat) : outcome (string * Z) :=
  match ngeclient_connect (client_socket argv0 ctldir) None with
  | Done (Some c, _) =>
    match nge_loop n fuel "" c with
    | Done (out, c) => Done (out, match ngeclient_error c with Some _ => 1 | None => 0 end)
    | NoFuel => NoFuel
    | Fault => Fault
    end
  | Done (None, _) => Done (""%string, 1)
  | NoFuel => NoFuel
  | Fault => Fault
  end.

(** ** nge_raw.c *)

(** got is whether the call returned no error; the length of the buffer that is
    freed stays. *)
Fixpoint raw_loop (n : nat) (out : chars) : E chars :=
  match n with
  | O => nofuel
  | S n =>
    let! ret := ngeclient_poll_for_input in
    if ret <? 0 then mpure out
    else
      let! c := asks id in
      let shown := match read_buffer c with Some b => CString.c_string (b ++ [c_nul]) | None => [] end in
      modify (fun c => c <| read_buffer := None |> <| ngeclient_error := None |>) ;;;
      raw_loop n (out ++ shown)
  end.

Definition nge_raw_main `{!NgeNet} (argv0 ctldir : string) (n : nat) : outcome (chars * Z) :=
  match ngeclient_connect (client_socket argv0 ctldir) None with
  | Done (Some c, _) =>
    match raw_loop n [] c with
    | Done (out, _) => Done (out, 0)
    | NoFuel => NoFuel
    | Fault => Fault
    end
  | Done (None, _) => Done ([], 1)
  | NoFuel => NoFuel
  | Fault => Fault
  end.
