(* ===== verification/NgeText.v ===== *)
(** * The texts of the event protocol

    What libngeclient.c reads out of the tags that initng_nge.c prints: where a tag
    ends, the value of an option, the content. *)
From S2P Require Import Prelude Types Data CString Global DaemonMod NgeMod NgeClient.
From Stdlib Require Import String Ascii.
From stdpp Require Import prelude gmap strings pretty.
Local Open Scope Z_scope.

(** ** Options *)

(** What the search for an option shall find: the value behind the first place
    where the name is followed by an equal sign and a quote. *)
Definition assigns (name s : chars) : bool := is_prefix (name ++ [c_eq; c_quote]) s.
Fixpoint find_value (name s : chars) : option chars :=
  match s with
  | [] => None
  | _ :: r =>
    if assigns name s then
      let v := drop (length name + 2) s in Some (take (strcspn v [c_quote]) v)
    else find_value name r
  end.

(** No end of the name is its beginning too, and it has none of the chars that
    separate options. *)
Definition separators : chars := [c_eq; c_quote; c_space].
Definition good_name (name : chars) : bool :=
  negb (bool_decide (name = [])) && forallb (fun c => negb (mem_char c separators)) name &&
  forallb (fun k => negb (is_prefix (drop k name) name)) (seq 1 (length name - 1)).

Lemma mem_char_spec c l : mem_char c l = true <-> c ∈ l.
Proof.
  unfold mem_char. rewrite List.existsb_exists. split.
  - intros (x & Hx & E%Ascii.eqb_eq). subst. by apply list_elem_of_In.
  - intros H. exists c. split; [by apply list_elem_of_In|by apply Ascii.eqb_refl].
Qed.

Lemma good_name_spec name :
  good_name name = true ->
  name <> [] /\ (forall c, c ∈ separators -> c ∉ name) /\
  (forall k, (0 < k < length name)%nat -> is_prefix (drop k name) name = false).
Proof.
  unfold good_name. intros [[H1 H2]%andb_prop H3]%andb_prop. split; [by case_bool_decide|]. split.
  - intros c Hc Hn. rewrite forallb_forall in H2. specialize (H2 c (proj1 (list_elem_of_In _ _) Hn)).
    by rewrite (proj2 (mem_char_spec c separators) Hc) in H2.
  - intros k Hk. rewrite forallb_forall in H3. apply negb_true_iff, H3, in_seq. lia.
Qed.

Lemma is_prefix_spec n s : is_prefix n s = true <-> exists r, s = n ++ r.
Proof.
  revert s. induction n as [|x n IH]; intros s; cbn [is_prefix].
  - split; [by exists s|done].
  - destruct s as [|y s]; [split; [done|by intros [r ?]]|]. split.
    + intros [->%Ascii.eqb_eq [r ->]%IH]%andb_prop. by exists r.
    + intros [r [= -> ->]]. rewrite Ascii.eqb_refl. apply IH. by exists r.
Qed.

Lemma is_prefix_app n m s : is_prefix (n ++ m) s = true <-> exists r, s = n ++ r /\ is_prefix m r = true.
Proof.
  rewrite is_prefix_spec. split.
  - intros [r ->]. exists (m ++ r). split; [by rewrite app_assoc|]. apply is_prefix_spec. by exists r.
  - intros (r & -> & [q ->]%is_prefix_spec). exists q. by rewrite app_assoc.
Qed.

Lemma assigns_prefix name s : assigns name s = true -> is_prefix name s = true.
Proof. intros (r & -> & _)%is_prefix_app. apply is_prefix_spec. by exists r. Qed.

Lemma find_value_skip name p r :
  (forall i, (i < length p)%nat -> assigns name (drop i p ++ r) = false) -> find_value name (p ++ r) = find_value name r.
Proof.
  induction p as [|c p IH]; intros H; [done|]. cbn [app find_value]. change (c :: p ++ r) with (drop 0 (c :: p) ++ r).
  rewrite (H 0%nat) by (cbn; lia). apply IH. intros i Hi. apply (H (S i)). cbn. lia.
Qed.

Lemma strstr_None s n : strstr s n = None -> forall i, is_prefix n (drop i s) = false.
Proof.
  induction s as [|c s IH]; cbn [strstr]; destruct (is_prefix n _) eqn:E; try done; intros H i.
  - by rewrite drop_nil.
  - destruct i as [|i]; [done|]. apply IH. by destruct (strstr s n).
Qed.

Lemma strstr_Some s n i :
  strstr s n = Some i -> exists r, drop i s = n ++ r /\ (i <= length s)%nat /\ (forall j, (j < i)%nat -> is_prefix n (drop j s) = false).
Proof.
  revert i. induction s as [|c s IH]; intros i; cbn [strstr]; destruct (is_prefix n _) eqn:E; try done; intros H.
  - injection H as <-. apply is_prefix_spec in E as [r E]. exists r. split; [done|]. split; [cbn; lia|lia].
  - injection H as <-. apply is_prefix_spec in E as [r E]. exists r. split; [done|]. split; [cbn; lia|lia].
  - destruct (strstr s n) as [k|]; [|done]. injection H as <-. destruct (IH k eq_refl) as (r & H1 & H2 & H3).
    exists r. split; [done|]. split; [cbn; lia|]. intros [|j] Hj; [done|]. apply H3. lia.
Qed.

(** An occurrence of the name that is none of an option is passed. *)
Lemma find_value_pass name r :
  good_name name = true -> is_prefix [c_eq; c_quote] r = false -> find_value name (name ++ r) = find_value name r.
Proof.
  intros (Hne & _ & Hb)%good_name_spec Hr. apply find_value_skip. intros i Hi. apply not_true_iff_false. intros H.
  destruct i as [|i].
  - apply is_prefix_app in H as (q & E & H). apply app_inv_head in E. subst q. by rewrite H in Hr.
  - apply assigns_prefix, is_prefix_spec in H as [q E].
    specialize (Hb (S i) ltac:(lia)). apply not_true_iff_false in Hb. apply Hb, is_prefix_spec.
    set (d := drop (S i) name) in *. assert (Hd : (length d <= length name)%nat) by (unfold d; rewrite length_drop; lia).
    exists (drop (length d) name). apply (f_equal (take (length d))) in E. rewrite take_app_length, take_app_le in E by done.
    rewrite <- (take_drop (length d) name) at 1. by rewrite <- E.
Qed.

Lemma find_value_char name c r :
  name <> [] -> c ∉ name -> find_value name (c :: r) = find_value name r.
Proof.
  intros Hne Hc. cbn [find_value]. destruct (assigns name (c :: r)) eqn:H; [|done].
  apply assigns_prefix, is_prefix_spec in H as [q E]. destruct name as [|x name]; [done|]. injection E as -> _. set_solver.
Qed.

(** The loop finds it. *)
Lemma option_loop_spec n name s :
  good_name name = true -> (length s < n)%nat -> option_loop n name s = Done (find_value name s).
Proof.
  intros Hg. pose proof (good_name_spec _ Hg) as (Hne & Hsep & _).
  assert (Heq : c_eq ∉ name) by (apply Hsep; by left).
  assert (Hlen : (0 < length name)%nat) by (destruct name; [done|cbn; lia]).
  revert s. induction n as [|n IH]; intros s Hn; [lia|]. cbn [option_loop].
  destruct (strstr s name) as [i|] eqn:E.
  - destruct (strstr_Some _ _ _ E) as (r & Hr & Hi & Hbefore). rewrite <- drop_drop, Hr, drop_app_length.
    assert (Hl : (length r + length name <= length s)%nat).
    { assert (length (drop i s) = length (name ++ r)) as H by (by rewrite Hr). rewrite length_drop, length_app in H. lia. }
    assert (Hs : find_value name s = find_value name (name ++ r)).
    { rewrite <- (take_drop i s) at 1. rewrite Hr. apply find_value_skip. intros j Hj. rewrite length_take in Hj.
      apply not_true_iff_false. intros H%assigns_prefix. specialize (Hbefore j ltac:(lia)). rewrite <- Hr in H.
      rewrite <- (take_drop i s) in Hbefore. rewrite drop_app_le in Hbefore by (rewrite length_take; lia).
      congruence. }
    rewrite Hs. destruct r as [|e r]; [|destruct (Ascii.eqb_spec e c_eq) as [->|He]; cbn [negb]; [destruct r as [|q r]|]].
    + rewrite IH by (cbn in *; lia). by rewrite find_value_pass.
    + rewrite IH by (cbn in *; lia). rewrite find_value_pass by done. by rewrite find_value_char.
    + destruct (Ascii.eqb_spec q c_quote) as [->|Hq]; cbn [negb].
      * destruct name as [|x name]; [done|]. cbn [app find_value].
        assert (H : assigns (x :: name) (x :: name ++ c_eq :: c_quote :: r) = true).
        { apply is_prefix_spec. exists r. cbn. by rewrite <- app_assoc. }
        rewrite H. change (x :: name ++ c_eq :: c_quote :: r) with ((x :: name) ++ c_eq :: c_quote :: r).
        by rewrite <- drop_drop, drop_app_length.
      * rewrite IH by (cbn in *; lia). rewrite find_value_pass; [by rewrite (find_value_char name c_eq)|done|].
        cbn [is_prefix]. destruct (Ascii.eqb_spec c_quote q); [congruence|]. done.
    + rewrite IH by (cbn in *; lia). rewrite find_value_pass; [done|done|]. cbn [is_prefix].
      destruct (Ascii.eqb_spec c_eq e); [congruence|done].
  - f_equal. symmetry. rewrite <- (app_nil_r s). rewrite find_value_skip; [done|]. intros i _. rewrite app_nil_r.
    apply not_true_iff_false. intros H%assigns_prefix. pose proof (strstr_None _ _ E i). congruence.
Qed.

(** *** Options in the tags that are printed *)

(** The name is an end of the key. *)
Fixpoint ends_key (name key : chars) : bool :=
  match key with
  | [] => false
  | _ :: r => bool_decide (name = key) || ends_key name r
  end.

Lemma assigns_block name b d r : d ∉ name -> d <> c_eq -> c_eq ∉ b -> assigns name (b ++ d :: r) = false.
Proof.
  unfold assigns. revert b. induction name as [|x name IH]; intros b Hd Hde Hb; (destruct b as [|y b]; cbn [app is_prefix]).
  - destruct (Ascii.eqb_spec c_eq d); [congruence|done].
  - destruct (Ascii.eqb_spec c_eq y); [subst; set_solver|done].
  - destruct (Ascii.eqb_spec x d); [subst; set_solver|done].
  - destruct (Ascii.eqb_spec x y); [|done]. cbn [andb]. apply IH; [set_solver|done|set_solver].
Qed.

Lemma in_drop {A} (x : A) i l : x ∈ drop i l -> x ∈ l.
Proof. intros H. rewrite <- (take_drop i l). apply elem_of_app. by right. Qed.

(** A text without an equal sign, up to a separator. *)
Lemma find_value_block name b d r :
  name <> [] -> d ∉ name -> d <> c_eq -> c_eq ∉ b -> find_value name (b ++ d :: r) = find_value name r.
Proof.
  intros Hne Hd Hde Hb. rewrite find_value_skip; [by apply find_value_char|].
  intros i Hi. apply assigns_block; [done|done|]. intros H. apply Hb. by eapply in_drop.
Qed.

Lemma assigns_key name key r :
  c_eq ∉ name -> c_eq ∉ key -> assigns name (key ++ c_eq :: r) = true -> name = key.
Proof.
  unfold assigns. revert key. induction name as [|x name IH]; intros [|y key] Hn Hk; cbn [app is_prefix]; try done.
  - destruct (Ascii.eqb_spec c_eq y); [subst; set_solver|done].
  - destruct (Ascii.eqb_spec x c_eq); [subst; set_solver|done].
  - destruct (Ascii.eqb_spec x y) as [->|]; [|done]. cbn [andb]. intros H. f_equal. apply (IH key); [set_solver|set_solver|done].
Qed.

Lemma find_value_key name key r :
  good_name name = true -> c_eq ∉ key -> ends_key name key = false ->
  find_value name (key ++ c_eq :: c_quote :: r) = find_value name r.
Proof.
  intros (Hne & Hsep & _)%good_name_spec Hk He.
  assert (Heq : c_eq ∉ name) by (apply Hsep; by left). assert (Hq : c_quote ∉ name) by (apply Hsep; right; by left).
  rewrite find_value_skip; [by rewrite !find_value_char|]. intros i Hi. apply not_true_iff_false. intros H.
  apply assigns_key in H; [|done|intros H1; apply Hk; by eapply in_drop].
  clear Hk. revert i Hi H. induction key as [|c key IH]; intros i Hi H; [cbn in Hi; lia|]. cbn [ends_key] in He.
  apply orb_false_iff in He as [E1 E2]. destruct i as [|i]; [by case_bool_decide|]. apply (IH E2 i); [cbn in Hi; lia|done].
Qed.

Lemma strcspn_app v d r set : Forall (fun c => c ∉ set) v -> d ∈ set -> strcspn (v ++ d :: r) set = length v.
Proof.
  intros Hv Hd. induction Hv as [|c v Hc _ IH]; cbn [app strcspn length].
  - by rewrite (proj2 (mem_char_spec d set) Hd).
  - destruct (mem_char c set) eqn:E; [by apply mem_char_spec in E|]. by rewrite IH.
Qed.

Lemma not_in_all {A} (x : A) l : x ∉ l -> Forall (fun c => c ∉ [x]) l.
Proof. intros H. apply Forall_forall. intros c Hc Hx%list_elem_of_singleton. by subst. Qed.

Lemma find_value_hit name v r :
  good_name name = true -> c_quote ∉ v -> find_value name (name ++ c_eq :: c_quote :: v ++ c_quote :: r) = Some v.
Proof.
  intros (Hne & _ & _)%good_name_spec Hv. destruct name as [|x name]; [done|]. cbn [app find_value].
  assert (H : assigns (x :: name) (x :: name ++ c_eq :: c_quote :: v ++ c_quote :: r) = true).
  { apply is_prefix_spec. exists (v ++ c_quote :: r). cbn. by rewrite <- app_assoc. }
  rewrite H. change (x :: name ++ c_eq :: c_quote :: v ++ c_quote :: r) with ((x :: name) ++ c_eq :: c_quote :: v ++ c_quote :: r).
  rewrite <- drop_drop, drop_app_length. change (drop 2 (c_eq :: c_quote :: v ++ c_quote :: r)) with (v ++ c_quote :: r).
  cbv zeta. rewrite strcspn_app; [by rewrite take_app_length|by apply not_in_all|by left].
Qed.

(** What is between a < and the content: no char of the markup. *)
Definition markup : chars := [c_eq; c_quote; c_lt; c_gt; c_nul].
Definition plain (v : chars) : bool := forallb (fun c => negb (mem_char c markup)) v.

Lemma plain_spec v : plain v = true -> forall c, c ∈ markup -> c ∉ v.
Proof.
  unfold plain. rewrite forallb_forall. intros H c Hc Hv. specialize (H c (proj1 (list_elem_of_In _ _) Hv)).
  by rewrite (proj2 (mem_char_spec c markup) Hc) in H.
Qed.

Lemma attr_unfold k v r : attr k v ++ r = c_space :: chars_of k ++ c_eq :: c_quote :: v ++ c_quote :: r.
Proof. unfold attr. cbn [app]. f_equal. rewrite <- !app_assoc. cbn. by rewrite <- !app_assoc. Qed.

Lemma attrs_cons k v l r : attrs ((k, v) :: l) ++ r = attr k v ++ attrs l ++ r.
Proof. unfold attrs. cbn. by rewrite app_assoc. Qed.

(** The key of an option that is not looked for, and that which is. *)
Lemma find_value_miss name b k v r :
  good_name name = true -> c_eq ∉ b -> c_eq ∉ chars_of k -> ends_key name (chars_of k) = false ->
  find_value name (b ++ attr k v ++ r) = find_value name ((v ++ [c_quote]) ++ r).
Proof.
  intros Hg Hb Hk He. pose proof (good_name_spec _ Hg) as (Hne & Hsep & _). rewrite attr_unfold.
  rewrite find_value_block; [|done|apply Hsep; do 2 right; by left|done|done].
  rewrite find_value_key by done. by rewrite <- app_assoc.
Qed.

Lemma find_value_attr name b v r :
  good_name (chars_of name) = true -> c_eq ∉ b -> c_quote ∉ v ->
  find_value (chars_of name) (b ++ attr name v ++ r) = Some v.
Proof.
  intros Hg Hb Hv. pose proof (good_name_spec _ Hg) as (Hne & Hsep & _). rewrite attr_unfold.
  rewrite find_value_block; [|done|apply Hsep; do 2 right; by left|done|done]. by apply find_value_hit.
Qed.

(** The first option with that name, when no key before it ends in the name. *)
Fixpoint lookup_attr (name : string) (l : list (string * chars)) : option chars :=
  match l with
  | [] => None
  | (k, v) :: l =>
    if bool_decide (name = k) then Some v
    else if ends_key (chars_of name) (chars_of k) || mem_char c_eq (chars_of k) then None else lookup_attr name l
  end.
Definition plain_values (l : list (string * chars)) : Prop := Forall (fun a => plain (snd a) = true) l.

Lemma find_value_attrs name b l r v :
  good_name (chars_of name) = true -> c_eq ∉ b -> plain_values l -> lookup_attr name l = Some v ->
  find_value (chars_of name) (b ++ attrs l ++ r) = Some v.
Proof.
  intros Hg Hb Hl. revert b Hb. induction Hl as [|[k w] l Hw Hl IH]; intros b Hb H; [done|]. cbn [lookup_attr] in H.
  rewrite attrs_cons. case_bool_decide as Hk.
  - subst k. injection H as ->. apply find_value_attr; [done|done|]. apply (plain_spec v Hw). right. by left.
  - destruct (ends_key _ _) eqn:He; [done|]. destruct (mem_char c_eq _) eqn:Hm; [done|]. cbn [orb] in H.
    rewrite find_value_miss; [|done|done| |done].
    + apply IH; [|done]. intros [Hin|Hin%list_elem_of_singleton]%elem_of_app; [|done].
      revert Hin. apply (plain_spec w Hw). by left.
    + intros Hin%mem_char_spec. congruence.
Qed.

Lemma get_option_value tag name v c :
  good_name (chars_of name) = true -> find_value (chars_of name) tag = Some v ->
  ngeclient_get_option tag name c = Done (Some v, c).
Proof.
  intros Hg Hv. unfold ngeclient_get_option, lift_e, mthen. rewrite option_loop_spec by (done || lia). by rewrite Hv.
Qed.

Lemma get_int_value tag name v c :
  good_name (chars_of name) = true -> find_value (chars_of name) tag = Some v ->
  ngeclient_get_int tag name c = Done (atoi v, c).
Proof.
  intros Hg Hv. unfold ngeclient_get_int. by rewrite (mthen_run _ _ _ _ _ (get_option_value _ _ _ _ Hg Hv)).
Qed.

(** A number that was printed is read back. *)
Lemma take_while_all f s : Forall (fun c => f c = true) s -> take_while f s = s.
Proof. induction 1 as [|c s Hc _ IH]; cbn; [done|]. by rewrite Hc, IH. Qed.

Lemma digit_facts c : isdigit c = true -> isspace c = false /\ c <> "-"%char /\ c <> "+"%char /\ c ∉ markup.
Proof. destruct c as [[] [] [] [] [] [] [] []]; intros H; try discriminate H; repeat split; (done || set_solver). Qed.

Lemma atoi_dec n : 0 <= n < 2 ^ 31 -> atoi (dec n) = n.
Proof.
  intros Hn. destruct (dec_digits n) as (Hd & Hv & Hne); [lia|]. destruct (dec n) as [|c s]; [done|].
  pose proof (Forall_inv Hd) as Hc. destruct (digit_facts c Hc) as (Hsp & Hm & Hp & _). unfold atoi, strtol. cbn [drop_while]. rewrite Hsp.
  assert (E : strtol (c :: s) = clamp_long (digits_value (take_while isdigit (c :: s)))).
  { unfold strtol. cbn [drop_while]. rewrite Hsp. destruct c as [[] [] [] [] [] [] [] []]; done. }
  unfold strtol in E. cbn [drop_while] in E. rewrite Hsp in E. rewrite E, take_while_all, Hv by done.
  unfold clamp_long, to_int. rewrite Z.min_l, Z.max_r by lia. rewrite Z.mod_small by lia. lia.
Qed.

Lemma plain_dec n : 0 <= n -> plain (dec n) = true.
Proof.
  intros Hn. destruct (dec_digits n Hn) as (Hd & _). apply forallb_forall. intros c Hc%list_elem_of_In.
  apply negb_true_iff, not_true_iff_false. intros H%mem_char_spec. unfold all_digits in Hd. rewrite Forall_forall in Hd.
  by destruct (digit_facts c (Hd c Hc)) as (_ & _ & _ & Hm).
Qed.

(** ** Where a tag ends *)

(** Nothing in the text ends a tag. *)
Fixpoint calm (b : chars) : bool :=
  match b with
  | [] => true
  | c :: r =>
    negb (is_end c) && negb (Ascii.eqb c c_slash && bool_decide (head r = Some c_gt)) &&
    negb (Ascii.eqb c c_lt && bool_decide (head r = Some c_slash)) && calm r
  end.

Lemma head_is x l d : bool_decide (head (x :: l) = Some d) = Ascii.eqb x d.
Proof. cbn [head]. destruct (Ascii.eqb_spec x d); [subst; by apply bool_decide_eq_true_2|apply bool_decide_eq_false_2; congruence]. Qed.

Lemma tag_len_calm b d r : calm (b ++ [d]) = true -> tag_len (b ++ d :: r) = Nat.add (length b) <$> tag_len (d :: r).
Proof.
  induction b as [|c b IH]; intros H; [change ([] ++ d :: r) with (d :: r); generalize (tag_len (d :: r)); by intros []|]. cbn [app calm] in H.
  apply andb_prop in H as [[[H1 H2]%andb_prop H3]%andb_prop H4]. apply negb_true_iff in H1, H2, H3.
  specialize (IH H4).
  assert (Hstep : tag_len (c :: b ++ d :: r) = S <$> tag_len (b ++ d :: r)).
  { cbn [tag_len]. rewrite H1. by destruct b as [|x b]; cbn [app] in *; rewrite head_is in H2, H3; rewrite H2, H3. }
  cbn [app]. rewrite Hstep, IH. generalize (tag_len (d :: r)). by intros [].
Qed.

Lemma tag_len_segment b : calm b = true -> tag_len b = None.
Proof.
  induction b as [|c b IH]; [done|]. cbn [calm]. intros [[[H1 H2]%andb_prop H3]%andb_prop H4]%andb_prop.
  apply negb_true_iff in H1, H2, H3. cbn [tag_len]. rewrite H1, (IH H4). destruct b as [|x b]; [done|]. rewrite head_is in H2, H3. by rewrite H2, H3.
Qed.

Lemma calm_prefix a b : calm (a ++ b) = true -> calm a = true.
Proof.
  induction a as [|c a IH]; [done|]. cbn [app calm]. intros [[[H1 H2]%andb_prop H3]%andb_prop H4]%andb_prop.
  rewrite H1, (IH H4). destruct a as [|x a]; cbn [app head] in *; [by rewrite !andb_false_r|]. by rewrite H2, H3.
Qed.

(** Text without < and > in front of a text that does not start with >. *)
Lemma calm_app v r :
  Forall (fun c => c ∉ [c_lt; c_gt; c_nul]) v -> head r <> Some c_gt -> calm (v ++ r) = calm r.
Proof.
  intros Hv Hr. induction Hv as [|c v Hc Hv IH]; [done|]. cbn [app calm]. rewrite IH.
  assert (H1 : is_end c = false) by (unfold is_end; destruct (Ascii.eqb_spec c c_nul); [subst; set_solver|done]).
  assert (H2 : Ascii.eqb c c_lt = false) by (destruct (Ascii.eqb_spec c c_lt); [subst; set_solver|done]). rewrite H1, H2.
  destruct v as [|d v]; cbn [app head].
  - case_bool_decide; [done|]. by rewrite andb_false_r.
  - case_bool_decide as Hd; [|by rewrite andb_false_r]. injection Hd as ->. apply Forall_inv in Hv. set_solver.
Qed.

Lemma plain_unmarked v : plain v = true -> Forall (fun c => c ∉ [c_lt; c_gt; c_nul]) v.
Proof.
  intros Hv. apply Forall_forall. intros c Hc Hin. revert Hc. apply (plain_spec v Hv). unfold markup. set_solver.
Qed.

Lemma attr_unmarked k v :
  Forall (fun c => c ∉ [c_lt; c_gt; c_nul]) (chars_of k) -> plain v = true -> Forall (fun c => c ∉ [c_lt; c_gt; c_nul]) (attr k v).
Proof.
  intros Hk Hv. unfold attr. constructor; [set_solver|]. repeat apply Forall_app_2; try done.
  - repeat constructor; set_solver.
  - repeat constructor; set_solver.
  - by apply plain_unmarked.
  - repeat constructor; set_solver.
Qed.

(** ** Messages *)

(** The text is one tag and a newline, the tag ends where the text says, and
    the client makes this event of it. *)
Definition delivers (text : chars) (e : nge_event) : Prop := exists tag,
  text = tag ++ [c_nl] /\ head tag = Some c_lt /\ (forall r, tag_len (tag ++ r) = Some (length tag)) /\
  (forall c, ngeclient_handle_tag tag c = Done (e, c)).

(** Moreover a part of the tag is not taken for all of it. *)
Definition in_one_piece (text : chars) : Prop := exists b, text = b ++ [c_slash; c_gt; c_nl] /\ calm (b ++ [c_slash]) = true.

Lemma unmarked_calm x v :
  x <> c_slash -> x <> c_gt -> Forall (fun c => c ∉ [c_lt; c_gt; c_nul]) (x :: v) -> calm (c_lt :: (x :: v) ++ [c_slash]) = true.
Proof.
  intros Hs Hg Hv. change (calm (c_lt :: (x :: v) ++ [c_slash])) with
    (negb (is_end c_lt) && negb (Ascii.eqb c_lt c_slash && bool_decide (head ((x :: v) ++ [c_slash]) = Some c_gt)) &&
     negb (Ascii.eqb c_lt c_lt && bool_decide (head ((x :: v) ++ [c_slash]) = Some c_slash)) && calm ((x :: v) ++ [c_slash])).
  rewrite calm_app by done. cbn [app]. rewrite !head_is. destruct (Ascii.eqb_spec x c_slash); [done|]. done.
Qed.

Lemma closed_end b : calm (b ++ [c_slash]) = true -> forall r, tag_len ((b ++ [c_slash; c_gt]) ++ r) = Some (length (b ++ [c_slash; c_gt])).
Proof. intros H r. rewrite <- app_assoc. cbn [app]. rewrite tag_len_calm by done. cbn. f_equal. rewrite length_app. cbn. lia. Qed.

Lemma attrs_unmarked l :
  Forall (fun a => plain (chars_of (fst a)) = true) l -> plain_values l -> Forall (fun c => c ∉ [c_lt; c_gt; c_nul]) (attrs l).
Proof.
  intros Hk Hv. induction l as [|[k v] l IH]; [constructor|]. unfold attrs. cbn [map concat fst snd].
  apply Forall_app_2; [apply attr_unmarked; [by apply plain_unmarked, (Forall_inv Hk)|by apply (Forall_inv Hv)]|].
  apply IH; [by eapply Forall_inv_tail|by eapply Forall_inv_tail].
Qed.

(** The keys of a tag, and the values that come with them. *)
Definition plain_keys (l : list (string * chars)) : bool := forallb (fun a => plain (chars_of (fst a))) l.
Lemma plain_keys_spec l : plain_keys l = true -> Forall (fun a => plain (chars_of (fst a)) = true) l.
Proof. unfold plain_keys. rewrite forallb_forall. intros H. apply Forall_forall. intros a Ha. by apply H, list_elem_of_In. Qed.

Section event_tags.
Context (type : string) (l : list (string * chars)) (tail : chars).
Hypothesis Ht : plain (chars_of type) = true.
Hypothesis Hk : plain_keys l = true.
Hypothesis Hv : plain_values l.

Lemma event_value name v :
  good_name (chars_of name) = true -> lookup_attr name (("type"%string, chars_of type) :: l) = Some v ->
  find_value (chars_of name) (event_tag type l ++ tail) = Some v.
Proof.
  intros Hg H. unfold event_tag. rewrite <- app_assoc. apply find_value_attrs; [done|set_solver| |done]. by constructor.
Qed.

Lemma event_option name v c :
  good_name (chars_of name) = true -> lookup_attr name (("type"%string, chars_of type) :: l) = Some v ->
  ngeclient_get_option (event_tag type l ++ tail) name c = Done (Some v, c).
Proof. intros Hg H. by apply get_option_value, event_value. Qed.

Lemma event_int name n c :
  good_name (chars_of name) = true -> lookup_attr name (("type"%string, chars_of type) :: l) = Some (dec n) -> 0 <= n < 2 ^ 31 ->
  ngeclient_get_int (event_tag type l ++ tail) name c = Done (n, c).
Proof. intros Hg H Hn. rewrite (get_int_value _ _ (dec n)) by (done || by apply event_value). by rewrite atoi_dec. Qed.

(** The chars behind the <. *)
Lemma event_unmarked : exists v, event_tag type l = c_lt :: "e"%char :: v /\ Forall (fun c => c ∉ [c_lt; c_gt; c_nul]) ("e"%char :: v).
Proof.
  exists (drop 2 (chars_of "<event") ++ attrs (("type"%string, chars_of type) :: l)). split; [done|].
  change ("e"%char :: ?x ++ ?y) with (("e"%char :: x) ++ y). apply Forall_app_2.
  - repeat constructor; set_solver.
  - apply attrs_unmarked; [|by constructor]. constructor; [done|]. by apply plain_keys_spec.
Qed.

Lemma event_calm t : Forall (fun c => c ∉ [c_lt; c_gt; c_nul]) t -> calm ((event_tag type l ++ t) ++ [c_slash]) = true.
Proof.
  intros Hts. destruct event_unmarked as (v & -> & Hu). cbn [app].
  change (calm (c_lt :: ("e"%char :: (v ++ t)) ++ [c_slash]) = true). apply unmarked_calm; [done|done|].
  change ("e"%char :: v ++ t) with (("e"%char :: v) ++ t). by apply Forall_app_2.
Qed.

Lemma event_start : head (event_tag type l ++ tail) = Some c_lt.
Proof. done. Qed.

End event_tags.

Lemma handle_event_tag type l tail c : ngeclient_handle_tag (event_tag type l ++ tail) c = ngeclient_handle_event (event_tag type l ++ tail) c.
Proof. done. Qed.

(** A tag that ends with a slash, with the event its handler makes. *)
Lemma closed_delivers type l t e :
  plain (chars_of type) = true -> plain_keys l = true -> plain_values l -> Forall (fun c => c ∉ [c_lt; c_gt; c_nul]) t ->
  (forall c, ngeclient_handle_event (event_tag type l ++ (t ++ [c_slash; c_gt])) c = Done (e, c)) ->
  delivers (event_tag type l ++ t ++ chars_of "/>" ++ [c_nl]) e /\ in_one_piece (event_tag type l ++ t ++ chars_of "/>" ++ [c_nl]).
Proof.
  intros Ht Hk Hv Hts He. pose proof (event_calm type l Ht Hk Hv t Hts) as Hc. split.
  - exists ((event_tag type l ++ t) ++ [c_slash; c_gt]). split; [by rewrite <- !app_assoc|]. split; [done|].
    split; [by apply closed_end|]. intros c. rewrite <- app_assoc, handle_event_tag. apply He.
  - exists (event_tag type l ++ t). split; [by rewrite <- !app_assoc|done].
Qed.

Lemma closed_tag_delivers type l e :
  plain (chars_of type) = true -> plain_keys l = true -> plain_values l ->
  (forall c, ngeclient_handle_event (event_tag type l ++ [c_slash; c_gt]) c = Done (e, c)) ->
  delivers (closed_tag type l) e /\ in_one_piece (closed_tag type l).
Proof. intros Ht Hk Hv He. by apply (closed_delivers type l []). Qed.

Lemma spaced_tag_delivers type l e :
  plain (chars_of type) = true -> plain_keys l = true -> plain_values l ->
  (forall c, ngeclient_handle_event (event_tag type l ++ [c_space; c_slash; c_gt]) c = Done (e, c)) ->
  delivers (spaced_tag type l) e /\ in_one_piece (spaced_tag type l).
Proof. intros Ht Hk Hv He. apply (closed_delivers type l [c_space]); try done. repeat constructor; set_solver. Qed.

(** ** A message with content *)

Lemma attrs_last l : l <> [] -> exists w, attrs l = w ++ [c_quote].
Proof.
  intros Hl. destruct l as [|[k v] l _] using rev_ind; [done|]. unfold attrs. rewrite map_app, concat_app. cbn [map concat fst snd].
  rewrite app_nil_r. exists (concat (map (fun a => attr (fst a) (snd a)) l) ++ c_space :: chars_of k ++ chars_of "=" ++ [c_quote] ++ v).
  unfold attr. rewrite <- app_assoc. f_equal. cbn [app]. f_equal. by rewrite <- app_assoc.
Qed.

Lemma calm_lt b : calm b = true -> calm (b ++ [c_lt]) = true.
Proof.
  induction b as [|c b IH]; [done|]. cbn [app calm]. intros [[[H1 H2]%andb_prop H3]%andb_prop H4]%andb_prop.
  rewrite H1, (IH H4). destruct b as [|x b]; cbn [app]; [|by rewrite !head_is in *; rewrite H2, H3]. by rewrite !head_is, !andb_false_r.
Qed.

Definition text_ok (out : chars) : Prop := out <> [] /\ c_lt ∉ out /\ calm out = true.

Section content.
Context (type : string) (l : list (string * chars)) (out : chars).
Hypothesis Ht : plain (chars_of type) = true.
Hypothesis Hk : plain_keys l = true.
Hypothesis Hv : plain_values l.
Hypothesis Ho : text_ok out.
Let front : chars := event_tag type l ++ c_gt :: out.

Lemma content_calm : calm (front ++ [c_lt]) = true.
Proof.
  destruct (event_unmarked type l Ht Hk Hv) as (v & Ev & Hu).
  destruct (attrs_last (("type"%string, chars_of type) :: l)) as [w Ew]; [done|].
  assert (El : exists u, v = u ++ [c_quote]).
  { unfold event_tag in Ev. rewrite Ew in Ev. cbn in Ev. injection Ev as Ev. exists (drop 2 (chars_of "<event") ++ w). rewrite <- Ev. cbn. done. }
  destruct El as [u ->]. unfold front. rewrite Ev.
  change (calm (c_lt :: "e"%char :: (((u ++ [c_quote]) ++ c_gt :: out) ++ [c_lt])) = true).
  rewrite <- !app_assoc. cbn [app].
  change (calm (c_lt :: ("e"%char :: u) ++ c_quote :: c_gt :: out ++ [c_lt]) = true).
  assert (Hc : calm (("e"%char :: u) ++ c_quote :: c_gt :: out ++ [c_lt]) = true).
  { rewrite calm_app; [|apply (Forall_app _ ("e"%char :: u) [c_quote]); exact Hu|done].
    change (calm (c_quote :: c_gt :: out ++ [c_lt])) with (calm (out ++ [c_lt])). apply calm_lt, Ho. }
  cbn [calm app] in Hc |- *. rewrite head_is. apply Hc.
Qed.

Lemma content_end r : tag_len ((front ++ chars_of "</event>") ++ r) = Some (length (front ++ chars_of "</event>")).
Proof.
  rewrite <- app_assoc. change (chars_of "</event>" ++ r) with (c_lt :: c_slash :: chars_of "event>" ++ r).
  rewrite tag_len_calm by exact content_calm. rewrite length_app. done.
Qed.

Lemma content_found end_tag c : ngeclient_get_content (front ++ c_lt :: end_tag) c = Done (Some out, c).
Proof.
  unfold ngeclient_get_content, front. assert (E : content_of ((event_tag type l ++ c_gt :: out) ++ c_lt :: end_tag) = Some (Some out)); [|by rewrite E].
  destruct (event_unmarked type l Ht Hk Hv) as (v & Ev & Hu). destruct Ho as (Hne & Hlt & _).
  assert (Hs : Forall (fun x => x ∉ [c_gt]) (event_tag type l)).
  { rewrite Ev. constructor; [set_solver|]. eapply Forall_impl; [exact Hu|]. intros x Hx. set_solver. }
  rewrite <- app_assoc. rewrite Ev in Hs |- *. cbn [app content_of]. cbv beta. change (Ascii.eqb c_lt c_lt) with true. cbn [negb].
  change (c_lt :: "e"%char :: v ++ c_gt :: ?x) with ((c_lt :: "e"%char :: v) ++ c_gt :: x).
  rewrite strcspn_app; [|done|by left]. rewrite drop_app_length.
  rewrite strcspn_app; [|by apply not_in_all|by left]. rewrite take_app_length, length_app.
  rewrite (proj2 (Nat.ltb_lt _ _)) by (cbn; lia). destruct out; [done|]. done.
Qed.

End content.
