(* ===== verification/NgeProps.v ===== *)
(** * The event protocol: theorems

    What initng_nge.c tells its listeners is what libngeclient.c hands out. *)
From S2P Require Import Prelude Types Data CString Global ActiveDb Depend Io Poll Interrupt Launch Modules ServiceMod DaemonMod Control.
From S2P Require Import HookMods LogMods NgeMod NgeClient NgeText.
From Stdlib Require Import String Ascii.
From stdpp Require Import prelude gmap strings pretty.
Local Open Scope Z_scope.

(** ** What the messages say *)

Definition plain_string (s : string) : bool := plain (chars_of s).

(** The events, as the server means them; a client hands out no event for a
    ping or a header. *)
Inductive says : chars -> nge_event -> Prop :=
| Says_header : says header_text PING
| Says_ping : says ping_text PING
| Says_connect version : plain version = true -> says (connect_text version) (CONNECT NGE_VERSION (Some version))
| Says_initial_system st runlevel :
  plain runlevel = true ->
  says (initial_system_text st runlevel) (INITIAL_SYSTEM_STATE_CHANGE (sys_state_num st) (Some runlevel))
| Says_initial_service name state type :
  plain name = true -> plain_string (st_name state) = true -> plain_string (sty_name type) = true ->
  says (initial_service_text name state type)
    (INITIAL_SERVICE_STATE_CHANGE (Some name) (e_is_num (st_is state)) (Some (chars_of (st_name state))) 0 0
       (Some (chars_of (sty_name type))) (of_bool (sty_hidden type)))
| Says_finished : says finished_text INITIAL_STATE_FINISHED
| Says_killed name state process r_code :
  plain name = true -> plain_string (st_name state) = true -> plain process = true ->
  says (killed_text name state process r_code)
    (PROCESS_KILLED (Some name) (e_is_num (st_is state)) (Some (chars_of (st_name state))) (Some process)
       (WEXITSTATUS r_code) (WTERMSIG r_code))
| Says_change name state started stopped type :
  plain name = true -> plain_string (st_name state) = true -> plain_string (sty_name type) = true ->
  0 <= started < 2 ^ 31 -> 0 <= stopped < 2 ^ 31 ->
  says (change_text name state started stopped type)
    (SERVICE_STATE_CHANGE (Some name) (e_is_num (st_is state)) (Some (chars_of (st_name state))) started stopped
       (Some (chars_of (sty_name type))) (of_bool (sty_hidden type)))
| Says_system st runlevel :
  plain runlevel = true -> says (system_text st runlevel) (SYSTEM_STATE_CHANGE (sys_state_num st) (Some runlevel)).

Lemma e_is_range i : 0 <= e_is_num i < 2 ^ 31.
Proof. by destruct i. Qed.
Lemma sys_state_range st : 0 <= sys_state_num st < 2 ^ 31.
Proof. by destruct st. Qed.
Lemma of_bool_range b : 0 <= of_bool b < 2 ^ 31.
Proof. by destruct b. Qed.
Lemma termsig_range status : 0 <= WTERMSIG status < 2 ^ 31.
Proof. unfold WTERMSIG. change 127 with (Z.ones 7). rewrite Z.land_ones by lia. pose proof (Z.mod_pos_bound status (2 ^ 7)). lia. Qed.
Lemma exitstatus_range status : 0 <= WEXITSTATUS status < 2 ^ 31.
Proof.
  unfold WEXITSTATUS. rewrite Z.shiftr_land. change (Z.shiftr 65280 8) with (Z.ones 8). rewrite Z.land_ones by lia.
  pose proof (Z.mod_pos_bound (Z.shiftr status 8) (2 ^ 8)). lia.
Qed.
#[local] Hint Resolve e_is_range sys_state_range of_bool_range termsig_range exitstatus_range : ranges.
#[local] Hint Extern 1 (0 <= _) => (eapply proj1; eauto with ranges) : ranges.

Ltac plain_values := repeat (apply Forall_cons; split; cbn [snd]); try apply Forall_nil; trivial; try (apply plain_dec; eauto with ranges; lia).

Lemma then_runs {S A B} (m : M S A) (k : A -> M S B) s a s1 r : m s = Done (a, s1) -> k a s1 = r -> mthen m k s = r.
Proof. intros H <-. by apply mthen_run. Qed.

(** Run through the options of an event. *)
Ltac read_option :=
  eapply then_runs;
  [first [eapply event_int; [done|done|plain_values|done|reflexivity|by eauto with ranges]
         |eapply event_option; [done|done|plain_values|done|reflexivity]]|].

Ltac closed_event := first [apply closed_tag_delivers|apply spaced_tag_delivers];
  [done|done|plain_values|intros c; unfold ngeclient_handle_event; read_option; cbv beta zeta;
   repeat first [rewrite bool_decide_eq_true_2 by done|rewrite bool_decide_eq_false_2 by done]; repeat read_option; done].

Lemma connect_delivers v : plain v = true -> delivers (connect_text v) (CONNECT NGE_VERSION (Some v)) /\ in_one_piece (connect_text v).
Proof.
  intros Hv. set (front := chars_of "<connect" ++ attr "protocol_version" (dec NGE_VERSION) ++ chars_of ",").
  assert (Et : connect_text v = (front ++ attr "initng_version" v) ++ [c_slash; c_gt; c_nl]) by (unfold connect_text, front; by rewrite <- !app_assoc).
  assert (Hc : calm ((front ++ attr "initng_version" v) ++ [c_slash]) = true).
  { change (calm (c_lt :: ("c"%char :: (drop 2 front ++ attr "initng_version" v)) ++ [c_slash]) = true).
    apply unmarked_calm; [done|done|]. change ("c"%char :: drop 2 front ++ attr "initng_version" v) with (drop 1 front ++ attr "initng_version" v).
    apply Forall_app_2; [unfold front; apply (bool_decide_unpack _); by vm_compute|]. apply attr_unmarked; [by apply plain_unmarked|done]. }
  rewrite Et. split; [|exists (front ++ attr "initng_version" v); by split].
  exists ((front ++ attr "initng_version" v) ++ [c_slash; c_gt]). split; [by rewrite <- !app_assoc|]. split; [done|].
  split; [by apply closed_end|]. intros c. set (tag := _ ++ [c_slash; c_gt]).
  assert (E : ngeclient_handle_tag tag c = ngeclient_handle_connect tag c) by done. rewrite E. unfold ngeclient_handle_connect.
  assert (E1 : find_value (chars_of "initng_version") tag = Some v).
  { unfold tag, front. rewrite <- !app_assoc. rewrite find_value_miss; [|done|set_solver|set_solver|done]. rewrite app_assoc.
    apply find_value_attr; [done|set_solver|]. apply (plain_spec v Hv). right. by left. }
  assert (E2 : find_value (chars_of "protocol_version") tag = Some (dec NGE_VERSION)).
  { unfold tag, front. rewrite <- !app_assoc. apply find_value_attr; [done|set_solver|set_solver]. }
  rewrite (mthen_run _ _ _ _ _ (get_option_value _ "initng_version" _ _ eq_refl E1)).
  by rewrite (mthen_run _ _ _ _ _ (get_int_value _ "protocol_version" _ _ eq_refl E2)).
Qed.

(** Every message is one tag, and the client makes of it what it says. *)
Lemma says_delivers t e : says t e -> delivers t e /\ in_one_piece t.
Proof.
  intros [|  |v Hv|st rl Hr|name st ty Hn Hs Ht| |name st p rc Hn Hs Hp|name st a b ty Hn Hs Ht Ha Hb|st rl Hr].
  - set (b := chars_of "<? xml" ++ attr "version" (chars_of "1.0") ++ chars_of " ?"). split; [|by exists b].
    exists (b ++ [c_slash; c_gt]). split; [done|]. split; [done|]. split; [by apply closed_end|done].
  - closed_event.
  - by apply connect_delivers.
  - closed_event.
  - closed_event.
  - closed_event.
  - closed_event.
  - closed_event.
  - closed_event.
Qed.

(** ** The client *)

(** What the kernel still has for the client, and what of the stream the client
    has not handed out yet. *)
Definition arriving (l : list poll_answer) : chars :=
  concat (map (fun a => match a with Poll_in chunks => concat chunks | Poll_none _ => [] end) l).
Definition net_ok (l : list poll_answer) : Prop :=
  Forall (fun a => match a with Poll_in chunks => Forall (fun x => x <> []) chunks | Poll_none _ => True end) l.
Definition buffered (c : nge_connection) : chars := default [] (read_buffer c).
Definition unread (c : nge_connection) : chars := buffered c ++ arriving (net c).
Definition client_ok (c : nge_connection) : Prop :=
  0 < sock c /\ net_ok (net c) /\ read_buffer_len c = Z.of_nat (length (buffered c)).

(** Messages with their events; the client skips those that have none. *)
Notation message := (chars * nge_event)%type.
Definition silent (m : message) : Prop := state_type (snd m) = 0.
Definition pending (c : nge_connection) (ms : list message) : Prop :=
  client_ok c /\ Forall (fun m => says (fst m) (snd m)) ms /\
  exists nls, Forall (fun x => is_nl x = true) nls /\ unread c = nls ++ concat (map fst ms).

Lemma recv_loop_all chunks b n :
  Forall (fun x => x <> []) chunks -> recv_loop chunks b n = (b ++ concat chunks, n + Z.of_nat (length (concat chunks))).
Proof.
  intros Hc. revert b n. induction Hc as [|x chunks Hx Hc IH]; intros b n; cbn [recv_loop concat].
  - rewrite app_nil_r. f_equal. cbn. lia.
  - destruct x as [|y x]; [done|]. rewrite IH, <- app_assoc. f_equal. rewrite length_app. lia.
Qed.

Lemma drop_while_split f s : s = take_while f s ++ drop_while f s.
Proof. induction s as [|c s IH]; [done|]. cbn. destruct (f c); [|done]. cbn. by f_equal. Qed.

Lemma app_cases {A} (l1 l2 k1 k2 : list A) :
  l1 ++ l2 = k1 ++ k2 -> (exists k, l1 = k1 ++ k /\ k2 = k ++ l2) \/ (exists k, k <> [] /\ k1 = l1 ++ k /\ l2 = k ++ k2).
Proof.
  intros [H|(k & -> & ->)]%app_eq_inv; [by left|]. destruct k as [|x k]; [left; exists []; by rewrite !app_nil_r|right; by exists (x :: k)].
Qed.

Lemma poll_run c :
  client_ok c -> exists n c', ngeclient_poll_for_input c = Done (n, c') /\ client_ok c' /\ unread c' = unread c /\
    length (net c') = pred (length (net c)) /\ exists more, buffered c' = buffered c ++ more.
Proof.
  intros Hok. pose proof Hok as (Hs & Hn & Hl). unfold ngeclient_poll_for_input. rewrite then_asks.
  destruct (net c) as [|a l] eqn:En; [exists 0, c; split; [done|]; split; [done|]; split; [done|]; rewrite En; split; [done|]; exists []; by rewrite app_nil_r|].
  pose proof (Forall_inv Hn) as Ha. pose proof (Forall_inv_tail Hn) as Hn'. rewrite then_modify. destruct a as [ret|chunks].
  - eexists _, _. split; [done|]. split; [done|]. split; [unfold unread; by rewrite En|]. split; [done|]. exists []. by rewrite app_nil_r.
  - unfold ngeclient_read_and_fill_buffer. rewrite then_asks. change (sock (id ?x)) with (sock c).
    destruct (Z.leb_spec (sock c) 0); [lia|].
    assert (Hb : match read_buffer c with Some b => Some b | None => if read_buffer_len c =? 0 then Some [] else None end = Some (buffered c)).
    { unfold buffered in *. destruct (read_buffer c); [done|]. by rewrite Hl. }
    rewrite (then_deref _ _ _ (buffered c)) by exact Hb. rewrite recv_loop_all by exact Ha. unfold put_buffer. rewrite then_modify.
    eexists _, _. split; [done|]. split; [done|]. split; [|split; [done|by exists (concat chunks)]]. unfold unread, arriving. rewrite En. cbn [map concat].
    set (c' := _ <| read_buffer_len := _ |>). change (net c') with l. change (buffered c') with (buffered c ++ concat chunks).
    by rewrite <- app_assoc.
Qed.

Lemma says_start t e : says t e -> exists r, t = c_lt :: r.
Proof. intros [(tag & -> & Hh & _) _]%says_delivers. destruct tag as [|x tag]; [done|]. injection Hh as ->. by eexists. Qed.

Lemma stream_start ms : Forall (fun m : message => says (fst m) (snd m)) ms -> match concat (map fst ms) with [] => ms = [] | x :: _ => x = c_lt end.
Proof. intros [|[t e] ms' Hm _]; [done|]. cbn in *. by destruct (says_start _ _ Hm) as [r ->]. Qed.

(** Skip the newlines: either the buffer is at its end, or it is at a tag. *)
Lemma skip_spec b arr nls ms :
  Forall (fun m : message => says (fst m) (snd m)) ms -> Forall (fun x => is_nl x = true) nls -> b ++ arr = nls ++ concat (map fst ms) ->
  drop_while is_nl b = [] /\ (exists nls', Forall (fun x => is_nl x = true) nls' /\ arr = nls' ++ concat (map fst ms)) \/
  (exists r, drop_while is_nl b = c_lt :: r) /\ drop_while is_nl b ++ arr = concat (map fst ms).
Proof.
  intros Hm Hnl E. apply app_eq_inv in E as [(k & -> & E)|(k & -> & ->)].
  - pose proof (stream_start ms Hm) as Hst. assert (Hd : drop_while is_nl (nls ++ k) = k).
    { apply drop_while_prefix; [done|]. destruct k as [|x k]; [done|]. rewrite E in Hst. cbn in Hst. by subst x. }
    rewrite Hd. destruct k as [|x k]; [left; split; [done|]; by exists []|]. right. rewrite E in Hst |- *. cbn in Hst. subst x. by split; [exists k|].
  - left. apply Forall_app in Hnl as [H1 H2]. split; [|by exists k].
    rewrite <- (app_nil_r b). by apply drop_while_prefix.
Qed.

(** What a call of the client does with the messages that are pending. *)
Definition handed_out (c : nge_connection) (ms : list message) (r : option nge_event) (c' : nge_connection) : Prop :=
  (length (net c') <= length (net c))%nat /\
  exists skipped rest, ms = skipped ++ rest /\ Forall silent skipped /\
    match r with
    | Some e => state_type e <> 0 /\ exists t ms', rest = (t, e) :: ms' /\ pending c' ms'
    | None => pending c' rest /\ (rest = [] \/ net c <> [])
    end.

Lemma handed_skip c ms m r c' : silent m -> handed_out c ms r c' -> handed_out c (m :: ms) r c'.
Proof. intros Hm (Hn & sk & rest & -> & Hs & Hr). split; [done|]. exists (m :: sk), rest. split; [done|]. split; [by constructor|done]. Qed.

Lemma in_piece_segment tag q b :
  in_one_piece (tag ++ [c_nl]) -> tag = b ++ q -> q <> [] -> tag_len b = None.
Proof.
  intros (p & E & Hc) -> Hq. apply tag_len_segment. destruct q as [|x q _] using rev_ind; [done|].
  assert (E' : (b ++ q) ++ [x] = (p ++ [c_slash]) ++ [c_gt]).
  { apply (app_inv_tail [c_nl]). rewrite <- !app_assoc in *. cbn [app] in *. exact E. }
  apply app_inj_tail in E' as [E' _]. rewrite <- E' in Hc. by eapply calm_prefix.
Qed.

Lemma tag_loop_run n again c ms :
  pending c ms -> (length (buffered c) < n)%nat ->
  (forall c1 ms1, pending c1 ms1 -> nothing_read c1 = true -> length (net c1) = length (net c) ->
     exists r c', again c1 = Done (r, c') /\ handed_out c1 ms1 r c') ->
  exists r c', tag_loop n again c = Done (r, c') /\ handed_out c ms r c'.
Proof.
  revert c ms. induction n as [|n IH]; intros c ms Hp Hn Hagain; [lia|].
  destruct Hp as ((Hs & Hnet & Hl) & Hm & nls & Hnl & Hu). pose proof (stream_start ms Hm) as Hst.
  assert (Hpc : pending c ms) by (split; [done|]; split; [done|]; by exists nls).
  assert (Hquiet : buffered c = [] -> exists r c', mpure None c = Done (r, c') /\ handed_out c ms r c').
  { intros Hb. exists None, c. split; [done|]. split; [done|]. exists [], ms. split; [done|]. split; [done|]. split; [done|].
    destruct (net c) as [|a l] eqn:En; [left|by right]. unfold unread in Hu. rewrite Hb, En in Hu. cbn in Hu.
    symmetry in Hu. apply app_eq_nil in Hu as [_ Hu]. by rewrite Hu in Hst. }
  cbn [tag_loop]. rewrite then_asks. change (read_buffer (id c)) with (read_buffer c). unfold unread in Hu.
  destruct (read_buffer c) as [b|] eqn:Eb; [|apply Hquiet; unfold buffered; by rewrite Eb].
  assert (Ebuf : buffered c = b) by (unfold buffered; by rewrite Eb). rewrite Ebuf in *.
  destruct b as [|x b]; [by apply Hquiet|]. cbn [ends]. change (read_buffer_len (id c)) with (read_buffer_len c).
  rewrite Hl. destruct (Z.ltb_spec (Z.of_nat (length (x :: b))) 1) as [?|_]; [cbn in *; lia|].
  assert (Hx : is_end x = false).
  { destruct nls as [|y nls]; cbn [app] in Hu.
    - destruct (concat (map fst ms)); [done|]. injection Hu as -> _. by subst.
    - injection Hu as -> _. apply Forall_inv in Hnl. unfold is_nl, is_end in *. by destruct (Ascii.eqb_spec y c_nl) as [->|]. }
  rewrite Hx. cbn [orb]. unfold skip_newlines. rewrite then_then, then_asks, Eb. unfold put_buffer at 1. rewrite then_modify.
  rewrite (then_deref _ _ _ (drop_while is_nl (x :: b))) by done.
  set (c1 := _ <| read_buffer_len := _ |>).
  destruct (skip_spec _ _ _ _ Hm Hnl Hu) as [(E & nls' & Hnl' & Ha)|((r & E) & Ha)].
  - rewrite E. cbn [ends]. rewrite then_modify.
    destruct (Hagain (c1 <| read_buffer := None |>) ms) as (r & c' & Er & Hr); [|done|done|by exists r, c'].
    split; [split; [done|]; split; [done|]; unfold c1; by rewrite E|]. split; [done|]. by exists nls'.
  - destruct ms as [|[t e] ms]; [by rewrite E in Ha|]. cbn [map fst concat] in Ha. apply Forall_cons in Hm as [Hte Hm].
    cbn [fst snd] in Hte. destruct (says_delivers _ _ Hte) as [(tag & -> & Hh & Hend & Hev) Hpiece]. rewrite <- app_assoc in Ha.
    rewrite E. cbn [ends]. change (is_end c_lt) with false. cbn [head].
    rewrite bool_decide_eq_true_2 by done. cbn [negb]. rewrite <- E. apply app_cases in Ha as [(k & Ek & Hk)|(k & Hne & Ek & Hk)].
    + rewrite Ek, Hend, take_app_length. unfold ngeclient_cut_buffert. rewrite then_then, then_asks.
      assert (E1 : read_buffer (id c1) = Some (tag ++ k)) by (unfold c1; cbn; by rewrite <- Ek). rewrite E1.
      assert (E2 : read_buffer_len (id c1) = Z.of_nat (length (tag ++ k))) by (unfold c1; cbn; by rewrite <- Ek). rewrite E2.
      destruct tag as [|y tag]; [done|]. rewrite (proj2 (Nat.eqb_neq _ _)) by done. cbn [orb].
      destruct (Z.ltb_spec (Z.of_nat (length ((y :: tag) ++ k))) 1) as [?|_]; [cbn in *; lia|]. rewrite drop_app_length.
      unfold put_buffer. rewrite then_modify. set (c2 := _ <| read_buffer_len := _ |>). rewrite (mthen_run _ _ _ _ _ (Hev c2)).
      assert (Hp2 : pending c2 ms).
      { split; [split; [done|]; split; [done|]; unfold c2; cbn; done|]. split; [done|]. exists [c_nl]. split; [by repeat constructor|].
        unfold unread. by change (net c2) with (net c). }
      destruct (Z.eqb_spec (state_type e) 0) as [He|He]; cbn [negb].
      * destruct (IH c2 ms) as (r' & c' & Er & Hr); [done| |done|].
        { change (buffered c2) with k. assert (length (drop_while is_nl (x :: b)) = length ((y :: tag) ++ k)) as Hlen by (by rewrite Ek).
          rewrite length_app in Hlen. pose proof (f_equal length (drop_while_split is_nl (x :: b))) as Hdw. rewrite length_app in Hdw. cbn [length] in *. lia. }
        exists r', c'. split; [done|]. by apply handed_skip.
      * exists (Some e), c2. split; [done|]. split; [done|]. exists [], (((y :: tag) ++ [c_nl], e) :: ms). split; [done|]. split; [done|]. split; [done|]. by exists ((y :: tag) ++ [c_nl]), ms.
    + rewrite (in_piece_segment tag k _ Hpiece Ek Hne). unfold set_error. rewrite then_modify. eexists _, _. split; [done|].
      split; [done|]. exists [], ((tag ++ [c_nl], e) :: ms). split; [done|]. split; [done|]. split.
      * split; [split; [done|]; split; [done|done]|]. split; [by constructor|]. exists []. split; [done|].
        set (c2 := _ <| ngeclient_error := _ |>). unfold unread. change (buffered c2) with (drop_while is_nl (x :: b)). change (net c2) with (net c).
        rewrite Hk. cbn [map concat fst app]. rewrite Ek. by rewrite <- !app_assoc.
      * right. intros En. unfold arriving in Hk. rewrite En in Hk. by destruct k.
Qed.

Lemma pending_quiet c ms : pending c ms -> buffered c = [] -> net c = [] -> ms = [].
Proof.
  intros (_ & Hm & nls & _ & Hu) Hb En. pose proof (stream_start ms Hm) as Hst. unfold unread in Hu. rewrite Hb, En in Hu.
  symmetry in Hu. apply app_eq_nil in Hu as [_ Hu]. by rewrite Hu in Hst.
Qed.

Lemma nothing_buffered c : client_ok c -> nothing_read c = true -> buffered c = [].
Proof.
  intros (_ & _ & Hl) Hr. unfold nothing_read in Hr. unfold buffered in *. destruct (read_buffer c) as [b|]; [|done]. cbn in *.
  destruct b as [|x b]; [done|]. apply Z.ltb_lt in Hr. rewrite Hl in Hr. cbn in Hr. lia.
Qed.

(** One call: the next event that is not silent, or none; then less is to come,
    or nothing was left. *)
Definition handed_next (c : nge_connection) (ms : list message) (r : option nge_event) (c' : nge_connection) : Prop :=
  (length (net c') <= length (net c))%nat /\
  exists skipped rest, ms = skipped ++ rest /\ Forall silent skipped /\
    match r with
    | Some e => state_type e <> 0 /\ exists t ms', rest = (t, e) :: ms' /\ pending c' ms'
    | None => pending c' rest /\ (rest = [] /\ net c = [] \/ (length (net c') < length (net c))%nat)
    end.

Lemma next_event_run fuel c ms :
  pending c ms -> (length (net c) + (if nothing_read c then 0 else 1) < fuel)%nat ->
  exists r c', get_next_event fuel c = Done (r, c') /\ handed_next c ms r c'.
Proof.
  revert c ms. induction fuel as [|fuel IH]; intros c ms Hp Hf; [lia|]. cbn [get_next_event].
  destruct Hp as (Hok & Hm & Hu). destruct (poll_run c Hok) as (n1 & c1 & E1 & Hok1 & Hu1 & Hn1 & _). rewrite (mthen_run _ _ _ _ _ E1), then_asks.
  assert (H2 : exists c2, (if nothing_read c1 then ngeclient_poll_for_input ;;; mpure tt else mpure tt) c1 = Done (tt, c2) /\
    client_ok c2 /\ unread c2 = unread c /\ (length (net c2) <= pred (length (net c)))%nat).
  { destruct (nothing_read c1).
    - destruct (poll_run c1 Hok1) as (n2 & c2 & E2 & Hok2 & Hu2 & Hn2 & _). exists c2. rewrite (mthen_run _ _ _ _ _ E2).
      split; [done|]. split; [done|]. split; [by rewrite Hu2|lia].
    - exists c1. split; [done|]. split; [done|]. split; [done|lia]. }
  destruct H2 as (c2 & E2 & Hok2 & Hu2 & Hn2). rewrite (mthen_run _ _ _ _ _ E2), then_asks.
  change (nothing_read (id c2)) with (nothing_read c2).
  assert (Hp2 : pending c2 ms) by (split; [done|]; split; [done|]; by rewrite Hu2).
  assert (Hless : net c = [] \/ (length (net c2) < length (net c))%nat) by (destruct (net c); [by left|right; cbn in *; lia]).
  assert (Hempty : net c = [] -> net c2 = []) by (intros En; rewrite En in Hn2; destruct (net c2); [done|cbn in *; lia]).
  destruct (nothing_read c2) eqn:Er.
  - exists None, c2. split; [done|]. split; [lia|]. exists [], ms. split; [done|]. split; [done|]. split; [done|].
    destruct Hless as [En|]; [left|by right]. split; [|done]. by apply (pending_quiet c2 ms Hp2 (nothing_buffered _ Hok2 Er) (Hempty En)).
  - destruct Hok2 as (? & ? & Hl2). change (read_buffer_len (id c2)) with (read_buffer_len c2). rewrite Hl2, Nat2Z.id.
    destruct (tag_loop_run (S (length (buffered c2))) (get_next_event fuel) c2 ms Hp2 ltac:(lia)) as (r & c' & Ert & Hh).
    { intros c3 ms3 Hp3 Hr3 Hn3. destruct (IH c3 ms3 Hp3) as (r & c' & Er3 & Hl3 & sk & rest & Hms & Hsk & Hres).
      { rewrite Hr3, Hn3. destruct (net c) as [|a l] eqn:En; [|cbn in *; lia].
        assert (Hb : nothing_read c = nothing_read c2); [|rewrite Hb, Er in Hf; cbn in *; lia].
        unfold ngeclient_poll_for_input in E1. rewrite then_asks, En in E1. injection E1 as _ <-. destruct (nothing_read c) eqn:Ec; [|by injection E2 as <-].
        unfold ngeclient_poll_for_input in E2. rewrite then_then, then_asks, En in E2. injection E2 as <-. done. }
      exists r, c'. split; [done|]. split; [done|]. exists sk, rest. split; [done|]. split; [done|]. destruct r; [done|].
      destruct Hres as [Hpr [[Hrest _]|Hlt]]; (split; [done|]); [by left|right; destruct (net c3); [cbn in *; lia|done]]. }
    exists r, c'. split; [done|]. destruct Hh as (Hl' & sk & rest & Hms & Hsk & Hres). split; [lia|]. exists sk, rest. split; [done|]. split; [done|].
    destruct r; [done|]. destruct Hres as [Hpr Hrest]. split; [done|]. destruct Hless as [En|Hlt]; [left|right; lia].
    destruct Hrest as [->|Hne]; [done|]. by rewrite (Hempty En) in Hne.
Qed.

(** Call the client [k] times. *)
Fixpoint collect (k fuel : nat) : E (list nge_event) :=
  match k with
  | O => mpure []
  | S k =>
    let! r := get_next_event fuel in
    let! es := collect k fuel in
    mpure (option_list r ++ es)
  end.

Definition loud (e : nge_event) : bool := negb (state_type e =? 0).

Lemma silent_none ms : Forall silent ms -> List.filter loud (map snd ms) = [].
Proof. induction 1 as [|m ms Hm _ IH]; [done|]. cbn [map List.filter]. unfold loud at 1. by rewrite Hm. Qed.

Lemma events_arrive k fuel c ms :
  pending c ms -> (length ms + length (net c) <= k)%nat -> (length (net c) + 1 < fuel)%nat ->
  exists c', collect k fuel c = Done (List.filter loud (map snd ms), c').
Proof.
  revert c ms. induction k as [|k IH]; intros c ms Hp Hk Hf.
  - destruct ms; [|cbn in Hk; lia]. by exists c.
  - destruct (next_event_run fuel c ms Hp) as (r & c1 & E & Hn & sk & rest & -> & Hsk & Hres).
    { destruct (nothing_read c); lia. }
    cbn [collect]. rewrite (mthen_run _ _ _ _ _ E). rewrite map_app, List.filter_app, silent_none by done. cbn [app].
    rewrite length_app in Hk. destruct r as [e|].
    + destruct Hres as (He & t & ms' & -> & Hp1). cbn [length] in Hk. destruct (IH c1 ms' Hp1) as [c' E']; [lia|lia|].
      exists c'. rewrite (mthen_run _ _ _ _ _ E'). cbn [map snd List.filter]. unfold loud at 2. rewrite (proj2 (Z.eqb_neq _ _) He). done.
    + destruct Hres as (Hp1 & [[-> En]|Hlt]).
      * destruct (IH c1 [] Hp1) as [c' E']; [rewrite En in Hn; cbn in *; lia|lia|]. exists c'. by rewrite (mthen_run _ _ _ _ _ E').
      * destruct (IH c1 rest Hp1) as [c' E']; [lia|lia|]. exists c'. by rewrite (mthen_run _ _ _ _ _ E').
Qed.

(** C19: events arrive in order, however the text is cut.  Initng has sent any
    messages (the header, the connect tag, the initial state, changes of
    services and of the system, killed processes, pings), whose names have no
    char of the markup, and the kernel gives them to the client in pieces of
    any size at any of its polls.  A client that calls get_next_event often
    enough (once for each message and for each answer of the kernel) gets
    exactly the events of the messages, in their order and with all of their
    fields; a call in between that finds only a part of a tag gives nothing
    and loses nothing.  There is no event for a ping. *)
Theorem nge_events_arrive k fuel c ms :
  pending c ms -> (length ms + length (net c) <= k)%nat -> (length (net c) + 1 < fuel)%nat ->
  exists c', collect k fuel c = Done (List.filter loud (map snd ms), c').
Proof. apply events_arrive. Qed.

(** ** What goes wrong *)

(** A buffer that does not start with a tag stays, and gives nothing. *)
Lemma stuck_after fuel c n1 c1 x r :
  ngeclient_poll_for_input c = Done (n1, c1) -> client_ok c1 -> buffered c1 = x :: r -> x <> c_lt -> x <> c_nl -> x <> c_nul ->
  exists c' r', get_next_event (S fuel) c = Done (None, c') /\ client_ok c' /\ buffered c' = x :: r'.
Proof.
  intros E1 Hok1 Hb1 H1 H2 H3. cbn [get_next_event]. rewrite (mthen_run _ _ _ _ _ E1), then_asks.
  assert (Er : read_buffer c1 = Some (x :: r)) by (unfold buffered in Hb1; destruct (read_buffer c1); [cbn in Hb1; by subst|done]).
  pose proof Hok1 as (Hs & Hn & Hl). rewrite Hb1 in Hl.
  assert (Hsome : (read_buffer_len c1 <? 1) = false) by (rewrite Hl; apply Z.ltb_ge; cbn; lia).
  assert (Enr : nothing_read c1 = false) by (unfold nothing_read; by rewrite Er).
  rewrite Enr, then_pure, then_asks. change (nothing_read (id c1)) with (nothing_read c1). rewrite Enr. cbn [tag_loop]. rewrite then_asks.
  change (read_buffer (id c1)) with (read_buffer c1). rewrite Er. change (read_buffer_len (id c1)) with (read_buffer_len c1).
  cbn [ends]. unfold is_end at 1. destruct (Ascii.eqb_spec x c_nul); [done|]. rewrite Hsome. cbn [orb].
  unfold skip_newlines. rewrite then_then, then_asks, Er. unfold put_buffer.
  assert (Edw : drop_while is_nl (x :: r) = x :: r) by (cbn; unfold is_nl; by destruct (Ascii.eqb_spec x c_nl)).
  rewrite Edw, then_modify, (then_deref _ _ _ (x :: r)) by done.
  cbn [ends]. unfold is_end at 1. destruct (Ascii.eqb_spec x c_nul); [done|]. cbn [head]. rewrite bool_decide_eq_false_2 by congruence.
  cbn [negb]. unfold set_error. rewrite then_modify. eexists _, r. split; [done|].
  split; [split; [exact Hs|]; split; [exact Hn|]; reflexivity|reflexivity].
Qed.

Lemma stuck_run fuel c x r :
  client_ok c -> buffered c = x :: r -> x <> c_lt -> x <> c_nl -> x <> c_nul ->
  exists c' r', get_next_event (S fuel) c = Done (None, c') /\ client_ok c' /\ buffered c' = x :: r'.
Proof.
  intros Hok Hb H1 H2 H3. destruct (poll_run c Hok) as (n1 & c1 & E1 & Hok1 & _ & _ & more & Hb1). rewrite Hb in Hb1.
  by apply (stuck_after fuel c n1 c1 x (r ++ more)).
Qed.

Lemma stuck_collects_nothing k fuel c x r :
  client_ok c -> buffered c = x :: r -> x <> c_lt -> x <> c_nl -> x <> c_nul -> exists c', collect k (S fuel) c = Done ([], c').
Proof.
  intros Hok Hb H1 H2 H3. revert c r Hok Hb. induction k as [|k IH]; intros c r Hok Hb; [by exists c|].
  destruct (stuck_run fuel c x r Hok Hb H1 H2 H3) as (c1 & r1 & E & Hok1 & Hb1). destruct (IH c1 r1 Hok1 Hb1) as [c' E'].
  exists c'. cbn [collect]. by rewrite (mthen_run _ _ _ _ _ E), (mthen_run _ _ _ _ _ E').
Qed.

Lemma collect_then fuel k c r c1 es c' :
  get_next_event fuel c = Done (r, c1) -> collect k fuel c1 = Done (es, c') -> collect (S k) fuel c = Done (option_list r ++ es, c').
Proof. intros E1 E2. cbn [collect]. by rewrite (mthen_run _ _ _ _ _ E1), (mthen_run _ _ _ _ _ E2). Qed.

(** The text of an output message up to [j] chars of its end tag. *)
Definition output_front (name process out : chars) : chars :=
  event_tag "service_output" [("service"%string, name); ("process"%string, process)] ++ c_gt :: out.

Lemma front_event name process out end_tag c :
  plain name = true -> plain process = true -> text_ok out -> 
  ngeclient_handle_tag (output_front name process out ++ c_lt :: end_tag) c =
  Done (SERVICE_OUTPUT (Some name) (Some process) (Some out), c).
Proof.
  intros Hn Hp Ho. set (l := [("service"%string, name); ("process"%string, process)]). assert (Hv : plain_values l) by plain_values.
  unfold output_front. fold l. rewrite <- app_assoc, handle_event_tag. unfold ngeclient_handle_event. read_option. cbv beta zeta.
  repeat first [rewrite bool_decide_eq_true_2 by done|rewrite bool_decide_eq_false_2 by done].
  unfold ngeclient_handle_service_output. read_option. read_option. rewrite app_assoc.
  by rewrite (mthen_run _ _ _ _ _ (content_found "service_output" l out eq_refl eq_refl Hv Ho end_tag c)).
Qed.

(** The output of a service: text without a < and without />. *)
Lemma output_delivers name process out :
  plain name = true -> plain process = true -> text_ok out ->
  delivers (output_text name process out) (SERVICE_OUTPUT (Some name) (Some process) (Some out)).
Proof.
  intros Hn Hp Ho. exists (output_front name process out ++ chars_of "</event>").
  split; [unfold output_text, output_front; cbn [app]; by rewrite <- !app_assoc|]. split; [done|].
  split; [apply content_end; [done|done|plain_values|done]|]. intros c. by apply (front_event name process out (chars_of "/event>")).
Qed.

(** A tag at the start of what a client with an empty buffer receives. *)
Lemma first_tag fuel c l tag r e :
  client_ok c -> buffered c = [] -> net c = Poll_in [tag ++ r] :: l -> head tag = Some c_lt -> tag_len (tag ++ r) = Some (length tag) ->
  (forall c, ngeclient_handle_tag tag c = Done (e, c)) -> state_type e <> 0 ->
  exists c', get_next_event (S fuel) c = Done (Some e, c') /\ client_ok c' /\ buffered c' = r /\ net c' = l.
Proof.
  intros Hok Hb En Hh Hlen Hev He. destruct tag as [|x tag]; [done|]. injection Hh as ->. set (t := c_lt :: tag) in *.
  pose proof Hok as (Hs & Hn & Hl). rewrite Hb in Hl. rewrite En in Hn.
  set (c1 := c <| net := l |> <| read_buffer := Some (t ++ r) |> <| read_buffer_len := Z.of_nat (length (t ++ r)) |>).
  assert (E1 : ngeclient_poll_for_input c = Done (Z.of_nat (length (t ++ r)), c1)).
  { unfold ngeclient_poll_for_input. rewrite then_asks, En, then_modify. unfold ngeclient_read_and_fill_buffer. rewrite then_asks.
    change (sock (id ?x)) with (sock c). destruct (Z.leb_spec (sock c) 0); [lia|]. rewrite (then_deref _ _ _ []).
    - rewrite recv_loop_all by (by repeat constructor). cbn [concat app]. rewrite app_nil_r. done.
    - unfold buffered in Hb. change (read_buffer (id (c <| net := l |>))) with (read_buffer c).
      change (read_buffer_len (id (c <| net := l |>))) with (read_buffer_len c). destruct (read_buffer c); [cbn in Hb; by subst|]. by rewrite Hl. }
  cbn [get_next_event]. rewrite (mthen_run _ _ _ _ _ E1), then_asks.
  assert (Enr : nothing_read c1 = false) by (apply Z.ltb_ge; cbn; lia). rewrite Enr, then_pure, then_asks.
  change (nothing_read (id c1)) with (nothing_read c1). rewrite Enr. cbn [tag_loop]. rewrite then_asks.
  change (read_buffer (id c1)) with (Some (t ++ r)). cbv iota.
  assert (Eend : ends (t ++ r) || (read_buffer_len (id c1) <? 1) = false) by (apply orb_false_iff; split; [done|apply Z.ltb_ge; cbn; lia]).
  rewrite Eend. unfold skip_newlines. rewrite then_then, then_asks. change (read_buffer c1) with (Some (t ++ r)). cbv iota.
  assert (Edw : drop_while is_nl (t ++ r) = t ++ r) by done. rewrite Edw. unfold put_buffer at 1. rewrite then_modify.
  rewrite (then_deref _ _ _ (t ++ r)) by done. change (ends (t ++ r)) with false. cbv iota.
  rewrite bool_decide_eq_true_2 by done. cbn [negb]. rewrite Hlen. unfold ngeclient_cut_buffert. rewrite then_then, then_asks.
  change (read_buffer (id (_ <| read_buffer_len := _ |>))) with (Some (t ++ r)). cbv iota.
  change (read_buffer_len (id (_ <| read_buffer_len := _ |>))) with (Z.of_nat (length (t ++ r))).
  assert (Ecut : (length t =? 0)%nat || (Z.of_nat (length (t ++ r)) <? 1) = false) by (apply orb_false_iff; split; [done|apply Z.ltb_ge; cbn; lia]).
  rewrite Ecut, take_app_length, drop_app_length. unfold put_buffer. rewrite then_modify.
  rewrite (mthen_run _ _ _ _ _ (Hev _)). rewrite (proj2 (Z.eqb_neq _ _) He). cbn [negb].
  eexists. split; [done|]. split; [|done]. split; [exact Hs|]. split; [by apply Forall_inv_tail in Hn|done].
Qed.

(** Output arrives when it comes in one piece: a client that has read all
    before gets the output of a service, with the names of the service and of
    the process, as long as it is not empty, has no < and no />, and keeps what
    follows. *)
Theorem output_arrives_whole fuel c l name process out r :
  client_ok c -> buffered c = [] -> plain name = true -> plain process = true -> text_ok out ->
  net c = Poll_in [output_text name process out ++ r] :: l ->
  exists c', get_next_event (S fuel) c = Done (Some (SERVICE_OUTPUT (Some name) (Some process) (Some out)), c') /\
    buffered c' = c_nl :: r /\ net c' = l.
Proof.
  intros Hok Hb Hn Hp Ho En. destruct (output_delivers name process out Hn Hp Ho) as (tag & Et & Hh & Hend & Hev).
  rewrite Et, <- app_assoc in En. destruct (first_tag fuel c l tag ([c_nl] ++ r) _ Hok Hb En Hh (Hend _) Hev) as (c' & E & _ & Hb' & Hn'); [done|].
  by exists c'.
Qed.

(** C39: a cut end tag loses the connection.  When the kernel hands the client
    the output of a service up to the middle of its end tag, and the rest with
    the next answer, the client takes what it has for the whole tag and hands
    out the output; the rest of the end tag then stands where a tag should
    start, and no later call ever gives an event again, whatever initng sends. *)
Theorem cut_end_tag_wedges_the_client k fuel c l j name process out later :
  client_ok c -> buffered c = [] -> plain name = true -> plain process = true -> text_ok out -> (2 <= j <= 7)%nat ->
  net c = Poll_in [output_front name process out ++ take j (chars_of "</event>")] ::
          Poll_in [drop j (chars_of "</event>") ++ c_nl :: later] :: l ->
  exists c', collect (S k) (S fuel) c = Done ([SERVICE_OUTPUT (Some name) (Some process) (Some out)], c').
Proof.
  intros Hok Hb Hn Hp Ho Hj En. set (front := output_front name process out) in *.
  assert (Hcalm : calm (front ++ [c_lt]) = true) by (apply content_calm; [done|done|plain_values|done]).
  assert (Hex : exists rest x after, take j (chars_of "</event>") = c_lt :: c_slash :: rest /\ Forall (fun y => y ∉ [c_nul; c_gt]) rest /\
    drop j (chars_of "</event>") = x :: after /\ x <> c_lt /\ x <> c_nl /\ x <> c_nul).
  { assert (Hjs : j ∈ seq 2 6) by (apply list_elem_of_In, in_seq; lia). cbn [seq] in Hjs.
    repeat (apply elem_of_cons in Hjs as [->|Hjs]; [eexists _, _, _; split; [done|]; split; [apply (bool_decide_unpack _); by vm_compute|done]|]).
    by apply not_elem_of_nil in Hjs. }
  destruct Hex as (rest & x & after & Etake & Hrest & Edrop & X1 & X2 & X3).
  assert (Hlen : tag_len ((front ++ take j (chars_of "</event>")) ++ []) = Some (length (front ++ take j (chars_of "</event>")))).
  { rewrite app_nil_r, Etake. rewrite tag_len_calm by done. rewrite length_app.
    assert (Hk : strcspn rest [c_nul; c_gt] = length rest).
    { clear -Hrest. induction Hrest as [|y rest Hy _ IH]; [done|]. cbn [strcspn length].
      destruct (mem_char y [c_nul; c_gt]) eqn:Em; [by apply mem_char_spec in Em|]. by rewrite IH. }
    change (tag_len (c_lt :: c_slash :: rest)) with (let k := strcspn rest [c_nul; c_gt] in
      Some (2 + k + (if bool_decide (rest !! k = Some c_gt) then 1 else 0))%nat). cbv zeta. rewrite Hk.
    rewrite (lookup_ge_None_2 rest) by done. rewrite bool_decide_eq_false_2 by done. cbn. f_equal. lia. }
  assert (En' : net c = Poll_in [(front ++ take j (chars_of "</event>")) ++ []] :: Poll_in [drop j (chars_of "</event>") ++ c_nl :: later] :: l)
    by (by rewrite app_nil_r).
  destruct (first_tag fuel c _ _ [] (SERVICE_OUTPUT (Some name) (Some process) (Some out)) Hok Hb En') as (c1 & E1 & Hok1 & Hb1 & Hn1);
    [done|done| |done|].
  { intros c0. rewrite Etake. by apply front_event. }
  destruct k as [|k]; [exists c1; by rewrite (collect_then _ _ _ _ _ _ _ E1 (eq_refl : collect 0 (S fuel) c1 = Done ([], c1)))|].
  destruct (poll_run c1 Hok1) as (n2 & c2 & E2 & Hok2 & Hu2 & Hl2 & more & Hb2). rewrite Hb1 in Hb2.
  assert (Hx : exists r, buffered c2 = x :: r).
  { rewrite Edrop in Hn1. revert E2. unfold ngeclient_poll_for_input. rewrite then_asks, Hn1, then_modify.
    unfold ngeclient_read_and_fill_buffer. rewrite then_asks. destruct (sock _ <=? 0); [done|]. unfold deref, mthen at 1.
    destruct (match read_buffer _ with Some b => _ | None => _ end) as [b|] eqn:Ebuf; [|done].
    assert (b = []) as ->. { revert Ebuf. change (read_buffer (id (c1 <| net := ?n |>))) with (read_buffer c1). unfold buffered in Hb1.
      destruct (read_buffer c1); [cbn in Hb1; by intros [= <-]|]. by destruct (_ =? _); intros [= <-]. }
    cbn [recv_loop app]. unfold put_buffer. rewrite then_modify. intros [= _ <-]. unfold buffered. cbn. by eexists. }
  destruct Hx as [r Hr]. destruct (stuck_after fuel c1 n2 c2 x r E2 Hok2 Hr X1 X2 X3) as (c3 & r3 & E3 & Hok3 & Hb3).
  destruct (stuck_collects_nothing k fuel c3 x r3 Hok3 Hb3 X1 X2 X3) as [c4 E4].
  exists c4. by rewrite (collect_then _ _ _ _ _ _ _ E1 (collect_then _ _ _ _ _ _ _ E3 E4)).
Qed.

Lemma tag_len_two b n : tag_len b = Some n -> (2 <= n)%nat.
Proof.
  revert n. induction b as [|c b IH]; intros n; cbn [tag_len]; [done|]. destruct (is_end c); [done|].
  assert (Hs : forall n, S <$> tag_len b = Some n -> (2 <= n)%nat).
  { intros m. destruct (tag_len b) as [k|]; [|done]. intros [= <-]. specialize (IH k eq_refl). lia. }
  destruct b as [|d b]; [apply Hs|]. destruct (_ && _); [by intros [= <-]|]. destruct (_ && _); [intros [= <-]; lia|apply Hs].
Qed.

Lemma no_disconnect_tag b n : tag_len b = Some n -> drop 1 (take n b) <> chars_of "disconnect>".
Proof.
  intros Hn E. pose proof (tag_len_two b n Hn) as H2. destruct b as [|x b]; [done|]. destruct n as [|n]; [lia|].
  change (take n b = chars_of "disconnect>") in E.
  assert (Hb : exists r, b = chars_of "disconnect>" ++ r /\ n = 11%nat).
  { exists (drop n b). split; [rewrite <- E; symmetry; apply take_drop|]. assert (Hl : length (take n b) = 11%nat) by (by rewrite E).
    rewrite length_take in Hl. destruct (Nat.le_gt_cases n (length b)); [lia|].
    assert (b = chars_of "disconnect>") as -> by (by rewrite <- E, take_ge by lia). exfalso. clear -Hn. cbn in Hn. by destruct (is_end x), (Ascii.eqb x c_slash), (Ascii.eqb x c_lt). }
  destruct Hb as (r & -> & ->). clear E.
  assert (Hlen : tag_len (x :: chars_of "disconnect>" ++ r) = (if is_end x then None else Nat.add 12 <$> tag_len r)).
  { cbn. destruct (is_end x); [done|]. rewrite !andb_false_r. destruct r as [|y r]; [done|]. destruct (tag_len (y :: r)); done. }
  rewrite Hlen in Hn. destruct (is_end x); [done|]. destruct (tag_len r) as [k|] eqn:Ek; [|done]. injection Hn as Hn. apply tag_len_two in Ek. lia.
Qed.

(** No tag is the end of a connection: neither the text that initng sends when it
    closes a listener nor any other makes the client hand out DISCONNECT. *)
Theorem disconnect_is_never_seen b n c e c' :
  tag_len b = Some n -> ngeclient_handle_tag (take n b) c = Done (e, c') -> e <> DISCONNECT.
Proof.
  intros Hn%no_disconnect_tag H ->. revert H. unfold ngeclient_handle_tag. case_bool_decide; [done|].
  rewrite (bool_decide_eq_false_2 (drop 1 _ = _)) by done. destruct (is_prefix _ _).
  - unfold ngeclient_handle_event. intros H0. run_inv. destruct a as [type|]; [|done]. cbv zeta in H0.
    unfold ngeclient_handle_service_state_change, ngeclient_handle_system_state_change, ngeclient_handle_service_output,
      ngeclient_handle_process_killed, ngeclient_handle_err_msg, ngeclient_handle_initial_service_state,
      ngeclient_handle_initial_system_state, ngeclient_handle_initial_state_finished, ngeclient_handle_ping in H0.
    repeat match type of H0 with (if ?b then _ else _) _ = _ => destruct b; [run_inv; done|] end. done.
  - destruct (is_prefix _ _); intros H0; [unfold ngeclient_handle_connect in H0|]; run_inv; done.
Qed.

(** nge_raw.c prints what comes first, and reads memory it never wrote when more
    comes: the length of the buffer it frees is kept. *)
Theorem raw_client_reads_unwritten `{NgeNet} argv0 ctldir n a b l1 l2 l :
  0 < net_socket -> (String.length (client_socket argv0 ctldir) < SUN_PATH)%nat -> net_connect net_socket (client_socket argv0 ctldir) = true ->
  a <> [] -> net_input = Poll_in (a :: l1) :: Poll_in (b :: l2) :: l ->
  nge_raw_main argv0 ctldir (S (S n)) = Fault.
Proof.
  intros Hs Hp Hc Ha Hin. unfold nge_raw_main, ngeclient_connect. destruct (Z.ltb_spec net_socket 0); [lia|].
  destruct (Nat.leb_spec SUN_PATH (String.length (client_socket argv0 ctldir))); [lia|]. rewrite Hc, Hin. cbn [negb].
  set (c := NgeConn _ _ _ _ _). cbn [raw_loop].
  assert (E1 : exists got c1, ngeclient_poll_for_input c = Done (got, c1) /\ 0 < got /\ 0 < read_buffer_len c1 /\ sock c1 = net_socket /\ net c1 = Poll_in (b :: l2) :: l).
  { unfold ngeclient_poll_for_input. rewrite then_asks. cbn [net c]. rewrite then_modify. unfold ngeclient_read_and_fill_buffer. rewrite then_asks.
    change (sock (id ?x)) with net_socket. destruct (Z.leb_spec net_socket 0); [lia|]. rewrite (then_deref _ _ _ []) by done.
    destruct (recv_loop (a :: l1) [] 0) as [bf got] eqn:Er. unfold put_buffer. rewrite then_modify. eexists got, _. split; [done|].
    assert (Hg : 0 < got /\ bf <> []).
    { destruct a as [|x a]; [done|]. cbn [recv_loop app] in Er. revert Er.
      assert (Hgen : forall l b0 n0, b0 <> [] -> 0 < n0 -> forall bf got, recv_loop l b0 n0 = (bf, got) -> 0 < got /\ bf <> []).
      { clear. induction l as [|y l IH]; intros b0 n0 Hb Hn bf got; cbn [recv_loop]; [by intros [= <- <-]|].
        destruct y as [|y0 y]; [by intros [= <- <-]|]. apply IH; [by destruct b0|lia]. }
      apply Hgen; [done|]. cbn [length]. lia. }
    destruct Hg as [Hg Hbf]. split; [done|]. split; [|done]. cbn. destruct bf; [done|]. cbn [length]. lia. }
  destruct E1 as (got & c1 & E1 & Hg & Hl & Hsk & Hn). rewrite (mthen_run _ _ _ _ _ E1). destruct (Z.ltb_spec got 0); [lia|].
  rewrite then_asks, then_modify. cbv zeta. unfold ngeclient_poll_for_input at 1. rewrite then_then, then_asks. set (c2 := _ <| ngeclient_error := _ |>).
  change (net c2) with (net c1). rewrite Hn, then_then, then_modify. unfold ngeclient_read_and_fill_buffer. rewrite then_then, then_asks.
  change (sock (id ?x)) with (sock c1). destruct (Z.leb_spec (sock c1) 0); [by rewrite Hsk in *; lia|]. 
  unfold mthen, deref. change (read_buffer (id (c2 <| net := ?x |>))) with (@None chars). cbv iota.
  change (read_buffer_len (id (c2 <| net := ?x |>))) with (read_buffer_len c1). by rewrite (proj2 (Z.eqb_neq _ _)) by lia.
Qed.
