(* ===== verification/NgeHears.v ===== *)
(** * A listener hears everything

    The server of file NgeMod and the client of file NgeClient together: what the
    system does while a listener is connected is what the client hands out. *)
From S2P Require Import Prelude Types Data CString Global ActiveDb Depend Io Poll Interrupt Launch Modules ServiceMod DaemonMod Control.
From S2P Require Import HookMods LogMods NgeMod NgeClient NgeText NgeProps.
From Stdlib Require Import String Ascii.
From stdpp Require Import prelude gmap strings pretty.
Local Open Scope Z_scope.

(** ** No message is longer than its buffer *)

Lemma pretty_N_go_length k x s :
  (x < 10 ^ N.of_nat k)%N -> (length (chars_of (pretty_N_go x s)) <= k + length (chars_of s))%nat.
Proof.
  revert x s. induction k as [|k IH]; intros x s Hx.
  - assert (x = 0)%N as -> by (change (10 ^ N.of_nat 0)%N with 1%N in Hx; lia). done.
  - destruct (decide (x = 0)%N) as [->|Hne]; [rewrite pretty_N_go_0; lia|]. rewrite pretty_N_go_step by lia.
    etransitivity; [apply IH|rewrite !length_chars_of; cbn [String.length]; lia]. rewrite Nat2N.inj_succ, N.pow_succ_r' in Hx. apply N.Div0.div_lt_upper_bound. lia.
Qed.

Lemma dec_length k n : 0 <= n < 10 ^ Z.of_nat (S k) -> (length (dec n) <= S k)%nat.
Proof.
  intros [Hn Hlt]. destruct n as [|p|p]; [cbn; lia| |lia].
  unfold dec, pretty, pretty_Z, pretty, pretty_positive, pretty, pretty_N. rewrite decide_False by done.
  etransitivity; [apply (pretty_N_go_length (S k))|cbn; lia].
  apply N2Z.inj_lt. rewrite N2Z.inj_pow, nat_N_Z. exact Hlt.
Qed.

Lemma dec_is i : (length (dec (e_is_num i)) <= 1)%nat.
Proof. apply (dec_length 0). by destruct i. Qed.
Lemma dec_bool b : (length (dec (of_bool b)) <= 1)%nat.
Proof. apply (dec_length 0). by destruct b. Qed.
Lemma dec_sys st : (length (dec (sys_state_num st)) <= 2)%nat.
Proof. apply (dec_length 1). by destruct st. Qed.
Lemma dec_termsig r : (length (dec (WTERMSIG r)) <= 3)%nat.
Proof.
  apply (dec_length 2). unfold WTERMSIG. change 127 with (Z.ones 7). rewrite Z.land_ones by lia.
  pose proof (Z.mod_pos_bound r (2 ^ 7)). cbn in *. lia.
Qed.
Lemma dec_exitstatus r : (length (dec (WEXITSTATUS r)) <= 3)%nat.
Proof.
  apply (dec_length 2). unfold WEXITSTATUS. rewrite Z.shiftr_land. change (Z.shiftr 65280 8) with (Z.ones 8). rewrite Z.land_ones by lia.
  pose proof (Z.mod_pos_bound (Z.shiftr r 8) (2 ^ 8)). cbn in *. lia.
Qed.

Lemma length_attr k v : length (attr k v) = (4 + String.length k + length v)%nat.
Proof. unfold attr. cbn [length]. rewrite !length_app, length_chars_of. cbn. lia. Qed.
Lemma length_attrs l : length (attrs l) = sum_list (map (fun a => 4 + String.length (fst a) + length (snd a))%nat l).
Proof. induction l as [|[k v] l IH]; [done|]. unfold attrs in *. cbn [map concat sum_list]. by rewrite length_app, IH, length_attr. Qed.

Ltac text_fits :=
  unfold connect_text, initial_system_text, initial_service_text, finished_text, killed_text, change_text, system_text, output_text,
    closed_tag, spaced_tag, event_tag;
  rewrite ?length_app, ?length_attrs, ?length_attr; cbn [map sum_list sum_list_with fst snd foldr]; rewrite ?length_app, ?length_chars_of; cbn [String.length length id].

Lemma killed_fits name st pt r :
  (length (killed_text name st pt r) < 180 + length name + String.length (st_name st) + length pt)%nat.
Proof. pose proof (dec_is (st_is st)). pose proof (dec_termsig r). pose proof (dec_exitstatus r). text_fits. lia. Qed.
Lemma change_fits name st a b ty :
  0 <= a <= 100 -> 0 <= b <= 100 ->
  (length (change_text name st a b ty) < 180 + length name + String.length (st_name st) + String.length (sty_name ty))%nat.
Proof.
  intros Ha Hb. pose proof (dec_is (st_is st)). pose proof (dec_bool (sty_hidden ty)). pose proof (dec_length 2 a ltac:(cbn; lia)).
  pose proof (dec_length 2 b ltac:(cbn; lia)). text_fits. lia.
Qed.
Lemma system_fits st rl : (length (system_text st (chars_of rl)) < 90 + String.length rl)%nat.
Proof. pose proof (dec_sys st). text_fits. lia. Qed.
Lemma output_fits name pt out : (length (output_text name pt out) < 100 + length name + length pt + length out)%nat.
Proof. text_fits. lia. Qed.
Lemma connect_fits v : (length (connect_text (chars_of v)) < 70 + String.length v)%nat.
Proof. pose proof (dec_length 0 NGE_VERSION ltac:(done)). text_fits. lia. Qed.
Lemma initial_system_fits st rl : (length (initial_system_text st rl) < 100 + length rl)%nat.
Proof. pose proof (dec_sys st). text_fits. lia. Qed.
Lemma initial_service_fits name st ty :
  (length (initial_service_text name st ty) < 160 + length name + String.length (st_name st) + String.length (sty_name ty))%nat.
Proof. pose proof (dec_is (st_is st)). pose proof (dec_bool (sty_hidden ty)). text_fits. lia. Qed.
Lemma finished_fits : (length finished_text < 50)%nat.
Proof. by vm_compute; lia. Qed.

Lemma sprintf_run size text g : (length text < size)%nat -> sprintf size text g = Done (text, g).
Proof. intros H. unfold sprintf. by rewrite (proj2 (Nat.ltb_lt _ _) H). Qed.

(** ** Sending *)

(** Only the static variables, the hooks and the count of system calls differ. *)
Definition frame (g g' : s_global) : Prop :=
  g' = g <| g_statics := g_statics g' |> <| g_ticks := g_ticks g' |> <| g_hooks := g_hooks g' |>.

#[export] Instance frame_preorder : PreOrder frame.
Proof.
  split; [by intros []|]. intros g1 g2 g3 H1 H2. unfold frame in *. rewrite H2 at 1. by rewrite H1 at 1.
Qed.

Lemma frame_same g g' :
  frame g g' -> g_heap g' = g_heap g /\ active_services g' = active_services g /\ g_sys_state g' = g_sys_state g /\ g_runlevel g' = g_runlevel g.
Proof. unfold frame. by intros ->. Qed.

(** What has been sent to a descriptor. *)
Definition sent_to (fd : Z) (g : s_global) : chars :=
  concat (map snd (List.filter (fun x => fst x =? fd) (wire (g_statics g)))).

Definition slots (g : s_global) : list Z := listeners (nge (g_statics g)).

(** The listener in slot [i] has the descriptor [fd], and no other has it. *)
Record listens (i : nat) (fd : Z) (g : s_global) : Prop := {
  li_slot : (i < MAX_LISTENERS)%nat;
  li_len : length (slots g) = S MAX_LISTENERS;
  li_fd : slots g !! i = Some fd;
  li_only : forall j, slots g !! j = Some fd -> j = i;
  li_pos : 0 < fd
}.

Section server.
Context `{SS : SockSys} (i : nat) (fd : Z).

(** The kernel takes all that is sent to this descriptor. *)
Hypothesis taken : forall t n, sys_send t fd n = Z.of_nat n.

Lemma nge_send_run text g :
  exists g', do_send fd text g = Done (Z.of_nat (length text), g') /\ frame g g' /\ slots g' = slots g /\ sent_to fd g' = sent_to fd g ++ text.
Proof.
  unfold do_send. rewrite (mthen_run _ _ _ _ _ (syscall_run _ _)). cbv beta. rewrite taken. destruct text as [|x text].
  - eexists. split; [done|]. split; [by destruct g|]. split; [done|]. by rewrite app_nil_r.
  - destruct (Z.ltb_spec 0 (Z.of_nat (length (x :: text)))) as [_|?]; [|cbn in *; lia]. unfold set_statics. rewrite then_modify.
    eexists. split; [done|]. split; [by destruct g|]. split; [done|]. unfold sent_to. set (g' := _ : s_global).
    change (wire (g_statics g')) with (wire (g_statics g) ++ [(fd, take (Z.to_nat (Z.of_nat (length (x :: text)))) (x :: text))]).
    rewrite List.filter_app, map_app, concat_app. cbn [List.filter fst]. rewrite Z.eqb_refl. cbn [map snd concat].
    by rewrite Nat2Z.id, take_ge, app_nil_r.
Qed.

Lemma nge_send_other fd' text g :
  fd' <> fd -> exists n g', do_send fd' text g = Done (n, g') /\ frame g g' /\ slots g' = slots g /\ sent_to fd g' = sent_to fd g.
Proof.
  intros Hne. unfold do_send. rewrite (mthen_run _ _ _ _ _ (syscall_run _ _)). cbv beta. destruct (0 <? _).
  - unfold set_statics. rewrite then_modify. eexists _, _. split; [done|]. split; [by destruct g|]. split; [done|]. unfold sent_to. set (g' := _ : s_global).
    change (wire (g_statics g')) with (wire (g_statics g) ++ [(fd', take (Z.to_nat (sys_send (g_ticks g) fd' (length text))) text)]).
    rewrite List.filter_app, map_app, concat_app. cbn [List.filter fst]. rewrite (proj2 (Z.eqb_neq _ _) Hne). by rewrite app_nil_r.
  - eexists _, _. split; [done|]. split; [by destruct g|done].
Qed.

Lemma listens_same g g' : slots g' = slots g -> listens i fd g -> listens i fd g'.
Proof. intros E [H1 H2 H3 H4 H5]. split; rewrite ?E; done. Qed.

(** One listener: ours gets the text, another may be dropped. *)
Lemma send_to_run text j g :
  listens i fd g -> (j < MAX_LISTENERS)%nat ->
  exists g', send_to text j g = Done (tt, g') /\ frame g g' /\ listens i fd g' /\
    sent_to fd g' = sent_to fd g ++ (if decide (j = i) then text else []).
Proof.
  intros Hl Hj. destruct (lookup_lt_is_Some_2 (slots g) j) as [x Hx]; [rewrite (li_len _ _ _ Hl); lia|].
  unfold send_to, listener. rewrite (then_deref _ _ _ x) by done. destruct (decide (j = i)) as [->|Hne].
  - rewrite (li_fd _ _ _ Hl) in Hx. injection Hx as <-. destruct (Z.ltb_spec fd 1) as [?|_]; [pose proof (li_pos _ _ _ Hl); lia|].
    destruct (nge_send_run text g) as (g' & E & Hf & Hs & Hw). rewrite (mthen_run _ _ _ _ _ E), Z.ltb_irrefl.
    exists g'. split; [done|]. split; [done|]. split; [by eapply listens_same|done].
  - rewrite app_nil_r. destruct (x <? 1); [by exists g|].
    assert (Hfd : x <> fd) by (intros ->; by apply Hne, (li_only _ _ _ Hl)).
    destruct (nge_send_other x text g Hfd) as (n & g' & E & Hf & Hs & Hw). rewrite (mthen_run _ _ _ _ _ E).
    destruct (n <? _); [|exists g'; split; [done|]; split; [done|]; split; [by eapply listens_same|done]].
    unfold set_listener, set_nge_var, set_statics, modify. eexists. split; [done|]. split; [rewrite Hf; by destruct g|]. split; [|done].
    destruct (listens_same g g' Hs Hl) as [H1 H2 H3 H4 H5]. set (g2 := _ : s_global).
    assert (E2 : slots g2 = <[j := -1]> (slots g')) by done. split; rewrite ?E2; try done.
    + by rewrite length_insert.
    + by rewrite list_lookup_insert_ne.
    + intros k Hk. destruct (decide (k = j)) as [->|Hkj]; [|rewrite list_lookup_insert_ne in Hk by done; by apply H4].
      rewrite list_lookup_insert_eq in Hk by (rewrite H2; lia). injection Hk as Hk. lia.
Qed.

Lemma send_loop_run text (js : list nat) g :
  listens i fd g -> Forall (fun j => (j < MAX_LISTENERS)%nat) js ->
  exists g', for_each (R := unit) js (fun j => send_to text j ;;; mpure None) g = Done (None, g') /\ frame g g' /\ listens i fd g' /\
    sent_to fd g' = sent_to fd g ++ concat (map (fun j => if decide (j = i) then text else []) js).
Proof.
  intros Hl Hjs. revert g Hl. induction Hjs as [|j js Hj _ IH]; intros g Hl.
  - exists g. split; [done|]. split; [done|]. split; [done|]. by rewrite app_nil_r.
  - destruct (send_to_run text j g Hl Hj) as (g1 & E1 & F1 & L1 & S1). destruct (IH g1 L1) as (g2 & E2 & F2 & L2 & S2).
    exists g2. cbn [for_each]. rewrite then_then, (mthen_run _ _ _ _ _ E1), then_pure. split; [done|]. split; [by etransitivity|]. split; [done|].
    rewrite S2, S1. cbn [map concat]. by rewrite app_assoc.
Qed.

Lemma once (text : chars) n m : (m <= i < m + n)%nat -> concat (map (fun j => if decide (j = i) then text else []) (seq m n)) = text.
Proof.
  revert m. induction n as [|n IH]; intros m Hi; [lia|]. cbn [seq map concat]. destruct (decide (m = i)) as [->|Hne].
  - assert (E : concat (map (fun j => if decide (j = i) then text else []) (seq (S i) n)) = []); [|by rewrite E, app_nil_r].
    assert (Hlt : (i < S i)%nat) by lia. revert Hlt. generalize (S i) as m. clear Hi IH. induction n as [|n IHn]; intros m Hm; [done|]. cbn [seq map concat].
    rewrite decide_False by lia. apply (IHn (S m)). lia.
  - apply IH. lia.
Qed.

(** Every listener gets the text once. *)
Lemma send_to_all_run text g :
  listens i fd g -> exists g', send_to_all text g = Done (tt, g') /\ frame g g' /\ listens i fd g' /\ sent_to fd g' = sent_to fd g ++ text.
Proof.
  intros Hl. destruct (send_loop_run text (seq 0 MAX_LISTENERS) g Hl) as (g' & E & F & L & S).
  { apply Forall_forall. intros j Hj%list_elem_of_In%in_seq. lia. }
  exists g'. unfold send_to_all. rewrite (mthen_run _ _ _ _ _ E). split; [done|]. split; [done|]. split; [done|].
  rewrite S, once; [done|]. pose proof (li_slot _ _ _ Hl). lia.
Qed.

(** ** Events *)

(** What an event tells a listener, in the state it is sent in. *)
Inductive told (g : s_global) (e : s_event) : message -> Prop :=
| Told_change s a ty :
  ev_type e = EVENT_STATE_CHANGE -> ev_data e = ED_service s -> g_heap g !! s = Some a -> a_type a = Some ty ->
  plain_string (a_name a) = true -> plain_string (st_name (a_current_state a)) = true -> plain_string (sty_name ty) = true ->
  let started := if decide (g_sys_state g = STATE_STARTING) then initng_active_db_percent_started g else 0 in
  let stopped := if decide (g_sys_state g = STATE_STOPPING) then initng_active_db_percent_stopped g else 0 in
  told g e (change_text (chars_of (a_name a)) (a_current_state a) started stopped ty,
    SERVICE_STATE_CHANGE (Some (chars_of (a_name a))) (e_is_num (GET_STATE a)) (Some (chars_of (st_name (a_current_state a))))
      started stopped (Some (chars_of (sty_name ty))) (of_bool (sty_hidden ty)))
| Told_system st rl :
  ev_type e = EVENT_SYSTEM_CHANGE -> ev_data e = ED_sys_state st -> g_runlevel g = Some rl -> plain_string rl = true ->
  told g e (system_text st (chars_of rl), SYSTEM_STATE_CHANGE (sys_state_num st) (Some (chars_of rl)))
| Told_killed s p a q :
  ev_type e = EVENT_HANDLE_KILLED -> ev_data e = ED_process s p -> g_heap g !! s = Some a -> get_process s p g = Done (q, g) ->
  plain_string (a_name a) = true -> plain_string (st_name (a_current_state a)) = true -> plain_string (pty_name (p_pt q)) = true ->
  told g e (killed_text (chars_of (a_name a)) (a_current_state a) (chars_of (pty_name (p_pt q))) (p_r_code q),
    PROCESS_KILLED (Some (chars_of (a_name a))) (e_is_num (GET_STATE a)) (Some (chars_of (st_name (a_current_state a))))
      (Some (chars_of (pty_name (p_pt q)))) (WEXITSTATUS (p_r_code q)) (WTERMSIG (p_r_code q))).

(** The function of the module that forwards an event. *)
Definition hear (e : s_event) : G s_event :=
  match List.find (fun h => bool_decide (fst h = ev_type e)) forwarding with
  | Some h => nge_hook (fun _ e => mpure e) (snd h) e
  | None => mpure e
  end.

Lemma told_says g e m : told g e m -> says (fst m) (snd m).
Proof.
  pose proof (percent_in_range g) as [[P1 _] [P2 _]].
  intros [s a ty _ _ _ _ H1 H2 H3 started stopped|st rl _ _ _ H1|s p a q _ _ _ _ H1 H2 H3]; cbn [fst snd].
  - apply (Says_change (chars_of (a_name a)) (a_current_state a) started stopped ty); try done.
    + unfold started. destruct (decide (g_sys_state g = STATE_STARTING)); lia.
    + unfold stopped. destruct (decide (g_sys_state g = STATE_STOPPING)); lia.
  - by apply (Says_system st (chars_of rl)).
  - by apply (Says_killed (chars_of (a_name a)) (a_current_state a) (chars_of (pty_name (p_pt q))) (p_r_code q)).
Qed.

Lemma says_long t e : says t e -> (1 <? length t)%nat = true.
Proof. intros [_ (b & -> & _)]%says_delivers. apply Nat.ltb_lt. rewrite length_app. cbn. lia. Qed.

(** What the sends leave alone. *)
Definition same_hooks (g g' : s_global) : Prop :=
  g_hooks g' = g_hooks g /\ acceptor_fds (nge (g_statics g')) = acceptor_fds (nge (g_statics g)) /\
  is_active (nge (g_statics g')) = is_active (nge (g_statics g)) /\ sock_stat (nge (g_statics g')) = sock_stat (nge (g_statics g)).

#[export] Instance same_hooks_preorder : PreOrder same_hooks.
Proof. split; [done|]. intros g1 g2 g3 (A1 & A2 & A3 & A4) (B1 & B2 & B3 & B4). unfold same_hooks. by rewrite B1, B2, B3, B4. Qed.

Lemma steps_send_to_all text : steps same_hooks (send_to_all text).
Proof.
  unfold send_to_all, send_to, listener, do_send, set_listener, set_nge_var, set_statics, syscall.
  repeat first [steps_step|apply steps_modify; by intros g].
Qed.

(** Send the text of an event. *)
Lemma tell_run (e : s_event) text size g ev :
  listens i fd g -> says text ev -> (length text < size)%nat ->
  exists g', (let! text := sprintf size text in (if (1 <? length text)%nat then send_to_all text else mpure tt) ;;; mpure e) g = Done (e, g') /\
    same_hooks g g' /\ listens i fd g' /\ sent_to fd g' = sent_to fd g ++ text.
Proof.
  intros Hl Hs Hfit. rewrite (mthen_run _ _ _ _ _ (sprintf_run _ _ _ Hfit)), (says_long _ _ Hs).
  destruct (send_to_all_run text g Hl) as (g' & E & F & L & S). exists g'. rewrite (mthen_run _ _ _ _ _ E).
  split; [done|]. split; [by apply (steps_send_to_all text _ _ _ E)|done].
Qed.

Lemma told_run g e m :
  listens i fd g -> told g e m ->
  exists g', hear e g = Done (e, g') /\ same_hooks g g' /\ listens i fd g' /\ sent_to fd g' = sent_to fd g ++ fst m.
Proof.
  intros Hl Ht. pose proof (told_says g e m Ht) as Hs. pose proof (percent_in_range g) as [[P1 _] [P2 _]]. unfold hear.
  destruct Ht as [s a ty E1 E2 Ha Hty _ _ _ started stopped|st rl E1 E2 Hr _|s p a q E1 E2 Ha Hq _ _ _]; rewrite E1;
    cbn [List.find fst forwarding snd fst] in *; rewrite ?bool_decide_eq_false_2, bool_decide_eq_true_2 by done; cbn [snd].
  - change (nge_hook _ astatus_change_ptr e) with (astatus_change e). unfold astatus_change, on_service. rewrite E2.
    rewrite (mthen_run _ _ _ _ _ (get_service_run _ _ _ Ha)), (then_deref _ _ _ ty) by done. rewrite then_asks. cbv zeta.
    eapply tell_run; [done|exact Hs|].
    apply change_fits; [destruct (decide (_ = STATE_STARTING)); lia|destruct (decide (_ = STATE_STOPPING)); lia].
  - change (nge_hook _ system_state_change_ptr e) with (system_state_change e). unfold system_state_change. rewrite E2.
    rewrite (then_deref _ _ _ rl) by done. eapply tell_run; [done|exact Hs|]. apply system_fits.
  - change (nge_hook _ nge_handle_killed_ptr e) with (nge_handle_killed e). unfold nge_handle_killed. rewrite E2.
    rewrite (mthen_run _ _ _ _ _ (get_service_run _ _ _ Ha)), (mthen_run _ _ _ _ _ Hq). cbv zeta.
    eapply tell_run; [done|exact Hs|]. apply killed_fits.
Qed.

(** ** A new listener *)

Definition service_message (a : active_db_h) : option message :=
  ty ← a_type a;
  Some (initial_service_text (chars_of (a_name a)) (a_current_state a) ty,
    INITIAL_SERVICE_STATE_CHANGE (Some (chars_of (a_name a))) (e_is_num (GET_STATE a)) (Some (chars_of (st_name (a_current_state a)))) 0 0
      (Some (chars_of (sty_name ty))) (of_bool (sty_hidden ty))).

(** What a new listener is told first. *)
Definition initial_messages (g : s_global) : list message :=
  let runlevel := chars_of (default ""%string (g_runlevel g)) in
  [(header_text, PING);
   (connect_text (chars_of INITNG_VERSION), CONNECT NGE_VERSION (Some (chars_of INITNG_VERSION)));
   (initial_system_text (g_sys_state g) runlevel, INITIAL_SYSTEM_STATE_CHANGE (sys_state_num (g_sys_state g)) (Some runlevel))] ++
  omap (fun x => service_message (snd x)) (active_services g) ++
  [(finished_text, INITIAL_STATE_FINISHED)].

(** Every service has a type, and no name has a char of the markup. *)
Definition plain_service (a : active_db_h) : bool :=
  plain_string (a_name a) && plain_string (st_name (a_current_state a)) &&
  match a_type a with Some ty => plain_string (sty_name ty) | None => false end.
Definition plain_system (g : s_global) : bool :=
  plain_string INITNG_VERSION && plain_string (default ""%string (g_runlevel g)) &&
  forallb (fun x => plain_service (snd x)) (active_services g).

Lemma service_says a m : plain_service a = true -> service_message a = Some m -> says (fst m) (snd m).
Proof.
  unfold plain_service, service_message. destruct (a_type a) as [ty|]; [|done]. intros [[H1 H2]%andb_prop H3]%andb_prop [= <-].
  by apply (Says_initial_service (chars_of (a_name a)) (a_current_state a) ty).
Qed.

Lemma initial_says g : plain_system g = true -> Forall (fun m => says (fst m) (snd m)) (initial_messages g).
Proof.
  intros [[H1 H2]%andb_prop H3]%andb_prop. unfold initial_messages. repeat apply Forall_cons_2.
  - apply Says_header.
  - by apply Says_connect.
  - by apply Says_initial_system.
  - apply Forall_app_2; [|apply Forall_cons_2; [apply Says_finished|apply Forall_nil_2]]. apply Forall_forall. intros m (x & Hx & Em)%list_elem_of_omap.
    rewrite forallb_forall in H3. eapply service_says; [|exact Em]. by apply H3, list_elem_of_In.
Qed.

Lemma services_run (l : list (addr * active_db_h)) g :
  forallb (fun x => plain_service (snd x)) l = true ->
  exists g', for_each (R := unit) l (fun x => send_service fd (snd x) ;;; mpure None) g = Done (None, g') /\ frame g g' /\ slots g' = slots g /\
    sent_to fd g' = sent_to fd g ++ concat (map fst (omap (fun x => service_message (snd x)) l)).
Proof.
  revert g. induction l as [|[s a] l IH]; intros g Hl.
  - exists g. split; [done|]. split; [done|]. split; [done|]. by rewrite app_nil_r.
  - cbn [forallb snd] in Hl. apply andb_prop in Hl as [Ha Hl]. unfold plain_service in Ha. destruct (a_type a) as [ty|] eqn:Ety; [|by rewrite andb_false_r in Ha].
    set (text := initial_service_text (chars_of (a_name a)) (a_current_state a) ty).
    destruct (nge_send_run text g) as (g1 & E1 & F1 & S1 & W1). destruct (IH g1 Hl) as (g2 & E2 & F2 & S2 & W2). exists g2.
    assert (E : send_service fd a g = Done (tt, g1)).
    { unfold send_service. rewrite (then_deref _ _ _ ty) by done. rewrite (mthen_run _ _ _ _ _ (sprintf_run _ _ _ (initial_service_fits _ _ _))).
      by rewrite (mthen_run _ _ _ _ _ E1). }
    cbn [for_each snd]. rewrite then_then, (mthen_run _ _ _ _ _ E), then_pure. split; [done|]. split; [by etransitivity|]. split; [by rewrite S2|].
    rewrite W2, W1. cbn [omap list_omap snd]. unfold service_message at 2. rewrite Ety. cbn [mbind option_bind map fst concat]. by rewrite app_assoc.
Qed.

Lemma initial_run g :
  plain_system g = true ->
  exists g', send_initial fd g = Done (tt, g') /\ frame g g' /\ slots g' = slots g /\
    sent_to fd g' = sent_to fd g ++ concat (map fst (initial_messages g)).
Proof.
  intros [[H1 H2]%andb_prop H3]%andb_prop. unfold send_initial, initial_messages.
  destruct (nge_send_run header_text g) as (g1 & E1 & F1 & S1 & W1). rewrite (mthen_run _ _ _ _ _ E1).
  rewrite (mthen_run _ _ _ _ _ (sprintf_run _ _ _ (connect_fits _))).
  destruct (nge_send_run (connect_text (chars_of INITNG_VERSION)) g1) as (g2 & E2 & F2 & S2 & W2). rewrite (mthen_run _ _ _ _ _ E2), then_asks.
  assert (F : frame g g2) by (by etransitivity). destruct (frame_same _ _ F) as (_ & Fs & Fst & Fr). cbv zeta.
  change (id g2) with g2. rewrite Fs, Fst, Fr. set (rl := chars_of (default ""%string (g_runlevel g))).
  rewrite (mthen_run _ _ _ _ _ (sprintf_run _ _ _ (initial_system_fits _ _))).
  destruct (nge_send_run (initial_system_text (g_sys_state g) rl) g2) as (g3 & E3 & F3 & S3 & W3). rewrite (mthen_run _ _ _ _ _ E3).
  destruct (services_run (active_services g) g3 H3) as (g4 & E4 & F4 & S4 & W4). rewrite (mthen_run _ _ _ _ _ E4).
  rewrite (mthen_run _ _ _ _ _ (sprintf_run _ _ _ finished_fits)).
  destruct (nge_send_run finished_text g4) as (g5 & E5 & F5 & S5 & W5). rewrite (mthen_run _ _ _ _ _ E5).
  exists g5. split; [done|]. split; [by repeat (etransitivity; [eassumption|])|]. split; [congruence|].
  rewrite W5, W4, W3, W2, W1. cbn [app map fst concat]. rewrite map_app, concat_app. cbn [map fst concat]. by rewrite app_nil_r, <- !app_assoc.
Qed.

End server.

(** A listener is accepted with the descriptor [fd], which nothing has used. *)
Record accepts `{SockSys} (fd : Z) (g : s_global) : Prop := {
  ac_len : length (slots g) = S MAX_LISTENERS;
  ac_room : (first_free (slots g) 0 < MAX_LISTENERS)%nat;
  ac_fd : sys_accept (g_ticks g) (acceptor_fds (nge (g_statics g))) = fd;
  ac_pos : 0 < fd;
  ac_new : fd ∉ slots g;
  ac_unused : sent_to fd g = []
}.

(** ** What may happen while a listener is there *)

(** Each hook that forwards events is in place, once. *)
Definition in_place (g : s_global) : Prop :=
  Forall (fun h => length (List.filter (fun c => Pos.eqb (c_pointer c) (snd h)) (g_hooks g (fst h))) = 1%nat) forwarding.
(** There is none of them. *)
Definition not_in_place (g : s_global) : Prop :=
  Forall (fun h => List.filter (fun c => Pos.eqb (c_pointer c) (snd h)) (g_hooks g (fst h)) = []) forwarding.

(** The hooks are there exactly when the module says so. *)
Definition hooks_ready (g : s_global) : Prop :=
  (is_active (nge (g_statics g)) = FALSE /\ not_in_place g) \/ (is_active (nge (g_statics g)) = TRUE /\ in_place g).

(** What other parts of the system do: not with the variables of the module, nor
    to this listener, nor with the hooks of the module. *)
Definition undisturbed (fd : Z) (g g' : s_global) : Prop :=
  nge (g_statics g') = nge (g_statics g) /\ sent_to fd g' = sent_to fd g /\ (in_place g -> in_place g').

Section history.
Context `{CB : Callbacks, SS : SockSys} (fd : Z).

(** The hooks in front of ours, and a run of them that passes the event on. *)
Fixpoint ahead (f : fptr) (l : list s_call) : list s_call :=
  match l with
  | c :: l => if Pos.eqb (c_pointer c) f then [] else c :: ahead f l
  | [] => []
  end.
Fixpoint behind (f : fptr) (l : list s_call) : list s_call :=
  match l with
  | c :: l => if Pos.eqb (c_pointer c) f then l else behind f l
  | [] => []
  end.
Inductive passes : list s_call -> s_event -> s_global -> s_event -> s_global -> Prop :=
| Passes_all e g : passes [] e g e g
| Passes_one c l e g e1 g1 e2 g2 :
  call_hook (c_pointer c) e g = Done (e1, g1) -> ev_status e1 <> HANDLED -> ev_status e1 <> FAILED -> ev_type e1 = ev_type e ->
  undisturbed fd g g1 -> passes l e1 g1 e2 g2 -> passes (c :: l) e g e2 g2.

(** - An event about a change is sent, through the hooks that are registered for
      it: those in front of ours let it pass, [m] is what it tells in the state
      they leave, and those behind leave the module alone;
    - another listener is accepted, with another descriptor;
    - anything else that leaves the module alone. *)
Inductive history : s_global -> list message -> s_global -> Prop :=
| History_end g : history g [] g
| History_event g e h e1 ga m e' g1 ms g2 :
  h ∈ forwarding -> ev_type e = fst h ->
  passes (ahead (snd h) (g_hooks g (fst h))) (e <| ev_status := WAITING |>) g e1 ga -> told ga e1 m ->
  (forall gb e2 gc, hear e1 ga = Done (e1, gb) -> send_loop (behind (snd h) (g_hooks g (fst h))) e1 gb = Done (e2, gc) -> undisturbed fd gb gc) ->
  initng_event_send e g = Done (e', g1) -> history g1 ms g2 -> history g (m :: ms) g2
| History_accept g g1 ms g2 :
  sys_accept (g_ticks g) (acceptor_fds (nge (g_statics g))) <> fd -> event_acceptor g = Done (tt, g1) -> history g1 ms g2 -> history g ms g2
| History_other g g1 ms g2 : undisturbed fd g g1 -> history g1 ms g2 -> history g ms g2.
End history.

Section hears.
Context `{CB : Callbacks, SS : SockSys} (fd : Z).
Hypothesis taken : forall t n, sys_send t fd n = Z.of_nat n.
(** The functions of the module are behind their addresses (print_error is not
    modelled). *)
Hypothesis dispatch : forall h e, h ∈ forwarding -> snd h <> nge_print_error_ptr -> call_hook (snd h) e = nge_hook (fun _ e => mpure e) (snd h) e.

(** A listener that hears what is forwarded. *)
Record attentive (i : nat) (g : s_global) : Prop := {
  at_listens : listens i fd g;
  at_active : is_active (nge (g_statics g)) = TRUE;
  at_hooks : in_place g
}.

Lemma attentive_undisturbed i g g' : undisturbed fd g g' -> attentive i g -> attentive i g'.
Proof.
  intros (En & _ & Hp) [H1 H2 H3]. split; [|by rewrite En|by apply Hp]. apply (listens_same i fd g); [|done]. unfold slots. by rewrite En.
Qed.

(** Registering the hooks. *)
Lemma forward_run g :
  not_in_place g ->
  exists g', forward g = Done (tt, g') /\ frame g g' /\ g_statics g' = g_statics g /\ g_ticks g' = g_ticks g /\ in_place g'.
Proof.
  intros Hno. eexists. split; [reflexivity|]. split; [by destruct g|]. split; [done|]. split; [done|].
  unfold not_in_place, in_place, forwarding in Hno |- *. repeat apply Forall_cons in Hno as [? Hno].
  repeat apply Forall_cons_2; [..|apply Forall_nil_2];
    match goal with H : List.filter ?p (g_hooks g (fst (?t, ?f))) = [] |- length (List.filter ?p _) = _ =>
      change (length (List.filter p (g_hooks g (fst (t, f)) ++ [Call f nge_file])) = 1%nat);
      rewrite List.filter_app, length_app, H; reflexivity end.
Qed.

(** The hooks are put in place for the first listener. *)
Lemma activate_run g :
  hooks_ready g ->
  exists g1, (if is_active (nge (g_statics g)) =? FALSE then forward ;;; set_nge_var (fun n => n <| is_active := TRUE |>) else mpure tt) g =
      Done (tt, g1) /\
    frame g g1 /\ g_ticks g1 = g_ticks g /\ slots g1 = slots g /\ acceptor_fds (nge (g_statics g1)) = acceptor_fds (nge (g_statics g)) /\
    sent_to fd g1 = sent_to fd g /\ is_active (nge (g_statics g1)) = TRUE /\ in_place g1.
Proof.
  intros [[Hf Hno]|[Ht Hp]]; [|rewrite Ht; by exists g; repeat split]. rewrite Hf. change (FALSE =? FALSE) with true. cbv iota.
  destruct (forward_run g Hno) as (g0 & E0 & F0 & S0 & T0 & P0). rewrite (mthen_run _ _ _ _ _ E0).
  unfold set_nge_var, set_statics, modify. eexists. split; [done|].
  split; [rewrite F0; by destruct g|]. split; [exact T0|]. unfold slots, sent_to. rewrite <- S0. done.
Qed.

Lemma steps_send_initial fd' : steps same_hooks (send_initial fd').
Proof.
  unfold send_initial, send_service, do_send, set_statics, syscall, sprintf.
  repeat first [steps_step|apply steps_modify; by intros g].
Qed.

#[local] Instance undisturbed_preorder : PreOrder (undisturbed fd).
Proof.
  split; [by intros g; repeat split|]. intros g1 g2 g3 (A1 & A2 & A3) (B1 & B2 & B3). split; [congruence|]. split; [congruence|]. auto.
Qed.

(** What is sent to another descriptor. *)
Lemma steps_send_other fd' text : fd' <> fd -> steps (undisturbed fd) (do_send fd' text).
Proof.
  intros Hne. unfold do_send, set_statics, syscall. repeat first [steps_step|apply steps_modify; by intros g; repeat split].
  apply steps_modify. intros g. split; [done|]. split; [|done]. unfold sent_to. cbn [wire g_statics setf set_g_statics set_wire].
  rewrite List.filter_app, map_app, concat_app. cbn [List.filter fst]. rewrite (proj2 (Z.eqb_neq _ _) Hne). by rewrite app_nil_r.
Qed.
Lemma steps_send_initial_other fd' : fd' <> fd -> steps (undisturbed fd) (send_initial fd').
Proof.
  intros Hne. unfold send_initial, send_service, sprintf. repeat first [by apply steps_send_other|steps_step].
Qed.

Lemma accept_run g :
  accepts fd g -> hooks_ready g -> plain_system g = true ->
  exists i g', event_acceptor g = Done (tt, g') /\ attentive i g' /\ sent_to fd g' = concat (map fst (initial_messages g)).
Proof.
  intros Ha Hready Hp. set (i := first_free (slots g) 0). unfold event_acceptor, nge_var, static. rewrite then_asks.
  change (listeners (nge (g_statics g))) with (slots g). fold i. pose proof (ac_room _ _ Ha) as Hi. fold i in Hi.
  rewrite (proj2 (Nat.eqb_neq i MAX_LISTENERS)) by lia. rewrite then_asks.
  destruct (activate_run g Hready) as (g1 & E1 & F1 & T1 & L1 & A1 & W1 & Act & Hpl). rewrite (mthen_run _ _ _ _ _ E1), then_asks, (mthen_run _ _ _ _ _ (syscall_run _ _)). cbv beta.
  rewrite T1, A1, (ac_fd _ _ Ha). unfold set_listener, set_nge_var, set_statics. rewrite then_modify. set (g2 := _ : s_global).
  destruct (Z.ltb_spec fd 1) as [?|_]; [pose proof (ac_pos _ _ Ha); lia|].
  assert (F2 : frame g g2) by (etransitivity; [exact F1|]; by destruct g1). destruct (frame_same _ _ F2) as (_ & Fs & Fst & Fr).
  assert (Hp2 : plain_system g2 = true) by (unfold plain_system; by rewrite Fs, Fr).
  assert (L2 : slots g2 = <[i := fd]> (slots g)) by (rewrite <- L1; done).
  destruct (initial_run fd taken g2 Hp2) as (g3 & E3 & F3 & S3 & W3). exists i, g3. split; [done|].
  destruct (steps_send_initial fd _ _ _ E3) as (K1 & _ & K3 & _).
  split; [split; [|rewrite K3; exact Act|unfold in_place; rewrite K1; exact Hpl]|].
  - apply (listens_same i fd g2 g3 S3). pose proof (ac_len _ _ Ha) as Hlen. split; rewrite ?L2.
    + done.
    + by rewrite length_insert.
    + apply list_lookup_insert_eq. lia.
    + intros j Hj. destruct (decide (j = i)) as [|Hne]; [done|]. rewrite list_lookup_insert_ne in Hj by done.
      exfalso. apply (ac_new _ _ Ha). by eapply list_elem_of_lookup_2.
    + apply (ac_pos _ _ Ha).
  - rewrite W3. change (sent_to fd g2) with (sent_to fd g1). rewrite W1, (ac_unused _ _ Ha). unfold initial_messages. by rewrite Fs, Fst, Fr.
Qed.

(** One event, through the hooks. *)
Lemma passes_run l1 l2 e g e1 ga :
  passes fd l1 e g e1 ga -> send_loop (l1 ++ l2) e g = send_loop l2 e1 ga.
Proof.
  induction 1 as [e g|c l e g ea gx e2 g2 Ec Hh Hf _ _ _ IH]; [done|]. cbn [app send_loop]. rewrite (mthen_run _ _ _ _ _ Ec), <- IH.
  by destruct (ev_status ea).
Qed.
Lemma passes_keeps l e g e1 ga :
  passes fd l e g e1 ga -> ev_status e <> HANDLED -> ev_status e <> FAILED ->
  ev_status e1 <> HANDLED /\ ev_status e1 <> FAILED /\ ev_type e1 = ev_type e /\ undisturbed fd g ga.
Proof.
  induction 1 as [e g|c l e g ea gx e2 g2 _ Hh Hf Ht (U1 & U2 & U3) _ IH]; intros H1 H2; [by repeat split|].
  destruct (IH Hh Hf) as (K1 & K2 & K3 & (V1 & V2 & V3)). split; [done|]. split; [done|]. split; [congruence|].
  split; [congruence|]. split; [congruence|]. auto.
Qed.

Lemma ahead_split f l :
  length (List.filter (fun c => Pos.eqb (c_pointer c) f) l) = 1%nat ->
  exists c, l = ahead f l ++ c :: behind f l /\ c_pointer c = f.
Proof.
  induction l as [|c l IH]; [done|]. cbn [List.filter ahead behind]. destruct (Pos.eqb_spec (c_pointer c) f) as [E|_]; intros H.
  - by exists c.
  - destruct (IH H) as (c' & El & Ec). exists c'. split; [cbn; by f_equal|done].
Qed.

Lemma hear_is_hook h e : h ∈ forwarding -> ev_type e = fst h -> hear e = nge_hook (fun _ e => mpure e) (snd h) e.
Proof.
  intros Hh E. unfold hear. rewrite E. unfold forwarding in Hh |- *. repeat (apply elem_of_cons in Hh as [->|Hh]; [done|]). by apply elem_of_nil in Hh.
Qed.

Lemma told_not_error h g e m : h ∈ forwarding -> told g e m -> ev_type e = fst h -> snd h <> nge_print_error_ptr.
Proof.
  intros Hh Ht E. assert (Hne : ev_type e <> EVENT_ERROR_MESSAGE) by (destruct Ht as [? ? ? E1|? ? E1|? ? ? ? E1]; by rewrite E1).
  rewrite E in Hne. unfold forwarding in Hh. repeat (apply elem_of_cons in Hh as [->|Hh]; [done|]). by apply elem_of_nil in Hh.
Qed.

Lemma event_run i g e h e1 ga m e' g1 :
  attentive i g -> h ∈ forwarding -> ev_type e = fst h ->
  passes fd (ahead (snd h) (g_hooks g (fst h))) (e <| ev_status := WAITING |>) g e1 ga -> told ga e1 m ->
  (forall gb e2 gc, hear e1 ga = Done (e1, gb) -> send_loop (behind (snd h) (g_hooks g (fst h))) e1 gb = Done (e2, gc) -> undisturbed fd gb gc) ->
  initng_event_send e g = Done (e', g1) ->
  attentive i g1 /\ sent_to fd g1 = sent_to fd g ++ fst m.
Proof.
  intros Hat Hh Ht Hp Htold Hb E. destruct (passes_keeps _ _ _ _ _ Hp) as (S1 & S2 & T1 & U); [done|done|]. change (ev_type (e <| ev_status := WAITING |>)) with (ev_type e) in T1.
  pose proof (attentive_undisturbed i g ga U Hat) as Hata.
  destruct (told_run i fd taken ga e1 m (at_listens _ _ Hata) Htold) as (gb & Eb & (K1 & _ & K3 & _) & Lb & Wb).
  assert (Hatb : attentive i gb) by (split; [done|by rewrite K3; apply Hata|unfold in_place; rewrite K1; apply Hata]).
  pose proof (at_hooks _ _ Hat) as Hpl. unfold in_place in Hpl. rewrite Forall_forall in Hpl. destruct (ahead_split _ _ (Hpl h Hh)) as (c & El & Ec).
  unfold initng_event_send in E. rewrite then_asks, Ht, El, (passes_run _ _ _ _ _ _ Hp) in E. cbn [send_loop] in E.
  rewrite Ec, (dispatch h e1 Hh (told_not_error h ga e1 m Hh Htold ltac:(congruence))), <- (hear_is_hook h e1 Hh) in E by congruence. rewrite (mthen_run _ _ _ _ _ Eb) in E.
  assert (E' : send_loop (behind (snd h) (g_hooks g (fst h))) e1 gb = Done (e', g1)) by (by destruct (ev_status e1)).
  pose proof (Hb gb e' g1 Eb E') as U1. split; [by eapply attentive_undisturbed|]. destruct U as (_ & U & _), U1 as (_ & -> & _). by rewrite Wb, U.
Qed.

Lemma first_free_above l n : (n <= first_free l n)%nat.
Proof. revert n. induction l as [|x l IH]; intros n; cbn [first_free]; [lia|]. destruct (_ && _); [specialize (IH (S n)); lia|lia]. Qed.

Lemma first_free_slot l n :
  (first_free l n < MAX_LISTENERS)%nat -> (first_free l n - n < length l)%nat -> exists x, l !! (first_free l n - n)%nat = Some x /\ x <= 0.
Proof.
  revert n. induction l as [|fd' l IH]; intros n Hm Hl; cbn [first_free] in *; [cbn in Hl; lia|].
  destruct (Z.ltb_spec 0 fd') as [Hp|Hp]; cbn [andb] in *.
  - destruct (Nat.eqb_spec n MAX_LISTENERS) as [Emax|_]; cbn [negb] in *; [lia|].
    pose proof (first_free_above l (S n)) as Hn.
    destruct (IH (S n)) as (x & Hx & Hle); [done|cbn in Hl; lia|]. exists x. split; [|done].
    replace (first_free l (S n) - n)%nat with (S (first_free l (S n) - S n)) by lia. done.
  - exists fd'. by rewrite Nat.sub_diag.
Qed.

(** Another listener. *)
Lemma accept_other i g g1 :
  attentive i g -> sys_accept (g_ticks g) (acceptor_fds (nge (g_statics g))) <> fd -> event_acceptor g = Done (tt, g1) ->
  attentive i g1 /\ sent_to fd g1 = sent_to fd g.
Proof.
  intros Hat Hne. unfold event_acceptor, nge_var, static. rewrite then_asks. change (listeners (nge (g_statics g))) with (slots g).
  set (j := first_free (slots g) 0). destruct (Nat.eqb_spec j MAX_LISTENERS) as [_|Hj]; [by intros [= <-]|].
  rewrite then_asks, (at_active _ _ Hat). change (TRUE =? FALSE) with false. cbv iota. rewrite then_pure, then_asks, (mthen_run _ _ _ _ _ (syscall_run _ _)). cbv beta.
  set (fd' := sys_accept _ _) in *. unfold set_listener, set_nge_var, set_statics. rewrite then_modify. set (g2 := _ : s_global).
  pose proof (at_listens _ _ Hat) as [L1 L2 L3 L4 L5].
  assert (Hji : j <> i).
  { intros E. assert (Hlt : (first_free (slots g) 0 < MAX_LISTENERS)%nat) by (fold j; lia).
    destruct (first_free_slot (slots g) 0 Hlt) as (x & Hx & Hle); [rewrite L2; lia|]. rewrite Nat.sub_0_r in Hx. fold j in Hx. rewrite E, L3 in Hx. injection Hx as <-. lia. }
  assert (Hat2 : attentive i g2).
  { split; [|apply Hat|apply Hat]. assert (Es : slots g2 = <[j := fd']> (slots g)) by done. split; rewrite ?Es; try done.
    - by rewrite length_insert.
    - by rewrite list_lookup_insert_ne.
    - intros k Hk. destruct (decide (k = j)) as [->|Hkj]; [|rewrite list_lookup_insert_ne in Hk by done; by apply L4].
      apply list_lookup_insert_Some in Hk as [(_ & Hk & _)|(Hk & _)]; [by subst|done]. }
  destruct (fd' <? 1); intros E; [injection E as <-; done|].
  destruct (steps_send_initial_other fd' Hne _ _ _ E) as (U1 & U2 & U3). split; [|exact U2]. by apply (attentive_undisturbed i g2); [|done].
Qed.

Lemma history_run i g ms g' :
  history fd g ms g' -> attentive i g ->
  attentive i g' /\ sent_to fd g' = sent_to fd g ++ concat (map fst ms) /\ Forall (fun m => says (fst m) (snd m)) ms.
Proof.
  induction 1 as [g|g e h e1 ga m e' g1 ms g2 Hh Ht Hp Htold Hb E _ IH|g g1 ms g2 Hne E _ IH|g g1 ms g2 U _ IH]; intros Hat.
  - split; [done|]. split; [by rewrite app_nil_r|done].
  - destruct (event_run i g e h e1 ga m e' g1 Hat Hh Ht Hp Htold Hb E) as (A1 & W1).
    destruct (IH A1) as (A2 & W2 & Hs). split; [done|]. split; [rewrite W2, W1; cbn [map concat]; by rewrite app_assoc|].
    constructor; [by eapply told_says|done].
  - destruct (accept_other i g g1 Hat Hne E) as (A1 & W1). destruct (IH A1) as (A2 & W2 & Hs). split; [done|]. split; [by rewrite W2, W1|done].
  - destruct (IH (attentive_undisturbed _ _ _ U Hat)) as (A2 & W2 & Hs). split; [done|]. split; [|done]. by rewrite W2, (proj1 (proj2 U)).
Qed.

(** C18: a listener hears every change.  From the moment initng accepts a listener
    on a free descriptor, whatever the system does, with events about changes
    of services, of the system and about killed processes sent through the
    hooks that are registered: a client at the other end of the socket, whose
    kernel hands it what initng sent in pieces of any size, gets first the
    version, the state of the system and of each of its services, then each
    change whose event reached the hook of the module, in the order in which
    they happened, with all fields, and nothing else.  Other listeners may
    come, fail and be dropped.  The conditions: no output of a service and no
    message of initng itself is forwarded and the socket is not opened again
    meanwhile; names are free of the chars of the markup; services are typed;
    the kernel takes what is sent to this listener. *)
Theorem listener_hears_every_change g0 g1 g2 ms c k fuel :
  accepts fd g0 -> hooks_ready g0 -> plain_system g0 = true -> event_acceptor g0 = Done (tt, g1) -> history fd g1 ms g2 ->
  client_ok c -> read_buffer c = None -> arriving (net c) = sent_to fd g2 ->
  let all := initial_messages g0 ++ ms in
  (length all + length (net c) <= k)%nat -> (length (net c) + 1 < fuel)%nat ->
  exists c', collect k fuel c = Done (List.filter loud (map snd all), c').
Proof.
  intros Ha Hready Hp E Hh Hok Hb Harr all Hk Hf. destruct (accept_run g0 Ha Hready Hp) as (i & g1' & E' & Hat & W1). rewrite E in E'. injection E' as <-.
  destruct (history_run i g1 ms g2 Hh Hat) as (_ & W2 & Hs). apply events_arrive; [|done|done]. split; [done|]. split.
  - apply Forall_app_2; [by apply initial_says|done].
  - exists []. split; [done|]. unfold unread, buffered. rewrite Hb, Harr, W2, W1. unfold all. by rewrite map_app, concat_app.
Qed.

End hears.

(** ** What goes wrong *)

Section failures.
Context `{SS : SockSys}.

(** *** The socket is opened again *)

(** The kernel opens a new socket where the old one was. *)
Record reopens : Prop := {
  ro_socket t : 0 < sys_socket t;
  ro_bind t fd : sys_bind t fd NGE_REAL = true;
  ro_chmod t : sys_chmod t = true;
  ro_listen t fd : sys_listen t fd = true;
  ro_path : (String.length NGE_REAL < 108)%nat
}.

Lemma close_run g :
  0 < acceptor_fds (nge (g_statics g)) -> is_active (nge (g_statics g)) = TRUE ->
  exists g', close_initiator_socket g = Done (tt, g') /\ slots g' = slots g /\
    (forall h, h ∈ forwarding -> g_hooks g' (fst h) = remove_call (snd h) (g_hooks g (fst h))).
Proof.
  intros Hfd Hact. unfold close_initiator_socket, nge_var, static. rewrite then_asks. destruct (Z.ltb_spec (acceptor_fds (nge (g_statics g))) 0); [lia|].
  rewrite then_asks, Hact. eexists. split; [reflexivity|]. split; [done|].
  apply Forall_forall. unfold forwarding. repeat (apply Forall_cons_2; [done|]). apply Forall_nil_2.
Qed.

Lemma reopen_run g :
  reopens -> 0 < acceptor_fds (nge (g_statics g)) -> is_active (nge (g_statics g)) = TRUE ->
  exists g', open_initiator_socket g = Done (TRUE, g') /\ slots g' = slots g /\ 0 < acceptor_fds (nge (g_statics g')) /\
    (forall h, h ∈ forwarding -> g_hooks g' (fst h) = remove_call (snd h) (g_hooks g (fst h))).
Proof.
  intros [R1 R2 R3 R4 R5] Hfd Hact. destruct (close_run g Hfd Hact) as (g1 & E1 & S1 & H1). unfold open_initiator_socket.
  rewrite (mthen_run _ _ _ _ _ E1), (mthen_run _ _ _ _ _ (syscall_run _ _)). set (fd := sys_socket (g_ticks g1)). pose proof (R1 (g_ticks g1)) as Hpos. fold fd in Hpos.
  destruct (Z.ltb_spec fd 1); [lia|]. unfold set_nge_var at 1, set_statics at 1. rewrite then_modify.
  destruct (Nat.leb_spec 108 (String.length NGE_REAL)); [lia|]. rewrite then_pure, (mthen_run _ _ _ _ _ (syscall_run _ _)). cbv beta. rewrite R2.
  cbn [negb]. rewrite (mthen_run _ _ _ _ _ (syscall_run _ _)). cbv beta. rewrite R3. cbn [negb]. rewrite (mthen_run _ _ _ _ _ (syscall_run _ _)).
  destruct (sys_sock_stat _ _) as [st|].
  - unfold set_nge_var, set_statics. rewrite then_modify, (mthen_run _ _ _ _ _ (syscall_run _ _)). cbv beta. rewrite R4. cbn [negb].
    eexists. split; [reflexivity|]. split; [done|]. split; [done|].
    intros h Hh. rewrite <- H1 by done. revert h Hh. apply Forall_forall. unfold forwarding. repeat (apply Forall_cons_2; [done|]). apply Forall_nil_2.
  - rewrite then_pure, (mthen_run _ _ _ _ _ (syscall_run _ _)). cbv beta. rewrite R4. cbn [negb]. eexists. split; [reflexivity|]. split; [done|]. split; [done|].
    intros h Hh. rewrite <- H1 by done. revert h Hh. apply Forall_forall. unfold forwarding. repeat (apply Forall_cons_2; [done|]). apply Forall_nil_2.
Qed.

(** C27: A new socket silences the listeners there are.  On SIGHUP, when the file
    of the socket is gone or another one, the module opens a new socket, and
    takes the hooks away that events are forwarded from: the listeners that
    are connected stay in their slots, but no change is sent to them any more
    until another listener connects. *)
Theorem new_socket_silences_listeners i fd g e :
  (forall t n, sys_send t fd n = Z.of_nat n) -> listens i fd g -> ev_data e = ED_signal SIGHUP ->
  0 < acceptor_fds (nge (g_statics g)) -> is_active (nge (g_statics g)) = TRUE ->
  (forall t, sys_sock_stat t NGE_REAL <> Some (sock_stat (nge (g_statics g)))) -> reopens ->
  (forall h, h ∈ forwarding -> snd h ∉ map c_pointer (remove_call (snd h) (g_hooks g (fst h)))) ->
  exists g', nge_check_socket e g = Done (e, g') /\ listens i fd g' /\ 0 < acceptor_fds (nge (g_statics g')) /\
    forall h, h ∈ forwarding -> snd h ∉ map c_pointer (g_hooks g' (fst h)).
Proof.
  intros Ht Hl He Hfd Hact Hst Hro Honce. unfold nge_check_socket. rewrite He. cbn [negb]. change (SIGHUP =? SIGHUP) with true. cbn [negb].
  destruct (send_to_all_run i fd Ht ping_text g Hl) as (g1 & E1 & _ & L1 & _). destruct (steps_send_to_all ping_text _ _ _ E1) as (A1 & A2 & A3 & A4).
  rewrite (mthen_run _ _ _ _ _ E1). unfold nge_var, static. rewrite then_asks, A2.
  destruct (Z.leb_spec (acceptor_fds (nge (g_statics g))) 0); [lia|]. rewrite (mthen_run _ _ _ _ _ (syscall_run _ _)), then_asks.
  set (g2 := g1 <| g_ticks := _ |>). change (sock_stat (nge (g_statics g2))) with (sock_stat (nge (g_statics g1))). rewrite A4.
  rewrite bool_decide_eq_false_2 by apply Hst.
  destruct (reopen_run g2 Hro) as (g3 & E3 & S3 & F3 & H3); [by change (nge (g_statics g2)) with (nge (g_statics g1)); rewrite A2|by change (nge (g_statics g2)) with (nge (g_statics g1)); rewrite A3|].
  exists g3. rewrite then_then, (mthen_run _ _ _ _ _ E3). split; [done|]. split; [apply (listens_same i fd g1); [exact S3|done]|]. split; [done|].
  intros h Hh. rewrite H3 by done. change (g_hooks g2) with (g_hooks g1). rewrite A1. by apply Honce.
Qed.

End failures.
