(* ===== verification/NgcClient.v ===== *)
(** * The control client: src/modules/ngc4/libngcclient.c and ngc4.c

    The library sends one request on a connection of its own and fetches the
    reply, and makes a text of it; the program does so for each of its arguments.
    Without the build HAVE_NGE, which no build file sets. *)
From S2P Require Import Prelude Types CString Io Ngcs DaemonMod Control LogMods NgeMod NgcWire.
From Stdlib Require Import String Ascii.
From stdpp Require Import prelude gmap strings pretty.
Local Open Scope Z_scope.

(** socket(2) and connect(2); how many bytes the n-th send(2) takes; what the n-th
    recv(2) gets, which depends on what was sent; the version and the path of the
    socket that the build sets; isatty(3), getuid(2) and localtime(3); and the
    bytes that lie behind a block of memory. *)
Class NgcNet := {
  ngc_socket : Z;
  ngc_connect : Z -> string -> bool;
  ngc_send : nat -> nat -> Z;
  ngc_recv : nat -> list Z -> Z -> option (list Z);
  VERSION : string;
  NGC_SOCKET : string;
  isatty : bool;
  getuid : Z;
  localtime : Z -> Z * Z * Z;
  heap_behind : list Z
}.

(** The globals of the library and of the program; what was sent on the present
    connection, and what has been printed. *)
Record ngc_state := NgcState {
  ngcclient_error : option string;
  socket_filename : string;
  header_printed : bool;
  quiet : bool;
  ansi : bool;
  n_sends : nat;
  n_recvs : nat;
  on_wire : list Z;
  printed : chars
}.
Definition eta_ngc (c : ngc_state) :=
  NgcState (ngcclient_error c) (socket_filename c) (header_printed c) (quiet c) (ansi c) (n_sends c) (n_recvs c) (on_wire c) (printed c).
#[export] Instance set_error_ : Setter ngcclient_error := ltac:(build_setter eta_ngc ngcclient_error).
#[export] Instance set_socket_filename : Setter socket_filename := ltac:(build_setter eta_ngc socket_filename).
#[export] Instance set_header_printed : Setter header_printed := ltac:(build_setter eta_ngc header_printed).
#[export] Instance set_quiet : Setter quiet := ltac:(build_setter eta_ngc quiet).
#[export] Instance set_ansi : Setter ansi := ltac:(build_setter eta_ngc ansi).
#[export] Instance set_n_sends : Setter n_sends := ltac:(build_setter eta_ngc n_sends).
#[export] Instance set_n_recvs : Setter n_recvs := ltac:(build_setter eta_ngc n_recvs).
#[export] Instance set_on_wire : Setter on_wire := ltac:(build_setter eta_ngc on_wire).
#[export] Instance set_printed : Setter printed := ltac:(build_setter eta_ngc printed).

Notation N4 := (M ngc_state).

Record reply := Reply { rep_result : result_desc; rep_payload : option (list Z) }.

(** ** ansi_colors.h *)

Definition esc (s : string) : chars := ascii_of_nat 27 :: chars_of s.
Definition C_OFF : chars := esc "[0m".
Definition C_FG_YELLOW : chars := esc "[33m".
Definition C_FG_MAGENTA : chars := esc "[35m".
Definition C_FG_CYAN : chars := esc "[36m".
Definition C_FG_LIGHT_BLUE : chars := esc "[34;01m".
Definition C_FG_NEON_GREEN : chars := esc "[32;01m".
Definition C_FG_LIGHT_RED : chars := esc "[01;31m".

Definition text_line (s : string) : chars := chars_of s ++ [c_nl].

(** e_is, by its number. *)
Definition is_to_ansi (is_ : Z) : chars :=
  if is_ =? e_is_num IS_UP then C_FG_NEON_GREEN
  else if is_ =? e_is_num IS_DOWN then C_FG_LIGHT_BLUE
  else if is_ =? e_is_num IS_FAILED then C_FG_LIGHT_RED
  else if is_ =? e_is_num IS_STARTING then C_FG_YELLOW
  else if is_ =? e_is_num IS_STOPPING then C_FG_CYAN
  else C_FG_MAGENTA.

Definition is_to_string (is_ : Z) : string :=
  if is_ =? e_is_num IS_UP then "UP"
  else if is_ =? e_is_num IS_DOWN then "DOWN"
  else if is_ =? e_is_num IS_FAILED then "FAILED"
  else if is_ =? e_is_num IS_STARTING then "STARTING"
  else if is_ =? e_is_num IS_STOPPING then "STOPPING"
  else if is_ =? e_is_num IS_WAITING then "WAITING"
  else "UNKNOWN".

(** ** Rows as text *)

(** The rows of the kind [kind] from [pos] on, [size] bytes each: the loop ends at
    the first int that is not the kind. *)
Fixpoint rows_loop (n : nat) (kind size : Z) (line_at : nat -> option chars) (mem : list Z) (pos : nat) (out : chars) : outcome chars :=
  match n with
  | O => NoFuel
  | S n =>
    match get_int (Z.of_nat pos) mem with
    | None => Fault
    | Some dt =>
      if negb (dt =? kind) then Done out
      else match line_at pos with
           | None => Fault
           | Some line => rows_loop n kind size line_at mem (pos + Z.to_nat size) (out ++ line)
           end
    end
  end.
Definition print_rows (kind size : Z) (head : chars) (line_at : list Z -> nat -> option chars) (mem : list Z) : outcome chars :=
  rows_loop (S (length mem)) kind size (line_at mem) mem 0 head.

Definition help_format (colour : bool) (c : Z) (l : string) (o : Z) (d : string) : chars :=
  let suffix :=
    if colour then
      if o =? opt_type_num USES_OPT then C_FG_YELLOW ++ chars_of " <opt>" ++ C_OFF
      else if o =? opt_type_num REQUIRES_OPT then C_FG_CYAN ++ chars_of " opt" ++ C_OFF
      else C_FG_CYAN ++ C_OFF
    else
      if o =? opt_type_num USES_OPT then chars_of " <opt>"
      else if o =? opt_type_num REQUIRES_OPT then chars_of " opt"
      else [] in
  let short := char_of_byte (c mod 256) in
  (if c =? 0 then chars_of "       --"
   else if colour then chars_of " [" ++ C_FG_LIGHT_RED ++ ["-"%char; short] ++ C_OFF ++ chars_of "] --"
   else chars_of " [-" ++ [short] ++ chars_of "] --")
  ++ padded 40 (chars_of l ++ suffix) ++ chars_of ": " ++ chars_of d ++ [c_nl].

(** One row of the help.  The copy of the name has 256 chars, and is ended only
    when the name has less than 200. *)
Definition help_line (colour : bool) (mem : list Z) (p : nat) : option chars :=
  l ← get_string (p + 5) mem;
  o ← get_int (Z.of_nat p + 112) mem;
  c ← get_char (Z.of_nat p + 4) mem;
  d ← get_string (p + 116) mem;
  if (200 <=? String.length l)%nat then None else Some (help_format colour c l o d).

Definition help_head : chars :=
  text_line " ngc understand this commands:" ++
  text_line " short Option                          : description" ++
  text_line " ----------------------------------------------------------".
Definition ngc_hlp (colour : bool) : list Z -> outcome chars :=
  print_rows HELP_ROW sizeof_help_row help_head (help_line colour).

Definition state_format (colour : bool) (is_ : Z) (name desc : string) : chars :=
  chars_of " " ++ dec is_ ++ chars_of " " ++ (if colour then is_to_ansi is_ else []) ++ padded 8 (chars_of (is_to_string is_)) ++
  chars_of " " ++ padded 29 (chars_of name) ++ chars_of " " ++ chars_of desc ++ [c_nl] ++ (if colour then C_OFF else []).
Definition state_line (colour : bool) (mem : list Z) (p : nat) : option chars :=
  is_ ← get_int (Z.of_nat p + 108) mem;
  name ← get_string (p + 4) mem;
  desc ← get_string (p + 112) mem;
  Some (state_format colour is_ name desc).

Definition state_head : chars :=
  text_line " I State    State name                    Description" ++
  text_line " ----------------------------------------------------------".
Definition ngc_state_entry (colour : bool) : list Z -> outcome chars :=
  print_rows STATE_ROW sizeof_state_row state_head (state_line colour).

Definition option_types : list (e_dt * string) :=
  [(STRING, "STRING"); (VARIABLE_STRING, "V_STRING"); (STRINGS, "STRINGS"); (VARIABLE_STRINGS, "V_STRINGS"); (SET, "SET");
   (VARIABLE_SET, "V_SET"); (INT, "INT"); (VARIABLE_INT, "V_INT"); (ALIAS, "ALIAS"); (U_D_T, "U_D_T"); (TIME_T, "TIME_T");
   (VARIABLE_TIME_T, "V_TIME_T")]%string.
Definition type_of_option (t : Z) : option string := snd <$> List.find (fun x => t =? e_dt_num (fst x)) option_types.

Definition option_columns (colour : bool) (o ct n d : string) : chars :=
  (if colour then chars_of " " ++ C_FG_LIGHT_RED ++ padded 10 (chars_of o) ++ C_OFF ++ C_FG_CYAN ++ padded 8 (chars_of ct) ++ C_OFF
   else chars_of " " ++ padded 10 (chars_of o) ++ padded 8 (chars_of ct)) ++
  chars_of " " ++ padded 24 (chars_of n) ++ chars_of " " ++ chars_of d ++ [c_nl].

(** The switch has a case for every type there is; for another number [ct] would
    not be set. *)
Definition option_line (colour : bool) (mem : list Z) (p : nat) : option chars :=
  t ← get_int (Z.of_nat p + 108) mem;
  ct ← type_of_option t;
  o ← get_string (p + 112) mem;
  n ← get_string (p + 4) mem;
  d ← get_string (p + 213) mem;
  Some (option_columns colour o ct n d).

Definition option_head (colour : bool) : chars :=
  option_columns colour "Where" "Type" "Name" "Description" ++
  text_line " ----------------------------------------------------------------".
Definition ngc_option_db (colour : bool) : list Z -> outcome chars :=
  print_rows OPTION_ROW sizeof_option_row (option_head colour) (option_line colour).

Definition toupper (c : ascii) : ascii :=
  let n := chr c in if (97 <=? n) && (n <=? 122) then ascii_of_nat (Z.to_nat (n - 32)) else c.

(** %.2i *)
Definition two_digits (n : Z) : chars := if n <? 10 then "0"%char :: dec n else dec n.

Section client.
Context `{!NgcNet}.

Definition active_format (colour : bool) (sec : Z) (name type : string) (is_ : Z) (state : string) : chars :=
  let '(hour, min, sec) := localtime sec in
  let time := two_digits hour ++ chars_of ":" ++ two_digits min ++ chars_of ":" ++ two_digits sec in
  let letter := match chars_of type with c :: _ => toupper c | [] => c_space end in
  chars_of " " ++
  (if colour then C_FG_LIGHT_RED ++ time ++ C_OFF ++ C_FG_CYAN ++ [c_space; letter] ++ C_OFF else time ++ [c_space; letter]) ++
  chars_of " " ++ padded 35 (chars_of name) ++ chars_of " : " ++
  (if colour then is_to_ansi is_ ++ chars_of state ++ C_OFF else chars_of state) ++ [c_nl].
Definition active_line (colour : bool) (mem : list Z) (p : nat) : option chars :=
  sec ← get_long (Z.of_nat p + 208) mem;
  name ← get_string (p + 105) mem;
  type ← get_string (p + 228) mem;
  is_ ← get_int (Z.of_nat p + 224) mem;
  state ← get_string (p + 4) mem;
  Some (active_format colour sec name type is_ state).

Definition active_head (colour : bool) : chars :=
  (if colour then C_FG_LIGHT_RED ++ chars_of " hh:mm:ss" ++ C_OFF ++ C_FG_CYAN ++ chars_of " T " ++ C_OFF ++
                  chars_of "service                             : " ++ C_FG_NEON_GREEN ++ text_line "status" ++ C_OFF
   else text_line " hh:mm:ss T service                             : status") ++
  text_line " ----------------------------------------------------------------".
Definition ngc_active_db (colour : bool) : list Z -> outcome chars :=
  print_rows ACTIVE_ROW sizeof_active_row (active_head colour) (active_line colour).

Definition lift_n {A} (o : outcome A) : N4 A := fun c =>
  match o with Done a => Done (a, c) | Fault => Fault | NoFuel => NoFuel end.

(** The text of a reply; none when the pointer is null. *)
Definition ngcclient_reply_to_string (rep : option reply) (colour : bool) : N4 (option chars) :=
  let! error := asks ngcclient_error in
  match error, rep with
  | Some e, _ => mpure (Some (chars_of e))
  | None, None => mpure (Some (chars_of "Unable to get reply."))
  | None, Some rep =>
    let t := r_t (rep_result rep) in
    if t =? com_type_num COMMAND_FAIL then mpure (Some (chars_of "Command replied a failure."))
    else if negb ((t =? com_type_num STRING_COMMAND) || (t =? com_type_num PAYLOAD_COMMAND) || (t =? com_type_num INT_COMMAND)) then mpure None
    else
      match rep_payload rep with
      | None => mpure (Some (text_line "No payload."))
      | Some mem =>
        if r_payload (rep_result rep) =? 0 then mpure (Some (text_line "No payload."))
        else if t =? com_type_num STRING_COMMAND then let! s := deref (fun _ => get_string 0 mem) in mpure (Some (chars_of s))
        else if t =? com_type_num INT_COMMAND then let! i := deref (fun _ => get_int 0 mem) in mpure (Some (dec i))
        else
          let! dt := deref (fun _ => get_int 0 mem) in
          let rows text := let! s := lift_n (text mem) in mpure (Some s) in
          if dt =? HELP_ROW then rows (ngc_hlp colour)
          else if dt =? ACTIVE_ROW then rows (ngc_active_db colour)
          else if dt =? OPTION_ROW then rows (ngc_option_db colour)
          else if dt =? STATE_ROW then rows (ngc_state_entry colour)
          else
            modify (fun c => c <| printed := printed c ++ chars_of "UNKWNOWN PAYLOAD: " ++ dec dt ++ [c_nl] |>) ;;;
            mpure None
      end
  end.

(** ** Sending a request *)

Definition set_ngc_error (e : string) : N4 unit := modify (fun c => c <| ngcclient_error := Some e |>).

Definition ngcclient_open_socket (path : string) : N4 Z :=
  if ngc_socket <? 0 then set_ngc_error "Failed to init socket" ;;; mpure FALSE
  else if (108 <=? String.length path)%nat then fault
  else if negb (ngc_connect ngc_socket path) then set_ngc_error "Error connecting to initng socket" ;;; mpure FALSE
  else modify (fun c => c <| ngcclient_error := None |> <| on_wire := [] |>) ;;; mpure ngc_socket.

Definition send_on (bytes : list Z) : N4 Z :=
  let! n := asks n_sends in
  let r := ngc_send n (length bytes) in
  modify (fun c => c <| n_sends := S n |> <| on_wire := on_wire c ++ take (Z.to_nat r) bytes |>) ;;;
  mpure r.

Definition recv_on (len : Z) : N4 (option (list Z)) :=
  let! n := asks n_recvs in
  let! sent := asks on_wire in
  modify (fun c => c <| n_recvs := S n |>) ;;;
  mpure ((fun b : list Z => take (Z.to_nat (Z.min len (Z.of_nat (length b)))) b) <$> ngc_recv n sent len).

Definition fake_text : string :=
  "On ngc -c, initng reloads itself. By that it closes the connection to ngc and so can not return if this command succeds or not.".
Definition fake_reply : reply :=
  Reply (Result TRUE (chr "c") (com_type_num STRING_COMMAND) "" PROTOCOL_4_VERSION (Z.of_nat (String.length fake_text)))
    (Some (bytes_of fake_text ++ [0])).

(** What initng thinks of the request; none is a success. *)
Definition verdict (s : Z) : option string :=
  if s =? S_FALSE then Some "Request returns negative."%string
  else if s =? S_REQUIRES_OPT then Some "The command requires an option!"%string
  else if s =? S_NOT_REQUIRES_OPT then Some "The command cant have an option!"%string
  else if s =? S_INVALID_TYPE then Some "The data returning of this command is an unknown type."%string
  else if s =? S_COMMAND_NOT_FOUND then Some "Command not found."%string
  else if s =? S_TRUE then None
  else Some "Unknown error."%string.

Definition fail_with (e : string) : N4 (option reply) := set_ngc_error e ;;; mpure None.

(** A size_t, whose successor may be zero; what recv returns is not looked at. *)
Definition fetch_payload (size : Z) : N4 (option (list Z)) :=
  if size =? 0 then mpure None
  else
    let! r := recv_on size in
    let got := default [] r in
    let room := (size + 1) mod 2 ^ 64 in
    if room <? Z.of_nat (length got) then fault
    else mpure (Some (got ++ zeros (Z.to_nat (room - Z.of_nat (length got))) ++ heap_behind)).

Definition fetch_result : N4 (option reply) :=
  let! r := recv_on sizeof_result in
  match r with
  | None => fail_with "failed to fetch the result."
  | Some bytes =>
    if Z.of_nat (length bytes) <? sizeof_result then fail_with "failed to fetch the result."
    else
      let! res := deref (fun _ => result_of bytes) in
      if negb (r_p_ver res =? PROTOCOL_4_VERSION) then
        modify (fun c => c <| printed := printed c ++ chars_of "protocol missmatch " ++ dec (r_p_ver res) ++ chars_of ":" ++
          dec PROTOCOL_4_VERSION ++ [c_nl] |>) ;;;
        fail_with "PROTOCOL_4_VERSION missmatch!"
      else match verdict (r_s res) with
           | Some e => fail_with e
           | None =>
             let! p := fetch_payload (r_payload res) in
             mpure (Some (Reply res p))
           end
  end.

Definition request_header (c : Z) (l o : option string) : read_header :=
  Header c (default ""%string l) PROTOCOL_4_VERSION (match o with Some o => Z.of_nat (String.length o) | None => 0 end).

Definition ngcclient_send_command (path : string) (c : Z) (l o : option string) : N4 (option reply) :=
  let header := request_header c l o in
  let! sock := ngcclient_open_socket path in
  if sock <? 1 then mpure None
  else
    let! n := send_on (header_bytes header) in
    if n <? sizeof_header then fail_with "Could not send header!"
    else
      let! body_sent :=
        (if c_true (h_body_len header) then
           let! n := send_on (bytes_of (default ""%string o)) in mpure (negb (n <? to_int (h_body_len header)))
         else mpure true) in
      if negb body_sent then fail_with "Could not send body!"
      else if h_c header =? chr "c" then
        modify (fun c => c <| ngcclient_error := None |>) ;;; mpure (Some fake_reply)
      else fetch_result.

(** ** The program *)

Definition print_out (s : chars) : N4 unit :=
  modify (fun c => if quiet c then c else c <| printed := printed c ++ s |>).

Definition banner : chars :=
  C_FG_LIGHT_BLUE ++ chars_of " init" ++ C_FG_LIGHT_RED ++ chars_of "NGC" ++ C_FG_LIGHT_BLUE ++ chars_of "ontrol (" ++ C_FG_MAGENTA ++
  chars_of VERSION ++ C_FG_LIGHT_BLUE ++ chars_of " )" ++ C_OFF ++ C_FG_LIGHT_RED ++ chars_of " by Jimmy Wennlund " ++ C_OFF ++
  C_FG_NEON_GREEN ++ chars_of "http://www.initng.org/" ++ C_OFF ++ [c_nl].

(** printf of a null pointer gives (null). *)
Definition send_and_handle (c : Z) (l opt : option string) : N4 bool :=
  let! path := asks socket_filename in
  let! rep := ngcclient_send_command path c l opt in
  let! error := asks ngcclient_error in
  match error, rep with
  | Some e, _ => print_out (text_line e) ;;; mpure false
  | None, None => print_out (text_line "Command failed.") ;;; mpure false
  | None, Some rep =>
    let! s := asks id in
    (if negb (header_printed s) && negb (quiet s) then
       (if ansi s then print_out banner else mpure tt) ;;; modify (fun c => c <| header_printed := true |>)
     else mpure tt) ;;;
    (if quiet s then mpure tt
     else
       let! text := ngcclient_reply_to_string (Some rep) (ansi s) in
       print_out ([c_nl; c_nl] ++ default (chars_of "(null)") text ++ [c_nl])) ;;;
    mpure true
  end.

(** The loop over the arguments; the result is the status of exit. *)
Fixpoint arguments (argv : list string) (n : nat) : N4 Z :=
  match n with
  | O => nofuel
  | S n =>
    match argv with
    | [] => print_out [c_nl; c_nl] ;;; mpure 0
    | arg :: rest =>
      let help := send_and_handle (chr "h") None None ;;; mpure 1 in
      match chars_of arg with
      | d :: e :: more =>
        if negb (Ascii.eqb d "-") then help
        else
          let opt := match rest with
                     | next :: _ => match chars_of next with f :: _ => if Ascii.eqb f "-" then None else Some next | [] => Some next end
                     | [] => None
                     end in
          let rest' := match opt with Some _ => List.tl rest | None => rest end in
          if Ascii.eqb e "-" then
            let name := string_of_list_ascii more in
            if bool_decide (name = "instant"%string) then arguments rest n
            else if bool_decide (name = "quiet"%string) then modify (fun c => c <| quiet := true |>) ;;; arguments rest n
            else
              let! ok := send_and_handle 0 (Some name) opt in
              if (ok : bool) then arguments rest' n else mpure 1
          else
            let! ok := send_and_handle (chr e) None opt in
            if (ok : bool) then arguments rest' n else mpure 1
      | _ => help
      end
    end
  end.

(** [argv] are the arguments behind the name of the program. *)
Definition ngc_main (argv : list string) : N4 Z :=
  modify (fun c => c <| header_printed := false |> <| ansi := isatty |> <| quiet := false |> <| socket_filename := NGC_SOCKET |>) ;;;
  let run argv := match argv with
    | [] => send_and_handle (chr "h") None None ;;; mpure 0
    | _ => arguments argv (S (length argv))
    end in
  match argv with
  | arg :: rest =>
    if is_prefix (chars_of "-f") (chars_of arg) then
      match rest with
      | [] => print_out (text_line "ERROR: -f needs an argument.") ;;; mpure 1
      | path :: rest => modify (fun c => c <| socket_filename := path |>) ;;; run rest
      end
    else
      (if negb (getuid =? 0) && isatty then
         print_out (C_FG_YELLOW ++ text_line "Warning: You need root access to communicate with initng." ++ C_OFF) else mpure tt) ;;;
      run argv
  | [] =>
    (if negb (getuid =? 0) && isatty then
       print_out (C_FG_YELLOW ++ text_line "Warning: You need root access to communicate with initng." ++ C_OFF) else mpure tt) ;;;
    run []
  end.

End client.
