(* ===== verification/NgcText.v ===== *)
(** * The listings that a control client prints

    What initng puts into rows the client prints, a line for each row, for
    every kind of row.  The loops read an int behind the last row, of which only
    the first byte belongs to the block; that byte is zero, and whatever follows
    it ends the loop. *)
From S2P Require Import Prelude Types CString Io Ngcs DaemonMod Launch Control LogMods NgeMod NgcWire NgcClient.
From Stdlib Require Import String Ascii.
From stdpp Require Import prelude strings.
Local Open Scope Z_scope.

Lemma get_int_there b0 b1 b2 b3 rest : get_int 0 (b0 :: b1 :: b2 :: b3 :: rest) = Some (signed 32 (le_value [b0; b1; b2; b3])).
Proof. unfold get_int, block_read. rewrite !(proj2 (Z.leb_le _ _)) by (cbn [length]; lia). done. Qed.

(** An int whose lowest byte is zero is not the number of a kind of row. *)
Lemma behind_is_no_row v rest b1 b2 b3 : 0 < v < 256 -> get_int 0 (0 :: b1 :: b2 :: b3 :: rest) <> Some v.
Proof.
  intros Hv. rewrite get_int_there. cbn [le_value]. intros [= E]. unfold signed in E.
  set (x := b1 + 256 * (b2 + 256 * (b3 + 256 * 0))) in *. change (0 + 256 * x) with (256 * x) in E.
  replace (2 ^ 32) with (256 * 2 ^ 24) in E by lia. rewrite Z.mul_mod_distr_l in E by lia.
  set (y := x mod 2 ^ 24) in *. case_match; lia.
Qed.

Lemma get_int_drop pos mem : get_int (Z.of_nat pos) mem = get_int 0 (drop pos mem) \/ get_int 0 (drop pos mem) = None.
Proof.
  unfold get_int, block_read. change (Z.to_nat 0) with 0%nat. rewrite drop_0, Nat2Z.id, length_drop.
  destruct (decide (4 <= length mem - pos)%nat).
  - left. rewrite !(proj2 (Z.leb_le _ _)) by lia. done.
  - right. rewrite (proj2 (Z.leb_gt (0 + 4) _)) by lia. done.
Qed.

Section rows.
Context {A : Type} (bytes : A -> list Z) (text : A -> chars) (good : A -> Prop) (kind size : Z) (line_at : list Z -> nat -> option chars).
Hypothesis Hkind : 0 < kind < 256.
Hypothesis Hsize : forall r, Z.of_nat (length (bytes r)) = size.
Hypothesis Hline : forall pre r post, good r ->
  get_int (Z.of_nat (length pre)) (pre ++ bytes r ++ post) = Some kind /\
  line_at (pre ++ bytes r ++ post) (length pre) = Some (text r).

Lemma rows_loop_run n done rows b1 b2 b3 rest out :
  Forall good rows -> (length rows < n)%nat ->
  let mem := done ++ concat (map bytes rows) ++ 0 :: b1 :: b2 :: b3 :: rest in
  rows_loop n kind size (line_at mem) mem (length done) out = Done (out ++ concat (map text rows)).
Proof.
  intros Hg. revert n done out. induction Hg as [|r rows Hr Hrows IH]; intros n done out Hn mem.
  - destruct n as [|n]; [lia|]. cbn [rows_loop map concat]. subst mem. cbn [map concat app]. rewrite app_nil_r.
    set (tail := 0 :: b1 :: b2 :: b3 :: rest).
    assert (E : get_int (Z.of_nat (length done)) (done ++ tail) = get_int 0 tail).
    { destruct (get_int_drop (length done) (done ++ tail)) as [->|E]; rewrite drop_app_length in *; [done|]. unfold tail in E. by rewrite get_int_there in E. }
    rewrite E. unfold tail at 1. rewrite get_int_there. set (v := signed _ _). pose proof (get_int_there 0 b1 b2 b3 rest : _ = Some v) as Ev.
    rewrite (proj2 (Z.eqb_neq v kind)); [done|]. intros ->. by eapply behind_is_no_row in Ev.
  - destruct n as [|n]; [cbn in Hn; lia|]. cbn [rows_loop map concat]. subst mem. cbn [map concat]. rewrite <- app_assoc.
    destruct (Hline done r (concat (map bytes rows) ++ 0 :: b1 :: b2 :: b3 :: rest) Hr) as [-> ->].
    rewrite Z.eqb_refl. cbn [negb]. specialize (IH n (done ++ bytes r) (out ++ text r) ltac:(cbn in Hn; lia)).
    cbv zeta in IH. rewrite <- !app_assoc in IH. rewrite <- IH, length_app. f_equal. rewrite <- (Hsize r), Nat2Z.id. done.
Qed.

Lemma print_rows_run head rows b1 b2 b3 rest :
  Forall good rows ->
  print_rows kind size head line_at (concat (map bytes rows) ++ 0 :: b1 :: b2 :: b3 :: rest) = Done (head ++ concat (map text rows)).
Proof.
  intros Hg. unfold print_rows. pose proof (rows_loop_run) as H. specialize (H (S (length (concat (map bytes rows) ++ 0 :: b1 :: b2 :: b3 :: rest))) [] rows b1 b2 b3 rest head Hg).
  cbn [app length] in H. apply H. rewrite length_app. cut (length rows <= length (concat (map bytes rows)))%nat; [lia|].
  assert (Hp : forall r, good r -> (1 <= length (bytes r))%nat).
  { intros r Hr. destruct (Hline [] r [] Hr) as [E _]. destruct (bytes r) as [|b l]; [by vm_compute in E|cbn; lia]. }
  clear H. induction Hg as [|r rows Hr _ IH]; [cbn; lia|]. cbn [map concat length]. rewrite length_app. specialize (Hp r Hr). lia.
Qed.

(** In a block with nothing behind it the loop runs off the end. *)
Lemma rows_loop_faults n done rows out :
  Forall good rows -> (length rows < n)%nat ->
  let mem := done ++ concat (map bytes rows) ++ [0] in
  rows_loop n kind size (line_at mem) mem (length done) out = Fault.
Proof.
  intros Hg. revert n done out. induction Hg as [|r rows Hr Hrows IH]; intros n done out Hn mem; (destruct n as [|n]; [cbn in Hn; lia|]).
  - cbn [rows_loop]. assert (E : get_int (Z.of_nat (length done)) mem = None); [|by rewrite E].
    unfold get_int, block_read, mem. cbn [map concat app]. rewrite length_app. cbn [length].
    rewrite (proj2 (Z.leb_gt (Z.of_nat (length done) + 4) _)) by lia. by rewrite andb_false_r.
  - cbn [rows_loop map concat]. subst mem. cbn [map concat]. rewrite <- app_assoc.
    destruct (Hline done r (concat (map bytes rows) ++ [0]) Hr) as [-> ->].
    rewrite Z.eqb_refl. cbn [negb]. specialize (IH n (done ++ bytes r) (out ++ text r) ltac:(cbn in Hn; lia)).
    cbv zeta in IH. rewrite <- !app_assoc in IH. rewrite <- IH, length_app. f_equal. rewrite <- (Hsize r), Nat2Z.id. done.
Qed.
End rows.

(** ** The lines of the four kinds *)

Definition help_ok (r : help_row) : Prop := - 128 <= hr_c r < 128 /\ nul_free (hr_l r) = true /\ nul_free (hr_d r) = true.
Definition active_ok (r : active_row) : Prop :=
  nul_free (row_state r) = true /\ nul_free (row_name r) = true /\ nul_free (row_type r) = true /\
  - 2 ^ 63 <= tv_sec (row_time_set r) < 2 ^ 63.
Definition state_row_ok (r : state_row) : Prop := nul_free (sr_name r) = true /\ nul_free (sr_desc r) = true.
Definition option_ok (r : option_row) : Prop := nul_free (or_n r) = true /\ nul_free (or_o r) = true /\ nul_free (or_d r) = true.

Definition help_text (colour : bool) (r : help_row) : chars :=
  help_format colour (hr_c r) (cut 100 (hr_l r)) (opt_type_num (hr_o r)) (cut 200 (hr_d r)).
Definition active_text `{!NgcNet} (colour : bool) (r : active_row) : chars :=
  active_format colour (tv_sec (row_time_set r)) (cut 100 (row_name r)) (cut 100 (row_type r)) (e_is_num (row_is r)) (cut 100 (row_state r)).
Definition state_text (colour : bool) (r : state_row) : chars :=
  state_format colour (e_is_num (sr_is r)) (cut 100 (sr_name r)) (cut 200 (sr_desc r)).
Definition type_text (t : e_dt) : string := default ""%string (snd <$> List.find (fun x => e_dt_num t =? e_dt_num (fst x)) option_types).
Definition option_text (colour : bool) (r : option_row) : chars :=
  option_columns colour (cut 100 (or_o r)) (type_text (or_t r)) (cut 100 (or_n r)) (cut 300 (or_d r)).

Lemma cut_length n s : (String.length (cut n s) <= n)%nat.
Proof. unfold cut. rewrite length_string_of, length_take. lia. Qed.

Ltac in_row := first [rewrite member_at_Z by lia|rewrite member_at]; reach.
Ltac read_int pre k v := erewrite (get_int_at (Z.of_nat (length pre) + k) _ v); [|unfold int32; lia|lia|in_row].
Ltac read_string pre k n s := erewrite (get_string_at (length pre + k) _ n s); [|lia|assumption|in_row].
Ltac kind_at := rewrite <- (Z.add_0_r (Z.of_nat _)); erewrite get_int_at; [reflexivity|by vm_compute|lia|in_row].

Lemma help_line_run colour pre r post :
  help_ok r -> get_int (Z.of_nat (length pre)) (pre ++ help_row_bytes r ++ post) = Some HELP_ROW /\
  help_line colour (pre ++ help_row_bytes r ++ post) (length pre) = Some (help_text colour r).
Proof.
  intros (Hc & Hl & Hd). unfold help_row_bytes. split; [kind_at|]. unfold help_line.
  read_string pre 5%nat 101%nat (hr_l r). cbn [mbind option_bind].
  assert (Ho : 0 <= opt_type_num (hr_o r) <= 2) by (destruct (hr_o r); cbn; lia).
  read_int pre 112 (opt_type_num (hr_o r)). cbn [mbind option_bind].
  erewrite (get_char_at (Z.of_nat (length pre) + 4) _ (hr_c r)); [|lia|lia|in_row]. cbn [mbind option_bind].
  read_string pre 116%nat 201%nat (hr_d r). cbn [mbind option_bind Nat.sub].
  pose proof (cut_length 100 (hr_l r)). rewrite (proj2 (Nat.leb_gt _ _)) by lia. done.
Qed.

Lemma is_num_range i : 0 <= e_is_num i <= 6.
Proof. destruct i; cbn; lia. Qed.

Lemma active_line_run `{!NgcNet} colour pre r post :
  active_ok r -> get_int (Z.of_nat (length pre)) (pre ++ active_row_bytes r ++ post) = Some ACTIVE_ROW /\
  active_line colour (pre ++ active_row_bytes r ++ post) (length pre) = Some (active_text colour r).
Proof.
  intros (Hs & Hn & Ht & Hsec). unfold active_row_bytes. split; [kind_at|]. unfold active_line.
  erewrite (get_long_at (Z.of_nat (length pre) + 208) _ (tv_sec (row_time_set r))); [|lia|lia|in_row]. cbn [mbind option_bind].
  read_string pre 105%nat 101%nat (row_name r). cbn [mbind option_bind]. read_string pre 228%nat 101%nat (row_type r). cbn [mbind option_bind].
  pose proof (is_num_range (row_is r)). read_int pre 224 (e_is_num (row_is r)). cbn [mbind option_bind].
  read_string pre 4%nat 101%nat (row_state r). done.
Qed.

Lemma state_line_run colour pre r post :
  state_row_ok r -> get_int (Z.of_nat (length pre)) (pre ++ state_row_bytes r ++ post) = Some STATE_ROW /\
  state_line colour (pre ++ state_row_bytes r ++ post) (length pre) = Some (state_text colour r).
Proof.
  intros (Hn & Hd). unfold state_row_bytes. split; [kind_at|]. unfold state_line.
  pose proof (is_num_range (sr_is r)). read_int pre 108 (e_is_num (sr_is r)). cbn [mbind option_bind].
  read_string pre 4%nat 101%nat (sr_name r). cbn [mbind option_bind]. read_string pre 112%nat 201%nat (sr_desc r). done.
Qed.

Lemma option_line_run colour pre r post :
  option_ok r -> get_int (Z.of_nat (length pre)) (pre ++ option_row_bytes r ++ post) = Some OPTION_ROW /\
  option_line colour (pre ++ option_row_bytes r ++ post) (length pre) = Some (option_text colour r).
Proof.
  intros (Hn & Ho & Hd). unfold option_row_bytes. split; [kind_at|]. unfold option_line.
  assert (Ht : 0 <= e_dt_num (or_t r) <= 58) by (destruct (or_t r); cbn; lia).
  read_int pre 108 (e_dt_num (or_t r)). cbn [mbind option_bind].
  assert (Et : type_of_option (e_dt_num (or_t r)) = Some (type_text (or_t r))) by (by destruct (or_t r)). rewrite Et. cbn [mbind option_bind].
  read_string pre 112%nat 101%nat (or_o r). cbn [mbind option_bind]. read_string pre 4%nat 101%nat (or_n r). cbn [mbind option_bind].
  read_string pre 213%nat 301%nat (or_d r). done.
Qed.

(** ** The listings *)

Lemma help_listing colour rows b1 b2 b3 rest :
  Forall help_ok rows ->
  ngc_hlp colour (concat (map help_row_bytes rows) ++ 0 :: b1 :: b2 :: b3 :: rest) = Done (help_head ++ concat (map (help_text colour) rows)).
Proof. apply (print_rows_run help_row_bytes); [done|apply help_row_length|apply help_line_run]. Qed.

Lemma active_listing `{!NgcNet} colour rows b1 b2 b3 rest :
  Forall active_ok rows ->
  ngc_active_db colour (concat (map active_row_bytes rows) ++ 0 :: b1 :: b2 :: b3 :: rest) =
    Done (active_head colour ++ concat (map (active_text colour) rows)).
Proof. apply (print_rows_run active_row_bytes); [done|apply active_row_length|apply active_line_run]. Qed.

Lemma state_listing colour rows b1 b2 b3 rest :
  Forall state_row_ok rows ->
  ngc_state_entry colour (concat (map state_row_bytes rows) ++ 0 :: b1 :: b2 :: b3 :: rest) = Done (state_head ++ concat (map (state_text colour) rows)).
Proof. apply (print_rows_run state_row_bytes); [done|apply state_row_length|apply state_line_run]. Qed.

Lemma option_listing colour rows b1 b2 b3 rest :
  Forall option_ok rows ->
  ngc_option_db colour (concat (map option_row_bytes rows) ++ 0 :: b1 :: b2 :: b3 :: rest) =
    Done (option_head colour ++ concat (map (option_text colour) rows)).
Proof. apply (print_rows_run option_row_bytes); [done|apply option_row_length|apply option_line_run]. Qed.

(** Every listing reads the int behind the last row, of which its block has but
    one byte. *)
Theorem listing_reads_behind_its_block `{!NgcNet} colour rows :
  Forall active_ok rows -> ngc_active_db colour (concat (map active_row_bytes rows) ++ [0]) = Fault.
Proof.
  intros Hok. unfold ngc_active_db, print_rows.
  apply (rows_loop_faults active_row_bytes (active_text colour) active_ok ACTIVE_ROW sizeof_active_row (active_line colour)
    active_row_length (active_line_run colour) _ []); [done|].
  rewrite length_app. cut (length rows <= length (concat (map active_row_bytes rows)))%nat; [lia|].
  clear Hok. induction rows as [|r rows IH]; [done|]. cbn [map concat length]. rewrite length_app. pose proof (active_row_length r) as L.
  unfold sizeof_active_row in L. lia.
Qed.
