(* ===== verification/NgcProps.v ===== *)
(** * Requests of control clients

    The two ends of modules/ngc4 together: a request runs its command in initng
    and the client gets what the command gave; the listings stay inside their
    arrays and show what they should; and the requests that take initng
    down. *)
From S2P Require Import Prelude Types Data CString Global ActiveDb Depend Io Poll Interrupt Launch Modules ServiceMod DaemonMod Control HookMods LogMods NgeMod.
From S2P Require Import Ngcs NgcWire Ngc4Mod NgcClient NgcText.
From Stdlib Require Import String Ascii.
From stdpp Require Import prelude gmap strings.
Local Open Scope Z_scope.

(** ** The listings stay inside their arrays *)

(** The loops that fill an array of rows, and stop behind row 101. *)
Lemma store_row_room {A} n (rows : list A) row : (length rows < n)%nat -> store_row n rows row = Some (rows ++ [row]).
Proof. intros H. unfold store_row. by rewrite (proj2 (Nat.ltb_lt _ _) H). Qed.

(** The shape of the bounded loops: [row] is none for what is not shown. *)
Fixpoint fill {A B} (row : A -> option B) (room : nat) (db : list A) (rows : list B) : option (list B) :=
  match db with
  | [] => Some rows
  | x :: db =>
    match row x with
    | None => fill row room db rows
    | Some r =>
      rows ← store_row room rows r;
      if (100 <? length rows)%nat then Some rows else fill row room db rows
    end
  end.

Lemma fill_run {A B} (row : A -> option B) room db rows :
  (length rows <= 100)%nat -> (101 <= room \/ length rows + length db <= room)%nat ->
  fill row room db rows = Some (take 101 (rows ++ omap row db)).
Proof.
  revert rows. induction db as [|x db IH]; intros rows Hl Hr; cbn [fill omap list_omap].
  { rewrite app_nil_r, take_ge by lia. done. }
  cbn [length] in Hr. destruct (row x) as [r|]; [|apply IH; lia].
  rewrite store_row_room by lia. cbn [mbind option_bind].
  assert (Hs : length (rows ++ [r]) = S (length rows)) by (rewrite length_app; cbn; lia). rewrite Hs.
  replace (rows ++ r :: omap row db) with ((rows ++ [r]) ++ omap row db) by (by rewrite <- app_assoc).
  destruct (Nat.ltb_spec 100 (S (length rows))).
  - rewrite take_app_le by lia. by rewrite take_ge by lia.
  - apply IH; lia.
Qed.

Definition help_row_if (shown : e_opt_vissible -> bool) (c : s_command) : option help_row :=
  if shown (com_opt_visible c) then Some (help_row_of c) else None.
Definition service_row_if (hide : bool) (a : active_db_h) : option active_row :=
  if hide && bool_decide (sty_hidden <$> a_type a = Some true) then None else Some (service_row a).
Definition option_row_if (e : s_entry) : option option_row :=
  name ← ent_name e; if is_prefix (chars_of "internal") (chars_of name) then None else Some (option_row_of e name).
Definition state_row_of (st : a_state_h) : state_row := StateRow (st_name st) (st_is st) (or_empty (st_description st)).

Lemma help_loop_bounded shown db rows : help_loop shown true db rows = fill (help_row_if shown) 101 db rows.
Proof.
  revert rows. induction db as [|c db IH]; intros rows; [done|]. cbn [help_loop fill]. unfold help_row_if at 1.
  destruct (shown _); cbn [negb]; [|apply IH]. destruct (store_row _ _ _); [|done]. cbn [mbind option_bind andb]. by rewrite IH.
Qed.
Lemma services_loop_fill hide db rows : services_loop hide db rows = fill (service_row_if hide) 101 db rows.
Proof.
  revert rows. induction db as [|c db IH]; intros rows; [done|]. cbn [services_loop fill]. unfold service_row_if at 1.
  destruct (hide && _); [apply IH|]. destruct (store_row _ _ _); [|done]. cbn [mbind option_bind]. by rewrite IH.
Qed.
Lemma options_loop_fill db rows : options_loop db rows = fill option_row_if 101 db rows.
Proof.
  revert rows. induction db as [|e db IH]; intros rows; [done|]. cbn [options_loop fill]. unfold option_row_if at 1.
  destruct (ent_name e) as [name|]; [|apply IH]. cbn [mbind option_bind].
  destruct (is_prefix _ _); [apply IH|]. destruct (store_row _ _ _); [|done]. cbn [mbind option_bind]. by rewrite IH.
Qed.
Lemma states_loop_fill room db rows : states_loop room db rows = fill (fun st => Some (state_row_of st)) room db rows.
Proof.
  revert rows. induction db as [|e db IH]; intros rows; [done|]. cbn [states_loop fill].
  destruct (store_row _ _ _); [|done]. cbn [mbind option_bind]. by rewrite IH.
Qed.

Lemma help_loop_free shown db rows :
  (length rows + length db <= 101)%nat -> help_loop shown false db rows = Some (rows ++ omap (help_row_if shown) db).
Proof.
  revert rows. induction db as [|c db IH]; intros rows Hl; cbn [help_loop omap list_omap]; [by rewrite app_nil_r|].
  cbn [length] in Hl. change (help_row_if shown c) with (if shown (com_opt_visible c) then Some (help_row_of c) else None).
  destruct (shown _); cbn [negb]; [|by rewrite IH by lia].
  rewrite store_row_room by lia. cbn [mbind option_bind andb]. rewrite IH by (rewrite length_app; cbn; lia). by rewrite <- app_assoc.
Qed.

Lemma listings_stay g :
  local_commands_db (ngc4 (g_statics g)) = local_commands ->
  let services := map snd (active_services g) in
  cmd_help None g = Done (take 101 (omap (help_row_if standard) (local_commands ++ g_command_db g)), g) /\
  cmd_help_all None g = Done (take 101 (omap (help_row_if standard_or_advanced) (local_commands ++ g_command_db g)), g) /\
  cmd_services None g = Done (take 101 (omap (service_row_if true) services), g) /\
  cmd_all_services None g = Done (take 101 (map service_row services), g) /\
  cmd_states None g = Done (take 101 (map state_row_of (g_states g)), g) /\
  cmd_options None g = Done (take 101 (omap option_row_if (g_option_db g)), g).
Proof.
  intros Hl services. unfold cmd_help, cmd_help_all, cmd_services, cmd_all_services, list_services, cmd_states, cmd_options, ngc4_var, static.
  rewrite !then_asks, Hl.
  assert (Ha : forall db, omap (service_row_if false) db = map service_row db) by (induction db as [|a db IH]; [done|]; cbn; by rewrite IH).
  assert (Hs : forall db, omap (fun st => Some (state_row_of st)) db = map state_row_of db) by (induction db as [|a db IH]; [done|]; cbn; by rewrite IH).
  repeat split; cbn [mthen]; rewrite ?then_asks.
  - unfold deref. rewrite help_loop_bounded, fill_run by (first [by left; lia|right; cbn; lia|cbn; lia]). cbn [mbind option_bind app].
    rewrite help_loop_bounded, fill_run; [|vm_compute; lia|by left; lia]; by rewrite omap_app.
  - unfold deref. rewrite help_loop_free by (cbn; lia). cbn [mbind option_bind app].
    rewrite help_loop_bounded, fill_run; [|vm_compute; lia|by left; lia]; by rewrite omap_app.
  - unfold deref. by rewrite services_loop_fill, fill_run by (first [by left; lia|right; cbn; lia|cbn; lia]).
  - unfold deref. rewrite services_loop_fill, fill_run by (first [by left; lia|right; cbn; lia|cbn; lia]). by rewrite app_nil_l, Ha.
  - unfold deref. rewrite states_loop_fill, fill_run by (first [by left; lia|right; cbn; lia|cbn; lia]). by rewrite app_nil_l, Hs.
  - unfold deref. by rewrite options_loop_fill, fill_run by (first [by left; lia|right; cbn; lia|cbn; lia]).
Qed.

(** C22: no listing leaves its array.  Whatever is registered, the six listings
    (help, all help, services, all services, states, types of variables) return,
    change nothing, and give the first 101 of what they are to show, in order:
    the commands of the module before the registered ones, services that are
    not hidden, variables that are not internal. *)
Theorem listings_stay_in_their_arrays g :
  local_commands_db (ngc4 (g_statics g)) = local_commands ->
  let services := map snd (active_services g) in
  cmd_help None g = Done (take 101 (omap (help_row_if standard) (local_commands ++ g_command_db g)), g) /\
  cmd_help_all None g = Done (take 101 (omap (help_row_if standard_or_advanced) (local_commands ++ g_command_db g)), g) /\
  cmd_services None g = Done (take 101 (omap (service_row_if true) services), g) /\
  cmd_all_services None g = Done (take 101 (map service_row services), g) /\
  cmd_states None g = Done (take 101 (map state_row_of (g_states g)), g) /\
  cmd_options None g = Done (take 101 (omap option_row_if (g_option_db g)), g).
Proof. apply listings_stay. Qed.

(** ** A request and its reply *)

(** What was sent to [fd], one entry for each send. *)
Definition sent_more (fd : Z) (texts : list (list Z)) (g : s_global) : s_global :=
  g <| g_ticks := (g_ticks g + length texts)%nat |>
    <| g_statics := (g_statics g) <| wire := wire (g_statics g) ++ map (fun b => (fd, map char_of_byte b)) texts |> |>.

Section exchange.
Context `{CB : Callbacks, CC : CommandCode, RC : ReplyCode, SS : SockSys, NS : Ngc4Sys, NN : NgcNet} (fuel : nat) (fd : Z).
Hypothesis taken : forall t n, NgeMod.sys_send t fd n = Z.of_nat n.

Lemma send_bytes_run b bytes g : send_bytes fd (b :: bytes) g = Done (Z.of_nat (length (b :: bytes)), sent_more fd [b :: bytes] g).
Proof.
  unfold send_bytes, do_send. rewrite (mthen_run _ _ _ _ _ (syscall_run _ _)). cbv beta. rewrite taken, length_map.
  destruct (Z.ltb_spec 0 (Z.of_nat (length (b :: bytes)))) as [_|?]; [|cbn in *; lia].
  unfold set_statics. rewrite then_modify, Nat2Z.id, take_ge by (by rewrite length_map). unfold mpure, sent_more. do 3 f_equal.
  rewrite Nat.add_1_r. by destruct g.
Qed.

Lemma sent_more_twice texts1 texts2 g : sent_more fd texts2 (sent_more fd texts1 g) = sent_more fd (texts1 ++ texts2) g.
Proof.
  unfold sent_more. rewrite map_app, length_app. destruct g as [? ? ? ? ? ? ? ? ? ? ? ? ?]. cbn.
  rewrite Nat.add_assoc, app_assoc. reflexivity.
Qed.

(** The command of a request: one of the module, else a registered one. *)
Definition requested (h : read_header) (g : s_global) : option s_command :=
  let local := local_commands_db (ngc4 (g_statics g)) in
  if c_true (h_c h) then
    match List.find (fun c => com_id c =? h_c h) local with
    | Some c => Some c
    | None => initng_command_find_by_command_id (h_c h) g
    end
  else
    match List.find (fun c => bool_decide (com_long_id c = Some (h_l h))) local with
    | Some c => Some c
    | None => initng_command_find_by_command_string (h_l h) g
    end.

(** The command takes an argument, or none, as it was sent. *)
Definition takes (cmd : s_command) (arg : option string) : bool :=
  match com_opt_type cmd with NO_OPT => bool_decide (arg = None) | USES_OPT => true | REQUIRES_OPT => bool_decide (is_Some arg) end.

(** What the command gives, as bytes. *)
Definition command_bytes (cmd : s_command) (arg : option string) : G (option (list Z)) :=
  let! f := deref (fun _ => com_u cmd) in
  match com_type cmd with
  | INT_COMMAND => let! ret := call_int_command f arg in mpure (Some (le_bytes 4 ret))
  | STRING_COMMAND => let! s := call_string_command f arg in mpure (bytes_of <$> s)
  | PAYLOAD_COMMAND => let! p := data_command fuel f arg in mpure (Some p)
  | COMMAND_FAIL => fault
  end.

(** An empty argument is none. *)
Definition body_of (o : option string) : option string :=
  match o with Some EmptyString => None | _ => o end.

(** The state once the request was received. *)
Definition received (o : option string) (g : s_global) : s_global :=
  g <| g_ticks := (g_ticks g + (if bool_decide (body_of o = None) then 1 else 2))%nat |>.

(** The kernel hands initng the request of a client. *)
Record request_arrives (c : Z) (l o : option string) (g : s_global) : Prop := {
  ra_char : - 128 <= c < 128;
  ra_name : nul_free (default ""%string l) = true;
  ra_name_fits : (String.length (default ""%string l) <= 100)%nat;
  ra_arg : nul_free (default ""%string o) = true;
  ra_arg_fits : Z.of_nat (String.length (default ""%string o)) < 2 ^ 31;
  ra_header : sys_recv_bytes (g_ticks g) fd sizeof_header = Some (header_bytes (request_header c l o));
  ra_body : forall s, body_of o = Some s -> sys_recv_bytes (S (g_ticks g)) fd (Z.of_nat (String.length s)) = Some (bytes_of s)
}.

Lemma cut_all n s : (String.length s <= n)%nat -> cut n s = s.
Proof.
  intros Hlen. unfold cut. rewrite take_ge by (by rewrite length_chars_of). apply string_of_list_ascii_of_string.
Qed.

Lemma body_len_of c l o :
  h_body_len (request_header c l o) = match body_of o with Some s => Z.of_nat (String.length s) | None => 0 end.
Proof. by destruct o as [[|a s]|]. Qed.

Lemma length_bytes_of s : length (bytes_of s) = String.length s.
Proof. unfold bytes_of. by rewrite length_map, length_chars_of. Qed.

Lemma recv_run len bytes g :
  sys_recv_bytes (g_ticks g) fd len = Some bytes -> len = Z.of_nat (length bytes) ->
  recv fd len g = Done (Some bytes, g <| g_ticks := S (g_ticks g) |>).
Proof.
  intros E El. unfold recv. rewrite (mthen_run _ _ _ _ _ (syscall_run _ _)). cbv beta. rewrite E. cbn [fmap option_fmap option_map].
  rewrite El, Z.min_id, Nat2Z.id, take_ge by lia. done.
Qed.

Lemma arg_of_body s n g : nul_free s = true -> (0 < n)%nat -> arg_of (Some (bytes_of s ++ zeros n)) g = Done (Some s, g).
Proof.
  intros Hs Hn. unfold arg_of. erewrite then_deref; [done|]. unfold get_string. rewrite drop_0. destruct n as [|n]; [lia|].
  unfold zeros. cbn [replicate]. rewrite until_nul_app; [|intros b; by apply bytes_of_nonzero]. cbn [mbind option_bind]. unfold bytes_of.
  by rewrite char_of_byte_of_char, string_of_list_ascii_of_string.
Qed.

(** The body arrives in its block, with a NUL behind it. *)
Lemma recv_body_run s g :
  (0 < String.length s)%nat -> Z.of_nat (String.length s) < 2 ^ 31 ->
  sys_recv_bytes (g_ticks g) fd (Z.of_nat (String.length s)) = Some (bytes_of s) ->
  recv_body fd (Z.of_nat (String.length s)) g = Done (Some (bytes_of s ++ zeros 1), g <| g_ticks := S (g_ticks g) |>).
Proof.
  intros Hpos Hlt E. unfold recv_body. cbv zeta. rewrite (mthen_run _ _ _ _ _ (recv_run _ _ g E ltac:(by rewrite length_bytes_of))).
  cbn [default returned]. change (id (bytes_of s)) with (bytes_of s). rewrite length_bytes_of, Z.mod_small by lia. set (n := Z.of_nat (String.length s)) in *.
  destruct (Z.ltb_spec (n + 1) n); [lia|]. assert (Ei : to_int n = n) by (unfold to_int; rewrite Z.mod_small by lia; lia).
  rewrite Ei, Z.ltb_irrefl. by replace (n + 1 - n) with 1 by lia.
Qed.

Lemma ticks_twice g a b : g <| g_ticks := a |> <| g_ticks := b |> = g <| g_ticks := b |>.
Proof. by destruct g. Qed.

Lemma send_reply_run cmd bytes g :
  bytes <> [] ->
  send_reply fd cmd bytes g =
    Done (tt, sent_more fd [result_bytes (result (com_id cmd) (com_type cmd) S_TRUE (Z.of_nat (length bytes))); bytes] g).
Proof.
  intros Hb. unfold send_reply, send_result. set (r := result _ _ _ _).
  assert (Hr : Z.of_nat (length (result_bytes r)) = sizeof_result) by apply result_length.
  destruct (result_bytes r) as [|x rb]; [discriminate Hr|].
  rewrite (mthen_run _ _ _ _ _ (send_bytes_run _ _ _)). rewrite Hr, Z.eqb_refl. cbn [negb].
  destruct bytes as [|y bytes]; [done|]. rewrite (mthen_run _ _ _ _ _ (send_bytes_run _ _ _)), sent_more_twice. done.
Qed.

Lemma run_command_run cmd data arg bytes g g3 :
  com_type cmd <> COMMAND_FAIL -> arg_of data g = Done (arg, g) -> command_bytes cmd arg g = Done (Some bytes, g3) ->
  run_client_command fuel fd cmd data g = send_reply fd cmd bytes g3.
Proof.
  intros Ht Ea E. unfold run_client_command, command_bytes in *. destruct (com_u cmd) as [f|] eqn:Eu.
  2:{ unfold mthen, deref in E. discriminate E. }
  erewrite then_deref in E by done. destruct (com_type cmd); [done|..]; (erewrite then_deref by done); rewrite (mthen_run _ _ _ _ _ Ea).
  all: unfold mthen in E |- *; cbv beta in E |- *.
  all: match type of E with context [match ?m ?x with Done _ => _ | NoFuel => _ | Fault => _ end] => destruct (m x) as [[r g1]| |]; [|discriminate E|discriminate E] end.
  - injection E as <- <-. done.
  - injection E as <- <-. done.
  - destruct r as [s|]; [|done]. injection E as <- <-. done.
Qed.

Lemma answer_run h data arg cmd g :
  h_c h <> chr "X" -> requested h g = Some cmd -> com_type cmd <> COMMAND_FAIL ->
  0 <= h_body_len h -> (0 < h_body_len h <-> is_Some arg) -> takes cmd arg = true ->
  answer_request fuel fd h data g = run_client_command fuel fd cmd data g.
Proof.
  intros HX Hr Ht H0 Hlen Htk. unfold answer_request. rewrite (proj2 (Z.eqb_neq _ _) HX). unfold requested in Hr.
  assert (Hfind : exists k, (if c_true (h_c h) then lfbc (h_c h) else lfbs (h_l h)) g = Done (k, g) /\
    match k with Some c => Some c
    | None => (if c_true (h_c h) then initng_command_find_by_command_id (h_c h) else initng_command_find_by_command_string (h_l h)) g end = Some cmd).
  { destruct (c_true (h_c h)); eexists; (split; [reflexivity|exact Hr]). }
  destruct Hfind as (k & Ek & Hk). rewrite (mthen_run _ _ _ _ _ Ek).
  assert (Hc : (match k with Some cmd => mpure (Some cmd)
    | None => asks (if c_true (h_c h) then initng_command_find_by_command_id (h_c h) else initng_command_find_by_command_string (h_l h)) end) g
    = Done (Some cmd, g)) by (destruct k; [by injection Hk as ->|unfold asks; by rewrite Hk]).
  rewrite (mthen_run _ _ _ _ _ Hc), (bool_decide_eq_false_2 _ Ht). unfold takes in Htk.
  assert (H1 : bool_decide (com_opt_type cmd = REQUIRES_OPT) && (h_body_len h <? 1) = false).
  { destruct (com_opt_type cmd); [done|done|]. apply bool_decide_eq_true_1, Hlen in Htk. apply Z.ltb_ge. lia. }
  assert (H2 : bool_decide (com_opt_type cmd = NO_OPT) && (0 <? h_body_len h) = false).
  { destruct (com_opt_type cmd); [|done|done]. apply bool_decide_eq_true_1 in Htk as ->. apply Z.ltb_ge. destruct (decide (0 < h_body_len h)) as [Hp|]; [|lia].
    apply Hlen in Hp as [? ?]. done. }
  by rewrite H1, H2.
Qed.

(** A request reaches its command, with its argument. *)
Lemma server_runs c l o g cmd :
  request_arrives c l o g -> c <> chr "X" -> requested (request_header c l o) g = Some cmd -> com_type cmd <> COMMAND_FAIL ->
  takes cmd (body_of o) = true ->
  exists data, handle_client fuel fd g = run_client_command fuel fd cmd data (received o g) /\
    arg_of data (received o g) = Done (body_of o, received o g).
Proof.
  intros [R1 R2 R3 R4 R5 R6 R7] HX Hr Ht Htk. set (h := request_header c l o) in *. unfold handle_client.
  rewrite (mthen_run _ _ _ _ _ (recv_run _ _ g R6 (eq_sym (header_length h)))). cbn [returned]. rewrite header_length, Z.ltb_irrefl.
  assert (Hlen : 0 <= h_body_len h < 2 ^ 31) by (unfold h; rewrite body_len_of; destruct o as [[|a s]|]; cbn [body_of] in *; cbn in R5 |- *; lia).
  assert (Eh : header_of (header_bytes h) = Some h).
  { rewrite header_read; [|done|done|by vm_compute|lia]. unfold h, request_header. cbn [h_c h_l h_p_ver h_body_len]. by rewrite cut_all. }
  erewrite then_deref by exact Eh. change (h_p_ver h) with PROTOCOL_4_VERSION. rewrite Z.eqb_refl. cbn [negb].
  assert (Hbl := body_len_of c l o : h_body_len h = _). unfold received. destruct (body_of o) as [s|] eqn:Eo.
  - assert (Es : o = Some s /\ (0 < String.length s)%nat) by (destruct o as [[|a s']|]; cbn in Eo; simplify_eq; cbn; split; [done|lia]).
    destruct Es as [-> Hs]. cbn [default] in R4, R5. rewrite Hbl. destruct (Z.ltb_spec 0 (Z.of_nat (String.length s))) as [_|?]; [|lia].
    set (g1 := g <| g_ticks := S (g_ticks g) |>). assert (R8 : sys_recv_bytes (g_ticks g1) fd (Z.of_nat (String.length s)) = Some (bytes_of s)) by (by apply R7).
    rewrite (mthen_run _ _ _ _ _ (recv_body_run s g1 Hs R5 R8)). unfold g1. rewrite ticks_twice.
    change (g_ticks (g <| g_ticks := S (g_ticks g) |>)) with (S (g_ticks g)).
    assert (Et : (g_ticks g + 2)%nat = S (S (g_ticks g))) by lia. rewrite bool_decide_eq_false_2, Et by done.
    exists (Some (bytes_of s ++ zeros 1)). split; [|apply arg_of_body; [done|lia]]. apply (answer_run h _ (Some s)); [done|exact Hr|done|lia| |done].
    rewrite Hbl. split; [by eexists|lia].
  - rewrite Hbl, Z.ltb_irrefl. assert (Et : (g_ticks g + 1)%nat = S (g_ticks g)) by lia. rewrite bool_decide_eq_true_2, Et by done.
    exists None. split; [|done]. apply (answer_run h _ None); [done|exact Hr|done|lia| |done].
    rewrite Hbl. split; [lia|by intros [? ?]].
Qed.

Lemma server_answers c l o g cmd bytes g3 :
  request_arrives c l o g -> c <> chr "X" -> requested (request_header c l o) g = Some cmd -> com_type cmd <> COMMAND_FAIL ->
  takes cmd (body_of o) = true -> command_bytes cmd (body_of o) (received o g) = Done (Some bytes, g3) -> bytes <> [] ->
  handle_client fuel fd g =
    Done (tt, sent_more fd [result_bytes (result (com_id cmd) (com_type cmd) S_TRUE (Z.of_nat (length bytes))); bytes] g3).
Proof.
  intros Hra HX Hr Ht Htk E Hb. destruct (server_runs c l o g cmd) as (data & -> & Ea); [done..|].
  rewrite (run_command_run cmd data (body_of o) bytes _ g3) by done. by apply send_reply_run.
Qed.

(** *** The client *)

(** The client reaches initng, and its kernel takes what it sends. *)
Record connects (path : string) : Prop := {
  co_socket : 1 <= ngc_socket;
  co_connect : ngc_connect ngc_socket path = true;
  co_path : (String.length path < 108)%nat;
  co_send : forall n len, ngc_send n len = Z.of_nat len
}.

(** What the client has sent. *)
Definition request_bytes (c : Z) (l o : option string) : list Z :=
  header_bytes (request_header c l o) ++ bytes_of (default ""%string (body_of o)).

(** What stays as it is in the client. *)
Definition same_client (c c' : ngc_state) : Prop :=
  printed c' = printed c /\ quiet c' = quiet c /\ ansi c' = ansi c /\ header_printed c' = header_printed c /\ socket_filename c' = socket_filename c.

Lemma send_on_run bytes c :
  (forall n len, ngc_send n len = Z.of_nat len) ->
  send_on bytes c = Done (Z.of_nat (length bytes), c <| n_sends := S (n_sends c) |> <| on_wire := on_wire c ++ bytes |>).
Proof.
  intros Hs. unfold send_on. rewrite then_asks. cbv zeta. rewrite Hs, then_modify, Nat2Z.id, take_ge by lia. done.
Qed.

Lemma request_sent path c l o c0 :
  connects path -> Z.of_nat (String.length (default ""%string o)) < 2 ^ 31 -> c <> chr "c" ->
  exists c1, ngcclient_send_command path c l o c0 = fetch_result c1 /\ same_client c0 c1 /\ ngcclient_error c1 = None /\
    n_recvs c1 = n_recvs c0 /\ on_wire c1 = request_bytes c l o.
Proof.
  intros [K1 K2 K3 K4] Ho Hc. unfold ngcclient_send_command, ngcclient_open_socket. cbv zeta.
  destruct (Z.ltb_spec ngc_socket 0); [lia|]. rewrite (proj2 (Nat.leb_gt _ _)) by done. rewrite K2. cbn [negb].
  rewrite then_then, then_modify, then_pure. destruct (Z.ltb_spec ngc_socket 1); [lia|]. set (h := request_header c l o).
  rewrite (mthen_run _ _ _ _ _ (send_on_run _ _ K4)), header_length, Z.ltb_irrefl.
  assert (Hcc : (h_c h =? chr "c") = false) by (by apply Z.eqb_neq). assert (Hbl := body_len_of c l o : h_body_len h = _). rewrite Hbl, Hcc.
  destruct (body_of o) as [s|] eqn:Eo; unfold request_bytes; rewrite Eo.
  - assert (Es : o = Some s /\ (0 < String.length s)%nat) by (destruct o as [[|a s']|]; cbn in Eo; simplify_eq; cbn; split; [done|lia]).
    destruct Es as [-> Hs]. change (default ""%string (Some s)) with s in *. unfold c_true. rewrite (proj2 (Z.eqb_neq _ _)) by lia. cbn [negb].
    rewrite then_then, (mthen_run _ _ _ _ _ (send_on_run _ _ K4)), then_pure, length_bytes_of.
    assert (Ei : to_int (Z.of_nat (String.length s)) = Z.of_nat (String.length s)) by (unfold to_int; rewrite Z.mod_small by lia; lia).
    rewrite Ei, Z.ltb_irrefl. cbn [negb]. eexists. split; [reflexivity|]. repeat split.
  - unfold c_true. rewrite Z.eqb_refl. cbn [negb]. rewrite then_pure. cbn [negb]. eexists. split; [reflexivity|]. repeat split.
    cbn. by rewrite app_nil_r.
Qed.

Lemma recv_on_run len bytes c :
  ngc_recv (n_recvs c) (on_wire c) len = Some bytes -> len = Z.of_nat (length bytes) ->
  recv_on len c = Done (Some bytes, c <| n_recvs := S (n_recvs c) |>).
Proof.
  intros E El. unfold recv_on. rewrite !then_asks, then_modify, E. cbn [fmap option_fmap option_map].
  rewrite El, Z.min_id, Nat2Z.id, take_ge by lia. done.
Qed.

Lemma reply_fetched r bytes c1 :
  r_s r = S_TRUE -> - 128 <= r_c r < 128 -> int32 (r_t r) -> r_p_ver r = PROTOCOL_4_VERSION -> r_payload r = Z.of_nat (length bytes) ->
  bytes <> [] -> Z.of_nat (length bytes) < 2 ^ 64 - 1 ->
  ngc_recv (n_recvs c1) (on_wire c1) sizeof_result = Some (result_bytes r) ->
  ngc_recv (S (n_recvs c1)) (on_wire c1) (Z.of_nat (length bytes)) = Some bytes ->
  exists c', fetch_result c1 = Done (Some (Reply (Result S_TRUE (r_c r) (r_t r) "" PROTOCOL_4_VERSION (Z.of_nat (length bytes)))
      (Some (bytes ++ 0 :: heap_behind))), c') /\ same_client c1 c' /\ ngcclient_error c' = ngcclient_error c1.
Proof.
  intros H1 H2 H3 H4 H5 Hb Hlt E1 E2. unfold fetch_result. rewrite (mthen_run _ _ _ _ _ (recv_on_run _ _ _ E1 (eq_sym (result_length r)))).
  rewrite result_length, Z.ltb_irrefl.
  assert (Er : result_of (result_bytes r) = Some (Result S_TRUE (r_c r) (r_t r) "" PROTOCOL_4_VERSION (Z.of_nat (length bytes)))).
  { rewrite result_read; [by rewrite H1, H4, H5| | |done| |]; rewrite ?H1, ?H4, ?H5; [by vm_compute|done|by vm_compute|lia]. }
  erewrite then_deref by exact Er. cbn [r_p_ver r_s r_payload]. rewrite Z.eqb_refl. cbn [negb]. change (verdict S_TRUE) with (@None string).
  unfold fetch_payload. rewrite (proj2 (Z.eqb_neq _ 0)) by (destruct bytes; [done|cbn; lia]).
  set (c2 := c1 <| n_recvs := _ |>).
  assert (E3 : ngc_recv (n_recvs c2) (on_wire c2) (Z.of_nat (length bytes)) = Some bytes) by done.
  rewrite then_then, (mthen_run _ _ _ _ _ (recv_on_run _ _ _ E3 eq_refl)). cbv zeta. change (default [] (Some bytes)) with bytes.
  rewrite Z.mod_small by lia. destruct (Z.ltb_spec (Z.of_nat (length bytes) + 1) (Z.of_nat (length bytes))); [lia|].
  rewrite then_pure. replace (Z.of_nat (length bytes) + 1 - Z.of_nat (length bytes)) with 1 by lia. eexists. split; [reflexivity|]. repeat split.
Qed.

(** C20: a request comes back with what its command gave.  When the kernels carry
    the bytes, the request of a client, with a command by its letter or its
    name and with an argument or none, makes initng run exactly that command
    once with that argument; initng then sends its result and the bytes that
    the command gave and nothing else, and the client ends up with them, and
    without an error.  The commands of the module hide registered ones. *)
Theorem request_comes_back path c l o c0 g cmd bytes g3 :
  connects path -> request_arrives c l o g -> c <> chr "c" -> c <> chr "X" ->
  requested (request_header c l o) g = Some cmd -> com_type cmd <> COMMAND_FAIL -> - 128 <= com_id cmd < 128 ->
  takes cmd (body_of o) = true -> command_bytes cmd (body_of o) (received o g) = Done (Some bytes, g3) ->
  bytes <> [] -> Z.of_nat (length bytes) < 2 ^ 64 - 1 ->
  let r := result_bytes (result (com_id cmd) (com_type cmd) S_TRUE (Z.of_nat (length bytes))) in
  handle_client fuel fd g = Done (tt, sent_more fd [r; bytes] g3) /\
    (ngc_recv (n_recvs c0) (request_bytes c l o) sizeof_result = Some r ->
     ngc_recv (S (n_recvs c0)) (request_bytes c l o) (Z.of_nat (length bytes)) = Some bytes ->
     exists c', ngcclient_send_command path c l o c0 =
       Done (Some (Reply (Result S_TRUE (com_id cmd) (com_type_num (com_type cmd)) "" PROTOCOL_4_VERSION (Z.of_nat (length bytes)))
         (Some (bytes ++ 0 :: heap_behind))), c') /\ same_client c0 c' /\ ngcclient_error c' = None).
Proof.
  intros Hco Hra Hc HX Hr Ht Hid Htk E Hb Hlt r. split; [by eapply server_answers|]. intros E1 E2.
  destruct (request_sent path c l o c0 Hco (ra_arg_fits _ _ _ _ Hra) Hc) as (c1 & -> & S1 & Er & En & Ew).
  rewrite <- En, <- Ew in E1, E2. unfold r in E1. set (res := result _ _ _ _) in *.
  destruct (reply_fetched res bytes c1) as (c' & -> & S2 & Ee); try done; [destruct (com_type cmd); by vm_compute|].
  exists c'. split; [done|]. split; [|by rewrite Ee]. unfold same_client in *. intuition congruence.
Qed.

(** *** The status of the services *)

Lemma same_client_refl c : same_client c c.
Proof. done. Qed.

Lemma first_kind (rows : list active_row) rest : rows <> [] -> get_int 0 (concat (map active_row_bytes rows) ++ rest) = Some ACTIVE_ROW.
Proof.
  destruct rows as [|r rows]; [done|]. intros _. cbn [map concat]. unfold active_row_bytes at 1.
  erewrite get_int_at; [done|by vm_compute|done|]. change (Z.to_nat 0) with 0%nat. rewrite drop_0, <- !app_assoc. reflexivity.
Qed.

Lemma active_reply_text rows res colour c :
  r_t res = com_type_num PAYLOAD_COMMAND -> r_payload res <> 0 -> ngcclient_error c = None -> rows <> [] -> Forall active_ok rows ->
  (3 <= length heap_behind)%nat ->
  ngcclient_reply_to_string (Some (Reply res (Some (concat (map active_row_bytes rows) ++ 0 :: heap_behind)))) colour c =
    Done (Some (active_head colour ++ concat (map (active_text colour) rows)), c).
Proof.
  intros Ht Hp He Hne Hok Hheap. unfold ngcclient_reply_to_string. rewrite then_asks, He. cbn [rep_result rep_payload]. rewrite Ht.
  cbn [com_type_num Z.eqb Pos.eqb negb orb]. rewrite (proj2 (Z.eqb_neq _ 0) Hp).
  erewrite then_deref by (by apply first_kind). cbn [Z.eqb Pos.eqb HELP_ROW ACTIVE_ROW].
  pose proof (active_listing colour rows) as Hl. destruct heap_behind as [|b1 [|b2 [|b3 rest]]]; [cbn in Hheap; lia..|].
  unfold mthen, lift_n. by rewrite Hl.
Qed.

(** C21: ngc -s shows the services.  When the kernels carry the bytes, the client
    prints, below the head of the table, one line for each of the first 101
    services of the database that are not hidden, in their order, with the time
    of the last change, the type, the name and the state; and nothing in initng
    changes but what was sent.  The three bytes that the client reads behind its
    block may be anything. *)
Theorem status_shows_the_services c0 g :
  connects (socket_filename c0) -> request_arrives (chr "s") None None g ->
  local_commands_db (ngc4 (g_statics g)) = local_commands ->
  let rows := take 101 (omap (service_row_if true) (map snd (active_services g))) in
  rows <> [] -> Forall active_ok rows -> (3 <= length heap_behind)%nat -> quiet c0 = false -> header_printed c0 = true ->
  let p := concat (map active_row_bytes rows) in
  let r := result_bytes (result (chr "s") PAYLOAD_COMMAND S_TRUE (Z.of_nat (length p))) in
  handle_client fuel fd g = Done (tt, sent_more fd [r; p] (received None g)) /\
    (ngc_recv (n_recvs c0) (request_bytes (chr "s") None None) sizeof_result = Some r ->
     ngc_recv (S (n_recvs c0)) (request_bytes (chr "s") None None) (Z.of_nat (length p)) = Some p ->
     exists c', send_and_handle (chr "s") None None c0 = Done (true, c') /\
       printed c' = printed c0 ++ [c_nl; c_nl] ++ active_head (ansi c0) ++ concat (map (active_text (ansi c0)) rows) ++ [c_nl]).
Proof.
  intros Hco Hra Hloc rows Hne Hok Hheap Hq Hh bytes r.
  assert (Hb : bytes <> []).
  { unfold bytes. destruct rows as [|x rows']; [done|]. cbn [map concat]. pose proof (active_row_length x) as L. destruct (active_row_bytes x); done. }
  assert (Hlen : Z.of_nat (length bytes) < 2 ^ 64 - 1).
  { assert (Hr : (length rows <= 101)%nat) by (unfold rows; rewrite length_take; lia).
    assert (Hl : Z.of_nat (length bytes) = 336 * Z.of_nat (length rows)).
    { unfold bytes. clear. induction rows as [|r rows IH]; [done|]. cbn [map concat length]. rewrite length_app, Nat2Z.inj_add, active_row_length, IH.
      unfold sizeof_active_row. lia. }
    rewrite Hl. lia. }
  assert (Ecmd : command_bytes SERVICES None (received None g) = Done (Some bytes, received None g)).
  { unfold command_bytes. erewrite then_deref by reflexivity. cbn [com_type SERVICES]. change (data_command fuel cmd_services_ptr None) with (payload_of active_row_bytes (cmd_services None)).
    unfold payload_of. rewrite then_then.
    destruct (listings_stay (received None g)) as (_ & _ & Es & _); [exact Hloc|]. rewrite (mthen_run _ _ _ _ _ Es). done. }
  assert (Hr : requested (request_header (chr "s") None None) g = Some SERVICES).
  { unfold requested. rewrite Hloc. reflexivity. }
  split; [by eapply (server_answers (chr "s") None None g SERVICES bytes)|]. intros E1 E2. unfold r in E1.
  destruct (request_sent (socket_filename c0) (chr "s") None None c0 Hco ltac:(done) ltac:(done)) as (c1 & E3 & S1 & Er & En & Ew).
  rewrite <- En, <- Ew in E1, E2. set (res := result _ _ _ _) in *.
  destruct (reply_fetched res bytes c1) as (c2 & E4 & S2 & Ee); try done.
  assert (Hnz : r_payload res <> 0) by (cbn; destruct bytes; [done|cbn; lia]).
  destruct S1 as (P1 & Q1 & A1 & H1 & _), S2 as (P2 & Q2 & A2 & H2 & _).
  unfold send_and_handle. rewrite then_asks, (mthen_run _ _ _ _ _ (eq_trans E3 E4)), then_asks, Ee, Er, then_asks.
  change (id c2) with c2. rewrite H2, H1, Hh. cbn [negb andb]. rewrite then_pure, Q2, Q1, Hq.
  rewrite (mthen_run _ _ _ tt (c2 <| printed := printed c2 ++ [c_nl; c_nl] ++ (active_head (ansi c2) ++ concat (map (active_text (ansi c2)) rows)) ++ [c_nl] |>)).
  2:{ rewrite (mthen_run _ _ _ _ _ (active_reply_text rows res (ansi c2) c2 eq_refl Hnz (eq_trans Ee Er) Hne Hok Hheap)). cbn [default].
      unfold print_out, modify. by rewrite Q2, Q1, Hq. }
  eexists. split; [reflexivity|]. cbn [printed setf set_printed]. rewrite P2, P1, A2, A1, <- !app_assoc. done.
Qed.

(** ** Requests that take initng down *)

Lemma payload_fault f (cmd : s_command) data arg g :
  com_type cmd = PAYLOAD_COMMAND -> com_u cmd = Some f -> arg_of data g = Done (arg, g) -> data_command fuel f arg g = Fault ->
  run_client_command fuel fd cmd data g = Fault.
Proof.
  intros Ht Hu Ea E. unfold run_client_command. rewrite Ht. erewrite then_deref by (by rewrite Hu). rewrite (mthen_run _ _ _ _ _ Ea).
  unfold mthen. by rewrite E.
Qed.

(** C40: asking for a variable of no special type takes initng down.  The request
    ngc -O with the name of a variable that is not bound to one type of service,
    as need, use, env and most others, reads the name of the type of service
    through a null pointer. *)
Theorem options_of_a_common_variable s e g :
  request_arrives (chr "O") None (Some s) g -> local_commands_db (ngc4 (g_statics g)) = local_commands ->
  (1 < String.length s)%nat -> initng_service_data_type_find s g = Some e -> ent_ot e = None ->
  handle_client fuel fd g = Fault.
Proof.
  intros Hra Hloc Hs Hf Hot. assert (Hb : body_of (Some s) = Some s) by (destruct s; [cbn in Hs; lia|done]).
  destruct (server_runs (chr "O") None (Some s) g OPTIONS) as (data & -> & Ea); [done|done|by unfold requested; rewrite Hloc|done|done|].
  rewrite Hb in Ea. apply (payload_fault cmd_options_ptr _ _ (Some s)); [done|done|done|].
  change (data_command fuel cmd_options_ptr (Some s)) with (payload_of option_row_bytes (cmd_options (Some s))). unfold payload_of, cmd_options. cbv zeta.
  rewrite (proj2 (Nat.ltb_lt _ _) Hs), then_then, then_asks.
  change (initng_service_data_type_find s (received (Some s) g)) with (initng_service_data_type_find s g). rewrite Hf.
  unfold mthen, deref. by rewrite Hot.
Qed.

(** A length of 2^64 - 1 is too much by one.  A request whose header says that
    the argument has 2^64 - 1 bytes gets a block of none, the sum having
    wrapped around, and whatever the client sends is written behind it. *)
Theorem longest_argument_overflows h b bytes g :
  - 128 <= h_c h < 128 -> nul_free (h_l h) = true -> h_p_ver h = PROTOCOL_4_VERSION -> h_body_len h = 2 ^ 64 - 1 ->
  sys_recv_bytes (g_ticks g) fd sizeof_header = Some (header_bytes h) ->
  sys_recv_bytes (S (g_ticks g)) fd (2 ^ 64 - 1) = Some (b :: bytes) -> Z.of_nat (length bytes) < 2 ^ 63 ->
  handle_client fuel fd g = Fault.
Proof.
  intros Hc Hl Hv Hlen E1 E2 Hn. unfold handle_client.
  rewrite (mthen_run _ _ _ _ _ (recv_run _ _ g E1 (eq_sym (header_length h)))). cbn [returned]. rewrite header_length, Z.ltb_irrefl.
  erewrite then_deref by (apply header_read; [done|done|rewrite Hv; by vm_compute|rewrite Hlen; lia]). cbn [h_p_ver h_body_len]. rewrite Hv, Z.eqb_refl. cbn [negb].
  rewrite Hlen. change (0 <? 2 ^ 64 - 1) with true. unfold recv_body. cbv zeta. change ((2 ^ 64 - 1 + 1) mod 2 ^ 64) with 0.
  unfold recv. rewrite !then_then, (mthen_run _ _ _ _ _ (syscall_run _ _)). cbv beta.
  change (g_ticks (g <| g_ticks := S (g_ticks g) |>)) with (S (g_ticks g)). rewrite E2. cbn [fmap option_fmap option_map].
  rewrite then_pure, Z.min_r, Nat2Z.id, take_ge by (cbn [length]; lia). done.
Qed.

End exchange.
