(* ===== verification/Examples.v ===== *)
(** * Concrete databases

    A builder for databases in a given state, a checked criterion for their
    being well formed, callbacks that do nothing, the database on which the
    deep dependency search misses a dependency, and runs of the system. *)
From S2P Require Import Prelude Types Data CString Global ActiveDb Depend Io Poll Interrupt Launch Modules Typed ServiceMod.
From S2P Require Import DaemonMod Control TaskMod RunlevelMod ServiceFile Hooks HookMods LogMods NgeMod HookTyped Ngc4Mod NgcTyped System.
From Stdlib Require Import String.
From stdpp Require Import prelude gmap strings.
Local Open Scope Z_scope.

(** ** Callbacks that do nothing *)

Definition quiet : Callbacks := {|
  call_hook := fun _ e => mpure e;
  call_stype := fun _ _ => mpure TRUE;
  call_state := fun _ _ => mpure tt;
  call_kill := fun _ _ _ => mpure tt
|}.

Lemma quiet_send g e : @initng_event_send quiet e g = Done (e <| ev_status := UNKNOWN |>, g).
Proof.
  unfold initng_event_send. rewrite (mthen_run _ _ g _ g eq_refl). induction (g_hooks g (ev_type e)); [done|].
  cbn [send_loop]. rewrite (mthen_run _ _ g _ g eq_refl). exact IHl.
Qed.

#[export] Instance quiet_dep_hooks : @DepHooks quiet.
Proof.
  refine (@Build_DepHooks quiet (fun _ _ _ => false) _ _); [|done].
  intros s c g. eexists. split; [apply quiet_send|done].
Defined.

(** ** Databases *)

Definition at_time (t : Z) : timeval := Timeval t 0.

(** The variables [l] of a service, as entries of the data. *)
Fixpoint entries (a : addr) (l : list (s_entry * t_union)) : list s_data :=
  match l with
  | [] => []
  | (t, v) :: l => SData a v t None true :: entries (Pos.succ a) l
  end.

(** A service that has been in state [st] since [since]. *)
Definition a_service (name : string) (ty : option stype_h) (st : a_state_h) (since : Z)
    (vars : list (s_entry * t_union)) : active_db_h :=
  Active (initng_hash_str name) name ty st (at_time since) None (at_time since) None 0 (st_is st)
    (at_time since) [] (DH (entries 500 vars)) 0 0.

Definition needs (name : string) : s_entry * t_union := (NEED, T_s name).
Definition uses (name : string) : s_entry * t_union := (USE, T_s name).

(** The services [l], all registered, at time [now]. *)
Definition world (l : list (addr * active_db_h)) (sys : h_sys_state) (now : Z) : s_global :=
  Global (list_to_map l) (map fst l) [] 10000 (fun _ => []) [] [] [] [] sys (at_time now) (at_time now)
    0 0 [] None None THEN_NONE [] 0 [] None [] [] 0 [] 0 0 [] init_proc zero_statics.

Definition service_ok (x : addr * active_db_h) : bool :=
  let a := snd x in
  Pos.ltb (fst x) 10000 && (a_name_hash a =? initng_hash_str (a_name a)) && (0 <=? a_state_lock a) &&
  bool_decide (a_next_state a = None) && bool_decide (NoDup (map d_addr (all_entries (a_data a)))).

Definition world_ok (l : list (addr * active_db_h)) : bool :=
  bool_decide (NoDup (map fst l)) && bool_decide (NoDup (map (fun x => a_name (snd x)) l)) &&
  List.forallb service_ok l.

Lemma wf_world l sys now : world_ok l = true -> wf (world l sys now).
Proof.
  unfold world_ok. rewrite !andb_true_iff, !bool_decide_eq_true, List.forallb_forall. intros [[Hk Hn] Hs].
  assert (Hin : forall s a, g_heap (world l sys now) !! s = Some a -> (s, a) ∈ l)
    by (intros s a H; by apply elem_of_list_to_map_2 in H).
  assert (Hok : forall s a, g_heap (world l sys now) !! s = Some a -> service_ok (s, a) = true)
    by (intros s a H; apply Hs, list_elem_of_In; auto).
  split; cbn [g_active_db g_interrupt g_fresh world].
  - done.
  - intros s Hx. apply list_elem_of_In, List.in_map_iff in Hx as ([s' a] & <- & Hx).
    exists a. apply elem_of_list_to_map_1; [done|]. by apply list_elem_of_In.
  - apply NoDup_nil_2.
  - by intros s ?%elem_of_nil.
  - intros s1 s2 a1 a2 _ _ H1 H2 E. apply Hin in H1, H2.
    apply list_elem_of_lookup in H1 as [i Hi]. apply list_elem_of_lookup in H2 as [j Hj].
    assert (i = j) as ->; [|congruence].
    eapply (NoDup_lookup _ _ _ (a_name a1) Hn); rewrite list_lookup_fmap, ?Hi, ?Hj; cbn; congruence.
  - intros s a H. apply Hok in H. unfold service_ok in H. cbn [fst snd] in H.
    rewrite !andb_true_iff, !bool_decide_eq_true, Z.eqb_eq, Z.leb_le in H. destruct H as [[[[_ H1] H2] H3] H4].
    split; [done|done| |done]. rewrite H3. by intros [? ?].
  - intros s [a H]. apply Hok in H. unfold service_ok in H. cbn [fst snd] in H.
    rewrite !andb_true_iff in H. destruct H as [[[[H _] _] _] _]. by apply Pos.ltb_lt in H.
Qed.

(** A service that is allocated but not registered. *)
Lemma wf_put_new g s a :
  wf g -> g_heap g !! s = None -> (s < g_fresh g)%positive -> wf_active a -> wf (put_service s a g).
Proof.
  intros [H1 H2 H3 H4 H5 H6 H7] Hs Hf Ha.
  assert (Hne : forall x, is_Some (g_heap g !! x) -> s <> x) by (intros x [? Hx] ->; congruence).
  split; cbn; try done.
  - intros x Hx. rewrite lookup_insert_ne by auto. auto.
  - intros x Hx. rewrite lookup_insert_ne by auto. auto.
  - intros x y ax ay Hx Hy. rewrite !lookup_insert_ne by auto. eauto.
  - intros x ax. rewrite lookup_insert. case_decide; [by intros [= <-]|apply H6].
  - intros x. rewrite lookup_insert. case_decide; [by subst|apply H7].
Qed.

(** ** A fan of dependencies *)

(** "top" uses ten services without dependencies and then "b"; "b" uses "c" and
    "c" uses "d". *)
Definition fan : list (addr * active_db_h) :=
  let svc n vars := a_service n (Some TYPE_SERVICE) SERVICE_DONE 0 vars in
  [(1%positive, svc "top" (map uses ["a0"; "a1"; "a2"; "a3"; "a4"; "a5"; "a6"; "a7"; "a8"; "a9"; "b"]));
   (2%positive, svc "a0" []); (3%positive, svc "a1" []); (4%positive, svc "a2" []); (5%positive, svc "a3" []);
   (6%positive, svc "a4" []); (7%positive, svc "a5" []); (8%positive, svc "a6" []); (9%positive, svc "a7" []);
   (10%positive, svc "a8" []); (11%positive, svc "a9" []);
   (12%positive, svc "b" [uses "c"]); (13%positive, svc "c" [uses "d"]); (14%positive, svc "d" [])]%string.

(** The deep dependency search misses dependencies.  The limit of 10 counts
    the calls of the whole search, not its depth: in this database "top"
    reaches "d" over three links, but the ten services tried before "b" use the
    limit up, and the answer is FALSE. *)
Theorem depend_deep_misses_a_chain :
  wf (world fan STATE_UP 100) /\ @reaches quiet quiet_dep_hooks (world fan STATE_UP 100) 1 14 /\
  @initng_depend_deep quiet 1 14 (world fan STATE_UP 100) = Done (FALSE, world fan STATE_UP 100).
Proof.
  split; [by apply wf_world; vm_compute|]. split; [|by vm_compute].
  apply (tc_l _ 1%positive 12%positive); [by vm_compute|].
  apply (tc_l _ 12%positive 13%positive); [by vm_compute|].
  apply tc_once. by vm_compute.
Qed.

(** ** A boot and a shutdown

    The callbacks are those of the service module, with a launcher, the event
    hook at address 50 on EVENT_LAUNCH, that gives each process its own pid. *)
Definition launcher_ptr : fptr := 50.

Definition launcher (f : fptr) (e : s_event) : G s_event :=
  match ev_data e with
  | ED_launch s p _ =>
    upd_process s p (fun q => q <| p_pid := Z.pos p |>) ;;;
    mpure (e <| ev_status := HANDLED |>)
  | _ => mpure e
  end.

(** The kernel: nothing to read, no children beyond those the test reports. *)
Definition idle_sys : Sys := {|
  sys_read := fun _ _ => Read_error 11;
  sys_waitpid := fun _ => Wait_none;
  sys_kill := fun _ _ _ => None
|}.

Definition boot_callbacks : Callbacks := @service_callbacks idle_sys launcher 40 8.

(** "web" needs "net"; both are down. *)
Definition boot_db : list (addr * active_db_h) :=
  [(1%positive, a_service "net" (Some TYPE_SERVICE) SERVICE_STOPPED 0 []);
   (2%positive, a_service "web" (Some TYPE_SERVICE) SERVICE_STOPPED 0 [needs "net"])]%string.

Definition boot_world : s_global :=
  (world boot_db STATE_STARTING 100) <| g_hooks :=
    fun t => if decide (t = EVENT_LAUNCH) then [Call launcher_ptr "launcher"%string] else [] |>.

(** Interrupts until none is left, at most [n] times. *)
Fixpoint settle_with (cb : Callbacks) (n : nat) : G unit :=
  match n with
  | O => mpure tt
  | S n =>
    let! r := @initng_interrupt cb 40 in
    if c_true r then settle_with cb n else mpure tt
  end.
Definition settle : nat -> G unit := settle_with boot_callbacks.

Definition states_of (g : s_global) : list string :=
  map (fun '(_, a) => st_name (a_current_state a)) (active_services g).

(** The start process of a service that has one. *)
Definition start_exits (s : addr) : G unit :=
  let! a := get_service s in
  match initng_process_db_get T_START a with
  | Some q => @initng_kill_handler_killed_by_pid boot_callbacks idle_sys 40 (p_pid q) 0
  | None => fault
  end.

Definition boot : G (list (list string) * h_sys_state) :=
  @initng_handler_start_service boot_callbacks 40 2 ;;;
  settle 20 ;;;
  let! s1 := asks states_of in
  start_exits 1 ;;;
  settle 20 ;;;
  let! s2 := asks states_of in
  start_exits 2 ;;;
  settle 20 ;;;
  let! s3 := asks states_of in
  let! sys := asks g_sys_state in
  @initng_handler_stop_all boot_callbacks 40 ;;;
  settle 20 ;;;
  let! s4 := asks states_of in
  mpure ([s1; s2; s3; s4], sys).

(** A boot, run by the model.  A start of "web" also starts "net", which it
    needs; "web" waits until the start process of "net" has exited, only then is
    its own started; when both are up the system is.  With everything up,
    stop_all makes both launch their stop: "web" first, "net" waits for it. *)
Theorem boot_in_dependency_order :
  exists g, boot boot_world = Done (
    ([["SERVICE_START_RUN"; "SERVICE_WAITING_FOR_START_DEP"];
      ["SERVICE_DONE"; "SERVICE_START_RUN"];
      ["SERVICE_DONE"; "SERVICE_DONE"];
      ["SERVICE_WAITING_FOR_STOP_DEP"; "SERVICE_STOP_RUN"]]%string, STATE_UP), g).
Proof. eexists. vm_compute. reflexivity. Qed.

(** ** A daemon stopped while it waits for its respawn

    The callbacks of all modules, with a launcher and, on EVENT_NEW_ACTIVE, a
    loader that makes a new service of the name. *)
Definition launcher_and_loader (f : fptr) (e : s_event) : G s_event :=
  match ev_data e with
  | ED_launch s p _ =>
    upd_process s p (fun q => q <| p_pid := Z.pos p |>) ;;;
    mpure (e <| ev_status := HANDLED |>)
  | ED_name name =>
    let! s := new_typed name TYPE_SERVICE in
    initng_active_db_register s ;;;
    mpure (e <| ev_ret := Some s |> <| ev_status := HANDLED |>)
  | _ => mpure e
  end.

Lemma launcher_and_loader_keeps : hooks_keep launcher_and_loader.
Proof.
  intros f e. unfold launcher_and_loader. destruct (ev_data e); kept_auto. by apply kept_upd_process.
Qed.

(** No /proc, no files. *)
Definition no_files : DaemonSys := {|
  sys_proc_dir := fun _ => None; sys_stat_line := fun _ _ => None;
  sys_pid_file := fun _ _ => None; sys_unlink := fun _ _ => None
|}.

(** No forks, no service files, no clients. *)
Definition no_forks : ForkSys := {|
  sys_pipe := fun _ => None; sys_socketpair := fun _ => None; sys_fork := fun _ => None;
  sys_stat := fun _ _ => None; env_PATH := None
|}.
Definition a_build : Build := {|
  initng_environ := ["TERM=linux"]%string; initng_pid := 1; INITNG_CONSOLE := "/dev/console"; INITNG_ROOT := "/etc/initng"
|}.
Definition no_clients : ClientSys := {| sys_recv := fun _ _ => Recv_closed |}.

(** One user and one group; every call succeeds. *)
Definition calls_succeed : HookSys := {|
  sys_getpwnam := fun _ name => if String.eqb name "www" then Some (33, 34, "/var/www"%string) else None;
  sys_getgrnam := fun _ name => if String.eqb name "log" then Some 35 else None;
  sys_fgets := fun _ => None; sys_creat := fun _ _ => true; sys_setgid := fun _ _ => true; sys_initgroups := fun _ _ => true;
  sys_setuid := fun _ _ => true; sys_chdir := fun _ _ => true; sys_chroot := fun _ _ => true; sys_nice := fun _ _ => true;
  sys_setrlimit := fun _ _ _ => true
|}.

(** No log files, no devices; the time is not shown. *)
Definition no_records : LogSys := {|
  sys_open_log := fun _ _ => -1; sys_netsock := fun _ => true; sys_ifconf := fun _ => Some []; ctime := fun _ => "(time)"%string
|}.

(** Every socket can be opened and takes everything that is sent. *)
Definition open_sockets : SockSys := {|
  sys_socket _ := 5; sys_accept _ _ := 6; sys_send _ _ n := Z.of_nat n; sys_bind _ _ _ := true; sys_chmod _ := true;
  sys_listen _ _ := true; sys_fd_open _ _ := true; sys_sock_stat _ _ := Some (1, 2, 3); INITNG_VERSION := "0.7.0";
  CTLDIR := "/dev/initng"
|}.

Definition full_callbacks : Callbacks :=
  @system_callbacks idle_sys no_files no_forks a_build no_clients calls_succeed no_records open_sockets launcher_and_loader 40 8.

(** ** The modules in their directory *)

Definition module_files : list (string * initng_module) :=
  let m i u := Module API_VERSION (Some i) (Some u) [] in
  [("modruntiming.so", Module 15 (Some 301) (Some 302) []); ("modservice.so", m 101 111); ("moddaemon.so", m 102 112);
   ("modtask.so", m 103 113); ("modrunlevel.so", m 104 114); ("modsimple_launcher.so", m 105 115);
   ("modservice_file.so", m 106 116); ("modstcmd.so", m 107 117)]%positive%string.

Definition a_module_dir : ModuleSys := {|
  sys_file_exists := fun _ path => List.existsb (fun x => String.eqb path ("/lib/initng/" +:+ fst x)) module_files;
  sys_dlopen := fun _ path =>
    (fun x => Some (snd x)) <$> List.find (fun x => String.eqb path ("/lib/initng/" +:+ fst x)) module_files;
  sys_readdir := fun _ path => if String.eqb path "/lib/initng" then Some ("." :: ".." :: map fst module_files)%string else None;
  fn_match := fun _ _ => false;
  INITNG_MODULE_DIR := "/lib/initng"
|}.

Definition no_init (f : fptr) : G Z := mpure FALSE.
Definition no_unload (f : fptr) : G unit := mpure tt.
Definition no_command (f : fptr) (arg : option string) : G Z := mpure FALSE.

Definition no_replies : ReplyCode := {| call_string_command := fun _ _ => mpure None; call_data_command := fun _ _ => mpure [] |}.

(** Nobody is heard on the socket of control clients. *)
Definition nobody : Ngc4Sys := {|
  sys_recv_bytes := fun _ _ _ => None; sys_connect := fun _ _ _ => false; sys_write := fun _ _ _ => -1; sys_accept_again := fun _ => true
|}.

Definition the_modules : ModuleCode := @system_module_code no_forks open_sockets no_init no_unload.

(** The global state with all modules loaded. *)
Definition started : s_global :=
  match initng_config_global_new [] (zeroed_global [] (at_time 5)) with Done (_, g) => g | _ => zeroed_global [] (at_time 5) end.
Definition initialised : s_global :=
  match @initng_module_load_all the_modules a_module_dir 20 "/lib/initng" started with Done (_, g) => g | _ => started end.

Lemma no_code_keeps : code_keeps no_init no_unload no_command no_replies.
Proof. split; [|split; [|split; [|split]]]; intros; apply kept_pure. Qed.

(** The file that is built for another version of the interface is left out. *)
Lemma all_modules_loaded :
  map m_name (g_module_db initialised) =
    ["service"; "daemon"; "task"; "runlevel"; "simple_launcher"; "service_file"; "stcmd"]%string /\
  length (g_command_db initialised) = 17%nat /\ length (g_stypes initialised) = 6%nat.
Proof. by vm_compute. Qed.

(** A daemon that runs as process 77, to be respawned when it dies. *)
Definition the_process : process_h := (initng_process_db_new 600 T_DAEMON) <| p_pid := 77 |>.
Definition a_daemon : active_db_h :=
  (a_service "d" (Some TYPE_DAEMON) DAEMON_RUNNING 50 [(RESPAWN, T_null)]) <| a_processes := [the_process] |>.
Definition daemon_world : s_global := world [(1%positive, a_daemon)] STATE_UP 100.

Definition pass_time (t : Z) : G unit := modify (fun g => g <| g_clock := at_time t |> <| g_now := at_time t |>).

Definition stop_in_the_pause : G (list (list string) * list Z) :=
  @initng_kill_handler_killed_by_pid full_callbacks idle_sys 40 77 0 ;;;
  settle_with full_callbacks 20 ;;;
  let! s1 := asks states_of in
  @initng_handler_stop_service full_callbacks 1 ;;;
  settle_with full_callbacks 20 ;;;
  let! s2 := asks states_of in
  pass_time 100000 ;;;
  @initng_handler_run_alarm full_callbacks 40 ;;;
  @initng_handler_stop_service full_callbacks 1 ;;;
  let! more := @initng_interrupt full_callbacks 40 in
  let! s3 := asks states_of in
  let! quit := asks initng_main_ready_to_quit in
  mpure ([s1; s2; s3], [more; of_bool quit]).

(** A daemon that is stopped during its respawn pause never stops.  Its
    process has died and is gone, so DAEMON_STOP_DEPS_MET finds no process to
    kill and returns without a new state; that state has no alarm and no
    interrupt function, a further stop does nothing to a service that is
    stopping already, and the system is never ready to quit. *)
Theorem stop_during_respawn_pause_hangs :
  exists g, stop_in_the_pause daemon_world = Done (
    ([["WAIT_FOR_RESPAWN_TIMEOUT"]; ["DAEMON_STOP_DEPS_MET"]; ["DAEMON_STOP_DEPS_MET"]]%string, [FALSE; FALSE]), g).
Proof. eexists. vm_compute. reflexivity. Qed.

(** ** A task that was just loaded *)

Definition task_world : s_global := world [(1%positive, a_service "t" (Some TYPE_TASK) NEW 50 [])] STATE_UP 100.

(** A new task is never run: the start function marks a task only when it is
    TASK_WAITING, and a task that was loaded is in NEW, which nothing changes;
    the start returns TRUE and leaves the system as it was. *)
Lemma new_task_is_never_run :
  @initng_handler_start_service full_callbacks 40 1 task_world = Done (TRUE, task_world).
Proof. by vm_compute. Qed.
