(* ===== verification/Boot.v ===== *)
(** * A machine from boot to power-off

    One run of the program with all modules of the model: main reads its options,
    loads the modules of a directory, and from there on everything happens in its
    loop.  The runlevel and the services are read from files, whose parse
    processes speak to initng over sockets; children are forked and die; a
    command powers the machine off.  The kernel is a script by the number of the
    system call. *)
From S2P Require Import Prelude Types Data CString Global ActiveDb Depend Io Poll Interrupt Launch Modules Typed ServiceMod.
From S2P Require Import DaemonMod Control Main TaskMod RunlevelMod ServiceFile Hooks HookMods LogMods HookTyped Ngc4Mod NgcTyped System Examples.
From Stdlib Require Import String.
From stdpp Require Import prelude gmap strings.
Local Open Scope Z_scope.

(** ** The kernel *)

(** The pipe or socket pair that call [t] makes, and what a child then has. *)
Definition pipe_of (t : nat) : Z * Z := (100 + 2 * Z.of_nat t, 101 + 2 * Z.of_nat t).
Definition child_fds (t : nat) : fds :=
  let near k := let '(r, w) := pipe_of (t - k) in [(r, Fd r true); (w, Fd w true)] in
  list_to_map ([(0, Fd 1 false); (1, Fd 1 false); (2, Fd 1 false)] ++ near 1%nat ++ near 2%nat).

(** The files of the services "default", "net" and "web" can be executed. *)
Definition forks : ForkSys := {|
  sys_pipe := fun t => Some (pipe_of t);
  sys_socketpair := fun t => Some (pipe_of t);
  sys_fork := fun t => Some (1000 + Z.of_nat t, child_fds t);
  sys_stat := fun _ path =>
    if bool_decide (path ∈ map (String.append "/etc/initng/") ["default"; "net"; "web"]%string) then Some (32768 + 493) else None;
  env_PATH := None
|}.

(** What the parse processes say, at which call of recv and on which socket. *)
Definition script : list (nat * (Z * bp_req)) :=
  let default b := (139, Req 1 "default" b) in
  let web b := (175, Req 1 "web" b) in
  let net b := (251, Req 1 "net" b) in
  [(24, default (NEW_ACTIVE "runlevel" "/etc/initng/default")); (29, default (SET_VARIABLE "need" "" "web"));
   (34, default DONE);
   (57, web (NEW_ACTIVE "service" "/etc/initng/web")); (62, web (SET_VARIABLE "need" "" "net"));
   (67, web (SET_VARIABLE "exec" "start" "/sbin/web -v")); (72, web DONE);
   (91, net (NEW_ACTIVE "service" "/etc/initng/net")); (96, net (SET_VARIABLE "exec" "start" "/sbin/net up"));
   (101, net DONE)]%string%nat.
Definition said (t : nat) : option (Z * bp_req) := snd <$> List.find (fun x => Nat.eqb (fst x) t) script.

Definition clients : ClientSys := {|
  sys_recv := fun t fd =>
    match said t with Some (fd', req) => if fd =? fd' then Recv_req req else Recv_closed | None => Recv_closed end
|}.
Definition readable : PollSys := {|
  sys_still_open := fun _ _ => true;
  sys_select := fun t _ => match said (S t) with Some (fd, _) => Some (1, FdSets {[fd]} ∅ ∅) | None => Some (0, no_fds) end
|}.

(** The parse processes and the programs of the services end, with success. *)
Definition deaths : list (nat * Z) := [(47%nat, 1020); (85%nat, 1038); (112%nat, 1076); (114%nat, 1105); (130%nat, 1119)].
Definition kernel : Sys := {|
  sys_read := fun _ _ => Read_error 11;
  sys_waitpid := fun t =>
    match List.find (fun x => Nat.eqb (fst x) t) deaths with Some (_, pid) => Wait_pid pid 0 | None => Wait_none end;
  sys_kill := fun _ _ _ => None
|}.
Definition root : MainSys := {| sys_execve := fun _ _ => true; sys_getuid := fun _ => 0; RUNLEVEL_DEFAULT := "default" |}.

(** ** The run *)

Definition no_hooks (f : fptr) (e : s_event) : G s_event := mpure e.
Definition file_callbacks : Callbacks := @system_callbacks kernel no_files forks a_build clients calls_succeed no_records open_sockets no_hooks 40 8.
Definition file_commands : CommandCode := @system_commands file_callbacks kernel the_modules a_module_dir 40 no_command.

(** SIGCHLD, after each round. *)
Definition sigchld : G unit := set_signal 17.

Definition boot_main (n : nat) : G (option main_end) :=
  @main file_callbacks kernel forks a_build readable the_modules a_module_dir root 40 sigchld n ["/sbin/initng"]%string.

Definition programs (g : s_global) : list (list string) :=
  map (fun e => match e with Execve argv _ _ => argv | _ => [] end) (g_children g).

Definition session : G (option main_end * list (list string) * h_sys_state * list string * Z * option main_end) :=
  let! booted := boot_main 35 in
  let! ran := asks programs in
  let! state := asks g_sys_state in
  let! states := asks states_of in
  let! r := @initng_command_execute_arg file_commands (com_id POWEROFF_INITNG) None in
  let! last := asks g_now in
  let! ended := @main_loop file_callbacks kernel forks a_build readable the_modules root 40 sigchld 10 last in
  mpure (booted, ran, state, states, r, ended).

Definition power_on : s_global := zeroed_global [] (at_time 100).

(** From boot to power-off.  Started without options, with the seven modules
    in its directory, initng runs the file of the runlevel "default" to learn
    that it needs "web", then the file of "web", which needs "net", then that of
    "net"; it starts /sbin/net, and only when that has exited /sbin/web; then the
    runlevel and the system are up.  The command poweroff stops everything, and
    main ends by telling the kernel to power off. *)
Theorem boots_from_files_and_powers_off :
  exists g, session power_on = Done (
    ((None,
      [["/etc/initng/default"; "internal_setup"]; ["/etc/initng/web"; "internal_setup"]; ["/etc/initng/net"; "internal_setup"];
       ["/sbin/net"; "up"]; ["/sbin/web"; "-v"]]%string,
      STATE_UP, ["UP"; "SERVICE_DONE"; "SERVICE_DONE"]%string, TRUE, Some (Asleep (Some THEN_POWEROFF)))), g).
Proof. eexists. vm_compute. reflexivity. Qed.

(** ** The theorems about the program on this run *)

Definition booted : s_global := match boot_main 35 power_on with Done (_, g) => g | _ => power_on end.

Lemma main_witness : wf booted /\ services_typed booted.
Proof.
  apply (@main_keeps_services_typed kernel no_files forks a_build clients calls_succeed no_records open_sockets no_hooks 40 readable a_module_dir no_init no_unload no_command no_replies
    root ["/sbin/initng"]%string 8 35 sigchld power_on None booted).
  - intros f e. apply kept_pure.
  - apply no_code_keeps.
  - by apply kept_modify.
  - vm_compute. reflexivity.
Defined.

(** A machine with no services left that is to power off. *)
Definition all_down : s_global :=
  (world [] STATE_ASE 100) <| g_when_out := THEN_POWEROFF |> <| g_runlevel := Some "default"%string |>.

#[local] Instance no_code_laws : @ModuleLaws {| call_init := no_init; call_unload := no_unload |}.
Proof. split; intros f g; [exists FALSE, g|exists g]; done. Qed.

Lemma when_out_witness :
  exists g', @initng_main_when_out quiet forks a_build {| call_init := no_init; call_unload := no_unload |} root 9 all_down =
    Done (Some (Asleep (Some THEN_POWEROFF)), g').
Proof.
  destruct (@when_out_ends quiet forks a_build {| call_init := no_init; call_unload := no_unload |} no_code_laws root all_down 9)
    as (e & g' & E & ->).
  - done.
  - assert (W : wf (world [] STATE_ASE 100)) by (apply wf_world; by vm_compute).
    destruct W as [H1 H2 H3 H4 H5 H6 H7]. by split.
  - by split; constructor.
  - done.
  - cbn. lia.
  - by eexists.
  - by exists g'.
Defined.

Lemma restart_witness :
  exists argv g', @initng_main_restart quiet root all_down = Done (Some (Replaced "/sbin/initng" argv), g') /\
    options_parse_args argv started = Done (None, started <| g_runlevel := Some "default"%string |>).
Proof.
  destruct (@restart_keeps_the_runlevel quiet root all_down "default") as (argv & g' & E & H).
  - done.
  - done.
  - done.
  - exists argv, g'. split; [done|apply H].
Defined.
