(* ===== verification/Witness.v ===== *)
(** * The theorems on concrete inputs

    For each theorem with hypotheses, an input on which they hold. *)
From S2P Require Import Prelude ListH Types Data CString Global ActiveDb Depend Io Interrupt ServiceMod.
From S2P Require Import EventType Ngcs NgcsConn Examples.
From Stdlib Require Import String Ascii.
From stdpp Require Import prelude gmap strings.
Local Open Scope Z_scope.

(** A service of a database of two is one of the two. *)
Ltac two_services Ha :=
  apply elem_of_list_to_map_2, elem_of_cons in Ha; destruct Ha as [Ha|Ha];
  [injection Ha as -> ->
  |apply list_elem_of_singleton in Ha; injection Ha as -> ->].

(** ** Dependencies *)

(** "net" is up, "web" needs it. *)
Definition net_up : list (addr * active_db_h) :=
  [(1%positive, a_service "net" (Some TYPE_SERVICE) SERVICE_DONE 0 []);
   (2%positive, a_service "web" (Some TYPE_SERVICE) SERVICE_WAITING_FOR_START_DEP 0 [needs "net"])]%string.

Lemma start_dep_met_witness :
  exists g', @initng_depend_start_dep_met quiet 10 2 (world net_up STATE_UP 100) = Done (TRUE, g').
Proof.
  eexists. rewrite (@start_dep_met_refines_first_unmet quiet (world net_up STATE_UP 100) 2
    (a_service "web" (Some TYPE_SERVICE) SERVICE_WAITING_FOR_START_DEP 0 [needs "net"%string]) 10).
  - vm_compute. reflexivity.
  - apply wf_world. by vm_compute.
  - by vm_compute.
  - done.
  - cbn. lia.
Defined.

(** "web" is down, so "net" may stop. *)
Definition web_down : list (addr * active_db_h) :=
  [(1%positive, a_service "net" (Some TYPE_SERVICE) SERVICE_WAITING_FOR_STOP_DEP 0 []);
   (2%positive, a_service "web" (Some TYPE_SERVICE) SERVICE_STOPPED 0 [needs "net"])]%string.

Lemma stop_dep_met_witness :
  exists g', @initng_depend_stop_dep_met quiet 10 1 (world web_down STATE_UP 100) = Done (TRUE, g').
Proof.
  eexists. rewrite (@stop_dep_met_iff_dependents_down quiet quiet_dep_hooks (world web_down STATE_UP 100) 1
    (a_service "net" (Some TYPE_SERVICE) SERVICE_WAITING_FOR_STOP_DEP 0 []) 10).
  - vm_compute. reflexivity.
  - apply wf_world. by vm_compute.
  - by vm_compute.
  - done.
  - cbn. lia.
Defined.

Lemma depend_deep_witness :
  exists b, @initng_depend_deep quiet 2 1 (world net_up STATE_UP 100) =
    Done (of_bool b, world net_up STATE_UP 100) /\ b = true.
Proof.
  destruct (@depend_deep_sound quiet quiet_dep_hooks (world net_up STATE_UP 100) 2 1) as (b & E & _ & H).
  - apply wf_world. by vm_compute.
  - by eexists.
  - by eexists.
  - exists b. split; [done|]. apply H. left. by vm_compute.
Defined.

(** "a" needs "b" and "b" needs "a", both are down. *)
Definition loop_db : list (addr * active_db_h) :=
  [(1%positive, a_service "a" (Some TYPE_SERVICE) SERVICE_STOPPED 0 [needs "b"]);
   (2%positive, a_service "b" (Some TYPE_SERVICE) SERVICE_STOPPED 0 [needs "a"])]%string.

Lemma circular_start_witness :
  @initng_handler_start_service quiet 1000000 1 (world loop_db STATE_UP 100) = NoFuel.
Proof.
  apply (@circular_start_never_returns quiet (world loop_db STATE_UP 100) {[1%positive; 2%positive]}).
  - apply wf_world. by vm_compute.
  - intros s Hs. apply elem_of_union in Hs as [Hs|Hs]; apply elem_of_singleton in Hs as ->.
    + eexists _, "b"%string, 2%positive, _. repeat split; set_solver.
    + eexists _, "a"%string, 1%positive, _. repeat split; set_solver.
  - set_solver.
Defined.

Lemma acyclic_start_witness :
  exists r g', @initng_handler_start_service boot_callbacks 10 2 (world boot_db STATE_UP 100) = Done (r, g').
Proof.
  destruct (@acyclic_start_returns boot_callbacks is_TYPE_SERVICE (@service_start_functions idle_sys launcher 40 8)
    (world boot_db STATE_UP 100) Pos.to_nat 2) with (fuel := 10%nat) (g := world boot_db STATE_UP 100) (s := 2%positive)
    as (r & g' & E & _).
  - intros s a name Ha Hn. two_services Ha.
    + change (name ∈ []) in Hn. by apply elem_of_nil in Hn.
    + change (name ∈ ["net"%string]) in Hn. apply list_elem_of_singleton in Hn as ->.
      exists 1%positive. split; [by vm_compute|lia].
  - intros s a ty Ha. two_services Ha;
    by intros [= <-].
  - intros s a Ha. two_services Ha;
    cbn; lia.
  - apply wf_world. by vm_compute.
  - reflexivity.
  - by eexists.
  - cbn. lia.
  - by exists r, g'.
Defined.

(** ** The database *)

(** Two locks, three marks, two unlocks, on a service with an alarm. *)
Definition with_alarm : active_db_h :=
  (a_service "web" (Some TYPE_SERVICE) SERVICE_STOPPED 40 [needs "net"%string]) <| a_alarm := 150 |>.

Lemma locked_marks_witness :
  exists g' b, (locks 2 2 ;;; mark_each 2 [SERVICE_STOPPED; SERVICE_DONE; SERVICE_STOP_RUN] ;;; unlocks 2 2)
    (world [(2%positive, with_alarm)] STATE_UP 100) = Done (TRUE, g') /\
    g_heap g' !! 2%positive = Some b /\ a_current_state b = SERVICE_DONE /\ a_last_state b = Some SERVICE_STOPPED /\
    a_alarm b = 0 /\ g_interrupt g' = [2%positive].
Proof.
  destruct (locked_marks_take_effect_once (world [(2%positive, with_alarm)] STATE_UP 100) 2 with_alarm 1
    [SERVICE_STOPPED; SERVICE_DONE; SERVICE_STOP_RUN]) as (r & g' & E & H); [by vm_compute|done|done|].
  assert (Hf : List.find (fun st => bool_decide (st <> a_current_state with_alarm)) [SERVICE_STOPPED; SERVICE_DONE; SERVICE_STOP_RUN] =
    Some SERVICE_DONE) by (by vm_compute).
  rewrite Hf in H. destruct H as (-> & (b & Hb & [C1 C2 C3 _ _ _ C4 _ _ _ _ _]) & Hi & _). exists g', b.
  split; [exact E|]. split; [rewrite Hb; apply lookup_insert_eq|]. by repeat split.
Defined.

(** The state initng starts from. *)
Definition before_main : s_global := zeroed_global [] (at_time 5).
Definition after_new : s_global :=
  match initng_config_global_new [] before_main with Done (_, g) => g | _ => before_main end.

Lemma reachable_witness : wf (after_new <| g_clock := at_time 7 |> <| g_now := at_time 7 |>).
Proof.
  apply (reachable_databases_are_well_formed [] before_main after_new); [by vm_compute|].
  eapply rtc_l; [apply (step_tick (at_time 7))|]. apply rtc_refl.
Defined.

(** "web" has been down for 100 seconds: it is freed, "net" stays. *)
Lemma clean_down_witness :
  exists g', initng_active_db_clean_down (world web_down STATE_UP 100) = Done (tt, g') /\ g_active_db g' = [1%positive].
Proof.
  destruct (clean_down_frees_exactly_old_down (world web_down STATE_UP 100)) as (g' & E & _ & Hdb & _).
  - apply wf_world. by vm_compute.
  - exists g'. split; [done|]. by rewrite Hdb.
Defined.

(** A new service at address 3, not yet registered. *)
Definition with_unregistered : s_global :=
  put_service 3 (a_service "new" None NEW 100 []) (world web_down STATE_UP 100).

Lemma wf_with_unregistered : wf with_unregistered.
Proof.
  apply wf_put_new; [apply wf_world; by vm_compute|by vm_compute|by vm_compute|].
  split; [done|done|by intros [? ?]|]. apply NoDup_nil_2.
Qed.

Lemma register_witness :
  exists g', initng_active_db_register 3 with_unregistered = Done (TRUE, g') /\
    initng_active_db_find_by_name "new" g' = Some 3%positive.
Proof.
  pose proof (register_then_find with_unregistered 3 (a_service "new" None NEW 100 []) wf_with_unregistered) as H.
  destruct (decide _) as [Hd|_] in H.
  - exfalso. destruct Hd as [x Hx]. vm_compute in Hx. discriminate Hx.
  - destruct H as (g' & E & _ & _ & Hf & _); [by vm_compute| |by exists g'].
    change (3%positive ∉ [1%positive; 2%positive]). intros Hs.
    apply elem_of_cons in Hs as [Hs|Hs]; [done|]. by apply list_elem_of_singleton in Hs.
Defined.

Lemma compensate_witness :
  exists g', initng_active_db_compensate_time 3600 (world web_down STATE_UP 100) = Done (tt, g') /\
    exists b, g_heap g' !! 1%positive = Some b /\ a_alarm b = 3600.
Proof.
  destruct (compensate_keeps_ages_but_arms_alarms (world web_down STATE_UP 100) 3600) as (g' & E & _ & H).
  - apply wf_world. by vm_compute.
  - exists g'. split; [done|]. destruct (H 1%positive _ (list_elem_of_here _ _) eq_refl) as (b & Hb & _ & _ & Hal).
    exists b. split; [done|]. by apply Hal.
Defined.

(** ** Interrupts, alarms and processes *)

(** The hooks of the test launcher never run: no event but EVENT_LAUNCH has
    one.  For the alarms, hooks that do nothing. *)
Definition silent (f : fptr) (e : s_event) : G s_event := mpure e.
Definition silent_callbacks : Callbacks := @service_callbacks idle_sys silent 40 8.

Lemma silent_looks : hooks_only_look silent.
Proof. intros f e g. by eexists. Qed.

(** A start process that runs since 100, with an alarm at 340. *)
Definition a_process : process_h := Process 900 T_START 77 0 [initng_process_db_pipe_new BUFFERED_OUT_PIPE] P_ACTIVE.
Definition running : active_db_h :=
  (a_service "net" (Some TYPE_SERVICE) SERVICE_START_RUN 100 [])
    <| a_alarm := 340 |> <| a_processes := [a_process] |>.
Definition running_db : list (addr * active_db_h) :=
  [(1%positive, running); (2%positive, a_service "web" (Some TYPE_SERVICE) SERVICE_STOPPED 0 [needs "net"%string])].

Lemma run_alarm_witness :
  exists g', @initng_handler_run_alarm silent_callbacks 10 (world running_db STATE_UP 200) = Done (tt, g') /\ covered g'.
Proof.
  destruct (@run_alarm_covers_all_alarms silent_callbacks service_state_p
    (@service_alarm_functions idle_sys silent silent_looks 40 7) 10 (world running_db STATE_UP 200)) as (g' & E & C & _).
  - apply wf_world. by vm_compute.
  - intros s a Ha. two_services Ha; apply (bool_decide_unpack _); by vm_compute.
  - cbn. lia.
  - by exists g'.
Defined.

Lemma compensate_backwards_witness :
  exists g', initng_active_db_compensate_time (-3600)
    ((world running_db STATE_UP 200) <| g_next_alarm := 340 |>) = Done (tt, g') /\ ~ covered g'.
Proof.
  apply (compensate_backwards_uncovers ((world running_db STATE_UP 200) <| g_next_alarm := 340 |>) (-3600) 1 running).
  - assert (W : wf (world running_db STATE_UP 200)) by (apply wf_world; by vm_compute).
    destruct W as [H1 H2 H3 H4 H5 H6 H7]. by split.
  - apply list_elem_of_here.
  - by vm_compute.
  - done.
  - done.
  - done.
Defined.

(** A hook at address 60 on EVENT_STATE_CHANGE that marks service 1 as done. *)
Definition marking : Callbacks := {|
  call_hook := fun _ e => initng_common_mark_service 1 SERVICE_DONE ;;; mpure e;
  call_stype := fun _ _ => mpure TRUE;
  call_state := fun _ _ => mpure tt;
  call_kill := fun _ _ _ => mpure tt
|}.
Definition marking_world : s_global :=
  (world running_db STATE_UP 200) <| g_hooks :=
    fun t => if decide (t = EVENT_STATE_CHANGE) then [Call 60 "test"%string] else [] |>.

Lemma handle_abandons_witness :
  exists g' c, @handle marking 10 1 marking_world = Done (tt, g') /\ g_heap g' !! 1%positive = Some c /\
    a_current_state c = SERVICE_DONE.
Proof.
  edestruct (@handle_abandons_overtaken_state marking 10 marking_world 1 running) with (st := SERVICE_DONE)
    as (g' & c & E & Hc & _ & Hst & _).
  - by vm_compute.
  - done.
  - vm_compute. reflexivity.
  - vm_compute. reflexivity.
  - done.
  - done.
  - by exists g', c.
Defined.

(** "net" has a freed process with the pid that "web" now runs under. *)
Definition reused_pid_db : list (addr * active_db_h) :=
  [(1%positive, (a_service "net" (Some TYPE_SERVICE) SERVICE_DONE 0 []) <| a_processes := [a_process <| p_pst := P_FREE |>] |>);
   (2%positive, (a_service "web" (Some TYPE_SERVICE) SERVICE_START_RUN 0 []) <| a_processes := [a_process] |>)].

Lemma freed_process_witness :
  @initng_kill_handler_killed_by_pid quiet idle_sys 10 77 0 (world reused_pid_db STATE_UP 200) =
  Done (tt, world reused_pid_db STATE_UP 200).
Proof.
  apply (@freed_process_swallows_kill quiet idle_sys 10 (world reused_pid_db STATE_UP 200) 77 0 1
    ((a_service "net" (Some TYPE_SERVICE) SERVICE_DONE 0 []) <| a_processes := [a_process <| p_pst := P_FREE |>] |>)).
  - by vm_compute.
  - by vm_compute.
  - by apply Forall_singleton.
Defined.

(** A pipe with three characters, read on descriptor 5; the kernel answers the
    first read with one more. *)
Definition a_pipe : pipe_h := Pipe 5 6 BUFFERED_OUT_PIPE [] (Some (104 :: 105 :: 10 :: replicate 98 0)) 100 3.
Definition reading_sys : Sys := {|
  sys_read := fun t _ => Read_ok [33];
  sys_waitpid := fun _ => Wait_none;
  sys_kill := fun _ _ _ => None
|}.
Definition reading_db : list (addr * active_db_h) :=
  [(1%positive, running <| a_processes := [a_process <| p_pipes := [a_pipe] |>] |>)].

Lemma read_input_witness :
  exists g' pi, @initng_io_process_read_input quiet reading_sys 5 1 900 0 (world reading_db STATE_UP 200) = Done (tt, g') /\
    pipe_at g' 1 900 0 pi /\ contents pi = [104; 105; 10; 33].
Proof.
  destruct (@read_input_appends quiet reading_sys 5 (world reading_db STATE_UP 200) 1 900 0 a_pipe [] (Read_ok [33]))
    as (g' & pi & E & Hat & _ & Hc & _).
  - eexists _, _. split; [by vm_compute|]. split; [by vm_compute|done].
  - split; [cbn; lia|]. split; [by vm_compute|by vm_compute].
  - done.
  - done.
  - split; [by intros i bs|done].
  - constructor.
  - cbn. lia.
  - cbn. lia.
  - exists g', pi. split; [done|]. split; [done|]. rewrite Hc. by vm_compute.
Defined.

(** ** The service module *)

(** A stop process that ended with exit status 1. *)
Definition a_stop_process : process_h := Process 901 T_STOP 78 256 [] P_ACTIVE.
Definition stopping : active_db_h :=
  (a_service "net" (Some TYPE_SERVICE) SERVICE_STOP_RUN 100 []) <| a_processes := [a_stop_process] |>.

Lemma killed_stop_witness :
  exists g', handle_killed_stop 1 901 (world [(1%positive, stopping)] STATE_UP 200) = Done (tt, g') /\
    in_state g' 1 SERVICE_FAIL_STOP_RCODE.
Proof.
  destruct (killed_stop_outcome (world [(1%positive, stopping)] STATE_UP 200) 1 901 stopping a_stop_process)
    as (g' & E & I & _).
  - by vm_compute.
  - by vm_compute.
  - done.
  - done.
  - by exists g'.
Defined.

Lemma start_timeout_witness :
  exists g1, @timeout_SERVICE_START_RUN quiet idle_sys 1 (world running_db STATE_UP 400) = Done (tt, g1) /\
    in_state g1 1 SERVICE_START_FAILED_TIMEOUT.
Proof.
  destruct (@start_timeout_stays_failed quiet idle_sys (world running_db STATE_UP 400) 1 running a_process)
    as (g1 & g2 & E & I & _).
  - by vm_compute.
  - done.
  - done.
  - by vm_compute.
  - by vm_compute.
  - by vm_compute.
  - done.
  - done.
  - by exists g1.
Defined.

(** ** Lists of links *)

(** The list at 1 with the entries 2 and 3; the link at 4 is on no list. *)
Definition a_heap : heap :=
  Heap (list_to_map [(1%positive, Some 2%positive); (2%positive, Some 3%positive); (3%positive, Some 1%positive); (4%positive, None)])
       (list_to_map [(1%positive, Some 3%positive); (2%positive, Some 1%positive); (3%positive, Some 2%positive); (4%positive, None)]).

Lemma a_heap_list : is_list a_heap 1 [2%positive; 3%positive].
Proof. split; [apply (bool_decide_unpack _); by vm_compute|by vm_compute]. Qed.

Lemma four_is_new : 4%positive ∉ [1%positive; 2%positive; 3%positive].
Proof. apply (bool_decide_unpack _). by vm_compute. Qed.

Lemma list_add_witness :
  exists h', initng_list_add 4 1 a_heap = Done (tt, h') /\ is_list h' 1 [4%positive; 2%positive; 3%positive].
Proof.
  destruct (list_add_refines_cons a_heap 1 [2%positive; 3%positive] 4) as (h' & E & L & _).
  - apply a_heap_list.
  - apply four_is_new.
  - by vm_compute.
  - by exists h'.
Defined.

Lemma list_del_witness :
  exists h', initng_list_del 2 a_heap = Done (tt, h') /\ is_list h' 1 [3%positive].
Proof.
  destruct (list_del_refines_remove a_heap 1 [] 2 [3%positive]) as (h' & E & L & _).
  - apply a_heap_list.
  - by exists h'.
Defined.

Lemma delete_all_witness :
  exists h', initng_list_foreach_rev_safe 5 1 initng_list_del a_heap = Done ([3%positive; 2%positive], h') /\ is_list h' 1 [].
Proof.
  destruct (foreach_rev_safe_delete_all a_heap 1 [2%positive; 3%positive] 5) as (h' & E & L & _).
  - apply a_heap_list.
  - cbn. lia.
  - by exists h'.
Defined.

Lemma list_add_tail_witness :
  exists h', initng_list_add_tail 4 1 a_heap = Done (tt, h') /\ prevp h' !! 4%positive = Some (Some 4%positive).
Proof.
  destruct (list_add_tail_breaks_reverse_walk a_heap 1 [2%positive; 3%positive] 4) as (h' & E & P & _).
  - apply a_heap_list.
  - apply four_is_new.
  - by vm_compute.
  - by exists h'.
Defined.

(** An empty registry at 1 and the links 2 and 3 of one event type. *)
Definition registry_heap : heap :=
  Heap (list_to_map [(1%positive, Some 1%positive); (2%positive, None); (3%positive, None)])
       (list_to_map [(1%positive, Some 1%positive); (2%positive, None); (3%positive, None)]).
Definition launch_type : event_type := EventTypeH (Some "launch"%string) 2 3.

Lemma event_types_witness :
  exists h', register_each 1 [launch_type] registry_heap = Done (tt, h') /\
    initng_event_type_find 1 1 (fun _ => Some launch_type) "launch" h' = Done (None, h').
Proof.
  apply (event_types_are_never_found 1 registry_heap [launch_type] (fun _ => Some launch_type) "launch" 0).
  - intros ent Hin. apply list_elem_of_singleton in Hin as ->.
    repeat split; (by eexists) || (by vm_compute).
  - split; [apply (bool_decide_unpack _); by vm_compute|by vm_compute].
Defined.

(** ** Variables *)

Definition some_data : data_head := DH (entries 500 [needs "a"; (ENV, T_s "x=1"); needs "b"]%string).

Lemma some_data_ok : data_ok some_data.
Proof. apply (bool_decide_unpack _). by vm_compute. Qed.

Lemma get_next_var_witness :
  map d_t (collect_vars 9 (Some NEED) None some_data None) = [T_s "a"; T_s "b"]%string.
Proof. rewrite (get_next_var_enumerates (Some NEED) None some_data 9 some_data_ok); [by vm_compute|cbn; lia]. Defined.

Lemma set_string_witness :
  initng_data_get_string_var FROM_FILE None
    (initng_data_set_string_var (Some FROM_FILE) None 700 some_data "f") = Some "f"%string.
Proof. apply (set_string_get_string FROM_FILE None 700 some_data "f" some_data_ok); by vm_compute. Defined.

Lemma remove_var_witness :
  exists d', initng_data_remove_var NEED None some_data = Some d' /\ initng_data_is_var NEED None d' = false.
Proof. destruct (remove_var_removes NEED None some_data some_data_ok) as (d' & E & _ & H). by exists d'. Defined.

Lemma set_var_witness :
  initng_data_is_var RESTARTING None (initng_data_set_var (Some RESTARTING) None 700 some_data) = true.
Proof. by rewrite (proj1 (set_var_is_var RESTARTING None 700 some_data eq_refl)). Defined.

Lemma copy_all_witness : initng_data_copy_all (fun _ => 700%positive) some_data (DH []) = DH [].
Proof.
  apply (copy_all_copies_nothing some_data None None 700 ""%string). by repeat constructor.
Defined.

(** ** Strings *)

Lemma dirname_witness : initng_string_dirname (chars_of "a/b") ++ c_slash :: initng_string_basename (chars_of "a/b") = chars_of "a/b".
Proof. apply (dirname_basename (chars_of "a/b")). apply (bool_decide_unpack _). by vm_compute. Defined.

(** a\nb\\ : a newline, and a backslash at the end that is escaped. *)
Lemma fix_escapes_witness :
  exists block, initng_string_fix_escapes (Some (chars_of "a\nb\\" ++ [c_nul])) = Done (Some block) /\
    c_string block = [ascii_of_nat 97; ascii_of_nat 10; ascii_of_nat 98; ascii_of_nat 92].
Proof.
  destruct (fix_escapes_correct (chars_of "a\nb\\") []) as (block & E & C).
  - apply (bool_decide_unpack _). by vm_compute.
  - by exists block.
Defined.

Definition umlaut : string := String (ascii_of_nat 97) (String (ascii_of_nat 228) "b").

Lemma hash_witness :
  initng_hash_str "net/eth0" = fnv1a FNV_INIT (chars_of "net/eth0") /\
  initng_hash_str umlaut <> fnv1a FNV_INIT (chars_of umlaut).
Proof.
  split; [apply (hash_is_fnv1a_on_ascii "net/eth0"); apply (bool_decide_unpack _); by vm_compute|].
  apply (hash_is_fnv1a_on_ascii umlaut) with (l1 := [ascii_of_nat 97]) (c := ascii_of_nat 228) (l2 := [ascii_of_nat 98]); try done.
  all: apply (bool_decide_unpack _); by vm_compute.
Defined.

(** ** The control socket *)

Definition some_message : list ngcs_data :=
  [NgcsData NGCS_TYPE_INT 4 (D_i (-5)); NgcsData NGCS_TYPE_STRING (-1) (D_s [104; 105]); NgcsData NGCS_TYPE_BLOB 1 (D_p [0])].

Lemma some_message_typed : Forall well_typed some_message /\ Forall (fun d => is_long d = false) some_message.
Proof.
  split; [|by repeat constructor]. apply Forall_cons. split; [|apply Forall_cons; split; [|apply Forall_singleton]].
  - split; [by vm_compute|]. exists (-5). by vm_compute.
  - split; [by vm_compute|]. exists [104; 105]. split; [done|]. split; [apply (bool_decide_unpack _); by vm_compute|].
    split; [by left|by vm_compute].
  - split; [by vm_compute|]. exists [0]. split; [done|]. split; [done|by vm_compute].
Qed.

Lemma ngcs_pack_witness :
  exists bytes, ngcs_pack some_message (Some (replicate 31 7)) = Done (31, map packed some_message, Some bytes) /\
    ngcs_unpack bytes (Z.of_nat (length bytes)) = Done (Some (map received some_message)).
Proof.
  apply (ngcs_pack_unpack some_message (replicate 31 7)).
  - apply some_message_typed.
  - apply some_message_typed.
  - by vm_compute.
Defined.

Lemma ngcs_long_witness :
  exists bytes, ngcs_pack [NgcsData NGCS_TYPE_LONG 8 (D_l (2 ^ 40 + 3))] (Some (replicate 16 0)) =
      Done (16, [NgcsData NGCS_TYPE_LONG 8 (D_l (2 ^ 40 + 3))], Some bytes) /\
    ngcs_unpack bytes 16 = Done (Some [NgcsData NGCS_TYPE_LONG 8 (D_i 3)]).
Proof.
  destruct (ngcs_long_is_truncated (2 ^ 40 + 3) (replicate 16 0)) as (bytes & E & _ & U); [done|].
  exists bytes. split; [exact E|exact U].
Defined.

(** A kernel that takes five bytes at a time. *)
Definition five_at_a_time : ConnSys := {| sys_send := fun _ _ => Sent 5 |}.

Definition two_messages : list action :=
  [Send (NgcsMsg 1 2 2 (Some [104; 105])); Write_ready; Send (NgcsMsg 1 0 (-1) None);
   Write_ready; Write_ready; Write_ready; Write_ready].

(** A connection of the server with two channels, whose onclose function is
    ngcs_chan_del. *)
Definition no_onfree (f : fptr) (a : addr) : C unit := mpure tt.
Definition on_server (S : ConnSys) : ConnCallbacks := @server_callbacks S no_onfree 9.
Definition two_server_channels : ngcs_conn :=
  match (ngcs_chan_reg 0 None (Some ngcs_chan_del_ptr) None ;;; ngcs_chan_reg 1 None (Some ngcs_chan_del_ptr) None)
    (ngcs_conn_from_fd 5 None None []) with Done (_, c) => c | _ => ngcs_conn_from_fd 5 None None [] end.
(** Five bytes are taken, then the other end is gone. *)
Definition then_broken : ConnSys := {| sys_send := fun t _ => if (t =? 0)%nat then Sent 5 else Send_error EPIPE |}.

Lemma two_server_channels_ok : conn_ok two_server_channels.
Proof.
  split; [done|done|by apply (bool_decide_unpack _)|]. intros a Ha. assert (Hc : a = 1%positive \/ a = 2%positive) by set_solver.
  destruct Hc as [->| ->]; by eexists.
Qed.

Lemma messages_witness :
  (exists accepted c', @run_actions (on_server five_at_a_time) five_at_a_time 9 two_messages two_server_channels = Done (accepted, c') /\
    exists rest, recv_n 2 [[1; 0; 0]; [0; 2; 0; 0; 0; 2]; [0; 0; 0; 104]; [105; 1; 0; 0; 0; 0; 0; 0; 0; 255; 255; 255; 255]] =
      Some ([NgcsMsg 1 2 2 (Some [104; 105]); NgcsMsg 1 0 (-1) None], rest)) /\
  exists accepted c', @run_actions (on_server then_broken) then_broken 9 two_messages two_server_channels = Done (accepted, c') /\
    conn_ok c' /\ cn_fd c' = -1 /\ cn_chans c' = [].
Proof.
  split.
  - destruct (@messages_arrive_in_order (on_server five_at_a_time) five_at_a_time
      (@server_hooks five_at_a_time no_onfree 9 (fun _ _ _ => eq_refl)) 9 two_messages two_server_channels) as (accepted & c' & E & _ & _ & R).
    + apply two_server_channels_ok.
    + done.
    + done.
    + cbn. lia.
    + by repeat constructor.
    + exists accepted, c'. split; [exact E|]. vm_compute in E. injection E as <- <-.
      destruct (R [[1; 0; 0]; [0; 2; 0; 0; 0; 2]; [0; 0; 0; 104]; [105; 1; 0; 0; 0; 0; 0; 0; 0; 255; 255; 255; 255]])
        as (rest & E & _); [by repeat constructor|reflexivity|done|reflexivity|].
      by exists rest.
  - destruct (@messages_arrive_in_order (on_server then_broken) then_broken
      (@server_hooks then_broken no_onfree 9 (fun _ _ _ => eq_refl)) 9 two_messages two_server_channels) as (accepted & c' & E & Hok & _).
    + apply two_server_channels_ok.
    + done.
    + done.
    + cbn. lia.
    + by repeat constructor.
    + exists accepted, c'. split; [exact E|]. split; [exact Hok|]. vm_compute in E. injection E as _ <-. done.
Defined.
