(* ===== verification/ModWitness.v ===== *)
(** * The theorems about the modules on concrete inputs

    For each theorem of the module files with hypotheses, an input on which
    they hold. *)
From S2P Require Import Prelude Types Data CString Global ActiveDb Depend Io Poll Interrupt Launch Modules Typed ServiceMod.
From S2P Require Import DaemonMod Control TaskMod RunlevelMod ServiceFile Hooks HookMods LogMods HookTyped Ngc4Mod NgcTyped System Reload Examples.
From Stdlib Require Import String Ascii.
From stdpp Require Import prelude gmap strings.
Local Open Scope Z_scope.

(** ** Daemons *)

(** A pid file that says "pid=1234" and a /proc with two processes, the first
    of them called "ss". *)
Definition some_files : DaemonSys := {|
  sys_proc_dir := fun _ => Some ["self"; "7"; "12"]%string;
  sys_stat_line := fun _ path =>
    if String.eqb path "/proc/7/stat" then Some (chars_of "7 (ss) S 1")
    else if String.eqb path "/proc/12/stat" then Some (chars_of "12 (sshd) S 1") else None;
  sys_pid_file := fun _ _ => Some (Read_ok (map byte_of_char (chars_of "pid=1234 ")));
  sys_unlink := fun _ _ => None
|}.

Lemma pidfile_witness :
  exists g', @pid_from_file some_files "/var/run/d.pid" daemon_world = Done (1234, g').
Proof.
  eexists. apply (@pidfile_roundtrip some_files daemon_world "/var/run/d.pid" 1234 (chars_of "pid=") (chars_of " ")).
  - lia.
  - by repeat constructor.
  - by vm_compute.
  - vm_compute. lia.
  - by vm_compute.
Defined.

(** Asked for "sshd", pid_of finds the process called "ss". *)
Lemma pid_of_witness : exists g', @pid_of some_files "sshd" daemon_world = Done (7, g').
Proof.
  edestruct (@pid_of_finds_first_prefix some_files (@sys_stat_line some_files 0) "sshd" ["self"; "7"; "12"]%string daemon_world)
    as (n & E).
  - done.
  - done.
  - exists (daemon_world <| g_ticks := n |>). rewrite E. by vm_compute.
Defined.

Lemma a_daemon_data_ok : data_ok (a_data a_daemon).
Proof. apply (bool_decide_unpack _). by vm_compute. Qed.

(** A daemon that forks and has a pid file; its parent has exited. *)
Definition forker : active_db_h :=
  (a_service "f" (Some TYPE_DAEMON) DAEMON_WAIT_FOR_PID_FILE 50 [(FORKS, T_null); (PIDFILE, T_s "/var/run/f.pid"%string)])
    <| a_processes := [the_process] |>.
Definition forker_world : s_global := world [(1%positive, forker)] STATE_UP 100.

(** A running daemon dies and is respawned; a forking one is taken over, with the
    pid 1234 of its file. *)
Lemma killed_daemon_witness :
  (exists g' b, @handle_killed_daemon full_callbacks idle_sys no_files 1 600 daemon_world = Done (tt, g') /\ g_heap g' !! 1%positive = Some b /\
    a_current_state b = DAEMON_WAIT_RESP_TOUT) /\
  (exists g' b, @handle_killed_daemon full_callbacks idle_sys some_files 1 600 forker_world = Done (tt, g') /\ g_heap g' !! 1%positive = Some b /\
    a_current_state b = DAEMON_RUNNING /\ map p_pid (a_processes b) = [1234]).
Proof.
  split.
  - edestruct (@killed_daemon_outcome full_callbacks idle_sys no_files daemon_world 1 600 a_daemon the_process 0 daemon_world) as (g' & b & E & Hh & _ & H).
    + by vm_compute.
    + by vm_compute.
    + done.
    + apply a_daemon_data_ok.
    + by eexists.
    + by eexists.
    + intros Hw. vm_compute in Hw. discriminate Hw.
    + exists g', b. split; [done|]. split; [by rewrite Hh|]. vm_compute in H. exact (proj1 (proj2 H)).
  - edestruct (@killed_daemon_outcome full_callbacks idle_sys some_files forker_world 1 600 forker the_process 1234
      (forker_world <| g_ticks := 1%nat |>)) as (g' & b & E & Hh & _ & H).
    + by vm_compute.
    + by vm_compute.
    + done.
    + apply (bool_decide_unpack _). by vm_compute.
    + by eexists.
    + by eexists.
    + intros _. split; [by vm_compute|]. intros d [= <-]. eexists _, _. split; [apply send_no_hooks; by vm_compute|done].
    + exists g', b. split; [done|]. split; [by rewrite Hh|]. cbv zeta in H.
      change (fixed_part b = fixed_part forker /\ a_current_state b = DAEMON_RUNNING /\ a_processes b = [the_process <| p_pid := 1234 |>]) in H.
      destruct H as (_ & H1 & ->). by split.
Defined.

(** The daemon after a first respawn at 100, running again at 500. *)
Definition respawned : s_global :=
  match check_respawn 1 daemon_world with Done (_, g) => g | _ => daemon_world end.
Definition running_again : active_db_h :=
  match g_heap respawned !! 1%positive with Some a => a <| a_current_state := DAEMON_RUNNING |> | None => a_daemon end.
Definition later : s_global := (put_service 1 running_again respawned) <| g_now := at_time 500 |>.
Definition respawned_again : s_global :=
  match check_respawn 1 later with Done (_, g) => g | _ => later end.

Lemma respawns_witness : 100 + respawn_rate running_again <= 500.
Proof.
  apply (respawns_keep_their_distance daemon_world respawned a_daemon running_again later respawned_again 1).
  - by vm_compute.
  - done.
  - apply a_daemon_data_ok.
  - by eexists.
  - by eexists.
  - by vm_compute.
  - by vm_compute.
  - by vm_compute.
  - by vm_compute.
  - by vm_compute.
  - by vm_compute.
  - by vm_compute.
Defined.

(** A daemon that was sent SIGTERM and does not care. *)
Definition stubborn : active_db_h :=
  (a_service "d" (Some TYPE_DAEMON) DAEMON_TERM 50 []) <| a_processes := [the_process] |>.

Lemma term_witness :
  exists g1 g2, @timeout_DAEMON_TERM idle_sys 1 (world [(1%positive, stubborn)] STATE_UP 100) = Done (tt, g1) /\
    @kill_alarms idle_sys 3 1 g1 = Done (tt, g2) /\ in_state g2 1 DAEMON_KILL.
Proof.
  destruct (@term_escalates_to_kill idle_sys 3 (world [(1%positive, stubborn)] STATE_UP 100) 1 stubborn
    the_process) as (g1 & g2 & E1 & _ & _ & _ & E2 & I & _).
  - by vm_compute.
  - done.
  - done.
  - by vm_compute.
  - done.
  - done.
  - exists g1, g2. by repeat split.
Defined.

(** ** Runlevels *)

(** The runlevel "old" needs "net" and "web", "new" only "net". *)
Definition two_runlevels : list (addr * active_db_h) :=
  [(1%positive, a_service "old" (Some TYPE_RUNLEVEL) RUNLEVEL_UP 0 [needs "net"; needs "web"]);
   (2%positive, a_service "new" (Some TYPE_RUNLEVEL) RUNLEVEL_WAITING_FOR_START_DEP 0 [needs "net"]);
   (3%positive, a_service "net" (Some TYPE_SERVICE) SERVICE_DONE 0 []);
   (4%positive, a_service "web" (Some TYPE_SERVICE) SERVICE_DONE 0 [])]%string.

Lemma all_known l : List.forallb (fun x : addr * active_db_h =>
    (a_state_lock (snd x) =? 0) && match a_type (snd x) with Some ty => bool_decide (known_type ty) | None => true end) l = true ->
  forall sys now s a, g_heap (world l sys now) !! s = Some a ->
    a_state_lock a = 0 /\ forall ty, a_type a = Some ty -> known_type ty.
Proof.
  rewrite List.forallb_forall. intros H sys now s a Ha. apply elem_of_list_to_map_2, list_elem_of_In, H in Ha. cbn in Ha.
  apply andb_prop in Ha as [Hl Ht]. split; [by apply Z.eqb_eq|]. intros ty Ety. rewrite Ety in Ht. by apply bool_decide_eq_true in Ht.
Qed.


(** ** The system *)

(** The system in which all modules are loaded, a loader is registered, "web",
    which it finds, is loaded, interrupts are run and a command is given. *)
Definition no_poll : PollSys := {| sys_still_open := fun _ _ => false; sys_select := fun _ _ => None |}.
Definition no_requests : ControlSys := {| sys_read_request := fun _ _ => None; sizeof_request := 384 |}.
Definition the_commands : CommandCode := @system_commands full_callbacks idle_sys the_modules a_module_dir 40 no_command.
Definition started_web : s_global :=
  match (initng_event_hook_register_real "test" EVENT_NEW_ACTIVE launcher_ptr ;;;
    @initng_handler_start_new_service_named full_callbacks 40 "web" ;;; @initng_interrupt full_callbacks 40 ;;;
    @initng_command_execute_arg the_commands (chr "r") (Some "web"%string)) initialised with
  | Done (_, g) => g
  | _ => initialised
  end.

Lemma well_typed_witness :
  wf started_web /\ states_of started_web = ["NEW"]%string /\
  forall s a ty m, g_heap started_web !! s = Some a -> a_type a = Some ty -> type_module ty = Some m ->
    a_current_state a ∈ shared_states ++ module_states m.
Proof.
  edestruct (@reachable_systems_are_well_typed idle_sys no_files no_forks a_build no_clients calls_succeed no_records open_sockets launcher_and_loader 40
    no_poll a_module_dir no_requests nobody no_init no_unload no_command no_replies [] (zeroed_global [] (at_time 5)) started started_web) as [Hwf H].
  - apply launcher_and_loader_keeps.
  - apply no_code_keeps.
  - by vm_compute.
  - eapply rtc_l; [eapply (do_load_all _ _ _ _ _ _ 20 "/lib/initng"); vm_compute; reflexivity|].
    eapply rtc_l; [eapply (do_hook _ _ _ _ _ _ "test" EVENT_NEW_ACTIVE launcher_ptr); vm_compute; reflexivity|].
    eapply rtc_l; [eapply (do_start_named _ _ _ _ _ _ 8 40 "web"); vm_compute; reflexivity|].
    eapply rtc_l; [eapply (do_interrupt _ _ _ _ _ _ 8 40); vm_compute; reflexivity|].
    eapply rtc_l; [eapply (do_command _ _ _ _ _ _ 8 (chr "r") (Some "web"%string)); vm_compute; reflexivity|]. apply rtc_refl.
  - split; [exact Hwf|]. split; [by vm_compute|]. intros s a ty m Ha Et Em. exact (proj1 (H s a ty m Ha Et Em)).
Defined.

(** ** Hot reload *)

Definition saving : ReloadSys := {| sys_fopen := fun _ => true; sys_fwrite := fun _ => true |}.

(** A daemon that runs, in a system with all modules. *)
Definition to_reload : s_global :=
  (world [(1%positive, (a_service "d" (Some TYPE_DAEMON) DAEMON_RUNNING 50 [needs "net"%string; (RESPAWN, T_null)])
      <| a_processes := [the_process] |>)] STATE_UP 100)
    <| g_states := g_states initialised |> <| g_stypes := g_stypes initialised |>
    <| g_ptypes := g_ptypes initialised |> <| g_option_db := g_option_db initialised |>.

Lemma to_reload_fits : Forall (fun x => fits to_reload (snd x)) (active_services to_reload).
Proof.
  apply Forall_singleton. split; cbn [snd].
  - vm_compute. lia.
  - split; [vm_compute; lia|by vm_compute].
  - eexists. split; [done|]. split; [vm_compute; lia|by vm_compute].
  - vm_compute. lia.
  - apply Forall_singleton. split; [done|vm_compute; lia|by vm_compute|vm_compute; lia|by repeat constructor].
  - eexists. split; [done|]. split; [vm_compute; lia|]. repeat constructor.
    + eexists. split; [done|]. split; [vm_compute; lia|by vm_compute].
    + done.
    + eexists. split; [done|]. vm_compute. lia.
    + eexists. split; [done|]. split; [vm_compute; lia|by vm_compute].
    + done.
Qed.

Lemma reload_witness :
  exists file g' g1', @write_file saving to_reload = Done ((TRUE, Some file), g') /\
    read_file (Some file) initialised = Done (TRUE, g1').
Proof.
  destruct (@reload_roundtrip saving (fun _ => eq_refl) (fun _ => eq_refl) to_reload initialised)
    as (file & g' & g1' & E1 & E2 & _).
  - assert (W : wf (world (map (fun s => (1%positive, s)) (map snd (active_services to_reload))) STATE_UP 100))
      by (apply wf_world; by vm_compute).
    destruct W as [H1 H2 H3 H4 H5 H6 H7]. by split.
  - apply to_reload_fits.
  - by vm_compute.
  - by vm_compute.
  - exists file, g', g1'. by split.
Defined.

(** ** Launching *)

(** Descriptor 10 is the child's end of a socketpair, 1 the console. *)
Definition child_files : fds := {[ 1 := Fd 100 false; 10 := Fd 200 true; 11 := Fd 201 true ]}.
Definition parser : process_h := (parse_process 600) <| p_pipes := [parse_pipe <| pipe0 := 10 |> <| pipe1 := 11 |>] |>.


(** A service with the command /bin/web -v, its start process just made. *)
Definition EXEC_at (a : addr) (vn cmd : string) : s_data := SData a (T_s cmd) EXEC (Some vn) true.
Definition starting : active_db_h :=
  (a_service "net/web" (Some TYPE_SERVICE) SERVICE_START_RUN 50 [])
    <| a_data := DH [EXEC_at 500 "start" "/bin/web -v"%string] |>
    <| a_processes := [initng_process_db_new 600 T_START] |>.
Definition starting_world : s_global := world [(1%positive, starting)] STATE_UP 100.
Definition forking : ForkSys := {|
  sys_pipe := fun _ => Some (20, 21); sys_socketpair := fun _ => Some (10, 11); sys_fork := fun _ => Some (77, child_files);
  sys_stat := fun _ _ => None; env_PATH := None
|}.

Lemma environment_witness :
  @initng_env_new a_build 1 starting_world =
  Done (["TERM=linux"; "INITNG_PID=1"; "SERVICE=net/web"; "NAME=web"; "CONSOLE=/dev/console"]%string, starting_world).
Proof.
  pose proof (@environment_of_a_child a_build starting_world 1 starting eq_refl (le_n_S _ _ (Nat.le_0_l _))) as H.
  vm_compute in H. exact H.
Defined.

(** With the hook of module renice, which the service does not use, the child
    executes the command; with the hook of suid and a user of the service it gets
    variables for the environment, and overruns the block of the first. *)
Definition unpiped : process_h := (initng_process_db_new 600 T_START) <| p_pipes := [] |>.
Definition forked_world (f : fptr) (vars : list s_data) : s_global :=
  (world [(1%positive, starting <| a_processes := [unpiped] |> <| a_data := DH (EXEC_at 500 "start" "/bin/web -v" :: vars) |>)] STATE_UP 100)
    <| g_hooks := fun t => if bool_decide (t = EVENT_AFTER_FORK) then [Call f "a_module.c"%string] else [] |>.
Definition launch_event : s_event := new_event EVENT_LAUNCH (ED_launch 1 600 "start").

Lemma launch_witness :
  (exists g', @initng_s_launch full_callbacks forking a_build launch_event (forked_world do_renice_ptr []) =
      Done (launch_event <| ev_status := HANDLED |>, g') /\
    g_children g' = [Execve ["/bin/web"; "-v"]
      ["TERM=linux"; "INITNG_PID=1"; "SERVICE=net/web"; "NAME=web"; "CONSOLE=/dev/console"] {[1 := Fd 100 false]}]%string) /\
  exists g', @initng_s_launch full_callbacks forking a_build launch_event
      (forked_world do_suid_ptr [SData 501 (T_s "www") SUID None true]) = Done (launch_event <| ev_status := HANDLED |>, g') /\
    g_children g' = [Crash].
Proof.
  pose proof (@launch_runs_the_command full_callbacks forking a_build 77 child_files (fun _ => eq_refl) (Pos2Z.is_pos 77)) as L.
  split.
  - edestruct L with (g := forked_world do_renice_ptr []) (s := 1%positive) (p := 600%positive)
      (q := unpiped) (e := launch_event) (failed := false) (own := false)
      as (g' & b & pipes & q' & E & _ & Hc & Hp & _); [..|exists g'; split; [exact E|]].
    all: try (by vm_compute).
    + vm_compute. lia.
    + apply (bool_decide_unpack _). by vm_compute.
    + intros pipes n Hp. apply Forall2_nil_inv_l in Hp as ->. do 4 eexists. do 2 (split; [vm_compute; reflexivity|]). repeat split; vm_compute; reflexivity.
    + apply Forall2_nil_inv_l in Hp as ->. rewrite Hc. by vm_compute.
  - edestruct L with (g := forked_world do_suid_ptr [SData 501 (T_s "www") SUID None true]) (s := 1%positive)
      (p := 600%positive) (q := unpiped) (e := launch_event) (failed := false) (own := true)
      as (g' & b & pipes & q' & E & _ & Hc & _); [..|exists g'; split; [exact E|by rewrite Hc]].
    all: try (by vm_compute).
    + vm_compute. lia.
    + apply (bool_decide_unpack _). by vm_compute.
    + intros pipes n Hp. apply Forall2_nil_inv_l in Hp as ->. do 4 eexists. do 2 (split; [vm_compute; reflexivity|]). repeat split; vm_compute; reflexivity.
Defined.

(** ** Service files *)

(** A service whose file is read, in a system with all modules. *)
Definition being_parsed : active_db_h := a_service "web" (Some unset) PARSING_FOR_START 50 [].
Definition parsing_world (a : active_db_h) : s_global :=
  (world [(1%positive, a)] STATE_UP 100) <| g_option_db := g_option_db initialised |>.

Lemma read_back_witness :
  exists g', bp_set_variable "web" "exec" "start" "/bin/web" (parsing_world being_parsed) = Done (Rep TRUE "", g') /\
    bp_get_variable "web" "exec" "start" g' = Done (Rep TRUE "/bin/web", g').
Proof.
  apply (variable_set_is_read_back (parsing_world being_parsed) "web" 1 being_parsed eq_refl eq_refl "exec" "start" "/bin/web" EXEC).
  - apply (bool_decide_unpack _). by vm_compute.
  - by vm_compute.
  - done.
  - done.
  - done.
  - vm_compute. lia.
  - by vm_compute.
  - by right.
  - by vm_compute.
Defined.

Definition needs_net : active_db_h := a_service "web" (Some TYPE_SERVICE) SERVICE_DONE 50 [needs "net"%string].

Lemma reading_witness : bp_get_variable "web" "need" "" (parsing_world needs_net) = Fault.
Proof.
  apply (reading_strings_crashes (parsing_world needs_net) "web" 1 needs_net eq_refl eq_refl "need" "" NEED).
  - apply (bool_decide_unpack _). by vm_compute.
  - done.
  - done.
  - by vm_compute.
  - by left.
  - vm_compute. lia.
Defined.

Lemma not_edited_witness :
  exists message, @handle_req full_callbacks 40 (Req 1 "web" (SET_VARIABLE "need" "" "dns")) (parsing_world needs_net) =
    Done (Rep FALSE message, parsing_world needs_net).
Proof.
  apply (@finished_services_are_not_edited full_callbacks (parsing_world needs_net) "web" 1 needs_net eq_refl eq_refl
    (Req 1 "web" (SET_VARIABLE "need" "" "dns"))).
  - done.
  - by vm_compute.
  - exact I.
Defined.
