(* ===== verification/ControlWitness.v ===== *)
(** * The theorems about polling, modules and commands on concrete inputs *)
From S2P Require Import Prelude Types Data CString Global ActiveDb Depend Io Poll Interrupt Launch Modules Typed ServiceMod.
From S2P Require Import DaemonMod Control TaskMod RunlevelMod ServiceFile Hooks HookMods LogMods HookTyped System Examples Witness ModWitness.
From Stdlib Require Import String Ascii.
From stdpp Require Import prelude gmap strings.
Local Open Scope Z_scope.

(** ** Polling *)

(** A process whose output arrives on descriptor 20; its control socket, 11, is
    gone. *)
Definition talking : process_h :=
  (initng_process_db_new 600 T_DAEMON) <| p_pid := 77 |> <| p_pipes := [Pipe 20 21 BUFFERED_OUT_PIPE [1] None 0 0; Pipe 10 11 IN_AND_OUT_PIPE [3] None 0 0] |>.
Definition talking_world : s_global := world [(1%positive, a_daemon <| a_processes := [talking] |>)] STATE_UP 100.
Definition twenty_is_open : PollSys := {| sys_still_open := fun _ fd => fd =? 20; sys_select := fun _ _ => None |}.

Lemma poll_witness :
  exists g' sets b, @add_services twenty_is_open [1%positive] (0, no_fds) talking_world = Done ((1, sets), g') /\
    20 ∈ readset sets /\ 11 ∉ readset sets /\
    g_heap g' !! 1%positive = Some b /\ map (fun pi => (pipe0 pi, pipe1 pi)) (concat (map p_pipes (a_processes b))) = [(20, 21); (10, -1)].
Proof.
  edestruct (@poll_watches_the_live_pipes twenty_is_open (fun fd => fd =? 20) (fun _ _ => eq_refl) talking_world 0 no_fds)
    as (g' & added & sets & E & Ha & Hr & _ & _ & Hh & _).
  - apply wf_world. by vm_compute.
  - intros s a Hs%list_elem_of_singleton. subst s. vm_compute. intros [= <-]. apply (bool_decide_unpack _). by vm_compute.
  - vm_compute. by repeat constructor.
  - eexists g', sets, _. vm_compute in Ha. subst added. split; [exact E|]. rewrite !Hr.
    split; [|split; [|split; [rewrite Hh; by vm_compute|by vm_compute]]]; [right|intros [H|H]; revert H]; apply (bool_decide_unpack _); by vm_compute.
Defined.

(** ** Modules *)

(** Modules that have nothing to do; "history" needs "stcmd". *)
Definition idle_code : ModuleCode := {| call_init := fun _ => mpure TRUE; call_unload := fun _ => mpure tt |}.
#[export] Instance idle_code_laws : @ModuleLaws idle_code.
Proof. split; intros f g; [exists TRUE, g|exists g]; done. Qed.

Definition a_module (needs : list string) : initng_module := Module API_VERSION (Some 201%positive) (Some 202%positive) needs.
Definition stcmd_module : m_h := MH 1 "stcmd" "/lib/initng/modstcmd.so" MODULE_INITIALIZED (a_module []).
Definition history_module : m_h := MH 2 "history" "/lib/initng/modhistory.so" MODULE_INITIALIZED (a_module ["stcmd"]%string).

(** A directory with three modules, the middle one of which is no module. *)
Definition mod_files : list string := ["."; "modhistory.so"; "modstcmd.so"; "modbroken.so"; "README"]%string.
Definition mod_dir : ModuleSys := {|
  sys_file_exists := fun _ path => bool_decide (path ∈ map (String.append "/lib/initng/") mod_files);
  sys_dlopen := fun _ path =>
    if String.eqb path "/lib/initng/modstcmd.so" then Some (Some (a_module []))
    else if String.eqb path "/lib/initng/modhistory.so" then Some (Some (a_module ["stcmd"]%string)) else Some None;
  sys_readdir := fun _ path => if String.eqb path "/lib/initng" then Some mod_files else None;
  fn_match := fun _ _ => false;
  INITNG_MODULE_DIR := "/lib/initng"
|}.

Definition two_modules : s_global := (world [] STATE_UP 100) <| g_module_db := [stcmd_module; history_module] |>.
Definition asked_to_unload : s_global :=
  match initng_module_unload_named "stcmd" two_modules with Done (_, g) => g | _ => two_modules end.
Definition after_unload : s_global :=
  match @initng_module_unload_marked idle_code 5 asked_to_unload with Done (_, g) => g | _ => asked_to_unload end.

(** "history" is not left without "stcmd". *)
Lemma needed_witness : map m_name (g_module_db after_unload) = ["stcmd"; "history"]%string /\ needs_met after_unload.
Proof.
  split; [by vm_compute|]. apply (@needed_modules_stay idle_code idle_code_laws mod_dir two_modules).
  - split; [apply (bool_decide_unpack _); by vm_compute|by repeat constructor|repeat constructor; by eexists].
  - intros m n Hm Hn. apply elem_of_cons in Hm as [->|Hm%list_elem_of_singleton]; [by apply elem_of_nil in Hn|].
    subst m. apply list_elem_of_singleton in Hn as ->. by vm_compute.
  - eapply rtc_l; [eapply (Modules.do_unload_named _ _ "stcmd"); vm_compute; reflexivity|].
    eapply rtc_l; [eapply (Modules.do_unload_marked _ _ 5); vm_compute; reflexivity|]. apply rtc_refl.
Defined.

Lemma load_all_witness :
  exists r g', @initng_module_load_all idle_code mod_dir 10 "/lib/initng" (world [] STATE_STARTING 100) = Done (r, g') /\
    Forall initialized (g_module_db g').
Proof.
  edestruct (@load_all_initialises idle_code idle_code_laws mod_dir 10 "/lib/initng" mod_files (world [] STATE_STARTING 100))
    as (r & g' & E & _ & H); [..|by exists r, g'].
  - by split; constructor.
  - done.
  - cbn. lia.
Defined.

(** ** Commands *)

(** "net" is up, "web" has failed. *)
Definition half_failed : list (addr * active_db_h) :=
  [(1%positive, a_service "net" (Some TYPE_SERVICE) SERVICE_DONE 0 []);
   (2%positive, a_service "web" (Some TYPE_SERVICE) SERVICE_START_DEPS_FAILED 0 [needs "net"])]%string.

Lemma zap_witness :
  exists g', cmd_free_service 9 None (world half_failed STATE_UP 100) = Done (TRUE, g') /\ g_active_db g' = [1%positive].
Proof.
  destruct (zap_frees_the_failed (world half_failed STATE_UP 100) 9 None) as (g' & E & Hdb & _).
  - apply wf_world. by vm_compute.
  - cbn. lia.
  - exists g'. split; [exact E|]. rewrite Hdb. by vm_compute.
Defined.

Lemma listing_witness : cmd_print_modules two_modules = Fault.
Proof. by apply (listing_modules_overflows two_modules). Defined.

Lemma command_witness :
  exists g', initng_command_register FREE_SERVICE (world [] STATE_UP 100) = Done (TRUE, g') /\
    initng_command_find_by_command_id (chr "z") g' = Some FREE_SERVICE.
Proof.
  destruct (register_command_then_find FREE_SERVICE (world [] STATE_UP 100)) as (g' & E & _ & H & _).
  - by split; constructor.
  - by exists g'.
Defined.

(** A service with a program "check" besides the one that starts it. *)
Definition with_check : active_db_h :=
  (a_service "web" (Some TYPE_SERVICE) SERVICE_DONE 50 [])
    <| a_data := DH [EXEC_at 500 "start" "/bin/web"; EXEC_at 501 "check" "/bin/check"]%string |>.
Definition check_world : s_global :=
  (world [(1%positive, with_check)] STATE_UP 100) <| g_hooks :=
    fun t => if decide (t = EVENT_LAUNCH) then [Call initng_s_launch_ptr "simple_launcher"%string] else [] |>.
Definition launching : Callbacks := {|
  call_hook := fun _ e => @initng_s_launch quiet forking a_build e; call_stype := @call_stype quiet;
  call_state := @call_state quiet; call_kill := @call_kill quiet
|}.

Lemma run_witness : exists g', @cmd_run launching "web:check" check_world = Done (FALSE, g') /\ g_children g' = [].
Proof.
  apply (@run_command_runs_nothing quiet launching forking a_build (fun _ _ => eq_refl) check_world "web:check" 1 with_check
    "simple_launcher").
  - assert (W : wf (world [(1%positive, with_check)] STATE_UP 100)) by (apply wf_world; by vm_compute).
    destruct W as [H1 H2 H3 H4 H5 H6 H7]. by split.
  - by vm_compute.
  - done.
  - done.
  - constructor.
  - by vm_compute.
  - by vm_compute.
Defined.

(** The program init, asked for runlevel 6, writes this. *)
Definition init_6 : ControlSys := {|
  sys_read_request := fun _ _ => Some (384, Request INIT_MAGIC INIT_CMD_RUNLVL (chr "6")); sizeof_request := 384
|}.
Definition no_commands : CommandCode := {| call_int_command := fun _ _ => mpure FALSE |}.

Lemma init_6_witness :
  exists g' b, @parse_control_input full_callbacks no_commands init_6 9 30 (world two_runlevels STATE_UP 100) = Done (tt, g') /\
    g_when_out g' = THEN_REBOOT /\ g_heap g' !! 4%positive = Some b /\ winding_down b = true.
Proof.
  destruct (@init_6_stops_everything full_callbacks no_commands init_6 known_type
    (@system_stop_functions idle_sys no_files no_forks a_build no_clients calls_succeed no_records open_sockets launcher_and_loader 40 8)
    (world two_runlevels STATE_UP 100) 30 9) as (g' & E & _ & Hw & _ & H).
  - done.
  - done.
  - apply wf_world. by vm_compute.
  - apply all_known. by vm_compute.
  - done.
  - cbn. lia.
  - destruct (H 4%positive (a_service "web" (Some TYPE_SERVICE) SERVICE_DONE 0 [])) as (b & Hb & Ho).
    + apply (bool_decide_unpack _). by vm_compute.
    + done.
    + exists g', b. split; [done|]. split; [done|]. split; [done|]. vm_compute in Ho. apply Ho.
Defined.

(** A stop of the system with a network device, a service that is up, and the
    hook of module netdev: the hook takes the device down, then the service is
    stopped. *)
Definition a_nic : active_db_h := a_service "net/eth0" (Some NETDEV) NIC_UP 50 [].
Definition a_web : active_db_h := a_service "web" (Some TYPE_SERVICE) SERVICE_DONE 60 [].
Definition netdev_listens (e : s_event_type) : list s_call :=
  if bool_decide (e = EVENT_SYSTEM_CHANGE) then [Call system_stopping_ptr "initng_netdev.c"] else [].
Definition with_nic : s_global :=
  (world [(1%positive, a_nic); (2%positive, a_web)] STATE_UP 100) <| g_hooks := netdev_listens |>.
Definition nic_off : active_db_h :=
  a_nic <| a_current_state := NIC_DOWN |> <| a_time_current_state := at_time 100 |> <| a_last_state := Some NIC_UP |>
    <| a_time_last_state := at_time 50 |> <| a_last_rought_state := IS_UP |> <| a_last_rought_time := at_time 50 |>.
Definition stop_announced : s_global :=
  (world [(1%positive, nic_off); (2%positive, a_web)] STATE_STOPPING 100) <| g_hooks := netdev_listens |> <| g_interrupt := [1%positive] |>.

Lemma stop_is_announced : @announced full_callbacks known_type with_nic stop_announced.
Proof.
  split; [by vm_compute| |done|].
  - assert (W : wf (world [(1%positive, nic_off); (2%positive, a_web)] STATE_STOPPING 100)) by (apply wf_world; by vm_compute).
    destruct W as [H1 H2 H3 H4 H5 H6 H7]. split; try done.
    + apply NoDup_singleton.
    + intros s ->%list_elem_of_singleton. by eexists.
  - intros s a Ha. two_services Ha; (split; [done|]); intros ty [= <-] [f Hf]; [discriminate Hf|by eexists].
Qed.

