(* ===== verification/HookWitness.v ===== *)
(** * Runs of the modules that hook events

    The concrete inputs of the theorems of file HookProps, and what module provide
    does with a virtual service that two services provide. *)
From S2P Require Import Prelude Types Data CString Global ActiveDb Depend Io Poll Interrupt Launch Modules Typed ServiceMod.
From S2P Require Import DaemonMod Control HookMods HookProps LogMods TaskMod RunlevelMod ServiceFile Hooks HookTyped System Examples.
From Stdlib Require Import String.
From stdpp Require Import prelude gmap strings.
Local Open Scope Z_scope.

Definition service_in (name : string) (st : a_state_h) (vars : list (s_entry * t_union)) : active_db_h :=
  a_service name (Some TYPE_SERVICE) st 50 vars.

(** ** Two mail servers that conflict *)

Definition exim : active_db_h := service_in "exim" SERVICE_START_MARKED [(CONFLICT, T_s "sendmail"); (CONFLICT, T_s "postfix")]%string.
Definition mail_world : s_global :=
  world [(1%positive, exim); (2%positive, service_in "postfix" SERVICE_DONE [])] STATE_UP 100.
Definition about (t : s_event_type) (s : addr) : s_event := Event t (ED_service s) None WAITING.

Lemma conflict_witness :
  check_conflict 9 (about EVENT_IS_CHANGE 1) mail_world = Done (about EVENT_IS_CHANGE 1, snd (mark_result 1 CONFLICTING exim mail_world)) /\
  a_current_state <$> g_heap (snd (mark_result 1 CONFLICTING exim mail_world)) !! 1%positive = Some CONFLICTING.
Proof.
  split; [|by vm_compute].
  etransitivity; [apply (conflicting_services_fail 9 (about EVENT_IS_CHANGE 1) 1 exim mail_world)|].
  - done.
  - done.
  - apply (bool_decide_unpack _). by vm_compute.
  - cbn. lia.
  - by vm_compute.
Defined.

(** ** Two services that load kernel modules *)

Definition loader (name : string) (st : a_state_h) : active_db_h := service_in name st [(SYNCRON, T_s "module_loading")]%string.
Definition loaders : list (addr * active_db_h) :=
  [(1%positive, loader "usb" SERVICE_WAITING_FOR_START_DEP); (2%positive, loader "net" SERVICE_START_RUN)].
Definition loader_world : s_global := (world loaders STATE_UP 100) <| g_states := [SERVICE_START_RUN] |>.

Lemma wf_loaders : wf loader_world.
Proof. assert (W : wf (world loaders STATE_UP 100)) by (apply wf_world; by vm_compute). destruct W. by split. Qed.

Lemma syncron_witness :
  check_syncronicly_service 9 (about EVENT_START_DEP_MET 1) loader_world =
    Done ((about EVENT_START_DEP_MET 1) <| ev_status := FAILED |>, loader_world).
Proof.
  etransitivity; [eapply (syncron_holds_back 9 (about EVENT_START_DEP_MET 1) 1 (loader "usb" SERVICE_WAITING_FOR_START_DEP) SERVICE_START_RUN loader_world)|].
  - apply wf_loaders.
  - cbn. lia.
  - done.
  - done.
  - by vm_compute.
  - by vm_compute.
Defined.

Lemma synchronously_witness :
  check_syncronicly 9 (about EVENT_START_DEP_MET 1) loader_world = Done (about EVENT_START_DEP_MET 1, loader_world).
Proof.
  apply (synchronously_holds_nothing_back 9 (about EVENT_START_DEP_MET 1) 1 (loader "usb" SERVICE_WAITING_FOR_START_DEP) SERVICE_START_RUN loader_world).
  - apply wf_loaders.
  - cbn. lia.
  - done.
  - done.
  - by vm_compute.
  - apply (bool_decide_unpack _). by vm_compute.
Defined.

(** ** A child that is to have 1 GiB of memory and to run as www *)

Definition rlimit_as : limit_h := Limit "as" 9 1024
     "The maximum size of process virtual memory, soft limit."
     "The maximum size of process virtual memory, hard limit.".
Definition web : active_db_h := service_in "web" SERVICE_START_RUN [(soft_of rlimit_as, T_i 1048576); (SUID, T_s "www")]%string.
Definition child_world : s_global :=
  (world [(1%positive, web)] STATE_UP 100) <| g_proc := init_proc <| pr_limits := {[9 := (2 ^ 64 - 1, 2 ^ 64 - 1)]} |> |>.

Lemma soft_limit_witness :
  exists g', @set_limit calls_succeed rlimit_as 1 child_world = Done (0, g') /\
    pr_limits (g_proc g') !! 9 = Some (2 ^ 30, 2 ^ 64 - 1).
Proof.
  destruct (@soft_limit_is_set calls_succeed rlimit_as 1 web 1048576 (2 ^ 64 - 1) (2 ^ 64 - 1) child_world) as (new & g' & E & P & H & _).
  - done.
  - by vm_compute.
  - by vm_compute.
  - by vm_compute.
  - by vm_compute.
  - done.
  - exists g'. split; [exact E|]. rewrite P, (H ltac:(cbn; lia)). by vm_compute.
Defined.

Lemma suid_witness :
  exists g', @do_suid calls_succeed (Event EVENT_AFTER_FORK (ED_process 1 600) None WAITING) child_world =
      Done (Event EVENT_AFTER_FORK (ED_process 1 600) None WAITING, g') /\ pr_uid (g_proc g') = 33 /\ pr_gid (g_proc g') = 34.
Proof.
  destruct (@child_takes_the_user calls_succeed (Event EVENT_AFTER_FORK (ED_process 1 600) None WAITING) 1 600 web "www"
    (Some (33, 34, "/var/www"%string)) child_world) as (g' & E & P).
  - done.
  - done.
  - by vm_compute.
  - by vm_compute.
  - done.
  - intros uid gid dir [= <- <- _]. lia.
  - done.
  - done.
  - exists g'. rewrite P. done.
Defined.

(** ** Two services that provide "mail" *)

Definition provider (name : string) : active_db_h := service_in name SERVICE_STOPPED [(PROVIDE, T_s "mail")]%string.
Definition provide_world : s_global :=
  (world [(1%positive, provider "exim"); (2%positive, provider "postfix")] STATE_UP 100) <| g_hooks :=
    fun t => if decide (t = EVENT_IS_CHANGE) then [Call provide_service_state_ptr "initng_provide.c"%string]
             else if decide (t = EVENT_LAUNCH) then [Call launcher_ptr "launcher"%string] else [] |>.

(** The process of the type exits with success, and what follows from that. *)
Definition process_exits (pt : ptype_h) (s : addr) : G unit :=
  let! a := get_service s in
  let! q := deref (fun _ => initng_process_db_get pt a) in
  @initng_kill_handler_killed_by_pid full_callbacks idle_sys 40 (p_pid q) 0 ;;;
  settle_with full_callbacks 40.

(** Both are started, and the first is stopped.  The states are those of "exim",
    of "postfix" and of "mail". *)
Definition providing : G (list (list string)) :=
  @initng_handler_start_service full_callbacks 40 1 ;;;
  @initng_handler_start_service full_callbacks 40 2 ;;;
  settle_with full_callbacks 40 ;;;
  process_exits T_START 1 ;;;
  process_exits T_START 2 ;;;
  let! s1 := asks states_of in
  @initng_handler_stop_service full_callbacks 1 ;;;
  settle_with full_callbacks 40 ;;;
  let! s2 := asks states_of in
  process_exits T_STOP 1 ;;;
  let! s3 := asks states_of in
  mpure [s1; s2; s3].

(** A virtual service goes down with the first of two providers.  Two services
    provide "mail" and are up; the first is stopped, and when it has stopped
    "mail" is not provided any more, while the second provider is still up: the
    counter of providers is lowered when a provider is stopping, and once more
    when it is down. *)
Theorem first_provider_takes_it_down :
  exists g, providing provide_world = Done (
    [["SERVICE_DONE"; "SERVICE_DONE"; "PROVIDED"]; ["SERVICE_STOP_RUN"; "SERVICE_DONE"; "PROVIDED"];
     ["SERVICE_STOPPED"; "SERVICE_DONE"; "NOT_PROVIDED"]]%string, g).
Proof. eexists. vm_compute. reflexivity. Qed.

(** ** A start whose file never comes

    Module fstat vetoes that the service is up while /run/db is missing; it is
    marked as up all the same. *)

Definition late_process : process_h := Process 900 T_START 77 0 [] P_ACTIVE.
Definition late : active_db_h :=
  (service_in "db" SERVICE_START_RUN [(WAIT_FOR_FILE_AFTER, T_s "/run/db")])%string <| a_processes := [late_process] |>.
Definition late_world : s_global :=
  (world [(1%positive, late); (2%positive, service_in "web" SERVICE_STOPPED [])] STATE_UP 100)
    <| g_hooks := fun t => if bool_decide (t = EVENT_UP_MET) then [Call check_files_after_ptr "initng_fstat.c"] else [] |>.
Definition late_asked : s_global := put_service 1 (mark_process_free 900 late) late_world.
Definition late_answered : s_global := late_asked <| g_ticks := 1%nat |> <| g_sleep_seconds := 1 |>.
Definition veto : s_event := (about EVENT_UP_MET 1) <| ev_status := FAILED |>.

