(* ===== verification/LogWitness.v ===== *)
(** * Instances of the theorems about records *)
From S2P Require Import Prelude Types Data CString Global ActiveDb Depend Io Poll Interrupt Launch Modules Typed ServiceMod.
From S2P Require Import DaemonMod Control HookMods LogMods LogProps Examples.
From Stdlib Require Import String.
From stdpp Require Import prelude gmap strings.
Local Open Scope Z_scope.

(** A service that came up, and the entry the history has of it. *)
Definition up_web : active_db_h := a_service "web" (Some TYPE_SERVICE) SERVICE_DONE 50 [].
Definition its_entry : history_h := Hist (Some 1%positive) None 0 (at_time 50) None (Some SERVICE_DONE).
Definition record_world : s_global :=
  (world [(1%positive, up_web)] STATE_UP 100) <| g_statics := zero_statics <| history_db := [its_entry] |> <| history_records := 1 |> |>.

Lemma history_witness :
  exists g', for_each (R := unit) [its_entry; its_entry] (fun h => add_hist h ;;; mpure None) record_world = Done (None, g') /\
    length (history_db (g_statics g')) = 3%nat.
Proof.
  destruct (history_keeps_the_newest [its_entry; its_entry] record_world) as (g' & E & _ & D).
  - split; [done|]. apply (bool_decide_unpack _). by vm_compute.
  - exists g'. split; [exact E|]. rewrite D. by vm_compute.
Defined.

(** The log shows the entry while the service is there. *)
Lemma log_before :
  exists g' text, @cmd_log no_records None record_world = Done (text, g') /\ text <> ""%string.
Proof. eexists _, _. split; [vm_compute; reflexivity|done]. Qed.

Lemma freed_witness : (initng_active_db_free 1 ;;; @cmd_log no_records None) record_world = Fault.
Proof.
  apply (@log_reads_freed_services no_records its_entry 1 up_web record_world).
  - by left.
  - done.
  - done.
  - by vm_compute.
Defined.

Definition logging_world : s_global := record_world <| g_statics := (g_statics record_world) <| syslog_running := 1 |> |>.
Definition two_lines : chars := (chars_of "ready" ++ [c_nl] ++ chars_of "listening" ++ [c_nl])%list.

Lemma output_witness :
  exists g', fetch_loop (S (length two_lines)) "web" two_lines logging_world = Done (tt, g') /\
    syslog_sent (g_statics g') = [(LOG_NOTICE, "web", "ready"); (LOG_NOTICE, "web", "listening")]%string.
Proof.
  destruct (output_goes_to_the_log "web" two_lines logging_world) as [H _].
  - done.
  - eexists. split; [apply H; apply (bool_decide_unpack _); by vm_compute|by vm_compute].
Defined.
