(* ===== verification/NgeWitness.v ===== *)
(** * Instances of the theorems about listeners *)
From S2P Require Import Prelude Types Data CString Global ActiveDb Depend Io Poll Interrupt Launch Modules Typed ServiceMod.
From S2P Require Import DaemonMod Control HookMods LogMods NgeMod NgeClient NgeText NgeProps NgeHears System Examples.
From Stdlib Require Import String Ascii.
From stdpp Require Import prelude gmap strings.
Local Open Scope Z_scope.
#[local] Existing Instance open_sockets.

(** Two messages, the second cut in two; nothing comes in between. *)
Definition some_messages : list message :=
  [(ping_text, PING); (system_text STATE_UP (chars_of "default"), SYSTEM_STATE_CHANGE 2 (Some (chars_of "default")))].
Definition some_stream : chars := concat (map fst some_messages).
Definition a_client (answers : list poll_answer) : nge_connection := NgeConn 5 None 0 answers None.
Definition cut_client : nge_connection := a_client [Poll_in [take 40 some_stream]; Poll_none 0; Poll_in [drop 40 some_stream]].

Lemma says_some : Forall (fun m => says (fst m) (snd m)) some_messages.
Proof.
  apply Forall_cons_2; [apply Says_ping|]. apply Forall_cons_2; [by apply (Says_system STATE_UP (chars_of "default"))|apply Forall_nil_2].
Qed.

Lemma client_is_ok answers : net_ok answers -> client_ok (a_client answers).
Proof. intros H. split; [done|]. by split. Qed.

Lemma arrive_witness :
  exists c', collect 5 5 cut_client = Done ([SYSTEM_STATE_CHANGE 2 (Some (chars_of "default"))], c').
Proof.
  destruct (nge_events_arrive 5 5 cut_client some_messages) as [c' E].
  - split; [apply client_is_ok; by repeat constructor|]. split; [apply says_some|]. exists []. split; [done|]. by vm_compute.
  - done.
  - cbn. lia.
  - exists c'. exact E.
Defined.

(** A listener, the service it is told of, and a change of the system, which the
    hook of module netdev sees first. *)
Definition told_web : active_db_h := a_service "web" (Some TYPE_SERVICE) SERVICE_DONE 50 [].
Definition nge_world : s_global :=
  (world [(1%positive, told_web)] STATE_UP 100) <| g_runlevel := Some "default"%string |>
    <| g_hooks := fun t => if bool_decide (t = EVENT_SYSTEM_CHANGE) then [Call system_stopping_ptr "initng_netdev.c"] else [] |>.
Definition going_down : s_event := Event EVENT_SYSTEM_CHANGE (ED_sys_state STATE_STOPPING) None WAITING.
Definition after {A} (m : G A) (g : s_global) : s_global := match m g with Done (_, g') => g' | _ => g end.
Definition greeted : s_global := after event_acceptor nge_world.
Definition stopping : s_global := after (@initng_event_send full_callbacks going_down) greeted.
Definition down_message : message :=
  (system_text STATE_STOPPING (chars_of "default"), SYSTEM_STATE_CHANGE 3 (Some (chars_of "default"))).
Definition its_client : nge_connection := a_client [Poll_in [take 77 (sent_to 6 stopping)]; Poll_in [drop 77 (sent_to 6 stopping)]].

Lemma accepts_six : accepts 6 nge_world.
Proof.
  split; try done; apply (bool_decide_unpack _); by vm_compute.
Qed.

Lemma system_dispatch h e : h ∈ forwarding -> snd h <> nge_print_error_ptr -> @call_hook full_callbacks (snd h) e = nge_hook (fun _ e => mpure e) (snd h) e.
Proof.
  unfold forwarding. intros Hh Hne. repeat (apply elem_of_cons in Hh as [->|Hh]; [first [reflexivity|by destruct Hne]|]). by apply elem_of_nil in Hh.
Qed.

Lemma hears_witness :
  exists c', collect 10 5 its_client = Done (
    [CONNECT 6 (Some (chars_of "0.7.0")); INITIAL_SYSTEM_STATE_CHANGE 2 (Some (chars_of "default"));
     INITIAL_SERVICE_STATE_CHANGE (Some (chars_of "web")) 1 (Some (chars_of "SERVICE_DONE")) 0 0 (Some (chars_of "service")) 0;
     INITIAL_STATE_FINISHED; SYSTEM_STATE_CHANGE 3 (Some (chars_of "default"))], c').
Proof.
  destruct (@listener_hears_every_change full_callbacks open_sockets 6 (fun _ _ => eq_refl) system_dispatch nge_world greeted stopping [down_message] its_client 10 5) as [c' E].
  - apply accepts_six.
  - left. split; [done|]. unfold not_in_place, forwarding. repeat (apply Forall_cons_2; [by vm_compute|]). apply Forall_nil_2.
  - by vm_compute.
  - by vm_compute.
  - eapply (History_event 6 greeted going_down (EVENT_SYSTEM_CHANGE, system_state_change_ptr) going_down greeted); [by right; left|done| | | |by vm_compute|apply History_end].
    + apply (Passes_one 6 (Call system_stopping_ptr "initng_netdev.c") [] going_down greeted going_down greeted); [by vm_compute|done|done|done|by repeat split|apply Passes_all].
    + apply (Told_system greeted going_down STATE_STOPPING "default"%string); by vm_compute.
    + intros gb e2 gc _. assert (Eb : behind system_state_change_ptr (g_hooks greeted EVENT_SYSTEM_CHANGE) = []) by (by vm_compute).
      cbn [fst snd]. rewrite Eb. intros Es. injection Es as _ <-. by repeat split.
  - apply client_is_ok. repeat constructor; by vm_compute.
  - done.
  - by vm_compute.
  - apply (bool_decide_unpack _). by vm_compute.
  - apply (bool_decide_unpack _). by vm_compute.
  - exists c'. etransitivity; [exact E|]. by vm_compute.
Defined.

(** Output, cut in its end tag. *)
Definition cut_output : nge_connection := a_client
  [Poll_in [output_front (chars_of "web") (chars_of "daemon") (chars_of "ready") ++ take 4 (chars_of "</event>")];
   Poll_in [drop 4 (chars_of "</event>") ++ c_nl :: some_stream]].

Lemma wedge_witness :
  exists c', collect 20 5 cut_output =
    Done ([SERVICE_OUTPUT (Some (chars_of "web")) (Some (chars_of "daemon")) (Some (chars_of "ready"))], c').
Proof.
  apply (cut_end_tag_wedges_the_client 19 4 cut_output [] 4 (chars_of "web") (chars_of "daemon") (chars_of "ready") some_stream); try done.
  - apply client_is_ok. by repeat constructor.
  - split; [done|]. split; [apply (bool_decide_unpack _); by vm_compute|done].
  - lia.
Defined.

(** The listener of [greeted], when the file of the socket has gone. *)
Definition gone_file : SockSys := {|
  sys_socket _ := 5; sys_accept _ _ := 6; sys_send _ _ n := Z.of_nat n; sys_bind _ _ _ := true; sys_chmod _ := true;
  sys_listen _ _ := true; sys_fd_open _ _ := true; sys_sock_stat _ _ := None; INITNG_VERSION := "0.7.0"; CTLDIR := "/dev/initng"
|}.
Definition one_listener : s_global :=
  greeted <| g_statics := (g_statics greeted) <| nge := (nge (g_statics greeted)) <| acceptor_fds := 5 |> |> |>.
Definition hang_up : s_event := Event EVENT_SIGNAL (ED_signal 1) None WAITING.

Lemma silence_witness :
  exists g', @nge_check_socket gone_file hang_up one_listener = Done (hang_up, g') /\ head (slots g') = Some 6 /\ astatus_change_ptr ∉ map c_pointer (g_hooks g' EVENT_STATE_CHANGE).
Proof.
  destruct (@new_socket_silences_listeners gone_file 0 6 one_listener hang_up) as (g' & E & L & _ & H).
  - done.
  - split; try done; [apply (bool_decide_unpack _); by vm_compute|].
    assert (Hs : slots one_listener = 6 :: replicate 20 0) by (by vm_compute). rewrite Hs. intros [|j] Hj; [done|].
    apply lookup_replicate in Hj as [Hj _]. done.
  - done.
  - by vm_compute.
  - by vm_compute.
  - done.
  - split; try done. apply (bool_decide_unpack _). by vm_compute.
  - apply Forall_forall. apply (bool_decide_unpack _). by vm_compute.
  - exists g'. split; [exact E|]. split; [pose proof (li_fd _ _ _ L) as Hfd; by destruct (slots g'); [|injection Hfd as ->]|]. apply (H (EVENT_STATE_CHANGE, astatus_change_ptr)). by left.
Defined.
