(* ===== verification/NgcWitness.v ===== *)
(** * Instances of the theorems about control clients *)
From S2P Require Import Prelude Types Data CString Global ActiveDb Depend Io Poll Interrupt Launch Modules Typed ServiceMod.
From S2P Require Import DaemonMod Control HookMods LogMods NgeMod System Ngcs NgcWire Ngc4Mod NgcClient NgcText NgcProps Examples ModWitness.
From Stdlib Require Import String Ascii.
From stdpp Require Import prelude gmap strings.
Local Open Scope Z_scope.

(** A system with a web server and a database, the commands of stcmd and those
    of ngc4. *)
Definition two_services : list (addr * active_db_h) :=
  [(1%positive, a_service "web" (Some TYPE_SERVICE) SERVICE_DONE 50 []); (2%positive, a_service "db" (Some TYPE_DAEMON) DAEMON_RUNNING 40 [])].
Definition ngc_world : s_global :=
  (world two_services STATE_UP 100) <| g_command_db := stcmd_commands |> <| g_option_db := [NEED; USE; FORKS] |>
    <| g_statics := zero_statics <| ngc4 := Ngc4 5 (1, 2, 3) local_commands |> |>.

(** The kernel hands initng the request of a client in two pieces, and the client
    what initng sent. *)
Definition hands (c : Z) (l o : option string) : Ngc4Sys := {|
  sys_recv_bytes := fun t _ _ => if (t =? 0)%nat then Some (header_bytes (request_header c l o)) else bytes_of <$> o;
  sys_connect := fun _ _ _ => true; sys_write := fun _ _ n => Z.of_nat n; sys_accept_again := fun _ => true
|}.
Definition a_client (answer : nat -> option (list Z)) : NgcNet := {|
  ngc_socket := 3; ngc_connect := fun _ _ => true; ngc_send := fun _ n => Z.of_nat n; ngc_recv := fun n _ _ => answer n;
  VERSION := "0.7.0"; NGC_SOCKET := "/dev/initng/ngc4"; isatty := false; getuid := 0;
  localtime := fun s => (s / 3600, s / 60 mod 60, s mod 60); heap_behind := [7; 7; 7; 7]
|}.
Definition fresh_client : ngc_state := NgcState None "/dev/initng/ngc4" true false false 0 0 [] [].

(** The bytes of the sends to descriptor 6, when the server answers. *)
Definition server (S : Ngc4Sys) : outcome (unit * s_global) :=
  @handle_client full_callbacks the_commands no_replies open_sockets S 40 6 ngc_world.
Definition answers (S : Ngc4Sys) (n : nat) : option (list Z) :=
  match server S with
  | Done (_, g) => map byte_of_char ∘ snd <$> wire (g_statics g) !! n
  | _ => None
  end.

(** ngc --zap web *)
Definition zap_request : Ngc4Sys := hands 0 (Some "zap"%string) (Some "web"%string).
Definition zapped : s_global :=
  match @command_bytes full_callbacks the_commands no_replies 40 FREE_SERVICE (Some "web"%string) (received (Some "web"%string) ngc_world) with
  | Done (_, g) => g
  | _ => ngc_world
  end.
Definition zap_client : NgcNet := a_client (answers zap_request).

Lemma connects_client answer : @connects (a_client answer) "/dev/initng/ngc4".
Proof. split; [done|done|cbn; lia|done]. Qed.

Lemma comes_back_witness :
  exists c', @ngcclient_send_command zap_client "/dev/initng/ngc4" 0 (Some "zap"%string) (Some "web"%string) fresh_client =
    Done (Some (Reply (Result S_TRUE (chr "z") 3 "" 10 4) (Some [1; 0; 0; 0; 0; 7; 7; 7; 7])), c') /\
  map (fun x => a_name (snd x)) (active_services zapped) = ["db"]%string.
Proof.
  destruct (@request_comes_back full_callbacks the_commands no_replies open_sockets zap_request zap_client 40 6 (fun _ _ => eq_refl)
    "/dev/initng/ngc4" 0 (Some "zap"%string) (Some "web"%string) fresh_client ngc_world FREE_SERVICE [1; 0; 0; 0] zapped) as [E H].
  - apply connects_client.
  - split; try done; try (cbn; lia). intros s [= <-]. done.
  - done.
  - done.
  - by vm_compute.
  - done.
  - by vm_compute.
  - done.
  - by vm_compute.
  - done.
  - cbn. lia.
  - destruct H as (c' & E' & _); [by vm_compute|by vm_compute|]. exists c'. split; [exact E'|by vm_compute].
Defined.

(** ngc -s *)
Definition status_request : Ngc4Sys := hands (chr "s") None None.
Definition status_client : NgcNet := a_client (answers status_request).
Definition status_lines : list string :=
  [""; ""; " hh:mm:ss T service                             : status";
   " ----------------------------------------------------------------";
   " 00:00:50 S web                                 : SERVICE_DONE";
   " 00:00:40 D db                                  : DAEMON_RUNNING"; ""].

Lemma status_witness :
  exists c', @send_and_handle status_client (chr "s") None None fresh_client = Done (true, c') /\
    printed c' = concat (map (fun s => chars_of s ++ [c_nl]) status_lines).
Proof.
  destruct (@status_shows_the_services full_callbacks the_commands no_replies open_sockets status_request status_client 40 6 (fun _ _ => eq_refl)
    fresh_client ngc_world) as [E H].
  - apply connects_client.
  - split; try done; try (cbn; lia).
  - done.
  - by vm_compute.
  - repeat constructor; by vm_compute.
  - cbn. lia.
  - done.
  - done.
  - destruct H as (c' & E1 & E2); [by vm_compute|by vm_compute|]. exists c'. split; [exact E1|]. rewrite E2. by vm_compute.
Defined.

(** The listings of that system. *)
Lemma listings_witness :
  exists rows, cmd_help None ngc_world = Done (rows, ngc_world) /\ length rows = 11%nat /\
    cmd_options None ngc_world = Done (map (fun e => option_row_of e (or_empty (ent_name e))) [NEED; USE; FORKS], ngc_world).
Proof.
  destruct (listings_stay_in_their_arrays ngc_world eq_refl) as (E1 & _ & _ & _ & _ & E6).
  eexists. split; [exact E1|]. split; [by vm_compute|]. exact E6.
Defined.

(** ngc -O need *)
Lemma options_witness : server (hands (chr "O") None (Some "need"%string)) = Fault.
Proof.
  apply (@options_of_a_common_variable full_callbacks the_commands no_replies open_sockets (hands (chr "O") None (Some "need"%string))
    40 6 "need" NEED ngc_world).
  - split; try done; try (cbn; lia). intros s [= <-]. done.
  - done.
  - cbn. lia.
  - by vm_compute.
  - done.
Defined.

(** A header that claims an argument of 2^64 - 1 bytes. *)
Definition greedy : read_header := Header (chr "s") "" PROTOCOL_4_VERSION (2 ^ 64 - 1).
Definition greedy_client : Ngc4Sys := {|
  sys_recv_bytes := fun t _ _ => if (t =? 0)%nat then Some (header_bytes greedy) else Some [120; 120];
  sys_connect := fun _ _ _ => true; sys_write := fun _ _ n => Z.of_nat n; sys_accept_again := fun _ => true
|}.
Lemma greedy_witness : server greedy_client = Fault.
Proof.
  apply (@longest_argument_overflows full_callbacks the_commands no_replies open_sockets greedy_client 40 6 greedy 120 [120] ngc_world); try done.
Defined.
